(* ===== verification/_CoqProject ===== *)
-Q . S2P
Prelude.v
Memory.v
Alloc.v
KMemory.v
KString.v
ListDS.v
Bitmap.v
Pmm.v
PortIO.v
Pic.v
Pcb.v
Sched.v
SchedInv.v
SchedSpec.v
Io.v
Programs.v
VTerm.v
Screen.v
Isr.v
Panic.v
Keyboard.v
Tables.v
Paging.v
Mmu.v
Vmm.v
VmmSpec.v
AddrSpace.v
VmmState.v
MmuIdent.v
Process.v
ProcessSpec.v
Switch.v
Preempt.v
Stubs.v
Launch.v
Startup.v
Boot.v
Main.v
Exhaust.v
VmmExample.v
ProcessExample.v
SwitchExample.v
MainExample.v
PreemptExample.v
ExhaustExample.v
