(* ===== verification/Prelude.v ===== *)
(** * kdbOS: a verification development for the kernel's core

    kdbOS is a small 32-bit kernel. Its parts call each other from the bottom
    up: byte-level routines and the kernel heap (kernel/klibc), the data
    structures (kernel/ds: bit sets and intrusive lists), the physical frame
    allocator (kernel/memory/pmm.c), the page tables
    (kernel/arch/i386/memory/paging.c) and the manager of address spaces
    (kernel/memory/vmm.c), process creation (kernel/proc/proc.c and
    kernel/arch/i386/proc), the scheduler (kernel/proc/sched.c) and the
    switch between processes (ctxswitch.asm); beside them the drivers: ports,
    interrupt controllers, descriptor tables, interrupt stubs and dispatch,
    the text terminal, the keyboard and the panic screen; above all of them
    [kernel_main] (kernel/kernel.c). This library translates them function
    by function and proves what they do.

    ** The model

    A C function is a computation of the monad [M St A := St → res St A]: it
    returns ([Ok]) a value and the next state, or it stops ([Stop]) with a
    fault: an access to an unmapped page, an index outside a C array, a
    loop of the model that ran out of its bound, a halt. [St] is any type
    with a [Lens] for each piece of data the function uses (memory, the
    statics of a file, the processor, the ports), so that components compose;
    lenses to different pieces are [Apart]. Pointers and machine integers are
    [Z] with the wrap-around written ([⊞], [⊟], [⊠], [u8], [u16], [u32]).
    Structures in memory are bytes at the offsets of their fields
    ([OFF_...]), so that aliasing, headers next to their blocks and
    overlapping structures are what they are in the machine.

    Memory is accessed in two ways. Most of the kernel uses the window
    [0x1000, 0x800000), where addresses are physical addresses: [load32] and
    the like check that window. That is not an assumption of the code alone:
    [Paging.paging_init_identity] proves it of the tables that paging.c
    builds, and [MmuIdent.kmem_through_tables] that the flat accesses and
    those through the tables agree. The manager of address spaces, process
    creation and the assembly go through the processor ([vload32],
    [vstore32]): its cache of translations first, then the walk over the
    tables in memory, so that a stale translation or a missing [invlpg] shows.

    ** The files

    - Prelude: integers, outcomes, lenses, loops and their rules, tactics.
    - Memory: byte-addressed memory and the checked accesses of the window.
    - Alloc: the class [Allocator], what a heap promises its clients. KMemory
      gives the instance; ListDS is proved against the class.
    - KMemory (klibc/kmemory.c): [kmemset], [kmemcpy], [kmalloc_init],
      [kmalloc], [kfree]; the abstract first-fit heap, a list of blocks, and
      the simulation by the code.
    - KString (klibc/kstring.c): [kstrlen], [kstrncpy], [kstrncat].
    - ListDS (ds/list.c): circular lists through nodes embedded in their
      owners; refinement to sequences of nodes, creation and destruction.
    - Bitmap, Pmm (ds/bitmap.c, memory/pmm.c): sets of bits in memory, and
      the frame allocator on top of them.
    - PortIO, Pic (asm.h, arch/i386/interrupts/pic.c): the ports as a trace;
      remapping, masking and acknowledging interrupts.
    - Pcb, Sched, SchedInv, SchedSpec (proc/proc.h, proc/sched.c): the
      process control block in memory; the scheduler's code, the abstract
      multi-level feedback queue and the refinement (Sched), its invariant
      (SchedInv), and the theorems about the code (SchedSpec).
    - Io, VTerm, Screen (arch/i386/io.c, vterm/vterm.c): the text framebuffer
      and the terminal with its buffer of cells; clearing it.
    - Programs (kernel.c): the machine code of the first processes and what
      running it does.
    - Isr, Panic (arch/i386/interrupts/isr.c, panic.c): registration and
      dispatch; the report of an exception.
    - Keyboard (arch/i386/drivers/keyboard.c): the scan-code automaton.
    - Tables (arch/i386/tables): the segment and interrupt descriptors, and
      the processor's table and segment registers.
    - Paging, Mmu, MmuIdent (arch/i386/memory/paging.c): the bit fields of
      table entries and [paging_init]; the processor's accesses through
      cache and tables (Mmu), a program logic for code that makes them
      ([kw]), and their agreement with the flat ones (MmuIdent).
    - Vmm, VmmSpec, AddrSpace, VmmState (memory/vmm.c): the code and its
      lowest lemmas (Vmm); the kernel's address space as a map from directory
      entries to tables and each function's contract (VmmSpec); the spaces of
      processes (AddrSpace); the invariant over histories and the theorems
      (VmmState).
    - Process, ProcessSpec (proc/proc.c, arch/i386/proc/proc.c): creation of
      a process, its stack and its first context.
    - Switch (ctxswitch.asm): the registers and the two routines.
    - Preempt (sched.c over ctxswitch.asm): the timer interrupt with the
      switch itself; the registers of suspended processes as an invariant, and
      runs of the machine through many turns.
    - Launch: the first switch to a process that was just created, and that
      it is one of Preempt's suspended processes.
    - Stubs (arch/i386/interrupts/interrupts.asm): interrupt entry, the 256
      stubs, [iret].
    - Startup (proc/sched.c, kernel.c): [sched_init] and the creation of the
      first processes.
    - Boot, Main (kernel.c, boot/boot.asm): the memory's setup;
      [kernel_main] and the entry point.
    - Exhaust (memory/vmm.c, proc/proc.c): what creating a space or a
      process does when physical memory runs out on the way.
    - VmmExample, ProcessExample, SwitchExample, MainExample, PreemptExample,
      ExhaustExample: machines on which the theorems of the larger parts are
      applied.

    ** What is proved

    - Refinement: any history of correct calls runs without fault on memory
      and simulates an abstract machine: [KMemory.heap_calls_refine] (the
      heap), [ListDS.list_ops_refine] (a deque), [SchedSpec.sched_ops_refine]
      (the feedback queue with its invariant),
      [VmmState.vmm_create_maps_image] (an address space as a function from
      pages to bytes), [Preempt.preempt_switches] (a preemption moves the
      processor from one set of registers to the next and touches no other
      process), [Startup.start_processes_ready] (started in a well-formed
      address space, the kernel's processes end up queued in the abstract
      scheduler).
    - Invariants: [VmmState.vmm_reachable_sound], over every history of the
      manager's five calls as the kernel makes them ([VmmState.vmm_step]); [Boot.boot_establishes] and [Startup.sched_init_ready], that
      the initialisers establish what the rest starts from.
    - Isolation: [VmmState.vmm_create_isolated]; user mode of a new space
      reaches no frame that was mapped above 8 MB before.
    - Each operation on every branch: allocation, release and exhaustion of
      heap blocks, of frames and of pages; picking, ticking, blocking, waking
      and the timer interrupt of the scheduler; writing text; keys; dispatch.
    - The processor: a process that is switched out and in again
      ([Switch.switch_roundtrip]; through any run of other processes and
      ticks, [Preempt.preempted_process_resumes]) and interrupted code
      ([Stubs.interrupt_roundtrip]) go on with the registers they had; a
      process that was created starts at its program
      ([Launch.created_process_starts], [Launch.created_process_parked]).
    - The ends: every exception halts with its report on the screen
      ([Panic.exception_reported]), the kernel halts or goes on as the boot
      loader's word demands ([Main.boot_checks]).
    - Progress: [SchedSpec.sched_waiting_rises], a ready process climbs to
      the highest level within a bound of ticks; [KMemory.heap_loops_end],
      the heap's loops end.
    - Address translation: [Paging.paging_init_identity],
      [VmmState.vmm_page_roundtrip].
    - Bounds: a buffer that both string routines are told the size of is never
      overrun ([KString.kstr_append_bounded]).
    - Running out of frames, by the number that are left, when the next pages
      need no new table and the program is one page: a space without its
      program ([Exhaust.vmm_create_drops_program]), a page fault in
      [create_pcb] ([Exhaust.create_pcb_faults]), or NULL with all the frames
      lost ([Exhaust.create_pcb_gives_up]).
    - What the code does where it departs from its intent: the heap's first
      header lies in the kernel's page directory
      ([Boot.boot_heap_in_directory]), [vmm_free_page] keeps the frame, an
      idle kernel never wakes up again, a newline on the last row does not
      scroll, the interrupt lines index a 16-entry array with 32 to 47. Each
      is a theorem about the code as it is.

    The theorems on address spaces and processes start from a state
    ([vmm_ok], [kernel_ok]) that holds after [pmm_init] and [paging_init]
    when the frame bitmap ends on a page boundary, with a heap in memory that
    neither holds tables nor is handed out; the heap header [kernel_main] then writes breaks it for that boot, as
    [Boot.boot_heap_in_directory] shows. Every theorem with hypotheses is
    followed by a [_witness] that applies it to a concrete state.

    ** Bounds and fuel

    Loops are [mfor] (a counted loop), structural recursion, or [ploop] with
    a binary fuel. The fuels are never the reason of a result: the lemmas
    named [..._run] prove that the loop ends with a result before. [HEAP_FUEL]
    2^20: headers are 12 bytes apart in 8 MB. [STR_FUEL] 2^23: a string lies
    in 8 MB. [LIST_FUEL] 2^21: nodes are 8 bytes apart in 8 MB. [PMM_FUEL]
    2^32 + 1: the scan index is a 32-bit number; the loops that copy a
    program page by page use it too. [VMM_FUEL] 2048: a directory and a table
    have 1024 entries. Picking scans four queues.

    ** What is not modelled

    The linker script: its symbols are parameters. What an index outside a C
    array reads or overwrites: the model stops there. Of segmentation, what a
    selector in a segment register does to an access: the segments are flat,
    as [Tables.init_gdt_flat] shows. Instruction fetch: the assembly is a
    sequence of operations, a C function called from it an argument with what
    the calling convention lets it change; the three programs of kernel.c are
    run by their bytes, on flat memory. The use C functions make of the stack
    and of the registers: [Preempt] takes the registers at the call of
    [context_switch], with room below the stack pointer for its frame. The
    kernel's entry points run to completion: the gates of [Tables] clear the
    interrupt flag on entry and [sti] is the last thing [kernel_main] does
    before it waits, so that an interrupt in the middle of a C function is not
    a step of the model; nor is one between the [popf] that sets the flag for
    a new process and the [ret] that starts it. A process that runs is any
    change of its own memory and of the registers. *)

From Stdlib Require Export ZArith Lia.
From stdpp Require Export base gmap list list_numbers.
#[export] Set Default Goal Selector "!".
#[global] Open Scope Z_scope.

(** ** Machine integers

    The kernel is compiled with [-m32]: [uint8_t], [uint16_t] and
    [uint32_t]/[size_t]/pointers are integers modulo 2^8, 2^16 and 2^32. *)

Definition u8 (x : Z) : Z := x mod 256.
Definition u16 (x : Z) : Z := x mod 65536.
Definition u32 (x : Z) : Z := x mod 4294967296.

Declare Scope kdb_scope.
Delimit Scope kdb_scope with kdb.
#[global] Open Scope kdb_scope.
Notation "a ⊞ b" := (u32 (a + b)) (at level 50, left associativity) : kdb_scope.
Notation "a ⊟ b" := (u32 (a - b)) (at level 50, left associativity) : kdb_scope.
Notation "a ⊠ b" := (u32 (a * b)) (at level 40, left associativity) : kdb_scope.

(** [NULL] of types.h. *)
Definition NULL : Z := 0.

(** ** Outcomes and the kernel monad

    A C function is a computation over a state [St]: it returns a value and
    a new state, or it stops. [PageFault a]: the access at address [a] is not
    mapped (page 0, which [paging_init] leaves not present, or above the
    identity-mapped 8 MB). [OutOfBounds i]: index [i] outside a C array.
    [OutOfFuel]: the loop bound of the model was reached. [Halted]: the
    [cli; hlt] loop. The state at the stop is kept. *)

Inductive fault : Type :=
  | PageFault (va : Z)
  | OutOfBounds (idx : Z)
  | OutOfFuel
  | Halted.

#[export] Instance fault_eq_dec : EqDecision fault.
Proof. solve_decision. Defined.

Inductive res (St A : Type) : Type :=
  | Ok (a : A) (s : St)
  | Stop (f : fault) (s : St).
Arguments Ok {St A} _ _.
Arguments Stop {St A} _ _.

Definition M (St A : Type) : Type := St → res St A.

#[export] Instance M_ret {St} : MRet (M St) := λ A a s, Ok a s.
#[export] Instance M_bind {St} : MBind (M St) := λ A B f m s,
  match m s with
  | Ok a s' => f a s'
  | Stop e s' => Stop e s'
  end.

Definition stop {St A} (e : fault) : M St A := λ s, Stop e s.

(** The value and the state of an outcome that returned. *)
Definition value_of {St A} (d : A) (r : res St A) : A :=
  match r with Ok a _ => a | Stop _ _ => d end.
Definition state_of {St A} (r : res St A) : St :=
  match r with Ok _ s => s | Stop _ s => s end.

(** A run on a concrete state is checked by its value alone. *)
Definition returned {St A} (r : res St A) : option A :=
  match r with Ok a _ => Some a | Stop _ _ => None end.
Lemma returned_ok {St A} (r : res St A) a : returned r = Some a → r = Ok a (state_of r).
Proof. destruct r; [|done]. cbn. by intros [= ->]. Qed.

Lemma bind_ok {St A B} (m : M St A) (f : A → M St B) s a s' :
  m s = Ok a s' → (m ≫= f) s = f a s'.
Proof. intros H. unfold mbind, M_bind. by rewrite H. Qed.

Lemma bind_stop {St A B} (m : M St A) (f : A → M St B) s e s' :
  m s = Stop e s' → (m ≫= f) s = Stop e s'.
Proof. intros H. unfold mbind, M_bind. by rewrite H. Qed.

Lemma ret_run {St A} (a : A) (s : St) : (mret a : M St A) s = Ok a s.
Proof. done. Qed.

Lemma bind_ret {St A B} (a : A) (f : A → M St B) (s : St) :
  ((mret a : M St A) ≫= f) s = f a s.
Proof. done. Qed.

Lemma bind_assoc {St A B C} (m : M St A) (f : A → M St B) (g : B → M St C) s :
  ((m ≫= f) ≫= g) s = (m ≫= (λ a, f a ≫= g)) s.
Proof. unfold mbind, M_bind. by destruct (m s). Qed.

(** Two computations that agree on the state are interchangeable as the first
    part of a sequence. *)
Lemma bind_ext {St A B} (m m' : M St A) (f : A → M St B) s :
  m s = m' s → (m ≫= f) s = (m' ≫= f) s.
Proof. intros H. unfold mbind, M_bind. by rewrite H. Qed.

(** ** Lenses: where a component keeps its part of the state

    A component's operations are written over any state type that contains
    the component's own data. *)

Class Lens (St T : Type) : Type := {
  lget : St → T;
  lput : T → St → St;
  lget_lput : ∀ t s, lget (lput t s) = t;
  lput_lget : ∀ s, lput (lget s) s = s;
  lput_lput : ∀ t t' s, lput t (lput t' s) = lput t s
}.

(** Two parts of the state that do not overlap. *)
Class Apart {St T U : Type} (L : Lens St T) (K : Lens St U) : Prop := {
  lget_other : ∀ (u : U) (s : St), lget (lput u s) = lget (T:=T) s;
  lget_other' : ∀ (t : T) (s : St), lget (lput t s) = lget (T:=U) s;
  lput_comm : ∀ (t : T) (u : U) (s : St), lput t (lput u s) = lput u (lput t s)
}.

Definition lens_id {St} : Lens St St.
Proof. refine {| lget s := s; lput t _ := t |}; done. Defined.

(** Products of components, for small machines. *)
Definition lens_fst {A B} : Lens (A * B) A.
Proof. refine {| lget s := s.1; lput a s := (a, s.2) |}; by intros; destruct s. Defined.
Definition lens_snd {A B} : Lens (A * B) B.
Proof. refine {| lget s := s.2; lput b s := (s.1, b) |}; by intros; destruct s. Defined.
Lemma apart_fst_snd {A B} : Apart (St:=A * B) lens_fst lens_snd.
Proof. by constructor. Qed.

(** A part of a part. *)
Definition lens_comp {A B C} (L : Lens A B) (K : Lens B C) : Lens A C.
Proof.
  refine {| lget s := lget (lget (T:=B) s); lput c s := lput (lput c (lget (T:=B) s)) s |}; intros.
  - by rewrite !lget_lput.
  - by rewrite !lput_lget.
  - by rewrite lget_lput, !lput_lput.
Defined.
Lemma apart_comp {A B C D} (L : Lens A B) (K : Lens B C) (J : Lens B D) : Apart K J → Apart (lens_comp L K) (lens_comp L J).
Proof.
  intros H. constructor; intros; cbn; rewrite ?lget_lput, ?lput_lput.
  - by rewrite (lget_other (L:=K) (K:=J)).
  - by rewrite (lget_other' (L:=K) (K:=J)).
  - by rewrite (lput_comm (L:=K) (K:=J)).
Qed.
Lemma apart_comp_l {A B C D} (L : Lens A B) (K : Lens B C) (J : Lens A D) : Apart L J → Apart (lens_comp L K) J.
Proof.
  intros H. constructor; intros; cbn; rewrite ?lget_lput, ?lput_lput.
  - by rewrite (lget_other (L:=L) (K:=J)).
  - by rewrite (lget_other' (L:=L) (K:=J)).
  - by rewrite (lget_other (L:=L) (K:=J)), (lput_comm (L:=L) (K:=J)).
Qed.

Definition gets {St T} `{Lens St T} : M St T := λ s, Ok (lget s) s.
Definition puts {St T} `{Lens St T} (t : T) : M St unit := λ s, Ok tt (lput t s).

Lemma bind_gets {St T B} `{Lens St T} (f : T → M St B) s : (gets ≫= f) s = f (lget s) s.
Proof. done. Qed.
Lemma bind_puts {St T B} `{Lens St T} (t : T) (f : unit → M St B) s :
  (puts t ≫= f) s = f tt (lput t s).
Proof. done. Qed.

(** ** Loops *)

Section loops.
Context {St A B : Type} (body : A → M St (A + B)).

(** [nloop n a]: run [body] from [a] until it returns [inr], at most [n]
    times. *)
Fixpoint nloop (n : nat) (a : A) : M St B :=
  match n with
  | O => stop OutOfFuel
  | S n' => r ← body a; match r with inl a' => nloop n' a' | inr b => mret b end
  end.

(** The same loop with a binary fuel, so that a large bound costs nothing
    to evaluate. *)
Fixpoint piter (p : positive) (a : A) : M St (A + B) :=
  match p with
  | xH => body a
  | xO p' => r ← piter p' a;
             match r with inl a' => piter p' a' | inr b => mret (inr b) end
  | xI p' => r ← body a;
             match r with
             | inl a' => r' ← piter p' a';
                         match r' with inl a'' => piter p' a'' | inr b => mret (inr b) end
             | inr b => mret (inr b)
             end
  end.

Definition ploop (p : positive) (a : A) : M St B :=
  r ← piter p a; match r with inl _ => stop OutOfFuel | inr b => mret b end.

Lemma nloop_S n a s :
  nloop (S n) a s =
  match body a s with
  | Ok (inl a') s' => nloop n a' s'
  | Ok (inr b) s' => Ok b s'
  | Stop e s' => Stop e s'
  end.
Proof. cbn. unfold mbind, M_bind. by destruct (body a s) as [[|]|]. Qed.

Lemma piter_nloop p : ∀ k a s,
  nloop (Pos.to_nat p + k) a s =
  match piter p a s with
  | Ok (inl a') s' => nloop k a' s'
  | Ok (inr b) s' => Ok b s'
  | Stop e s' => Stop e s'
  end.
Proof.
  induction p as [p IH|p IH|]; intros k a s.
  - replace (Pos.to_nat p~1 + k)%nat with (S (Pos.to_nat p + (Pos.to_nat p + k)))%nat by lia.
    rewrite nloop_S. cbn [piter]. unfold mbind, M_bind.
    destruct (body a s) as [[a'|b] s'|e s']; [|done|done].
    rewrite IH. destruct (piter p a' s') as [[a''|b] s''|e s'']; [|done|done].
    by rewrite IH.
  - replace (Pos.to_nat p~0 + k)%nat with (Pos.to_nat p + (Pos.to_nat p + k))%nat by lia.
    rewrite IH. cbn [piter]. unfold mbind, M_bind.
    destruct (piter p a s) as [[a''|b] s''|e s'']; [|done|done].
    by rewrite IH.
  - change (Pos.to_nat 1 + k)%nat with (S k). rewrite nloop_S. done.
Qed.

Lemma ploop_nloop p a s : ploop p a s = nloop (Pos.to_nat p) a s.
Proof.
  rewrite <- (Nat.add_0_r (Pos.to_nat p)), piter_nloop.
  unfold ploop, mbind, M_bind. by destruct (piter p a s) as [[|]|].
Qed.

Lemma nloop_mono n k a s b s' :
  nloop n a s = Ok b s' → (n ≤ k)%nat → nloop k a s = Ok b s'.
Proof.
  revert k a s. induction n as [|n IH]; intros k a s H Hle; [done|].
  destruct k as [|k]; [lia|]. rewrite nloop_S in *.
  destruct (body a s) as [[a'|b'] s''|e s'']; [|done|done].
  apply IH; [done|lia].
Qed.

Lemma ploop_ok n p a s b s' :
  nloop n a s = Ok b s' → (n ≤ Pos.to_nat p)%nat → ploop p a s = Ok b s'.
Proof. intros H Hle. rewrite ploop_nloop. by eapply nloop_mono. Qed.

(** Total correctness of a loop: an invariant and a measure that decreases
    at each turn and is below the fuel. *)
Lemma nloop_rule (I : A → St → Prop) (Q : B → St → Prop) (μ : A → nat) n a s :
  (∀ a s, I a s →
     (∃ a' s', body a s = Ok (inl a') s' ∧ I a' s' ∧ (μ a' < μ a)%nat) ∨
     (∃ b s', body a s = Ok (inr b) s' ∧ Q b s')) →
  I a s → (μ a < n)%nat → ∃ b s', nloop n a s = Ok b s' ∧ Q b s'.
Proof.
  intros Hstep. revert a s. induction n as [|n IH]; intros a s HI Hμ; [lia|].
  rewrite nloop_S. destruct (Hstep a s HI) as [(a' & s' & -> & HI' & Hlt)|(b & s' & -> & HQ)].
  - apply IH; [done|lia].
  - eauto.
Qed.

Lemma ploop_rule (I : A → St → Prop) (Q : B → St → Prop) (μ : A → nat) p a s :
  (∀ a s, I a s →
     (∃ a' s', body a s = Ok (inl a') s' ∧ I a' s' ∧ (μ a' < μ a)%nat) ∨
     (∃ b s', body a s = Ok (inr b) s' ∧ Q b s')) →
  I a s → (μ a < Pos.to_nat p)%nat → ∃ b s', ploop p a s = Ok b s' ∧ Q b s'.
Proof. intros. rewrite ploop_nloop. by eapply nloop_rule. Qed.
End loops.

(** [for (i = lo; i < hi; i++) f i]. *)
Fixpoint mforeach {St A} (l : list A) (f : A → M St unit) : M St unit :=
  match l with
  | [] => mret tt
  | x :: l' => f x ;; mforeach l' f
  end.
Definition mfor {St} (lo hi : Z) (f : Z → M St unit) : M St unit :=
  mforeach (seqZ lo (hi - lo)) f.

Lemma mfor_rule {St} (I : Z → St → Prop) lo hi (f : Z → M St unit) s :
  lo ≤ hi →
  (∀ i s, lo ≤ i < hi → I i s → ∃ s', f i s = Ok tt s' ∧ I (i + 1) s') →
  I lo s → ∃ s', mfor lo hi f s = Ok tt s' ∧ I hi s'.
Proof.
  intros Hle Hstep HI. unfold mfor.
  remember (Z.to_nat (hi - lo)) as n eqn:Hn.
  assert (hi - lo = Z.of_nat n) as Hd by lia. rewrite Hd.
  clear Hn Hle. revert lo s Hstep HI Hd. induction n as [|n IH]; intros lo s Hstep HI Hd.
  - exists s. split; [done|]. by replace hi with lo by lia.
  - rewrite seqZ_cons by lia. cbn [mforeach].
    destruct (Hstep lo s) as (s' & Hf & HI'); [lia|done|].
    replace (Z.pred (Z.of_nat (S n))) with (Z.of_nat n) by lia.
    replace (Z.succ lo) with (lo + 1) by lia.
    destruct (IH (lo + 1) s') as (s'' & Hr & HI''); [|done|lia|].
    { intros. apply Hstep; [lia|done]. }
    exists s''. split; [|done]. by rewrite (bind_ok _ _ _ _ _ Hf).
Qed.

(** ** Integer and list lemmas shared by the components *)

Lemma u8_range x : 0 ≤ u8 x < 256.
Proof. unfold u8. by apply Z.mod_pos_bound. Qed.
Lemma u16_range x : 0 ≤ u16 x < 65536.
Proof. unfold u16. by apply Z.mod_pos_bound. Qed.
Lemma u32_range x : 0 ≤ u32 x < 4294967296.
Proof. unfold u32. by apply Z.mod_pos_bound. Qed.
Lemma u8_small x : 0 ≤ x < 256 → u8 x = x.
Proof. apply Z.mod_small. Qed.
Lemma u16_small x : 0 ≤ x < 65536 → u16 x = x.
Proof. apply Z.mod_small. Qed.
Lemma u32_small x : 0 ≤ x < 4294967296 → u32 x = x.
Proof. apply Z.mod_small. Qed.

Lemma length_NoDup_range (l : list Z) lo hi :
  NoDup l → (∀ x, x ∈ l → lo ≤ x < hi) → (length l ≤ Z.to_nat (hi - lo))%nat.
Proof.
  intros Hnd Hr. rewrite <- (length_seqZ lo (hi - lo)).
  apply submseteq_length, NoDup_submseteq; [done|].
  intros x Hx. apply elem_of_seqZ. specialize (Hr x Hx). lia.
Qed.

(** Bits of wrapped values and of single-bit masks. *)
Lemma u32_testbit x j : 0 ≤ j < 32 → Z.testbit (u32 x) j = Z.testbit x j.
Proof. intros. unfold u32. change 4294967296 with (2 ^ 32). apply Z.mod_pow2_bits_low; lia. Qed.
Lemma u16_testbit x j : 0 ≤ j < 16 → Z.testbit (u16 x) j = Z.testbit x j.
Proof. intros. unfold u16. change 65536 with (2 ^ 16). apply Z.mod_pow2_bits_low; lia. Qed.
Lemma u8_testbit x j : 0 ≤ j < 8 → Z.testbit (u8 x) j = Z.testbit x j.
Proof. intros. unfold u8. change 256 with (2 ^ 8). apply Z.mod_pow2_bits_low; lia. Qed.
Lemma shiftl1_testbit k j : 0 ≤ k → Z.testbit (Z.shiftl 1 k) j = (k =? j).
Proof. intros. rewrite Z.shiftl_1_l. by apply Z.pow2_bits_eqb. Qed.

(** [x & (1 << k)] is non-zero exactly when bit [k] of [x] is set. *)
Lemma land_shiftl1 x k : 0 ≤ k → negb (Z.land x (Z.shiftl 1 k) =? 0) = Z.testbit x k.
Proof.
  intros Hk. destruct (Z.testbit x k) eqn:E.
  - apply negb_true_iff, Z.eqb_neq. intros H0.
    assert (Z.testbit (Z.land x (Z.shiftl 1 k)) k = false) as Hf by (by rewrite H0, Z.bits_0).
    rewrite Z.land_spec, E, shiftl1_testbit, Z.eqb_refl in Hf by done. done.
  - apply negb_false_iff, Z.eqb_eq, Z.bits_inj'. intros j Hj.
    rewrite Z.bits_0, Z.land_spec, shiftl1_testbit by done.
    destruct (Z.eqb_spec k j) as [<-|]; [by rewrite E|apply andb_false_r].
Qed.

(** [Z.lor] of a low part and a multiple of a power of two. *)
Lemma lor_add a b n : 0 ≤ n → 0 ≤ a < 2 ^ n → Z.lor a (b * 2 ^ n) = a + b * 2 ^ n.
Proof.
  intros Hn Ha. rewrite <- Z.lxor_lor; [rewrite <- Z.add_nocarry_lxor; [done|]|];
    (apply Z.bits_inj'; intros j Hj; rewrite Z.land_spec, Z.bits_0;
     destruct (Z.lt_ge_cases j n); [rewrite Z.mul_pow2_bits_low by done; apply andb_false_r|]);
    (destruct (decide (a = 0)) as [->|]; [by rewrite Z.bits_0|]);
    rewrite (Z.bits_above_log2 a); [done|lia| |done|lia|];
    apply Z.log2_lt_pow2; try lia; (apply Z.lt_le_trans with (2 ^ n); [lia|]); by apply Z.pow_le_mono_r.
Qed.

Create HintDb kdb discriminated.
#[export] Hint Resolve u8_range u16_range u32_range : kdb.

(** [wraps]: remove the wrap-around where it does nothing, innermost first. *)
Ltac wraps :=
  repeat match goal with
  | |- context [u32 ?x] =>
      lazymatch x with context [u32 _] => fail | _ => rewrite (u32_small x) by lia end
  | |- context [u16 ?x] =>
      lazymatch x with context [u16 _] => fail | _ => rewrite (u16_small x) by lia end
  | |- context [u8 ?x] =>
      lazymatch x with context [u8 _] => fail | _ => rewrite (u8_small x) by lia end
  end.

(** [zbool]: case analysis on the integer comparisons of the goal. *)
Ltac zbool :=
  repeat match goal with
  | |- context [?a <? ?b] => destruct (Z.ltb_spec a b)
  | |- context [?a <=? ?b] => destruct (Z.leb_spec a b)
  | |- context [?a =? ?b] => destruct (Z.eqb_spec a b)
  end.
