(* ===== verification/Memory.v ===== *)
(** * Memory: the bytes the kernel addresses

    A byte-addressed memory, little-endian 32-bit words, and the checked
    accesses of the kernel's identity-mapped window. After [paging_init]
    (src/kernel/arch/i386/memory/paging.c) the kernel's own data is reached
    through page tables 0 and 1, which map 0x00000000..0x007FFFFF to
    themselves, page 0 excepted: an access outside [0x1000, 0x800000) is a
    page fault. *)

From S2P Require Import Prelude.

(** A byte that was never written reads as 0 (the map is total). *)
Abbreviation mem := (gmap Z Z).

Definition get8 (m : mem) (a : Z) : Z := u8 (default 0 (m !! a)).
Definition set8 (m : mem) (a v : Z) : mem := <[a := u8 v]> m.

(** 32-bit little-endian words. *)
Definition ld32 (m : mem) (a : Z) : Z :=
  get8 m a + 256 * get8 m (a + 1) + 65536 * get8 m (a + 2) + 16777216 * get8 m (a + 3).
Definition st32 (m : mem) (a v : Z) : mem :=
  set8 (set8 (set8 (set8 m a v) (a + 1) (v / 256)) (a + 2) (v / 65536)) (a + 3) (v / 16777216).

Definition IDENT_LO : Z := 0x1000.
Definition IDENT_HI : Z := 0x800000.

(** [n] bytes from [a] on are identity mapped. *)
Definition mappedb (a n : Z) : bool := (IDENT_LO <=? a) && (a + n <=? IDENT_HI).
Definition mapped (a n : Z) : Prop := IDENT_LO ≤ a ∧ a + n ≤ IDENT_HI.

Section access.
Context {St : Type} `{LM : Lens St mem}.

Definition load8 (a : Z) : M St Z := λ s,
  if mappedb a 1 then Ok (get8 (lget s) a) s else Stop (PageFault a) s.
Definition store8 (a v : Z) : M St unit := λ s,
  if mappedb a 1 then Ok tt (lput (set8 (lget s) a v) s) else Stop (PageFault a) s.
Definition load32 (a : Z) : M St Z := λ s,
  if mappedb a 4 then Ok (ld32 (lget s) a) s else Stop (PageFault a) s.
Definition store32 (a v : Z) : M St unit := λ s,
  if mappedb a 4 then Ok tt (lput (st32 (lget s) a v) s) else Stop (PageFault a) s.
End access.

(** ** Reading after writing *)

Lemma mappedb_spec a n : mappedb a n = true ↔ mapped a n.
Proof. unfold mappedb, mapped. rewrite andb_true_iff, !Z.leb_le. done. Qed.

Lemma get8_range m a : 0 ≤ get8 m a < 256.
Proof. apply u8_range. Qed.

Lemma ld32_range m a : 0 ≤ ld32 m a < 4294967296.
Proof.
  unfold ld32. pose proof (get8_range m a). pose proof (get8_range m (a + 1)).
  pose proof (get8_range m (a + 2)). pose proof (get8_range m (a + 3)). lia.
Qed.
#[export] Hint Resolve get8_range ld32_range : kdb.

Lemma u32_ld32 m a : u32 (ld32 m a) = ld32 m a.
Proof. apply u32_small, ld32_range. Qed.
Lemma u8_get8 m a : u8 (get8 m a) = get8 m a.
Proof. apply u8_small, get8_range. Qed.

Lemma get8_set8 m a v : get8 (set8 m a v) a = u8 v.
Proof. unfold get8, set8. rewrite lookup_insert_eq. cbn. unfold u8. by rewrite Z.mod_mod. Qed.

Lemma get8_set8_ne m a b v : a ≠ b → get8 (set8 m a v) b = get8 m b.
Proof. intros. unfold get8, set8. by rewrite lookup_insert_ne. Qed.

Lemma get8_st32_ne m a b v : b < a ∨ a + 4 ≤ b → get8 (st32 m a v) b = get8 m b.
Proof. intros. unfold st32. by rewrite !get8_set8_ne by lia. Qed.

Lemma ld32_st32 m a v : ld32 (st32 m a v) a = u32 v.
Proof.
  unfold ld32, st32.
  rewrite (get8_set8_ne _ (a + 3) a), (get8_set8_ne _ (a + 2) a), (get8_set8_ne _ (a + 1) a) by lia.
  rewrite (get8_set8_ne _ (a + 3) (a + 1)), (get8_set8_ne _ (a + 2) (a + 1)) by lia.
  rewrite (get8_set8_ne _ (a + 3) (a + 2)) by lia. rewrite !get8_set8.
  unfold u8, u32. Z.div_mod_to_equations. lia.
Qed.

Lemma ld32_st32_ne m a b v : b + 4 ≤ a ∨ a + 4 ≤ b → ld32 (st32 m a v) b = ld32 m b.
Proof. intros. unfold ld32. by rewrite !get8_st32_ne by lia. Qed.

Lemma ld32_set8_ne m a b v : b + 4 ≤ a ∨ a < b → ld32 (set8 m a v) b = ld32 m b.
Proof. intros. unfold ld32. by rewrite !get8_set8_ne by lia. Qed.

Lemma get8_ext_ld32 m m' a :
  (∀ x, a ≤ x < a + 4 → get8 m' x = get8 m x) → ld32 m' a = ld32 m a.
Proof. intros H. unfold ld32. rewrite !H by lia. done. Qed.

(** ** Running the checked accesses *)

Section access_run.
Context {St : Type} `{LM : Lens St mem}.

Lemma load8_run a s : mapped a 1 → load8 a s = Ok (get8 (lget s) a) s.
Proof. intros H%mappedb_spec. unfold load8. by rewrite H. Qed.
Lemma store8_run a v s : mapped a 1 → store8 a v s = Ok tt (lput (set8 (lget s) a v) s).
Proof. intros H%mappedb_spec. unfold store8. by rewrite H. Qed.
Lemma load32_run a s : mapped a 4 → load32 a s = Ok (ld32 (lget s) a) s.
Proof. intros H%mappedb_spec. unfold load32. by rewrite H. Qed.
Lemma store32_run a v s : mapped a 4 → store32 a v s = Ok tt (lput (st32 (lget s) a v) s).
Proof. intros H%mappedb_spec. unfold store32. by rewrite H. Qed.

Lemma load32_fault a s : ¬ mapped a 4 → load32 a s = Stop (PageFault a) s.
Proof.
  intros H. unfold load32. destruct (mappedb a 4) eqn:E; [|done].
  by apply mappedb_spec in E.
Qed.
Lemma store32_fault a v s : ¬ mapped a 4 → store32 a v s = Stop (PageFault a) s.
Proof.
  intros H. unfold store32. destruct (mappedb a 4) eqn:E; [|done].
  by apply mappedb_spec in E.
Qed.
End access_run.

(** [mapped_tac]: the address is in the window, by arithmetic. *)
Ltac mapped_tac := unfold mapped, IDENT_LO, IDENT_HI in *; lia.

(** [mstep]: run the next access or return of the sequence in the goal;
    [mrun] repeats it and normalises the lenses. *)
Ltac lens := repeat first
  [ rewrite lget_lput | rewrite lput_lput | rewrite lget_other | rewrite lget_other' ].
Ltac mstep :=
  match goal with
  | |- context [(load8 ?a ≫= _) ?s] => rewrite (bind_ok _ _ _ _ _ (load8_run a s ltac:(mapped_tac)))
  | |- context [(store8 ?a ?v ≫= _) ?s] => rewrite (bind_ok _ _ _ _ _ (store8_run a v s ltac:(mapped_tac)))
  | |- context [(load32 ?a ≫= _) ?s] => rewrite (bind_ok _ _ _ _ _ (load32_run a s ltac:(mapped_tac)))
  | |- context [(store32 ?a ?v ≫= _) ?s] => rewrite (bind_ok _ _ _ _ _ (store32_run a v s ltac:(mapped_tac)))
  | |- context [(mret ?a ≫= _) ?s] => rewrite (bind_ret a _ s)
  | |- context [(gets ≫= ?f) ?s] => rewrite (bind_gets f s)
  | |- context [(puts ?t ≫= ?f) ?s] => rewrite (bind_puts t f s)
  | |- context [((_ ≫= _) ≫= _) ?s] => rewrite bind_assoc
  | |- context [store32 ?a ?v ?s] => rewrite (store32_run a v s ltac:(mapped_tac))
  | |- context [store8 ?a ?v ?s] => rewrite (store8_run a v s ltac:(mapped_tac))
  end; cbn beta.
Ltac mrun := repeat (mstep; lens).

(** [ldst]: simplify loads of stores, the disjointness by arithmetic. *)
Ltac ldst :=
  repeat (first
    [ rewrite u32_ld32
    | rewrite u8_get8
    | rewrite ld32_st32
    | rewrite ld32_st32_ne by lia
    | rewrite ld32_set8_ne by lia
    | rewrite get8_set8
    | rewrite get8_set8_ne by lia
    | rewrite get8_st32_ne by lia ]).
