(* ===== verification/Alloc.v ===== *)
(** * Alloc: what the heap promises to its clients

    The interface between the kernel heap (KMemory) and the code that calls
    [kmalloc]/[kfree] (the intrusive lists of ListDS, the process control
    blocks). Clients are proved against the class; KMemory gives the
    instance. *)

From S2P Require Import Prelude Memory.

Definition in_region (r : Z * Z) (x : Z) : Prop := r.1 ≤ x < r.1 + r.2.
Definition in_regions (rs : list (Z * Z)) (x : Z) : Prop := ∃ r, r ∈ rs ∧ in_region r x.

(** Two regions share no byte. *)
Definition apart (r r' : Z * Z) : Prop := r.1 + r.2 ≤ r'.1 ∨ r'.1 + r'.2 ≤ r.1.

Class Allocator (St : Type) `{LM : Lens St mem} : Type := {
  alloc : Z → M St Z;
  release : Z → M St unit;

  (** [alloc_inv s rs]: the heap is well formed in [s] and exactly the
      regions [rs] are handed out. *)
  alloc_inv : St → list (Z * Z) → Prop;
  alloc_inv_perm : ∀ s rs rs', rs ≡ₚ rs' → alloc_inv s rs → alloc_inv s rs';

  (** Regions handed out are mapped and pairwise apart. *)
  alloc_inv_mapped : ∀ s rs r, alloc_inv s rs → r ∈ rs → mapped r.1 r.2 ∧ 0 ≤ r.2;
  alloc_inv_apart : ∀ s r rs r', alloc_inv s (r :: rs) → r' ∈ rs → apart r r';

  (** A client that writes only inside its regions does not disturb the heap. *)
  alloc_inv_write : ∀ s rs m', alloc_inv s rs →
    (∀ x, ¬ in_regions rs x → get8 m' x = get8 (lget s) x) → alloc_inv (lput m' s) rs;

  (** Allocation returns, and gives NULL with nothing changed or a fresh
      region of at least the size asked for; the regions handed out keep
      their content. *)
  alloc_run : ∀ s rs size, alloc_inv s rs → 0 < size < 4294967296 →
    alloc size s = Ok NULL s ∨
    ∃ p n m', alloc size s = Ok p (lput m' s) ∧ size ≤ n ∧
      alloc_inv (lput m' s) ((p, n) :: rs) ∧
      (∀ x, in_regions rs x → get8 m' x = get8 (lget s) x);

  (** Releasing a region returns it and keeps the content of the others. *)
  release_run : ∀ s p n rs, alloc_inv s ((p, n) :: rs) →
    ∃ m', release p s = Ok tt (lput m' s) ∧ alloc_inv (lput m' s) rs ∧
      (∀ x, in_regions ((p, n) :: rs) x → get8 m' x = get8 (lget s) x)
}.

Section client_lemmas.
Context {St : Type} `{LM : Lens St mem} {AL : Allocator St}.

#[export] Instance alloc_inv_proper s : Proper ((≡ₚ) ==> iff) (alloc_inv s).
Proof. intros rs rs' Hp. split; apply alloc_inv_perm; [done|by symmetry]. Qed.

Lemma in_regions_cons r rs x : in_regions (r :: rs) x ↔ in_region r x ∨ in_regions rs x.
Proof.
  unfold in_regions. split.
  - intros (r' & [->|H]%elem_of_cons & H'); eauto.
  - intros [H|(r' & H & H')]; [exists r|exists r']; split; try done; set_solver.
Qed.

Lemma apart_not_in r r' x : apart r r' → in_region r x → ¬ in_region r' x.
Proof. unfold apart, in_region. lia. Qed.

Lemma alloc_inv_not_null s p n rs : alloc_inv s ((p, n) :: rs) → p ≠ NULL.
Proof.
  intros Hi. destruct (alloc_inv_mapped _ _ (p, n) Hi) as [Hm _]; [set_solver|].
  unfold NULL. cbn in Hm. mapped_tac.
Qed.
End client_lemmas.
