(* ===== verification/KMemory.v ===== *)
(** * KMemory: the kernel heap (src/kernel/klibc/kmemory.c)

    [kmemset], [kmemcpy], and the first-fit allocator [kmalloc_init],
    [kmalloc], [kfree] over the linked [MemoryBlockHeader]s in memory; the
    abstract heap (a list of blocks) and the refinement of the code to it. *)

From S2P Require Import Prelude Memory Alloc.

(** ** The code *)

(** [struct memory_block_header]: [size] at 0, [is_free] at 4, [next] at 8. *)
Definition HDR : Z := 12.
Definition OFF_IS_FREE : Z := 4.
Definition OFF_HDR_NEXT : Z := 8.

(** The file's static data. *)
Record HeapStatics : Type := mkHeap { heap_start : Z }.

(** The walk visits headers at least 12 bytes apart below 8 MB: 2^20 turns
    are more than the heap has blocks ([chain_length]). *)
Definition HEAP_FUEL : positive := 1048576.

Section kmemory.
Context {St : Type} `{LM : Lens St mem} `{LH : Lens St HeapStatics}.

Definition kmemset (dest val count : Z) : M St Z :=
  mfor 0 count (λ i, store8 (dest + i) val) ;; mret dest.

Definition kmemcpy (src dest count : Z) : M St Z :=
  mfor 0 count (λ i, v ← load8 (src + i); store8 (dest + i) v) ;; mret dest.

Definition kmalloc_init (dynamic_heap_start : Z) : M St unit :=
  puts (mkHeap dynamic_heap_start) ;;
  let identity_mapped_cieling := 0x007FFFFF in
  let kernel_heap_size := identity_mapped_cieling ⊟ dynamic_heap_start in
  store32 dynamic_heap_start (kernel_heap_size ⊟ HDR) ;;
  store8 (dynamic_heap_start + OFF_IS_FREE) 1 ;;
  store32 (dynamic_heap_start + OFF_HDR_NEXT) NULL.

(** One turn of the [while] of [kmalloc]. *)
Definition kmalloc_body (size current : Z) : M St (Z + Z) :=
  if current =? NULL then mret (inr NULL) else
  free ← load8 (current + OFF_IS_FREE);
  csize ← (if free =? 0 then mret 0 else load32 current);
  if negb (free =? 0) && (size <=? csize) then
    (if (size ⊞ HDR) ⊞ 4 <=? csize then
       let new_header_address := (current ⊞ HDR) ⊞ size in
       store32 new_header_address ((csize ⊟ size) ⊟ HDR) ;;
       store8 (new_header_address + OFF_IS_FREE) 1 ;;
       next ← load32 (current + OFF_HDR_NEXT);
       store32 (new_header_address + OFF_HDR_NEXT) next ;;
       store32 current size ;;
       store32 (current + OFF_HDR_NEXT) new_header_address
     else mret tt) ;;
    store8 (current + OFF_IS_FREE) 0 ;;
    mret (inr (current ⊞ HDR))
  else
    next ← load32 (current + OFF_HDR_NEXT);
    mret (inl next).

Definition kmalloc (size : Z) : M St Z :=
  if size =? 0 then mret NULL else
  h ← gets;
  ploop (kmalloc_body size) HEAP_FUEL (heap_start h).

(** One turn of the coalescing [while] of [kfree]. *)
Definition kfree_body (current : Z) : M St (Z + unit) :=
  if current =? NULL then mret (inr tt) else
  next ← load32 (current + OFF_HDR_NEXT);
  if next =? NULL then mret (inr tt) else
  free ← load8 (current + OFF_IS_FREE);
  nfree ← (if free =? 0 then mret 0 else load8 (next + OFF_IS_FREE));
  if negb (free =? 0) && negb (nfree =? 0) then
    nsize ← load32 next;
    store32 current (HDR ⊞ nsize) ;;
    nnext ← load32 (next + OFF_HDR_NEXT);
    store32 (current + OFF_HDR_NEXT) nnext ;;
    mret (inl current)
  else mret (inl next).

Definition kfree (ptr : Z) : M St unit :=
  if ptr =? NULL then mret tt else
  let block := ptr ⊟ HDR in
  store8 (block + OFF_IS_FREE) 1 ;;
  h ← gets;
  ploop kfree_body HEAP_FUEL (heap_start h).
End kmemory.

(** ** Filling and copying *)

Section fill_copy.
Context {St : Type} `{LM : Lens St mem}.

(** [kmemset] fills the range and changes nothing else. *)
Lemma kmemset_run dest val count (s : St) :
  0 ≤ count → mapped dest count →
  ∃ m', kmemset dest val count s = Ok dest (lput m' s) ∧
    ∀ x, get8 m' x = if (dest <=? x) && (x <? dest + count) then u8 val else get8 (lget s) x.
Proof.
  intros Hc Hm. unfold kmemset.
  destruct (mfor_rule (λ i s', ∃ m', s' = lput m' s ∧
      ∀ x, get8 m' x = if (dest <=? x) && (x <? dest + i) then u8 val else get8 (lget s) x)
    0 count (λ i, store8 (dest + i) val) s) as (s' & Hrun & m' & -> & Hx).
  - done.
  - intros i s1 Hi (m1 & -> & Hm1). rewrite store8_run by (mapped_tac). lens.
    eexists. split; [done|]. eexists. split; [done|]. intros x.
    destruct (Z.eq_dec (dest + i) x) as [<-|].
    + rewrite get8_set8. zbool; cbn; try lia; done.
    + rewrite get8_set8_ne, Hm1 by done. zbool; cbn; try lia; done.
  - exists (lget s). rewrite lput_lget. split; [done|]. intros x. zbool; cbn; try lia; done.
  - exists m'. by rewrite (bind_ok _ _ _ _ _ Hrun).
Qed.

(** [kmemcpy] copies upwards: the destination receives the source's bytes
    when the ranges are apart, or overlap with the destination below. *)
Lemma kmemcpy_run src dest count (s : St) :
  0 ≤ count → mapped src count → mapped dest count → (dest ≤ src ∨ src + count ≤ dest) →
  ∃ m', kmemcpy src dest count s = Ok dest (lput m' s) ∧
    ∀ x, get8 m' x = if (dest <=? x) && (x <? dest + count)
                     then get8 (lget s) (src + (x - dest)) else get8 (lget s) x.
Proof.
  intros Hc Hs Hm Hdir. unfold kmemcpy.
  destruct (mfor_rule (λ i s', ∃ m', s' = lput m' s ∧
      ∀ x, get8 m' x = if (dest <=? x) && (x <? dest + i)
                       then get8 (lget s) (src + (x - dest)) else get8 (lget s) x)
    0 count (λ i, v ← load8 (src + i); store8 (dest + i) v) s) as (s' & Hrun & m' & -> & Hx).
  - done.
  - intros i s1 Hi (m1 & -> & Hm1). mrun.
    eexists. split; [done|]. eexists. split; [done|]. intros x.
    destruct (Z.eq_dec (dest + i) x) as [<-|].
    + rewrite get8_set8, u8_get8, Hm1. replace (dest + i - dest) with i by lia.
      zbool; cbn; try lia; done.
    + rewrite get8_set8_ne, Hm1 by done. zbool; cbn; try lia; done.
  - exists (lget s). rewrite lput_lget. split; [done|]. intros x. zbool; cbn; try lia; done.
  - exists m'. by rewrite (bind_ok _ _ _ _ _ Hrun).
Qed.
End fill_copy.

(** ** The abstract heap *)

Record block : Type := mkBlock { b_addr : Z; b_size : Z; b_free : bool }.

(** End of the payload; the payload starts after the header. *)
Definition b_end (b : block) : Z := b_addr b + HDR + b_size b.

(** Blocks in address order, each inside the window, none overlapping the
    next (there may be a gap between them). *)
Fixpoint blocks_ok (lo : Z) (bs : list block) : Prop :=
  match bs with
  | [] => True
  | b :: bs' => lo ≤ b_addr b ∧ 0 ≤ b_size b ∧ b_end b ≤ IDENT_HI ∧ blocks_ok (b_end b) bs'
  end.

(** The chain of headers from address [a] on is [bs]. *)
Fixpoint chain (m : mem) (a : Z) (bs : list block) : Prop :=
  match bs with
  | [] => a = NULL
  | b :: bs' =>
      a = b_addr b ∧ ld32 m a = b_size b ∧ get8 m (a + OFF_IS_FREE) = Z.b2z (b_free b) ∧
      chain m (ld32 m (a + OFF_HDR_NEXT)) bs'
  end.

Definition in_header (b : block) (x : Z) : Prop := b_addr b ≤ x < b_addr b + HDR.
Definition in_payload (b : block) (x : Z) : Prop := b_addr b + HDR ≤ x < b_end b.

(** The bytes the allocator may write: headers, and payloads of free blocks. *)
Definition owned (bs : list block) (x : Z) : Prop :=
  ∃ b, b ∈ bs ∧ (in_header b x ∨ (b_free b = true ∧ in_payload b x)).

(** First fit, with the split of kmemory.c: the rest of the block becomes a
    free block when it has room for a header and 4 bytes. *)
Fixpoint alloc_spec (size : Z) (bs : list block) : option (Z * list block) :=
  match bs with
  | [] => None
  | b :: bs' =>
      if b_free b && (size <=? b_size b) then
        Some (b_addr b + HDR,
              if size + HDR + 4 <=? b_size b
              then mkBlock (b_addr b) size false ::
                   mkBlock (b_addr b + HDR + size) (b_size b - size - HDR) true :: bs'
              else mkBlock (b_addr b) (b_size b) false :: bs')
      else
        match alloc_spec size bs' with
        | Some (p, bs'') => Some (p, b :: bs'')
        | None => None
        end
  end.

(** The coalescing pass, with the size the code gives to a merged block. *)
Fixpoint coalesce (b : block) (bs : list block) : list block :=
  match bs with
  | [] => [b]
  | b' :: bs' =>
      if b_free b && b_free b'
      then coalesce (mkBlock (b_addr b) (HDR + b_size b') true) bs'
      else b :: coalesce b' bs'
  end.

Definition mark_free (p : Z) (b : block) : block :=
  if b_addr b + HDR =? p then mkBlock (b_addr b) (b_size b) true else b.

Definition free_spec (p : Z) (bs : list block) : list block :=
  match map (mark_free p) bs with
  | [] => []
  | b :: bs' => coalesce b bs'
  end.

(** ** Lemmas on the abstract heap *)

Ltac hdr :=
  cbn [chain] in *;
  unfold in_header, in_payload, b_end, HDR, OFF_IS_FREE, OFF_HDR_NEXT, IDENT_LO, IDENT_HI in *;
  cbn [b_addr b_size b_free Z.b2z] in *.

Lemma owned_cons b bs x :
  owned (b :: bs) x ↔ in_header b x ∨ (b_free b = true ∧ in_payload b x) ∨ owned bs x.
Proof.
  unfold owned. setoid_rewrite list_elem_of_In. cbn. split.
  - intros (b' & [->|H] & H'); [tauto|]. right. right. eauto.
  - intros [H|[H|(b' & H & H')]]; eauto.
Qed.

Lemma blocks_ok_owned lo bs x : blocks_ok lo bs → owned bs x → lo ≤ x < IDENT_HI.
Proof.
  revert lo. induction bs as [|b bs IH]; cbn; intros lo Hok Ho.
  - destruct Ho as (b & Hb%not_elem_of_nil & _). done.
  - destruct Hok as (Hlo & Hs & Hhi & Hok). unfold b_end in *.
    apply owned_cons in Ho as [H|[[_ H]|H]]; unfold in_header, in_payload, b_end, HDR in *; [lia|lia|].
    specialize (IH _ Hok H). lia.
Qed.

Lemma blocks_ok_weaken lo lo' bs : blocks_ok lo bs → lo' ≤ lo → blocks_ok lo' bs.
Proof. destruct bs; cbn; [done|]. intros (?&?&?&?) ?. split_and!; try done; lia. Qed.

(** A chain depends only on the bytes it owns. *)
Lemma chain_ext m m' a bs :
  chain m a bs → (∀ x, owned bs x → get8 m' x = get8 m x) → chain m' a bs.
Proof.
  revert a. induction bs as [|b bs IH]; cbn; intros a Hc Hx; [done|].
  destruct Hc as (-> & Hs & Hf & Hc).
  assert (∀ x, in_header b x → get8 m' x = get8 m x) as Hh.
  { intros x Hin. apply Hx. apply owned_cons. by left. }
  unfold in_header, HDR, OFF_HDR_NEXT, OFF_IS_FREE in *.
  split_and!; [done| | |].
  - rewrite (get8_ext_ld32 m m'); [done|]. intros; apply Hh; lia.
  - rewrite Hh by lia. done.
  - rewrite (get8_ext_ld32 m m') by (intros; apply Hh; lia).
    apply IH; [done|]. intros x Hox. apply Hx, owned_cons. by do 2 right.
Qed.

Lemma chain_length lo bs : 0 ≤ lo → blocks_ok lo bs → lo + 12 * Z.of_nat (length bs) ≤ Z.max lo IDENT_HI.
Proof.
  intros Hlo0. revert lo Hlo0. induction bs as [|b bs IH]; cbn [blocks_ok length]; intros lo Hlo0 Hok; [lia|].
  destruct Hok as (Hlo & Hs & Hhi & Hok). unfold b_end, HDR, IDENT_HI in *.
  specialize (IH (b_addr b + 12 + b_size b) ltac:(lia) Hok). lia.
Qed.

Lemma heap_fuel_enough bs : blocks_ok IDENT_LO bs → (S (length bs) ≤ Pos.to_nat HEAP_FUEL)%nat.
Proof.
  intros Hok. pose proof (chain_length IDENT_LO bs ltac:(done) Hok).
  unfold HEAP_FUEL, IDENT_LO, IDENT_HI in *. lia.
Qed.

(** ** The code refines the abstract heap *)

Section refine.
Context {St : Type} `{LM : Lens St mem} `{LH : Lens St HeapStatics}.
Context {AP : Apart LM LH}.

#[local] Abbreviation mem_of s := (lget (T:=mem) s).

Lemma kmalloc_body_fit size b rest s lo :
  0 < size < 4294967296 → blocks_ok lo (b :: rest) → IDENT_LO ≤ lo →
  chain (mem_of s) (b_addr b) (b :: rest) →
  b_free b = true → size ≤ b_size b →
  ∃ m', kmalloc_body size (b_addr b) s = Ok (inr (b_addr b + HDR)) (lput m' s) ∧
    (size + HDR + 4 ≤ b_size b →
       m' = set8 (st32 (st32 (st32 (set8 (st32 (mem_of s)
              (b_addr b + HDR + size) (b_size b - size - HDR))
              (b_addr b + HDR + size + 4) 1)
              (b_addr b + HDR + size + 8) (ld32 (mem_of s) (b_addr b + 8)))
              (b_addr b) size) (b_addr b + 8) (b_addr b + HDR + size)) (b_addr b + 4) 0) ∧
    (b_size b < size + HDR + 4 → m' = set8 (mem_of s) (b_addr b + 4) 0).
Proof.
  intros Hsz Hok Hlo Hc Hfree Hfit. cbn in Hok, Hc.
  destruct Hok as (Ha & Hs & Hhi & _). destruct Hc as (_ & Hcs & Hcf & _).
  unfold b_end, OFF_IS_FREE, IDENT_LO, IDENT_HI, HDR in *.
  unfold kmalloc_body, OFF_IS_FREE, OFF_HDR_NEXT, HDR, NULL.
  destruct (Z.eqb_spec (b_addr b) 0); [lia|].
  mrun. rewrite Hcf, Hfree. cbn [Z.b2z Z.eqb negb andb]. mrun. rewrite Hcs.
  destruct (Z.leb_spec size (b_size b)); [|lia].
  wraps.
  destruct (Z.leb_spec (size + 12 + 4) (b_size b)).
  - mrun. wraps. eexists. split; [reflexivity|]. split; intros; [|lia].
    rewrite !ld32_set8_ne, !ld32_st32_ne by lia. reflexivity.
  - mrun. eexists. split; [reflexivity|]. split; intros; [lia|done].
Qed.

(** The turn that finds a fitting block does the step of [alloc_spec]. *)
Lemma kmalloc_body_found size b rest s lo :
  0 < size < 4294967296 → blocks_ok lo (b :: rest) → IDENT_LO ≤ lo →
  chain (mem_of s) (b_addr b) (b :: rest) →
  b_free b = true → size ≤ b_size b →
  ∃ m' bs', kmalloc_body size (b_addr b) s = Ok (inr (b_addr b + HDR)) (lput m' s) ∧
    alloc_spec size (b :: rest) = Some (b_addr b + HDR, bs') ∧
    chain m' (b_addr b) bs' ∧
    (∀ x, ¬ owned (b :: rest) x → get8 m' x = get8 (mem_of s) x).
Proof.
  intros Hsz Hok Hlo Hc Hfree Hfit.
  destruct (kmalloc_body_fit size b rest s lo) as (m' & Hrun & Hsplit & Hwhole); [done..|].
  exists m'. cbn [alloc_spec]. rewrite Hfree. destruct (Z.leb_spec size (b_size b)); [|lia].
  cbn [andb]. cbn in Hok, Hc. destruct Hok as (Ha & Hs & Hhi & Hok).
  destruct Hc as (_ & Hcs & Hcf & Hc).
  assert (Hframe : ∀ m1, (∀ x, ¬ (b_addr b ≤ x < b_end b) → get8 m1 x = get8 (mem_of s) x) →
    chain m1 (ld32 (mem_of s) (b_addr b + 8)) rest ∧
    ∀ x, ¬ owned (b :: rest) x → get8 m1 x = get8 (mem_of s) x).
  { intros m1 Hm1. split.
    - eapply chain_ext; [done|]. intros x Ho. apply Hm1.
      pose proof (blocks_ok_owned _ _ _ Hok Ho). lia.
    - intros x Hno. apply Hm1. intros Hin. apply Hno, owned_cons.
      unfold in_header, in_payload. destruct (Z.lt_ge_cases x (b_addr b + HDR)); [by left; lia|].
      right; left. split; [done|lia]. }
  unfold b_end, HDR, OFF_IS_FREE, OFF_HDR_NEXT, IDENT_LO, IDENT_HI in *.
  destruct (Z.leb_spec (size + 12 + 4) (b_size b)) as [Hle|Hgt].
  - eexists. split; [done|]. split; [done|]. rewrite (Hsplit Hle). clear Hsplit Hwhole Hrun m'.
    edestruct Hframe as [Hch Hfr]; [|split; [|exact Hfr]].
    { intros x Hx. by ldst. }
    hdr.
    do 2 (ldst; wraps). split_and!; done.
  - eexists. split; [done|]. split; [done|]. rewrite (Hwhole Hgt). clear Hsplit Hwhole Hrun m'.
    edestruct Hframe as [Hch Hfr]; [|split; [|exact Hfr]].
    { intros x Hx. by ldst. }
    hdr.
    ldst. split_and!; done.
Qed.

(** The turn that skips a block. *)
Lemma kmalloc_body_skip size b rest s lo :
  0 < size < 4294967296 → blocks_ok lo (b :: rest) → IDENT_LO ≤ lo →
  chain (mem_of s) (b_addr b) (b :: rest) →
  b_free b && (size <=? b_size b) = false →
  kmalloc_body size (b_addr b) s = Ok (inl (ld32 (mem_of s) (b_addr b + OFF_HDR_NEXT))) s.
Proof.
  intros Hsz Hok Hlo Hc Hno. cbn in Hok, Hc.
  destruct Hok as (Ha & Hs & Hhi & _). destruct Hc as (_ & Hcs & Hcf & _).
  unfold b_end, OFF_IS_FREE, OFF_HDR_NEXT, IDENT_LO, IDENT_HI, HDR in *.
  unfold kmalloc_body, OFF_IS_FREE, OFF_HDR_NEXT, HDR, NULL.
  destruct (Z.eqb_spec (b_addr b) 0); [lia|].
  mrun. rewrite Hcf. destruct (b_free b); cbn [Z.b2z Z.eqb negb andb] in *; mrun; [|done].
  rewrite Hcs, Hno. mrun. done.
Qed.

Lemma kmalloc_walk size bs : ∀ lo a s,
  0 < size < 4294967296 → blocks_ok lo bs → IDENT_LO ≤ lo → chain (mem_of s) a bs →
  match alloc_spec size bs with
  | None => nloop (kmalloc_body size) (S (length bs)) a s = Ok NULL s
  | Some (p, bs') => ∃ m',
      nloop (kmalloc_body size) (S (length bs)) a s = Ok p (lput m' s) ∧
      chain m' a bs' ∧ (∀ x, ¬ owned bs x → get8 m' x = get8 (mem_of s) x)
  end.
Proof.
  induction bs as [|b bs IH]; intros lo a s Hsz Hok Hlo Hc.
  - cbn in Hc. subst a. cbn [alloc_spec length]. rewrite nloop_S. done.
  - assert (a = b_addr b) as -> by (by destruct Hc).
    cbn [length]. rewrite nloop_S.
    destruct (b_free b && (size <=? b_size b)) eqn:E.
    + apply andb_true_iff in E as [E1 E2%Z.leb_le].
      destruct (kmalloc_body_found size b bs s lo) as (m' & bs' & -> & -> & ? & ?); [done..|].
      exists m'. done.
    + rewrite (kmalloc_body_skip size b bs s lo) by done.
      cbn [alloc_spec]. rewrite E. destruct Hc as (_ & Hcs & Hcf & Hc).
      destruct Hok as (Ha & Hs & Hhi & Hok). unfold b_end, HDR in *.
      specialize (IH (b_addr b + 12 + b_size b) _ s Hsz Hok ltac:(lia) Hc).
      destruct (alloc_spec size bs) as [[p bs']|]; [|done].
      destruct IH as (m' & Hrun & Hch & Hfr). exists m'. split; [done|].
      assert (Hh : ∀ x, in_header b x → get8 m' x = get8 (mem_of s) x).
      { intros x Hx. apply Hfr. intros Ho. pose proof (blocks_ok_owned _ _ _ Hok Ho).
        unfold in_header, HDR in *. lia. }
      split; [hdr; split_and!|].
      * done.
      * rewrite (get8_ext_ld32 (mem_of s)); [done|]. intros; apply Hh; lia.
      * by rewrite Hh by lia.
      * rewrite (get8_ext_ld32 (mem_of s)); [done|]. intros; apply Hh; lia.
      * intros x Hno. apply Hfr. intros Ho. apply Hno, owned_cons. by do 2 right.
Qed.

(** One turn of [kfree]'s walk, by the three cases of its conditions. *)
Lemma kfree_body_last b s :
  chain (mem_of s) (b_addr b) [b] → blocks_ok IDENT_LO [b] →
  kfree_body (b_addr b) s = Ok (inr tt) s.
Proof.
  intros Hc Hok. cbn in Hok. hdr. destruct Hc as (_ & _ & _ & Hn). destruct Hok as (?&?&?&_).
  unfold kfree_body, NULL in *. destruct (Z.eqb_spec (b_addr b) 0); [lia|].
  unfold OFF_HDR_NEXT. mrun. rewrite Hn. done.
Qed.

Lemma kfree_body_advance b b' rest s lo :
  chain (mem_of s) (b_addr b) (b :: b' :: rest) → blocks_ok lo (b :: b' :: rest) →
  IDENT_LO ≤ lo → b_free b && b_free b' = false →
  kfree_body (b_addr b) s = Ok (inl (b_addr b')) s.
Proof.
  intros Hc Hok Hlo Hno. cbn in Hok. hdr. destruct Hc as (_ & _ & Hf & Hn & _ & Hf' & _).
  destruct Hok as (?&?&?&?&?&?&_). rewrite Hn in *.
  unfold kfree_body, NULL, OFF_HDR_NEXT, OFF_IS_FREE in *.
  destruct (Z.eqb_spec (b_addr b) 0); [lia|]. mrun. rewrite Hn.
  destruct (Z.eqb_spec (b_addr b') 0); [lia|]. mrun. rewrite Hf.
  destruct (b_free b); cbn in *; mrun; [|done]. rewrite Hf', Hno. done.
Qed.

Lemma kfree_body_merge b b' rest s lo :
  chain (mem_of s) (b_addr b) (b :: b' :: rest) → blocks_ok lo (b :: b' :: rest) →
  IDENT_LO ≤ lo → b_free b = true → b_free b' = true →
  ∃ m', kfree_body (b_addr b) s = Ok (inl (b_addr b)) (lput m' s) ∧
    chain m' (b_addr b) (mkBlock (b_addr b) (HDR + b_size b') true :: rest) ∧
    (∀ x, ¬ in_header b x → get8 m' x = get8 (mem_of s) x).
Proof.
  intros Hc Hok Hlo Hfb Hfb'. cbn in Hok. hdr.
  destruct Hc as (_ & Hs & Hf & Hn & Hs' & Hf' & Hc).
  destruct Hok as (?&?&?&?&?&?&Hok). rewrite Hn in *. rewrite Hfb, Hfb' in *.
  unfold kfree_body, NULL, OFF_HDR_NEXT, OFF_IS_FREE, HDR in *.
  destruct (Z.eqb_spec (b_addr b) 0); [lia|]. mrun. rewrite Hn.
  destruct (Z.eqb_spec (b_addr b') 0); [lia|]. mrun. rewrite Hf. cbn [Z.b2z Z.eqb negb andb] in *. mrun.
  rewrite Hf'. cbn [Z.b2z Z.eqb negb andb] in *. mrun. rewrite Hs'. wraps. ldst.
  eexists. split; [reflexivity|]. split.
  - ldst. wraps. split_and!; try done.
    eapply chain_ext; [exact Hc|]. intros x Ho. pose proof (blocks_ok_owned _ _ _ Hok Ho). by ldst.
  - intros x Hx. by ldst.
Qed.

Lemma coalesce_head b rest : ∃ b1 l, coalesce b rest = b1 :: l ∧ b_addr b1 = b_addr b.
Proof.
  revert b. induction rest as [|b' rest IH]; intros b; cbn; [eauto|].
  destruct (b_free b && b_free b'); [|eauto]. apply (IH (mkBlock _ _ _)).
Qed.

Definition in_headers (bs : list block) (x : Z) : Prop := ∃ b, b ∈ bs ∧ in_header b x.

Lemma in_headers_cons b bs x : in_headers (b :: bs) x ↔ in_header b x ∨ in_headers bs x.
Proof.
  unfold in_headers. setoid_rewrite list_elem_of_In. cbn. split.
  - intros (b' & [->|H] & H'); eauto.
  - intros [H|(b' & H & H')]; eauto.
Qed.

Lemma in_headers_owned bs x : in_headers bs x → owned bs x.
Proof. intros (b & ? & ?). exists b. tauto. Qed.

Lemma kfree_walk rest : ∀ b lo s,
  chain (mem_of s) (b_addr b) (b :: rest) → blocks_ok lo (b :: rest) → IDENT_LO ≤ lo →
  ∃ m', nloop kfree_body (S (length rest)) (b_addr b) s = Ok tt (lput m' s) ∧
    chain m' (b_addr b) (coalesce b rest) ∧
    (∀ x, ¬ in_headers (b :: rest) x → get8 m' x = get8 (mem_of s) x).
Proof.
  induction rest as [|b' rest IH]; intros b lo s Hc Hok Hlo.
  - exists (mem_of s). rewrite nloop_S, lput_lget, kfree_body_last; [done|done|].
    eapply blocks_ok_weaken; [|exact Hlo]. done.
  - rewrite nloop_S. cbn [coalesce]. destruct (b_free b && b_free b') eqn:E.
    + apply andb_true_iff in E as [E1 E2].
      destruct (kfree_body_merge b b' rest s lo) as (m1 & -> & Hc1 & Hfr1); [done..|].
      edestruct (IH (mkBlock (b_addr b) (HDR + b_size b') true) lo (lput m1 s)) as (m2 & Hrun & Hc2 & Hfr2).
      { by rewrite lget_lput. }
      { cbn in Hok |- *. hdr. destruct Hok as (?&?&?&?&?&?&Hok). split_and!; try lia.
        eapply blocks_ok_weaken; [exact Hok|lia]. }
      { done. }
      exists m2. cbn [length]. rewrite lput_lput in Hrun. split; [exact Hrun|]. split; [exact Hc2|].
      intros x Hx. rewrite !in_headers_cons in Hx.
      rewrite Hfr2; [rewrite lget_lput; apply Hfr1; tauto|].
      rewrite in_headers_cons. unfold in_header in *. cbn. tauto.
    + rewrite (kfree_body_advance b b' rest s lo) by done.
      assert (ld32 (mem_of s) (b_addr b + 8) = b_addr b') as Hn by (by destruct Hc as (_&_&_&?&_)).
      destruct Hok as (Ha & Hs & Hhi & Hok).
      edestruct (IH b' (b_end b) s) as (m2 & Hrun & Hc2 & Hfr2).
      { destruct Hc as (_&_&_&Hc). unfold OFF_HDR_NEXT in Hc. by rewrite Hn in Hc. }
      { done. }
      { hdr. lia. }
      exists m2. split; [exact Hrun|].
      assert (Hh : ∀ x, in_header b x → get8 m2 x = get8 (mem_of s) x).
      { intros x Hx. apply Hfr2. intros Ho%in_headers_owned.
        pose proof (blocks_ok_owned _ _ _ Hok Ho). hdr. lia. }
      destruct Hc as (_ & Hcs & Hcf & _). split.
      * hdr. split_and!; [done| | |].
        -- rewrite (get8_ext_ld32 (mem_of s)); [done|]. intros; apply Hh; lia.
        -- by rewrite Hh by lia.
        -- rewrite (get8_ext_ld32 (mem_of s)) by (intros; apply Hh; lia). by rewrite Hn.
      * intros x Hx. apply Hfr2. rewrite in_headers_cons in Hx. tauto.
Qed.

Lemma chain_mark bs : ∀ lo m a b,
  chain m a bs → blocks_ok lo bs → b ∈ bs →
  chain (set8 m (b_addr b + OFF_IS_FREE) 1) a (map (mark_free (b_addr b + HDR)) bs).
Proof.
  induction bs as [|b0 bs IH]; intros lo m a b Hc Hok Hin; [by apply not_elem_of_nil in Hin|].
  destruct Hok as (Ha & Hs & Hhi & Hok). cbn [map chain]. destruct Hc as (-> & Hcs & Hcf & Hc).
  unfold mark_free at 1 2 3. apply elem_of_cons in Hin as [->|Hin].
  - rewrite Z.eqb_refl. hdr. ldst. split_and!; try done.
    assert (map (mark_free (b_addr b0 + 12)) bs = bs) as ->.
    { rewrite <- (List.map_id bs) at 2. apply List.map_ext_in. assert (Hok' : blocks_ok (b_addr b0 + 1) bs)
        by (eapply blocks_ok_weaken; [exact Hok|lia]).
      clear -Hok'. intros b Hb%list_elem_of_In. unfold mark_free, HDR.
      destruct (Z.eqb_spec (b_addr b + 12) (b_addr b0 + 12)) as [Heq|]; [|done].
      assert (owned bs (b_addr b)) as Ho by (exists b; split; [done|left; hdr; lia]).
      pose proof (blocks_ok_owned _ _ _ Hok' Ho). lia. }
    eapply chain_ext; [exact Hc|]. intros x Ho. pose proof (blocks_ok_owned _ _ _ Hok Ho). hdr. by ldst.
  - assert (owned bs (b_addr b)) as Ho by (exists b; split; [done|left; hdr; lia]).
    pose proof (blocks_ok_owned _ _ _ Hok Ho).
    destruct (Z.eqb_spec (b_addr b0 + HDR) (b_addr b + HDR)); [hdr; lia|].
    specialize (IH _ _ _ b Hc Hok Hin). hdr. ldst. split_and!; done.
Qed.
End refine.

(** ** What the abstract operations guarantee *)

Definition live (bs : list block) : list block := filter (λ b, b_free b = false) bs.
Definition region (b : block) : Z * Z := (b_addr b + HDR, b_size b).

Lemma live_cons b bs : live (b :: bs) = if b_free b then live bs else b :: live bs.
Proof. unfold live. rewrite filter_cons. case_decide; by destruct (b_free b). Qed.

Lemma elem_of_live b bs : b ∈ live bs ↔ b_free b = false ∧ b ∈ bs.
Proof. unfold live. by rewrite list_elem_of_filter. Qed.

Lemma alloc_spec_ok size bs : ∀ lo p bs',
  0 < size → blocks_ok lo bs → alloc_spec size bs = Some (p, bs') →
  blocks_ok lo bs' ∧
  ∃ b', p = b_addr b' + HDR ∧ size ≤ b_size b' ∧ live bs' ≡ₚ b' :: live bs.
Proof.
  induction bs as [|b bs IH]; intros lo p bs' Hs Hok; cbn [alloc_spec]; [done|].
  destruct Hok as (Ha & Hb & Hhi & Hok).
  destruct (b_free b && (size <=? b_size b)) eqn:E.
  - apply andb_true_iff in E as [E1 E2%Z.leb_le]. intros [= <- <-].
    rewrite (live_cons b), E1.
    destruct (Z.leb_spec (size + HDR + 4) (b_size b)).
    + split; [|exists (mkBlock (b_addr b) size false); rewrite !live_cons; done].
      cbn. hdr. split_and!; try lia. eapply blocks_ok_weaken; [exact Hok|lia].
    + split; [|exists (mkBlock (b_addr b) (b_size b) false); rewrite !live_cons; done].
      cbn. hdr. split_and!; try lia. done.
  - destruct (alloc_spec size bs) as [[p' bs'']|] eqn:E'; [|done]. intros [= <- <-].
    destruct (IH (b_end b) _ _ Hs Hok eq_refl) as (Hok' & b' & -> & Hsz & Hp).
    split; [done|]. exists b'. split_and!; [done..|].
    rewrite !live_cons. destruct (b_free b); [done|].
    rewrite Hp. apply perm_swap.
Qed.

(** The blocks of the new heap lie inside those of the old one. *)
Lemma alloc_spec_inside size bs : ∀ p bs', 0 < size → alloc_spec size bs = Some (p, bs') →
  ∀ b', b' ∈ bs' → ∃ b, b ∈ bs ∧ b_addr b ≤ b_addr b' ∧ b_end b' ≤ b_end b.
Proof.
  induction bs as [|b bs IH]; intros p bs' Hs; cbn [alloc_spec]; [done|].
  assert (∀ b', b' ∈ bs → ∃ b0, b0 ∈ b :: bs ∧ b_addr b0 ≤ b_addr b' ∧ b_end b' ≤ b_end b0) as Hrest.
  { intros b' Hb'. exists b'. split_and!; [by apply list_elem_of_further|lia|lia]. }
  destruct (b_free b && (size <=? b_size b)) eqn:E.
  - apply andb_true_iff in E as [_ E2%Z.leb_le]. intros [= _ <-] b'.
    destruct (Z.leb_spec (size + HDR + 4) (b_size b)); rewrite !elem_of_cons; intros Hb'; repeat destruct Hb' as [->|Hb'].
    all: try by apply Hrest.
    all: exists b; (split; [by apply list_elem_of_here|]); hdr; lia.
  - destruct (alloc_spec size bs) as [[p' bs'']|] eqn:E'; [|done]. intros [= _ <-] b' [->|Hb']%elem_of_cons.
    + exists b. split_and!; [by apply list_elem_of_here|lia|lia].
    + destruct (IH _ _ Hs eq_refl b' Hb') as (b0 & ? & ? & ?). exists b0. split_and!; [by apply list_elem_of_further|done|done].
Qed.

(** What the allocator gives out it owned, and it never owns more. *)
Lemma alloc_spec_owned size bs : ∀ p bs', 0 < size → alloc_spec size bs = Some (p, bs') →
  (∀ x, p ≤ x < p + size → owned bs x) ∧ (∀ x, owned bs' x → owned bs x).
Proof.
  induction bs as [|b bs IH]; intros p bs' Hs; cbn [alloc_spec]; [done|].
  destruct (b_free b && (size <=? b_size b)) eqn:E.
  - apply andb_true_iff in E as [Ef E2%Z.leb_le]. intros [= <- <-]. split.
    + intros x Hx. apply owned_cons. right; left. split; [done|]. hdr. lia.
    + intros x. destruct (Z.leb_spec (size + HDR + 4) (b_size b)); rewrite !owned_cons; hdr; rewrite Ef.
      * assert (b_addr b ≤ x < b_addr b + 12 ∨ b_addr b + 12 ≤ x < b_addr b + 12 + b_size b ∨
          ¬ (b_addr b ≤ x < b_addr b + 12 + b_size b)) as [?|[?|?]] by lia; [tauto|tauto|].
        intros [?|[[? ?]|[?|[[? ?]|?]]]]; [lia|done|lia|lia|tauto].
      * intros [?|[[? ?]|?]]; [tauto|done|tauto].
  - destruct (alloc_spec size bs) as [[p' bs'']|] eqn:E'; [|done]. intros [= <- <-].
    destruct (IH _ _ Hs eq_refl) as [H1 H2]. split; intros x; rewrite ?owned_cons; [auto|]. intros [?|[?|?]]; auto.
Qed.

(** First fit fails exactly when no free block is large enough. *)
Lemma alloc_spec_None size bs :
  alloc_spec size bs = None ↔ ∀ b, b ∈ bs → b_free b = true → b_size b < size.
Proof.
  induction bs as [|b bs IH]; cbn [alloc_spec].
  - split; [|done]. intros _ b Hb%not_elem_of_nil. done.
  - destruct (b_free b && (size <=? b_size b)) eqn:E.
    + apply andb_true_iff in E as [E1 E2%Z.leb_le]. split; [done|].
      intros H. specialize (H b (list_elem_of_here _ _) E1). lia.
    + destruct (alloc_spec size bs) as [[p bs']|].
      * split; [done|]. intros H. assert (∀ b, b ∈ bs → b_free b = true → b_size b < size) as H'.
        { intros b' ??. apply H; [by apply list_elem_of_further|done]. }
        by apply IH in H'.
      * split; [|done]. intros _ b' [->|Hin]%elem_of_cons Hf.
        -- rewrite Hf in E. cbn in E. by apply Z.leb_gt in E.
        -- by apply IH.
Qed.

(** Coalescing keeps the blocks in order and in bounds, loses no live block,
    and leaves no two free neighbours. *)
Lemma coalesce_ok rest : ∀ lo b,
  blocks_ok lo (b :: rest) → blocks_ok lo (coalesce b rest) ∧ live (coalesce b rest) = live (b :: rest).
Proof.
  induction rest as [|b' rest IH]; intros lo b Hok; [done|]. cbn [coalesce].
  destruct Hok as (Ha & Hs & Hhi & Hok).
  destruct (b_free b && b_free b') eqn:E.
  - apply andb_true_iff in E as [E1 E2]. destruct Hok as (Ha' & Hs' & Hhi' & Hok).
    destruct (IH lo (mkBlock (b_addr b) (HDR + b_size b') true)) as [IH1 IH2].
    { cbn. hdr. split_and!; try lia. eapply blocks_ok_weaken; [exact Hok|lia]. }
    split; [done|]. rewrite IH2, !live_cons, E1, E2. done.
  - destruct (IH (b_end b) b' Hok) as [IH1 IH2].
    split; [done|]. by rewrite !(live_cons b), IH2.
Qed.

Fixpoint no_free_pair (bs : list block) : Prop :=
  match bs with
  | [] => True
  | b :: rest =>
      match rest with [] => True | b' :: _ => b_free b && b_free b' = false end ∧ no_free_pair rest
  end.

Lemma coalesce_head_free rest : ∀ b, ∃ b1 l, coalesce b rest = b1 :: l ∧ b_free b1 = b_free b.
Proof.
  induction rest as [|b' rest IH]; intros b; cbn; [eauto|].
  destruct (b_free b && b_free b') eqn:E; [|eauto].
  destruct (IH (mkBlock (b_addr b) (HDR + b_size b') true)) as (b1 & l & -> & Hf).
  apply andb_true_iff in E as [E _]. exists b1, l. by rewrite Hf, E.
Qed.

Lemma coalesce_no_free_pair rest : ∀ b, no_free_pair (coalesce b rest).
Proof.
  induction rest as [|b' rest IH]; intros b; cbn [coalesce]; [done|].
  destruct (b_free b && b_free b') eqn:E; [apply IH|].
  specialize (IH b'). destruct (coalesce_head_free rest b') as (b1 & l & Heq & Hf).
  rewrite Heq in IH |- *. split; [by rewrite Hf|done].
Qed.

Lemma mark_free_ok p lo bs : blocks_ok lo bs → blocks_ok lo (map (mark_free p) bs).
Proof.
  revert lo. induction bs as [|b bs IH]; cbn; intros lo Hok; [done|].
  destruct Hok as (?&?&?&?). unfold mark_free at 1 2 3 4 5.
  destruct (b_addr b + HDR =? p); split_and!; try done; by apply IH.
Qed.

Lemma blocks_ok_addr lo bs b : blocks_ok lo bs → b ∈ bs → lo ≤ b_addr b ∧ 0 ≤ b_size b ∧ b_end b ≤ IDENT_HI.
Proof.
  intros Hok Hin. revert lo Hok. induction bs as [|b0 bs IH]; cbn; intros lo Hok.
  - by apply not_elem_of_nil in Hin.
  - destruct Hok as (?&?&?&Hok). apply elem_of_cons in Hin as [->|Hin]; [done|].
    destruct (IH Hin _ Hok). unfold b_end, HDR in *. lia.
Qed.

Lemma mark_free_live lo bs b :
  blocks_ok lo bs → b ∈ live bs → live bs ≡ₚ b :: live (map (mark_free (b_addr b + HDR)) bs).
Proof.
  intros Hok [Hf Hin]%elem_of_live. revert lo Hok. induction bs as [|b0 bs IH]; intros lo Hok.
  - by apply not_elem_of_nil in Hin.
  - destruct Hok as (Ha & Hs & Hhi & Hok). cbn [map]. rewrite !live_cons.
    apply elem_of_cons in Hin as [->|Hin].
    + assert (mark_free (b_addr b0 + HDR) b0 = mkBlock (b_addr b0) (b_size b0) true) as ->.
      { unfold mark_free. by rewrite Z.eqb_refl. }
      rewrite Hf. cbn. apply perm_skip.
      assert (map (mark_free (b_addr b0 + HDR)) bs = bs) as ->; [|done].
      rewrite <- (List.map_id bs) at 2. apply List.map_ext_in. intros b Hb%list_elem_of_In.
      unfold mark_free. destruct (Z.eqb_spec (b_addr b + HDR) (b_addr b0 + HDR)); [|done].
      pose proof (blocks_ok_addr _ _ _ Hok Hb). unfold b_end, HDR in *. lia.
    + pose proof (blocks_ok_addr _ _ _ Hok Hin).
      assert (mark_free (b_addr b + HDR) b0 = b0) as ->.
      { unfold mark_free. destruct (Z.eqb_spec (b_addr b0 + HDR) (b_addr b + HDR)); [|done].
        unfold b_end, HDR in *; lia. }
      specialize (IH Hin _ Hok). destruct (b_free b0).
      * exact IH.
      * rewrite IH at 1. apply perm_swap.
Qed.

Lemma free_spec_ok bs b :
  blocks_ok IDENT_LO bs → b ∈ live bs →
  blocks_ok IDENT_LO (free_spec (b_addr b + HDR) bs) ∧
  live bs ≡ₚ b :: live (free_spec (b_addr b + HDR) bs).
Proof.
  intros Hok Hin. pose proof (mark_free_ok (b_addr b + HDR) _ _ Hok) as Hok'.
  pose proof (mark_free_live _ _ _ Hok Hin) as Hp. unfold free_spec.
  destruct (map (mark_free (b_addr b + HDR)) bs) as [|b0 rest]; [by rewrite Hp|].
  destruct (coalesce_ok rest _ _ Hok') as [Hc1 Hc2]. by rewrite Hc2.
Qed.

(** ** Theorems *)

Section theorems.
Context {St : Type} `{LM : Lens St mem} `{LH : Lens St HeapStatics}.
Context {AP : Apart LM LH}.
#[local] Abbreviation mem_of s := (lget (T:=mem) s).

(** The state [s] holds the abstract heap [bs]. *)
Definition heap_rep (s : St) (bs : list block) : Prop :=
  blocks_ok IDENT_LO bs ∧ chain (mem_of s) (heap_start (lget s)) bs.

(** [kmalloc] always returns and does exactly [alloc_spec]; it writes
    nothing outside headers and free payloads. *)
Lemma kmalloc_refines_spec s bs size :
  heap_rep s bs → 0 < size < 4294967296 →
  match alloc_spec size bs with
  | None => kmalloc size s = Ok NULL s
  | Some (p, bs') => ∃ m', kmalloc size s = Ok p (lput m' s) ∧
      heap_rep (lput m' s) bs' ∧
      (∀ x, ¬ owned bs x → get8 m' x = get8 (mem_of s) x)
  end.
Proof.
  intros [Hok Hc] Hs. unfold kmalloc. destruct (Z.eqb_spec size 0); [lia|].
  rewrite bind_gets.
  pose proof (kmalloc_walk size bs IDENT_LO _ s Hs Hok ltac:(done) Hc) as Hw.
  pose proof (heap_fuel_enough bs Hok) as Hfuel.
  destruct (alloc_spec size bs) as [[p bs']|] eqn:E.
  - destruct Hw as (m' & Hrun & Hch & Hfr). exists m'. split; [by eapply ploop_ok|].
    split; [|done]. destruct (alloc_spec_ok size bs IDENT_LO p bs' ltac:(lia) Hok E) as [? _].
    split; [done|]. rewrite lget_lput, lget_other'. done.
  - by eapply ploop_ok.
Qed.

(** [kfree] of a live block always returns and does exactly [free_spec]; it
    writes headers only. *)
Lemma kfree_refines_spec s bs b :
  heap_rep s bs → b ∈ live bs →
  ∃ m', kfree (b_addr b + HDR) s = Ok tt (lput m' s) ∧
    heap_rep (lput m' s) (free_spec (b_addr b + HDR) bs) ∧
    (∀ x, ¬ in_headers bs x → get8 m' x = get8 (mem_of s) x).
Proof.
  intros [Hok Hc] Hlive. pose proof (free_spec_ok bs b Hok Hlive) as [Hok' _].
  apply elem_of_live in Hlive as [Hf Hin].
  pose proof (blocks_ok_addr _ _ _ Hok Hin) as (Hb1 & Hb2 & Hb3).
  pose proof (chain_mark _ _ _ _ b Hc Hok Hin) as Hcm.
  pose proof (mark_free_ok (b_addr b + HDR) _ _ Hok) as Hokm.
  unfold kfree, NULL. hdr. destruct (Z.eqb_spec (b_addr b + 12) 0); [lia|].
  wraps. replace (b_addr b + 12 - 12) with (b_addr b) by lia. mrun.
  set (m1 := set8 (mem_of s) (b_addr b + 4) 1) in *. unfold free_spec in *.
  assert (Hwr : ∀ x, ¬ in_headers bs x → get8 m1 x = get8 (mem_of s) x).
  { intros x Hx. unfold m1. apply get8_set8_ne. intros <-. apply Hx.
    exists b. split; [done|]. hdr. lia. }
  destruct bs as [|b0 bs]; [by apply not_elem_of_nil in Hin|]. cbn [map] in *.
  set (b0' := mark_free (b_addr b + 12) b0) in *. set (rest := map _ bs) in *.
  assert (Hb0 : b_addr b0' = b_addr b0) by (unfold b0', mark_free; by case_match).
  destruct (kfree_walk rest b0' IDENT_LO (lput m1 s)) as (m2 & Hrun & Hch & Hfr).
  { rewrite lget_lput, Hb0. destruct Hc as (<- & _). done. }
  { done. }
  { done. }
  rewrite lget_lput, lput_lput in *. exists m2.
  assert (heap_start (lget s) = b_addr b0') as Hst by (destruct Hc as (-> & _); done).
  split; [|split; [split; [done|]|]].
  - rewrite Hst. eapply ploop_ok; [exact Hrun|].
    pose proof (heap_fuel_enough (b0' :: rest) Hokm) as Hfuel. cbn [length] in Hfuel. lia.
  - lens. by rewrite Hst.
  - intros x Hx. rewrite Hfr, Hwr; [done..|]. intros (b' & Hb' & Hin'). apply Hx.
    change (b0' :: rest) with (map (mark_free (b_addr b + 12)) (b0 :: bs)) in Hb'.
    apply list_elem_of_fmap in Hb' as (b1 & -> & Hb1'). exists b1. split; [done|].
    unfold in_header, mark_free in *. by case_match.
Qed.

(** *** The allocator interface *)

Definition heap_alloc_inv (s : St) (rs : list (Z * Z)) : Prop :=
  ∃ bs, heap_rep s bs ∧ rs ≡ₚ map region (live bs).

Lemma blocks_ok_pair lo bs b b' :
  blocks_ok lo bs → b ∈ bs → b' ∈ bs → b = b' ∨ apart (region b) (region b').
Proof.
  revert lo. induction bs as [|b0 bs IH]; intros lo Hok Hb Hb'; [by apply not_elem_of_nil in Hb|].
  destruct Hok as (?&?&?&Hok). unfold apart, region. cbn.
  apply elem_of_cons in Hb as [->|Hb], Hb' as [->|Hb']; [by left| | |by apply (IH _ Hok)].
  - pose proof (blocks_ok_addr _ _ _ Hok Hb'). unfold b_end, HDR in *. lia.
  - pose proof (blocks_ok_addr _ _ _ Hok Hb). unfold b_end, HDR in *. lia.
Qed.

Lemma blocks_ok_NoDup lo bs : blocks_ok lo bs → NoDup bs.
Proof.
  revert lo. induction bs as [|b bs IH]; intros lo Hok; constructor.
  - destruct Hok as (?&?&?&Hok). intros Hin.
    pose proof (blocks_ok_addr _ _ _ Hok Hin). unfold b_end, HDR in *. lia.
  - by destruct Hok as (?&?&?&Hok%IH).
Qed.

Lemma live_apart lo bs b l b' :
  blocks_ok lo bs → live bs ≡ₚ b :: l → b' ∈ l → apart (region b) (region b').
Proof.
  intros Hok Hp Hin.
  assert (b' ∈ live bs) as [_ Hb']%elem_of_live by (rewrite Hp; by apply list_elem_of_further).
  assert (b ∈ live bs) as [_ Hb]%elem_of_live by (rewrite Hp; by apply list_elem_of_here).
  destruct (blocks_ok_pair _ _ b b' Hok Hb Hb') as [->|]; [|done].
  assert (NoDup (live bs)) as Hnd by (by eapply NoDup_filter, blocks_ok_NoDup).
  rewrite Hp in Hnd. by apply NoDup_cons in Hnd as [? _].
Qed.

(** The bytes of a live block are neither headers nor free payload. *)
Lemma live_not_owned lo bs x : blocks_ok lo bs → in_regions (map region (live bs)) x → ¬ owned bs x.
Proof.
  intros Hok (r & (b & -> & Hb%elem_of_live)%list_elem_of_fmap & Hx) (b' & Hb' & Ho).
  destruct Hb as [Hf Hb]. unfold in_region, region in Hx. cbn in Hx.
  clear - Hok Hb Hb' Ho Hx Hf. revert lo Hok Hb Hb'.
  induction bs as [|b0 bs IH]; intros lo Hok Hb Hb'; [by apply not_elem_of_nil in Hb|].
  destruct Hok as (?&?&?&Hok).
  apply elem_of_cons in Hb as [->|Hb], Hb' as [->|Hb']; [| | |by apply (IH _ Hok)].
  - destruct Ho as [Ho|[Ho _]]; [hdr; lia|congruence].
  - pose proof (blocks_ok_addr _ _ _ Hok Hb'). destruct Ho as [Ho|[_ Ho]]; hdr; lia.
  - pose proof (blocks_ok_addr _ _ _ Hok Hb). destruct Ho as [Ho|[_ Ho]]; hdr; lia.
Qed.

(** The headers of the chain keep it; anything else may change. *)
Lemma chain_ext_headers m m' a bs :
  chain m a bs → (∀ x, in_headers bs x → get8 m' x = get8 m x) → chain m' a bs.
Proof.
  revert a. induction bs as [|b bs IH]; intros a Hc Hx; [done|].
  destruct Hc as (-> & Hs & Hf & Hc).
  assert (∀ x, in_header b x → get8 m' x = get8 m x) as Hh.
  { intros x Hin. apply Hx, in_headers_cons. by left. }
  hdr. split_and!; [done| | |].
  - rewrite (get8_ext_ld32 m m'); [done|]. intros; apply Hh; lia.
  - rewrite Hh by lia. done.
  - rewrite (get8_ext_ld32 m m') by (intros; apply Hh; lia).
    apply IH; [done|]. intros x Hox. apply Hx, in_headers_cons. by right.
Qed.

Lemma kmalloc_alloc_run s rs size :
  heap_alloc_inv s rs → 0 < size < 4294967296 →
  kmalloc size s = Ok NULL s ∨
  ∃ p n m', kmalloc size s = Ok p (lput m' s) ∧ size ≤ n ∧
    heap_alloc_inv (lput m' s) ((p, n) :: rs) ∧
    (∀ x, in_regions rs x → get8 m' x = get8 (mem_of s) x).
Proof.
  intros (bs & Hrep & Hp) Hs. pose proof (kmalloc_refines_spec s bs size Hrep Hs) as Hr.
  destruct (alloc_spec size bs) as [[p bs']|] eqn:E; [|by left]. right.
  destruct Hr as (m' & Hrun & Hrep' & Hfr). destruct Hrep as [Hok Hc].
  destruct (alloc_spec_ok size bs IDENT_LO p bs' ltac:(lia) Hok E) as (_ & b' & -> & Hsz & Hl).
  exists (b_addr b' + HDR), (b_size b'), m'. split_and!; [done|done| |].
  - exists bs'. split; [done|]. rewrite Hl, Hp. done.
  - intros x Hx. apply Hfr. eapply live_not_owned; [exact Hok|].
    destruct Hx as (r & Hr & Hin). exists r. split; [by rewrite <- Hp|done].
Qed.

Lemma kfree_release_run s p n rs :
  heap_alloc_inv s ((p, n) :: rs) →
  ∃ m', kfree p s = Ok tt (lput m' s) ∧ heap_alloc_inv (lput m' s) rs ∧
    (∀ x, in_regions ((p, n) :: rs) x → get8 m' x = get8 (mem_of s) x).
Proof.
  intros (bs & Hrep & Hp). destruct (Permutation_map_inv _ _ Hp) as (l & Hl & Hp').
  destruct l as [|b l]; [done|]. cbn in Hl. unfold region at 1 in Hl. injection Hl as -> -> ->.
  assert (b ∈ live bs) as Hin by (rewrite Hp'; apply list_elem_of_here).
  destruct (kfree_refines_spec s bs b Hrep Hin) as (m' & Hrun & Hrep' & Hfr).
  exists m'. split; [done|]. destruct Hrep as [Hok Hc]. split.
  - eexists. split; [exact Hrep'|].
    destruct (free_spec_ok bs b Hok Hin) as [_ Hp2].
    assert (l ≡ₚ live (free_spec (b_addr b + HDR) bs)) as Hl.
    { eapply Permutation_cons_inv. rewrite <- Hp', Hp2. done. }
    apply Permutation_map, Hl.
  - intros x Hx. apply Hfr. intros Ho%in_headers_owned. eapply live_not_owned; [exact Hok| |exact Ho].
    destruct Hx as (r & Hr & Hx). exists r. split; [|done]. by rewrite <- Hp.
Qed.

(** The kernel heap implements the allocator interface. *)
#[export] Instance kmemory_allocator : Allocator St.
Proof.
  refine {| alloc := kmalloc; release := kfree; alloc_inv := heap_alloc_inv;
            alloc_run := kmalloc_alloc_run; release_run := kfree_release_run |}.
  - intros s rs rs' Hp (bs & Hrep & Hp'). exists bs. by rewrite <- Hp.
  - intros s rs r (bs & [Hok _] & Hp) Hin. rewrite Hp in Hin.
    apply list_elem_of_fmap in Hin as (b & -> & [_ Hb]%elem_of_live).
    pose proof (blocks_ok_addr _ _ _ Hok Hb). unfold mapped, region. hdr. cbn. lia.
  - intros s r rs r' (bs & [Hok _] & Hp) Hin.
    destruct (Permutation_map_inv _ _ Hp) as (l & Hl & Hp').
    destruct l as [|b l]; [done|]. cbn in Hl. simplify_eq.
    apply list_elem_of_fmap in Hin as (b' & -> & Hb'). by eapply live_apart.
  - intros s rs m' (bs & [Hok Hc] & Hp) Hfr. exists bs. split; [|done]. split; [done|].
    lens. eapply chain_ext_headers; [exact Hc|]. intros x Ho%in_headers_owned.
    apply Hfr. intros (r & Hr & Hx). eapply live_not_owned; [exact Hok| |exact Ho].
    exists r. split; [|done]. by rewrite <- Hp.
Defined.
End theorems.

(** ** Sequences of calls *)

Inductive heap_call : Type :=
  | Malloc (size : Z)
  | Free (ptr : Z).

(** A client may free NULL or a block that is handed out. *)
Definition is_live (p : Z) (b : block) : bool := negb (b_free b) && (b_addr b + HDR =? p).

Definition spec_call (c : heap_call) (bs : list block) : option (Z * list block) :=
  match c with
  | Malloc size =>
      if size =? 0 then Some (NULL, bs)
      else Some (default (NULL, bs) (alloc_spec size bs))
  | Free p =>
      if p =? NULL then Some (NULL, bs)
      else if existsb (is_live p) bs then Some (NULL, free_spec p bs) else None
  end.

Fixpoint spec_calls (cs : list heap_call) (bs : list block) : option (list Z * list block) :=
  match cs with
  | [] => Some ([], bs)
  | c :: cs' =>
      '(p, bs1) ← spec_call c bs;
      '(ps, bs2) ← spec_calls cs' bs1;
      Some (p :: ps, bs2)
  end.

Definition call_ok (c : heap_call) : Prop :=
  match c with Malloc size => 0 ≤ size < 4294967296 | Free _ => True end.

Section calls.
Context {St : Type} `{LM : Lens St mem} `{LH : Lens St HeapStatics}.
Context {AP : Apart LM LH}.

Definition run_call (c : heap_call) : M St Z :=
  match c with
  | Malloc size => kmalloc size
  | Free p => kfree p ;; mret NULL
  end.

Fixpoint run_calls (cs : list heap_call) : M St (list Z) :=
  match cs with
  | [] => mret []
  | c :: cs' => p ← run_call c; ps ← run_calls cs'; mret (p :: ps)
  end.

Lemma run_call_refines c s bs p bs' :
  heap_rep s bs → call_ok c → spec_call c bs = Some (p, bs') →
  ∃ m' : mem, run_call c s = Ok p (lput m' s) ∧ heap_rep (lput m' s) bs'.
Proof.
  intros Hrep Hok Hspec. destruct c as [size|q]; cbn in *.
  - destruct (Z.eqb_spec size 0) as [->|].
    + injection Hspec as <- <-. exists (lget (T:=mem) s). by rewrite lput_lget.
    + pose proof (kmalloc_refines_spec s bs size Hrep ltac:(lia)) as Hr.
      destruct (alloc_spec size bs) as [[p1 bs1]|]; cbn in Hspec; injection Hspec as <- <-.
      * destruct Hr as (m' & ? & ? & _). by exists m'.
      * exists (lget (T:=mem) s). by rewrite lput_lget.
  - unfold run_call. destruct (Z.eqb_spec q NULL) as [->|Hq].
    + injection Hspec as <- <-. exists (lget (T:=mem) s). by rewrite lput_lget.
    + destruct (existsb (is_live q) bs) eqn:E; [|done]. injection Hspec as <- <-.
      apply existsb_exists in E as (b & Hin%list_elem_of_In & [Hf Hp%Z.eqb_eq]%andb_true_iff).
      apply negb_true_iff in Hf. subst q.
      destruct (kfree_refines_spec s bs b Hrep) as (m' & Hrun & Hrep' & _); [by apply elem_of_live|].
      exists m'. split; [by rewrite (bind_ok _ _ _ _ _ Hrun)|done].
Qed.

(** C1: over any sequence of calls that frees only what was handed out, the
    heap of kmemory.c never faults and never runs forever, returns the
    pointers of the abstract first-fit heap, and represents its blocks. *)
Theorem heap_calls_refine cs s bs ps bs' :
  heap_rep s bs → Forall call_ok cs → spec_calls cs bs = Some (ps, bs') →
  ∃ m' : mem, run_calls cs s = Ok ps (lput m' s) ∧ heap_rep (lput m' s) bs'.
Proof.
  revert s bs ps bs'. induction cs as [|c cs IH]; intros s bs ps bs' Hrep Hok Hspec; cbn in *.
  - injection Hspec as <- <-. exists (lget (T:=mem) s). by rewrite lput_lget.
  - apply Forall_cons in Hok as [Hc Hok].
    destruct (spec_call c bs) as [[p bs1]|] eqn:E1; [|done]. cbn in Hspec.
    destruct (spec_calls cs bs1) as [[ps1 bs2]|] eqn:E2; [|done]. injection Hspec as <- <-.
    destruct (run_call_refines _ _ _ _ _ Hrep Hc E1) as (m1 & Hr1 & Hrep1).
    destruct (IH _ _ _ _ Hrep1 Hok E2) as (m2 & Hr2 & Hrep2).
    rewrite lput_lput in *. exists m2. split; [|done].
    rewrite (bind_ok _ _ _ _ _ Hr1), (bind_ok _ _ _ _ _ Hr2). done.
Qed.

(** C17: when a free block is large enough, [kmalloc] returns a fresh block
    of at least the size asked for, apart from every block in use, and the
    content of the blocks in use is untouched. *)
Theorem kmalloc_serves s bs size :
  heap_rep s bs → 0 < size < 4294967296 →
  (∃ b, b ∈ bs ∧ b_free b = true ∧ size ≤ b_size b) →
  ∃ b' bs' m', kmalloc size s = Ok (b_addr b' + HDR) (lput m' s) ∧
    heap_rep (lput m' s) bs' ∧ size ≤ b_size b' ∧ live bs' ≡ₚ b' :: live bs ∧
    (∀ b, b ∈ live bs → apart (region b') (region b)) ∧
    (∀ x, in_regions (map region (live bs)) x → get8 m' x = get8 (lget s) x).
Proof.
  intros Hrep Hs (b & Hin & Hf & Hfit). pose proof (kmalloc_refines_spec s bs size Hrep Hs) as Hr.
  destruct (alloc_spec size bs) as [[p bs']|] eqn:E.
  - destruct Hr as (m' & Hrun & Hrep' & Hfr). destruct Hrep as [Hok Hc].
    destruct (alloc_spec_ok size bs IDENT_LO p bs' ltac:(lia) Hok E) as (Hok' & b' & -> & Hsz & Hl).
    exists b', bs', m'. split_and!; try done.
    + intros b1 Hb1. by eapply live_apart.
    + intros x Hx. apply Hfr. by eapply live_not_owned.
  - exfalso. rewrite alloc_spec_None in E. specialize (E b Hin Hf). lia.
Qed.

(** C38: [kmalloc] returns NULL exactly when no free block has the size
    asked for (it always returns, and NULL leaves the heap as it was). *)
Theorem kmalloc_null_iff s bs size :
  heap_rep s bs → 0 < size < 4294967296 →
  (∃ s', kmalloc size s = Ok NULL s') ↔ (∀ b, b ∈ bs → b_free b = true → b_size b < size).
Proof.
  intros Hrep Hs. pose proof (kmalloc_refines_spec s bs size Hrep Hs) as Hr.
  rewrite <- alloc_spec_None. destruct (alloc_spec size bs) as [[p bs']|] eqn:E; [|split; eauto].
  split; [|done]. intros (s' & Hnull). destruct Hr as (m' & Hrun & [Hok' _] & _).
  destruct Hrep as [Hok _].
  destruct (alloc_spec_ok size bs IDENT_LO p bs' ltac:(lia) Hok E) as (_ & b' & -> & _ & Hl).
  assert (b' ∈ live bs') as [_ Hin]%elem_of_live by (rewrite Hl; apply list_elem_of_here).
  pose proof (blocks_ok_addr _ _ _ Hok' Hin). rewrite Hrun in Hnull. injection Hnull as Hp _.
  hdr. unfold NULL in *. lia.
Qed.

(** C36: [kfree] of a block in use returns exactly that block to the heap,
    keeps every other block in use with its content, and leaves no two
    neighbouring free blocks. *)
Theorem kfree_returns s bs b :
  heap_rep s bs → b ∈ live bs →
  ∃ bs' m', kfree (b_addr b + HDR) s = Ok tt (lput m' s) ∧ heap_rep (lput m' s) bs' ∧
    live bs ≡ₚ b :: live bs' ∧ no_free_pair bs' ∧
    (∀ x, in_regions (map region (live bs)) x → get8 m' x = get8 (lget s) x).
Proof.
  intros Hrep Hin. destruct (kfree_refines_spec s bs b Hrep Hin) as (m' & Hrun & Hrep' & Hfr).
  destruct Hrep as [Hok _]. destruct (free_spec_ok bs b Hok Hin) as [_ Hl].
  exists (free_spec (b_addr b + HDR) bs), m'. split_and!; try done.
  - unfold free_spec. destruct (map _ bs); [done|]. apply coalesce_no_free_pair.
  - intros x Hx. apply Hfr. intros Ho%in_headers_owned. by eapply live_not_owned.
Qed.

(** C21: both loops over the heap end: on a well-formed list of [k] blocks
    neither the search of [kmalloc] nor the merging walk of [kfree], which
    stays at a block as long as it can grow, makes more than [k + 1] turns,
    and any bound from there on gives the result of the code. *)
Theorem heap_loops_end s bs size n :
  heap_rep s bs → 0 < size < 4294967296 → (length bs < n)%nat →
  (∃ p s', nloop (kmalloc_body size) n (heap_start (lget s)) s = Ok p s' ∧ kmalloc size s = Ok p s') ∧
  ∃ s', nloop kfree_body n (heap_start (lget s)) s = Ok tt s' ∧ ploop kfree_body HEAP_FUEL (heap_start (lget s)) s = Ok tt s'.
Proof.
  intros [Hok Hc] Hs Hn. pose proof (heap_fuel_enough bs Hok) as Hfuel. split.
  - assert (∃ p s', nloop (kmalloc_body size) (S (length bs)) (heap_start (lget s)) s = Ok p s') as (p & s' & R).
    { pose proof (kmalloc_walk size bs IDENT_LO _ s Hs Hok ltac:(done) Hc) as Hw.
      destruct (alloc_spec size bs) as [[p bs']|]; [destruct Hw as (m' & R & _)|]; eauto. }
    exists p, s'. split; [eapply nloop_mono; [exact R|lia]|]. unfold kmalloc. destruct (Z.eqb_spec size 0); [lia|].
    rewrite bind_gets. by eapply ploop_ok.
  - assert (∃ s', nloop kfree_body (S (length bs)) (heap_start (lget s)) s = Ok tt s') as (s' & R).
    { destruct bs as [|b bs]; [rewrite nloop_S; cbn in Hc; unfold kfree_body; rewrite Hc; by exists s|].
      assert (heap_start (lget s) = b_addr b) as E by (by destruct Hc). rewrite E in Hc |- *.
      destruct (kfree_walk bs b IDENT_LO s Hc Hok ltac:(done)) as (m' & R & _). eexists. eapply nloop_mono; [exact R|cbn; lia]. }
    exists s'. split; [eapply nloop_mono; [exact R|lia]|by eapply ploop_ok].
Qed.

(** [kfree] gives a merged block the size of its second half plus a
    header and drops the size of the first: allocating [size] bytes from a
    single free block and freeing them again leaves a heap that is [size]
    bytes smaller. *)
Theorem kmalloc_kfree_leaks s a n size :
  heap_rep s [mkBlock a n true] → 0 < size → size + HDR + 4 ≤ n →
  ∃ m' : mem, (p ← kmalloc size; kfree p) s = Ok tt (lput m' s) ∧
    heap_rep (lput m' s) [mkBlock a (n - size) true].
Proof.
  intros Hrep Hs Hn. pose proof Hrep as [Hok _]. cbn in Hok. hdr.
  pose proof (kmalloc_refines_spec s _ size Hrep ltac:(lia)) as Hr. cbn in Hr. hdr.
  destruct (Z.leb_spec size n); [|lia]. destruct (Z.leb_spec (size + 12 + 4) n); [|lia].
  destruct Hr as (m1 & Hrun & Hrep1 & _). rewrite (bind_ok _ _ _ _ _ Hrun).
  destruct (kfree_refines_spec (lput m1 s) _ (mkBlock a size false) Hrep1) as (m2 & Hrun2 & Hrep2 & _).
  { rewrite !live_cons. cbn. apply list_elem_of_here. }
  exists m2. rewrite lput_lput in *. hdr. split; [done|].
  unfold free_spec, mark_free in Hrep2. cbn in Hrep2. hdr.
  rewrite Z.eqb_refl in Hrep2. destruct (Z.eqb_spec (a + 12 + size + 12) (a + 12)); [lia|].
  cbn in Hrep2. hdr. replace (n - size) with (12 + (n - size - 12)) by lia. done.
Qed.

(** [kmalloc_init] makes a well-formed heap of one free block that ends
    at 0x7FFFFF. *)
Theorem kmalloc_init_heap s start :
  IDENT_LO ≤ start → start + 28 ≤ 0x7FFFFF →
  ∃ s', kmalloc_init start s = Ok tt s' ∧
    heap_rep s' [mkBlock start (0x7FFFFF - start - HDR) true].
Proof.
  intros Hlo Hhi. unfold kmalloc_init, OFF_IS_FREE, OFF_HDR_NEXT. hdr.
  mrun. wraps. eexists. split; [reflexivity|].
  unfold heap_rep. cbn [blocks_ok]. hdr. split.
  - split_and!; lia.
  - lens. cbn [heap_start]. hdr. ldst. wraps. done.
Qed.
End calls.

(** ** The theorems at a concrete heap: 0x401000..0x7FFFFF, just initialised *)

Module HeapExample.
#[local] Existing Instances lens_fst lens_snd.
#[local] Existing Instance apart_fst_snd.

Definition hm0 : mem * HeapStatics :=
  state_of (kmalloc_init (St:=mem * HeapStatics) 0x401000 (∅, mkHeap NULL)).
Definition whole : block := mkBlock 0x401000 4190195 true.

Lemma hm0_rep : heap_rep hm0 [whole].
Proof. split; [|vm_compute; done]. vm_compute. split_and!; done. Qed.

(** A second heap, with two blocks in use. *)
Definition calls2 : list heap_call := [Malloc 20; Malloc 256].
Definition blocks2 : list block :=
  [mkBlock 0x401000 20 false; mkBlock 0x401020 256 false; mkBlock 0x40112C 4189895 true].
Definition hm2 : mem * HeapStatics := state_of (run_calls calls2 hm0).
Lemma hm2_rep : heap_rep hm2 blocks2.
Proof. split; [|vm_compute; done]. vm_compute. split_and!; done. Qed.

Lemma heap_calls_refine_witness :
  ∃ m' : mem, run_calls [Malloc 20; Malloc 256; Free 0x40100C; Malloc 0] hm0 =
      Ok [0x40100C; 0x40102C; NULL; NULL] (lput m' hm0) ∧
    heap_rep (lput m' hm0)
      [mkBlock 0x401000 20 true; mkBlock 0x401020 256 false; mkBlock 0x40112C 4189895 true].
Proof.
  apply (heap_calls_refine _ hm0 [whole]); [exact hm0_rep| |vm_compute; reflexivity].
  repeat constructor; cbn; lia.
Defined.

Lemma kmalloc_serves_witness :
  ∃ b' bs' m', kmalloc 20 hm2 = Ok (b_addr b' + HDR) (lput m' hm2) ∧
    heap_rep (lput m' hm2) bs' ∧ 20 ≤ b_size b' ∧ live bs' ≡ₚ b' :: live blocks2 ∧
    (∀ b, b ∈ live blocks2 → apart (region b') (region b)) ∧
    (∀ x, in_regions (map region (live blocks2)) x → get8 m' x = get8 (lget hm2) x).
Proof.
  apply (kmalloc_serves hm2 blocks2 20); [exact hm2_rep|lia|].
  exists (mkBlock 0x40112C 4189895 true). split_and!; [unfold blocks2; set_solver|done|cbn; lia].
Defined.

Lemma kmalloc_null_iff_witness :
  (∃ s', kmalloc 5000000 hm0 = Ok NULL s') ↔
  (∀ b, b ∈ [whole] → b_free b = true → b_size b < 5000000).
Proof. apply (kmalloc_null_iff hm0 [whole]); [exact hm0_rep|lia]. Defined.

Lemma kfree_returns_witness :
  ∃ bs' m', kfree 0x40102C hm2 = Ok tt (lput m' hm2) ∧ heap_rep (lput m' hm2) bs' ∧
    live blocks2 ≡ₚ mkBlock 0x401020 256 false :: live bs' ∧ no_free_pair bs' ∧
    (∀ x, in_regions (map region (live blocks2)) x → get8 m' x = get8 (lget hm2) x).
Proof.
  apply (kfree_returns hm2 blocks2 (mkBlock 0x401020 256 false)); [exact hm2_rep|].
  apply elem_of_live. split; [done|]. unfold blocks2. set_solver.
Defined.

Lemma heap_loops_end_witness :
  (∃ p s', nloop (kmalloc_body 100) 8 (heap_start (lget hm2)) hm2 = Ok p s' ∧ kmalloc 100 hm2 = Ok p s') ∧
  ∃ s', nloop kfree_body 8 (heap_start (lget hm2)) hm2 = Ok tt s' ∧ ploop kfree_body HEAP_FUEL (heap_start (lget hm2)) hm2 = Ok tt s'.
Proof. apply (heap_loops_end hm2 blocks2 100 8); [exact hm2_rep|lia|cbn; lia]. Defined.

Lemma kmalloc_kfree_leaks_witness :
  ∃ m' : mem, (p ← kmalloc 1000; kfree p) hm0 = Ok tt (lput m' hm0) ∧
    heap_rep (lput m' hm0) [mkBlock 0x401000 (4190195 - 1000) true].
Proof. apply (kmalloc_kfree_leaks hm0 0x401000 4190195 1000); [exact hm0_rep|lia|hdr; lia]. Defined.

Lemma kmalloc_init_heap_witness :
  ∃ s', kmalloc_init 0x401000 (∅ : mem, mkHeap NULL) = Ok tt s' ∧
    heap_rep s' [mkBlock 0x401000 (0x7FFFFF - 0x401000 - HDR) true].
Proof. apply (kmalloc_init_heap (∅ : mem, mkHeap NULL) 0x401000); unfold IDENT_LO; lia. Defined.
End HeapExample.
