(* ===== verification/KString.v ===== *)
(** * KString: C strings in memory (src/kernel/klibc/kstring.c)

    [kstrlen], [kstrncpy] and [kstrncat] over NUL-terminated byte strings in
    memory, and what they do to the strings they are given. *)

From S2P Require Import Prelude Memory.

(** ** The code *)

(** A string cannot be longer than the mapped window: the scan of the model
    gets one turn per byte of it. *)
Definition STR_FUEL : positive := 8388608.

Section kstring.
Context {St : Type} `{LM : Lens St mem}.

Definition kstrlen (str : Z) : M St Z :=
  ploop (λ len, c ← load8 (str + len);
                if c =? 0 then mret (inr len) else mret (inl (len + 1))) STR_FUEL 0.

(** The copying loop of [kstrncpy] and [kstrncat]: at most [limit] bytes. *)
Definition copy_body (src dest limit i : Z) : M St (Z + Z) :=
  c ← load8 (src + i);
  if negb (c =? 0) && (i <? limit)
  then store8 (dest + i) c ;; mret (inl (i + 1))
  else mret (inr i).

Definition kstrncpy (src dest n : Z) : M St Z :=
  if n =? 0 then mret dest else
  i ← ploop (copy_body src dest (n ⊟ 1)) STR_FUEL 0;
  store8 (dest + i) 0 ;;
  mret dest.

Definition kstrncat (dest src n : Z) : M St Z :=
  len ← kstrlen dest;
  let dest_len := u32 len in
  if (n <=? dest_len) || (n =? 0) then mret dest else
  let max_allowed := (n ⊟ dest_len) ⊟ 1 in
  i ← ploop (copy_body src (dest + dest_len) max_allowed) STR_FUEL 0;
  store8 (dest + dest_len + i) 0 ;;
  mret dest.
End kstring.

(** ** Strings in memory *)

(** The bytes [bs], none of them NUL, then NUL, at address [a]. *)
Fixpoint cstr (m : mem) (a : Z) (bs : list Z) : Prop :=
  match bs with
  | [] => get8 m a = 0
  | b :: bs' => get8 m a = b ∧ b ≠ 0 ∧ cstr m (a + 1) bs'
  end.

Abbreviation zlen l := (Z.of_nat (length l)).

Lemma cstr_get m a bs i : cstr m a bs → 0 ≤ i < zlen bs →
  ∃ b, bs !! Z.to_nat i = Some b ∧ get8 m (a + i) = b ∧ b ≠ 0.
Proof.
  revert a i. induction bs as [|b bs IH]; cbn [length cstr]; intros a i Hc Hi; [lia|].
  destruct Hc as (Hb & Hn & Hc). destruct (Z.eq_dec i 0) as [->|].
  - exists b. rewrite Z.add_0_r. done.
  - destruct (IH (a + 1) (i - 1) Hc ltac:(lia)) as (b' & Hl & Hg & Hn').
    exists b'. replace (Z.to_nat i) with (S (Z.to_nat (i - 1))) by lia.
    replace (a + i) with (a + 1 + (i - 1)) by lia. done.
Qed.

Lemma cstr_end m a bs : cstr m a bs → get8 m (a + zlen bs) = 0.
Proof.
  revert a. induction bs as [|b bs IH]; cbn [length cstr]; intros a Hc.
  - by rewrite Z.add_0_r.
  - destruct Hc as (_ & _ & Hc%IH). by replace (a + Z.of_nat (S (length bs))) with (a + 1 + zlen bs) by lia.
Qed.

(** A memory that has the bytes of [bs] at [a] and then NUL holds the string. *)
Lemma cstr_intro m a bs :
  (∀ i b, bs !! i = Some b → get8 m (a + Z.of_nat i) = b ∧ b ≠ 0) →
  get8 m (a + zlen bs) = 0 → cstr m a bs.
Proof.
  revert a. induction bs as [|b bs IH]; cbn [length cstr]; intros a Hb He.
  - by rewrite Z.add_0_r in He.
  - destruct (Hb 0%nat b eq_refl) as [H1 H2]. rewrite Z.add_0_r in H1. split_and!; [done..|].
    apply IH.
    + intros i b' Hi. destruct (Hb (S i) b' Hi) as [H3 H4].
      split; [|done]. by replace (a + 1 + Z.of_nat i) with (a + Z.of_nat (S i)) by lia.
    + by replace (a + 1 + zlen bs) with (a + Z.of_nat (S (length bs))) by lia.
Qed.

Lemma cstr_ext m m' a bs :
  cstr m a bs → (∀ x, a ≤ x ≤ a + zlen bs → get8 m' x = get8 m x) → cstr m' a bs.
Proof.
  revert a. induction bs as [|b bs IH]; cbn [length cstr]; intros a Hc Hx.
  - by rewrite Hx by lia.
  - destruct Hc as (? & ? & Hc). rewrite Hx by lia. split_and!; [done..|].
    apply IH; [done|]. intros. apply Hx. lia.
Qed.

(** ** What the code does *)

Section kstring_run.
Context {St : Type} `{LM : Lens St mem}.

Lemma kstrlen_run a bs (s : St) :
  cstr (lget s) a bs → mapped a (zlen bs + 1) → kstrlen a s = Ok (zlen bs) s.
Proof.
  intros Hc Hm. unfold kstrlen.
  destruct (ploop_rule (λ len, c ← load8 (a + len); if c =? 0 then mret (inr len) else mret (inl (len + 1)))
    (λ i s', s' = s ∧ 0 ≤ i ≤ zlen bs) (λ i s', s' = s ∧ i = zlen bs)
    (λ i, Z.to_nat (zlen bs - i)) STR_FUEL 0 s) as (len & s' & Hrun & -> & ->); [| |unfold STR_FUEL; mapped_tac|done].
  - intros i s1 [-> Hi]. mrun. destruct (Z.eq_dec i (zlen bs)) as [->|].
    + rewrite (cstr_end _ _ _ Hc). right. eexists _, _. split; [reflexivity|done].
    + destruct (cstr_get _ _ _ i Hc ltac:(lia)) as (b & _ & -> & Hn).
      destruct (Z.eqb_spec b 0); [done|]. left. eexists _, _. split; [reflexivity|]. split; [split; [done|lia]|lia].
  - split; [done|lia].
Qed.

(** The copying loop stops at the end of the source or at the limit, having
    copied exactly the bytes before it. *)
Lemma copy_run src dest limit bs (s : St) :
  cstr (lget s) src bs → mapped src (zlen bs + 1) → 0 ≤ limit →
  mapped dest (Z.min (zlen bs) limit) →
  (src + zlen bs < dest ∨ dest + Z.min (zlen bs) limit ≤ src) →
  ∃ m', ploop (copy_body src dest limit) STR_FUEL 0 s = Ok (Z.min (zlen bs) limit) (lput m' s) ∧
    ∀ x, get8 m' x = if (dest <=? x) && (x <? dest + Z.min (zlen bs) limit)
                     then get8 (lget s) (src + (x - dest)) else get8 (lget s) x.
Proof.
  intros Hc Hs Hl Hd Hdisj. set (k := Z.min (zlen bs) limit) in *.
  pose (Inv := λ (i : Z) (m' : mem),
      ∀ x, get8 m' x = if (dest <=? x) && (x <? dest + i)
                       then get8 (lget s) (src + (x - dest)) else get8 (lget s) x).
  destruct (ploop_rule (copy_body src dest limit)
    (λ i s', 0 ≤ i ≤ k ∧ ∃ m', s' = lput m' s ∧ Inv i m')
    (λ i s', i = k ∧ ∃ m', s' = lput m' s ∧ Inv k m')
    (λ i, Z.to_nat (k - i)) STR_FUEL 0 s) as (i & s' & Hrun & -> & m' & -> & Hx).
  - intros i s1 (Hi & m1 & -> & Hm1). unfold copy_body. mrun.
    assert (get8 m1 (src + i) = get8 (lget s) (src + i)) as ->.
    { rewrite Hm1. zbool; cbn; try done; lia. }
    destruct (Z.eq_dec i (zlen bs)) as [->|].
    + rewrite (cstr_end _ _ _ Hc). cbn. right. eexists _, _. split; [reflexivity|].
      assert (k = zlen bs) as -> by lia. split; [done|]. by eexists.
    + destruct (cstr_get _ _ _ i Hc ltac:(lia)) as (b & Hb & Hg & Hn). rewrite Hg.
      destruct (Z.eqb_spec b 0); [done|]. cbn [negb andb].
      destruct (Z.ltb_spec i limit).
      * mrun. left. eexists _, _. split; [reflexivity|]. split; [|lia]. split; [lia|].
        eexists. split; [done|]. intros x. destruct (Z.eq_dec (dest + i) x) as [<-|].
        -- rewrite get8_set8. replace (dest + i - dest) with i by lia. rewrite Hg.
           rewrite u8_small; [zbool; cbn; try lia; done|]. rewrite <- Hg. apply get8_range.
        -- rewrite get8_set8_ne, Hm1 by done. zbool; cbn; try lia; done.
      * right. eexists _, _. split; [reflexivity|]. assert (i = k) as -> by lia.
        split; [done|]. by eexists.
  - split; [lia|]. exists (lget s). rewrite lput_lget. split; [done|].
    intros x. zbool; cbn; try lia; done.
  - unfold STR_FUEL. mapped_tac.
  - by exists m'.
Qed.

Lemma lookup_take_lt {A} (l : list A) (n i : nat) x : take n l !! i = Some x → l !! i = Some x ∧ (i < n)%nat.
Proof. intros H. apply lookup_take_Some in H. done. Qed.

Lemma take_take_app {A} n (l1 l2 : list A) : take n (take n l1 ++ l2) = take n (l1 ++ l2).
Proof. rewrite !take_app, take_take, length_take, Nat.min_id. do 2 f_equal. lia. Qed.

(** [kstrncpy] leaves in [dest] the first [n - 1] bytes of the source,
    always terminated, and writes nothing else. *)
Lemma kstrncpy_run src dest n bs (s : St) :
  cstr (lget s) src bs → mapped src (zlen bs + 1) → 0 < n < 4294967296 →
  let k := Z.min (zlen bs) (n - 1) in
  mapped dest (k + 1) → (src + zlen bs < dest ∨ dest + k < src) →
  ∃ m', kstrncpy src dest n s = Ok dest (lput m' s) ∧
    cstr m' dest (take (Z.to_nat (n - 1)) bs) ∧
    (∀ x, ¬ (dest ≤ x ≤ dest + k) → get8 m' x = get8 (lget s) x).
Proof.
  intros Hc Hs Hn k Hd Hdisj. unfold kstrncpy. destruct (Z.eqb_spec n 0); [lia|]. wraps.
  destruct (copy_run src dest (n - 1) bs s) as (m1 & Hrun & Hm1); [done|done|lia|mapped_tac|lia|].
  rewrite (bind_ok _ _ _ _ _ Hrun). fold k in Hm1 |- *. mrun.
  eexists. split; [reflexivity|].
  assert (zlen (take (Z.to_nat (n - 1)) bs) = k) as Hlen by (rewrite length_take; lia).
  split.
  - apply cstr_intro.
    + intros i b [Hb Hi]%lookup_take_lt. pose proof (lookup_lt_Some _ _ _ Hb).
      rewrite get8_set8_ne, Hm1 by lia.
      destruct (cstr_get _ _ _ (Z.of_nat i) Hc ltac:(lia)) as (b' & Hb' & Hg & Hnz).
      rewrite Nat2Z.id, Hb in Hb'. injection Hb' as <-.
      replace (dest + Z.of_nat i - dest) with (Z.of_nat i) by lia. rewrite Hg. split; [|done].
      zbool; cbn; try lia; done.
    + by rewrite Hlen, get8_set8.
  - intros x Hx. rewrite get8_set8_ne, Hm1 by lia. zbool; cbn; try lia; done.
Qed.

(** [kstrncat] leaves in [dest] the first [n - 1] bytes of the
    concatenation. *)
Lemma kstrncat_run dest src n ds bs (s : St) :
  cstr (lget s) dest ds → cstr (lget s) src bs → mapped src (zlen bs + 1) →
  zlen ds < n < 4294967296 →
  let k := Z.min (zlen bs) (n - zlen ds - 1) in
  mapped dest (zlen ds + k + 1) → (src + zlen bs < dest ∨ dest + zlen ds + k < src) →
  ∃ m', kstrncat dest src n s = Ok dest (lput m' s) ∧
    cstr m' dest (take (Z.to_nat (n - 1)) (ds ++ bs)) ∧
    (∀ x, ¬ (dest + zlen ds ≤ x ≤ dest + zlen ds + k) → get8 m' x = get8 (lget s) x).
Proof.
  intros Hcd Hc Hs Hn k Hd Hdisj. unfold kstrncat.
  rewrite (bind_ok _ _ _ _ _ (kstrlen_run dest ds s Hcd ltac:(mapped_tac))). cbn beta zeta. wraps.
  destruct (Z.leb_spec n (zlen ds)); [lia|]. destruct (Z.eqb_spec n 0); [lia|]. cbn [orb].
  destruct (copy_run src (dest + zlen ds) (n - zlen ds - 1) bs s) as (m1 & Hrun & Hm1);
    [done|done|lia|mapped_tac|lia|].
  rewrite (bind_ok _ _ _ _ _ Hrun). fold k in Hm1 |- *. mrun.
  eexists. split; [reflexivity|].
  assert (take (Z.to_nat (n - 1)) (ds ++ bs) = ds ++ take (Z.to_nat k) bs) as ->.
  { rewrite take_app. rewrite (take_ge ds) by lia. f_equal.
    unfold k. destruct (Z.min_spec (zlen bs) (n - zlen ds - 1)) as [[? ->]|[? ->]];
      [rewrite !take_ge by lia; done|f_equal; lia]. }
  assert (zlen (ds ++ take (Z.to_nat k) bs) = zlen ds + k) as Hlen by (rewrite length_app, length_take; lia).
  split.
  - apply cstr_intro.
    + intros i b Hb. pose proof (lookup_lt_Some _ _ _ Hb). rewrite get8_set8_ne, Hm1 by lia.
      apply lookup_app_Some in Hb as [Hb|[Hi [Hb Hi']%lookup_take_lt]].
      * pose proof (lookup_lt_Some _ _ _ Hb).
        destruct (cstr_get _ _ _ (Z.of_nat i) Hcd ltac:(lia)) as (b' & Hb' & Hg & Hnz).
        rewrite Nat2Z.id, Hb in Hb'. injection Hb' as <-. split; [|done].
        zbool; cbn; try lia; done.
      * pose proof (lookup_lt_Some _ _ _ Hb).
        destruct (cstr_get _ _ _ (Z.of_nat (i - length ds)) Hc ltac:(lia)) as (b' & Hb' & Hg & Hnz).
        rewrite Nat2Z.id, Hb in Hb'. injection Hb' as <-. split; [|done].
        replace (dest + Z.of_nat i - (dest + zlen ds)) with (Z.of_nat (i - length ds)) by lia.
        zbool; cbn; try lia; done.
    + rewrite Hlen. replace (dest + (zlen ds + k)) with (dest + zlen ds + k) by lia. by rewrite get8_set8.
  - intros x Hx. rewrite get8_set8_ne, Hm1 by lia. zbool; cbn; try lia; done.
Qed.
(** C26: a caller that copies one string into a buffer of [n] bytes and
    appends another, telling both calls the size of the buffer, always finds
    there as much of the concatenation as fits with its NUL, however long the
    two are, and no byte outside the buffer changes. *)
Theorem kstr_append_bounded src1 src2 dest n bs1 bs2 (s : St) :
  cstr (lget s) src1 bs1 → mapped src1 (zlen bs1 + 1) → (src1 + zlen bs1 < dest ∨ dest + n ≤ src1) →
  cstr (lget s) src2 bs2 → mapped src2 (zlen bs2 + 1) → (src2 + zlen bs2 < dest ∨ dest + n ≤ src2) →
  0 < n < 4294967296 → mapped dest n →
  ∃ m', (d ← kstrncpy src1 dest n; kstrncat d src2 n) s = Ok dest (lput m' s) ∧
    cstr m' dest (take (Z.to_nat (n - 1)) (bs1 ++ bs2)) ∧
    (∀ x, ¬ (dest ≤ x < dest + n) → get8 m' x = get8 (lget s) x).
Proof.
  intros Hc1 Hs1 Ha1 Hc2 Hs2 Ha2 Hn Hd.
  destruct (kstrncpy_run src1 dest n bs1 s) as (m1 & R1 & Hd1 & Ho1); [done|done|done|mapped_tac|lia|].
  set (ds := take (Z.to_nat (n - 1)) bs1) in *.
  assert (zlen ds = Z.min (zlen bs1) (n - 1)) as Hlen by (unfold ds; rewrite length_take; lia).
  destruct (kstrncat_run dest src2 n ds bs2 (lput m1 s)) as (m2 & R2 & Hd2 & Ho2).
  all: rewrite ?lget_lput; try done; try lia; try mapped_tac.
  { apply (cstr_ext (lget s)); [done|]. intros x Hx. apply Ho1. lia. }
  rewrite (bind_ok _ _ _ _ _ R1), R2, lput_lput. exists m2. split; [done|split].
  - by rewrite <- take_take_app.
  - intros x Hx. rewrite Ho2 by lia. rewrite lget_lput. apply Ho1. lia.
Qed.
End kstring_run.

(** ** Example *)

Module StringExample.

#[local] Instance lens_mem : Lens mem mem := lens_id.

(** "Hi" at 0x9000, "all" at 0x9010. *)
Definition m0 : mem :=
  set8 (set8 (set8 (set8 (set8 ∅ 0x9000 72) 0x9001 105) 0x9010 97) 0x9011 108) 0x9012 108.

(** A buffer of five bytes gets "Hial". *)
Example append_example :
  match (d ← kstrncpy 0x9000 0x9100 5; kstrncat d 0x9010 5) m0 with
  | Ok d m => map (λ i, get8 m (d + i)) [0; 1; 2; 3; 4; 5]
  | Stop _ _ => []
  end = [72; 105; 97; 108; 0; 0].
Proof. vm_compute. reflexivity. Qed.

Lemma kstr_append_bounded_witness :
  ∃ m' : mem, (d ← kstrncpy 0x9000 0x9100 5; kstrncat d 0x9010 5) m0 = Ok 0x9100 (lput m' m0) ∧
    cstr m' 0x9100 (take (Z.to_nat (5 - 1)) ([72; 105] ++ [97; 108; 108])) ∧
    (∀ x, ¬ (0x9100 ≤ x < 0x9100 + 5) → get8 m' x = get8 (lget m0) x).
Proof.
  apply (kstr_append_bounded 0x9000 0x9010 0x9100 5 [72; 105] [97; 108; 108] m0);
    try (vm_compute; intuition discriminate); unfold mapped, IDENT_LO, IDENT_HI; cbn; lia.
Defined.
End StringExample.
