(* ===== verification/ListDS.v ===== *)
(** * ListDS: intrusive circular doubly-linked lists (src/kernel/ds/list.c)

    A [List] is a root node whose [next]/[prev] close the circle, a size, an
    error code and an error message. The nodes are embedded in their owners;
    the lists of the scheduler run through [ProcessControlBlock.sched_node].
    The theorems relate the pointers in memory to the sequence of nodes. *)

From S2P Require Import Prelude Memory Alloc KMemory KString.

(** ** The code *)

(** [ListNode]: [next] at 0, [prev] at 4. [List]: [root] at 0, [size] at 8,
    [err_code] at 12, [err_msg] at 16; 20 bytes. *)
Definition OFF_NEXT : Z := 0.
Definition OFF_PREV : Z := 4.
Definition OFF_SIZE : Z := 8.
Definition OFF_ERR_CODE : Z := 12.
Definition OFF_ERR_MSG : Z := 16.
Definition SIZEOF_LIST : Z := 20.
Definition MAX_ERR_LENGTH : Z := 256.

(** [list_free] pops at most one node per turn; a list in the mapped window
    has fewer than 2^20 nodes. *)
Definition LIST_FUEL : positive := 2097152.

(** Addresses the linker gives to the string literals of the file. *)
Record ListLiterals : Type := mkLits {
  lit_pop_head : Z;   (* "ERROR in list_pop_head: list is empty" *)
  lit_pop_tail : Z;   (* "ERROR in list_pop_tail: list is empty" *)
  lit_invalid : Z     (* "Invalid list pointer" *)
}.

Section list_code.
Context {St : Type} `{LM : Lens St mem} (lits : ListLiterals).

Definition list_init {AL : Allocator St} (err_check : Z) : M St Z :=
  new_list ← alloc SIZEOF_LIST;
  if new_list =? NULL then store32 err_check 1 ;; mret NULL else
  msg ← alloc (MAX_ERR_LENGTH * 1);
  store32 (new_list + OFF_ERR_MSG) msg ;;
  msg' ← load32 (new_list + OFF_ERR_MSG);
  if msg' =? NULL then release new_list ;; store32 err_check 1 ;; mret NULL else
  store32 (new_list + OFF_NEXT) new_list ;;
  store32 (new_list + OFF_PREV) new_list ;;
  store32 (new_list + OFF_SIZE) 0 ;;
  store32 (new_list + OFF_ERR_CODE) 0 ;;
  mret new_list.

Definition __list_add (new_node prev next : Z) : M St unit :=
  store32 (next + OFF_PREV) new_node ;;
  store32 (new_node + OFF_NEXT) next ;;
  store32 (new_node + OFF_PREV) prev ;;
  store32 (prev + OFF_NEXT) new_node.

Definition list_push_head (list new_node : Z) : M St Z :=
  if (list =? NULL) || (new_node =? NULL) then mret 1 else
  next ← load32 (list + OFF_NEXT);
  __list_add new_node list next ;;
  size ← load32 (list + OFF_SIZE);
  store32 (list + OFF_SIZE) (size ⊞ 1) ;;
  mret 0.

Definition list_push_tail (list new_node : Z) : M St Z :=
  if (list =? NULL) || (new_node =? NULL) then mret 1 else
  prev ← load32 (list + OFF_PREV);
  __list_add new_node prev list ;;
  size ← load32 (list + OFF_SIZE);
  store32 (list + OFF_SIZE) (size ⊞ 1) ;;
  mret 0.

Definition list_remove_node (list node : Z) : M St Z :=
  if (list =? NULL) || (node =? NULL) || (node =? list) then mret 1 else
  size ← load32 (list + OFF_SIZE);
  if size =? 0 then mret 1 else
  prev ← load32 (node + OFF_PREV);
  next ← load32 (node + OFF_NEXT);
  store32 (prev + OFF_NEXT) next ;;
  next ← load32 (node + OFF_NEXT);
  prev ← load32 (node + OFF_PREV);
  store32 (next + OFF_PREV) prev ;;
  store32 (node + OFF_NEXT) NULL ;;
  store32 (node + OFF_PREV) NULL ;;
  size ← load32 (list + OFF_SIZE);
  store32 (list + OFF_SIZE) (size ⊟ 1) ;;
  mret 0.

(** [!list || list->size == 0], the second operand read only when needed. *)
Definition list_empty_check (list : Z) : M St bool :=
  if list =? NULL then mret true else
  size ← load32 (list + OFF_SIZE);
  mret (size =? 0).

(** The failing branch of the two pops: note the order of the arguments of
    [kstrncpy], source first. *)
Definition list_pop_error (list literal : Z) : M St Z :=
  store32 (list + OFF_ERR_CODE) 1 ;;
  msg ← load32 (list + OFF_ERR_MSG);
  kstrncpy msg literal MAX_ERR_LENGTH ;;
  mret NULL.

Definition list_pop_head (list : Z) : M St Z :=
  empty ← list_empty_check list;
  if (empty : bool) then list_pop_error list (lit_pop_head lits) else
  target ← load32 (list + OFF_NEXT);
  list_remove_node list target ;;
  mret target.

Definition list_pop_tail (list : Z) : M St Z :=
  empty ← list_empty_check list;
  if (empty : bool) then list_pop_error list (lit_pop_tail lits) else
  target ← load32 (list + OFF_PREV);
  list_remove_node list target ;;
  mret target.

Definition list_get_size (list : Z) : M St Z :=
  if list =? NULL then mret 0 else load32 (list + OFF_SIZE).

Definition list_get_error_code (list : Z) : M St Z :=
  if list =? NULL then mret 1 else load32 (list + OFF_ERR_CODE).

Definition list_get_err_msg (list : Z) : M St Z :=
  if list =? NULL then mret (lit_invalid lits) else load32 (list + OFF_ERR_MSG).

Definition list_free {AL : Allocator St} (list : Z) : M St unit :=
  if list =? NULL then mret tt else
  ploop (λ _ : unit,
    size ← load32 (list + OFF_SIZE);
    if 0 <? size then list_pop_head list ;; mret (inl tt) else mret (inr tt)) LIST_FUEL tt ;;
  msg ← load32 (list + OFF_ERR_MSG);
  release msg ;;
  release list.
End list_code.

(** ** Paths of linked nodes *)

(** Neighbours in [ps] point at each other. *)
Fixpoint path (m : mem) (ps : list Z) : Prop :=
  match ps with
  | [] => True
  | p :: rest =>
      match rest with [] => True | q :: _ => ld32 m p = q ∧ ld32 m (q + 4) = p end ∧ path m rest
  end.

Lemma path_app m xs p q ys :
  path m (xs ++ p :: q :: ys) ↔
  path m (xs ++ [p]) ∧ ld32 m p = q ∧ ld32 m (q + 4) = p ∧ path m (q :: ys).
Proof.
  induction xs as [|x xs IH]; [cbn; tauto|].
  destruct xs as [|x' xs]; cbn in *; tauto.
Qed.

(** Node cells: equal or at least 8 bytes apart. *)
Definition sep (x y : Z) : Prop := x = y ∨ x + 8 ≤ y ∨ y + 8 ≤ x.

(** A path reads the [next] of all its nodes but the last and the [prev] of
    all but the first. *)
Lemma path_ext m m' ps :
  path m ps →
  (∀ xs x y ys, ps = xs ++ x :: y :: ys → ld32 m' x = ld32 m x ∧ ld32 m' (y + 4) = ld32 m (y + 4)) →
  path m' ps.
Proof.
  induction ps as [|p ps IH]; [done|]. intros [Hp Hps] Hx. split.
  - destruct ps as [|q ps]; [done|]. destruct (Hx [] p q ps eq_refl) as [-> ->]. done.
  - apply IH; [done|]. intros xs x y ys ->. apply (Hx (p :: xs) x y ys). done.
Qed.

(** The effect on a path of writing one link. *)
Lemma path_write_next m ps p v :
  path m ps → (∀ x, x ∈ ps → sep x p) → (∀ xs ys, ps = xs ++ p :: ys → ys = []) →
  path (st32 m p v) ps.
Proof.
  intros Hp Hsep Hlast. eapply path_ext; [done|]. intros xs x y ys ->.
  assert (sep x p) as Hx by (apply Hsep; set_solver).
  assert (sep y p) as Hy by (apply Hsep; set_solver).
  assert (x ≠ p) as Hne by (intros ->; by specialize (Hlast _ _ eq_refl)).
  unfold sep in *. rewrite !ld32_st32_ne by lia. done.
Qed.

Lemma path_write_prev m ps q v :
  path m ps → (∀ x, x ∈ ps → sep x q) → (∀ xs ys, ps = xs ++ q :: ys → xs = []) →
  path (st32 m (q + 4) v) ps.
Proof.
  intros Hp Hsep Hfirst. eapply path_ext; [done|]. intros xs x y ys ->.
  assert (sep x q) as Hx by (apply Hsep; set_solver).
  assert (sep y q) as Hy by (apply Hsep; set_solver).
  assert (y ≠ q) as Hne.
  { intros ->. assert (xs ++ [x] = []) as He; [|by destruct xs].
    apply (Hfirst _ ys). by rewrite <- app_assoc. }
  unfold sep in *. rewrite !ld32_st32_ne by lia. done.
Qed.

(** A write away from the cells of a path. *)
Lemma path_write_out m ps a v :
  path m ps → (∀ x, x ∈ ps → a + 4 ≤ x ∨ x + 8 ≤ a) → path (st32 m a v) ps.
Proof.
  intros Hp Ha. eapply path_ext; [done|]. intros xs x y ys ->.
  assert (a + 4 ≤ x ∨ x + 8 ≤ a) by (apply Ha; set_solver).
  assert (a + 4 ≤ y ∨ y + 8 ≤ a) by (apply Ha; set_solver).
  rewrite !ld32_st32_ne by lia. done.
Qed.

(** ** Insertion and removal in a circle *)

(** The circle of a list [l] with nodes [ns]. *)
Definition circle (l : Z) (ns : list Z) : list Z := l :: ns ++ [l].

(** Everything in the circle's cells is pairwise separate, and each node
    occurs once. *)
Definition cells_sep (l : Z) (ns : list Z) : Prop :=
  NoDup (l :: ns) ∧ ∀ x y, x ∈ l :: ns → y ∈ l :: ns → sep x y.

Lemma nodup_occurs_last (xs : list Z) p xs' ys' :
  NoDup (xs ++ [p]) → xs ++ [p] = xs' ++ p :: ys' → ys' = [].
Proof.
  intros Hnd Heq. destruct (exists_last (l:=p :: ys') ltac:(done)) as (zs & z & Hz).
  rewrite Hz, app_assoc in Heq. apply app_inj_tail in Heq as [-> <-].
  destruct zs as [|z' zs]; [by injection Hz|]. injection Hz as -> ->.
  apply NoDup_app in Hnd as (_ & Hd & _). exfalso. apply (Hd z'); set_solver.
Qed.

Lemma nodup_occurs_first (ys : list Z) q xs' ys' :
  NoDup (q :: ys) → q :: ys = xs' ++ q :: ys' → xs' = [].
Proof.
  intros [Hq _]%NoDup_cons Heq. destruct xs' as [|x xs']; [done|].
  injection Heq as -> ->. exfalso. apply Hq. set_solver.
Qed.

Lemma occurs_init (ns : list Z) l p xs' ys' :
  p ∉ ns → ns ++ [l] = xs' ++ p :: ys' → ys' = [].
Proof.
  intros Hp Heq. destruct (decide (ys' = [])) as [|Hne]; [done|]. exfalso. apply Hp.
  destruct (exists_last Hne) as (zs & z & ->).
  rewrite app_comm_cons, app_assoc in Heq. apply app_inj_tail in Heq as [-> _]. set_solver.
Qed.

Lemma occurs_tail (ns : list Z) l q xs' ys' :
  q ∉ ns → l :: ns = xs' ++ q :: ys' → xs' = [].
Proof.
  intros Hq Heq. destruct xs' as [|x xs']; [done|]. injection Heq as -> ->.
  exfalso. apply Hq. set_solver.
Qed.

Section circle_ops.
Context (m : mem) (l : Z) (ns1 ns2 : list Z) (p q : Z) (xs ys : list Z).
Context (HL : l :: ns1 = xs ++ [p]) (HR : ns2 ++ [l] = q :: ys).
Context (Hcs : cells_sep l (ns1 ++ ns2)).

Lemma in_left x : x ∈ xs ++ [p] → x ∈ l :: ns1 ++ ns2.
Proof. rewrite <- HL. set_solver. Qed.
Lemma in_right x : x ∈ q :: ys → x ∈ l :: ns1 ++ ns2.
Proof. rewrite <- HR. set_solver. Qed.
Lemma p_left : p ∈ l :: ns1.
Proof. rewrite HL. set_solver. Qed.
Lemma q_right : q ∈ ns2 ++ [l].
Proof. rewrite HR. set_solver. Qed.
Lemma p_in : p ∈ l :: ns1 ++ ns2.
Proof. apply in_left. set_solver. Qed.
Lemma q_in : q ∈ l :: ns1 ++ ns2.
Proof. apply in_right. set_solver. Qed.

Lemma left_nodup : NoDup (xs ++ [p]).
Proof.
  rewrite <- HL. destruct Hcs as [Hnd _]. rewrite app_comm_cons in Hnd. by apply NoDup_app in Hnd as [? _].
Qed.
Lemma right_nodup : NoDup (q :: ys).
Proof.
  rewrite <- HR. destruct Hcs as [[Hl Hnd]%NoDup_cons _]. apply NoDup_app in Hnd as (_ & _ & Hnd).
  apply NoDup_app. split_and!; [done| |apply NoDup_singleton]. set_solver.
Qed.
Lemma p_not_right : p ∉ ns2.
Proof.
  destruct Hcs as [[Hl Hnd]%NoDup_cons _]. apply NoDup_app in Hnd as (_ & Hd & _).
  pose proof p_left as Hp. apply elem_of_cons in Hp as [->|Hp]; set_solver.
Qed.
Lemma q_not_left : q ∉ ns1.
Proof.
  destruct Hcs as [[Hl Hnd]%NoDup_cons _]. apply NoDup_app in Hnd as (_ & Hd & _).
  pose proof q_right as Hq. apply elem_of_app in Hq as [Hq|Hq]; set_solver.
Qed.

(** Redirecting [p]'s next and [q]'s prev disturbs neither half. *)
Lemma halves_kept m1 v w :
  path m1 (xs ++ [p]) → path m1 (q :: ys) →
  let m2 := st32 (st32 m1 (q + 4) v) p w in
  path m2 (xs ++ [p]) ∧ path m2 (q :: ys).
Proof.
  intros H1 H2 m2. destruct Hcs as [_ Hsep].
  assert (∀ x y, x ∈ l :: ns1 ++ ns2 → y ∈ l :: ns1 ++ ns2 → sep x y) as Hs by done.
  split; unfold m2; apply path_write_next; try apply path_write_prev; try done.
  - intros x Hx. apply Hs; [by apply in_left|apply q_in].
  - intros xs' ys'. rewrite <- HL. apply occurs_tail, q_not_left.
  - intros x Hx. apply Hs; [by apply in_left|apply p_in].
  - intros xs' ys'. apply nodup_occurs_last, left_nodup.
  - intros x Hx. apply Hs; [by apply in_right|apply q_in].
  - intros xs' ys'. apply nodup_occurs_first, right_nodup.
  - intros x Hx. apply Hs; [by apply in_right|apply p_in].
  - intros xs' ys'. rewrite <- HR. apply occurs_init, p_not_right.
Qed.

Lemma insert_path n :
  (∀ x, x ∈ l :: ns1 ++ ns2 → n + 8 ≤ x ∨ x + 8 ≤ n) →
  0 ≤ p < 4294967296 → 0 ≤ q < 4294967296 → 0 ≤ n < 4294967296 →
  path m (circle l (ns1 ++ ns2)) →
  path (st32 (st32 (st32 (st32 m (q + 4) n) n q) (n + 4) p) p n) (circle l (ns1 ++ n :: ns2)).
Proof.
  intros Hn Hp Hq Hnr Hpath. unfold circle in *.
  rewrite <- app_assoc, app_comm_cons, HL, HR, <- app_assoc in Hpath. cbn in Hpath.
  apply path_app in Hpath as (Hl & Hpq & Hqp & Hr).
  rewrite <- app_assoc, app_comm_cons, HL. cbn. rewrite HR, <- app_assoc. cbn.
  pose proof (Hn p p_in). pose proof (Hn q q_in).
  assert (sep p q) as Hspq by (destruct Hcs as [_ Hs]; apply Hs; [apply p_in|apply q_in]).
  assert (path (st32 (st32 m n q) (n + 4) p) (xs ++ [p])) as Hl'.
  { apply path_write_out; [apply path_write_out; [done|]|];
      intros x Hx; pose proof (Hn x (in_left x Hx)); lia. }
  assert (path (st32 (st32 m n q) (n + 4) p) (q :: ys)) as Hr'.
  { apply path_write_out; [apply path_write_out; [done|]|];
      intros x Hx; pose proof (Hn x (in_right x Hx)); lia. }
  destruct (halves_kept _ n n Hl' Hr') as [Hl2 Hr2].
  assert (∀ ps, path (st32 (st32 (st32 (st32 m n q) (n + 4) p) (q + 4) n) p n) ps →
    path (st32 (st32 (st32 (st32 m (q + 4) n) n q) (n + 4) p) p n) ps) as Hcomm.
  { intros ps Hps. eapply path_ext; [exact Hps|]. intros ? x y ? ->.
    assert (∀ a, ld32 (st32 (st32 (st32 (st32 m (q + 4) n) n q) (n + 4) p) p n) a =
      ld32 (st32 (st32 (st32 (st32 m n q) (n + 4) p) (q + 4) n) p n) a) as Hld; [|by rewrite !Hld].
    intros a. apply get8_ext_ld32. intros z _. unfold st32, get8, set8.
    rewrite !lookup_insert. repeat case_decide; try done; lia. }
  apply path_app. split_and!.
  - by apply Hcomm.
  - ldst. by wraps.
  - unfold sep in *. ldst. by wraps.
  - split; [|by apply Hcomm]. unfold sep in *. split.
    + ldst. by wraps.
    + ldst. by wraps.
Qed.

Lemma remove_path n :
  (∀ x, x ∈ l :: ns1 ++ ns2 → n + 8 ≤ x ∨ x + 8 ≤ n) →
  0 ≤ p < 4294967296 → 0 ≤ q < 4294967296 →
  path m (circle l (ns1 ++ n :: ns2)) →
  ld32 m (n + 4) = p ∧ ld32 m n = q ∧
  path (st32 (st32 (st32 (st32 m p q) (q + 4) p) n NULL) (n + 4) NULL) (circle l (ns1 ++ ns2)).
Proof.
  intros Hn Hp Hq Hpath. unfold circle in *.
  rewrite <- app_assoc, app_comm_cons, HL in Hpath. cbn in Hpath.
  rewrite HR, <- app_assoc in Hpath. cbn in Hpath.
  apply path_app in Hpath as (Hl & Hpn & Hnp & [[Hnq Hqn] Hr]). split_and!; [done..|].
  rewrite <- app_assoc, app_comm_cons, HL, HR, <- app_assoc. cbn.
  pose proof (Hn p p_in). pose proof (Hn q q_in).
  assert (sep p q) as Hspq by (destruct Hcs as [_ Hs]; apply Hs; [apply p_in|apply q_in]).
  destruct (halves_kept _ p q Hl Hr) as [Hl2 Hr2].
  assert (∀ ps, (∀ x, x ∈ ps → x ∈ l :: ns1 ++ ns2) → path (st32 (st32 m (q + 4) p) p q) ps →
    path (st32 (st32 (st32 (st32 m p q) (q + 4) p) n NULL) (n + 4) NULL) ps) as Hcomm.
  { intros ps Hin Hps. apply path_write_out; [apply path_write_out|];
      [|intros x Hx; pose proof (Hn x (Hin x Hx)); lia..].
    eapply path_ext; [exact Hps|]. intros ? x y ? ->. unfold sep in Hspq.
    assert (∀ a, ld32 (st32 (st32 m p q) (q + 4) p) a = ld32 (st32 (st32 m (q + 4) p) p q) a) as Hld;
      [|by rewrite !Hld].
    intros a. apply get8_ext_ld32. intros z _. unfold st32, get8, set8.
    rewrite !lookup_insert. repeat case_decide; try done; lia. }
  apply path_app. unfold sep in *. split_and!.
  - apply Hcomm; [apply in_left|done].
  - ldst. by wraps.
  - ldst. by wraps.
  - apply Hcomm; [apply in_right|done].
Qed.
End circle_ops.

(** ** The representation of a list *)

(** The [List] at [l] has the nodes [ns], in order. *)
Record list_rep (m : mem) (l : Z) (ns : list Z) : Prop := {
  lr_mapped : mapped l SIZEOF_LIST;
  lr_nodes : ∀ n, n ∈ ns → mapped n 8 ∧ (n + 8 ≤ l ∨ l + SIZEOF_LIST ≤ n);
  lr_sep : cells_sep l ns;
  lr_path : path m (circle l ns);
  lr_size : ld32 m (l + OFF_SIZE) = zlen ns
}.

(** A node that may be added. *)
Definition fresh (l : Z) (ns : list Z) (n : Z) : Prop :=
  mapped n 8 ∧ (n + 8 ≤ l ∨ l + SIZEOF_LIST ≤ n) ∧ ∀ x, x ∈ ns → n + 8 ≤ x ∨ x + 8 ≤ n.

(** The bytes the list operations may write: root, size and node cells. *)
Definition list_cells (l : Z) (ns : list Z) (x : Z) : Prop :=
  l ≤ x < l + 12 ∨ ∃ n, n ∈ ns ∧ n ≤ x < n + 8.

Lemma list_rep_length m l ns : list_rep m l ns → zlen ns < IDENT_HI.
Proof.
  intros H. destruct (lr_sep _ _ _ H) as [[_ Hnd]%NoDup_cons _].
  pose proof (length_NoDup_range ns IDENT_LO IDENT_HI Hnd) as Hl.
  assert (∀ x, x ∈ ns → IDENT_LO ≤ x < IDENT_HI) as Hr.
  { intros x Hx. destruct (lr_nodes _ _ _ H x Hx) as [Hm _]. unfold mapped in Hm. lia. }
  specialize (Hl Hr). unfold IDENT_LO, IDENT_HI in *. lia.
Qed.

(** Cells are 8 bytes apart below 8 MB: a list has at most 2^20 nodes. *)
Lemma list_rep_capacity m l ns : list_rep m l ns → zlen ns ≤ 1048576.
Proof.
  intros Hrep. destruct (lr_sep _ _ _ Hrep) as [[_ Hnd]%NoDup_cons Hsep].
  assert (NoDup ((λ x, x / 8) <$> ns)) as Hnd'.
  { apply NoDup_fmap_2_strong; [|done]. intros x y Hx Hy Hxy.
    destruct (Hsep x y) as [?|Hd]; [by apply list_elem_of_further..|done|].
    assert (x = 8 * (x / 8) + x mod 8) by (apply Z.div_mod; lia).
    assert (y = 8 * (y / 8) + y mod 8) by (apply Z.div_mod; lia).
    pose proof (Z.mod_pos_bound x 8 ltac:(lia)). pose proof (Z.mod_pos_bound y 8 ltac:(lia)). lia. }
  pose proof (length_NoDup_range _ 0 1048576 Hnd') as Hl. rewrite length_fmap in Hl.
  rewrite Z.sub_0_r in Hl. apply Nat2Z.inj_le in Hl; [lia|].
  intros x (y & -> & Hy)%list_elem_of_fmap. destruct (lr_nodes _ _ _ Hrep y Hy) as [Hym _].
  unfold mapped, IDENT_LO, IDENT_HI in *. split; [apply Z.div_pos; lia|apply Z.div_lt_upper_bound; lia].
Qed.

(** A list depends only on its cells. *)
Lemma list_rep_ext m m' l ns :
  list_rep m l ns → (∀ x, list_cells l ns x → get8 m' x = get8 m x) → list_rep m' l ns.
Proof.
  intros [Hm Hn Hs Hp Hz] Hx. constructor; [done..| |].
  - eapply path_ext; [done|]. intros xs x y ys Hc.
    assert (∀ z, z ∈ circle l ns → z = l ∨ z ∈ ns) as Hin by (unfold circle; set_solver).
    assert (∀ z a, z ∈ circle l ns → z ≤ a < z + 8 → get8 m' a = get8 m a) as Hcell.
    { intros z a [->|Hz']%Hin Ha; apply Hx; [left; lia|right; eauto]. }
    split; apply get8_ext_ld32; intros a Ha;
      [apply (Hcell x)|apply (Hcell y)]; try (rewrite Hc; set_solver); lia.
  - rewrite <- Hz. apply get8_ext_ld32. intros a Ha. apply Hx. left. unfold OFF_SIZE in *. lia.
Qed.

Lemma cells_sep_insert l ns1 ns2 n :
  cells_sep l (ns1 ++ ns2) → (n + 8 ≤ l ∨ l + SIZEOF_LIST ≤ n) →
  (∀ x, x ∈ ns1 ++ ns2 → n + 8 ≤ x ∨ x + 8 ≤ n) → cells_sep l (ns1 ++ n :: ns2).
Proof.
  intros [Hnd Hs] Hl Hn. unfold SIZEOF_LIST in *.
  assert (l :: ns1 ++ n :: ns2 ≡ₚ n :: l :: ns1 ++ ns2) as Hp by (rewrite <- Permutation_middle; apply perm_swap).
  split.
  - rewrite Hp. apply NoDup_cons. split; [|done]. intros [->|Hin]%elem_of_cons; [lia|].
    specialize (Hn n Hin). lia.
  - assert (∀ x, x ∈ l :: ns1 ++ ns2 → n + 8 ≤ x ∨ x + 8 ≤ n) as Hn'.
    { intros x [->|Hx]%elem_of_cons; [lia|by apply Hn]. }
    intros x y Hx Hy. rewrite Hp in Hx, Hy. unfold sep in *.
    apply elem_of_cons in Hx as [->|Hx], Hy as [->|Hy]; [by left| | |by apply Hs].
    + pose proof (Hn' y Hy). lia.
    + pose proof (Hn' x Hx). lia.
Qed.

Lemma cells_sep_remove l ns1 ns2 n :
  cells_sep l (ns1 ++ n :: ns2) → cells_sep l (ns1 ++ ns2) ∧
  (∀ x, x ∈ l :: ns1 ++ ns2 → n + 8 ≤ x ∨ x + 8 ≤ n).
Proof.
  intros [Hnd Hs].
  assert (l :: ns1 ++ n :: ns2 ≡ₚ n :: l :: ns1 ++ ns2) as Hp by (rewrite <- Permutation_middle; apply perm_swap).
  rewrite Hp in Hnd. apply NoDup_cons in Hnd as [Hn Hnd]. split; [split; [done|]|].
  - intros x y Hx Hy. apply Hs; rewrite Hp; by apply list_elem_of_further.
  - intros x Hx. destruct (Hs n x) as [->|Hsep]; [rewrite Hp; apply list_elem_of_here|
      rewrite Hp; by apply list_elem_of_further|done|lia].
Qed.

Lemma elem_of_mid (x n : Z) ns1 ns2 : x ∈ ns1 ++ n :: ns2 ↔ x = n ∨ x ∈ ns1 ++ ns2.
Proof. rewrite !elem_of_app, elem_of_cons. tauto. Qed.

Lemma elem_of_circle x l ns : x ∈ circle l ns ↔ x ∈ l :: ns.
Proof. unfold circle. rewrite !elem_of_cons, elem_of_app, list_elem_of_singleton. tauto. Qed.

Section list_run.
Context {St : Type} `{LM : Lens St mem}.

Lemma mapped_addr (a n : Z) : mapped a n → 0 ≤ n → 0 ≤ a < 4294967296.
Proof. mapped_tac. Qed.

Lemma link_node l ns1 ns2 p q xs ys n (s : St) :
  list_rep (lget s) l (ns1 ++ ns2) → fresh l (ns1 ++ ns2) n →
  l :: ns1 = xs ++ [p] → ns2 ++ [l] = q :: ys →
  ∃ m', (__list_add n p q ;; size ← load32 (l + OFF_SIZE);
         store32 (l + OFF_SIZE) (size ⊞ 1) ;; mret 0) s = Ok 0 (lput m' s) ∧
    list_rep m' l (ns1 ++ n :: ns2) ∧
    (∀ x, ¬ list_cells l (ns1 ++ n :: ns2) x → get8 m' x = get8 (lget s) x).
Proof.
  intros Hrep (Hnm & Hnl & Hns) HL HR.
  pose proof (list_rep_length _ _ _ Hrep) as Hlen.
  destruct Hrep as [Hm Hnodes Hsep Hpath Hsize]. unfold SIZEOF_LIST, OFF_SIZE in *.
  assert (Hin : ∀ x, x ∈ l :: ns1 ++ ns2 → mapped x 8 ∧ (n + 8 ≤ x ∨ x + 8 ≤ n) ∧ (x = l ∨ x + 8 ≤ l ∨ l + 20 ≤ x)).
  { intros x [->|Hx]%elem_of_cons; [mapped_tac|].
    destruct (Hnodes x Hx). split; [done|]. split; [by apply Hns|lia]. }
  pose proof (p_in _ _ _ _ _ _ _ HL HR Hsep) as Hpin. pose proof (q_in _ _ _ _ _ _ _ HL HR Hsep) as Hqin.
  destruct (Hin p Hpin) as (Hpm & Hpn & Hpl). destruct (Hin q Hqin) as (Hqm & Hqn & Hql).
  unfold __list_add, OFF_NEXT, OFF_PREV. rewrite !Z.add_0_r. mrun.
  assert (Hpath' : path (st32 (st32 (st32 (st32 (lget s) (q + 4) n) n q) (n + 4) p) p n)
                     (circle l (ns1 ++ n :: ns2))).
  { eapply insert_path; try done; try (eapply mapped_addr; done). intros x Hx. by apply Hin. }
  eexists. split; [reflexivity|]. rewrite length_app in Hlen. split.
  - constructor.
    + done.
    + intros x Hx. unfold SIZEOF_LIST. apply elem_of_mid in Hx as [->|Hx]; [done|].
      by apply Hnodes.
    + by apply cells_sep_insert.
    + apply path_write_out; [done|]. intros x Hx. rewrite elem_of_circle in Hx.
      rewrite app_comm_cons in Hx. apply elem_of_mid in Hx as [->|Hx']; [lia|].
      destruct (Hin x Hx') as (_ & _ & [->|?]); lia.
    + unfold OFF_SIZE. rewrite ld32_st32. ldst. rewrite Hsize.
      rewrite !length_app in *. cbn [length]. unfold IDENT_HI in *. wraps. lia.
  - intros x Hx. unfold list_cells in Hx.
    assert (∀ a, a ∈ l :: ns1 ++ n :: ns2 → ¬ (a ≤ x < a + 8)) as Hc.
    { intros a [->|Ha]%elem_of_cons; [intros ?; apply Hx; left; lia|].
      intros ?. apply Hx. right. eauto. }
    assert (¬ (p ≤ x < p + 8)) by (apply Hc; rewrite app_comm_cons; apply elem_of_mid; by right).
    assert (¬ (q ≤ x < q + 8)) by (apply Hc; rewrite app_comm_cons; apply elem_of_mid; by right).
    assert (¬ (n ≤ x < n + 8)) by (apply Hc; rewrite app_comm_cons; apply elem_of_mid; by left).
    assert (¬ (l ≤ x < l + 12)) by (intros ?; apply Hx; by left).
    by ldst.
Qed.

Lemma list_push_tail_run l ns n (s : St) :
  list_rep (lget s) l ns → fresh l ns n →
  ∃ m', list_push_tail l n s = Ok 0 (lput m' s) ∧ list_rep m' l (ns ++ [n]) ∧
    (∀ x, ¬ list_cells l (ns ++ [n]) x → get8 m' x = get8 (lget s) x).
Proof.
  intros Hrep Hf. destruct (exists_last (l:=l :: ns) ltac:(done)) as (xs & p & HL).
  assert (ld32 (lget s) (l + 4) = p) as Hp.
  { pose proof (lr_path _ _ _ Hrep) as Hpath. unfold circle in Hpath.
    rewrite app_comm_cons, HL, <- app_assoc in Hpath. cbn in Hpath.
    by apply path_app in Hpath as (_ & _ & ? & _). }
  unfold list_push_tail, NULL, OFF_PREV. pose proof (lr_mapped _ _ _ Hrep). destruct Hf as (Hm & Hl & Hx).
  unfold SIZEOF_LIST in *.
  destruct (Z.eqb_spec l 0); [mapped_tac|]. destruct (Z.eqb_spec n 0); [mapped_tac|]. cbn [orb].
  mrun. rewrite Hp.
  rewrite <- (app_nil_r ns) in Hrep |- *. rewrite <- app_assoc.
  apply (link_node l ns [] p l xs [] n s); [done| |done|done].
  rewrite app_nil_r. done.
Qed.

Lemma list_push_head_run l ns n (s : St) :
  list_rep (lget s) l ns → fresh l ns n →
  ∃ m', list_push_head l n s = Ok 0 (lput m' s) ∧ list_rep m' l (n :: ns) ∧
    (∀ x, ¬ list_cells l (n :: ns) x → get8 m' x = get8 (lget s) x).
Proof.
  intros Hrep Hf. destruct (ns ++ [l]) as [|q ys] eqn:HR; [by destruct ns|].
  assert (ld32 (lget s) l = q) as Hq.
  { pose proof (lr_path _ _ _ Hrep) as Hpath. unfold circle in Hpath.
    rewrite HR in Hpath. by destruct Hpath as [[? _] _]. }
  unfold list_push_head, NULL, OFF_NEXT. pose proof (lr_mapped _ _ _ Hrep). destruct Hf as (Hm & Hl & Hx).
  unfold SIZEOF_LIST in *.
  destruct (Z.eqb_spec l 0); [mapped_tac|]. destruct (Z.eqb_spec n 0); [mapped_tac|]. cbn [orb].
  rewrite Z.add_0_r. mrun. rewrite Hq.
  apply (link_node l [] ns l q [] ys n s); done.
Qed.

Lemma list_remove_node_run l ns1 n ns2 (s : St) :
  list_rep (lget s) l (ns1 ++ n :: ns2) →
  ∃ m', list_remove_node l n s = Ok 0 (lput m' s) ∧ list_rep m' l (ns1 ++ ns2) ∧
    ld32 m' n = NULL ∧ ld32 m' (n + 4) = NULL ∧
    (∀ x, ¬ list_cells l (ns1 ++ n :: ns2) x → get8 m' x = get8 (lget s) x).
Proof.
  intros Hrep. pose proof (list_rep_length _ _ _ Hrep) as Hlen.
  destruct Hrep as [Hm Hnodes Hsep Hpath Hsize]. unfold SIZEOF_LIST, OFF_SIZE in *.
  destruct (cells_sep_remove _ _ _ _ Hsep) as [Hsep' Hn].
  destruct (exists_last (l:=l :: ns1) ltac:(done)) as (xs & p & HL).
  destruct (ns2 ++ [l]) as [|q ys] eqn:HR; [by destruct ns2|].
  assert (Hin : ∀ x, x ∈ l :: ns1 ++ ns2 → mapped x 8 ∧ (n + 8 ≤ x ∨ x + 8 ≤ n) ∧ (x = l ∨ x + 8 ≤ l ∨ l + 20 ≤ x)).
  { intros x Hx. split_and!; [|by apply Hn|].
    - apply elem_of_cons in Hx as [->|Hx]; [mapped_tac|]. apply Hnodes, elem_of_mid. by right.
    - apply elem_of_cons in Hx as [->|Hx]; [lia|]. right. apply Hnodes, elem_of_mid. by right. }
  pose proof (p_in _ _ _ _ _ _ _ HL HR Hsep') as Hpin. pose proof (q_in _ _ _ _ _ _ _ HL HR Hsep') as Hqin.
  destruct (Hin p Hpin) as (Hpm & Hpn & Hpl). destruct (Hin q Hqin) as (Hqm & Hqn & Hql).
  destruct (Hnodes n) as [Hnm Hnl]; [apply elem_of_mid; by left|].
  pose proof (remove_path (lget s) l ns1 ns2 p q xs ys HL HR Hsep' n Hn
    (mapped_addr _ _ Hpm ltac:(lia)) (mapped_addr _ _ Hqm ltac:(lia)) Hpath) as (Hrp & Hrn & Hpath').
  assert (sep p q) as Hspq by (destruct Hsep' as [_ Hs]; by apply Hs).
  rewrite length_app in *. cbn [length] in *. unfold sep in Hspq.
  unfold list_remove_node, NULL, OFF_NEXT, OFF_PREV, OFF_SIZE. rewrite !Z.add_0_r.
  destruct (Z.eqb_spec l 0); [mapped_tac|]. destruct (Z.eqb_spec n 0); [mapped_tac|].
  destruct (Z.eqb_spec n l); [lia|]. cbn [orb]. mrun.
  rewrite Hsize. destruct (Z.eqb_spec (Z.of_nat (length ns1 + S (length ns2))) 0); [lia|].
  mrun. rewrite Hrp, Hrn. rewrite !ld32_st32_ne by lia. rewrite Hrn.
  rewrite Z.add_0_r in *. mrun.
  rewrite !ld32_st32_ne by lia. rewrite Hrp. mrun.
  eexists. split; [reflexivity|]. split; [|split_and!].
  - constructor.
    + done.
    + intros x Hx. apply Hnodes, elem_of_mid. by right.
    + done.
    + apply path_write_out; [exact Hpath'|]. intros x Hx'. rewrite elem_of_circle in Hx'.
      destruct (Hin x Hx') as (_ & _ & [->|?]); lia.
    + unfold OFF_SIZE. rewrite ld32_st32. ldst. rewrite Hsize.
      rewrite !length_app in *. unfold IDENT_HI in *. wraps. lia.
  - by ldst.
  - by ldst.
  - intros x Hx. unfold list_cells in Hx.
    assert (∀ a, a ∈ l :: ns1 ++ n :: ns2 → ¬ (a ≤ x < a + 8)) as Hc.
    { intros a [->|Ha]%elem_of_cons; [intros ?; apply Hx; left; lia|].
      intros ?. apply Hx. right. eauto. }
    assert (¬ (p ≤ x < p + 8)) by (apply Hc; rewrite app_comm_cons; apply elem_of_mid; by right).
    assert (¬ (q ≤ x < q + 8)) by (apply Hc; rewrite app_comm_cons; apply elem_of_mid; by right).
    assert (¬ (n ≤ x < n + 8)) by (apply Hc; rewrite app_comm_cons; apply elem_of_mid; by left).
    assert (¬ (l ≤ x < l + 12)) by (intros ?; apply Hx; by left).
    by ldst.
Qed.
End list_run.

Section list_pop_run.
Context {St : Type} `{LM : Lens St mem} (lits : ListLiterals).

Lemma list_empty_check_run l ns (s : St) :
  list_rep (lget s) l ns → list_empty_check l s = Ok (zlen ns =? 0) s.
Proof.
  intros Hrep. pose proof (lr_mapped _ _ _ Hrep) as Hm. unfold SIZEOF_LIST in *.
  unfold list_empty_check, OFF_SIZE, NULL. destruct (Z.eqb_spec l 0); [mapped_tac|].
  mrun. pose proof (lr_size _ _ _ Hrep) as Hs. unfold OFF_SIZE in Hs. by rewrite Hs.
Qed.

Lemma list_get_size_run l ns (s : St) :
  list_rep (lget s) l ns → list_get_size l s = Ok (zlen ns) s.
Proof.
  intros Hrep. pose proof (lr_mapped _ _ _ Hrep) as Hm. unfold SIZEOF_LIST in *.
  unfold list_get_size, OFF_SIZE, NULL. destruct (Z.eqb_spec l 0); [mapped_tac|].
  rewrite load32_run by mapped_tac. pose proof (lr_size _ _ _ Hrep) as Hs.
  unfold OFF_SIZE in Hs. by rewrite Hs.
Qed.

Lemma list_pop_head_run l n ns (s : St) :
  list_rep (lget s) l (n :: ns) →
  ∃ m', list_pop_head lits l s = Ok n (lput m' s) ∧ list_rep m' l ns ∧
    ld32 m' n = NULL ∧ ld32 m' (n + 4) = NULL ∧
    (∀ x, ¬ list_cells l (n :: ns) x → get8 m' x = get8 (lget s) x).
Proof.
  intros Hrep. pose proof (lr_mapped _ _ _ Hrep) as Hm. unfold SIZEOF_LIST in *.
  unfold list_pop_head. rewrite (bind_ok _ _ _ _ _ (list_empty_check_run _ _ _ Hrep)).
  destruct (Z.eqb_spec (zlen (n :: ns)) 0); [cbn in *; lia|].
  unfold OFF_NEXT. rewrite Z.add_0_r. mrun.
  assert (ld32 (lget s) l = n) as -> by (by destruct (lr_path _ _ _ Hrep) as [[? _] _]).
  destruct (list_remove_node_run l [] n ns s Hrep) as (m' & Hrun & ?).
  exists m'. by rewrite (bind_ok _ _ _ _ _ Hrun).
Qed.

Lemma list_pop_tail_run l n ns (s : St) :
  list_rep (lget s) l (ns ++ [n]) →
  ∃ m', list_pop_tail lits l s = Ok n (lput m' s) ∧ list_rep m' l ns ∧
    ld32 m' n = NULL ∧ ld32 m' (n + 4) = NULL ∧
    (∀ x, ¬ list_cells l (ns ++ [n]) x → get8 m' x = get8 (lget s) x).
Proof.
  intros Hrep. pose proof (lr_mapped _ _ _ Hrep) as Hm. unfold SIZEOF_LIST in *.
  unfold list_pop_tail. rewrite (bind_ok _ _ _ _ _ (list_empty_check_run _ _ _ Hrep)).
  destruct (Z.eqb_spec (zlen (ns ++ [n])) 0) as [Hz|_]; [rewrite length_app in Hz; cbn in Hz; lia|].
  unfold OFF_PREV. mrun.
  assert (ld32 (lget s) (l + 4) = n) as ->.
  { pose proof (lr_path _ _ _ Hrep) as Hp. unfold circle in Hp.
    rewrite <- app_assoc, app_comm_cons in Hp. cbn [app] in Hp.
    by apply (path_app _ (l :: ns) n l []) in Hp as (_ & _ & ? & _). }
  destruct (list_remove_node_run l ns n [] s Hrep) as (m' & Hrun & Hrep' & ?).
  exists m'. rewrite app_nil_r in Hrep'. by rewrite (bind_ok _ _ _ _ _ Hrun).
Qed.
End list_pop_run.

(** ** Sequences of operations *)

Inductive list_op : Type :=
  | PushHead (n : Z)
  | PushTail (n : Z)
  | PopHead
  | PopTail
  | RemoveNode (n : Z)
  | GetSize.

(** The deque the list is meant to be: the operation, the nodes before, the
    value returned, the nodes after. *)
Inductive deque_step (l : Z) : list_op → list Z → Z → list Z → Prop :=
  | dq_push_head n ns : fresh l ns n → deque_step l (PushHead n) ns 0 (n :: ns)
  | dq_push_tail n ns : fresh l ns n → deque_step l (PushTail n) ns 0 (ns ++ [n])
  | dq_pop_head n ns : deque_step l PopHead (n :: ns) n ns
  | dq_pop_tail n ns : deque_step l PopTail (ns ++ [n]) n ns
  | dq_remove n ns1 ns2 : deque_step l (RemoveNode n) (ns1 ++ n :: ns2) 0 (ns1 ++ ns2)
  | dq_size ns : deque_step l GetSize ns (zlen ns) ns.

Inductive deque_run (l : Z) : list list_op → list Z → list Z → list Z → Prop :=
  | dq_nil ns : deque_run l [] ns [] ns
  | dq_cons op ops ns r ns1 rs ns2 :
      deque_step l op ns r ns1 → deque_run l ops ns1 rs ns2 →
      deque_run l (op :: ops) ns (r :: rs) ns2.

(** The nodes a sequence adds. *)
Definition pushed (op : list_op) : list Z :=
  match op with PushHead n | PushTail n => [n] | _ => [] end.

Section list_ops.
Context {St : Type} `{LM : Lens St mem} (lits : ListLiterals).

Definition run_list_op (l : Z) (op : list_op) : M St Z :=
  match op with
  | PushHead n => list_push_head l n
  | PushTail n => list_push_tail l n
  | PopHead => list_pop_head lits l
  | PopTail => list_pop_tail lits l
  | RemoveNode n => list_remove_node l n
  | GetSize => list_get_size l
  end.

Fixpoint run_list_ops (l : Z) (ops : list list_op) : M St (list Z) :=
  match ops with
  | [] => mret []
  | op :: ops' => r ← run_list_op l op; rs ← run_list_ops l ops'; mret (r :: rs)
  end.

Lemma run_list_op_refines l op ns r ns' (s : St) :
  list_rep (lget s) l ns → deque_step l op ns r ns' →
  ∃ m', run_list_op l op s = Ok r (lput m' s) ∧ list_rep m' l ns' ∧
    (∀ n, n ∈ ns' → n ∈ ns ++ pushed op) ∧
    (∀ x, ¬ list_cells l (ns ++ pushed op) x → get8 m' x = get8 (lget s) x).
Proof.
  intros Hrep Hstep.
  assert (Hcells : ∀ ns1 ns2 x, (∀ n, n ∈ ns1 → n ∈ ns2) → ¬ list_cells l ns2 x → ¬ list_cells l ns1 x).
  { intros ns1 ns2 x Hsub Hn [?|(n & Hin & ?)]; apply Hn; [by left|right; eauto]. }
  destruct Hstep as [n ns Hf|n ns Hf|n ns|n ns|n ns1 ns2|ns]; cbn [run_list_op pushed];
    rewrite ?app_nil_r.
  - destruct (list_push_head_run _ _ _ _ Hrep Hf) as (m' & ? & ? & Hfr).
    exists m'. split_and!; [done|done|set_solver|]. intros x Hx. apply Hfr.
    eapply Hcells; [|exact Hx]. set_solver.
  - destruct (list_push_tail_run _ _ _ _ Hrep Hf) as (m' & ? & ? & Hfr).
    exists m'. done.
  - destruct (list_pop_head_run lits _ _ _ _ Hrep) as (m' & ? & ? & _ & _ & Hfr).
    exists m'. split_and!; [done|done|set_solver|done].
  - destruct (list_pop_tail_run lits _ _ _ _ Hrep) as (m' & ? & ? & _ & _ & Hfr).
    exists m'. split_and!; [done|done|set_solver|done].
  - destruct (list_remove_node_run _ _ _ _ _ Hrep) as (m' & ? & ? & _ & _ & Hfr).
    exists m'. split_and!; [done|done|set_solver|done].
  - exists (lget s). rewrite lput_lget. split_and!; [by apply list_get_size_run|done..].
Qed.


(** Popping an empty list returns NULL and sets the error code, but
    [kstrncpy] is called with source and destination exchanged: the error
    buffer keeps its content and the string literal receives it. *)
Theorem list_pop_empty_swaps l e bs lit (s : St) :
  list_rep (lget s) l [] → ld32 (lget s) (l + OFF_ERR_MSG) = e → cstr (lget s) e bs →
  mapped e 256 → mapped lit 256 → zlen bs < 256 → (e + 256 ≤ lit ∨ lit + 256 ≤ e) →
  (e + 256 ≤ l ∨ l + SIZEOF_LIST ≤ e) → (lit + 256 ≤ l ∨ l + SIZEOF_LIST ≤ lit) →
  lit_pop_head lits = lit →
  ∃ m', list_pop_head lits l s = Ok NULL (lput m' s) ∧ list_rep m' l [] ∧
    ld32 m' (l + OFF_ERR_CODE) = 1 ∧
    (∀ x, e ≤ x < e + 256 → get8 m' x = get8 (lget s) x) ∧ cstr m' lit bs.
Proof.
  intros Hrep He Hc Hme Hml Hlen Hd1 Hd2 Hd3 <-. set (lit := lit_pop_head lits) in *.
  pose proof (lr_mapped _ _ _ Hrep) as Hm. unfold SIZEOF_LIST, OFF_ERR_MSG, OFF_ERR_CODE in *.
  unfold list_pop_head. rewrite (bind_ok _ _ _ _ _ (list_empty_check_run _ _ _ Hrep)).
  change (zlen [] =? 0) with true. cbn iota. unfold list_pop_error, OFF_ERR_CODE, OFF_ERR_MSG. mrun.
  ldst. rewrite He. unfold MAX_ERR_LENGTH.
  set (m1 := st32 (lget s) (l + 12) 1).
  destruct (kstrncpy_run e lit 256 bs (lput m1 s)) as (m' & Hrun & Hcstr & Hfr);
    [|mapped_tac|lia|mapped_tac|lia|].
  { rewrite lget_lput. eapply cstr_ext; [exact Hc|]. intros x Hx. unfold m1. by ldst. }
  rewrite (bind_ok _ _ _ _ _ Hrun). rewrite lput_lput. rewrite lget_lput in Hfr.
  exists m'. split; [done|].
  assert (Hl : ∀ x, l ≤ x < l + 20 → get8 m' x = get8 m1 x) by (intros; apply Hfr; lia).
  split_and!.
  - eapply list_rep_ext; [exact Hrep|]. intros x [Hx|(n & Hn%not_elem_of_nil & _)]; [|done].
    rewrite Hl by lia. unfold m1. by ldst.
  - rewrite (get8_ext_ld32 m1) by (intros; apply Hl; lia). unfold m1. by ldst.
  - intros x Hx. rewrite Hfr by lia. unfold m1. by ldst.
  - rewrite take_ge in Hcstr; [done|lia].
Qed.

(** The check for a NULL list in the pops does not help: the branch it
    guards writes [list->err_code], so a NULL list is a page fault at
    address 12, and nothing is returned. *)
Lemma list_pop_null_faults (s : St) :
  list_pop_head lits NULL s = Stop (PageFault 12) s ∧
  list_pop_tail lits NULL s = Stop (PageFault 12) s.
Proof. done. Qed.
End list_ops.

(** ** Creation and destruction, against the allocator interface *)

Section list_lifetime.
Context {St : Type} `{LM : Lens St mem} {AL : Allocator St} (lits : ListLiterals).

Lemma region_outside s rs r x : alloc_inv s (r :: rs) → in_region r x → ¬ in_regions rs x.
Proof.
  intros Hi Hr (r' & Hin & Hx). pose proof (alloc_inv_apart _ _ _ _ Hi Hin) as Ha.
  exact (apart_not_in _ _ _ Ha Hr Hx).
Qed.

(** A client's writes inside its regions keep the heap and the others. *)
Lemma client_writes s rs m' :
  alloc_inv s rs → (∀ x, ¬ in_regions rs x → get8 m' x = get8 (lget s) x) → alloc_inv (lput m' s) rs.
Proof. apply alloc_inv_write. Qed.

(** [list_init] returns an empty list in a block of its own with an
    error buffer of 256 bytes in another, error code 0, and everything the
    heap had handed out before unchanged; or NULL with [*err_check = 1]. *)
Theorem list_init_spec s rs err_check :
  alloc_inv s rs → mapped err_check 4 →
  ∃ p m', list_init err_check s = Ok p (lput m' s) ∧
    ((p = NULL ∧ ld32 m' err_check = 1) ∨
     (∃ n e k, 20 ≤ n ∧ 256 ≤ k ∧ alloc_inv (lput m' s) ((e, k) :: (p, n) :: rs) ∧
        list_rep m' p [] ∧ ld32 m' (p + OFF_ERR_MSG) = e ∧ ld32 m' (p + OFF_ERR_CODE) = 0 ∧
        (∀ x, in_regions rs x → get8 m' x = get8 (lget s) x))).
Proof.
  intros Hinv Herr. unfold list_init, SIZEOF_LIST, MAX_ERR_LENGTH.
  destruct (alloc_run s rs 20 Hinv ltac:(lia)) as [Hn|(p & n & m1 & Hr1 & Hn & Hinv1 & Hfr1)].
  { rewrite (bind_ok _ _ _ _ _ Hn). change (NULL =? NULL) with true. cbn iota. mrun.
    exists NULL. eexists. split; [reflexivity|]. left. split; [done|]. by ldst. }
  rewrite (bind_ok _ _ _ _ _ Hr1).
  pose proof (alloc_inv_not_null _ _ _ _ Hinv1) as Hp0. destruct (Z.eqb_spec p NULL); [done|].
  destruct (alloc_inv_mapped _ _ (p, n) Hinv1 (list_elem_of_here _ _)) as [Hpm _]. cbn in Hpm.
  change (256 * 1) with 256. unfold OFF_ERR_MSG, OFF_NEXT, OFF_PREV, OFF_SIZE, OFF_ERR_CODE.
  rewrite !Z.add_0_r.
  destruct (alloc_run (lput m1 s) ((p, n) :: rs) 256 Hinv1 ltac:(lia))
    as [Hnull|(e & k & m2 & Hr2 & Hk & Hinv2 & Hfr2)].
  - rewrite (bind_ok _ _ _ _ _ Hnull). mrun. ldst. change (u32 NULL =? NULL) with true. cbn iota.
    destruct (release_run (lput (st32 m1 (p + 16) NULL) s) p n rs) as (m3 & Hr3 & _ & _).
    { rewrite <- (lput_lput _ m1). apply alloc_inv_write; [done|]. rewrite lget_lput.
      intros x Hx. rewrite in_regions_cons in Hx. unfold in_region in Hx. cbn in Hx.
      assert (¬ (p ≤ x < p + n)) by tauto. by ldst. }
    rewrite (bind_ok _ _ _ _ _ Hr3). mrun. exists NULL. eexists. split; [reflexivity|].
    left. split; [done|]. by ldst.
  - rewrite (bind_ok _ _ _ _ _ Hr2). rewrite lput_lput. rewrite lput_lput in Hinv2. rewrite lget_lput in Hfr2.
    destruct (alloc_inv_mapped _ _ (e, k) Hinv2 (list_elem_of_here _ _)) as [Hem _]. cbn in Hem.
    mrun. ldst. wraps. pose proof (alloc_inv_not_null _ _ _ _ Hinv2) as He0.
    assert (0 ≤ e < 4294967296) as He by mapped_tac. rewrite (u32_small e) by done.
    destruct (Z.eqb_spec e NULL); [done|]. mrun.
    exists p. eexists. split; [reflexivity|]. right. exists n, e, k. split_and!; [done|done| | | | |].
    + rewrite <- (lput_lput _ m2). apply alloc_inv_write; [done|]. rewrite lget_lput.
      intros x Hx. rewrite !in_regions_cons in Hx. unfold in_region in Hx. cbn in Hx.
      assert (¬ (p ≤ x < p + n)) by tauto. by ldst.
    + constructor.
      * unfold SIZEOF_LIST in *; mapped_tac.
      * intros x Hx%not_elem_of_nil. done.
      * split; [apply NoDup_singleton|]. intros x y ->%list_elem_of_singleton ->%list_elem_of_singleton. by left.
      * cbn. ldst. assert (0 ≤ p < 4294967296) by mapped_tac. by wraps.
      * unfold OFF_SIZE. by ldst.
    + ldst. by wraps.
    + by ldst.
    + intros x Hx. assert (¬ in_region (p, n) x) as Hnp.
      { intros Hp. by eapply (region_outside (lput m1 s)). }
      unfold in_region in Hnp. cbn in Hnp. ldst. rewrite Hfr2, Hfr1; [done|done|].
      apply in_regions_cons. by right.
Qed.

(** The popping loop of [list_free] empties the list, writing cells only. *)
Lemma list_drain l ns : ∀ (s : St) k, list_rep (lget s) l ns → (length ns < k)%nat →
  ∃ m', nloop (λ _ : unit, size ← load32 (l + OFF_SIZE);
          if 0 <? size then list_pop_head lits l ;; mret (inl tt) else mret (inr tt)) k tt s =
        Ok tt (lput m' s) ∧ list_rep m' l [] ∧
    (∀ x, ¬ list_cells l ns x → get8 m' x = get8 (lget s) x).
Proof.
  induction ns as [|n ns IH]; intros s k Hrep Hk; (destruct k as [|k]; [cbn in Hk; lia|]);
    rewrite nloop_S; pose proof (lr_mapped _ _ _ Hrep) as Hm; pose proof (lr_size _ _ _ Hrep) as Hs;
    unfold SIZEOF_LIST, OFF_SIZE in *; mrun; rewrite Hs.
  - exists (lget s). rewrite lput_lget. done.
  - cbn [length]. destruct (Z.ltb_spec 0 (Z.of_nat (S (length ns)))); [|lia].
    destruct (list_pop_head_run lits l n ns s Hrep) as (m1 & Hr1 & Hrep1 & _ & _ & Hfr1).
    rewrite (bind_ok _ _ _ _ _ Hr1). cbn.
    destruct (IH (lput m1 s) k) as (m2 & Hr2 & Hrep2 & Hfr2); [by rewrite lget_lput|cbn in Hk; lia|].
    rewrite lput_lput, lget_lput in *. exists m2. split_and!; [done|done|].
    intros x Hx. rewrite Hfr2, Hfr1; [done|done|].
    intros [?|(n' & Hin & ?)]; apply Hx; [by left|right; exists n'; split; [|done]]. by apply list_elem_of_further.
Qed.

(** [list_free] of a list whose nodes lie in other blocks empties it,
    gives its two blocks back and keeps every other block handed out. *)
Theorem list_free_spec l n e k ns rs (s : St) :
  alloc_inv s ((e, k) :: (l, n) :: rs) → 20 ≤ n → list_rep (lget s) l ns →
  ld32 (lget s) (l + OFF_ERR_MSG) = e →
  (∀ a x, a ∈ ns → a ≤ x < a + 8 → in_regions rs x) →
  ∃ m', list_free lits l s = Ok tt (lput m' s) ∧ alloc_inv (lput m' s) rs.
Proof.
  intros Hinv Hn Hrep He Hns. pose proof (lr_mapped _ _ _ Hrep) as Hm.
  pose proof (list_rep_length _ _ _ Hrep) as Hlen.
  unfold list_free, NULL, SIZEOF_LIST, OFF_ERR_MSG in *. destruct (Z.eqb_spec l 0); [mapped_tac|].
  destruct (list_drain l ns s (S (length ns)) Hrep ltac:(lia)) as (m1 & Hr1 & Hrep1 & Hfr1).
  assert (Hr1' := ploop_ok _ (S (length ns)) LIST_FUEL tt s tt _ Hr1).
  unfold SIZEOF_LIST in *.
  pose proof (list_rep_capacity _ _ _ Hrep) as Hcap.
  rewrite (bind_ok _ _ _ _ _ (Hr1' ltac:(unfold LIST_FUEL; lia))). mrun.
  assert (ld32 m1 (l + 16) = e) as ->.
  { rewrite (get8_ext_ld32 (lget s)); [done|]. intros x Hx. apply Hfr1.
    intros [?|(a & Ha & Hax)]; [lia|]. destruct (lr_nodes _ _ _ Hrep a Ha) as [_ Hd].
    unfold SIZEOF_LIST in *. lia. }
  assert (alloc_inv (lput m1 s) ((e, k) :: (l, n) :: rs)) as Hinv1.
  { apply alloc_inv_write; [done|]. intros x Hx. apply Hfr1.
    rewrite !in_regions_cons in Hx. intros [?|(a & Ha & Hax)]; apply Hx; right.
    - left. unfold in_region. cbn. lia.
    - right. by eapply Hns. }
  destruct (release_run _ _ _ _ Hinv1) as (m2 & Hr2 & Hinv2 & _).
  rewrite (bind_ok _ _ _ _ _ Hr2). destruct (release_run _ _ _ _ Hinv2) as (m3 & Hr3 & Hinv3 & _).
  rewrite Hr3. rewrite !lput_lput in *. by exists m3.
Qed.
End list_lifetime.

(** ** The theorems at concrete lists *)

Module ListExample.
#[local] Instance lens_mem : Lens mem mem := lens_id.

Definition lits0 : ListLiterals := mkLits 0x20000 0x20100 0x20200.

(** An empty list at 0x5000 whose error buffer, at 0x9000, holds "hi". *)
Definition empty_list : mem :=
  set8 (set8 (st32 (st32 (st32 (st32 ∅ 0x5000 0x5000) 0x5004 0x5000) 0x5010 0x9000) 0x5008 0)
    0x9000 104) 0x9001 105.

Lemma empty_list_rep : list_rep (lget empty_list) 0x5000 [].
Proof.
  constructor; [done| |split; [apply NoDup_singleton|]|vm_compute; done|vm_compute; done].
  - intros n Hn%not_elem_of_nil. done.
  - intros x y ->%list_elem_of_singleton ->%list_elem_of_singleton. by left.
Qed.


Lemma list_pop_empty_swaps_witness :
  ∃ m', list_pop_head lits0 0x5000 empty_list = Ok NULL (lput m' empty_list) ∧ list_rep m' 0x5000 [] ∧
    ld32 m' (0x5000 + OFF_ERR_CODE) = 1 ∧
    (∀ x, 0x9000 ≤ x < 0x9000 + 256 → get8 m' x = get8 (lget empty_list) x) ∧ cstr m' 0x20000 [104; 105].
Proof.
  apply (list_pop_empty_swaps lits0 0x5000 0x9000 [104; 105] 0x20000 empty_list);
    [exact empty_list_rep|vm_compute; reflexivity|vm_compute; done|done|done|done|..].
  - left. done.
  - right. done.
  - right. done.
  - done.
Defined.

#[local] Existing Instances lens_fst lens_snd.
#[local] Existing Instance apart_fst_snd.

Lemma list_init_spec_witness :
  ∃ p m', list_init 0x5000 HeapExample.hm0 = Ok p (lput m' HeapExample.hm0) ∧
    ((p = NULL ∧ ld32 m' 0x5000 = 1) ∨
     (∃ n e k, 20 ≤ n ∧ 256 ≤ k ∧ alloc_inv (lput m' HeapExample.hm0) ((e, k) :: (p, n) :: []) ∧
        list_rep m' p [] ∧ ld32 m' (p + OFF_ERR_MSG) = e ∧ ld32 m' (p + OFF_ERR_CODE) = 0 ∧
        (∀ x, in_regions [] x → get8 m' x = get8 (lget HeapExample.hm0) x))).
Proof.
  apply (list_init_spec HeapExample.hm0 [] 0x5000); [|done].
  exists [HeapExample.whole]. split; [exact HeapExample.hm0_rep|done].
Defined.

(** A list of one node, embedded at offset 4 of a block of 40 bytes. *)
Definition hm_list : mem * HeapStatics :=
  state_of ((l ← list_init 0x5000; p ← kmalloc 40; list_push_tail l (p + 4)) HeapExample.hm0).

Lemma hm_list_inv :
  alloc_inv hm_list [(0x40102C, 256); (0x40100C, 20); (0x401138, 40)] ∧
  list_rep (lget hm_list) 0x40100C [0x40113C].
Proof.
  split.
  - exists [mkBlock 0x401000 20 false; mkBlock 0x401020 256 false; mkBlock 0x40112C 40 false;
            mkBlock 0x401160 4189843 true].
    split; [|vm_compute; apply perm_swap]. split; [vm_compute; split_and!; done|vm_compute; done].
  - constructor; [done| |split|vm_compute; done|vm_compute; done].
    + intros n ->%list_elem_of_singleton. split; [done|by right].
    + repeat constructor; set_solver.
    + intros x y Hx Hy. unfold sep.
      apply elem_of_cons in Hx as [->| ->%list_elem_of_singleton], Hy as [->| ->%list_elem_of_singleton]; lia.
Qed.

Lemma list_free_spec_witness :
  ∃ m' : mem, list_free lits0 0x40100C hm_list = Ok tt (lput m' hm_list) ∧
    alloc_inv (lput m' hm_list) [(0x401138, 40)].
Proof.
  destruct hm_list_inv as [Hinv Hrep].
  apply (list_free_spec lits0 0x40100C 20 0x40102C 256 [0x40113C] [(0x401138, 40)] hm_list);
    [exact Hinv|done|exact Hrep|vm_compute; reflexivity|].
  intros a x ->%list_elem_of_singleton Hx. exists (0x401138, 40).
  split; [apply list_elem_of_here|]. unfold in_region. cbn. lia.
Defined.
End ListExample.
