(* ===== verification/Bitmap.v ===== *)
(** * Bitmap: bit sets in memory (src/kernel/ds/bitmap.c)

    A [Bitmap] is a pointer to 32-bit words and a number of bits. The bit
    with index [i] is bit [i mod 32] of word [i / 32]. *)

From S2P Require Import Prelude Memory.

(** ** The code *)

Record Bitmap : Type := mkBitmap { storage : Z; total_bits : Z }.

Definition bit_mask (bit_index : Z) : Z := u32 (Z.shiftl 1 (bit_index mod 32)).

Section bitmap.
Context {St : Type} `{LM : Lens St mem}.

Definition bitmap_clear_all (b : Bitmap) : M St unit :=
  let words := total_bits b / 32 in
  let words := if negb (total_bits b mod 32 =? 0) then words ⊞ 1 else words in
  mfor 0 words (λ i, store32 (storage b + 4 * i) 0).

Definition bitmap_set (b : Bitmap) (bit_index : Z) : M St unit :=
  if total_bits b <=? bit_index then mret tt else
  w ← load32 (storage b + 4 * (bit_index / 32));
  store32 (storage b + 4 * (bit_index / 32)) (Z.lor w (bit_mask bit_index)).

Definition bitmap_clear (b : Bitmap) (bit_index : Z) : M St unit :=
  if total_bits b <=? bit_index then mret tt else
  w ← load32 (storage b + 4 * (bit_index / 32));
  store32 (storage b + 4 * (bit_index / 32)) (Z.land w (u32 (Z.lnot (bit_mask bit_index)))).

Definition bitmap_test (b : Bitmap) (bit_index : Z) : M St bool :=
  if total_bits b <=? bit_index then mret false else
  w ← load32 (storage b + 4 * (bit_index / 32));
  mret (negb (Z.land w (bit_mask bit_index) =? 0)).
End bitmap.

(** ** The bits a bitmap holds *)

Definition bit (m : mem) (b : Bitmap) (i : Z) : bool :=
  Z.testbit (ld32 m (storage b + 4 * (i / 32))) (i mod 32).

Definition words (b : Bitmap) : Z := (total_bits b + 31) / 32.

(** The words of the bitmap are in the mapped window. *)
Definition bitmap_ok (b : Bitmap) : Prop :=
  0 ≤ total_bits b < 4294967296 ∧ mapped (storage b) (4 * words b).

(** The bytes of the bitmap. *)
Definition in_bitmap (b : Bitmap) (x : Z) : Prop := storage b ≤ x < storage b + 4 * words b.

Lemma word_index b i : 0 ≤ i < total_bits b → 0 ≤ i / 32 < words b ∧ 0 ≤ i mod 32 < 32.
Proof. unfold words. intros. Z.div_mod_to_equations. lia. Qed.

Lemma bit_mask_testbit i j : 0 ≤ j < 32 → Z.testbit (bit_mask i) j = (i mod 32 =? j).
Proof.
  intros. unfold bit_mask. rewrite u32_testbit by done.
  apply shiftl1_testbit. apply Z.mod_pos_bound. lia.
Qed.

Lemma bit_mask_eq i : bit_mask i = Z.shiftl 1 (i mod 32).
Proof.
  unfold bit_mask. apply u32_small. rewrite Z.shiftl_1_l.
  pose proof (Z.mod_pos_bound i 32 ltac:(lia)).
  change 4294967296 with (2 ^ 32). split; [lia|]. apply Z.pow_lt_mono_r; lia.
Qed.

(** Writing a word changes the bits of that word only. *)
Lemma bit_st32 m b k v j :
  0 ≤ j → bit (st32 m (storage b + 4 * k) v) b j =
    if j / 32 =? k then Z.testbit v (j mod 32) else bit m b j.
Proof.
  intros Hj. unfold bit. destruct (Z.eqb_spec (j / 32) k) as [->|].
  - rewrite ld32_st32. apply u32_testbit, Z.mod_pos_bound. lia.
  - rewrite ld32_st32_ne by lia. done.
Qed.

Section bitmap_run.
Context {St : Type} `{LM : Lens St mem}.

Lemma bitmap_test_run b i (s : St) :
  bitmap_ok b → 0 ≤ i → bitmap_test b i s = Ok ((i <? total_bits b) && bit (lget s) b i) s.
Proof.
  intros [Ht Hm] Hi. unfold bitmap_test. destruct (Z.leb_spec (total_bits b) i).
  - destruct (Z.ltb_spec i (total_bits b)); [lia|]. done.
  - destruct (Z.ltb_spec i (total_bits b)); [|lia].
    destruct (word_index b i ltac:(lia)). mrun.
    by rewrite bit_mask_eq, land_shiftl1 by (apply Z.mod_pos_bound; lia).
Qed.

(** Setting or clearing a bit: the new value at the index, all others kept;
    an index out of range does nothing. *)
Lemma bitmap_set_run b i (s : St) :
  bitmap_ok b → 0 ≤ i →
  ∃ m', bitmap_set b i s = Ok tt (lput m' s) ∧
    (∀ j, 0 ≤ j → bit m' b j = (if (i =? j) && (i <? total_bits b) then true else bit (lget s) b j)) ∧
    (∀ x, ¬ in_bitmap b x → get8 m' x = get8 (lget s) x).
Proof.
  intros [Ht Hm] Hi. unfold bitmap_set. destruct (Z.leb_spec (total_bits b) i).
  - exists (lget s). rewrite lput_lget. destruct (Z.ltb_spec i (total_bits b)); [lia|].
    split_and!; [done| |done]. intros. by rewrite andb_false_r.
  - destruct (Z.ltb_spec i (total_bits b)); [|lia]. destruct (word_index b i ltac:(lia)). mrun.
    eexists. split; [reflexivity|]. split.
    + intros j Hj. rewrite bit_st32 by done. rewrite andb_true_r.
      pose proof (Z.mod_pos_bound j 32 ltac:(lia)).
      destruct (Z.eqb_spec (j / 32) (i / 32)) as [Hw|Hw].
      * rewrite Z.lor_spec, bit_mask_testbit by done. rewrite <- Hw. fold (bit (lget s) b j).
        destruct (Z.eqb_spec (i mod 32) (j mod 32)), (Z.eqb_spec i j); try (apply orb_true_r);
          try (apply orb_false_r); exfalso; subst; Z.div_mod_to_equations; lia.
      * destruct (Z.eqb_spec i j); [by subst|done].
    + intros x Hx. unfold in_bitmap in Hx. by ldst.
Qed.

Lemma bitmap_clear_run b i (s : St) :
  bitmap_ok b → 0 ≤ i →
  ∃ m', bitmap_clear b i s = Ok tt (lput m' s) ∧
    (∀ j, 0 ≤ j → bit m' b j = (if (i =? j) && (i <? total_bits b) then false else bit (lget s) b j)) ∧
    (∀ x, ¬ in_bitmap b x → get8 m' x = get8 (lget s) x).
Proof.
  intros [Ht Hm] Hi. unfold bitmap_clear. destruct (Z.leb_spec (total_bits b) i).
  - exists (lget s). rewrite lput_lget. destruct (Z.ltb_spec i (total_bits b)); [lia|].
    split_and!; [done| |done]. intros. by rewrite andb_false_r.
  - destruct (Z.ltb_spec i (total_bits b)); [|lia]. destruct (word_index b i ltac:(lia)). mrun.
    eexists. split; [reflexivity|]. split.
    + intros j Hj. rewrite bit_st32 by done. rewrite andb_true_r.
      pose proof (Z.mod_pos_bound j 32 ltac:(lia)).
      destruct (Z.eqb_spec (j / 32) (i / 32)) as [Hw|Hw].
      * rewrite Z.land_spec, u32_testbit, Z.lnot_spec, bit_mask_testbit by lia. rewrite <- Hw.
        fold (bit (lget s) b j).
        destruct (Z.eqb_spec (i mod 32) (j mod 32)), (Z.eqb_spec i j); try (apply andb_false_r);
          try (apply andb_true_r); exfalso; subst; Z.div_mod_to_equations; lia.
      * destruct (Z.eqb_spec i j); [by subst|done].
    + intros x Hx. unfold in_bitmap in Hx. by ldst.
Qed.

Lemma bitmap_clear_all_run b (s : St) :
  bitmap_ok b →
  ∃ m', bitmap_clear_all b s = Ok tt (lput m' s) ∧
    (∀ j, 0 ≤ j < total_bits b → bit m' b j = false) ∧
    (∀ x, ¬ in_bitmap b x → get8 m' x = get8 (lget s) x).
Proof.
  intros [Ht Hm]. unfold bitmap_clear_all.
  assert ((if negb (total_bits b mod 32 =? 0) then total_bits b / 32 ⊞ 1 else total_bits b / 32) = words b) as ->.
  { unfold words. destruct (Z.eqb_spec (total_bits b mod 32) 0); cbn [negb];
      [|rewrite u32_small]; Z.div_mod_to_equations; lia. }
  destruct (mfor_rule (λ i s', ∃ m', s' = lput m' s ∧ (∀ j, 0 ≤ j / 32 < i → bit m' b j = false) ∧
      (∀ x, ¬ in_bitmap b x → get8 m' x = get8 (lget s) x))
    0 (words b) (λ i, store32 (storage b + 4 * i) 0) s) as (s' & Hrun & m' & -> & Hz & Hfr).
  - unfold words. apply Z.div_pos; lia.
  - intros i s1 Hi (m1 & -> & Hz1 & Hfr1). mrun. eexists. split; [reflexivity|].
    eexists. split; [reflexivity|]. split.
    + intros j Hj. rewrite bit_st32 by (Z.div_mod_to_equations; lia).
      destruct (Z.eqb_spec (j / 32) i); [apply Z.bits_0|]. apply Hz1. lia.
    + intros x Hx. rewrite <- Hfr1 by done. unfold in_bitmap in Hx. by ldst.
  - exists (lget s). rewrite lput_lget. split_and!; [done|intros; lia|done].
  - exists m'. split_and!; [done| |done]. intros j Hj. apply Hz, word_index. done.
Qed.

(** The three operations behave as a set of bits: a test sees the last
    set or clear of its index, other indices are untouched, and an index at
    or above [total_bits] is ignored by all three. *)
Theorem bitmap_set_clear_test b i j (s : St) :
  bitmap_ok b → 0 ≤ i → 0 ≤ j →
  (∃ s1, bitmap_set b i s = Ok tt s1 ∧
     bitmap_test b j s1 = Ok (if (i =? j) && (i <? total_bits b) then true
                              else (j <? total_bits b) && bit (lget s) b j) s1) ∧
  (∃ s2, bitmap_clear b i s = Ok tt s2 ∧
     bitmap_test b j s2 = Ok (if (i =? j) && (i <? total_bits b) then false
                              else (j <? total_bits b) && bit (lget s) b j) s2).
Proof.
  intros Hb Hi Hj. split.
  - destruct (bitmap_set_run b i s Hb Hi) as (m' & Hrun & Hbit & _). eexists. split; [exact Hrun|].
    rewrite bitmap_test_run, lget_lput, Hbit by done.
    destruct (Z.eqb_spec i j) as [<-|]; cbn; [|done]. by destruct (i <? total_bits b).
  - destruct (bitmap_clear_run b i s Hb Hi) as (m' & Hrun & Hbit & _). eexists. split; [exact Hrun|].
    rewrite bitmap_test_run, lget_lput, Hbit by done.
    destruct (Z.eqb_spec i j) as [<-|]; cbn; [|done]. by destruct (i <? total_bits b).
Qed.
End bitmap_run.

Module BitmapExample.
#[local] Instance lens_mem : Lens mem mem := lens_id.

Lemma bitmap_set_clear_test_witness :
  (∃ s1 : mem, bitmap_set (mkBitmap 0x400000 40) 35 ∅ = Ok tt s1 ∧
     bitmap_test (mkBitmap 0x400000 40) 35 s1 = Ok true s1) ∧
  (∃ s2 : mem, bitmap_clear (mkBitmap 0x400000 40) 35 ∅ = Ok tt s2 ∧
     bitmap_test (mkBitmap 0x400000 40) 35 s2 = Ok false s2).
Proof.
  apply (bitmap_set_clear_test (mkBitmap 0x400000 40) 35 35 ∅); [|done|done].
  split; [cbn; lia|]. vm_compute. split; done.
Defined.
End BitmapExample.
