(* ===== verification/Pmm.v ===== *)
(** * Pmm: the physical frame allocator (src/kernel/memory/pmm.c)

    One bit per 4 KB frame: set when the frame is in use. [pmm_init] places
    the bitmap and reserves the frames below its end; [pmm_allocate_frame]
    takes the lowest free frame; [pmm_free_frame] gives one back. *)

From S2P Require Import Prelude Memory Bitmap.

(** ** The code *)

Definition PMM_FRAME_SIZE : Z := 4096.

(** The file's static data. *)
Record PmmStatics : Type := mkPmm { frame_bitmap : Bitmap; total_frames : Z }.

(** The scan of [pmm_allocate_frame] makes at most [total_bits] turns and one
    more to leave; [total_bits] is a 32-bit number. *)
Definition PMM_FUEL : positive := 4294967297.

Section pmm.
Context {St : Type} `{LM : Lens St mem} `{LP : Lens St PmmStatics}.

Definition pmm_init (total_ram_bytes bitmap_start_addr : Z) : M St Z :=
  let total_frames := total_ram_bytes / PMM_FRAME_SIZE in
  let bm := mkBitmap bitmap_start_addr total_frames in
  puts (mkPmm bm total_frames) ;;
  let bitmap_size_uint32s := total_frames / 32 in
  let bitmap_size_uint32s :=
    if negb (total_frames mod 32 =? 0) then bitmap_size_uint32s ⊞ 1 else bitmap_size_uint32s in
  let total_bitmap_bytes := bitmap_size_uint32s ⊠ 4 in
  bitmap_clear_all bm ;;
  let next_free_address := bitmap_start_addr ⊞ total_bitmap_bytes in
  let frames_to_reserve := next_free_address / PMM_FRAME_SIZE in
  mfor 0 frames_to_reserve (λ frame, bitmap_set bm frame) ;;
  mret next_free_address.

Definition pmm_allocate_body (bm : Bitmap) (bit_index : Z) : M St (Z + Z) :=
  if bit_index <? total_bits bm then
    used ← bitmap_test bm bit_index;
    if negb used then
      bitmap_set bm bit_index ;;
      mret (inr (bit_index ⊠ PMM_FRAME_SIZE))
    else mret (inl (bit_index ⊞ 1))
  else mret (inr 0).

Definition pmm_allocate_frame : M St Z :=
  p ← gets;
  ploop (pmm_allocate_body (frame_bitmap p)) PMM_FUEL 0.

Definition pmm_free_frame (frame_physical_addr : Z) : M St unit :=
  p ← gets;
  bitmap_clear (frame_bitmap p) (frame_physical_addr / PMM_FRAME_SIZE).
End pmm.

(** ** The frames in use *)

Section pmm_spec.
Context {St : Type} `{LM : Lens St mem} `{LP : Lens St PmmStatics} {AP : Apart LM LP}.

(** The frame with index [f] is managed and marked in use. *)
Definition frame_used (s : St) (f : Z) : bool := bit (lget s) (frame_bitmap (lget s)) f.
Definition managed (s : St) (f : Z) : Prop := 0 ≤ f < total_bits (frame_bitmap (lget s)).

(** The allocator is set up: the bitmap is mapped, and there are at most 2^20
    frames (4 GB). *)
Definition pmm_ok (s : St) : Prop :=
  bitmap_ok (frame_bitmap (lget s)) ∧ total_bits (frame_bitmap (lget s)) ≤ 1048576.

Lemma pmm_lput (m' : mem) (s : St) : lget (T:=PmmStatics) (lput m' s) = lget s.
Proof. by rewrite lget_other'. Qed.

Lemma pmm_ok_lput (m' : mem) s : pmm_ok s → pmm_ok (lput m' s).
Proof. unfold pmm_ok. by rewrite pmm_lput. Qed.

Lemma pmm_allocate_loop (bm : Bitmap) k : ∀ i (s : St),
  bitmap_ok bm → total_bits bm ≤ 1048576 → 0 ≤ i ≤ total_bits bm →
  (Z.to_nat (total_bits bm - i) < k)%nat →
  (∃ f m', i ≤ f < total_bits bm ∧ bit (lget s) bm f = false ∧
     (∀ g, i ≤ g < f → bit (lget s) bm g = true) ∧
     nloop (pmm_allocate_body bm) k i s = Ok (f * PMM_FRAME_SIZE) (lput m' s) ∧
     (∀ j, 0 ≤ j → bit m' bm j = (if f =? j then true else bit (lget s) bm j)) ∧
     (∀ x, ¬ in_bitmap bm x → get8 m' x = get8 (lget s) x)) ∨
  ((∀ g, i ≤ g < total_bits bm → bit (lget s) bm g = true) ∧
   nloop (pmm_allocate_body bm) k i s = Ok 0 s).
Proof.
  induction k as [|k IH]; intros i s Hok Hmax Hi Hk; [lia|]. rewrite nloop_S.
  unfold pmm_allocate_body. destruct (Z.ltb_spec i (total_bits bm)) as [Hlt|Hge].
  - rewrite (bind_ok _ _ _ _ _ (bitmap_test_run bm i s Hok ltac:(lia))).
    destruct (Z.ltb_spec i (total_bits bm)); [|lia]. cbn [andb].
    destruct (bit (lget s) bm i) eqn:E; cbn [negb].
    + cbn. wraps. destruct (IH (i + 1) s Hok Hmax ltac:(lia) ltac:(lia))
        as [(f & m' & Hf & Hfree & Hlow & Hrun & Hbit & Hfr)|[Hall Hrun]].
      * left. exists f, m'. split_and!; try done; [lia|lia|]. intros g Hg.
        destruct (Z.eq_dec g i) as [->|]; [done|]. apply Hlow. lia.
      * right. split; [|done]. intros g Hg. destruct (Z.eq_dec g i) as [->|]; [done|]. apply Hall. lia.
    + destruct (bitmap_set_run bm i s Hok ltac:(lia)) as (m' & Hrun & Hbit & Hfr).
      rewrite (bind_ok _ _ _ _ _ Hrun). left. exists i, m'. unfold PMM_FRAME_SIZE.
      split_and!; try done; try lia.
      * cbn. by wraps.
      * intros j Hj. rewrite Hbit by done. destruct (Z.ltb_spec i (total_bits bm)); [|lia].
        by rewrite andb_true_r.
  - right. split; [lia|done].
Qed.

(** [pmm_allocate_frame] always returns. *)
Lemma pmm_allocate_run s :
  pmm_ok s →
  (∃ f m', managed s f ∧ frame_used s f = false ∧ (∀ g, 0 ≤ g < f → frame_used s g = true) ∧
     pmm_allocate_frame s = Ok (f * PMM_FRAME_SIZE) (lput m' s) ∧
     (∀ j, 0 ≤ j → frame_used (lput m' s) j = (if f =? j then true else frame_used s j)) ∧
     (∀ x, ¬ in_bitmap (frame_bitmap (lget s)) x → get8 m' x = get8 (lget s) x)) ∨
  ((∀ f, managed s f → frame_used s f = true) ∧ pmm_allocate_frame s = Ok 0 s).
Proof.
  intros [Hok Hmax]. unfold pmm_allocate_frame, frame_used, managed. rewrite bind_gets.
  set (bm := frame_bitmap (lget s)) in *.
  destruct (pmm_allocate_loop bm (S (Z.to_nat (total_bits bm))) 0 s Hok Hmax) as
    [(f & m' & Hf & Hfree & Hlow & Hrun & Hbit & Hfr)|[Hall Hrun]].
  - destruct Hok. lia.
  - lia.
  - left. exists f, m'. rewrite pmm_lput, lget_lput. split_and!; try done; try lia.
    eapply ploop_ok; [exact Hrun|]. unfold PMM_FUEL. lia.
  - right. split; [done|]. eapply ploop_ok; [exact Hrun|]. unfold PMM_FUEL. lia.
Qed.

(** C32: [pmm_allocate_frame] always returns: the address of the lowest free
    frame, which becomes in use while every other frame keeps its status; or
    0 with nothing changed when all frames are in use. It writes only the
    bitmap. So 0 is returned exactly when no frame is free, or when frame 0
    is: its address is the error value. *)
Theorem pmm_allocate_lowest s :
  pmm_ok s →
  ((∃ f m', pmm_allocate_frame s = Ok (f * PMM_FRAME_SIZE) (lput m' s) ∧
     managed s f ∧ frame_used s f = false ∧ (∀ g, 0 ≤ g < f → frame_used s g = true) ∧
     (∀ j, 0 ≤ j → frame_used (lput m' s) j = (if f =? j then true else frame_used s j)) ∧
     (∀ x, ¬ in_bitmap (frame_bitmap (lget s)) x → get8 m' x = get8 (lget s) x)) ∨
  ((∀ f, managed s f → frame_used s f = true) ∧ pmm_allocate_frame s = Ok 0 s)) ∧
  ((∃ s', pmm_allocate_frame s = Ok 0 s') ↔
   (∀ f, managed s f → frame_used s f = true) ∨ (managed s 0 ∧ frame_used s 0 = false)).
Proof.
  intros Hok. destruct (pmm_allocate_run s Hok) as [(f & m' & Hf & Hfree & Hlow & Hr & ?)|[Hall Hr]].
  - split; [left; exists f, m'; tauto|]. rewrite Hr. unfold PMM_FRAME_SIZE. split.
    + intros (s' & [= E _]). right. by assert (f = 0) as -> by lia.
    + intros [Hall|[H0 Hu]]; [by rewrite Hall in Hfree|]. assert (f = 0) as ->; [|by eexists].
      destruct (Z.lt_trichotomy f 0) as [Hlt|[?|Hlt]]; [unfold managed in Hf; lia|done|]. exfalso. by rewrite Hlow in Hu by lia.
  - split; [by right|]. split; [by left|]. intros _. by exists s.
Qed.

Lemma pmm_free_run s addr :
  pmm_ok s → 0 ≤ addr →
  ∃ m' : mem, pmm_free_frame addr s = Ok tt (lput m' s) ∧
    ∀ j, 0 ≤ j → managed s j →
      frame_used (lput m' s) j = (if addr / PMM_FRAME_SIZE =? j then false else frame_used s j).
Proof.
  intros [Hok Hmax] Ha. unfold pmm_free_frame. rewrite bind_gets.
  destruct (bitmap_clear_run (frame_bitmap (lget s)) (addr / PMM_FRAME_SIZE) s Hok) as (m' & Hrun & Hbit & _).
  { unfold PMM_FRAME_SIZE. apply Z.div_pos; lia. }
  exists m'. split; [done|]. intros j Hj Hm. unfold frame_used, managed in *.
  rewrite pmm_lput, lget_lput, Hbit by done.
  destruct (Z.eqb_spec (addr / PMM_FRAME_SIZE) j) as [->|]; [|done].
  destruct (Z.ltb_spec j (total_bits (frame_bitmap (lget s)))); [done|lia].
Qed.

(** Freeing the frame an allocation returned (any address inside it)
    restores the status every frame had before. *)
Theorem pmm_allocate_free s f s1 off :
  pmm_ok s → pmm_allocate_frame s = Ok (f * PMM_FRAME_SIZE) s1 → f ≠ 0 → 0 ≤ off < PMM_FRAME_SIZE →
  ∃ s2, pmm_free_frame (f * PMM_FRAME_SIZE + off) s1 = Ok tt s2 ∧
    ∀ j, managed s j → frame_used s2 j = frame_used s j.
Proof.
  intros Hok Hrun Hf Hoff.
  destruct (pmm_allocate_run s Hok) as [(f' & m' & Hm & Hfree & _ & Hrun' & Hbit & _)|[_ Hrun']];
    rewrite Hrun' in Hrun; injection Hrun as Heq <-; unfold PMM_FRAME_SIZE in *; [|lia].
  assert (f' = f) as -> by lia. unfold managed in Hm.
  destruct (pmm_free_run (lput m' s) (f * 4096 + off)) as (m2 & Hrun2 & Hbit2).
  { by apply pmm_ok_lput. } { lia. }
  eexists. split; [exact Hrun2|]. intros j Hj. unfold managed in *.
  rewrite Hbit2 by (unfold managed; rewrite ?pmm_lput; lia). unfold PMM_FRAME_SIZE.
  replace ((f * 4096 + off) / 4096) with f by (Z.div_mod_to_equations; lia).
  rewrite Hbit by lia. destruct (Z.eqb_spec f j) as [->|]; done.
Qed.

(** The address where the bitmap of [total_ram_bytes] of memory ends. *)
Definition bitmap_end (total_ram_bytes start : Z) : Z :=
  start + 4 * words (mkBitmap start (total_ram_bytes / PMM_FRAME_SIZE)).

Lemma pmm_init_run ram start (s : St) :
  0 ≤ ram < 4294967296 → IDENT_LO ≤ start → bitmap_end ram start ≤ IDENT_HI →
  ∃ s1, pmm_init ram start s = Ok (bitmap_end ram start) s1 ∧ pmm_ok s1 ∧
    frame_bitmap (lget s1) = mkBitmap start (ram / PMM_FRAME_SIZE) ∧
    (∃ (m' : mem) p, s1 = lput m' (lput (T:=PmmStatics) p s)) ∧
    (∀ f, managed s1 f → frame_used s1 f = (f <? bitmap_end ram start / PMM_FRAME_SIZE)) ∧
    (∀ x, ¬ (start ≤ x < bitmap_end ram start) → get8 (lget s1) x = get8 (lget s) x).
Proof.
  intros Hram Hlo Hhi. set (bm := mkBitmap start (ram / PMM_FRAME_SIZE)).
  assert (Hok : bitmap_ok bm ∧ total_bits bm ≤ 1048576).
  { unfold bitmap_ok, mapped, bitmap_end in *. fold bm in Hhi. cbn [total_bits storage bm] in *.
    unfold PMM_FRAME_SIZE in *. split_and!; Z.div_mod_to_equations; lia. }
  destruct Hok as [Hok Hmax]. unfold bitmap_end in *. fold bm in Hhi |- *.
  unfold pmm_init. rewrite bind_puts. fold bm.
  set (s0 := lput (mkPmm bm (ram / PMM_FRAME_SIZE)) s).
  destruct (bitmap_clear_all_run bm s0 Hok) as (m1 & Hr1 & Hz1 & Hfr1).
  rewrite (bind_ok _ _ _ _ _ Hr1).
  assert (Hw : (if negb (ram / PMM_FRAME_SIZE mod 32 =? 0) then ram / PMM_FRAME_SIZE / 32 ⊞ 1
                else ram / PMM_FRAME_SIZE / 32) ⊠ 4 = 4 * words bm).
  { unfold words. cbn [total_bits bm]. unfold PMM_FRAME_SIZE in *.
    destruct (Z.eqb_spec (ram / 4096 mod 32) 0); cbn [negb]; wraps;
      repeat rewrite u32_small; Z.div_mod_to_equations; lia. }
  rewrite Hw. rewrite (u32_small (start + _)) by (unfold IDENT_LO, IDENT_HI, words in *;
    cbn [total_bits bm] in *; unfold PMM_FRAME_SIZE in *; Z.div_mod_to_equations; lia).
  set (e := start + 4 * words bm) in *.
  destruct (mfor_rule (λ i s', ∃ m', s' = lput m' s0 ∧
      (∀ j, 0 ≤ j < total_bits bm → bit m' bm j = (j <? i)) ∧
      (∀ x, ¬ in_bitmap bm x → get8 m' x = get8 (lget s0) x))
    0 (e / PMM_FRAME_SIZE) (λ frame, bitmap_set bm frame) (lput m1 s0)) as (s' & Hrun & m' & -> & Hb & Hfr).
  - unfold PMM_FRAME_SIZE, e, IDENT_LO, words in *. cbn [total_bits bm]. unfold PMM_FRAME_SIZE in *. Z.div_mod_to_equations; lia.
  - intros i s2 Hi (m2 & -> & Hb2 & Hfr2).
    destruct (bitmap_set_run bm i (lput m2 s0) Hok ltac:(lia)) as (m3 & Hr3 & Hb3 & Hfr3).
    rewrite lput_lput in Hr3. rewrite lget_lput in *. eexists. split; [exact Hr3|].
    exists m3. split_and!; [done| |].
    + intros j Hj. rewrite Hb3, Hb2 by lia.
      destruct (Z.eqb_spec i j), (Z.ltb_spec i (total_bits bm)), (Z.ltb_spec j i), (Z.ltb_spec j (i + 1)); cbn; try done; lia.
    + intros x Hx. by rewrite Hfr3, Hfr2.
  - exists m1. split_and!; [done| |done]. intros j Hj. rewrite Hz1 by done.
    destruct (Z.ltb_spec j 0); [lia|done].
  - rewrite (bind_ok _ _ _ _ _ Hrun). eexists. split; [reflexivity|].
    unfold pmm_ok, frame_used, managed. rewrite pmm_lput. unfold s0. rewrite !lget_lput. cbn [frame_bitmap].
    split_and!; try done; [by exists m', (mkPmm bm (ram / PMM_FRAME_SIZE))|].
    intros x Hx. rewrite Hfr by done. unfold s0. by rewrite lget_other.
Qed.

(** C37: after [pmm_init] exactly the frames below the frame that holds the
    end of the bitmap are in use; the call returns the end of the bitmap and
    writes nothing else. *)
Theorem pmm_init_reserves ram start (s : St) :
  0 ≤ ram < 4294967296 → IDENT_LO ≤ start → bitmap_end ram start ≤ IDENT_HI →
  ∃ s1, pmm_init ram start s = Ok (bitmap_end ram start) s1 ∧ pmm_ok s1 ∧
    (∀ f, managed s1 f → frame_used s1 f = (f <? bitmap_end ram start / PMM_FRAME_SIZE)) ∧
    (∀ x, ¬ (start ≤ x < bitmap_end ram start) → get8 (lget s1) x = get8 (lget s) x).
Proof.
  intros H1 H2 H3. destruct (pmm_init_run ram start s H1 H2 H3) as (s1 & ? & ? & _ & _ & ? & ?). eauto.
Qed.

(** The first frame handed out after [pmm_init] (the kernel's page
    directory, in [paging_init]) contains the address [pmm_init] returned,
    which is where [kmalloc_init] writes the first header of the kernel
    heap: the end of the bitmap is rounded down, not up, and the heap is not
    reserved at all. *)
Theorem first_frame_holds_heap_start ram start (s : St) :
  0 ≤ ram < 4294967296 → IDENT_LO ≤ start → bitmap_end ram start ≤ IDENT_HI →
  bitmap_end ram start / PMM_FRAME_SIZE < ram / PMM_FRAME_SIZE →
  ∃ s1 s2 frame, pmm_init ram start s = Ok (bitmap_end ram start) s1 ∧
    pmm_allocate_frame s1 = Ok frame s2 ∧
    frame ≤ bitmap_end ram start < frame + PMM_FRAME_SIZE.
Proof.
  intros H1 H2 H3 H4. destruct (pmm_init_run ram start s H1 H2 H3) as (s1 & Hr & Hok & Hbm & _ & Hused & _).
  set (e := bitmap_end ram start) in *.
  assert (0 ≤ e / PMM_FRAME_SIZE) as He.
  { unfold e, bitmap_end, words, IDENT_LO, PMM_FRAME_SIZE in *. cbn [total_bits]. Z.div_mod_to_equations; lia. }
  assert (managed s1 (e / PMM_FRAME_SIZE)) as Hmg by (unfold managed; rewrite Hbm; cbn; lia).
  destruct (pmm_allocate_run s1 Hok) as [(f & m' & Hf & Hfree & Hlow & Hrun & _)|[Hall _]].
  - assert (f = e / PMM_FRAME_SIZE) as ->.
    { rewrite Hused in Hfree by done. apply Z.ltb_ge in Hfree.
      destruct (Z.lt_ge_cases (e / PMM_FRAME_SIZE) f) as [Hlt|]; [|lia].
      specialize (Hlow (e / PMM_FRAME_SIZE) ltac:(lia)). rewrite Hused in Hlow by done.
      apply Z.ltb_lt in Hlow. lia. }
    exists s1, (lput m' s1), (e / PMM_FRAME_SIZE * PMM_FRAME_SIZE). split_and!; [done|done|..];
      unfold PMM_FRAME_SIZE; Z.div_mod_to_equations; lia.
  - specialize (Hall _ Hmg). rewrite Hused in Hall by done. apply Z.ltb_lt in Hall. lia.
Qed.
End pmm_spec.

(** ** The theorems on a machine with 6 MB, and on the 3 GB QEMU reports *)

Module PmmExample.
#[local] Existing Instances lens_fst lens_snd.
#[local] Existing Instance apart_fst_snd.

Definition RAM : Z := 6291456.
Definition blank : mem * PmmStatics := (∅, mkPmm (mkBitmap NULL 0) 0).
Definition pm0 : mem * PmmStatics := state_of (pmm_init RAM 0x400000 blank).

Lemma pm0_ok : pmm_ok pm0.
Proof. vm_compute. split_and!; done. Qed.

Lemma pmm_allocate_lowest_witness :
  ((∃ f (m' : mem), pmm_allocate_frame pm0 = Ok (f * PMM_FRAME_SIZE) (lput m' pm0) ∧
     managed pm0 f ∧ frame_used pm0 f = false ∧ (∀ g, 0 ≤ g < f → frame_used pm0 g = true) ∧
     (∀ j, 0 ≤ j → frame_used (lput m' pm0) j = (if f =? j then true else frame_used pm0 j)) ∧
     (∀ x, ¬ in_bitmap (frame_bitmap (lget pm0)) x → get8 m' x = get8 (lget pm0) x)) ∨
  ((∀ f, managed pm0 f → frame_used pm0 f = true) ∧ pmm_allocate_frame pm0 = Ok 0 pm0)) ∧
  ((∃ s', pmm_allocate_frame pm0 = Ok 0 s') ↔
   (∀ f, managed pm0 f → frame_used pm0 f = true) ∨ (managed pm0 0 ∧ frame_used pm0 0 = false)).
Proof. apply (pmm_allocate_lowest pm0). exact pm0_ok. Defined.

Definition pm1 : mem * PmmStatics := state_of (pmm_allocate_frame pm0).
Lemma pm1_run : pmm_allocate_frame pm0 = Ok (1024 * PMM_FRAME_SIZE) pm1.
Proof. unfold pm1. apply returned_ok. vm_compute. reflexivity. Qed.

Lemma pmm_allocate_free_witness :
  ∃ s2, pmm_free_frame (1024 * PMM_FRAME_SIZE + 12) pm1 = Ok tt s2 ∧
    ∀ j, managed pm0 j → frame_used s2 j = frame_used pm0 j.
Proof. apply (pmm_allocate_free pm0 1024 pm1 12); [exact pm0_ok|exact pm1_run|done|done]. Defined.

Lemma pmm_init_reserves_witness :
  ∃ s1, pmm_init RAM 0x400000 blank = Ok (bitmap_end RAM 0x400000) s1 ∧ pmm_ok s1 ∧
    (∀ f, managed s1 f → frame_used s1 f = (f <? bitmap_end RAM 0x400000 / PMM_FRAME_SIZE)) ∧
    (∀ x, ¬ (0x400000 ≤ x < bitmap_end RAM 0x400000) → get8 (lget s1) x = get8 (lget blank) x).
Proof. apply (pmm_init_reserves RAM 0x400000 blank); done. Defined.

Lemma first_frame_holds_heap_start_witness :
  ∃ s1 s2 frame, pmm_init 3220700160 0x400000 blank = Ok (bitmap_end 3220700160 0x400000) s1 ∧
    pmm_allocate_frame s1 = Ok frame s2 ∧
    frame ≤ bitmap_end 3220700160 0x400000 < frame + PMM_FRAME_SIZE.
Proof. apply (first_frame_holds_heap_start 3220700160 0x400000 blank); done. Defined.
End PmmExample.
