(* ===== verification/PortIO.v ===== *)
(** * PortIO: the x86 I/O ports (src/include/asm.h)

    [outb] and [inb] as a trace of events. The value an [inb] reads is given
    by the device, an arbitrary function of the events so far. *)

From S2P Require Import Prelude.

Inductive io_event : Type :=
  | Out (port value : Z)
  | In (port value : Z).

#[export] Instance io_event_eq_dec : EqDecision io_event.
Proof. solve_decision. Defined.

(** The device behind the ports and the events so far, oldest first. *)
Record Ports : Type := mkPorts {
  io_trace : list io_event;
  io_device : list io_event → Z → Z
}.

Definition io_log (p : Ports) (es : list io_event) : Ports :=
  mkPorts (io_trace p ++ es) (io_device p).

(** What the device answers on [port] now. *)
Definition io_answer (p : Ports) (port : Z) : Z := u8 (io_device p (io_trace p) port).

Section ports.
Context {St : Type} `{LIO : Lens St Ports}.

Definition outb (port value : Z) : M St unit := λ s,
  Ok tt (lput (io_log (lget s) [Out (u16 port) (u8 value)]) s).

Definition inb (port : Z) : M St Z := λ s,
  let v := io_answer (lget s) (u16 port) in
  Ok v (lput (io_log (lget s) [In (u16 port) v]) s).

Lemma bind_outb {B} port value (f : unit → M St B) s :
  (outb port value ≫= f) s = f tt (lput (io_log (lget s) [Out (u16 port) (u8 value)]) s).
Proof. done. Qed.

Lemma bind_inb {B} port (f : Z → M St B) s :
  (inb port ≫= f) s =
  f (io_answer (lget s) (u16 port))
    (lput (io_log (lget s) [In (u16 port) (io_answer (lget s) (u16 port))]) s).
Proof. done. Qed.
End ports.

Lemma io_log_log p es es' : io_log (io_log p es) es' = io_log p (es ++ es').
Proof. unfold io_log. cbn. by rewrite <- app_assoc. Qed.

Lemma io_log_nil p : io_log p [] = p.
Proof. destruct p. unfold io_log. cbn. by rewrite app_nil_r. Qed.

Lemma u8_answer p port : u8 (io_answer p port) = io_answer p port.
Proof. unfold io_answer. apply u8_small, u8_range. Qed.
#[global] Opaque io_answer.

(** [iorun]: run the port accesses at the head of the goal's sequence,
    keeping the state small between them. *)
Ltac iorun :=
  repeat first
    [ rewrite lget_lput | rewrite lput_lput | rewrite io_log_log
    | rewrite bind_assoc | rewrite bind_ret | rewrite bind_outb | rewrite bind_inb ];
  cbn [app].
