(* ===== verification/Pic.v ===== *)
(** * Pic: the 8259 interrupt controllers
      (src/kernel/arch/i386/interrupts/pic.c) *)

From S2P Require Import Prelude PortIO.

(** ** The code *)

Definition PIC1_COMMAND : Z := 0x20.
Definition PIC1_DATA : Z := 0x21.
Definition PIC2_COMMAND : Z := 0xA0.
Definition PIC2_DATA : Z := 0xA1.
Definition ICW1_INIT : Z := 0x11.
Definition ICW4_8086 : Z := 0x01.
Definition PIC_EOI : Z := 0x20.

Section pic.
Context {St : Type} `{LIO : Lens St Ports}.

Definition io_wait : M St unit := outb 0x80 0.

Definition pic_remap : M St unit :=
  mask1 ← inb PIC1_DATA;
  mask2 ← inb PIC2_DATA;
  outb PIC1_COMMAND ICW1_INIT ;;
  io_wait ;;
  outb PIC2_COMMAND ICW1_INIT ;;
  io_wait ;;
  outb PIC1_DATA 0x20 ;;
  io_wait ;;
  outb PIC2_DATA 0x28 ;;
  io_wait ;;
  outb PIC1_DATA 0x04 ;;
  io_wait ;;
  outb PIC2_DATA 0x02 ;;
  io_wait ;;
  outb PIC1_DATA ICW4_8086 ;;
  io_wait ;;
  outb PIC2_DATA ICW4_8086 ;;
  io_wait ;;
  outb PIC1_DATA mask1 ;;
  outb PIC2_DATA mask2.

Definition pic_send_eoi (irq_line : Z) : M St unit :=
  (if 8 <=? irq_line then outb PIC2_COMMAND PIC_EOI else mret tt) ;;
  outb PIC1_COMMAND PIC_EOI.

(** [1 << irq_line] on an [int]: a shift by 31 or more is undefined in C. *)
Definition irq_bit (irq_line : Z) : M St Z :=
  if irq_line <? 31 then mret (Z.shiftl 1 irq_line) else stop (OutOfBounds irq_line).

Definition pic_set_irq_mask (irq_line : Z) (masked : bool) : M St unit :=
  let port := if irq_line <? 8 then PIC1_DATA else PIC2_DATA in
  let irq_line := if irq_line <? 8 then irq_line else u8 (irq_line - 8) in
  value ← inb port;
  b ← irq_bit irq_line;
  let value := if masked then u8 (Z.lor value b) else u8 (Z.land value (Z.lnot b)) in
  outb port value.

(** ** What the controllers see *)

Lemma pic_send_eoi_run irq (s : St) :
  pic_send_eoi irq s = Ok tt (lput (io_log (lget s)
    (if 8 <=? irq then [Out PIC2_COMMAND PIC_EOI; Out PIC1_COMMAND PIC_EOI]
     else [Out PIC1_COMMAND PIC_EOI])) s).
Proof.
  unfold pic_send_eoi. destruct (8 <=? irq); iorun; unfold outb; rewrite ?lget_lput, ?lput_lput, ?io_log_log; done.
Qed.

(** [pic_set_irq_mask] on one of the 16 lines reads the mask register of
    the controller that owns the line and writes it back with exactly that
    line's bit changed. *)
Theorem pic_set_irq_mask_bit irq masked (s : St) :
  0 ≤ irq < 16 →
  let port := if irq <? 8 then PIC1_DATA else PIC2_DATA in
  let v := io_answer (lget s) port in
  ∃ w, pic_set_irq_mask irq masked s =
       Ok tt (lput (io_log (lget s) [In port v; Out port w]) s) ∧ 0 ≤ w < 256 ∧
    ∀ j, 0 ≤ j < 8 → Z.testbit w j = (if irq mod 8 =? j then masked else Z.testbit v j).
Proof.
  intros Hirq port v. unfold pic_set_irq_mask.
  assert ((if irq <? 8 then irq else u8 (irq - 8)) = irq mod 8) as ->.
  { destruct (Z.ltb_spec irq 8); [|rewrite u8_small by lia]; Z.div_mod_to_equations; lia. }
  fold port. pose proof (Z.mod_pos_bound irq 8 ltac:(lia)).
  unfold irq_bit. destruct (Z.ltb_spec (irq mod 8) 31); [|lia].
  assert (u16 port = port) as Hport by (subst port; by destruct (irq <? 8)).
  iorun. rewrite Hport. fold v. unfold outb. rewrite lget_lput, lput_lput, io_log_log, Hport.
  eexists. split; [reflexivity|]. split; [apply u8_range|]. intros j Hj. rewrite u8_testbit by done.
  destruct masked; rewrite u8_testbit by done.
  - rewrite Z.lor_spec, shiftl1_testbit by lia.
    destruct (Z.eqb_spec (irq mod 8) j); [by rewrite orb_true_r|by rewrite orb_false_r].
  - rewrite Z.land_spec, Z.lnot_spec, shiftl1_testbit by lia.
    destruct (Z.eqb_spec (irq mod 8) j); [by rewrite andb_false_r|by rewrite andb_true_r].
Qed.
End pic.

(** The bytes written to a port, in order. *)
Definition written (port : Z) (es : list io_event) : list Z :=
  omap (λ e, match e with Out p v => if p =? port then Some v else None | In _ _ => None end) es.

Section remap.
Context {St : Type} `{LIO : Lens St Ports}.

(** What [pic_remap] sends. *)
Lemma pic_remap_run (s : St) :
  let m1 := io_answer (lget s) PIC1_DATA in
  let m2 := io_answer (io_log (lget s) [In PIC1_DATA m1]) PIC2_DATA in
  ∃ es, pic_remap s = Ok tt (lput (io_log (lget s) es) s) ∧
    written PIC1_COMMAND es = [ICW1_INIT] ∧ written PIC2_COMMAND es = [ICW1_INIT] ∧
    written PIC1_DATA es = [0x20; 0x04; ICW4_8086; m1] ∧
    written PIC2_DATA es = [0x28; 0x02; ICW4_8086; m2].
Proof.
  intros m1 m2. unfold pic_remap, io_wait. iorun.
  unfold outb. rewrite lget_lput, lput_lput, io_log_log. cbn [app].
  change (u16 PIC1_DATA) with PIC1_DATA. change (u16 PIC2_DATA) with PIC2_DATA. rewrite !u8_answer. fold m1. fold m2.
  eexists. split; [reflexivity|]. done.
Qed.

(** [pic_remap] drives both controllers through the four initialisation
    words that put their vectors at 0x20 and 0x28 with the slave on line 2,
    in 8086 mode, and gives each its mask back as it was read first. *)
Theorem pic_remap_words (s : St) :
  let m1 := io_answer (lget s) PIC1_DATA in
  let m2 := io_answer (io_log (lget s) [In PIC1_DATA m1]) PIC2_DATA in
  ∃ es, pic_remap s = Ok tt (lput (io_log (lget s) es) s) ∧
    written PIC1_COMMAND es = [ICW1_INIT] ∧ written PIC2_COMMAND es = [ICW1_INIT] ∧
    written PIC1_DATA es = [0x20; 0x04; ICW4_8086; m1] ∧
    written PIC2_DATA es = [0x28; 0x02; ICW4_8086; m2].
Proof. exact (pic_remap_run s). Qed.
End remap.

Module PicExample.
#[local] Instance lens_ports : Lens Ports Ports := lens_id.

Definition ports0 : Ports := mkPorts [] (λ _ _, 0x41).

Lemma pic_set_irq_mask_bit_witness :
  ∃ w, pic_set_irq_mask 10 true ports0 =
       Ok tt (lput (io_log (lget ports0) [In PIC2_DATA (io_answer (lget ports0) PIC2_DATA); Out PIC2_DATA w])
                ports0) ∧ 0 ≤ w < 256 ∧
    ∀ j, 0 ≤ j < 8 → Z.testbit w j =
      (if 10 mod 8 =? j then true else Z.testbit (io_answer (lget ports0) PIC2_DATA) j).
Proof. apply (pic_set_irq_mask_bit 10 true ports0). lia. Defined.
End PicExample.
