(* ===== verification/Pcb.v ===== *)
(** * Pcb: process control blocks (src/include/proc/proc.h)

    The fields of [ProcessControlBlock] as they lie in memory, 40 bytes with
    the list node of the scheduler embedded at offset 4. *)

From S2P Require Import Prelude Memory.

Inductive ProcessState : Type :=
  | STATE_NEW
  | STATE_READY
  | STATE_RUNNING
  | STATE_WAITING
  | STATE_TERMINATING.

#[export] Instance process_state_eq_dec : EqDecision ProcessState.
Proof. solve_decision. Defined.

(** The value the compiler gives to each enumerator. *)
Definition state_code (st : ProcessState) : Z :=
  match st with
  | STATE_NEW => 0
  | STATE_READY => 1
  | STATE_RUNNING => 2
  | STATE_WAITING => 3
  | STATE_TERMINATING => 4
  end.

(** The fields of the struct, the list node apart. *)
Record ProcessControlBlock : Type := mkPcb {
  pid : Z;
  state : ProcessState;
  priority : Z;
  quantum_remaining : Z;
  age_ticks : Z;
  address_space : Z;
  address_space_physical : Z;
  kernel_stack_ptr : Z
}.

Definition OFF_PID : Z := 0.
Definition OFF_NODE : Z := 4.
Definition OFF_STATE : Z := 12.
Definition OFF_PRIORITY : Z := 16.
Definition OFF_QUANTUM : Z := 20.
Definition OFF_AGE : Z := 24.
Definition OFF_SPACE : Z := 28.
Definition OFF_SPACE_PHYS : Z := 32.
Definition OFF_STACK : Z := 36.
Definition SIZEOF_PCB : Z := 40.

Definition set_state (st : ProcessState) (c : ProcessControlBlock) : ProcessControlBlock :=
  mkPcb (pid c) st (priority c) (quantum_remaining c) (age_ticks c)
    (address_space c) (address_space_physical c) (kernel_stack_ptr c).
Definition set_priority (v : Z) (c : ProcessControlBlock) : ProcessControlBlock :=
  mkPcb (pid c) (state c) v (quantum_remaining c) (age_ticks c)
    (address_space c) (address_space_physical c) (kernel_stack_ptr c).
Definition set_quantum (v : Z) (c : ProcessControlBlock) : ProcessControlBlock :=
  mkPcb (pid c) (state c) (priority c) v (age_ticks c)
    (address_space c) (address_space_physical c) (kernel_stack_ptr c).
Definition set_age (v : Z) (c : ProcessControlBlock) : ProcessControlBlock :=
  mkPcb (pid c) (state c) (priority c) (quantum_remaining c) v
    (address_space c) (address_space_physical c) (kernel_stack_ptr c).

Definition set_space (v : Z) (c : ProcessControlBlock) : ProcessControlBlock :=
  mkPcb (pid c) (state c) (priority c) (quantum_remaining c) (age_ticks c) v (address_space_physical c) (kernel_stack_ptr c).
Definition set_space_phys (v : Z) (c : ProcessControlBlock) : ProcessControlBlock :=
  mkPcb (pid c) (state c) (priority c) (quantum_remaining c) (age_ticks c) (address_space c) v (kernel_stack_ptr c).
Definition set_stack (v : Z) (c : ProcessControlBlock) : ProcessControlBlock :=
  mkPcb (pid c) (state c) (priority c) (quantum_remaining c) (age_ticks c) (address_space c) (address_space_physical c) v.

(** The block at [p] has the field values [c]. *)
Record pcb_rep (m : mem) (p : Z) (c : ProcessControlBlock) : Prop := {
  pr_pid : ld32 m (p + OFF_PID) = pid c;
  pr_state : ld32 m (p + OFF_STATE) = state_code (state c);
  pr_priority : ld32 m (p + OFF_PRIORITY) = priority c;
  pr_quantum : ld32 m (p + OFF_QUANTUM) = quantum_remaining c;
  pr_age : ld32 m (p + OFF_AGE) = age_ticks c;
  pr_space : ld32 m (p + OFF_SPACE) = address_space c;
  pr_space_phys : ld32 m (p + OFF_SPACE_PHYS) = address_space_physical c;
  pr_stack : ld32 m (p + OFF_STACK) = kernel_stack_ptr c
}.

(** The bytes of the block outside its list node. *)
Definition pcb_fields (p : Z) (x : Z) : Prop := p ≤ x < p + SIZEOF_PCB ∧ ¬ (p + 4 ≤ x < p + 12).

Ltac pcb_off := unfold OFF_PID, OFF_NODE, OFF_STATE, OFF_PRIORITY, OFF_QUANTUM, OFF_AGE,
  OFF_SPACE, OFF_SPACE_PHYS, OFF_STACK, SIZEOF_PCB in *.

Lemma pcb_rep_ext m m' p c :
  pcb_rep m p c → (∀ x, pcb_fields p x → get8 m' x = get8 m x) → pcb_rep m' p c.
Proof.
  intros [] Hx. unfold pcb_fields in Hx. pcb_off.
  constructor; pcb_off; rewrite (get8_ext_ld32 m); try done; intros; apply Hx; lia.
Qed.

Lemma pcb_rep_range m p c : pcb_rep m p c →
  0 ≤ priority c < 4294967296 ∧ 0 ≤ quantum_remaining c < 4294967296 ∧
  0 ≤ age_ticks c < 4294967296.
Proof. intros [? ? <- <- <- ? ? ?]. split_and!; apply ld32_range. Qed.

Lemma state_code_range st : 0 ≤ state_code st < 4294967296.
Proof. destruct st; cbn; lia. Qed.

Lemma state_code_inj st st' : state_code st = state_code st' → st = st'.
Proof. by destruct st, st'. Qed.

(** Storing a field. *)
Lemma pcb_store_state m p c st :
  pcb_rep m p c → pcb_rep (st32 m (p + OFF_STATE) (state_code st)) p (set_state st c).
Proof.
  intros []. pcb_off. constructor; pcb_off; ldst; try done. apply u32_small, state_code_range.
Qed.
Lemma pcb_store_priority m p c v :
  0 ≤ v < 4294967296 → pcb_rep m p c → pcb_rep (st32 m (p + OFF_PRIORITY) v) p (set_priority v c).
Proof. intros ? []. pcb_off. constructor; pcb_off; ldst; try done. by apply u32_small. Qed.
Lemma pcb_store_quantum m p c v :
  0 ≤ v < 4294967296 → pcb_rep m p c → pcb_rep (st32 m (p + OFF_QUANTUM) v) p (set_quantum v c).
Proof. intros ? []. pcb_off. constructor; pcb_off; ldst; try done. by apply u32_small. Qed.
Lemma pcb_store_age m p c v :
  0 ≤ v < 4294967296 → pcb_rep m p c → pcb_rep (st32 m (p + OFF_AGE) v) p (set_age v c).
Proof. intros ? []. pcb_off. constructor; pcb_off; ldst; try done. by apply u32_small. Qed.

Lemma pcb_store_space m p c v :
  0 ≤ v < 4294967296 → pcb_rep m p c → pcb_rep (st32 m (p + OFF_SPACE) v) p (set_space v c).
Proof. intros ? []. pcb_off. constructor; pcb_off; ldst; try done. by apply u32_small. Qed.
Lemma pcb_store_space_phys m p c v :
  0 ≤ v < 4294967296 → pcb_rep m p c → pcb_rep (st32 m (p + OFF_SPACE_PHYS) v) p (set_space_phys v c).
Proof. intros ? []. pcb_off. constructor; pcb_off; ldst; try done. by apply u32_small. Qed.
Lemma pcb_store_stack m p c v :
  0 ≤ v < 4294967296 → pcb_rep m p c → pcb_rep (st32 m (p + OFF_STACK) v) p (set_stack v c).
Proof. intros ? []. pcb_off. constructor; pcb_off; ldst; try done. by apply u32_small. Qed.

#[export] Hint Resolve pcb_store_state pcb_store_priority pcb_store_quantum pcb_store_age
  state_code_range : kdb.
