(* ===== verification/Sched.v ===== *)
(** * Sched: the multi-level feedback queue scheduler
      (src/kernel/proc/sched.c, src/include/proc/sched.h)

    The code over the process control blocks and intrusive lists in memory;
    the abstract machine of processes, queues and a current process; the
    refinement of the first to the second. *)

From S2P Require Import Prelude Memory KString ListDS PortIO Pic Pcb.

(** ** The code *)

Definition MLFQ_LEVELS : Z := 4.
Definition AGE_TICK_MAX : Z := 600.
Definition MLFQ_QUANTUMS : list Z := [40; 80; 120; 160].

(** The file's static [scheduler]; the lists and the blocks are pointers. *)
Record Scheduler : Type := mkSched {
  priority_queues : list Z;
  waiting_queue : Z;
  current_pcb : Z;
  idle_pcb : Z
}.

Definition set_current (p : Z) (sc : Scheduler) : Scheduler :=
  mkSched (priority_queues sc) (waiting_queue sc) p (idle_pcb sc).

(** Reading a C array: an index outside it is a stop. *)
Definition index {St} (l : list Z) (i : Z) : M St Z :=
  match (if 0 <=? i then l !! Z.to_nat i else None) with
  | Some x => mret x
  | None => stop (OutOfBounds i)
  end.

Section sched_code.
Context {St : Type} `{LM : Lens St mem} `{LS : Lens St Scheduler} (lits : ListLiterals).

Definition put_current (p : Z) : M St unit := sc ← gets; puts (set_current p sc).

Definition sched_enqueue (pcb : Z) : M St unit :=
  if pcb =? NULL then mret tt else
  st ← load32 (pcb + OFF_STATE);
  if st =? state_code STATE_READY then
    prio ← load32 (pcb + OFF_PRIORITY);
    sc ← gets;
    q ← index (priority_queues sc) prio;
    list_push_tail q (pcb + OFF_NODE) ;; mret tt
  else if st =? state_code STATE_WAITING then
    sc ← gets;
    list_push_tail (waiting_queue sc) (pcb + OFF_NODE) ;; mret tt
  else mret tt.

(** One turn of the search for a non-empty queue. *)
Definition pick_body (i : Z) : M St (Z + Z) :=
  if i <? MLFQ_LEVELS then
    sc ← gets;
    q ← index (priority_queues sc) i;
    n ← list_get_size q;
    if 0 <? n then
      node ← list_pop_head lits q;
      mret (inr (node ⊟ OFF_NODE))
    else mret (inl (i + 1))
  else mret (inr NULL).

Definition sched_pick_next_process : M St unit :=
  next_pcb ← ploop pick_body 5 0;
  sc ← gets;
  let next_pcb := if next_pcb =? NULL then idle_pcb sc else next_pcb in
  put_current next_pcb ;;
  store32 (next_pcb + OFF_STATE) (state_code STATE_RUNNING).

(** One turn of the [while] that ages the processes of queue [q]. *)
Definition age_body (q current_node : Z) : M St (Z + unit) :=
  if current_node =? q then mret (inr tt) else
  next_node ← load32 (current_node + OFF_NEXT);
  let waiting_pcb := current_node ⊟ OFF_NODE in
  age ← load32 (waiting_pcb + OFF_AGE);
  store32 (waiting_pcb + OFF_AGE) (age ⊞ 1) ;;
  age ← load32 (waiting_pcb + OFF_AGE);
  (if AGE_TICK_MAX <=? age then
     store32 (waiting_pcb + OFF_AGE) 0 ;;
     list_remove_node q current_node ;;
     prio ← load32 (waiting_pcb + OFF_PRIORITY);
     store32 (waiting_pcb + OFF_PRIORITY) (prio ⊟ 1) ;;
     prio ← load32 (waiting_pcb + OFF_PRIORITY);
     quantum ← index MLFQ_QUANTUMS prio;
     store32 (waiting_pcb + OFF_QUANTUM) quantum ;;
     prio ← load32 (waiting_pcb + OFF_PRIORITY);
     sc ← gets;
     q' ← index (priority_queues sc) prio;
     list_push_tail q' (waiting_pcb + OFF_NODE) ;; mret tt
   else mret tt) ;;
  mret (inl next_node).

Definition age_queue (i : Z) : M St unit :=
  sc ← gets;
  q ← index (priority_queues sc) i;
  first ← load32 (q + OFF_NEXT);
  ploop (age_body q) LIST_FUEL first.

Definition sched_tick : M St unit :=
  sc ← gets;
  if current_pcb sc =? NULL then mret tt else
  let current := current_pcb sc in
  if current =? idle_pcb sc then mret tt else
  quantum ← load32 (current + OFF_QUANTUM);
  store32 (current + OFF_QUANTUM) (quantum ⊟ 1) ;;
  quantum ← load32 (current + OFF_QUANTUM);
  if quantum =? 0 then
    store32 (current + OFF_STATE) (state_code STATE_READY) ;;
    prio ← load32 (current + OFF_PRIORITY);
    (if prio <? MLFQ_LEVELS - 1 then store32 (current + OFF_PRIORITY) (prio ⊞ 1) else mret tt) ;;
    prio ← load32 (current + OFF_PRIORITY);
    quantum ← index MLFQ_QUANTUMS prio;
    store32 (current + OFF_QUANTUM) quantum ;;
    sched_enqueue current ;;
    put_current NULL
  else
    mfor 1 MLFQ_LEVELS age_queue.

Definition sched_block_process : M St unit :=
  sc ← gets;
  let current := current_pcb sc in
  if (current =? NULL) || (current =? idle_pcb sc) then mret tt else
  store32 (current + OFF_STATE) (state_code STATE_WAITING) ;;
  sched_enqueue current.

Definition sched_unblock_process (pcb : Z) : M St unit :=
  if pcb =? NULL then mret tt else
  st ← load32 (pcb + OFF_STATE);
  if negb (st =? state_code STATE_WAITING) then mret tt else
  sc ← gets;
  list_remove_node (waiting_queue sc) (pcb + OFF_NODE) ;;
  store32 (pcb + OFF_STATE) (state_code STATE_READY) ;;
  store32 (pcb + OFF_AGE) 0 ;;
  prio ← load32 (pcb + OFF_PRIORITY);
  quantum ← index MLFQ_QUANTUMS prio;
  store32 (pcb + OFF_QUANTUM) quantum ;;
  sched_enqueue pcb.
End sched_code.

(** [sched_timer_handler] over the two routines of ctxswitch.asm it calls. *)
Section timer.
Context {St : Type} `{LM : Lens St mem} `{LS : Lens St Scheduler} `{LIO : Lens St Ports}.
Context (lits : ListLiterals).
Context (context_switch : Z → Z → Z → M St unit) (bootstrap_first_process : Z → Z → M St unit).

Definition sched_timer_handler : M St unit :=
  sc ← gets;
  let old_pcb := current_pcb sc in
  sched_tick ;;
  pic_send_eoi 0 ;;
  sc ← gets;
  if (current_pcb sc =? NULL) || (old_pcb =? NULL) then
    sched_pick_next_process lits ;;
    sc ← gets;
    let next_pcb := current_pcb sc in
    stack ← load32 (next_pcb + OFF_STACK);
    space ← load32 (next_pcb + OFF_SPACE_PHYS);
    if old_pcb =? NULL then bootstrap_first_process stack space
    else context_switch (old_pcb + OFF_STACK) stack space
  else mret tt.
End timer.

(** ** The abstract scheduler *)

(** Processes by the address of their block; the queues of the four levels
    and, fifth, the waiting queue; the current and the idle process. *)
Record asched : Type := mkA {
  a_procs : gmap Z ProcessControlBlock;
  a_queues : list (list Z);
  a_cur : Z;
  a_idle : Z
}.

Definition WAITQ : nat := 4.

Definition aset_queue (i : nat) (ns : list Z) (A : asched) : asched :=
  mkA (a_procs A) (<[i := ns]> (a_queues A)) (a_cur A) (a_idle A).
Definition aset_cur (p : Z) (A : asched) : asched :=
  mkA (a_procs A) (a_queues A) p (a_idle A).
Definition aset_proc (p : Z) (c : ProcessControlBlock) (A : asched) : asched :=
  mkA (<[p := c]> (a_procs A)) (a_queues A) (a_cur A) (a_idle A).

Definition queued (A : asched) (p : Z) : bool := existsb (λ ns, bool_decide (p ∈ ns)) (a_queues A).

(** Appending to a queue: a process must not be in two places. *)
Definition apush (i : nat) (p : Z) (A : asched) : option asched :=
  ns ← a_queues A !! i;
  if queued A p then None else Some (aset_queue i (ns ++ [p]) A).

Definition level (prio : Z) : option nat :=
  if (0 <=? prio) && (prio <? MLFQ_LEVELS) then Some (Z.to_nat prio) else None.

Definition aenqueue (p : Z) (A : asched) : option asched :=
  if p =? NULL then Some A else
  c ← a_procs A !! p;
  match state c with
  | STATE_READY => i ← level (priority c); apush i p A
  | STATE_WAITING => apush WAITQ p A
  | _ => Some A
  end.

(** The first non-empty queue, from level [i] on. *)
Fixpoint afirst (i : nat) (qs : list (list Z)) : option (nat * Z * list Z) :=
  match qs with
  | [] => None
  | [] :: qs' => afirst (S i) qs'
  | (p :: ns) :: _ => Some (i, p, ns)
  end.

Definition arun (p : Z) (A : asched) : option asched :=
  c ← a_procs A !! p;
  Some (aset_proc p (set_state STATE_RUNNING c) (aset_cur p A)).

Definition apick (A : asched) : option asched :=
  match afirst 0 (take 4 (a_queues A)) with
  | Some (i, p, ns) => arun p (aset_queue i ns A)
  | None => arun (a_idle A) A
  end.

Definition quantum_of (prio : Z) : option Z :=
  if 0 <=? prio then MLFQ_QUANTUMS !! Z.to_nat prio else None.

(** Ageing of one process of queue [i]. The walk would meet a process put
    back on the queue it walks: the abstract step excludes it. *)
Definition aage (i : nat) (A : asched) (p : Z) : option asched :=
  c ← a_procs A !! p;
  let age := age_ticks c ⊞ 1 in
  if AGE_TICK_MAX <=? age then
    ns ← a_queues A !! i;
    let prio := priority c ⊟ 1 in
    quantum ← quantum_of prio;
    j ← level prio;
    if bool_decide (j = i) then None else
    apush j p (aset_queue i (filter (λ q, q ≠ p) ns)
      (aset_proc p (set_quantum quantum (set_priority prio (set_age 0 c))) A))
  else Some (aset_proc p (set_age age c) A).

Fixpoint aage_all (i : nat) (ps : list Z) (A : asched) : option asched :=
  match ps with
  | [] => Some A
  | p :: ps' => A' ← aage i A p; aage_all i ps' A'
  end.

Definition aage_queue (A : asched) (i : nat) : option asched :=
  ns ← a_queues A !! i; aage_all i ns A.

Definition atick (A : asched) : option asched :=
  if a_cur A =? NULL then Some A else
  if a_cur A =? a_idle A then Some A else
  let p := a_cur A in
  c ← a_procs A !! p;
  let quantum := quantum_remaining c ⊟ 1 in
  if quantum =? 0 then
    let prio := if priority c <? MLFQ_LEVELS - 1 then priority c ⊞ 1 else priority c in
    quantum ← quantum_of prio;
    A' ← aenqueue p (aset_proc p (set_quantum quantum (set_priority prio (set_state STATE_READY c))) A);
    Some (aset_cur NULL A')
  else
    A1 ← aage_queue (aset_proc p (set_quantum quantum c) A) 1;
    A2 ← aage_queue A1 2;
    aage_queue A2 3.

Definition ablock (A : asched) : option asched :=
  if (a_cur A =? NULL) || (a_cur A =? a_idle A) then Some A else
  c ← a_procs A !! a_cur A;
  aenqueue (a_cur A) (aset_proc (a_cur A) (set_state STATE_WAITING c) A).

Definition aunblock (p : Z) (A : asched) : option asched :=
  if p =? NULL then Some A else
  c ← a_procs A !! p;
  if bool_decide (state c ≠ STATE_WAITING) then Some A else
  ns ← a_queues A !! WAITQ;
  if bool_decide (p ∈ ns) then
    quantum ← quantum_of (priority c);
    aenqueue p (aset_proc p (set_quantum quantum (set_age 0 (set_state STATE_READY c)))
      (aset_queue WAITQ (filter (λ q, q ≠ p) ns) A))
  else None.

(** ** How memory represents it *)

Definition node (p : Z) : Z := p + OFF_NODE.

(** Blocks are mapped and apart from each other and from the list structs. *)
Record layout_ok (ls : list Z) (ps : gset Z) : Prop := {
  lo_mapped : ∀ p, p ∈ ps → mapped p SIZEOF_PCB;
  lo_pcbs : ∀ p p', p ∈ ps → p' ∈ ps → p ≠ p' → p + SIZEOF_PCB ≤ p' ∨ p' + SIZEOF_PCB ≤ p;
  lo_lists : ∀ i j a b, ls !! i = Some a → ls !! j = Some b → i ≠ j →
    a + SIZEOF_LIST ≤ b ∨ b + SIZEOF_LIST ≤ a;
  lo_apart : ∀ a p, a ∈ ls → p ∈ ps → a + SIZEOF_LIST ≤ p ∨ p + SIZEOF_PCB ≤ a
}.

(** The lists at [ls] and the blocks hold the abstract scheduler. *)
Record data_rep (ls : list Z) (m : mem) (A : asched) : Prop := {
  dr_ls : length ls = 5%nat;
  dr_qs : length (a_queues A) = 5%nat;
  dr_lists : ∀ i a ns, ls !! i = Some a → a_queues A !! i = Some ns → list_rep m a (node <$> ns);
  dr_pcbs : ∀ p c, a_procs A !! p = Some c → pcb_rep m p c;
  dr_member : ∀ i ns p, a_queues A !! i = Some ns → p ∈ ns → p ∈ dom (a_procs A);
  dr_unique : ∀ i j ns ns' p, a_queues A !! i = Some ns → a_queues A !! j = Some ns' →
    p ∈ ns → p ∈ ns' → i = j;
  dr_layout : layout_ok ls (dom (a_procs A))
}.

Lemma queued_false A p : queued A p = false ↔ ∀ i ns, a_queues A !! i = Some ns → p ∉ ns.
Proof.
  unfold queued. rewrite <- not_true_iff_false, existsb_exists. split.
  - intros H i ns Hi Hp. apply H. exists ns. split; [|by apply bool_decide_eq_true].
    apply list_elem_of_In. by eapply list_elem_of_lookup_2.
  - intros H (ns & Hns%list_elem_of_In & Hp%bool_decide_eq_true).
    apply list_elem_of_lookup in Hns as [i Hi]. by eapply H.
Qed.

Lemma node_cells (ns : list Z) x n : n ∈ node <$> ns → n ≤ x < n + 8 → ∃ p, p ∈ ns ∧ p + 4 ≤ x < p + 12.
Proof. intros (p & -> & Hp)%list_elem_of_fmap Hx. exists p. unfold node, OFF_NODE in Hx. split; [done|lia]. Qed.

(** A write to the cells of one list: the other lists and the fields of the
    blocks keep. [ws] are the processes whose nodes were written. *)
Lemma data_list_update ls m m' A i a ns ns' ws :
  data_rep ls m A → ls !! i = Some a → a_queues A !! i = Some ns →
  list_rep m' a (node <$> ns') →
  (∀ p, p ∈ ns' → p ∈ ws) →
  (∀ p, p ∈ ws → p ∈ dom (a_procs A) ∧ ∀ j ms, a_queues A !! j = Some ms → p ∈ ms → j = i) →
  (∀ x, ¬ list_cells a (node <$> ws) x → get8 m' x = get8 m x) →
  data_rep ls m' (aset_queue i ns' A).
Proof.
  intros [Hls Hqs Hl Hp Hmem Huniq [Hmap Hpp Hll Hlp]] Ha Hns Hl' Hsub Hws Hfr.
  assert (a ∈ ls) as Hain by by eapply list_elem_of_lookup_2.
  assert (Hi : (i < length (a_queues A))%nat) by by eapply lookup_lt_Some.
  unfold SIZEOF_PCB, SIZEOF_LIST in *.
  constructor; cbn [aset_queue a_procs a_queues].
  - done.
  - by rewrite length_insert.
  - intros j b ms Hb Hms. apply list_lookup_insert_Some in Hms as [(<- & <- & _)|[Hne Hms]].
    + rewrite Ha in Hb. injection Hb as <-. done.
    + eapply list_rep_ext; [by eapply Hl|]. intros x Hx. apply Hfr.
      assert (b ∈ ls) as Hbin by by eapply list_elem_of_lookup_2.
      assert (a + 20 ≤ b ∨ b + 20 ≤ a) as Hab by (by eapply Hll).
      intros Hy. destruct Hx as [Hx|(n & Hn & Hx)], Hy as [Hy|(n' & Hn' & Hy)].
      * lia.
      * destruct (node_cells _ _ _ Hn' Hy) as (p & Hpw & Hpx).
        destruct (Hlp b p Hbin); [by apply Hws|lia..].
      * destruct (node_cells _ _ _ Hn Hx) as (p & Hpw & Hpx).
        destruct (Hlp a p Hain); [by eapply Hmem|lia..].
      * destruct (node_cells _ _ _ Hn Hx) as (p & Hpm & Hpx).
        destruct (node_cells _ _ _ Hn' Hy) as (p' & Hpw & Hpx').
        destruct (Hws p' Hpw) as [Hd Hj].
        destruct (decide (p = p')) as [<-|Hne']; [by specialize (Hj _ _ Hms Hpm)|].
        destruct (Hpp p p'); [by eapply Hmem|done|done|lia..].
  - intros p c Hc. eapply pcb_rep_ext; [by eapply Hp|]. intros x [Hx Hx']. apply Hfr.
    assert (p ∈ dom (a_procs A)) as Hpd by (by apply elem_of_dom_2 in Hc).
    unfold SIZEOF_PCB in *. intros [Hy|(n & Hn & Hy)].
    + destruct (Hlp a p Hain Hpd); lia.
    + destruct (node_cells _ _ _ Hn Hy) as (p' & Hpw & Hpx).
      destruct (Hws p' Hpw) as [Hd _]. destruct (decide (p = p')) as [<-|Hne]; [lia|].
      destruct (Hpp p p'); [done|done|done|lia..].
  - intros j ms p Hms Hpm. apply list_lookup_insert_Some in Hms as [(<- & <- & _)|[Hne Hms]].
    + by apply Hws, Hsub.
    + by eapply Hmem.
  - intros j k ms ms' p Hms Hms' Hpm Hpm'.
    apply list_lookup_insert_Some in Hms as [(<- & <- & _)|[Hne Hms]],
      Hms' as [(<- & <- & _)|[Hne' Hms']]; [done| | |by eapply Huniq].
    + symmetry. destruct (Hws p) as [_ Hj]; [by apply Hsub|]. by eapply Hj.
    + destruct (Hws p) as [_ Hj]; [by apply Hsub|]. by eapply Hj.
  - done.
Qed.

(** A write to the fields of one block: the lists and the other blocks keep. *)
Lemma data_pcb_update ls m m' A p c c' :
  data_rep ls m A → a_procs A !! p = Some c → pcb_rep m' p c' →
  (∀ x, ¬ pcb_fields p x → get8 m' x = get8 m x) →
  data_rep ls m' (aset_proc p c' A).
Proof.
  intros [Hls Hqs Hl Hp Hmem Huniq [Hmap Hpp Hll Hlp]] Hc Hrep Hfr.
  assert (p ∈ dom (a_procs A)) as Hpd by (by apply elem_of_dom_2 in Hc).
  assert (dom (<[p:=c']> (a_procs A)) = dom (a_procs A)) as Hdom by (rewrite dom_insert_L; set_solver).
  unfold pcb_fields, SIZEOF_PCB, SIZEOF_LIST in *.
  constructor; cbn [aset_proc a_procs a_queues]; [done|done| | |by rewrite Hdom|done|by rewrite Hdom].
  - intros i a ns Ha Hns. eapply list_rep_ext; [by eapply Hl|]. intros x Hx. apply Hfr.
    assert (a ∈ ls) as Hain by by eapply list_elem_of_lookup_2.
    intros [Hy Hy']. destruct Hx as [Hx|(n & Hn & Hx)].
    + destruct (Hlp a p Hain Hpd); lia.
    + destruct (node_cells _ _ _ Hn Hx) as (p' & Hpm & Hpx).
      destruct (decide (p = p')) as [<-|Hne]; [lia|].
      destruct (Hpp p p'); [done|by eapply Hmem|done|lia..].
  - intros p' c1 Hc1. apply lookup_insert_Some in Hc1 as [[<- <-]|[Hne Hc1]]; [done|].
    eapply pcb_rep_ext; [by eapply Hp|]. intros x [Hx Hx']. apply Hfr. unfold SIZEOF_PCB in *.
    assert (p' ∈ dom (a_procs A)) as Hpd' by (by apply elem_of_dom_2 in Hc1).
    destruct (Hpp p p'); [done|done|done|lia..].
Qed.

(** The bytes of the lists and blocks; the rest of memory is not the
    scheduler's. *)
Definition sched_bytes (ls : list Z) (ps : gset Z) (x : Z) : Prop :=
  (∃ a, a ∈ ls ∧ a ≤ x < a + SIZEOF_LIST) ∨ ∃ p, p ∈ ps ∧ p ≤ x < p + SIZEOF_PCB.

Lemma data_rep_ext ls m m' A : data_rep ls m A → (∀ x, sched_bytes ls (dom (a_procs A)) x → get8 m' x = get8 m x) → data_rep ls m' A.
Proof.
  intros [Hls Hqs Hl Hp Hmem Huniq Hlay] Hx. constructor; try done.
  - intros i a ns Ha Hns. eapply list_rep_ext; [by eapply Hl|]. intros x [Hc|(nd & (p & -> & Hin)%list_elem_of_fmap & Hc)]; apply Hx.
    + left. exists a. split; [by eapply list_elem_of_lookup_2|]. unfold SIZEOF_LIST. lia.
    + right. exists p. split; [by eapply Hmem|]. unfold node, OFF_NODE, SIZEOF_PCB in *. lia.
  - intros p c Hc. eapply pcb_rep_ext; [by apply Hp|]. intros x [Hin _]. apply Hx. right. exists p. split; [by apply elem_of_dom_2 in Hc|done].
Qed.

(** Only the scheduler's bytes differ. *)
Definition sched_frame (ls : list Z) (A : asched) (m m' : mem) : Prop :=
  ∀ x, ¬ sched_bytes ls (dom (a_procs A)) x → get8 m' x = get8 m x.

Lemma sched_frame_fields ls A p c m m' : a_procs A !! p = Some c →
  (∀ x, ¬ pcb_fields p x → get8 m' x = get8 m x) → sched_frame ls A m m'.
Proof.
  intros Hc Hm x Hx. apply Hm. intros [Hf _]. apply Hx. right. exists p. by apply elem_of_dom_2 in Hc.
Qed.

Lemma sched_frame_cells ls A m m' i a ws : ls !! i = Some a → (∀ p, p ∈ ws → p ∈ dom (a_procs A)) →
  (∀ x, ¬ list_cells a (node <$> ws) x → get8 m' x = get8 m x) → sched_frame ls A m m'.
Proof.
  intros Ha Hws Hm x Hx. apply Hm. intros [Hl|(n & Hn & Hl)]; apply Hx.
  - left. exists a. split; [by eapply list_elem_of_lookup_2|]. unfold SIZEOF_LIST. lia.
  - destruct (node_cells _ _ _ Hn Hl) as (p & Hp & Hpx). right. exists p. split; [auto|]. unfold SIZEOF_PCB. lia.
Qed.

(** ** Running the primitive steps *)

Section steps.
Context {St : Type} `{LM : Lens St mem} (lits : ListLiterals) (ls : list Z).

Lemma block_mapped m A p c : data_rep ls m A → a_procs A !! p = Some c → mapped p SIZEOF_PCB.
Proof. intros Hd Hc. apply (lo_mapped _ _ (dr_layout _ _ _ Hd)). by apply elem_of_dom_2 in Hc. Qed.

Section fields.
Context (s : St) (A : asched) (p : Z) (c : ProcessControlBlock).
Context (Hd : data_rep ls (lget s) A) (Hc : a_procs A !! p = Some c).

Lemma load_field off : 0 ≤ off ≤ 36 → load32 (p + off) s = Ok (ld32 (lget s) (p + off)) s.
Proof.
  intros Hoff. pose proof (block_mapped _ _ _ _ Hd Hc). unfold SIZEOF_PCB in *.
  apply load32_run. mapped_tac.
Qed.

Lemma load_state : load32 (p + OFF_STATE) s = Ok (state_code (state c)) s.
Proof. rewrite load_field by (pcb_off; lia). f_equal. apply (pr_state _ _ _ (dr_pcbs _ _ _ Hd _ _ Hc)). Qed.
Lemma load_priority : load32 (p + OFF_PRIORITY) s = Ok (priority c) s.
Proof. rewrite load_field by (pcb_off; lia). f_equal. apply (pr_priority _ _ _ (dr_pcbs _ _ _ Hd _ _ Hc)). Qed.
Lemma load_quantum : load32 (p + OFF_QUANTUM) s = Ok (quantum_remaining c) s.
Proof. rewrite load_field by (pcb_off; lia). f_equal. apply (pr_quantum _ _ _ (dr_pcbs _ _ _ Hd _ _ Hc)). Qed.
Lemma load_age : load32 (p + OFF_AGE) s = Ok (age_ticks c) s.
Proof. rewrite load_field by (pcb_off; lia). f_equal. apply (pr_age _ _ _ (dr_pcbs _ _ _ Hd _ _ Hc)). Qed.

Lemma store_field off v c' :
  12 ≤ off ≤ 36 → pcb_rep (st32 (lget s) (p + off) v) p c' →
  ∃ m', store32 (p + off) v s = Ok tt (lput m' s) ∧ data_rep ls m' (aset_proc p c' A) ∧ sched_frame ls A (lget s) m'.
Proof.
  intros Hoff Hrep. pose proof (block_mapped _ _ _ _ Hd Hc) as Hm. unfold SIZEOF_PCB in *.
  assert (∀ x, ¬ pcb_fields p x → get8 (st32 (lget s) (p + off) v) x = get8 (lget s) x) as Hfr.
  { intros x Hx. apply get8_st32_ne. unfold pcb_fields, SIZEOF_PCB in Hx. lia. }
  eexists. split_and!; [apply store32_run; mapped_tac|by eapply data_pcb_update|by eapply sched_frame_fields].
Qed.

Lemma store_state st :
  ∃ m', store32 (p + OFF_STATE) (state_code st) s = Ok tt (lput m' s) ∧
    data_rep ls m' (aset_proc p (set_state st c) A) ∧ sched_frame ls A (lget s) m'.
Proof. apply store_field; [pcb_off; lia|]. apply pcb_store_state. by eapply dr_pcbs. Qed.
Lemma store_priority v : 0 ≤ v < 4294967296 →
  ∃ m', store32 (p + OFF_PRIORITY) v s = Ok tt (lput m' s) ∧
    data_rep ls m' (aset_proc p (set_priority v c) A) ∧ sched_frame ls A (lget s) m'.
Proof. intros. apply store_field; [pcb_off; lia|]. apply pcb_store_priority; [done|]. by eapply dr_pcbs. Qed.
Lemma store_quantum v : 0 ≤ v < 4294967296 →
  ∃ m', store32 (p + OFF_QUANTUM) v s = Ok tt (lput m' s) ∧
    data_rep ls m' (aset_proc p (set_quantum v c) A) ∧ sched_frame ls A (lget s) m'.
Proof. intros. apply store_field; [pcb_off; lia|]. apply pcb_store_quantum; [done|]. by eapply dr_pcbs. Qed.
Lemma store_age v : 0 ≤ v < 4294967296 →
  ∃ m', store32 (p + OFF_AGE) v s = Ok tt (lput m' s) ∧
    data_rep ls m' (aset_proc p (set_age v c) A) ∧ sched_frame ls A (lget s) m'.
Proof. intros. apply store_field; [pcb_off; lia|]. apply pcb_store_age; [done|]. by eapply dr_pcbs. Qed.
End fields.

Lemma node_fresh m A i a ns p :
  data_rep ls m A → ls !! i = Some a → a_queues A !! i = Some ns →
  p ∈ dom (a_procs A) → p ∉ ns → fresh a (node <$> ns) (p + OFF_NODE).
Proof.
  intros Hd Ha Hns Hp Hn. destruct (dr_layout _ _ _ Hd) as [Hmap Hpp _ Hlp].
  pose proof (Hmap p Hp) as Hm. pose proof (Hlp a p (list_elem_of_lookup_2 _ _ _ Ha) Hp).
  unfold SIZEOF_PCB, SIZEOF_LIST in *. pcb_off. split_and!; unfold SIZEOF_LIST; [mapped_tac|lia|].
  intros x (q & -> & Hq)%list_elem_of_fmap. unfold node, OFF_NODE.
  destruct (Hpp p q); [done|by eapply dr_member|by intros ->|lia..].
Qed.

Lemma push_step s A i a p A' :
  data_rep ls (lget s) A → ls !! i = Some a → p ∈ dom (a_procs A) → apush i p A = Some A' →
  ∃ m', list_push_tail a (p + OFF_NODE) s = Ok 0 (lput m' s) ∧ data_rep ls m' A' ∧ sched_frame ls A (lget s) m'.
Proof.
  intros Hd Ha Hp Hpush. unfold apush in Hpush.
  destruct (a_queues A !! i) as [ns|] eqn:Hns; [|done]. cbn in Hpush.
  destruct (queued A p) eqn:Hq; [done|]. injection Hpush as <-. rewrite queued_false in Hq.
  pose proof (Hq _ _ Hns) as Hn.
  destruct (list_push_tail_run a (node <$> ns) (p + OFF_NODE) s) as (m' & Hrun & Hrep & Hfr).
  { by eapply dr_lists. } { by eapply node_fresh. }
  assert (node <$> ns ++ [p] = (node <$> ns) ++ [p + OFF_NODE]) as Heq by (by rewrite fmap_app).
  exists m'. split_and!; [done| |].
  2: { apply (sched_frame_cells ls A _ _ i a (ns ++ [p])); [done| |by rewrite Heq].
       intros q [Hqn| ->%list_elem_of_singleton]%elem_of_app; [by eapply dr_member|done]. }
  eapply (data_list_update _ _ _ _ _ _ _ _ (ns ++ [p]));
    [exact Hd|exact Ha|exact Hns|by rewrite Heq|done| |by rewrite Heq].
  intros q [Hqn| ->%list_elem_of_singleton]%elem_of_app; (split; [|intros j ms Hms Hqm]).
  - by eapply dr_member.
  - by eapply dr_unique.
  - done.
  - by apply Hq in Hms.
Qed.

Lemma pop_step s A i a p ns :
  data_rep ls (lget s) A → ls !! i = Some a → a_queues A !! i = Some (p :: ns) →
  ∃ m', list_pop_head lits a s = Ok (node p) (lput m' s) ∧ data_rep ls m' (aset_queue i ns A) ∧ sched_frame ls A (lget s) m'.
Proof.
  intros Hd Ha Hns.
  destruct (list_pop_head_run lits a (node p) (node <$> ns) s) as (m' & Hrun & Hrep & _ & _ & Hfr).
  { by apply (dr_lists _ _ _ Hd _ _ _ Ha Hns). }
  exists m'. split_and!; [done| |].
  2: { apply (sched_frame_cells ls A _ _ i a (p :: ns)); [done|intros q Hq; by eapply dr_member|done]. }
  eapply (data_list_update _ _ _ _ _ _ _ _ (p :: ns)); [exact Hd|exact Ha|exact Hns|done|set_solver| |done].
  intros q Hq. split; [by eapply dr_member|]. intros j ms Hms Hqm. by eapply dr_unique.
Qed.

Lemma filter_ne_id (p : Z) (ns : list Z) : p ∉ ns → filter (λ q, q ≠ p) ns = ns.
Proof.
  induction ns as [|n ns IH]; [done|]. intros [Hne Hn]%not_elem_of_cons.
  rewrite filter_cons_True by congruence. by rewrite IH.
Qed.

Lemma filter_mid (p : Z) ns1 ns2 :
  NoDup (ns1 ++ p :: ns2) → filter (λ q, q ≠ p) (ns1 ++ p :: ns2) = ns1 ++ ns2.
Proof.
  intros Hnd. rewrite filter_app, filter_cons_False by tauto.
  apply NoDup_app in Hnd as (H1 & Hd & [Hp H2]%NoDup_cons).
  f_equal; apply filter_ne_id; [|done]. intros Hx. apply (Hd p Hx), list_elem_of_here.
Qed.

Lemma queue_nodup m A i a ns :
  data_rep ls m A → ls !! i = Some a → a_queues A !! i = Some ns → NoDup ns.
Proof.
  intros Hd Ha Hns. destruct (lr_sep _ _ _ (dr_lists _ _ _ Hd _ _ _ Ha Hns)) as [[_ Hnd]%NoDup_cons _].
  by apply NoDup_fmap_1 in Hnd.
Qed.

Lemma remove_step s A i a p ns :
  data_rep ls (lget s) A → ls !! i = Some a → a_queues A !! i = Some ns → p ∈ ns →
  ∃ m', list_remove_node a (p + OFF_NODE) s = Ok 0 (lput m' s) ∧
    data_rep ls m' (aset_queue i (filter (λ q, q ≠ p) ns) A) ∧ sched_frame ls A (lget s) m'.
Proof.
  intros Hd Ha Hns Hp. pose proof (queue_nodup _ _ _ _ _ Hd Ha Hns) as Hnd.
  pose proof (dr_lists _ _ _ Hd _ _ _ Ha Hns) as Hrep.
  apply list_elem_of_split in Hp as (ns1 & ns2 & ->).
  rewrite filter_mid by done. rewrite fmap_app, fmap_cons in Hrep.
  destruct (list_remove_node_run a (node <$> ns1) (node p) (node <$> ns2) s Hrep) as (m' & Hrun & Hrep' & _ & _ & Hfr).
  exists m'. split_and!; [done| |].
  2: { apply (sched_frame_cells ls A _ _ i a (ns1 ++ p :: ns2)); [done|intros q Hq; by eapply dr_member|by rewrite fmap_app, fmap_cons]. }
  eapply (data_list_update _ _ _ _ _ _ _ _ (ns1 ++ p :: ns2)); [exact Hd|exact Ha|exact Hns| | | |].
  - by rewrite fmap_app.
  - intros q Hq. rewrite elem_of_app in *. rewrite elem_of_cons. tauto.
  - intros q Hq. split; [by eapply dr_member|]. intros j ms Hms Hqm. by eapply dr_unique.
  - by rewrite fmap_app, fmap_cons.
Qed.
End steps.


(** ** The operations refine the abstract steps *)

(** The static [scheduler] for the lists [ls]. *)
Definition statics (ls : list Z) (A : asched) : Scheduler :=
  mkSched (take 4 ls) (nth 4 ls NULL) (a_cur A) (a_idle A).

Section refinement.
Context {St : Type} `{LM : Lens St mem} `{LS : Lens St Scheduler} {AP : Apart LM LS}.
Context (lits : ListLiterals) (ls : list Z).

(** The machine state represents the abstract scheduler. *)
Record srep (s : St) (A : asched) : Prop := {
  sr_data : data_rep ls (lget s) A;
  sr_static : lget s = statics ls A
}.

(** [s'] is [s] but for the scheduler's bytes and its static. *)
Definition touched (ps : gset Z) (s s' : St) : Prop :=
  ∃ (m : mem) (sc : Scheduler), s' = lput m (lput sc s) ∧ ∀ x, ¬ sched_bytes ls ps x → get8 m x = get8 (lget s) x.

Lemma touched_refl ps s : touched ps s s.
Proof. exists (lget s), (lget s). by rewrite !lput_lget. Qed.

#[local] Instance touched_preorder ps : PreOrder (touched ps).
Proof.
  split.
  - exact (touched_refl ps).
  - intros s _ _ (m & sc & -> & Hm) (m' & sc' & -> & Hm'). exists m', sc'. split.
    + by rewrite <- (lput_comm m sc'), lput_lput, lput_lput.
    + intros x Hx. rewrite Hm', lget_lput by done. by apply Hm.
Qed.

(** From [s], which represents [A], [op] returns [b] in a state that
    represents [A'], and writes nothing but the scheduler's bytes. *)
Definition sim {B} (s : St) (A : asched) (op : M St B) (b : B) (A' : asched) : Prop :=
  ∃ s', op s = Ok b s' ∧ srep s' A' ∧ dom (a_procs A') = dom (a_procs A) ∧ touched (dom (a_procs A)) s s'.

Lemma sim_ret {B} s (b : B) A : srep s A → sim s A (mret b) b A.
Proof. intros H. exists s. by split_and!. Qed.

Lemma sim_eq {B} s A (op : M St B) b A1 A2 : A1 = A2 → sim s A op b A1 → sim s A op b A2.
Proof. by intros ->. Qed.

Lemma sim_bind {B C} s A (m : M St B) (f : B → M St C) b A1 c A2 :
  sim s A m b A1 → (∀ s1, srep s1 A1 → sim s1 A1 (f b) c A2) → sim s A (m ≫= f) c A2.
Proof.
  intros (s1 & Hr1 & H1 & D1 & Ht1) Hf. destruct (Hf s1 H1) as (s2 & Hr2 & H2 & D2 & Ht2). rewrite D1 in *.
  exists s2. split_and!; [by rewrite (bind_ok _ _ _ _ _ Hr1)|done|done|by etrans].
Qed.

Lemma sim_load {B C} s A (m : M St B) (f : B → M St C) b c A' :
  m s = Ok b s → sim s A (f b) c A' → sim s A (m ≫= f) c A'.
Proof. intros Hr (s' & Hr' & H). exists s'. split; [by rewrite (bind_ok _ _ _ _ _ Hr)|done]. Qed.

Lemma sim_mem {B} s A (op : M St B) b A' : srep s A →
  (∃ m' : mem, op s = Ok b (lput m' s) ∧ data_rep ls m' A' ∧ sched_frame ls A (lget s) m') →
  dom (a_procs A') = dom (a_procs A) → a_cur A' = a_cur A → a_idle A' = a_idle A →
  sim s A op b A'.
Proof.
  intros [Hd Hs] (m' & Hr & Hd' & Hfr) Hdom Hc Hi. exists (lput m' s). split_and!; [done| |done|].
  - constructor; [by rewrite lget_lput|]. rewrite lget_other', Hs. unfold statics. by rewrite Hc, Hi.
  - exists m', (lget s). by rewrite lput_lget.
Qed.

Lemma sim_put_current s A p : srep s A → sim s A (put_current p) tt (aset_cur p A).
Proof.
  intros [[] Hs]. eexists. split_and!; [reflexivity| |done|].
  - constructor; [rewrite lget_other; by constructor|]. by rewrite lget_lput, Hs.
  - exists (lget s), (set_current p (lget s)). by rewrite lput_comm, lput_lget.
Qed.

Lemma index_queue s A prio i :
  srep s A → level prio = Some i →
  ∃ a, ls !! i = Some a ∧ index (St:=St) (priority_queues (lget s)) prio s = Ok a s.
Proof.
  intros [Hd Hs] Hl. unfold level in Hl.
  destruct ((0 <=? prio) && (prio <? MLFQ_LEVELS)) eqn:E; [|done].
  apply andb_prop in E as [H0%Z.leb_le H4%Z.ltb_lt]. unfold MLFQ_LEVELS in H4. injection Hl as <-.
  assert (Z.to_nat prio < length ls)%nat as Hlt by (rewrite (dr_ls _ _ _ Hd); lia).
  destruct (lookup_lt_is_Some_2 _ _ Hlt) as [a Ha]. exists a. split; [done|].
  unfold index. rewrite Hs. cbn [statics priority_queues]. destruct (Z.leb_spec 0 prio); [|lia].
  assert (take 4 ls !! Z.to_nat prio = Some a) as -> by (apply lookup_take_Some; split; [done|lia]). done.
Qed.

Lemma waiting_list s A : srep s A → ls !! WAITQ = Some (waiting_queue (lget s)).
Proof.
  intros [Hd Hs]. rewrite Hs. cbn [statics waiting_queue].
  destruct (lookup_lt_is_Some_2 ls WAITQ) as [a Ha]; [rewrite (dr_ls _ _ _ Hd); unfold WAITQ; lia|].
  rewrite Ha. f_equal. symmetry. by apply nth_lookup_Some.
Qed.

Lemma index_quantum prio q (s : St) :
  quantum_of prio = Some q → index MLFQ_QUANTUMS prio s = Ok q s.
Proof. unfold quantum_of, index. destruct (0 <=? prio); [|done]. by intros ->. Qed.

Lemma quantum_range prio q : quantum_of prio = Some q → 0 < q < 4294967296.
Proof.
  unfold quantum_of, MLFQ_QUANTUMS. destruct (0 <=? prio); [|done].
  intros Hq%list_elem_of_lookup_2. set_unfold in Hq. lia.
Qed.

Lemma proc_not_null s A p c : srep s A → a_procs A !! p = Some c → p ≠ NULL.
Proof.
  intros [Hd _] Hc. pose proof (block_mapped _ _ _ _ _ Hd Hc). unfold SIZEOF_PCB, NULL in *. mapped_tac.
Qed.

Lemma apush_inv i p A A' : apush i p A = Some A' →
  ∃ ns, a_queues A !! i = Some ns ∧ queued A p = false ∧ A' = aset_queue i (ns ++ [p]) A.
Proof.
  unfold apush. destruct (a_queues A !! i) as [ns|]; [|done]. cbn [mbind option_bind].
  destruct (queued A p) eqn:E; [done|]. intros [= <-]. eauto.
Qed.

Lemma apush_frame i p A A' : apush i p A = Some A' → a_procs A' = a_procs A ∧ a_cur A' = a_cur A ∧ a_idle A' = a_idle A.
Proof. by intros (ns & _ & _ & ->)%apush_inv. Qed.

Lemma aset_proc_dom p c c' A : a_procs A !! p = Some c → dom (a_procs (aset_proc p c' A)) = dom (a_procs A).
Proof. intros Hc%elem_of_dom_2. cbn. rewrite dom_insert_L. set_solver. Qed.

Lemma aenqueue_frame p A A' : aenqueue p A = Some A' → a_cur A' = a_cur A ∧ a_idle A' = a_idle A.
Proof.
  unfold aenqueue. destruct (p =? NULL); [by intros [= <-]|].
  destruct (a_procs A !! p) as [c|]; [|done]. cbn.
  destruct (state c); try by intros [= <-].
  - destruct (level (priority c)); [|done]. by intros (? & ? & ?)%apush_frame.
  - by intros (? & ? & ?)%apush_frame.
Qed.

(** The primitive steps as simulations. *)
Section proc_steps.
Context (s : St) (A : asched) (p : Z) (c : ProcessControlBlock).
Context (Hs : srep s A) (Hc : a_procs A !! p = Some c).

Lemma sim_state st : sim s A (store32 (p + OFF_STATE) (state_code st)) tt (aset_proc p (set_state st c) A).
Proof. apply sim_mem; [done|exact (store_state ls s A p c (sr_data _ _ Hs) Hc st)|by eapply aset_proc_dom|done|done]. Qed.
Lemma sim_priority v : 0 ≤ v < 4294967296 →
  sim s A (store32 (p + OFF_PRIORITY) v) tt (aset_proc p (set_priority v c) A).
Proof. intros Hv. apply sim_mem; [done|exact (store_priority ls s A p c (sr_data _ _ Hs) Hc v Hv)|by eapply aset_proc_dom|done|done]. Qed.
Lemma sim_quantum v : 0 ≤ v < 4294967296 →
  sim s A (store32 (p + OFF_QUANTUM) v) tt (aset_proc p (set_quantum v c) A).
Proof. intros Hv. apply sim_mem; [done|exact (store_quantum ls s A p c (sr_data _ _ Hs) Hc v Hv)|by eapply aset_proc_dom|done|done]. Qed.
Lemma sim_age v : 0 ≤ v < 4294967296 →
  sim s A (store32 (p + OFF_AGE) v) tt (aset_proc p (set_age v c) A).
Proof. intros Hv. apply sim_mem; [done|exact (store_age ls s A p c (sr_data _ _ Hs) Hc v Hv)|by eapply aset_proc_dom|done|done]. Qed.

Lemma sim_push i a A' : ls !! i = Some a → apush i p A = Some A' →
  sim s A (list_push_tail a (p + OFF_NODE)) 0 A'.
Proof.
  intros Ha Hp. destruct (apush_frame _ _ _ _ Hp) as (Hps & Hcur & Hidle).
  apply sim_mem; [done| |by rewrite Hps|done|done].
  exact (push_step ls s A i a p A' (sr_data _ _ Hs) Ha (elem_of_dom_2 _ _ _ Hc) Hp).
Qed.
End proc_steps.

Lemma sim_pop s A i a p ns : srep s A → ls !! i = Some a → a_queues A !! i = Some (p :: ns) →
  sim s A (list_pop_head lits a) (node p) (aset_queue i ns A).
Proof.
  intros Hs Ha Hns. apply sim_mem; [done|exact (pop_step lits ls s A i a p ns (sr_data _ _ Hs) Ha Hns)|done..].
Qed.

Lemma sim_remove s A i a p ns : srep s A → ls !! i = Some a → a_queues A !! i = Some ns → p ∈ ns →
  sim s A (list_remove_node a (p + OFF_NODE)) 0 (aset_queue i (filter (λ q, q ≠ p) ns) A).
Proof.
  intros Hs Ha Hns Hp. apply sim_mem; [done|exact (remove_step ls s A i a p ns (sr_data _ _ Hs) Ha Hns Hp)|done..].
Qed.

Lemma sched_enqueue_sim s A p A' :
  srep s A → aenqueue p A = Some A' → sim s A (sched_enqueue p) tt A'.
Proof.
  intros Hs Hen. unfold sched_enqueue. unfold aenqueue in Hen.
  destruct (p =? NULL); [injection Hen as <-; by apply sim_ret|].
  destruct (a_procs A !! p) as [c|] eqn:Hc; [|done]. cbn in Hen.
  eapply sim_load; [exact (load_state ls s A p c (sr_data _ _ Hs) Hc)|].
  destruct (state c) eqn:Hstate; cbn [state_code Z.eqb Pos.eqb];
    try (injection Hen as <-; by apply sim_ret).
  - eapply sim_load; [exact (load_priority ls s A p c (sr_data _ _ Hs) Hc)|].
    destruct (level (priority c)) as [i|] eqn:Hl; [|done]. cbn in Hen.
    destruct (index_queue s A _ _ Hs Hl) as (a & Ha & Hidx).
    eapply sim_load; [reflexivity|]. eapply sim_load; [exact Hidx|].
    eapply sim_bind; [exact (sim_push s A p c Hs Hc i a A' Ha Hen)|]. intros. by apply sim_ret.
  - eapply sim_load; [reflexivity|].
    eapply sim_bind; [exact (sim_push s A p c Hs Hc WAITQ _ A' (waiting_list _ _ Hs) Hen)|]. intros. by apply sim_ret.
Qed.

(** *** Choosing the next process *)

Lemma member_proc s A i ns p : srep s A → a_queues A !! i = Some ns → p ∈ ns → ∃ c, a_procs A !! p = Some c.
Proof. intros Hs Hns Hp. by apply elem_of_dom, (dr_member _ _ _ (sr_data _ _ Hs) _ _ _ Hns). Qed.

Lemma node_addr s A p c : srep s A → a_procs A !! p = Some c → node p ⊟ OFF_NODE = p.
Proof.
  intros Hs Hc. pose proof (block_mapped _ _ _ _ _ (sr_data _ _ Hs) Hc) as Hm.
  unfold node, OFF_NODE, SIZEOF_PCB in *. replace (p + 4 - 4) with p by lia. apply u32_small. mapped_tac.
Qed.

Lemma level_small i : (i < 4)%nat → level (Z.of_nat i) = Some i.
Proof.
  intros Hi. unfold level, MLFQ_LEVELS. destruct (Z.leb_spec 0 (Z.of_nat i)); [|lia].
  destruct (Z.ltb_spec (Z.of_nat i) 4); [|lia]. cbn. by rewrite Nat2Z.id.
Qed.

(** One turn of the search, on an empty and on a non-empty queue. *)
Lemma pick_body_sim s A i ns :
  srep s A → (i < 4)%nat → a_queues A !! i = Some ns →
  match ns with
  | [] => pick_body lits (Z.of_nat i) s = Ok (inl (Z.of_nat (S i))) s
  | p :: ns' => sim s A (pick_body lits (Z.of_nat i)) (inr p) (aset_queue i ns' A)
  end.
Proof.
  intros Hs Hi Hns. destruct (index_queue s A _ _ Hs (level_small i Hi)) as (a & Ha & Hidx).
  pose proof (dr_lists _ _ _ (sr_data _ _ Hs) _ _ _ Ha Hns) as Hrep.
  pose proof (list_get_size_run _ _ s Hrep) as Hsize. rewrite length_fmap in Hsize.
  assert ((Z.of_nat i <? MLFQ_LEVELS) = true) as Hlt by (unfold MLFQ_LEVELS; apply Z.ltb_lt; lia).
  unfold pick_body. rewrite Hlt. destruct ns as [|p ns].
  - rewrite bind_gets, (bind_ok _ _ _ _ _ Hidx), (bind_ok _ _ _ _ _ Hsize). cbn.
    by replace (Z.of_nat i + 1) with (Z.of_nat (S i)) by lia.
  - eapply sim_load; [reflexivity|]. eapply sim_load; [exact Hidx|]. eapply sim_load; [exact Hsize|].
    destruct (Z.ltb_spec 0 (zlen (p :: ns))) as [_|Hz]; [|cbn in Hz; lia].
    destruct (member_proc s A i _ p Hs Hns (list_elem_of_here _ _)) as [c Hc].
    eapply sim_bind; [by eapply sim_pop|]. intros s1 H1. rewrite (node_addr s A p c Hs Hc). by apply sim_ret.
Qed.

Lemma pick_loop_sim k : ∀ s A i, srep s A → (i ≤ 4)%nat → (4 < k + i)%nat →
  match afirst i (drop i (take 4 (a_queues A))) with
  | Some (j, p, ns) => sim s A (nloop (pick_body lits) k (Z.of_nat i)) p (aset_queue j ns A)
  | None => sim s A (nloop (pick_body lits) k (Z.of_nat i)) NULL A
  end.
Proof.
  induction k as [|k IH]; intros s A i Hs Hi Hk; [lia|].
  destruct (decide (i = 4)%nat) as [->|Hne].
  { rewrite drop_ge by (rewrite length_take; lia). cbn [afirst nloop].
    eapply sim_bind; [by apply sim_ret|]. intros. by apply sim_ret. }
  destruct (lookup_lt_is_Some_2 (a_queues A) i) as [ns Hns].
  { rewrite (dr_qs _ _ _ (sr_data _ _ Hs)). lia. }
  assert (take 4 (a_queues A) !! i = Some ns) as Ht by (apply lookup_take_Some; split; [done|lia]).
  rewrite (drop_S _ _ _ Ht).
  pose proof (pick_body_sim s A i ns Hs ltac:(lia) Hns) as Hbody. destruct ns as [|p ns]; cbn [afirst].
  - specialize (IH s A (S i) Hs ltac:(lia) ltac:(lia)).
    destruct (afirst (S i) (drop (S i) (take 4 (a_queues A)))) as [[[j p] ns]|];
      (eapply sim_load; [exact Hbody|exact IH]).
  - eapply sim_bind; [exact Hbody|]. intros. by apply sim_ret.
Qed.

Lemma sim_ploop {X Y} (body : X → M St (X + Y)) n k a s b A A' :
  (n ≤ Pos.to_nat k)%nat → sim s A (nloop body n a) b A' → sim s A (ploop body k a) b A'.
Proof. intros Hn (s' & Hr & H). exists s'. split; [|done]. by eapply ploop_ok. Qed.

Lemma sched_pick_sim s A A' :
  srep s A → apick A = Some A' → sim s A (sched_pick_next_process lits) tt A'.
Proof.
  intros Hs Hp. unfold sched_pick_next_process. unfold apick, arun in Hp.
  assert (Hfin : ∀ s1 A1 p c, srep s1 A1 → a_procs A1 !! p = Some c →
    sim s1 A1 (put_current p ;; store32 (p + OFF_STATE) (state_code STATE_RUNNING)) tt
      (aset_proc p (set_state STATE_RUNNING c) (aset_cur p A1))).
  { intros s1 A1 p c H1 Hc. eapply sim_bind; [by apply sim_put_current|]. intros s2 H2.
    by apply sim_state. }
  pose proof (pick_loop_sim 5 s A 0 Hs ltac:(lia) ltac:(lia)) as Hloop. rewrite drop_0 in Hloop.
  destruct (afirst 0 (take 4 (a_queues A))) as [[[i p] ns]|].
  - destruct (a_procs (aset_queue i ns A) !! p) as [c|] eqn:Hc; [|done]. injection Hp as <-.
    eapply sim_bind; [eapply sim_ploop; [|exact Hloop]; lia|]. intros s1 H1.
    eapply sim_load; [reflexivity|].
    destruct (Z.eqb_spec p NULL) as [->|_]; [by apply (proc_not_null _ _ _ _ H1) in Hc|]. by apply Hfin.
  - destruct (a_procs A !! a_idle A) as [c|] eqn:Hc; [|done]. injection Hp as <-.
    eapply sim_bind; [eapply sim_ploop; [|exact Hloop]; lia|]. intros s1 H1.
    eapply sim_load; [reflexivity|]. change (NULL =? NULL) with true. cbn iota.
    rewrite (sr_static _ _ H1). cbn [statics idle_pcb]. by apply Hfin.
Qed.

(** *** Blocking and unblocking *)

Lemma sched_block_sim s A A' :
  srep s A → ablock A = Some A' → sim s A sched_block_process tt A'.
Proof.
  intros Hs Hb. unfold sched_block_process. unfold ablock in Hb.
  eapply sim_load; [reflexivity|]. rewrite (sr_static _ _ Hs). cbn [statics current_pcb idle_pcb].
  destruct ((a_cur A =? NULL) || (a_cur A =? a_idle A)); [injection Hb as <-; by apply sim_ret|].
  destruct (a_procs A !! a_cur A) as [c|] eqn:Hc; [|done]. cbn in Hb.
  eapply sim_bind; [exact (sim_state s A _ c Hs Hc STATE_WAITING)|].
  intros. by apply sched_enqueue_sim with (1 := ltac:(eassumption)).
Qed.

Lemma sched_unblock_sim s A p A' :
  srep s A → aunblock p A = Some A' → sim s A (sched_unblock_process p) tt A'.
Proof.
  intros Hs Hu. unfold sched_unblock_process. unfold aunblock in Hu.
  destruct (p =? NULL); [injection Hu as <-; by apply sim_ret|].
  destruct (a_procs A !! p) as [c|] eqn:Hc; [|done]. cbn in Hu.
  eapply sim_load; [exact (load_state ls s A p c (sr_data _ _ Hs) Hc)|].
  case_bool_decide as Hw.
  { injection Hu as <-. destruct (state c); try done; by apply sim_ret. }
  rewrite Hw. cbn [state_code Z.eqb Pos.eqb negb].
  destruct (a_queues A !! WAITQ) as [ns|] eqn:Hns; [|done]. cbn in Hu.
  case_bool_decide as Hin; [|done].
  destruct (quantum_of (priority c)) as [q|] eqn:Hq; [|done]. cbn in Hu.
  eapply sim_load; [reflexivity|].
  eapply sim_bind; [exact (sim_remove s A _ _ p ns Hs (waiting_list _ _ Hs) Hns Hin)|]. intros s1 H1.
  eapply sim_bind; [exact (sim_state s1 _ p c H1 Hc STATE_READY)|]. intros s2 H2.
  eapply sim_bind; [eapply (sim_age s2 _ p _ H2 (lookup_insert_eq _ _ _)); lia|]. intros s3 H3.
  eapply sim_load; [exact (load_priority ls s3 _ p _ (sr_data _ _ H3) (lookup_insert_eq _ _ _))|].
  eapply sim_load; [by apply index_quantum|].
  eapply sim_bind; [eapply (sim_quantum s3 _ p _ H3 (lookup_insert_eq _ _ _)); apply quantum_range in Hq; lia|].
  intros s4 H4. eapply sched_enqueue_sim; [exact H4|].
  rewrite <- Hu. unfold aset_proc, aset_queue. cbn. by rewrite !insert_insert_eq.
Qed.
(** *** Ageing and the clock tick *)

(** The node after the processes already walked. *)
Definition next_of (a : Z) (rest : list Z) : Z :=
  match rest with [] => a | p :: _ => node p end.

Lemma next_of_path s A i a ns rest : srep s A → ls !! i = Some a → a_queues A !! i = Some (ns ++ rest) →
  ld32 (lget s) (match rev ns with [] => a | p :: _ => node p end) = next_of a rest.
Proof.
  intros Hs Ha Hns. pose proof (lr_path _ _ _ (dr_lists _ _ _ (sr_data _ _ Hs) _ _ _ Ha Hns)) as Hp.
  unfold circle in Hp. rewrite fmap_app in Hp.
  assert (∃ zs, (node <$> rest) ++ [a] = next_of a rest :: zs) as [zs Hzs] by (destruct rest; cbn; eauto).
  rewrite <- app_assoc, Hzs in Hp. destruct ns as [|n ns _] using rev_ind; [apply Hp|].
  rewrite rev_app_distr. cbn [rev app]. rewrite fmap_app, <- app_assoc in Hp.
  cbn [fmap list_fmap app] in Hp. rewrite app_comm_cons in Hp. by apply path_app in Hp as (_ & ? & _).
Qed.

Lemma load_next s A i a ns p rest : srep s A → ls !! i = Some a → a_queues A !! i = Some (ns ++ p :: rest) →
  load32 (node p + OFF_NEXT) s = Ok (next_of a rest) s ∧ node p ≠ a.
Proof.
  intros Hs Ha Hns.
  destruct (lr_nodes _ _ _ (dr_lists _ _ _ (sr_data _ _ Hs) _ _ _ Ha Hns) (node p)) as [Hm Hd].
  { apply list_elem_of_fmap. exists p. split; [done|]. apply elem_of_app. right. apply list_elem_of_here. }
  unfold SIZEOF_LIST, OFF_NEXT in *. split; [|lia].
  replace (ns ++ p :: rest) with ((ns ++ [p]) ++ rest) in Hns by (by rewrite <- app_assoc).
  pose proof (next_of_path s A i a _ _ Hs Ha Hns) as Hn. rewrite rev_app_distr in Hn. cbn in Hn.
  rewrite Z.add_0_r, load32_run by mapped_tac. by rewrite Hn.
Qed.

Lemma aage_frame i A p A1 ns rest :
  NoDup (ns ++ p :: rest) → a_queues A !! i = Some (ns ++ p :: rest) → aage i A p = Some A1 →
  (a_queues A1 !! i = Some (ns ++ rest) ∨ a_queues A1 !! i = Some ((ns ++ [p]) ++ rest)) ∧
  a_cur A1 = a_cur A ∧ a_idle A1 = a_idle A.
Proof.
  intros Hnd Hns Ha. unfold aage in Ha. destruct (a_procs A !! p) as [c|]; [|done]. cbn in Ha.
  destruct (AGE_TICK_MAX <=? age_ticks c ⊞ 1).
  - rewrite Hns in Ha. cbn in Ha. destruct (quantum_of _) as [q|]; [|done]. cbn in Ha.
    destruct (level _) as [j|]; [|done]. cbn in Ha. case_bool_decide as Hj; [done|].
    split; [|by apply apush_frame in Ha as (_ & ? & ?)]. left. apply apush_inv in Ha as (ms & _ & _ & ->).
    cbn. rewrite list_lookup_insert_ne by done.
    rewrite list_lookup_insert_eq by (by eapply lookup_lt_Some). by rewrite filter_mid.
  - injection Ha as <-. split; [|done]. right. cbn. by rewrite <- app_assoc.
Qed.

Lemma age_body_sim s A i a ns p rest A1 :
  srep s A → ls !! i = Some a → a_queues A !! i = Some (ns ++ p :: rest) → aage i A p = Some A1 →
  sim s A (age_body a (node p)) (inl (next_of a rest)) A1.
Proof.
  intros Hs Ha Hns Hage. destruct (load_next s A i a ns p rest Hs Ha Hns) as [Hnext Hne].
  unfold aage in Hage. destruct (a_procs A !! p) as [c|] eqn:Hc; [|done]. cbn in Hage.
  unfold age_body. destruct (Z.eqb_spec (node p) a) as [|_]; [done|].
  eapply sim_load; [exact Hnext|]. cbv zeta. rewrite (node_addr s A p c Hs Hc).
  eapply sim_load; [exact (load_age ls s A p c (sr_data _ _ Hs) Hc)|].
  eapply sim_bind; [exact (sim_age s A p c Hs Hc _ (u32_range _))|]. intros s1 H1.
  eapply sim_load; [exact (load_age ls s1 _ p _ (sr_data _ _ H1) (lookup_insert_eq _ _ _))|].
  change (age_ticks (set_age (age_ticks c ⊞ 1) c)) with (age_ticks c ⊞ 1).
  destruct (AGE_TICK_MAX <=? age_ticks c ⊞ 1); [|injection Hage as <-].
  2:{ eapply sim_bind; [by apply sim_ret|]. intros. by apply sim_ret. }
  rewrite Hns in Hage. cbn [mbind option_bind] in Hage.
  destruct (quantum_of _) as [q|] eqn:Hq in Hage; [|done]. cbn in Hage.
  destruct (level _) as [j|] eqn:Hl in Hage; [|done]. cbn in Hage. case_bool_decide; [done|].
  eapply sim_bind; [|intros; by apply sim_ret].
  eapply sim_bind; [eapply (sim_age s1 _ p _ H1 (lookup_insert_eq _ _ _)); lia|]. intros s2 H2.
  eapply sim_bind.
  { eapply (sim_remove s2 _ i a p _ H2 Ha); [exact Hns|]. apply elem_of_app. right. apply list_elem_of_here. }
  intros s3 H3.
  eapply sim_load; [exact (load_priority ls s3 _ p _ (sr_data _ _ H3) (lookup_insert_eq _ _ _))|].
  eapply sim_bind; [exact (sim_priority s3 _ p _ H3 (lookup_insert_eq _ _ _) _ (u32_range _))|]. intros s4 H4.
  eapply sim_load; [exact (load_priority ls s4 _ p _ (sr_data _ _ H4) (lookup_insert_eq _ _ _))|].
  eapply sim_load; [apply index_quantum; exact Hq|].
  eapply sim_bind; [eapply (sim_quantum s4 _ p _ H4 (lookup_insert_eq _ _ _)); apply quantum_range in Hq; lia|].
  intros s5 H5.
  eapply sim_load; [exact (load_priority ls s5 _ p _ (sr_data _ _ H5) (lookup_insert_eq _ _ _))|].
  destruct (index_queue s5 _ _ _ H5 Hl) as (b & Hb & Hidx).
  eapply sim_load; [reflexivity|]. eapply sim_load; [exact Hidx|].
  eapply sim_bind; [|intros; by apply sim_ret].
  eapply (sim_push s5 _ p _ H5 (lookup_insert_eq _ _ _)); [exact Hb|].
  rewrite <- Hage. unfold aset_proc, aset_queue. cbn. by rewrite !insert_insert_eq.
Qed.

Lemma age_loop_sim i a rest : ls !! i = Some a → ∀ ns s A A' k,
  srep s A → a_queues A !! i = Some (ns ++ rest) → aage_all i rest A = Some A' → (length rest < k)%nat →
  sim s A (nloop (age_body a) k (next_of a rest)) tt A' ∧ a_cur A' = a_cur A ∧ a_idle A' = a_idle A.
Proof.
  intros Ha. induction rest as [|p rest IH]; intros ns s A A' k Hs Hns Hall Hk;
    (destruct k as [|k]; [cbn in Hk; lia|]).
  - injection Hall as <-. split; [|done]. cbn [nloop next_of].
    eapply (sim_bind _ _ _ _ (inr tt)); [|intros; by apply sim_ret].
    unfold age_body. rewrite Z.eqb_refl. by apply sim_ret.
  - cbn [aage_all] in Hall. destruct (aage i A p) as [A1|] eqn:Hage; [|done]. cbn in Hall.
    pose proof (queue_nodup ls _ _ _ _ _ (sr_data _ _ Hs) Ha Hns) as Hnd.
    destruct (aage_frame i A p A1 ns rest Hnd Hns Hage) as (Hq & Hcur & Hidle).
    pose proof (age_body_sim s A i a ns p rest A1 Hs Ha Hns Hage) as (s1 & Hr1 & H1 & Ht1).
    assert (∃ ns', a_queues A1 !! i = Some (ns' ++ rest)) as [ns' Hns'] by (destruct Hq; eauto).
    cbn in Hk. destruct (IH ns' s1 A1 A' k H1 Hns' Hall ltac:(lia)) as [Hsim [? ?]].
    split; [|split; congruence]. eapply sim_bind; [by exists s1|]. intros s1' H1'.
    by destruct (IH ns' s1' A1 A' k H1' Hns' Hall ltac:(lia)).
Qed.

Lemma age_queue_sim s A i A' :
  srep s A → (i < 4)%nat → aage_queue A i = Some A' → sim s A (age_queue (Z.of_nat i)) tt A'.
Proof.
  intros Hs Hi Hage. unfold aage_queue in Hage.
  destruct (a_queues A !! i) as [ns|] eqn:Hns; [|done]. cbn in Hage.
  destruct (index_queue s A _ _ Hs (level_small i Hi)) as (a & Ha & Hidx).
  pose proof (dr_lists _ _ _ (sr_data _ _ Hs) _ _ _ Ha Hns) as Hrep.
  pose proof (list_rep_capacity _ _ _ Hrep) as Hcap. rewrite length_fmap in Hcap.
  pose proof (lr_mapped _ _ _ Hrep) as Hm. unfold SIZEOF_LIST in Hm.
  unfold age_queue. eapply sim_load; [reflexivity|]. eapply sim_load; [exact Hidx|].
  eapply sim_load.
  { unfold OFF_NEXT. rewrite Z.add_0_r. rewrite load32_run by mapped_tac. reflexivity. }
  rewrite (next_of_path s A i a [] ns Hs Ha Hns : ld32 (lget s) a = _).
  eapply (sim_ploop _ (S (length ns))); [unfold LIST_FUEL; lia|].
  eapply (age_loop_sim i a ns Ha []); [done..|lia].
Qed.

Lemma sched_tick_sim s A A' : srep s A → atick A = Some A' → sim s A sched_tick tt A'.
Proof.
  intros Hs Ht. unfold sched_tick. unfold atick in Ht.
  eapply sim_load; [reflexivity|]. rewrite (sr_static _ _ Hs). cbn [statics current_pcb idle_pcb].
  destruct (a_cur A =? NULL); [injection Ht as <-; by apply sim_ret|]. cbv zeta.
  destruct (a_cur A =? a_idle A); [injection Ht as <-; by apply sim_ret|].
  set (p := a_cur A) in *.
  destruct (a_procs A !! p) as [c|] eqn:Hc; [|done]. cbn [mbind option_bind] in Ht.
  eapply sim_load; [exact (load_quantum ls s A p c (sr_data _ _ Hs) Hc)|].
  eapply sim_bind; [exact (sim_quantum s A p c Hs Hc _ (u32_range _))|]. intros s1 H1.
  eapply sim_load; [exact (load_quantum ls s1 _ p _ (sr_data _ _ H1) (lookup_insert_eq _ _ _))|].
  change (quantum_remaining (set_quantum (quantum_remaining c ⊟ 1) c)) with (quantum_remaining c ⊟ 1).
  destruct (quantum_remaining c ⊟ 1 =? 0).
  - set (prio := if priority c <? MLFQ_LEVELS - 1 then priority c ⊞ 1 else priority c) in *.
    destruct (quantum_of prio) as [q|] eqn:Hq; [|done]. cbn [mbind option_bind] in Ht.
    destruct (aenqueue _ _) as [A2|] eqn:Hen in Ht; [|done]. injection Ht as <-.
    eapply sim_bind; [exact (sim_state s1 _ p _ H1 (lookup_insert_eq _ _ _) STATE_READY)|]. intros s2 H2.
    eapply sim_load; [exact (load_priority ls s2 _ p _ (sr_data _ _ H2) (lookup_insert_eq _ _ _))|].
    eapply (sim_bind _ _ _ _ tt (aset_proc p (set_priority prio (set_quantum (quantum_remaining c ⊟ 1) (set_state STATE_READY c))) A)).
    { change (priority (set_state _ _)) with (priority c). unfold prio.
      destruct (priority c <? MLFQ_LEVELS - 1).
      - eapply sim_eq; [|exact (sim_priority s2 _ p _ H2 (lookup_insert_eq _ _ _) _ (u32_range (priority c + 1)))].
        unfold aset_proc. cbn. by rewrite !insert_insert_eq.
      - eapply sim_eq; [|by apply sim_ret]. unfold aset_proc. cbn. rewrite !insert_insert_eq. by destruct c. }
    intros s3 H3.
    eapply sim_load; [exact (load_priority ls s3 _ p _ (sr_data _ _ H3) (lookup_insert_eq _ _ _))|].
    eapply sim_load; [apply index_quantum; exact Hq|].
    eapply sim_bind; [eapply (sim_quantum s3 _ p _ H3 (lookup_insert_eq _ _ _)); apply quantum_range in Hq; lia|].
    intros s4 H4. eapply sim_bind; [|intros s5 H5; by apply sim_put_current].
    eapply sched_enqueue_sim; [exact H4|]. rewrite <- Hen. unfold aset_proc. cbn. by rewrite !insert_insert_eq.
  - destruct (aage_queue _ 1) as [A1|] eqn:Hq1 in Ht; [|done]. cbn [mbind option_bind] in Ht.
    destruct (aage_queue _ 2) as [A2|] eqn:Hq2 in Ht; [|done]. cbn [mbind option_bind] in Ht.
    unfold mfor, MLFQ_LEVELS. change (seqZ 1 (4 - 1)) with [Z.of_nat 1; Z.of_nat 2; Z.of_nat 3].
    cbn [mforeach].
    eapply sim_bind; [eapply age_queue_sim; [exact H1|lia|exact Hq1]|]. intros s2 H2.
    eapply sim_bind; [eapply age_queue_sim; [exact H2|lia|exact Hq2]|]. intros s3 H3.
    eapply sim_bind; [eapply age_queue_sim; [exact H3|lia|exact Ht]|]. intros s4 H4. by apply sim_ret.
Qed.
End refinement.
