(* ===== verification/SchedInv.v ===== *)
(** * SchedInv: what the scheduler guarantees

    The invariant of the scheduler, its preservation by every operation, and
    the properties of picking, quantum expiry, ageing, blocking and of the
    timer handler, for the C code over memory by the refinement of Sched.v. *)

From S2P Require Import Prelude Memory KString ListDS PortIO Pic Pcb Sched.

(** ** The invariant *)

(** The queue a process belongs in, by its state and priority. *)
Definition home (c : ProcessControlBlock) : option nat :=
  match state c with
  | STATE_READY => Some (Z.to_nat (priority c))
  | STATE_WAITING => Some WAITQ
  | _ => None
  end.

(** [p] is in queue [i]. *)
Definition qin (qs : list (list Z)) (i : nat) (p : Z) : Prop := ∃ ns, qs !! i = Some ns ∧ p ∈ ns.

Definition pcb_ok (c : ProcessControlBlock) : Prop :=
  0 ≤ priority c < MLFQ_LEVELS ∧ 0 < quantum_remaining c < 4294967296 ∧ 0 ≤ age_ticks c < AGE_TICK_MAX.

(** The current process: none, the idle process, or one that runs or that
    has just blocked. *)
Definition cur_ok (procs : gmap Z ProcessControlBlock) (cur idle : Z) : Prop :=
  cur = NULL ∨ cur = idle ∨
  ∃ c, procs !! cur = Some c ∧ (state c = STATE_RUNNING ∨ state c = STATE_WAITING).

(** [U]: the processes created but not yet enqueued. A process other than
    these and idle is queued exactly where it belongs; only the current
    process and idle run. *)
Record ainv (U : gset Z) (A : asched) : Prop := {
  ai_len : length (a_queues A) = 5%nat;
  ai_nodup : ∀ i ns, a_queues A !! i = Some ns → NoDup ns;
  ai_home : ∀ i p, qin (a_queues A) i p ↔
    ((p ∉ U) ∧ p ≠ a_idle A ∧ ∃ c, a_procs A !! p = Some c ∧ home c = Some i);
  ai_procs : ∀ p c, a_procs A !! p = Some c → p ≠ NULL ∧ pcb_ok c;
  ai_run : ∀ p c, a_procs A !! p = Some c → state c = STATE_RUNNING → p = a_idle A ∨ p = a_cur A;
  ai_cur : cur_ok (a_procs A) (a_cur A) (a_idle A);
  ai_new : ∀ p, p ∈ U → ∃ c, a_procs A !! p = Some c ∧ state c = STATE_READY;
  ai_idle : (a_idle A ∉ U) ∧ ∃ c, a_procs A !! a_idle A = Some c ∧ state c ≠ STATE_WAITING
}.

Lemma home_lt c i : pcb_ok c → home c = Some i → (i < 5)%nat.
Proof. intros [Hp _]. unfold home, WAITQ, MLFQ_LEVELS in *. destruct (state c); intros [= <-]; lia. Qed.

Lemma qin_insert qs i ns j p : (i < length qs)%nat →
  qin (<[i := ns]> qs) j p ↔ (j = i ∧ p ∈ ns) ∨ (j ≠ i ∧ qin qs j p).
Proof.
  intros Hi. unfold qin. split.
  - intros (ms & [(<- & <- & _)|[Hne Hms]]%list_lookup_insert_Some & Hp); [by left|right; eauto].
  - intros [[-> Hp]|[Hne (ms & Hms & Hp)]].
    + exists ns. by rewrite list_lookup_insert_eq.
    + exists ms. by rewrite list_lookup_insert_ne.
Qed.

Lemma queued_qin A p : queued A p = false ↔ ∀ i, ¬ qin (a_queues A) i p.
Proof.
  rewrite queued_false. split.
  - intros H i (ns & Hns & Hp). by apply (H i ns).
  - intros H i ns Hns Hp. apply (H i). by exists ns.
Qed.

Lemma elem_filter_ne (p q : Z) (ns : list Z) : q ∈ filter (λ x, x ≠ p) ns ↔ q ≠ p ∧ q ∈ ns.
Proof. by rewrite list_elem_of_filter. Qed.

(** Moving one process: it is rewritten, everyone else stays in place. *)
Lemma ainv_move U U' A p c c' qs cur :
  ainv U A → a_procs A !! p = Some c → p ≠ a_idle A → pcb_ok c' →
  length qs = 5%nat → (∀ i ns, qs !! i = Some ns → NoDup ns) →
  (∀ i, qin qs i p ↔ home c' = Some i) →
  (∀ i q, q ≠ p → qin qs i q ↔ qin (a_queues A) i q) →
  (∀ q, q ∈ U' ↔ q ∈ U ∧ q ≠ p) →
  (∀ q d, q ≠ p → a_procs A !! q = Some d → state d = STATE_RUNNING → q = a_idle A ∨ q = cur) →
  (state c' = STATE_RUNNING → p = cur) →
  cur_ok (<[p := c']> (a_procs A)) cur (a_idle A) →
  ainv U' (mkA (<[p := c']> (a_procs A)) qs cur (a_idle A)).
Proof.
  intros [Hl Hnd Hh Hp Hr Hcu Hn [Hi (ci & Hci & Hcw)]] Hc Hpi Hok Hlen Hnd' Hpq Hoth HU Hrun Hrunp Hcur.
  constructor; cbn [a_procs a_queues a_cur a_idle]; [done|done| | | |done| |].
  - intros i q. destruct (decide (q = p)) as [->|Hne].
    + rewrite Hpq, HU, lookup_insert_eq. naive_solver.
    + rewrite Hoth, Hh, HU, lookup_insert_ne by done. tauto.
  - intros q d [[<- <-]|[Hne Hd]]%lookup_insert_Some; [split; [by eapply Hp|done]|by eapply Hp].
  - intros q d [[<- <-]|[Hne Hd]]%lookup_insert_Some; [right; by apply Hrunp|by eapply Hrun].
  - intros q [Hq Hne]%HU. rewrite lookup_insert_ne by done. by apply Hn.
  - rewrite HU, lookup_insert_ne by done. split; [tauto|]. by exists ci.
Qed.

(** [qs'] is [qs] without [p]. *)
Record detached (p : Z) (qs qs' : list (list Z)) : Prop := {
  de_len : length qs' = 5%nat;
  de_nodup : ∀ i ns, qs' !! i = Some ns → NoDup ns;
  de_out : ∀ i, ¬ qin qs' i p;
  de_other : ∀ i q, q ≠ p → qin qs' i q ↔ qin qs i q
}.

Lemma detached_none U A p : ainv U A → (∀ i, ¬ qin (a_queues A) i p) → detached p (a_queues A) (a_queues A).
Proof. intros HI Hp. constructor; [apply HI|apply (ai_nodup _ _ HI)|done|done]. Qed.

Lemma detached_filter U A p i ns : ainv U A → a_queues A !! i = Some ns → p ∈ ns →
  detached p (a_queues A) (<[i := filter (λ q, q ≠ p) ns]> (a_queues A)).
Proof.
  intros HI Hns Hp. pose proof (lookup_lt_Some _ _ _ Hns) as Hlt. constructor.
  - rewrite length_insert. apply HI.
  - intros j ms [(<- & <- & _)|[Hne Hms]]%list_lookup_insert_Some; [|by eapply ai_nodup].
    apply NoDup_filter. by eapply ai_nodup.
  - intros j Hj. apply qin_insert in Hj as [[-> Hj]|[Hne Hj]]; [|..|done]; [by apply elem_filter_ne in Hj as [? _]|].
    assert (qin (a_queues A) i p) as Hi by by exists ns.
    apply (ai_home _ _ HI) in Hi as (_ & _ & c & Hc & Hi), Hj as (_ & _ & c' & Hc' & Hj). congruence.
  - intros j q Hq. rewrite qin_insert, elem_filter_ne by done. split.
    + intros [[-> [_ Hq']]|[_ ?]]; [by exists ns|done].
    + intros (ms & Hms & Hq'). destruct (decide (j = i)) as [->|Hne].
      * left. rewrite Hns in Hms. by injection Hms as <-.
      * right. split; [done|by exists ms].
Qed.

(** A process leaves its queue, is rewritten and goes to the tail of the
    queue where it now belongs. *)
Lemma relocate U A p c c' qs i cur cur0 :
  ainv U A → a_procs A !! p = Some c → p ≠ a_idle A → pcb_ok c' →
  detached p (a_queues A) qs → home c' = Some i →
  (∀ q d, q ≠ p → a_procs A !! q = Some d → state d = STATE_RUNNING → q = a_idle A ∨ q = cur) →
  cur_ok (<[p := c']> (a_procs A)) cur (a_idle A) →
  ∃ ns, apush i p (mkA (<[p := c']> (a_procs A)) qs cur0 (a_idle A)) =
          Some (mkA (<[p := c']> (a_procs A)) (<[i := ns ++ [p]]> qs) cur0 (a_idle A)) ∧
    qs !! i = Some ns ∧
    ainv (U ∖ {[p]}) (mkA (<[p := c']> (a_procs A)) (<[i := ns ++ [p]]> qs) cur (a_idle A)).
Proof.
  intros HI Hc Hpi Hok [Hlen Hnd Hout Hoth] Hh Hrun Hcur.
  pose proof (home_lt _ _ Hok Hh) as Hi. destruct (lookup_lt_is_Some_2 qs i) as [ns Hns]; [lia|].
  exists ns. split_and!; [|done|].
  - unfold apush. cbn [a_queues]. rewrite Hns. cbn [mbind option_bind].
    assert (queued (mkA (<[p := c']> (a_procs A)) qs cur0 (a_idle A)) p = false) as ->; [by apply queued_qin|done].
  - eapply ainv_move; try done.
    + by rewrite length_insert.
    + intros j ms [(<- & <- & _)|[Hne Hms]]%list_lookup_insert_Some; [|by eapply Hnd].
      apply NoDup_app. split_and!; [by eapply Hnd| |apply NoDup_singleton].
      intros x Hx ->%list_elem_of_singleton. apply (Hout i). by exists ns.
    + intros j. rewrite qin_insert, elem_of_app, list_elem_of_singleton, Hh by lia.
      specialize (Hout j). naive_solver.
    + intros j q Hq. rewrite qin_insert, elem_of_app, list_elem_of_singleton by lia. rewrite Hoth by done. split.
      * intros [[-> [Hq'|?]]|[_ ?]]; [apply Hoth; [done|by exists ns]|done|done].
      * intros Hj. destruct (decide (j = i)) as [->|Hne]; [left|by right]. split; [done|]. left.
        apply Hoth in Hj as (ms & Hms & Hq'); [|done]. congruence.
    + intros q. set_solver.
    + intros Hst. unfold home in Hh. by rewrite Hst in Hh.
Qed.

(** A block is rewritten in place. *)
Lemma rewrite_block U A p c c' :
  ainv U A → a_procs A !! p = Some c → p ≠ a_idle A → p ∉ U → pcb_ok c' → state c' = state c → home c' = home c →
  ainv U (aset_proc p c' A).
Proof.
  intros HI Hc Hpi HU Hok Hst Hh. eapply ainv_move; try done; try by apply HI.
  - intros i. rewrite (ai_home _ _ HI), Hh. naive_solver.
  - set_solver.
  - intros q d _. apply HI.
  - rewrite Hst. intros Hr. destruct (ai_run _ _ HI _ _ Hc Hr); done.
  - destruct (ai_cur _ _ HI) as [?|[?|(d & Hd & Hs)]]; [by left|by right; left|]. right. right.
    destruct (decide (a_cur A = p)) as [Hcp|Hne]; [rewrite Hcp in *|].
    + exists c'. rewrite lookup_insert_eq. split; [done|]. rewrite Hst. by assert (c = d) as -> by congruence.
    + exists d. by rewrite lookup_insert_ne.
Qed.

(** ** Ageing *)

Definition quantum_at (prio : Z) : Z := nth (Z.to_nat prio) MLFQ_QUANTUMS 0.

(** What one tick of waiting does to a block below level 0. *)
Definition aged (c : ProcessControlBlock) : ProcessControlBlock :=
  if age_ticks c + 1 <? AGE_TICK_MAX then set_age (age_ticks c + 1) c
  else set_quantum (quantum_at (priority c - 1)) (set_priority (priority c - 1) (set_age 0 c)).

Lemma quantum_of_ok prio : 0 ≤ prio < MLFQ_LEVELS →
  quantum_of prio = Some (quantum_at prio) ∧ 0 < quantum_at prio < 4294967296.
Proof.
  unfold MLFQ_LEVELS. intros H. unfold quantum_of, quantum_at.
  assert (prio = 0 ∨ prio = 1 ∨ prio = 2 ∨ prio = 3) as [->|[->|[->| ->]]] by lia; done.
Qed.

Lemma level_ok prio : 0 ≤ prio < MLFQ_LEVELS → level prio = Some (Z.to_nat prio).
Proof.
  intros [H0 H4]. unfold level. destruct (Z.leb_spec 0 prio); [|lia].
  by destruct (Z.ltb_spec prio MLFQ_LEVELS); [|lia].
Qed.

Lemma aged_ok c : pcb_ok c → 1 ≤ priority c → pcb_ok (aged c) ∧ state (aged c) = state c.
Proof.
  intros (Hp & Hq & Ha) H1. unfold aged, pcb_ok, AGE_TICK_MAX, MLFQ_LEVELS in *.
  destruct (Z.ltb_spec (age_ticks c + 1) 600); cbn [set_age set_quantum set_priority priority quantum_remaining age_ticks state].
  - split; [lia|done].
  - destruct (quantum_of_ok (priority c - 1)); [unfold MLFQ_LEVELS; lia|]. split; [lia|done].
Qed.

(** Everything about [q] is as in [A]. *)
Definition same_at (A A' : asched) (q : Z) : Prop :=
  a_procs A' !! q = a_procs A !! q ∧ ∀ j, qin (a_queues A') j q ↔ qin (a_queues A) j q.

Lemma qin_ready U A i p : ainv U A → (i < 4)%nat → qin (a_queues A) i p →
  ∃ c, a_procs A !! p = Some c ∧ state c = STATE_READY ∧ priority c = Z.of_nat i ∧ (p ∉ U) ∧ p ≠ a_idle A.
Proof.
  intros HI Hi Hq. apply (ai_home _ _ HI) in Hq as (HU & Hp & c & Hc & Hh). exists c.
  destruct (ai_procs _ _ HI _ _ Hc) as [_ [Hok _]]. unfold home, WAITQ, MLFQ_LEVELS in *.
  destruct (state c); try done; injection Hh as Hh; [|lia]. split_and!; [done|done|lia|done|done].
Qed.

Lemma aage_inv U A i p :
  ainv U A → (1 ≤ i < 4)%nat → qin (a_queues A) i p →
  ∃ A' c, aage i A p = Some A' ∧ ainv U A' ∧ a_procs A !! p = Some c ∧ a_procs A' = <[p := aged c]> (a_procs A) ∧
    a_cur A' = a_cur A ∧ a_idle A' = a_idle A ∧ ∀ q, q ≠ p → same_at A A' q.
Proof.
  intros HI Hi Hin. destruct (qin_ready U A i p HI ltac:(lia) Hin) as (c & Hc & Hst & Hprio & HU & Hidle).
  destruct (ai_procs _ _ HI _ _ Hc) as [_ Hok]. pose proof Hok as (Hp & Hq & Hage).
  destruct (aged_ok c Hok ltac:(lia)) as [Hok' Hst'].
  unfold aage. rewrite Hc. cbn [mbind option_bind].
  unfold AGE_TICK_MAX in *. rewrite (u32_small (age_ticks c + 1)) by lia.
  destruct (Z.leb_spec 600 (age_ticks c + 1)) as [Hle|Hlt].
  - destruct Hin as (ns & Hns & Hpn). rewrite Hns. cbn [mbind option_bind].
    assert (0 ≤ priority c - 1 < MLFQ_LEVELS) as Hp1 by (unfold MLFQ_LEVELS in *; lia).
    unfold MLFQ_LEVELS in Hp. rewrite (u32_small (priority c - 1)) by lia.
    destruct (quantum_of_ok _ Hp1) as [-> _]. rewrite (level_ok _ Hp1). cbn [mbind option_bind].
    rewrite bool_decide_eq_false_2 by lia.
    assert (aged c = set_quantum (quantum_at (priority c - 1)) (set_priority (priority c - 1) (set_age 0 c))) as Haged.
    { unfold aged, AGE_TICK_MAX. destruct (Z.ltb_spec (age_ticks c + 1) 600); [lia|done]. }
    rewrite <- Haged. pose proof (detached_filter U A p i ns HI Hns Hpn) as Hdet.
    destruct (relocate U A p c (aged c) _ (Z.to_nat (priority c - 1)) (a_cur A) (a_cur A) HI Hc Hidle Hok' Hdet)
      as (ms & Hpush & Hms & HI').
    { unfold home. rewrite Hst', Hst, Haged. done. }
    { intros q d _. apply HI. }
    { destruct (ai_cur _ _ HI) as [?|[?|(d & Hd & Hs)]]; [by left|by right; left|]. right. right.
      destruct (decide (a_cur A = p)) as [Hcp|Hne]; [rewrite Hcp in *|].
      - assert (d = c) as -> by congruence. rewrite Hst in Hs. by destruct Hs.
      - exists d. by rewrite lookup_insert_ne. }
    unfold aset_queue, aset_proc. cbn [a_procs a_queues a_cur a_idle].
    eexists _, c. split; [exact Hpush|]. replace (U ∖ {[p]}) with U in HI' by set_solver.
    split_and!; [done|done|done|done|done|]. intros q Hq'. split; [cbn; by rewrite lookup_insert_ne|].
    intros j. cbn [a_queues]. rewrite qin_insert by (eapply lookup_lt_Some; exact Hms).
    rewrite elem_of_app, list_elem_of_singleton. rewrite <- (de_other _ _ _ Hdet j q Hq').
    split; [|intros Hj].
    + intros [[-> [Hm|?]]|[_ ?]]; [by exists ms|done|done].
    + destruct (decide (j = Z.to_nat (priority c - 1))) as [->|]; [left|by right]. split; [done|]. left.
      destruct Hj as (ms' & Hms' & Hj). congruence.
  - assert (aged c = set_age (age_ticks c + 1) c) as Haged.
    { unfold aged, AGE_TICK_MAX. destruct (Z.ltb_spec (age_ticks c + 1) 600); [done|lia]. }
    rewrite <- Haged. eexists _, c. split_and!; [reflexivity| |done|done|done|done|].
    + eapply rewrite_block; [done..|]. rewrite Haged. done.
    + intros q Hq'. split; [cbn; by rewrite lookup_insert_ne|done].
Qed.

Lemma aage_all_inv U i ps : (1 ≤ i < 4)%nat → ∀ A,
  NoDup ps → ainv U A → (∀ p, p ∈ ps → qin (a_queues A) i p) →
  ∃ A', aage_all i ps A = Some A' ∧ ainv U A' ∧ a_cur A' = a_cur A ∧ a_idle A' = a_idle A ∧
    (∀ q, q ∈ ps → a_procs A' !! q = aged <$> a_procs A !! q) ∧ (∀ q, q ∉ ps → same_at A A' q).
Proof.
  intros Hi. induction ps as [|p ps IH]; intros A Hnd HI Hps.
  - exists A. split_and!; try done. by intros q Hq%not_elem_of_nil.
  - apply NoDup_cons in Hnd as [Hp Hnd].
    destruct (aage_inv U A i p HI Hi (Hps p (list_elem_of_here _ _))) as (A1 & c & Ha1 & HI1 & Hc & Hpr & Hcu & Hid & Hsame).
    destruct (IH A1 Hnd HI1) as (A2 & Ha2 & HI2 & Hcu2 & Hid2 & Hin2 & Hout2).
    { intros q Hq. apply Hsame; [by intros ->|]. apply Hps. by apply list_elem_of_further. }
    exists A2. split_and!; [cbn; by rewrite Ha1|done|congruence|congruence| |].
    + intros q [->|Hq]%elem_of_cons.
      * destruct (Hout2 p Hp) as [-> _]. by rewrite Hpr, lookup_insert_eq, Hc.
      * rewrite (Hin2 q Hq). destruct (Hsame q) as [-> _]; [by intros ->|done].
    + intros q [Hqp Hq]%not_elem_of_cons. destruct (Hout2 q Hq) as [H1 H2], (Hsame q Hqp) as [H3 H4].
      split; [congruence|]. intros j. by rewrite H2, H4.
Qed.

Lemma aage_queue_inv U A i : ainv U A → (1 ≤ i < 4)%nat →
  ∃ A', aage_queue A i = Some A' ∧ ainv U A' ∧ a_cur A' = a_cur A ∧ a_idle A' = a_idle A ∧
    (∀ q, qin (a_queues A) i q → a_procs A' !! q = aged <$> a_procs A !! q) ∧
    (∀ q, ¬ qin (a_queues A) i q → same_at A A' q).
Proof.
  intros HI Hi. destruct (lookup_lt_is_Some_2 (a_queues A) i) as [ns Hns]; [rewrite (ai_len _ _ HI); lia|].
  destruct (aage_all_inv U i ns Hi A (ai_nodup _ _ HI _ _ Hns) HI) as (A' & Ha & HI' & Hcu & Hid & Hin & Hout).
  { intros p Hp. by exists ns. }
  exists A'. split_and!; [unfold aage_queue; by rewrite Hns|done|done|done| |].
  - intros q (ms & Hms & Hq). apply Hin. congruence.
  - intros q Hq. apply Hout. intros Hqn. apply Hq. by exists ns.
Qed.

(** ** The operations keep the invariant *)

Definition is_running (A : asched) (c : ProcessControlBlock) : Prop :=
  a_cur A ≠ a_idle A ∧ a_procs A !! a_cur A = Some c ∧ state c = STATE_RUNNING.

(** A process whose quantum has run out. *)
Definition demoted (c : ProcessControlBlock) : ProcessControlBlock :=
  let prio := Z.min (priority c + 1) (MLFQ_LEVELS - 1) in
  set_quantum (quantum_at prio) (set_priority prio (set_state STATE_READY c)).

(** A process that wakes up. *)
Definition awakened (c : ProcessControlBlock) : ProcessControlBlock :=
  set_quantum (quantum_at (priority c)) (set_age 0 (set_state STATE_READY c)).

Lemma running_free U A c : ainv U A → is_running A c →
  (a_cur A ∉ U) ∧ (∀ i, ¬ qin (a_queues A) i (a_cur A)) ∧ a_cur A ≠ NULL ∧ pcb_ok c.
Proof.
  intros HI (Hne & Hc & Hst). split_and!.
  - intros HU. destruct (ai_new _ _ HI _ HU) as (d & Hd & Hds). congruence.
  - intros i (_ & _ & d & Hd & Hh)%(ai_home _ _ HI). unfold home in Hh.
    assert (d = c) as -> by congruence. by rewrite Hst in Hh.
  - by eapply ai_procs.
  - by eapply ai_procs.
Qed.

Lemma enqueue_inv U A p : ainv U A → p ∈ U →
  ∃ c ns, a_procs A !! p = Some c ∧ a_queues A !! Z.to_nat (priority c) = Some ns ∧
    aenqueue p A = Some (aset_queue (Z.to_nat (priority c)) (ns ++ [p]) A) ∧
    ainv (U ∖ {[p]}) (aset_queue (Z.to_nat (priority c)) (ns ++ [p]) A).
Proof.
  intros HI HU. destruct (ai_new _ _ HI p HU) as (c & Hc & Hst).
  destruct (ai_procs _ _ HI _ _ Hc) as [Hnull Hok]. pose proof (ai_idle _ _ HI) as [HUi _].
  assert (p ≠ a_idle A) as Hpi by (by intros ->).
  assert (∀ i, ¬ qin (a_queues A) i p) as Hout by (by intros i (? & _)%(ai_home _ _ HI)).
  destruct (relocate U A p c c (a_queues A) (Z.to_nat (priority c)) (a_cur A) (a_cur A) HI Hc Hpi Hok
    (detached_none U A p HI Hout)) as (ns & Hpush & Hns & HI').
  { unfold home. by rewrite Hst. }
  { intros q d _. apply HI. }
  { rewrite insert_id by done. apply HI. }
  rewrite insert_id in Hpush, HI' by done.
  exists c, ns. split_and!; [done|done| |done].
  unfold aenqueue. destruct (Z.eqb_spec p NULL); [done|]. rewrite Hc. cbn [mbind option_bind].
  rewrite Hst, level_ok by apply Hok. cbn [mbind option_bind]. by destruct A.
Qed.

Lemma set_quantum_inv U A c : ainv U A → is_running A c → ∀ v, 0 < v < 4294967296 →
  ainv U (aset_proc (a_cur A) (set_quantum v c) A).
Proof.
  intros HI Hr v Hv. destruct (running_free U A c HI Hr) as (HU & _ & _ & Hok). destruct Hr as (Hne & Hc & _).
  eapply rewrite_block; try done. unfold pcb_ok in *. cbn. lia.
Qed.

Lemma demoted_ok c : pcb_ok c → pcb_ok (demoted c) ∧ home (demoted c) = Some (Z.to_nat (Z.min (priority c + 1) 3)).
Proof.
  intros (Hp & Hq & Ha). split; [|done]. unfold pcb_ok, demoted, MLFQ_LEVELS in *.
  cbn [set_age set_quantum set_priority set_state priority quantum_remaining age_ticks state].
  destruct (quantum_of_ok (Z.min (priority c + 1) (4 - 1))); [unfold MLFQ_LEVELS; lia|]. lia.
Qed.

(** The tick that ends a quantum. *)
Lemma tick_expire_inv U A c : ainv U A → is_running A c → quantum_remaining c = 1 →
  let i := Z.to_nat (Z.min (priority c + 1) 3) in
  ∃ ns, a_queues A !! i = Some ns ∧
    let A' := aset_cur NULL (aset_queue i (ns ++ [a_cur A]) (aset_proc (a_cur A) (demoted c) A)) in
    atick A = Some A' ∧ ainv U A'.
Proof.
  intros HI Hr Hq i. destruct (running_free U A c HI Hr) as (HU & Hout & Hnull & Hok).
  destruct Hr as (Hne & Hc & Hst). destruct (demoted_ok c Hok) as [Hdok Hh]. fold i in Hh.
  destruct (relocate U A (a_cur A) c (demoted c) (a_queues A) i NULL (a_cur A) HI Hc Hne Hdok
    (detached_none U A _ HI Hout) Hh) as (ns & Hpush & Hns & HI').
  { intros q d Hq' Hd Hds. destruct (ai_run _ _ HI _ _ Hd Hds); [by left|done]. }
  { by left. }
  exists ns. split; [done|]. replace (U ∖ {[a_cur A]}) with U in HI' by set_solver.
  split; [|exact HI']. unfold atick.
  destruct (Z.eqb_spec (a_cur A) NULL); [done|]. destruct (Z.eqb_spec (a_cur A) (a_idle A)); [done|].
  rewrite Hc. cbn [mbind option_bind]. rewrite Hq. change (1 ⊟ 1 =? 0) with true. cbn iota.
  assert ((if priority c <? MLFQ_LEVELS - 1 then priority c ⊞ 1 else priority c) =
          Z.min (priority c + 1) (MLFQ_LEVELS - 1)) as ->.
  { destruct Hok as [Hp _]. unfold MLFQ_LEVELS in *.
    destruct (Z.ltb_spec (priority c) (4 - 1)); [rewrite u32_small|]; lia. }
  destruct (quantum_of_ok (Z.min (priority c + 1) (MLFQ_LEVELS - 1))) as [-> _].
  { destruct Hok as [Hp _]. unfold MLFQ_LEVELS in *. lia. }
  cbn [mbind option_bind]. fold (demoted c).
  unfold aenqueue. destruct (Z.eqb_spec (a_cur A) NULL); [done|].
  cbn [aset_proc a_procs]. rewrite lookup_insert_eq. cbn [mbind option_bind].
  change (state (demoted c)) with STATE_READY. cbn iota. rewrite level_ok by apply Hdok.
  change (Z.to_nat (priority (demoted c))) with i. cbn [mbind option_bind].
  unfold aset_proc. rewrite Hpush. done.
Qed.

Lemma qin_unique U A i j q : ainv U A → qin (a_queues A) i q → qin (a_queues A) j q → i = j.
Proof.
  intros HI (_ & _ & d & Hd & Hh)%(ai_home _ _ HI) (_ & _ & d' & Hd' & Hh')%(ai_home _ _ HI). congruence.
Qed.

(** A process aged in queue [i] is not met again in a lower queue. *)
Lemma aged_not_below U A B i j q d :
  ainv U A → (1 ≤ i < 4)%nat → qin (a_queues A) i q → a_procs A !! q = Some d →
  ainv U B → a_procs B !! q = Some (aged d) → (i < j)%nat → ¬ qin (a_queues B) j q.
Proof.
  intros HI Hi Hq Hd HB Hbd Hij (_ & _ & d' & Hd' & Hh)%(ai_home _ _ HB).
  destruct (qin_ready U A i q HI ltac:(lia) Hq) as (d1 & Hd1 & Hs1 & Hp1 & _).
  assert (d1 = d) as -> by congruence. assert (d' = aged d) as -> by congruence.
  destruct (ai_procs _ _ HI _ _ Hd) as [_ Hok].
  unfold home in Hh. destruct (aged_ok d Hok) as [_ Hsd]; [lia|].
  rewrite Hsd, Hs1 in Hh. injection Hh as <-. unfold aged in Hij.
  destruct (_ <? _); cbn [priority set_age set_quantum set_priority] in Hij; lia.
Qed.

(** The three passes of a tick age every process of levels 1 to 3 once. *)
Lemma age_passes_inv U A : ainv U A →
  ∃ A', (A1 ← aage_queue A 1; A2 ← aage_queue A1 2; aage_queue A2 3) = Some A' ∧ ainv U A' ∧
    a_cur A' = a_cur A ∧ a_idle A' = a_idle A ∧
    (∀ i q, (1 ≤ i < 4)%nat → qin (a_queues A) i q → a_procs A' !! q = aged <$> a_procs A !! q) ∧
    (∀ q, (∀ i, (1 ≤ i < 4)%nat → ¬ qin (a_queues A) i q) → same_at A A' q).
Proof.
  intros HI.
  destruct (aage_queue_inv U A 1 HI ltac:(lia)) as (A1 & Ha1 & HI1 & Hcu1 & Hid1 & Hin1 & Hout1).
  destruct (aage_queue_inv U A1 2 HI1 ltac:(lia)) as (A2 & Ha2 & HI2 & Hcu2 & Hid2 & Hin2 & Hout2).
  destruct (aage_queue_inv U A2 3 HI2 ltac:(lia)) as (A3 & Ha3 & HI3 & Hcu3 & Hid3 & Hin3 & Hout3).
  exists A3. split_and!; [by rewrite Ha1; cbn [mbind option_bind]; rewrite Ha2|done|congruence|congruence| |].
  - intros i q Hi Hqi. destruct (qin_ready U A i q HI ltac:(lia) Hqi) as (d & Hd & _). rewrite Hd.
    pose proof (λ B, aged_not_below U A B i) as Hdown. pose proof (qin_unique U A i) as Huniq.
    assert (i = 1 ∨ i = 2 ∨ i = 3)%nat as [->|[->| ->]] by lia.
    + pose proof (Hin1 q Hqi) as E1. rewrite Hd in E1.
      destruct (Hout2 q) as [E2 S2]; [by eapply Hdown; eauto; lia|].
      destruct (Hout3 q) as [E3 S3]; [rewrite S2; by eapply Hdown; eauto; lia|]. by rewrite E3, E2, E1.
    + destruct (Hout1 q) as [E1 S1]; [intros H; by specialize (Huniq _ _ HI Hqi H)|].
      pose proof (Hin2 q (proj2 (S1 _) Hqi)) as E2. rewrite E1, Hd in E2.
      destruct (Hout3 q) as [E3 S3]; [by eapply Hdown; eauto; lia|]. by rewrite E3, E2.
    + destruct (Hout1 q) as [E1 S1]; [intros H; by specialize (Huniq _ _ HI Hqi H)|].
      destruct (Hout2 q) as [E2 S2]; [rewrite S1; intros H; by specialize (Huniq _ _ HI Hqi H)|].
      rewrite (Hin3 q); [by rewrite E2, E1, Hd|]. by rewrite S2, S1.
  - intros q Hno.
    destruct (Hout1 q) as [E1 S1]; [by apply Hno; lia|].
    destruct (Hout2 q) as [E2 S2]; [rewrite S1; by apply Hno; lia|].
    destruct (Hout3 q) as [E3 S3]; [rewrite S2, S1; by apply Hno; lia|].
    split; [congruence|]. intros j. by rewrite S3, S2, S1.
Qed.

(** The tick within a quantum. *)
Lemma tick_age_inv U A c : ainv U A → is_running A c → quantum_remaining c ≠ 1 →
  ∃ A', atick A = Some A' ∧ ainv U A' ∧ a_cur A' = a_cur A ∧ a_idle A' = a_idle A ∧
    a_procs A' !! a_cur A = Some (set_quantum (quantum_remaining c - 1) c) ∧
    (∀ i q, (1 ≤ i < 4)%nat → qin (a_queues A) i q → a_procs A' !! q = aged <$> a_procs A !! q) ∧
    (∀ q, q ≠ a_cur A → (∀ i, (1 ≤ i < 4)%nat → ¬ qin (a_queues A) i q) → same_at A A' q).
Proof.
  intros HI Hr Hq. destruct (running_free U A c HI Hr) as (_ & Hout & Hnull & Hok).
  set (A0 := aset_proc (a_cur A) (set_quantum (quantum_remaining c - 1) c) A).
  assert (ainv U A0) as HI0 by (apply set_quantum_inv; [done|done|]; destruct Hok; lia).
  destruct Hr as (Hne & Hc & Hst).
  destruct (age_passes_inv U A0 HI0) as (A' & Hrun & HI' & Hcu & Hid & Hin & Hsame).
  exists A'. split_and!; [|done|done|done| | |].
  - unfold atick. destruct (Z.eqb_spec (a_cur A) NULL); [done|]. destruct (Z.eqb_spec (a_cur A) (a_idle A)); [done|].
    rewrite Hc. cbn [mbind option_bind]. destruct Hok as (_ & Hqr & _). rewrite u32_small by lia.
    destruct (Z.eqb_spec (quantum_remaining c - 1) 0); [lia|]. exact Hrun.
  - destruct (Hsame (a_cur A)) as [-> _]; [intros i _; apply Hout|]. cbn. by rewrite lookup_insert_eq.
  - intros i q Hi Hqi. rewrite (Hin i q Hi Hqi). cbn. rewrite lookup_insert_ne; [done|].
    intros <-. by apply Hout in Hqi.
  - intros q Hqc Hno. destruct (Hsame q Hno) as [E S]. split; [|exact S].
    rewrite E. cbn. by rewrite lookup_insert_ne.
Qed.

(** ** Picking, blocking, waking up *)

(** [p] heads the first non-empty queue among the four levels, number [i]. *)
Definition first_ready (A : asched) (i : nat) (p : Z) (ns : list Z) : Prop :=
  (i < 4)%nat ∧ a_queues A !! i = Some (p :: ns) ∧ ∀ j, (j < i)%nat → a_queues A !! j = Some [].

Definition none_ready (A : asched) : Prop := ∀ j, (j < 4)%nat → a_queues A !! j = Some [].

Lemma afirst_spec qs : ∀ k,
  match afirst k qs with
  | Some (i, p, ns) => (k ≤ i)%nat ∧ qs !! (i - k)%nat = Some (p :: ns) ∧ ∀ j, (j < i - k)%nat → qs !! j = Some []
  | None => ∀ j, (j < length qs)%nat → qs !! j = Some []
  end.
Proof.
  induction qs as [|[|p ns] qs IH]; intros k; cbn [afirst]; [intros j Hj; cbn in Hj; lia| |].
  - specialize (IH (S k)). destruct (afirst (S k) qs) as [[[i p] ns]|].
    + destruct IH as (Hk & Hi & Hj). split_and!; [lia| |].
      * by replace (i - k)%nat with (S (i - S k)) by lia.
      * intros [|j] Hjk; [done|]. apply Hj. lia.
    + intros [|j] Hj; [done|]. apply IH. cbn in Hj. lia.
  - split_and!; [lia|by rewrite Nat.sub_diag|lia].
Qed.

Lemma apick_first A i p ns c : first_ready A i p ns → a_procs A !! p = Some c →
  apick A = Some (aset_proc p (set_state STATE_RUNNING c) (aset_cur p (aset_queue i ns A))).
Proof.
  intros (Hi & Hns & Hlow) Hc. unfold apick. pose proof (afirst_spec (take 4 (a_queues A)) 0) as Hf.
  destruct (afirst 0 (take 4 (a_queues A))) as [[[k q] ms]|].
  - destruct Hf as (_ & Hk & Hj). rewrite Nat.sub_0_r in *.
    apply lookup_take_Some in Hk as [Hk Hk4].
    assert (k = i) as ->.
    { destruct (lt_eq_lt_dec k i) as [[Hlt|?]|Hlt]; [|done|].
      - rewrite (Hlow k Hlt) in Hk. done.
      - specialize (Hj i Hlt). apply lookup_take_Some in Hj as [Hj _]. congruence. }
    rewrite Hns in Hk. injection Hk as <- <-. unfold arun. cbn [aset_queue a_procs]. by rewrite Hc.
  - assert (take 4 (a_queues A) !! i = Some (p :: ns)) as Ht by (by apply lookup_take_Some).
    specialize (Hf i ltac:(by eapply lookup_lt_Some)). congruence.
Qed.

Lemma apick_idle A c : none_ready A → a_procs A !! a_idle A = Some c →
  apick A = Some (aset_proc (a_idle A) (set_state STATE_RUNNING c) (aset_cur (a_idle A) A)).
Proof.
  intros Hn Hc. unfold apick. pose proof (afirst_spec (take 4 (a_queues A)) 0) as Hf.
  destruct (afirst 0 (take 4 (a_queues A))) as [[[k q] ms]|].
  - destruct Hf as (_ & Hk & _). rewrite Nat.sub_0_r in *. apply lookup_take_Some in Hk as [Hk Hk4].
    rewrite (Hn k Hk4) in Hk. done.
  - unfold arun. by rewrite Hc.
Qed.

Lemma first_or_none A : length (a_queues A) = 5%nat →
  (∃ i p ns, first_ready A i p ns) ∨ none_ready A.
Proof.
  intros Hl. pose proof (afirst_spec (take 4 (a_queues A)) 0) as Hf.
  assert (∀ j x, take 4 (a_queues A) !! j = Some x → a_queues A !! j = Some x) as Ht.
  { intros j x H. by apply lookup_take_Some in H as [? _]. }
  destruct (afirst 0 (take 4 (a_queues A))) as [[[k q] ms]|]; [left|right].
  - destruct Hf as (_ & Hk & Hj). rewrite Nat.sub_0_r in *.
    exists k, q, ms. split; [|split]; [by apply lookup_take_Some in Hk as [_ ?]|by apply Ht|]. intros j Hlt. by apply Ht, Hj.
  - intros j Hj. apply Ht, Hf. rewrite length_take. lia.
Qed.

(** There is nobody to lose: no current process, or one that has blocked. *)
Definition may_pick (A : asched) : Prop :=
  a_cur A = NULL ∨ ∃ c, a_procs A !! a_cur A = Some c ∧ state c = STATE_WAITING.

Lemma may_pick_others U A q d : ainv U A → may_pick A → a_procs A !! q = Some d → state d = STATE_RUNNING →
  q = a_idle A.
Proof.
  intros HI Hm Hd Hs. destruct (ai_run _ _ HI _ _ Hd Hs) as [|Hq]; [done|]. rewrite Hq in Hd.
  destruct Hm as [Hn|(c & Hc & Hcs)].
  - by destruct (ai_procs _ _ HI _ _ Hd).
  - congruence.
Qed.

Lemma pick_inv U A i p ns : ainv U A → may_pick A → first_ready A i p ns →
  ∃ c, a_procs A !! p = Some c ∧ state c = STATE_READY ∧
    let A' := aset_proc p (set_state STATE_RUNNING c) (aset_cur p (aset_queue i ns A)) in
    apick A = Some A' ∧ ainv U A'.
Proof.
  intros HI Hm Hf. pose proof Hf as (Hi & Hns & _).
  assert (qin (a_queues A) i p) as Hq by (exists (p :: ns); split; [done|apply list_elem_of_here]).
  destruct (qin_ready U A i p HI Hi Hq) as (c & Hc & Hst & Hprio & HU & Hpi).
  exists c. split; [done|]. split; [done|]. split; [by apply apick_first|].
  pose proof (lookup_lt_Some _ _ _ Hns) as Hlt. destruct (ai_procs _ _ HI _ _ Hc) as [_ Hok].
  pose proof (ai_nodup _ _ HI _ _ Hns) as [Hpn Hnd]%NoDup_cons.
  eapply (ainv_move U U A p c); try done.
  - cbn. rewrite length_insert. apply HI.
  - intros j ms [(<- & <- & _)|[Hne Hms]]%list_lookup_insert_Some; [done|by eapply ai_nodup].
  - intros j. cbn [aset_queue aset_cur a_queues]. rewrite qin_insert by done. split; [|done].
    intros [[-> ?]|[Hne Hj]]; [done|]. by pose proof (qin_unique _ _ _ _ _ HI Hq Hj).
  - intros j q Hqp. cbn [aset_queue aset_cur a_queues]. rewrite qin_insert by done. split.
    + intros [[-> Hq']|[_ ?]]; [|done]. exists (p :: ns). split; [done|]. by apply list_elem_of_further.
    + intros (ms & Hms & Hq'). destruct (decide (j = i)) as [->|]; [left|right; split; [done|by exists ms]].
      split; [done|]. rewrite Hns in Hms. injection Hms as <-. by apply elem_of_cons in Hq' as [?|?].
  - set_solver.
  - intros q d _ Hd Hs. left. by eapply may_pick_others.
  - right. right. exists (set_state STATE_RUNNING c). cbn. rewrite lookup_insert_eq. split; [done|by left].
Qed.

Lemma pick_idle_inv U A : ainv U A → may_pick A → none_ready A →
  ∃ c, a_procs A !! a_idle A = Some c ∧
    let A' := aset_proc (a_idle A) (set_state STATE_RUNNING c) (aset_cur (a_idle A) A) in
    apick A = Some A' ∧ ainv U A'.
Proof.
  intros HI Hm Hn. destruct (ai_idle _ _ HI) as [HiU (c & Hc & Hcw)]. exists c.
  split; [done|]. split; [by apply apick_idle|].
  constructor; cbn [aset_proc aset_cur a_procs a_queues a_cur a_idle];
    [apply HI|apply (ai_nodup _ _ HI)| | | |by right; left| |].
  - intros i p. rewrite (ai_home _ _ HI). split; intros (H1 & H2 & d & Hd); split_and!; try done; exists d;
      [rewrite lookup_insert_ne by done|rewrite lookup_insert_ne in Hd by done]; done.
  - intros p d [[<- <-]|[Hne Hd]]%lookup_insert_Some; [by apply (ai_procs _ _ HI) in Hc|by eapply ai_procs].
  - intros p d [[<- <-]|[Hne Hd]]%lookup_insert_Some Hs; [by left|left; by eapply may_pick_others].
  - intros p Hp. rewrite lookup_insert_ne by (by intros <-). by apply (ai_new _ _ HI).
  - split; [done|]. exists (set_state STATE_RUNNING c). by rewrite lookup_insert_eq.
Qed.

(** Blocking puts the current process on the waiting queue; it stays current. *)
Lemma block_inv U A c : ainv U A → is_running A c →
  ∃ ns, a_queues A !! WAITQ = Some ns ∧
    let A' := aset_queue WAITQ (ns ++ [a_cur A]) (aset_proc (a_cur A) (set_state STATE_WAITING c) A) in
    ablock A = Some A' ∧ ainv U A'.
Proof.
  intros HI Hr. destruct (running_free U A c HI Hr) as (HU & Hout & Hnull & Hok). destruct Hr as (Hne & Hc & Hst).
  destruct (relocate U A (a_cur A) c (set_state STATE_WAITING c) (a_queues A) WAITQ (a_cur A) (a_cur A) HI Hc Hne Hok
    (detached_none U A _ HI Hout) eq_refl) as (ns & Hpush & Hns & HI').
  { intros q d _. apply HI. }
  { right. right. exists (set_state STATE_WAITING c). rewrite lookup_insert_eq. split; [done|by right]. }
  exists ns. split; [done|]. replace (U ∖ {[a_cur A]}) with U in HI' by set_solver. split; [|exact HI'].
  unfold ablock. destruct (Z.eqb_spec (a_cur A) NULL); [done|]. destruct (Z.eqb_spec (a_cur A) (a_idle A)); [done|].
  cbn [orb]. rewrite Hc. cbn [mbind option_bind]. unfold aenqueue. destruct (Z.eqb_spec (a_cur A) NULL); [done|].
  cbn [aset_proc a_procs]. rewrite lookup_insert_eq. exact Hpush.
Qed.

(** Waking a process that is not the current one. *)
Lemma unblock_inv U A p c : ainv U A → a_procs A !! p = Some c → p ≠ a_cur A → state c = STATE_WAITING →
  ∃ ws ns, a_queues A !! WAITQ = Some ws ∧ a_queues A !! Z.to_nat (priority c) = Some ns ∧
    let A' := aset_queue (Z.to_nat (priority c)) (ns ++ [p])
                (aset_queue WAITQ (filter (λ q, q ≠ p) ws) (aset_proc p (awakened c) A)) in
    aunblock p A = Some A' ∧ ainv U A'.
Proof.
  intros HI Hc Hpc Hst. destruct (ai_procs _ _ HI _ _ Hc) as [Hnull Hok]. pose proof Hok as (Hp & Hq & Hage).
  destruct (quantum_of_ok _ Hp) as [Hqo Hqr].
  assert (p ∉ U) as HU by (intros (d & Hd & Hs)%(ai_new _ _ HI); congruence).
  assert (p ≠ a_idle A) as Hpi by (intros ->; destruct (ai_idle _ _ HI) as [_ (d & Hd & Hs)]; congruence).
  assert (qin (a_queues A) WAITQ p) as Hin.
  { apply (ai_home _ _ HI). split_and!; [done|done|]. exists c. split; [done|]. unfold home. by rewrite Hst. }
  destruct Hin as (ws & Hws & Hpw). pose proof (detached_filter U A p WAITQ ws HI Hws Hpw) as Hdet.
  destruct (relocate U A p c (awakened c) _ (Z.to_nat (priority c)) (a_cur A) (a_cur A) HI Hc Hpi
    ltac:(split; [exact Hp|split; [exact Hqr|cbn; unfold AGE_TICK_MAX; lia]]) Hdet eq_refl) as (ns & Hpush & Hns & HI').
  { intros q d _. apply HI. }
  { destruct (ai_cur _ _ HI) as [?|[?|(d & Hd & Hs)]]; [by left|by right; left|]. right. right.
    exists d. by rewrite lookup_insert_ne. }
  rewrite list_lookup_insert_ne in Hns by (unfold WAITQ, MLFQ_LEVELS in *; lia).
  exists ws, ns. split; [done|]. split; [done|].
  split; [|by replace (U ∖ {[p]}) with U in HI' by set_solver].
  unfold aunblock. destruct (Z.eqb_spec p NULL); [done|]. rewrite Hc. cbn [mbind option_bind].
  rewrite bool_decide_eq_false_2 by (rewrite Hst; tauto). rewrite Hws. cbn [mbind option_bind].
  rewrite bool_decide_eq_true_2 by done. rewrite Hqo. cbn [mbind option_bind]. fold (awakened c).
  unfold aenqueue. destruct (Z.eqb_spec p NULL); [done|]. cbn [aset_proc aset_queue a_procs].
  rewrite lookup_insert_eq. cbn [mbind option_bind]. change (state (awakened c)) with STATE_READY. cbn iota.
  change (priority (awakened c)) with (priority c). rewrite (level_ok _ Hp). exact Hpush.
Qed.
