(* ===== verification/SchedSpec.v ===== *)
(** * SchedSpec: the scheduler's guarantees, for the code over memory

    Histories of scheduler calls, what picking, the clock tick, blocking and
    waking do to the processes and queues, progress of waiting processes, and
    the timer interrupt. Every theorem is about the C-level operations of
    Sched.v on a machine state; [srep ls s A] says that memory and the static
    [scheduler] hold the abstract scheduler [A]. *)

From S2P Require Import Prelude Memory KString ListDS PortIO Pic Pcb Sched SchedInv.

(** ** Histories of scheduler calls *)

Inductive sched_op : Type :=
  | Enqueue (p : Z)
  | Tick
  | Pick
  | Block
  | Unblock (p : Z).

#[export] Instance sched_op_eq_dec : EqDecision sched_op.
Proof. solve_decision. Defined.

Definition arun_op (op : sched_op) (A : asched) : option asched :=
  match op with
  | Enqueue p => aenqueue p A
  | Tick => atick A
  | Pick => apick A
  | Block => ablock A
  | Unblock p => aunblock p A
  end.

(** The current process has not blocked. *)
Definition not_blocked (A : asched) : Prop :=
  a_cur A = NULL ∨ a_cur A = a_idle A ∨ ∃ c, is_running A c.

(** When a call is correct use: a process is enqueued once, a tick or a block
    comes while the current process runs, a pick when nobody would be lost,
    and the current process is not woken. *)
Definition op_ok (U : gset Z) (A : asched) (op : sched_op) : Prop :=
  match op with
  | Enqueue p => p ∈ U
  | Tick | Block => not_blocked A
  | Pick => may_pick A
  | Unblock p => p ≠ a_cur A ∧ ∃ c, a_procs A !! p = Some c
  end.

Definition after (op : sched_op) (U : gset Z) : gset Z :=
  match op with Enqueue p => U ∖ {[p]} | _ => U end.

Inductive history : gset Z → asched → list sched_op → gset Z → asched → Prop :=
  | h_nil U A : history U A [] U A
  | h_cons U A op A1 ops U' A' :
      op_ok U A op → arun_op op A = Some A1 → history (after op U) A1 ops U' A' →
      history U A (op :: ops) U' A'.

(** A correct call has a result and keeps the invariant. *)
Lemma op_inv U A op : ainv U A → op_ok U A op →
  ∃ A', arun_op op A = Some A' ∧ ainv (after op U) A'.
Proof.
  intros HI Hok. destruct op as [p| | | |p]; cbn [op_ok arun_op after] in *.
  - destruct (enqueue_inv U A p HI Hok) as (c & ns & _ & _ & ? & ?). eauto.
  - destruct Hok as [Hn|[Hn|[c Hr]]].
    + exists A. unfold atick. rewrite Hn. done.
    + exists A. unfold atick. rewrite Hn, Z.eqb_refl. by destruct (_ =? NULL).
    + destruct (decide (quantum_remaining c = 1)) as [Hq|Hq].
      * destruct (tick_expire_inv U A c HI Hr Hq) as (ns & _ & ? & ?). eauto.
      * destruct (tick_age_inv U A c HI Hr Hq) as (A' & ? & ? & _). eauto.
  - destruct (first_or_none A (ai_len _ _ HI)) as [(i & p & ns & Hf)|Hn].
    + destruct (pick_inv U A i p ns HI Hok Hf) as (c & _ & _ & ? & ?). eauto.
    + destruct (pick_idle_inv U A HI Hok Hn) as (c & _ & ? & ?). eauto.
  - destruct Hok as [Hn|[Hn|[c Hr]]].
    + exists A. unfold ablock. by rewrite Hn.
    + exists A. unfold ablock. by rewrite Hn, Z.eqb_refl, orb_true_r.
    + destruct (block_inv U A c HI Hr) as (ns & _ & ? & ?). eauto.
  - destruct Hok as [Hpc [c Hc]]. destruct (decide (state c = STATE_WAITING)) as [Hs|Hs].
    + destruct (unblock_inv U A p c HI Hc Hpc Hs) as (ws & ns & _ & _ & ? & ?). eauto.
    + exists A. split; [|done]. unfold aunblock. destruct (p =? NULL); [done|]. rewrite Hc.
      cbn [mbind option_bind]. by rewrite bool_decide_eq_true_2.
Qed.

Section spec.
Context {St : Type} `{LM : Lens St mem} `{LS : Lens St Scheduler} {AP : Apart LM LS}.
Context (lits : ListLiterals) (ls : list Z).

Definition run_sched_op (op : sched_op) : M St unit :=
  match op with
  | Enqueue p => sched_enqueue p
  | Tick => sched_tick
  | Pick => sched_pick_next_process lits
  | Block => sched_block_process
  | Unblock p => sched_unblock_process p
  end.

Fixpoint run_sched_ops (ops : list sched_op) : M St unit :=
  match ops with
  | [] => mret tt
  | op :: ops' => run_sched_op op ;; run_sched_ops ops'
  end.

Lemma op_sim op s A A' : srep ls s A → arun_op op A = Some A' → sim ls s A (run_sched_op op) tt A'.
Proof.
  destruct op; cbn [arun_op run_sched_op];
    [apply sched_enqueue_sim|apply sched_tick_sim|apply sched_pick_sim|apply sched_block_sim|apply sched_unblock_sim].
Qed.

Lemma history_inv U A ops U' A' : history U A ops U' A' → ainv U A → ainv U' A'.
Proof.
  induction 1 as [|U A op A1 ops U' A' Hok Hrun _ IH]; [done|]. intros HI. apply IH.
  destruct (op_inv U A op HI Hok) as (A2 & Hr & HI2). congruence.
Qed.

Lemma history_sim U A ops U' A' : history U A ops U' A' → ∀ s, srep ls s A → sim ls s A (run_sched_ops ops) tt A'.
Proof.
  induction 1 as [|U A op A1 ops U' A' Hok Hrun _ IH]; intros s Hs; [by apply sim_ret|].
  eapply sim_bind; [by eapply op_sim|]. exact IH.
Qed.

(** C5: every history of correct calls of the scheduler's entry points, run
    on the process control blocks and linked lists in memory, returns
    without fault, and memory ends up holding the abstract scheduler's
    result, with the invariant: queues hold exactly the ready processes of
    their level and the waiting ones, each once and with fields in range,
    and only the current process and idle run. Every further correct call
    has a result. *)
Theorem sched_ops_refine U A ops U' A' (s : St) :
  ainv U A → srep ls s A → history U A ops U' A' →
  ∃ s', run_sched_ops ops s = Ok tt s' ∧ srep ls s' A' ∧ ainv U' A' ∧
    ∀ op, op_ok U' A' op → ∃ A'' s'', arun_op op A' = Some A'' ∧ run_sched_op op s' = Ok tt s'' ∧ srep ls s'' A''.
Proof.
  intros HI Hs Hh. destruct (history_sim _ _ _ _ _ Hh s Hs) as (s' & Hr & Hs' & _).
  pose proof (history_inv _ _ _ _ _ Hh HI) as HI'. exists s'. split_and!; [done|done|done|].
  intros op Hok. destruct (op_inv _ _ _ HI' Hok) as (A'' & Ha & _).
  destruct (op_sim op s' A' A'' Hs' Ha) as (s'' & Hr' & Hs'' & _). eauto.
Qed.

(** ** The single operations *)

(** C34: [sched_pick_next_process] takes the oldest process of the highest
    level that has one, removes it from its queue, makes it current and sets
    its state to running; every other block and queue is as before. *)
Theorem sched_pick_highest U A i p ns (s : St) :
  ainv U A → srep ls s A → may_pick A → first_ready A i p ns →
  ∃ c s', a_procs A !! p = Some c ∧ state c = STATE_READY ∧ priority c = Z.of_nat i ∧
    sched_pick_next_process lits s = Ok tt s' ∧
    srep ls s' (mkA (<[p := set_state STATE_RUNNING c]> (a_procs A)) (<[i := ns]> (a_queues A)) p (a_idle A)).
Proof.
  intros HI Hs Hm Hf. destruct (pick_inv U A i p ns HI Hm Hf) as (c & Hc & Hst & Hp & _).
  destruct (sched_pick_sim lits ls s A _ Hs Hp) as (s' & Hr & Hs' & _). exists c, s'.
  destruct Hf as (Hi & Hns & _).
  destruct (qin_ready U A i p HI Hi) as (d & Hd & _ & Hprio & _).
  { exists (p :: ns). split; [done|apply list_elem_of_here]. }
  assert (d = c) as -> by congruence. by split_and!.
Qed.

(** With all four levels empty [sched_pick_next_process] makes the idle
    process current and running, and changes nothing else. *)
Theorem sched_pick_falls_to_idle U A (s : St) :
  ainv U A → srep ls s A → may_pick A → none_ready A →
  ∃ c s', a_procs A !! a_idle A = Some c ∧ sched_pick_next_process lits s = Ok tt s' ∧
    srep ls s' (mkA (<[a_idle A := set_state STATE_RUNNING c]> (a_procs A)) (a_queues A) (a_idle A) (a_idle A)).
Proof.
  intros HI Hs Hm Hn. destruct (pick_idle_inv U A HI Hm Hn) as (c & Hc & Hp & _).
  destruct (sched_pick_sim lits ls s A _ Hs Hp) as (s' & Hr & Hs' & _). by exists c, s'.
Qed.

(** The tick that uses up the quantum of the current process makes it
    ready, moves it one level down (not below the last), refills its quantum
    for the new level, appends it to that level's queue and leaves no
    current process; nothing else changes. *)
Theorem sched_tick_demotes U A c (s : St) :
  ainv U A → srep ls s A → is_running A c → quantum_remaining c = 1 →
  let prio := Z.min (priority c + 1) 3 in
  let c' := set_quantum (nth (Z.to_nat prio) [40; 80; 120; 160] 0) (set_priority prio (set_state STATE_READY c)) in
  ∃ ns s', a_queues A !! Z.to_nat prio = Some ns ∧ sched_tick s = Ok tt s' ∧
    srep ls s' (mkA (<[a_cur A := c']> (a_procs A)) (<[Z.to_nat prio := ns ++ [a_cur A]]> (a_queues A)) NULL (a_idle A)).
Proof.
  intros HI Hs Hr Hq prio c'. destruct (tick_expire_inv U A c HI Hr Hq) as (ns & Hns & Ht & _).
  destruct (sched_tick_sim ls s A _ Hs Ht) as (s' & Hrun & Hs' & _). by exists ns, s'.
Qed.

(** C33: any other tick of a running process takes one from its quantum and
    ages every process of levels 1 to 3 exactly once: its age grows by one,
    or, at 600, it moves up a level with age 0 and a full quantum. Processes
    of level 0, waiting or not queued keep their block and place. *)
Theorem sched_tick_ages U A c (s : St) :
  ainv U A → srep ls s A → is_running A c → quantum_remaining c ≠ 1 →
  ∃ A' s', sched_tick s = Ok tt s' ∧ srep ls s' A' ∧ ainv U A' ∧ a_cur A' = a_cur A ∧
    a_procs A' !! a_cur A = Some (set_quantum (quantum_remaining c - 1) c) ∧
    (∀ q d, a_procs A !! q = Some d → q ∉ U → q ≠ a_idle A → state d = STATE_READY → 1 ≤ priority d →
       a_procs A' !! q = Some (aged d)) ∧
    (∀ q d, a_procs A !! q = Some d → q ≠ a_cur A → state d ≠ STATE_READY ∨ priority d = 0 → same_at A A' q).
Proof.
  intros HI Hs Hr Hq. destruct (tick_age_inv U A c HI Hr Hq) as (A' & Ht & HI' & Hcu & _ & Hc & Hin & Hout).
  destruct (sched_tick_sim ls s A _ Hs Ht) as (s' & Hrun & Hs' & _).
  exists A', s'. split_and!; [done|done|done|done|done| |].
  - intros q d Hd HU Hi Hst Hprio. destruct (ai_procs _ _ HI _ _ Hd) as [_ [Hp _]]. unfold MLFQ_LEVELS in Hp.
    rewrite (Hin (Z.to_nat (priority d)) q); [by rewrite Hd|lia|].
    apply (ai_home _ _ HI). split_and!; [done|done|]. exists d. split; [done|]. unfold home. by rewrite Hst.
  - intros q d Hd Hqc Hno. apply Hout; [done|]. intros i Hi Hqi.
    destruct (qin_ready U A i q HI ltac:(lia) Hqi) as (d' & Hd' & Hst & Hprio & _).
    assert (d' = d) as -> by congruence. destruct Hno; [done|lia].
Qed.

(** [sched_unblock_process] on a waiting process takes it off the
    waiting queue, makes it ready with age 0 and the full quantum of its
    level, and appends it to that level's queue; on a process in any other
    state it changes nothing. *)
Theorem sched_unblock_wakes U A p c (s : St) :
  ainv U A → srep ls s A → a_procs A !! p = Some c → p ≠ a_cur A →
  ∃ s', sched_unblock_process p s = Ok tt s' ∧
    if decide (state c = STATE_WAITING) then
      ∃ ws ns, a_queues A !! 4%nat = Some ws ∧ p ∈ ws ∧ a_queues A !! Z.to_nat (priority c) = Some ns ∧
        srep ls s' (mkA (<[p := set_quantum (nth (Z.to_nat (priority c)) [40; 80; 120; 160] 0)
                                  (set_age 0 (set_state STATE_READY c))]> (a_procs A))
          (<[Z.to_nat (priority c) := ns ++ [p]]> (<[4%nat := filter (λ q, q ≠ p) ws]> (a_queues A)))
          (a_cur A) (a_idle A))
    else srep ls s' A.
Proof.
  intros HI Hs Hc Hpc. case_decide as Hst.
  - destruct (unblock_inv U A p c HI Hc Hpc Hst) as (ws & ns & Hws & Hns & Hu & _).
    destruct (sched_unblock_sim ls s A p _ Hs Hu) as (s' & Hr & Hs' & _).
    exists s'. split; [done|]. exists ws, ns. split_and!; [done| |done|done].
    assert (aunblock p A ≠ None) as Hsome by (by rewrite Hu). unfold aunblock in Hsome.
    destruct (Z.eqb_spec p NULL) as [->|_]; [by destruct (ai_procs _ _ HI _ _ Hc)|].
    rewrite Hc in Hsome. cbn [mbind option_bind] in Hsome.
    rewrite bool_decide_eq_false_2, Hws in Hsome by (rewrite Hst; tauto). cbn [mbind option_bind] in Hsome.
    case_bool_decide; done.
  - destruct (sched_unblock_sim ls s A p A Hs) as (s' & Hr & Hs' & _); [|by exists s'].
    unfold aunblock. destruct (p =? NULL); [done|]. rewrite Hc. cbn [mbind option_bind].
    by rewrite bool_decide_eq_true_2.
Qed.

(** [sched_block_process] puts a running process on the waiting queue
    but leaves it the current process: until the next pick the scheduler's
    current process is one that waits. *)
Theorem sched_block_stays_current U A c (s : St) :
  ainv U A → srep ls s A → is_running A c →
  ∃ ws s', a_queues A !! 4%nat = Some ws ∧ sched_block_process s = Ok tt s' ∧
    srep ls s' (mkA (<[a_cur A := set_state STATE_WAITING c]> (a_procs A))
      (<[4%nat := ws ++ [a_cur A]]> (a_queues A)) (a_cur A) (a_idle A)) ∧
    current_pcb (lget s') = a_cur A.
Proof.
  intros HI Hs Hr. destruct (block_inv U A c HI Hr) as (ws & Hws & Hb & _).
  destruct (sched_block_sim ls s A _ Hs Hb) as (s' & Hrun & Hs' & _). exists ws, s'.
  split_and!; [done|done|done|]. by rewrite (sr_static _ _ _ Hs').
Qed.

(** ** Progress of waiting processes *)

(** The number of ageing ticks a ready process is away from level 0. *)
Definition wait (c : ProcessControlBlock) : Z :=
  if priority c =? 0 then 0 else AGE_TICK_MAX * priority c - age_ticks c.

(** This call is a tick that ages. *)
Definition ages (A : asched) (op : sched_op) : bool :=
  match op with
  | Tick =>
      negb (a_cur A =? NULL) && negb (a_cur A =? a_idle A) &&
      match a_procs A !! a_cur A with Some c => negb (quantum_remaining c =? 1) | None => false end
  | _ => false
  end.

Definition ready_at (A : asched) (p : Z) : Prop := ∃ c, a_procs A !! p = Some c ∧ state c = STATE_READY.

(** A history throughout which [p] stays ready, with [n] ageing ticks. *)
Inductive waits (p : Z) : gset Z → asched → list sched_op → Z → gset Z → asched → Prop :=
  | w_nil U A : waits p U A [] 0 U A
  | w_cons U A op A1 ops n U' A' :
      op_ok U A op → arun_op op A = Some A1 → ready_at A1 p → waits p (after op U) A1 ops n U' A' →
      waits p U A (op :: ops) (Z.b2z (ages A op) + n) U' A'.

Lemma wait_aged c : pcb_ok c → wait (aged c) = Z.max 0 (wait c - 1) ∨ priority c = 0.
Proof.
  intros (Hp & _ & Ha). unfold wait, aged, AGE_TICK_MAX, MLFQ_LEVELS in *.
  destruct (Z.eqb_spec (priority c) 0) as [|Hne]; [by right|left].
  destruct (Z.ltb_spec (age_ticks c + 1) 600); cbn [priority age_ticks set_age set_quantum set_priority].
  - destruct (Z.eqb_spec (priority c) 0); lia.
  - destruct (Z.eqb_spec (priority c - 1) 0); lia.
Qed.

(** A tick, seen from a process that is ready and stays so. *)
Lemma tick_wait U A A1 p c :
  ainv U A → not_blocked A → atick A = Some A1 → p ∉ U → p ≠ a_idle A →
  a_procs A !! p = Some c → state c = STATE_READY →
  a_idle A1 = a_idle A ∧ ∃ c1, a_procs A1 !! p = Some c1 ∧ wait c1 = Z.max 0 (wait c - Z.b2z (ages A Tick)).
Proof.
  intros HI Hok Hrun HU Hi Hc Hst.
  assert (0 ≤ wait c) as Hw.
  { destruct (ai_procs _ _ HI _ _ Hc) as [_ (Hp & _ & Ha)]. unfold wait, AGE_TICK_MAX, MLFQ_LEVELS in *.
    destruct (Z.eqb_spec (priority c) 0); lia. }
  assert (Hz : ages A Tick = false → wait c = Z.max 0 (wait c - Z.b2z (ages A Tick))) by (intros ->; cbn; lia).
  destruct Hok as [Hn|[Hn|[d Hr]]].
  - unfold atick in Hrun. rewrite Hn in Hrun. injection Hrun as <-. split; [done|]. exists c. split; [done|].
    apply Hz. unfold ages. by rewrite Hn.
  - unfold atick in Hrun. rewrite Hn, Z.eqb_refl in Hrun.
    assert (A1 = A) as -> by (by destruct (_ =? NULL); injection Hrun). split; [done|]. exists c. split; [done|].
    apply Hz. unfold ages. rewrite Hn, Z.eqb_refl. by rewrite andb_false_r.
  - destruct (running_free U A d HI Hr) as (_ & _ & Hnull & _). pose proof Hr as (Hne & Hd & Hds).
    assert (p ≠ a_cur A) as Hpc by (intros ->; congruence).
    destruct (decide (quantum_remaining d = 1)) as [Hq|Hq].
    + destruct (tick_expire_inv U A d HI Hr Hq) as (ns & _ & Ht & _). rewrite Ht in Hrun. injection Hrun as <-.
      split; [done|]. exists c. split; [cbn; by rewrite lookup_insert_ne|]. apply Hz. unfold ages. rewrite Hd, Hq.
      by rewrite andb_false_r.
    + destruct (tick_age_inv U A d HI Hr Hq) as (A2 & Ht & _ & _ & Hid & _ & Hin & Hout).
      assert (A1 = A2) as -> by congruence. split; [done|].
      assert (ages A Tick = true) as ->.
      { unfold ages. rewrite Hd. destruct (Z.eqb_spec (a_cur A) NULL), (Z.eqb_spec (a_cur A) (a_idle A)),
          (Z.eqb_spec (quantum_remaining d) 1); done. }
      destruct (ai_procs _ _ HI _ _ Hc) as [_ Hok]. destruct (wait_aged c Hok) as [Hwa|H0].
      * destruct (decide (priority c = 0)) as [H0|H0].
        { destruct (Hout p Hpc) as [E _]; [|exists c; rewrite E; split; [done|]; unfold wait; by rewrite H0].
          intros i Hi' Hqi. destruct (qin_ready U A i p HI ltac:(lia) Hqi) as (c' & Hc' & _ & Hprio & _).
          assert (c' = c) as -> by congruence. lia. }
        exists (aged c). split; [|done]. destruct Hok as [Hp _]. unfold MLFQ_LEVELS in Hp.
        rewrite (Hin (Z.to_nat (priority c)) p); [by rewrite Hc|lia|].
        apply (ai_home _ _ HI). split_and!; [done|done|]. exists c. split; [done|]. unfold home. by rewrite Hst.
      * destruct (Hout p Hpc) as [E _]; [|exists c; rewrite E; split; [done|]; unfold wait; by rewrite H0].
        intros i Hi' Hqi. destruct (qin_ready U A i p HI ltac:(lia) Hqi) as (c' & Hc' & _ & Hprio & _).
        assert (c' = c) as -> by congruence. lia.
Qed.

(** The other calls leave the block of a process that stays ready. *)
Lemma other_wait U A A1 op p c :
  ainv U A → op_ok U A op → arun_op op A = Some A1 → ready_at A1 p → p ∉ U → p ≠ a_idle A →
  a_procs A !! p = Some c → state c = STATE_READY → op ≠ Tick →
  a_idle A1 = a_idle A ∧ a_procs A1 !! p = Some c.
Proof.
  intros HI Hok Hrun (c1 & Hc1 & Hst1) HU Hi Hc Hst Hop. destruct op as [q| | | |q]; [| done| | |]; cbn in Hok, Hrun.
  - destruct (enqueue_inv U A q HI Hok) as (d & ns & _ & _ & He & _). rewrite He in Hrun. by injection Hrun as <-.
  - destruct (first_or_none A (ai_len _ _ HI)) as [(i & q & ns & Hf)|Hn].
    + destruct (pick_inv U A i q ns HI Hok Hf) as (d & Hd & _ & Hp & _). rewrite Hp in Hrun. injection Hrun as <-.
      split; [done|]. cbn in *. destruct (decide (q = p)) as [->|Hne]; [|by rewrite lookup_insert_ne].
      rewrite lookup_insert_eq in Hc1. by injection Hc1 as <-.
    + destruct (pick_idle_inv U A HI Hok Hn) as (d & Hd & Hp & _). rewrite Hp in Hrun. injection Hrun as <-.
      split; [done|]. cbn. by rewrite lookup_insert_ne.
  - destruct Hok as [Hn|[Hn|[d Hr]]].
    + unfold ablock in Hrun. rewrite Hn in Hrun. by injection Hrun as <-.
    + unfold ablock in Hrun. rewrite Hn, Z.eqb_refl, orb_true_r in Hrun. by injection Hrun as <-.
    + destruct (block_inv U A d HI Hr) as (ns & _ & Hb & _). rewrite Hb in Hrun. injection Hrun as <-.
      split; [done|]. destruct Hr as (_ & Hd & Hds). cbn. rewrite lookup_insert_ne; [done|]. intros Heq. congruence.
  - destruct Hok as [Hpc [d Hd]]. destruct (decide (state d = STATE_WAITING)) as [Hs|Hs].
    + destruct (unblock_inv U A q d HI Hd Hpc Hs) as (ws & ns & _ & _ & Hu & _). rewrite Hu in Hrun. injection Hrun as <-.
      split; [done|]. cbn. rewrite lookup_insert_ne; [done|]. intros ->. congruence.
    + unfold aunblock in Hrun. rewrite Hd in Hrun. cbn [mbind option_bind] in Hrun.
      rewrite bool_decide_eq_true_2 in Hrun by done. destruct (q =? NULL); by injection Hrun as <-.
Qed.

Lemma waits_wait p U A ops n U' A' c : waits p U A ops n U' A' →
  ainv U A → p ∉ U → p ≠ a_idle A → a_procs A !! p = Some c → state c = STATE_READY →
  history U A ops U' A' ∧ 0 ≤ n ∧ ∃ c', a_procs A' !! p = Some c' ∧ wait c' = Z.max 0 (wait c - n).
Proof.
  intros Hw. revert c. induction Hw as [U A|U A op A1 ops n U' A' Hok Hrun Hready Hw IH]; intros c HI HU Hi Hc Hst.
  { split; [constructor|]. split; [lia|]. exists c. split; [done|].
    destruct (ai_procs _ _ HI _ _ Hc) as [_ (Hp & _ & Ha)]. unfold wait, AGE_TICK_MAX, MLFQ_LEVELS in *.
    destruct (Z.eqb_spec (priority c) 0); lia. }
  destruct (op_inv U A op HI Hok) as (A2 & Hr2 & HI1). assert (A2 = A1) as -> by congruence.
  assert (p ∉ after op U) as HU1 by (destruct op; cbn; set_solver).
  destruct Hready as (c1 & Hc1 & Hst1).
  assert (a_idle A1 = a_idle A ∧ wait c1 = Z.max 0 (wait c - Z.b2z (ages A op))) as [Hid Hwait].
  { destruct (decide (op = Tick)) as [->|Hop].
    - destruct (tick_wait U A A1 p c HI Hok Hrun HU Hi Hc Hst) as (Hid & d & Hd & Hwd). split; [done|congruence].
    - destruct (other_wait U A A1 op p c HI Hok Hrun ltac:(by exists c1) HU Hi Hc Hst Hop) as (Hid & Hd).
      assert (c1 = c) as -> by congruence. split; [done|].
      assert (ages A op = false) as -> by (by destruct op). cbn.
      destruct (ai_procs _ _ HI _ _ Hc) as [_ (Hp & _ & Ha)]. unfold wait, AGE_TICK_MAX, MLFQ_LEVELS in *.
      destruct (Z.eqb_spec (priority c) 0); lia. }
  destruct (IH c1 HI1 HU1 ltac:(by rewrite Hid) Hc1 Hst1) as (Hh & Hn & c' & Hc' & Hwc').
  assert (0 ≤ Z.b2z (ages A op)) by (by destruct (ages A op)).
  split; [by econstructor|]. split; [lia|]. exists c'. split; [done|]. lia.
Qed.

(** C19: no process waits for ever at a low level. Along any history of
    correct calls through which a process stays ready, each ageing tick
    brings it one step nearer to level 0: after as many ageing ticks as its
    distance, 600 per level less its age, its priority field in memory is 0. *)
Theorem sched_waiting_rises p U A ops n U' A' c (s : St) :
  ainv U A → srep ls s A → p ∉ U → p ≠ a_idle A → a_procs A !! p = Some c → state c = STATE_READY →
  waits p U A ops n U' A' →
  ∃ s', run_sched_ops ops s = Ok tt s' ∧ srep ls s' A' ∧
    (wait c ≤ n → ld32 (lget s') (p + OFF_PRIORITY) = 0).
Proof.
  intros HI Hs HU Hi Hc Hst Hw.
  destruct (waits_wait _ _ _ _ _ _ _ _ Hw HI HU Hi Hc Hst) as (Hh & _ & c' & Hc' & Hwait).
  destruct (history_sim _ _ _ _ _ Hh s Hs) as (s' & Hr & Hs' & _). exists s'. split_and!; [done|done|].
  intros Hle. destruct (ai_procs _ _ (history_inv _ _ _ _ _ Hh HI) _ _ Hc') as [_ (Hp & _ & Ha)].
  rewrite (pr_priority _ _ _ (dr_pcbs _ _ _ (sr_data _ _ _ Hs') _ _ Hc')).
  unfold wait, AGE_TICK_MAX, MLFQ_LEVELS in *. destruct (Z.eqb_spec (priority c') 0); [done|].
  destruct (Z.eqb_spec (priority c) 0); lia.
Qed.
End spec.

(** ** The timer interrupt *)

Section timer_spec.
Context {St : Type} `{LM : Lens St mem} `{LS : Lens St Scheduler} `{LIO : Lens St Ports}.
Context {AP : Apart LM LS} {APM : Apart LM LIO} {APS : Apart LS LIO}.
Context (lits : ListLiterals) (ls : list Z).
Context (context_switch : Z → Z → Z → M St unit) (bootstrap_first_process : Z → Z → M St unit).

Abbreviation handler := (sched_timer_handler lits context_switch bootstrap_first_process).
Abbreviation io s := (lget (T:=Ports) s).

Lemma touched_io ps s s' : touched ls ps s s' → io s' = io s.
Proof. intros (m & sc & -> & _). by rewrite (lget_other' m), (lget_other' sc). Qed.

(** [s'] is [s] but for the scheduler's bytes and static, and the ports. *)
Definition handled (ps : gset Z) (s s' : St) : Prop :=
  ∃ (m : mem) (sc : Scheduler) (x : Ports), s' = lput m (lput sc (lput x s)) ∧
    ∀ a, ¬ sched_bytes ls ps a → get8 m a = get8 (lget s) a.

Lemma touched_handled ps s (x : Ports) s1 s2 : touched ls ps s s1 → touched ls ps (lput x s1) s2 → handled ps s s2.
Proof.
  intros (m & sc & -> & Hm) (m' & sc' & -> & Hm'). exists m', sc', x. split.
  - rewrite <- (lput_comm (L:=LM) (K:=LIO)), <- (lput_comm (L:=LM) (K:=LS)), lput_lput.
    by rewrite <- (lput_comm (L:=LS) (K:=LIO)), lput_lput.
  - intros a Ha. rewrite Hm', (lget_other (L:=LM) (K:=LIO)), lget_lput by done. by apply Hm.
Qed.

(** The end-of-interrupt command to the first controller. *)
Lemma eoi_run s A : srep ls s A →
  ∃ x : Ports, pic_send_eoi 0 s = Ok tt (lput x s) ∧ srep ls (lput x s) A ∧ io_trace x = io_trace (io s) ++ [Out 0x20 0x20].
Proof.
  intros [Hd Hs]. eexists. split; [reflexivity|]. split; [|done].
  constructor; [by rewrite lget_other|]. rewrite <- Hs. apply lget_other.
Qed.

(** The tick and the acknowledgement, then the rest of the handler. *)
Lemma handler_tick s A A1 : srep ls s A → atick A = Some A1 →
  ∃ s0 (x : Ports) s1, s1 = lput x s0 ∧ srep ls s1 A1 ∧ dom (a_procs A1) = dom (a_procs A) ∧ touched ls (dom (a_procs A)) s s0 ∧
    io_trace (io s1) = io_trace (io s) ++ [Out 0x20 0x20] ∧
    handler s =
    (if (a_cur A1 =? NULL) || (a_cur A =? NULL) then
       sched_pick_next_process lits ;;
       sc ← gets;
       stack ← load32 (current_pcb sc + OFF_STACK);
       space ← load32 (current_pcb sc + OFF_SPACE_PHYS);
       if a_cur A =? NULL then bootstrap_first_process stack space
       else context_switch (a_cur A + OFF_STACK) stack space
     else mret tt) s1.
Proof.
  intros Hs Ht. destruct (sched_tick_sim ls s A A1 Hs Ht) as (s0 & Hr0 & Hs0 & Hdom & Ht0).
  destruct (eoi_run s0 A1 Hs0) as (x & Hr1 & Hs1 & Hio1). exists s0, x, (lput x s0). split_and!; [done..| |].
  { by rewrite lget_lput, Hio1, (touched_io _ _ _ Ht0). }
  unfold sched_timer_handler. rewrite bind_gets. cbv zeta. rewrite (sr_static _ _ _ Hs). cbn [statics current_pcb].
  rewrite (bind_ok _ _ _ _ _ Hr0), (bind_ok _ _ _ _ _ Hr1), bind_gets.
  rewrite (sr_static _ _ _ Hs1). cbn [statics current_pcb]. done.
Qed.

(** The pick and the two loads before a switch. *)
Lemma handler_pick {B} s1 A1 A2 c (k : Z → Z → M St B) :
  srep ls s1 A1 → apick A1 = Some A2 → a_procs A2 !! a_cur A2 = Some c →
  ∃ s2, srep ls s2 A2 ∧ io s2 = io s1 ∧ touched ls (dom (a_procs A1)) s1 s2 ∧
    (sched_pick_next_process lits ;;
     sc ← gets;
     stack ← load32 (current_pcb sc + OFF_STACK);
     space ← load32 (current_pcb sc + OFF_SPACE_PHYS);
     k stack space) s1 = k (kernel_stack_ptr c) (address_space_physical c) s2.
Proof.
  intros Hs Hp Hc. destruct (sched_pick_sim lits ls s1 A1 A2 Hs Hp) as (s2 & Hr & Hs2 & _ & Ht2).
  exists s2. split; [done|]. split; [by eapply touched_io|]. split; [done|].
  rewrite (bind_ok _ _ _ _ _ Hr), bind_gets, (sr_static _ _ _ Hs2). cbn [statics current_pcb].
  pose proof (dr_pcbs _ _ _ (sr_data _ _ _ Hs2) _ _ Hc) as [_ _ _ _ _ _ Hspace Hstack].
  rewrite (bind_ok _ _ _ _ _ (load_field ls s2 A2 _ c (sr_data _ _ _ Hs2) Hc OFF_STACK ltac:(pcb_off; lia))).
  rewrite (bind_ok _ _ _ _ _ (load_field ls s2 A2 _ c (sr_data _ _ _ Hs2) Hc OFF_SPACE_PHYS ltac:(pcb_off; lia))).
  by rewrite Hstack, Hspace.
Qed.

(** The first timer interrupt: with no current process the handler
    acknowledges the interrupt, makes the oldest process of the highest
    non-empty level current and running, and starts it with its own stack
    pointer and page directory. *)
Theorem timer_starts_first U A i p ns (s : St) :
  ainv U A → srep ls s A → a_cur A = NULL → first_ready A i p ns →
  ∃ c s', a_procs A !! p = Some c ∧
    handler s = bootstrap_first_process (kernel_stack_ptr c) (address_space_physical c) s' ∧
    srep ls s' (mkA (<[p := set_state STATE_RUNNING c]> (a_procs A)) (<[i := ns]> (a_queues A)) p (a_idle A)) ∧
    io_trace (io s') = io_trace (io s) ++ [Out 0x20 0x20].
Proof.
  intros HI Hs Hn Hf. assert (atick A = Some A) as Ht by (unfold atick; by rewrite Hn).
  destruct (handler_tick s A A Hs Ht) as (_ & _ & s1 & _ & Hs1 & _ & _ & Hio1 & ->). rewrite Hn. cbn [Z.eqb orb NULL].
  destruct (pick_inv U A i p ns HI ltac:(by left) Hf) as (c & Hc & _ & Hp & _).
  destruct (handler_pick s1 A _ (set_state STATE_RUNNING c) (λ stack space, bootstrap_first_process stack space) Hs1 Hp)
    as (s2 & Hs2 & Hio2 & _ & Hr2); [apply lookup_insert_eq|].
  exists c, s2. split_and!; [done|exact Hr2|exact Hs2|congruence].
Qed.

(** A timer interrupt that ends the running process's quantum demotes
    it, and switches from it to the oldest process of the highest level that
    now has one: the switch saves into the old block and gets the new
    block's stack pointer and page directory. Only the scheduler's bytes and
    static and the ports have changed by then. *)
Theorem timer_preempts U A c qn i p ns (s : St) :
  ainv U A → srep ls s A → is_running A c → quantum_remaining c = 1 →
  let prio := Z.to_nat (Z.min (priority c + 1) 3) in
  let A1 := mkA (<[a_cur A := demoted c]> (a_procs A)) (<[prio := qn ++ [a_cur A]]> (a_queues A)) NULL (a_idle A) in
  a_queues A !! prio = Some qn → first_ready A1 i p ns →
  ∃ d s', a_procs A1 !! p = Some d ∧
    handler s = context_switch (a_cur A + OFF_STACK) (kernel_stack_ptr d) (address_space_physical d) s' ∧
    srep ls s' (mkA (<[p := set_state STATE_RUNNING d]> (a_procs A1)) (<[i := ns]> (a_queues A1)) p (a_idle A)) ∧
    io_trace (io s') = io_trace (io s) ++ [Out 0x20 0x20] ∧ handled (dom (a_procs A)) s s'.
Proof.
  intros HI Hs Hr Hq prio A1 Hqn Hf. destruct (tick_expire_inv U A c HI Hr Hq) as (qn' & Hqn' & Ht & HI1).
  fold prio in Hqn', Ht, HI1. assert (qn' = qn) as -> by congruence.
  change (atick A = Some A1) in Ht. change (ainv U A1) in HI1.
  destruct (running_free U A c HI Hr) as (_ & _ & Hnull & _).
  destruct (handler_tick s A A1 Hs Ht) as (s0 & x & s1 & E1 & Hs1 & Hdom & Ht0 & Hio1 & ->).
  assert ((a_cur A =? NULL) = false) as -> by (by apply Z.eqb_neq). cbn [A1 a_cur Z.eqb orb NULL].
  destruct (pick_inv U A1 i p ns HI1 ltac:(by left) Hf) as (d & Hd & _ & Hp & _).
  destruct (handler_pick s1 A1 _ (set_state STATE_RUNNING d)
    (λ stack space, context_switch (a_cur A + OFF_STACK) stack space) Hs1 Hp)
    as (s2 & Hs2 & Hio2 & Ht2 & Hr2); [apply lookup_insert_eq|].
  exists d, s2. split_and!; [done|exact Hr2|exact Hs2|congruence|].
  rewrite Hdom, E1 in Ht2. by eapply touched_handled.
Qed.

(** A process alone in the ready queues is switched to itself when its
    quantum ends. The stack pointer handed to [context_switch] is the one in
    its block before the switch saves the present one: the process goes back
    to where it was when it last lost the processor, or to its entry point. *)
Theorem timer_lone_process_stale_stack U A c (s : St) :
  ainv U A → srep ls s A → is_running A c → quantum_remaining c = 1 → none_ready A →
  ∃ s', handler s = context_switch (a_cur A + OFF_STACK) (kernel_stack_ptr c) (address_space_physical c) s' ∧
    current_pcb (lget s') = a_cur A ∧ ld32 (lget s') (a_cur A + OFF_STACK) = kernel_stack_ptr c.
Proof.
  intros HI Hs Hr Hq Hnone. destruct (tick_expire_inv U A c HI Hr Hq) as (qn & Hqn & Ht & HI1).
  destruct (running_free U A c HI Hr) as (_ & _ & Hnull & Hok).
  destruct (handler_tick s A _ Hs Ht) as (_ & _ & s1 & _ & Hs1 & _ & _ & Hio1 & ->).
  assert ((a_cur A =? NULL) = false) as -> by (by apply Z.eqb_neq). cbn [aset_cur a_cur Z.eqb orb NULL].
  set (i := Z.to_nat (Z.min (priority c + 1) 3)) in *.
  assert (i < 4)%nat as Hi by (destruct Hok as [Hp _]; unfold MLFQ_LEVELS in Hp; lia).
  rewrite (Hnone i Hi) in Hqn. injection Hqn as <-.
  set (A1 := aset_cur NULL _) in *.
  assert (first_ready A1 i (a_cur A) []) as Hf.
  { assert (i < length (a_queues A))%nat by (rewrite (ai_len _ _ HI); lia).
    split; [done|]. cbn. split; [by rewrite list_lookup_insert_eq|].
    intros j Hj. rewrite list_lookup_insert_ne by lia. apply Hnone. lia. }
  destruct (pick_inv U A1 i _ [] HI1 ltac:(by left) Hf) as (d & Hd & _ & Hp & _).
  assert (d = demoted c) as -> by (cbn in Hd; rewrite lookup_insert_eq in Hd; by injection Hd).
  destruct (handler_pick s1 A1 _ (set_state STATE_RUNNING (demoted c))
    (λ stack space, context_switch (a_cur A + OFF_STACK) stack space) Hs1 Hp)
    as (s2 & Hs2 & _ & _ & Hr2); [apply lookup_insert_eq|].
  exists s2. split_and!; [exact Hr2|by rewrite (sr_static _ _ _ Hs2)|].
  apply (pr_stack _ _ _ (dr_pcbs _ _ _ (sr_data _ _ _ Hs2) _ _ (lookup_insert_eq _ _ _))).
Qed.

(** C39: once the idle process is current it stays so: whatever is in the
    ready queues, a timer interrupt only acknowledges itself; no process is
    aged, picked or switched to. *)
Theorem timer_never_leaves_idle A (s : St) :
  srep ls s A → a_cur A = a_idle A → a_idle A ≠ NULL →
  ∃ s', handler s = Ok tt s' ∧ srep ls s' A ∧ io_trace (io s') = io_trace (io s) ++ [Out 0x20 0x20].
Proof.
  intros Hs Hc Hi. assert (atick A = Some A) as Ht.
  { unfold atick. rewrite Hc, Z.eqb_refl. by destruct (_ =? NULL). }
  destruct (handler_tick s A A Hs Ht) as (_ & _ & s1 & _ & Hs1 & _ & _ & Hio1 & ->). exists s1.
  rewrite Hc. destruct (Z.eqb_spec (a_idle A) NULL); done.
Qed.
End timer_spec.

(** ** The theorems at concrete states *)

Module SchedExample.
Record machine : Type := mkMachine { m_mem : mem; m_sched : Scheduler; m_ports : Ports }.

#[local] Instance lens_mem : Lens machine mem.
Proof. refine {| lget := m_mem; lput m s := mkMachine m (m_sched s) (m_ports s) |}; by intros; destruct s. Defined.
#[local] Instance lens_sched : Lens machine Scheduler.
Proof. refine {| lget := m_sched; lput x s := mkMachine (m_mem s) x (m_ports s) |}; by intros; destruct s. Defined.
#[local] Instance lens_ports : Lens machine Ports.
Proof. refine {| lget := m_ports; lput x s := mkMachine (m_mem s) (m_sched s) x |}; by intros; destruct s. Defined.
#[local] Instance apart_ms : Apart lens_mem lens_sched.
Proof. by constructor. Qed.
#[local] Instance apart_mp : Apart lens_mem lens_ports.
Proof. by constructor. Qed.
#[local] Instance apart_sp : Apart lens_sched lens_ports.
Proof. by constructor. Qed.

Definition lits0 : ListLiterals := mkLits 0x20000 0x20100 0x20200.

(** Five empty lists and four blocks: idle, two new processes, and one that
    has nearly aged out of level 1. *)
Definition lists0 : list Z := [0x5000; 0x5020; 0x5040; 0x5060; 0x5080].
Definition idle0 : Z := 0x6000.
Definition p1 : Z := 0x6100.
Definition p2 : Z := 0x6200.
Definition p3 : Z := 0x6300.
Definition pcb3 : ProcessControlBlock := mkPcb 3 STATE_READY 1 80 599 0x700000 0x303000 0xC0001FD8.
Definition pcb_of (n quantum : Z) : ProcessControlBlock :=
  mkPcb n STATE_READY 0 quantum 0 0x700000 (0x300000 + 0x1000 * n) 0xC0001FD8.
Definition procs0 : gmap Z ProcessControlBlock :=
  <[idle0 := pcb_of 0 40]> (<[p1 := pcb_of 1 1]> (<[p2 := pcb_of 2 40]> (<[p3 := pcb3]> ∅))).

Definition write_list (m : mem) (a : Z) : mem := st32 (st32 (st32 m a a) (a + 4) a) (a + 8) 0.
Definition write_pcb (p : Z) (c : ProcessControlBlock) (m : mem) : mem :=
  st32 (st32 (st32 (st32 (st32 (st32 (st32 (st32 m p (pid c)) (p + 12) (state_code (state c)))
    (p + 16) (priority c)) (p + 20) (quantum_remaining c)) (p + 24) (age_ticks c))
    (p + 28) (address_space c)) (p + 32) (address_space_physical c)) (p + 36) (kernel_stack_ptr c).

Definition s0 : machine :=
  mkMachine (write_pcb p3 pcb3 (write_pcb p2 (pcb_of 2 40) (write_pcb p1 (pcb_of 1 1) (write_pcb idle0 (pcb_of 0 40)
      (foldl write_list ∅ lists0)))))
    (mkSched [0x5000; 0x5020; 0x5040; 0x5060] 0x5080 NULL idle0) (mkPorts [] (λ _ _, 0)).
Definition A0 : asched := mkA procs0 [[]; []; []; []; []] NULL idle0.
Definition U0 : gset Z := {[p1; p2; p3]}.

Lemma procs0_inv p c : procs0 !! p = Some c →
  (p = idle0 ∧ c = pcb_of 0 40) ∨ (p = p1 ∧ c = pcb_of 1 1) ∨ (p = p2 ∧ c = pcb_of 2 40) ∨ (p = p3 ∧ c = pcb3).
Proof.
  unfold procs0. intros [[<- <-]|[_ [[<- <-]|[_ [[<- <-]|[_ [[<- <-]|[_ H]]%lookup_insert_Some]]%lookup_insert_Some]]%lookup_insert_Some]]%lookup_insert_Some;
    [tauto..|done].
Qed.

Lemma empty_queue i ns : a_queues A0 !! i = Some ns → ns = [].
Proof. do 5 (destruct i as [|i]; [by intros [= <-]|]). done. Qed.

Lemma A0_inv : ainv U0 A0.
Proof.
  constructor.
  - done.
  - intros i ns ->%empty_queue. apply NoDup_nil_2.
  - intros i p. split.
    + intros (ns & ->%empty_queue & []%not_elem_of_nil).
    + intros (HU & Hi & c & [[-> _]|[[-> _]|[[-> _]|[-> _]]]]%procs0_inv & _); [done|..]; exfalso; apply HU; unfold U0; set_solver.
  - intros p c Hc. split; destruct (procs0_inv p c Hc) as [[-> ->]|[[-> ->]|[[-> ->]|[-> ->]]]]; done.
  - intros p c [[-> ->]|[[-> ->]|[[-> ->]|[-> ->]]]]%procs0_inv; done.
  - by left.
  - intros p [[->%elem_of_singleton| ->%elem_of_singleton]%elem_of_union| ->%elem_of_singleton]%elem_of_union; eexists; (split; [reflexivity|done]).
  - split; [unfold U0; rewrite !elem_of_union, !elem_of_singleton; by intros [[?|?]|?]|]. by eexists.
Qed.

Lemma lists0_elem i a : lists0 !! i = Some a → 0x5000 ≤ a ≤ 0x5080 ∧ a = 0x5000 + 0x20 * Z.of_nat i.
Proof. do 5 (destruct i as [|i]; [intros [= <-]; split; [lia|done]|]). done. Qed.

Lemma s0_rep : srep lists0 s0 A0.
Proof.
  assert (Hdom : ∀ p, p ∈ dom procs0 → p = idle0 ∨ p = p1 ∨ p = p2 ∨ p = p3).
  { intros p [c Hc]%elem_of_dom. apply procs0_inv in Hc. tauto. }
  constructor; [|done]. constructor; [done|done| | | | |].
  - intros i a ns Ha ->%empty_queue. apply lists0_elem in Ha as Hr.
    constructor; [unfold SIZEOF_LIST; mapped_tac| |split; [apply NoDup_singleton|]| |].
    + intros n Hn%not_elem_of_nil. done.
    + intros x y ->%list_elem_of_singleton ->%list_elem_of_singleton. by left.
    + do 5 (destruct i as [|i]; [injection Ha as <-; vm_compute; done|]). done.
    + do 5 (destruct i as [|i]; [injection Ha as <-; vm_compute; done|]). done.
  - intros p c [[-> ->]|[[-> ->]|[[-> ->]|[-> ->]]]]%procs0_inv; constructor; vm_compute; done.
  - intros i ns p ->%empty_queue []%not_elem_of_nil.
  - intros i j ns ns' p ->%empty_queue _ []%not_elem_of_nil.
  - constructor; unfold SIZEOF_PCB, SIZEOF_LIST; [intros p Hp%Hdom|intros p p' Hp%Hdom Hp'%Hdom|
      intros i j a b Ha%lists0_elem Hb%lists0_elem Hne|intros a p [i Ha%lists0_elem]%list_elem_of_lookup Hp%Hdom];
      unfold idle0, p1, p2, p3 in *; [unfold mapped, IDENT_LO, IDENT_HI|..]; lia.
Qed.

(** Checking a history by evaluation. *)
Definition op_okb (U : gset Z) (A : asched) (op : sched_op) : bool :=
  match op with
  | Enqueue p => bool_decide (p ∈ U)
  | Tick | Block =>
      (a_cur A =? NULL) || (a_cur A =? a_idle A) ||
      match a_procs A !! a_cur A with Some c => bool_decide (state c = STATE_RUNNING) | None => false end
  | Pick =>
      (a_cur A =? NULL) ||
      match a_procs A !! a_cur A with Some c => bool_decide (state c = STATE_WAITING) | None => false end
  | Unblock p => negb (p =? a_cur A) && match a_procs A !! p with Some _ => true | None => false end
  end.

Lemma op_okb_ok U A op : op_okb U A op = true → op_ok U A op.
Proof.
  destruct op as [p| | | |p]; cbn.
  - apply bool_decide_eq_true.
  - unfold not_blocked. destruct (Z.eqb_spec (a_cur A) NULL), (Z.eqb_spec (a_cur A) (a_idle A)); try tauto. cbn.
    destruct (a_procs A !! a_cur A) as [c|] eqn:Hc; [|done]. intros Hs%bool_decide_eq_true. right. right.
    exists c. by split_and!.
  - unfold may_pick. destruct (Z.eqb_spec (a_cur A) NULL); [tauto|]. cbn.
    destruct (a_procs A !! a_cur A) as [c|] eqn:Hc; [|done]. intros Hs%bool_decide_eq_true. right. by exists c.
  - unfold not_blocked. destruct (Z.eqb_spec (a_cur A) NULL), (Z.eqb_spec (a_cur A) (a_idle A)); try tauto. cbn.
    destruct (a_procs A !! a_cur A) as [c|] eqn:Hc; [|done]. intros Hs%bool_decide_eq_true. right. right.
    exists c. by split_and!.
  - intros [Hp Hc]%andb_prop. split; [by apply negb_true_iff, Z.eqb_neq in Hp|].
    destruct (a_procs A !! p) as [c|]; [by exists c|done].
Qed.

Fixpoint play (U : gset Z) (A : asched) (ops : list sched_op) : option (gset Z * asched) :=
  match ops with
  | [] => Some (U, A)
  | op :: ops' => if op_okb U A op then A1 ← arun_op op A; play (after op U) A1 ops' else None
  end.

Lemma play_history ops : ∀ U A U' A', play U A ops = Some (U', A') → history U A ops U' A'.
Proof.
  induction ops as [|op ops IH]; cbn; intros U A U' A' H; [injection H as <- <-; constructor|].
  destruct (op_okb U A op) eqn:Hok; [|done]. destruct (arun_op op A) as [A1|] eqn:Hr; [|done].
  econstructor; [by apply op_okb_ok|done|by apply IH].
Qed.

(** The state reached by a history from [s0], concretely and abstractly. *)
Definition machine_at (ops : list sched_op) : machine := state_of (run_sched_ops lits0 ops s0).
Definition created_at (ops : list sched_op) : gset Z := from_option fst U0 (play U0 A0 ops).
Definition sched_at (ops : list sched_op) : asched := from_option snd A0 (play U0 A0 ops).

Definition plays (ops : list sched_op) : bool := match play U0 A0 ops with Some _ => true | None => false end.

Lemma at_history ops : plays ops = true → history U0 A0 ops (created_at ops) (sched_at ops).
Proof.
  unfold plays, created_at, sched_at. destruct (play U0 A0 ops) as [[U A]|] eqn:H; [|done]. intros _.
  by apply play_history.
Qed.

Lemma at_inv ops : plays ops = true → ainv (created_at ops) (sched_at ops).
Proof. intros H%at_history. by eapply history_inv; [|exact A0_inv]. Qed.

Lemma at_rep ops : plays ops = true → srep lists0 (machine_at ops) (sched_at ops).
Proof.
  intros H%at_history. destruct (history_sim lits0 lists0 _ _ _ _ _ H s0 s0_rep) as (s' & Hr & Hs' & _).
  unfold machine_at. by rewrite Hr.
Qed.

Lemma at_dom ops : plays ops = true → dom (a_procs (sched_at ops)) = dom procs0.
Proof. intros H%at_history. by destruct (history_sim lits0 lists0 _ _ _ _ _ H s0 s0_rep) as (_ & _ & _ & ? & _). Qed.

(** Both new processes enqueued and the first one running on its last tick. *)
Definition run1 : list sched_op := [Enqueue p1; Enqueue p2; Pick].
(** The second one running, the first waiting on level 1. *)
Definition run2 : list sched_op := run1 ++ [Tick; Pick].
(** The second one blocked, the first running. *)
Definition run3 : list sched_op := run2 ++ [Block; Pick].
(** Only the first one enqueued and running. *)
Definition run4 : list sched_op := [Enqueue p1; Pick].

Lemma sched_ops_refine_witness :
  ∃ s', run_sched_ops lits0 run3 s0 = Ok tt s' ∧ srep lists0 s' (sched_at run3) ∧ ainv (created_at run3) (sched_at run3) ∧
    ∀ op, op_ok (created_at run3) (sched_at run3) op →
      ∃ A'' s'', arun_op op (sched_at run3) = Some A'' ∧ run_sched_op lits0 op s' = Ok tt s'' ∧ srep lists0 s'' A''.
Proof.
  apply (sched_ops_refine lits0 lists0 U0 A0 run3 (created_at run3) (sched_at run3) s0 A0_inv s0_rep).
  apply at_history. vm_compute. reflexivity.
Defined.

Lemma sched_pick_highest_witness :
  let ops := [Enqueue p2; Enqueue p1] in
  ∃ c s', a_procs (sched_at ops) !! p2 = Some c ∧ state c = STATE_READY ∧ priority c = 0 ∧
    sched_pick_next_process lits0 (machine_at ops) = Ok tt s' ∧
    srep lists0 s' (mkA (<[p2 := set_state STATE_RUNNING c]> (a_procs (sched_at ops)))
      (<[0%nat := [p1]]> (a_queues (sched_at ops))) p2 idle0).
Proof.
  intros ops. apply (sched_pick_highest lits0 lists0 (created_at ops) (sched_at ops) 0 p2 [p1] (machine_at ops)).
  - apply at_inv. vm_compute. reflexivity.
  - apply at_rep. vm_compute. reflexivity.
  - left. vm_compute. reflexivity.
  - split; [lia|]. split; [vm_compute; reflexivity|]. intros j Hj. lia.
Defined.

Lemma sched_pick_falls_to_idle_witness :
  ∃ c s', procs0 !! idle0 = Some c ∧ sched_pick_next_process lits0 s0 = Ok tt s' ∧
    srep lists0 s' (mkA (<[idle0 := set_state STATE_RUNNING c]> procs0) [[]; []; []; []; []] idle0 idle0).
Proof.
  apply (sched_pick_falls_to_idle lits0 lists0 U0 A0 s0 A0_inv s0_rep); [by left|].
  intros j Hj. do 4 (destruct j as [|j]; [reflexivity|]). lia.
Defined.

Lemma run1_running : is_running (sched_at run1) (mkPcb 1 STATE_RUNNING 0 1 0 0x700000 0x301000 0xC0001FD8).
Proof. split; [|split]; vm_compute; done. Qed.
Lemma run2_running : is_running (sched_at run2) (mkPcb 2 STATE_RUNNING 0 40 0 0x700000 0x302000 0xC0001FD8).
Proof. split; [|split]; vm_compute; done. Qed.
Lemma run4_running : is_running (sched_at run4) (mkPcb 1 STATE_RUNNING 0 1 0 0x700000 0x301000 0xC0001FD8).
Proof. split; [|split]; vm_compute; done. Qed.

Lemma sched_tick_demotes_witness :
  ∃ ns s', a_queues (sched_at run1) !! 1%nat = Some ns ∧ sched_tick (machine_at run1) = Ok tt s' ∧
    srep lists0 s' (mkA (<[a_cur (sched_at run1) := mkPcb 1 STATE_READY 1 80 0 0x700000 0x301000 0xC0001FD8]>
        (a_procs (sched_at run1))) (<[1%nat := ns ++ [a_cur (sched_at run1)]]> (a_queues (sched_at run1)))
        NULL (a_idle (sched_at run1))).
Proof.
  apply (sched_tick_demotes lists0 (created_at run1) (sched_at run1)
    (mkPcb 1 STATE_RUNNING 0 1 0 0x700000 0x301000 0xC0001FD8) (machine_at run1));
    [apply at_inv|apply at_rep|exact run1_running|]; vm_compute; reflexivity.
Defined.

Lemma sched_tick_ages_witness :
  ∃ A' s', sched_tick (machine_at run2) = Ok tt s' ∧ srep lists0 s' A' ∧ ainv (created_at run2) A' ∧
    a_cur A' = a_cur (sched_at run2) ∧
    a_procs A' !! a_cur (sched_at run2) = Some (mkPcb 2 STATE_RUNNING 0 39 0 0x700000 0x302000 0xC0001FD8) ∧
    (∀ q d, a_procs (sched_at run2) !! q = Some d → q ∉ created_at run2 → q ≠ a_idle (sched_at run2) →
       state d = STATE_READY → 1 ≤ priority d → a_procs A' !! q = Some (aged d)) ∧
    (∀ q d, a_procs (sched_at run2) !! q = Some d → q ≠ a_cur (sched_at run2) →
       state d ≠ STATE_READY ∨ priority d = 0 → same_at (sched_at run2) A' q).
Proof.
  apply (sched_tick_ages lists0 (created_at run2) (sched_at run2)
    (mkPcb 2 STATE_RUNNING 0 40 0 0x700000 0x302000 0xC0001FD8) (machine_at run2));
    [apply at_inv; vm_compute; reflexivity|apply at_rep; vm_compute; reflexivity|exact run2_running|done].
Defined.

Lemma sched_unblock_wakes_witness :
  ∃ s', sched_unblock_process p2 (machine_at run3) = Ok tt s' ∧
    if decide (STATE_WAITING = STATE_WAITING) then
      ∃ ws ns, a_queues (sched_at run3) !! 4%nat = Some ws ∧ p2 ∈ ws ∧ a_queues (sched_at run3) !! 0%nat = Some ns ∧
        srep lists0 s' (mkA (<[p2 := mkPcb 2 STATE_READY 0 40 0 0x700000 0x302000 0xC0001FD8]> (a_procs (sched_at run3)))
          (<[0%nat := ns ++ [p2]]> (<[4%nat := filter (λ q, q ≠ p2) ws]> (a_queues (sched_at run3))))
          (a_cur (sched_at run3)) (a_idle (sched_at run3)))
    else srep lists0 s' (sched_at run3).
Proof.
  apply (sched_unblock_wakes lists0 (created_at run3) (sched_at run3) p2
    (mkPcb 2 STATE_WAITING 0 40 0 0x700000 0x302000 0xC0001FD8) (machine_at run3));
    [apply at_inv; vm_compute; reflexivity|apply at_rep; vm_compute; reflexivity|vm_compute; reflexivity|vm_compute; done].
Defined.

Lemma sched_block_stays_current_witness :
  ∃ ws s', a_queues (sched_at run2) !! 4%nat = Some ws ∧ sched_block_process (machine_at run2) = Ok tt s' ∧
    srep lists0 s' (mkA (<[a_cur (sched_at run2) := mkPcb 2 STATE_WAITING 0 40 0 0x700000 0x302000 0xC0001FD8]>
        (a_procs (sched_at run2))) (<[4%nat := ws ++ [a_cur (sched_at run2)]]> (a_queues (sched_at run2)))
        (a_cur (sched_at run2)) (a_idle (sched_at run2))) ∧
    current_pcb (lget s') = a_cur (sched_at run2).
Proof.
  apply (sched_block_stays_current lists0 (created_at run2) (sched_at run2)
    (mkPcb 2 STATE_RUNNING 0 40 0 0x700000 0x302000 0xC0001FD8) (machine_at run2));
    [apply at_inv; vm_compute; reflexivity|apply at_rep; vm_compute; reflexivity|exact run2_running].
Defined.

(** The third process one tick from level 0 while the second one runs. *)
Definition run5 : list sched_op := [Enqueue p3; Enqueue p2; Pick].

Lemma run5_tick : arun_op Tick (sched_at run5) = Some (sched_at (run5 ++ [Tick])).
Proof. vm_compute. reflexivity. Qed.

Lemma sched_waiting_rises_witness :
  ∃ s', run_sched_ops lits0 [Tick] (machine_at run5) = Ok tt s' ∧ srep lists0 s' (sched_at (run5 ++ [Tick])) ∧
    (wait pcb3 ≤ 1 → ld32 (lget s') (p3 + OFF_PRIORITY) = 0).
Proof.
  apply (sched_waiting_rises lits0 lists0 p3 (created_at run5) (sched_at run5) [Tick] 1
    (created_at run5) (sched_at (run5 ++ [Tick])) pcb3 (machine_at run5)).
  - apply at_inv. vm_compute. reflexivity.
  - apply at_rep. vm_compute. reflexivity.
  - refine (bool_decide_unpack (p3 ∉ created_at run5) _). vm_compute. exact I.
  - vm_compute. done.
  - vm_compute. reflexivity.
  - reflexivity.
  - apply (w_cons p3 (created_at run5) (sched_at run5) Tick (sched_at (run5 ++ [Tick])) [] 0
      (created_at run5) (sched_at (run5 ++ [Tick]))).
    + apply op_okb_ok. vm_compute. reflexivity.
    + exact run5_tick.
    + eexists. split; [vm_compute; reflexivity|reflexivity].
    + apply w_nil.
Defined.

(** The two routines of ctxswitch.asm as records of their arguments in ports
    of their own, for the timer handler's theorems. *)
Definition switch0 (slot stack space : Z) : M machine unit := outb slot stack ;; outb 0 space.
Definition boot0 (stack space : Z) : M machine unit := outb 1 stack ;; outb 2 space.

Lemma timer_starts_first_witness :
  let A := sched_at [Enqueue p2; Enqueue p1] in let s := machine_at [Enqueue p2; Enqueue p1] in
  ∃ c s', a_procs A !! p2 = Some c ∧
    sched_timer_handler lits0 switch0 boot0 s = boot0 (kernel_stack_ptr c) (address_space_physical c) s' ∧
    srep lists0 s' (mkA (<[p2 := set_state STATE_RUNNING c]> (a_procs A)) (<[0%nat := [p1]]> (a_queues A)) p2 (a_idle A)) ∧
    io_trace (lget s') = io_trace (lget s) ++ [Out 0x20 0x20].
Proof.
  intros A s. apply (timer_starts_first lits0 lists0 switch0 boot0 (created_at [Enqueue p2; Enqueue p1]) A 0 p2 [p1] s).
  - apply at_inv. vm_compute. reflexivity.
  - apply at_rep. vm_compute. reflexivity.
  - vm_compute. reflexivity.
  - split; [lia|]. split; [vm_compute; reflexivity|]. intros j Hj. lia.
Defined.

Lemma timer_preempts_witness :
  let c := mkPcb 1 STATE_RUNNING 0 1 0 0x700000 0x301000 0xC0001FD8 in
  let A := sched_at run1 in let s := machine_at run1 in
  let A1 := mkA (<[a_cur A := demoted c]> (a_procs A)) (<[1%nat := [] ++ [a_cur A]]> (a_queues A)) NULL (a_idle A) in
  ∃ d s', a_procs A1 !! p2 = Some d ∧
    sched_timer_handler lits0 switch0 boot0 s =
      switch0 (a_cur A + OFF_STACK) (kernel_stack_ptr d) (address_space_physical d) s' ∧
    srep lists0 s' (mkA (<[p2 := set_state STATE_RUNNING d]> (a_procs A1)) (<[0%nat := []]> (a_queues A1)) p2 (a_idle A)) ∧
    io_trace (lget s') = io_trace (lget s) ++ [Out 0x20 0x20] ∧
    handled lists0 (dom (a_procs A)) s s'.
Proof.
  intros c A s. apply (timer_preempts lits0 lists0 switch0 boot0 (created_at run1) A c [] 0 p2 [] s).
  - apply at_inv. vm_compute. reflexivity.
  - apply at_rep. vm_compute. reflexivity.
  - exact run1_running.
  - reflexivity.
  - vm_compute. reflexivity.
  - split; [lia|]. split; [vm_compute; reflexivity|]. intros j Hj. lia.
Defined.

Lemma timer_lone_process_stale_stack_witness :
  let c := mkPcb 1 STATE_RUNNING 0 1 0 0x700000 0x301000 0xC0001FD8 in
  let A := sched_at run4 in
  ∃ s', sched_timer_handler lits0 switch0 boot0 (machine_at run4) =
      switch0 (a_cur A + OFF_STACK) (kernel_stack_ptr c) (address_space_physical c) s' ∧
    current_pcb (lget s') = a_cur A ∧ ld32 (lget s') (a_cur A + OFF_STACK) = kernel_stack_ptr c.
Proof.
  intros c A. apply (timer_lone_process_stale_stack lits0 lists0 switch0 boot0 (created_at run4) A c (machine_at run4)).
  - apply at_inv. vm_compute. reflexivity.
  - apply at_rep. vm_compute. reflexivity.
  - exact run4_running.
  - reflexivity.
  - intros j Hj. do 4 (destruct j as [|j]; [vm_compute; reflexivity|]). lia.
Defined.

Lemma timer_never_leaves_idle_witness :
  let A := sched_at [Pick; Enqueue p1; Enqueue p2] in let s := machine_at [Pick; Enqueue p1; Enqueue p2] in
  ∃ s', sched_timer_handler lits0 switch0 boot0 s = Ok tt s' ∧ srep lists0 s' A ∧
    io_trace (lget s') = io_trace (lget s) ++ [Out 0x20 0x20].
Proof.
  intros A s. apply (timer_never_leaves_idle lits0 lists0 switch0 boot0 A s).
  - apply at_rep. vm_compute. reflexivity.
  - vm_compute. reflexivity.
  - vm_compute. done.
Defined.

(** A process that blocks on its last tick is linked into two lists:
    [sched_block_process] leaves it current, and the tick that ends its
    quantum enqueues it again. The waiting queue, of size 1, then starts with
    a node whose next node is the root of the level-1 queue. *)
Theorem block_then_expiry_links_twice :
  ∃ s', run_sched_ops lits0 [Enqueue p1; Pick; Block; Tick] s0 = Ok tt s' ∧
    ld32 (m_mem s') (0x5080 + OFF_SIZE) = 1 ∧ ld32 (m_mem s') (0x5080 + OFF_NEXT) = p1 + OFF_NODE ∧
    ld32 (m_mem s') (0x5020 + OFF_SIZE) = 1 ∧ ld32 (m_mem s') (0x5020 + OFF_NEXT) = p1 + OFF_NODE ∧
    ld32 (m_mem s') (p1 + OFF_NODE + OFF_NEXT) = 0x5020.
Proof.
  exists (state_of (run_sched_ops lits0 [Enqueue p1; Pick; Block; Tick] s0)).
  split; [apply returned_ok; vm_compute; reflexivity|]. vm_compute. by split_and!.
Qed.
End SchedExample.
