(* ===== verification/Io.v ===== *)
(** * Io: the text framebuffer and the CRT controller
      (src/kernel/arch/i386/io.c, src/include/arch/i386/io.h)

    A character cell is a 16-bit word at [FRAMEBUFFER + 2 * (col + 80 * row)]:
    the character in bits 0-7, the foreground in 8-11, the background in
    12-15. *)

From S2P Require Import Prelude Memory PortIO.

(** ** The code *)

Definition FRAMEBUFFER : Z := 0x000B8000.
Definition CRTC_CMD_PORT : Z := 0x3D4.
Definition CRTC_DATA_PORT : Z := 0x3D5.
Definition CURSOR_STYLE_START_CMD : Z := 0x0A.
Definition CURSOR_STYLE_END_CMD : Z := 0x0B.
Definition SCREEN_START_POS_HIGH_BYTE_CMD : Z := 0x0C.
Definition SCREEN_START_POS_LOW_BYTE_CMD : Z := 0x0D.
Definition CURSOR_POS_HIGH_BYTE_CMD : Z := 0x0E.
Definition CURSOR_POS_LOW_BYTE_CMD : Z := 0x0F.
Definition SCREEN_COLS : Z := 80.
Definition SCREEN_ROWS : Z := 25.

Section framebuffer.
Context {St : Type} `{LM : Lens St mem}.

(** A 16-bit store. *)
Definition store16 (a v : Z) : M St unit := store8 a v ;; store8 (a + 1) (v / 256).

Definition cell_word (character fg_color bg_color : Z) : Z :=
  let character_framebuffer := Z.land 0x00FF character in
  let bg_color_framebuffer := u16 (Z.shiftl (Z.land 0x000F bg_color) 12) in
  let fg_color_framebuffer := u16 (Z.shiftl (Z.land 0x000F fg_color) 8) in
  Z.lor (Z.lor character_framebuffer fg_color_framebuffer) bg_color_framebuffer.

Definition cell_addr (row col : Z) : Z := FRAMEBUFFER + 2 * (col + row * SCREEN_COLS).

Definition write_char_to_framebuffer (character row col fg_color bg_color : Z) : M St unit :=
  store16 (cell_addr row col) (cell_word character fg_color bg_color).
End framebuffer.

Section crtc.
Context {St : Type} `{LIO : Lens St Ports}.

Definition update_hardware_cursor_position (pos : Z) : M St unit :=
  outb CRTC_CMD_PORT CURSOR_POS_HIGH_BYTE_CMD ;;
  outb CRTC_DATA_PORT (Z.land (Z.shiftr pos 8) 0x00FF) ;;
  outb CRTC_CMD_PORT CURSOR_POS_LOW_BYTE_CMD ;;
  outb CRTC_DATA_PORT (Z.land pos 0x00FF).

Definition set_hardware_screen_start (row : Z) : M St unit :=
  let pos := u16 (SCREEN_COLS * row) in
  outb CRTC_CMD_PORT SCREEN_START_POS_HIGH_BYTE_CMD ;;
  outb CRTC_DATA_PORT (Z.land (Z.shiftr pos 8) 0x00FF) ;;
  outb CRTC_CMD_PORT SCREEN_START_POS_LOW_BYTE_CMD ;;
  outb CRTC_DATA_PORT (Z.land pos 0x00FF).
End crtc.

(** ** Lemmas *)

(** The word at a cell of the framebuffer. *)
Definition fb_word (m : mem) (row col : Z) : Z :=
  get8 m (cell_addr row col) + 256 * get8 m (cell_addr row col + 1).

Definition on_screen (row col : Z) : Prop := 0 ≤ row < SCREEN_ROWS ∧ 0 ≤ col < SCREEN_COLS.

Definition in_framebuffer (x : Z) : Prop := FRAMEBUFFER ≤ x < FRAMEBUFFER + 4000.

Lemma cell_word_value ch fg bg : 0 ≤ ch < 256 → 0 ≤ fg < 16 → 0 ≤ bg < 16 →
  cell_word ch fg bg = ch + 256 * fg + 4096 * bg.
Proof.
  intros Hc Hf Hb. unfold cell_word, u16. rewrite (Z.land_comm _ ch), !(Z.land_comm 15).
  change 0x00FF with (Z.ones 8). change 15 with (Z.ones 4). rewrite !Z.land_ones, !Z.shiftl_mul_pow2 by lia.
  rewrite (Z.mod_small ch), (Z.mod_small fg), (Z.mod_small bg) by lia.
  rewrite (Z.mod_small (fg * 2 ^ 8)), (Z.mod_small (bg * 2 ^ 12)) by lia.
  rewrite (lor_add ch fg 8), (lor_add (ch + fg * 2 ^ 8) bg 12) by lia. lia.
Qed.

Section framebuffer_run.
Context {St : Type} `{LM : Lens St mem}.

(** Writing a cell sets its word and no other byte. *)
Lemma write_cell_run ch row col fg bg (s : St) :
  on_screen row col → 0 ≤ ch < 256 → 0 ≤ fg < 16 → 0 ≤ bg < 16 →
  ∃ m', write_char_to_framebuffer ch row col fg bg s = Ok tt (lput m' s) ∧
    fb_word m' row col = ch + 256 * fg + 4096 * bg ∧
    (∀ r c, on_screen r c → (r, c) ≠ (row, col) → fb_word m' r c = fb_word (lget s) r c) ∧
    (∀ x, ¬ in_framebuffer x → get8 m' x = get8 (lget s) x).
Proof.
  intros [Hr Hc] Hch Hfg Hbg. unfold SCREEN_ROWS, SCREEN_COLS in *.
  unfold write_char_to_framebuffer, store16. rewrite cell_word_value by done.
  unfold cell_addr, fb_word, in_framebuffer, FRAMEBUFFER, cell_addr, SCREEN_COLS.
  mrun. eexists. split; [reflexivity|]. split_and!.
  - unfold FRAMEBUFFER. ldst. unfold u8. Z.div_mod_to_equations. lia.
  - intros r c [Hr' Hc'] Hne. unfold FRAMEBUFFER, SCREEN_ROWS, SCREEN_COLS in *.
    assert (r ≠ row ∨ c ≠ col) as Hd.
    { destruct (decide (r = row)) as [->|]; [|by left]. right. intros ->. done. }
    assert (c + r * 80 ≠ col + row * 80) by lia. by ldst.
  - intros x Hx. by ldst.
Qed.
End framebuffer_run.
