(* ===== verification/Programs.v ===== *)
(** * Programs: the machine code of the first processes
      (src/kernel/kernel.c)

    The three arrays of code that [kernel_main] loads into processes, read as
    the two instructions they consist of: [mov byte [imm32], imm8] and the
    short [jmp]. *)

From S2P Require Import Prelude Memory KString PortIO Io.

(** ** The code *)

Definition idle_process_code : list Z :=
  [0xC6; 0x05; 0x00; 0x80; 0x0B; 0x00; 0x49;
   0xC6; 0x05; 0x01; 0x80; 0x0B; 0x00; 0x07;
   0xC6; 0x05; 0x02; 0x80; 0x0B; 0x00; 0x44;
   0xC6; 0x05; 0x03; 0x80; 0x0B; 0x00; 0x07;
   0xC6; 0x05; 0x04; 0x80; 0x0B; 0x00; 0x4C;
   0xC6; 0x05; 0x05; 0x80; 0x0B; 0x00; 0x07;
   0xC6; 0x05; 0x06; 0x80; 0x0B; 0x00; 0x45;
   0xC6; 0x05; 0x07; 0x80; 0x0B; 0x00; 0x07;
   0xEB; 0xC6].

Definition process_one_code : list Z :=
  [0xC6; 0x05; 0x00; 0x80; 0x0B; 0x00; 0x50;
   0xC6; 0x05; 0x01; 0x80; 0x0B; 0x00; 0x0A;
   0xC6; 0x05; 0x02; 0x80; 0x0B; 0x00; 0x31;
   0xC6; 0x05; 0x03; 0x80; 0x0B; 0x00; 0x0A;
   0xEB; 0xE2].

Definition process_two_code : list Z :=
  [0xC6; 0x05; 0x00; 0x80; 0x0B; 0x00; 0x50;
   0xC6; 0x05; 0x01; 0x80; 0x0B; 0x00; 0x0B;
   0xC6; 0x05; 0x02; 0x80; 0x0B; 0x00; 0x32;
   0xC6; 0x05; 0x03; 0x80; 0x0B; 0x00; 0x0B;
   0xEB; 0xE2].

(** ** Running it *)

Inductive instr : Type :=
  | MovByte (addr imm : Z)
  | Jmp (target : Z).

(** The instruction at an offset of the code and where the next one is. *)
Definition decode (code : list Z) (ip : Z) : option (instr * Z) :=
  match skipn (Z.to_nat ip) code with
  | 0xC6 :: 0x05 :: a0 :: a1 :: a2 :: a3 :: imm :: _ =>
      Some (MovByte (a0 + 256 * a1 + 65536 * a2 + 16777216 * a3) imm, ip + 7)
  | 0xEB :: rel :: _ => Some (Jmp (ip + 2 + (if rel <? 128 then rel else rel - 256)), ip + 2)
  | _ => None
  end.

Definition exec (code : list Z) (ip : Z) (m : mem) : option (Z * mem) :=
  match decode code ip with
  | Some (MovByte a v, next) => Some (next, set8 m a v)
  | Some (Jmp target, _) => Some (target, m)
  | None => None
  end.

Fixpoint run (code : list Z) (n : nat) (ip : Z) (m : mem) : option (Z * mem) :=
  match n with
  | O => Some (ip, m)
  | S n => '(ip, m) ← run code n ip m; exec code ip m
  end.

(** Stores of the bytes [vs] from address [a] on, and a jump back. *)
Record writer (code : list Z) (a : Z) (vs : list Z) : Prop := {
  wr_store : ∀ i : nat, (i < length vs)%nat → decode code (7 * Z.of_nat i) = Some (MovByte (a + Z.of_nat i) (nth i vs 0), 7 * Z.of_nat i + 7);
  wr_jump : ∃ next, decode code (7 * zlen vs) = Some (Jmp 0, next)
}.

(** After [n] instructions: at the start of one, the first [n] bytes written. *)
Lemma writer_run code a vs m (n : nat) : writer code a vs →
  ∃ (k : nat) m', run code n 0 m = Some (7 * Z.of_nat k, m') ∧ (k ≤ length vs)%nat ∧ ((n ≤ length vs)%nat → k = n) ∧
    (∀ i : nat, (i < length vs)%nat → (i < n)%nat → get8 m' (a + Z.of_nat i) = u8 (nth i vs 0)) ∧
    ∀ x, x < a ∨ a + zlen vs ≤ x → get8 m' x = get8 m x.
Proof.
  intros [Hst [next Hj]]. induction n as [|n (k & m1 & R & Hk & Hkn & Hw & Ho)].
  - exists 0%nat, m. split_and!; [done|lia|done|lia|done].
  - cbn [run]. rewrite R. cbn [mbind option_bind]. unfold exec. destruct (decide (k = length vs)) as [->|Hne].
    + rewrite Hj. exists 0%nat, m1. split_and!; [done|lia|lia| |done]. intros i Hi _. apply Hw; lia.
    + rewrite (Hst k) by lia. exists (S k), (set8 m1 (a + Z.of_nat k) (nth k vs 0)). split_and!; [f_equal; f_equal; lia|lia|lia| |].
      * intros i Hi Hin. destruct (decide (i = k)) as [->|Hik]; [apply get8_set8|]. rewrite get8_set8_ne by lia. apply Hw; lia.
      * intros x Hx. rewrite get8_set8_ne by lia. auto.
Qed.

(** The cells of a text in an attribute, as bytes of the framebuffer. *)
Definition cell_bytes (ch : list Z) (attribute : Z) : list Z := flat_map (λ c, [c; attribute]) ch.

Lemma idle_writer : writer idle_process_code FRAMEBUFFER (cell_bytes [0x49; 0x44; 0x4C; 0x45] 0x07).
Proof. constructor; [|by eexists]. intros i Hi. do 8 (destruct i as [|i]; [done|]). cbn in Hi. lia. Qed.
Lemma one_writer : writer process_one_code FRAMEBUFFER (cell_bytes [0x50; 0x31] 0x0A).
Proof. constructor; [|by eexists]. intros i Hi. do 4 (destruct i as [|i]; [done|]). cbn in Hi. lia. Qed.
Lemma two_writer : writer process_two_code FRAMEBUFFER (cell_bytes [0x50; 0x32] 0x0B).
Proof. constructor; [|by eexists]. intros i Hi. do 4 (destruct i as [|i]; [done|]). cbn in Hi. lia. Qed.

(** A word of the framebuffer from its two bytes. *)
Lemma writer_cells ch at_ (n : nat) m : Forall (λ c, 0 ≤ c < 256) (at_ :: ch) → zlen ch ≤ SCREEN_COLS → (length (cell_bytes ch at_) ≤ n)%nat →
  (∀ i : nat, (i < length (cell_bytes ch at_))%nat → (i < n)%nat → get8 m (FRAMEBUFFER + Z.of_nat i) = u8 (nth i (cell_bytes ch at_) 0)) →
  ∀ (c : nat) x, ch !! c = Some x → fb_word m 0 (Z.of_nat c) = x + 256 * at_.
Proof.
  intros [Hat Hch]%Forall_cons _ Hn Hw c x Hc. unfold fb_word, cell_addr.
  assert (length (cell_bytes ch at_) = (2 * length ch)%nat) as Hlen by (clear; unfold cell_bytes; induction ch as [|y ch IH]; cbn in *; lia).
  pose proof (lookup_lt_Some _ _ _ Hc).
  assert (nth (2 * c) (cell_bytes ch at_) 0 = x ∧ nth (S (2 * c)) (cell_bytes ch at_) 0 = at_) as [E1 E2].
  { clear -Hc. revert c Hc. induction ch as [|y ch IH]; intros [|c] Hc; cbn in Hc; try done.
    - by injection Hc as ->.
    - replace (2 * S c)%nat with (S (S (2 * c))) by lia. cbn [cell_bytes flat_map app nth]. by apply IH. }
  assert (0 ≤ x < 256) as Hx by (rewrite Forall_lookup in Hch; eauto).
  replace (FRAMEBUFFER + 2 * (Z.of_nat c + 0 * SCREEN_COLS)) with (FRAMEBUFFER + Z.of_nat (2 * c)) by lia.
  replace (FRAMEBUFFER + Z.of_nat (2 * c) + 1) with (FRAMEBUFFER + Z.of_nat (S (2 * c))) by lia.
  rewrite (Hw (2 * c)%nat), (Hw (S (2 * c))%nat) by lia. rewrite E1, E2. rewrite (u8_small x), (u8_small at_) by lia. lia.
Qed.

(** The three programs, with their text and attribute. *)
Definition programs : list (list Z * list Z * Z) :=
  [(idle_process_code, [0x49; 0x44; 0x4C; 0x45], 0x07); (process_one_code, [0x50; 0x31], 0x0A); (process_two_code, [0x50; 0x32], 0x0B)].

(** C23: whatever memory is and however long they run, the three programs
    never reach anything but an instruction of theirs, write nothing but the
    first cells of the screen, and once past their stores these show "IDLE",
    "P1" and "P2" in the program's colour. *)
Theorem programs_show code ch attribute (n : nat) (m : mem) :
  (code, ch, attribute) ∈ programs →
  ∃ ip m', run code n 0 m = Some (ip, m') ∧ 0 ≤ ip < zlen code ∧ decode code ip ≠ None ∧
    (∀ x, x < FRAMEBUFFER ∨ FRAMEBUFFER + 2 * zlen ch ≤ x → get8 m' x = get8 m x) ∧
    (2 * zlen ch ≤ Z.of_nat n → ∀ (c : nat) x, ch !! c = Some x → fb_word m' 0 (Z.of_nat c) = x + 256 * attribute).
Proof.
  intros Hin.
  assert (writer code FRAMEBUFFER (cell_bytes ch attribute) ∧ zlen code = 7 * zlen (cell_bytes ch attribute) + 2 ∧ zlen (cell_bytes ch attribute) = 2 * zlen ch ∧
    Forall (λ c, 0 ≤ c < 256) (attribute :: ch) ∧ zlen ch ≤ SCREEN_COLS) as (Hw & Hlen & Hlen2 & Hr & Hcols).
  { unfold programs in Hin. rewrite !elem_of_cons, elem_of_nil in Hin. destruct Hin as [[= -> -> ->]|[[= -> -> ->]|[[= -> -> ->]|[]]]];
      (split; [first [exact idle_writer|exact one_writer|exact two_writer]|]); (split; [done|]); (split; [done|]); (split; [|done]);
      repeat (apply Forall_cons; split; [lia|]); apply Forall_nil_2. }
  destruct (writer_run code FRAMEBUFFER (cell_bytes ch attribute) m n Hw) as (k & m' & R & Hk & _ & Hb & Ho).
  exists (7 * Z.of_nat k), m'. split_and!; [done|lia|lia| |intros x Hx; apply Ho; lia|].
  - destruct Hw as [Hs [next Hj]]. destruct (decide (k = length (cell_bytes ch attribute))) as [->|Hne]; [by rewrite Hj|by rewrite Hs by lia].
  - intros Hn. apply (writer_cells ch attribute n m'); [done|done|lia|done].
Qed.

Lemma programs_show_witness :
  ∃ ip m', run process_one_code 7 0 ∅ = Some (ip, m') ∧ 0 ≤ ip < zlen process_one_code ∧ decode process_one_code ip ≠ None ∧
    (∀ x, x < FRAMEBUFFER ∨ FRAMEBUFFER + 2 * 2 ≤ x → get8 m' x = get8 ∅ x) ∧
    (2 * 2 ≤ 7 → ∀ (c : nat) x, [0x50; 0x31] !! c = Some x → fb_word m' 0 (Z.of_nat c) = x + 256 * 0x0A).
Proof.
  apply (programs_show process_one_code [0x50; 0x31] 0x0A 7 ∅). unfold programs. right. left.
Defined.
