(* ===== verification/VTerm.v ===== *)
(** * VTerm: the text terminal (src/kernel/vterm/vterm.c)

    The screen buffer, cursor and colours of the file's statics, the port
    accesses of the hardware cursor, and the framebuffer in memory. *)

From S2P Require Import Prelude Memory KString PortIO Io.

(** ** The code *)

Definition COLOR_BLACK : Z := 0.
Definition COLOR_BLUE : Z := 1.
Definition COLOR_RED : Z := 4.
Definition COLOR_WHITE : Z := 15.

Inductive VTermAlignment : Type := VTERM_ALIGN_LEFT | VTERM_ALIGN_CENTER | VTERM_ALIGN_RIGHT.
Inductive CursorShape : Type := CURSOR_SHAPE_LINE | CURSOR_SHAPE_BLOCK.
Inductive VTermBufferingMode : Type := BUFFER_MODE_STREAM | BUFFER_MODE_BLOCK.

Record VTermCell : Type := mkCell { character : Z; fg : Z; bg : Z }.
Record VTermCursor : Type := mkCursor { shape : CursorShape; visible : bool }.

#[export] Instance cell_eq_dec : EqDecision VTermCell.
Proof. solve_decision. Defined.
#[export] Instance mode_eq_dec : EqDecision VTermBufferingMode.
Proof. solve_decision. Defined.

(** The statics of vterm.c. The screen buffer is total: a cell of the .bss
    section that was never written is zero. *)
Record VTerm : Type := mkVTerm {
  screen_buffer : gmap (Z * Z) VTermCell;
  cursor_row : Z;
  cursor_col : Z;
  current_fg : Z;
  current_bg : Z;
  active_cursor_style : VTermCursor;
  current_mode : VTermBufferingMode
}.

Definition zero_cell : VTermCell := mkCell 0 0 0.
Definition cell_at (v : VTerm) (r c : Z) : VTermCell := default zero_cell (screen_buffer v !! (r, c)).

Definition set_cells (b : gmap (Z * Z) VTermCell) (v : VTerm) : VTerm :=
  mkVTerm b (cursor_row v) (cursor_col v) (current_fg v) (current_bg v) (active_cursor_style v) (current_mode v).
Definition set_cursor (r c : Z) (v : VTerm) : VTerm :=
  mkVTerm (screen_buffer v) r c (current_fg v) (current_bg v) (active_cursor_style v) (current_mode v).
Definition set_colors (f b : Z) (v : VTerm) : VTerm :=
  mkVTerm (screen_buffer v) (cursor_row v) (cursor_col v) f b (active_cursor_style v) (current_mode v).
Definition set_style (st : VTermCursor) (v : VTerm) : VTerm :=
  mkVTerm (screen_buffer v) (cursor_row v) (cursor_col v) (current_fg v) (current_bg v) st (current_mode v).
Definition set_mode (m : VTermBufferingMode) (v : VTerm) : VTerm :=
  mkVTerm (screen_buffer v) (cursor_row v) (cursor_col v) (current_fg v) (current_bg v) (active_cursor_style v) m.
Definition put_cell (r c : Z) (x : VTermCell) (v : VTerm) : VTerm := set_cells (<[(r, c) := x]> (screen_buffer v)) v.

Definition vga_color_lookup : list Z := [0; 1; 2; 3; 4; 5; 6; 7; 8; 9; 10; 11; 12; 13; 14; 15].

Section vterm.
Context {St : Type} `{LM : Lens St mem} `{LV : Lens St VTerm} `{LIO : Lens St Ports}.

Definition modify (f : VTerm → VTerm) : M St unit := v ← gets; puts (f v).

Definition lookup_color (i : Z) : M St Z :=
  match (if 0 <=? i then vga_color_lookup !! Z.to_nat i else None) with
  | Some x => mret x
  | None => stop (OutOfBounds i)
  end.

(** An access to [screen_buffer[r][c]]: both indices in range. *)
Definition check_cell (r c : Z) : M St unit :=
  if (r <? SCREEN_ROWS) && (c <? SCREEN_COLS) then mret tt else stop (OutOfBounds (r * SCREEN_COLS + c)).

Definition vterm_move_cursor (row col : Z) : M St unit :=
  v ← gets;
  (if row <? SCREEN_ROWS then puts (set_cursor row (cursor_col v) v) else mret tt) ;;
  v ← gets;
  (if col <=? SCREEN_COLS then puts (set_cursor (cursor_row v) col v) else mret tt) ;;
  v ← gets;
  let hw_col := if SCREEN_COLS <=? cursor_col v then SCREEN_COLS - 1 else cursor_col v in
  let hw_row := if SCREEN_ROWS <=? cursor_row v then SCREEN_ROWS - 1 else cursor_row v in
  if visible (active_cursor_style v) then
    let position := u16 (hw_row * SCREEN_COLS + hw_col) in
    outb CRTC_CMD_PORT CURSOR_POS_HIGH_BYTE_CMD ;;
    outb CRTC_DATA_PORT (Z.land (Z.shiftr position 8) 0xFF) ;;
    outb CRTC_CMD_PORT CURSOR_POS_LOW_BYTE_CMD ;;
    outb CRTC_DATA_PORT (Z.land position 0xFF)
  else mret tt.

Definition vterm_set_cursor_visible (b : bool) : M St unit :=
  modify (λ v, set_style (mkCursor (shape (active_cursor_style v)) b) v) ;;
  outb CRTC_CMD_PORT CURSOR_STYLE_START_CMD ;;
  current_val ← inb CRTC_DATA_PORT;
  if negb b then outb CRTC_DATA_PORT (Z.lor current_val 0x20)
  else
    outb CRTC_DATA_PORT (Z.land current_val (Z.lnot 0x20)) ;;
    v ← gets;
    vterm_move_cursor (cursor_row v) (cursor_col v).

Definition vterm_set_cursor_shape (sh : CursorShape) : M St unit :=
  modify (λ v, set_style (mkCursor sh (visible (active_cursor_style v))) v) ;;
  v ← gets;
  if negb (visible (active_cursor_style v)) then mret tt else
  let start_scanline := match sh with CURSOR_SHAPE_BLOCK => 0 | CURSOR_SHAPE_LINE => 14 end in
  let end_scanline := 15 in
  outb CRTC_CMD_PORT CURSOR_STYLE_START_CMD ;;
  x ← inb CRTC_DATA_PORT;
  outb CRTC_DATA_PORT (Z.lor (Z.land x 0xC0) (Z.land start_scanline 0x1F)) ;;
  outb CRTC_CMD_PORT CURSOR_STYLE_END_CMD ;;
  x ← inb CRTC_DATA_PORT;
  outb CRTC_DATA_PORT (Z.lor (Z.land x 0xE0) (Z.land end_scanline 0x1F)).

Definition vterm_get_cursor_row : M St Z := v ← gets; mret (cursor_row v).
Definition vterm_get_cursor_col : M St Z := v ← gets; mret (cursor_col v).
Definition vterm_get_cursor_config : M St VTermCursor := v ← gets; mret (active_cursor_style v).
Definition vterm_is_cursor_visible : M St bool := v ← gets; mret (visible (active_cursor_style v)).

Definition vterm_set_buffering_mode (m : VTermBufferingMode) : M St unit := modify (set_mode m).
Definition vterm_set_color (f b : Z) : M St unit := modify (set_colors f b).

Definition flush_cell (r c : Z) : M St unit :=
  v ← gets;
  let cell := cell_at v r c in
  f ← lookup_color (fg cell);
  b ← lookup_color (bg cell);
  write_char_to_framebuffer (character cell) r c f b.

Definition vterm_flush : M St unit :=
  mfor 0 SCREEN_ROWS (λ r, mfor 0 SCREEN_COLS (λ c, flush_cell r c)) ;;
  v ← gets;
  vterm_move_cursor (cursor_row v) (cursor_col v).

Definition flush_if_stream : M St unit :=
  v ← gets;
  match current_mode v with BUFFER_MODE_STREAM => vterm_flush | BUFFER_MODE_BLOCK => mret tt end.

Definition vterm_clear (f b : Z) : M St unit :=
  modify (set_colors f b) ;;
  mfor 0 SCREEN_ROWS (λ r, mfor 0 SCREEN_COLS (λ c, modify (put_cell r c (mkCell 32 (u8 f) (u8 b))))) ;;
  vterm_move_cursor 0 0 ;;
  flush_if_stream.

Definition vterm_init (f b : Z) : M St unit :=
  modify (set_mode BUFFER_MODE_STREAM) ;;
  vterm_clear f b ;;
  vterm_flush.

Definition vterm_scroll : M St unit :=
  mfor 1 SCREEN_ROWS (λ r, mfor 0 SCREEN_COLS (λ c,
    modify (λ v, put_cell (r - 1) c (cell_at v r c) v))) ;;
  mfor 0 SCREEN_COLS (λ c,
    modify (λ v, put_cell (SCREEN_ROWS - 1) c (mkCell 32 (u8 (current_fg v)) (u8 (current_bg v))) v)) ;;
  vterm_move_cursor (SCREEN_ROWS - 1) 0 ;;
  flush_if_stream.

(** [write_char_to_framebuffer] at the cursor, in the current colours. *)
Definition stream_char (ch : Z) : M St unit :=
  v ← gets;
  match current_mode v with
  | BUFFER_MODE_STREAM =>
      f ← lookup_color (current_fg v);
      b ← lookup_color (current_bg v);
      write_char_to_framebuffer ch (cursor_row v) (cursor_col v) f b
  | BUFFER_MODE_BLOCK => mret tt
  end.

(** The branch of [vterm_write_char] for a backspace. *)
Definition erase_at (target_row target_col : Z) : M St unit :=
  vterm_move_cursor target_row target_col ;;
  v ← gets;
  check_cell (cursor_row v) (cursor_col v) ;;
  let cell := cell_at v (cursor_row v) (cursor_col v) in
  puts (put_cell (cursor_row v) (cursor_col v) (mkCell 32 (fg cell) (bg cell)) v) ;;
  stream_char 32.

Definition write_backspace : M St unit :=
  v ← gets;
  if 0 <? cursor_col v then erase_at (cursor_row v) (u16 (cursor_col v - 1))
  else if 0 <? cursor_row v then erase_at (u16 (cursor_row v - 1)) (SCREEN_COLS - 1)
  else mret tt.

(** The end of [vterm_write_char]: the character goes to the cell at the
    cursor, which moves on. *)
Definition emit_char (c : Z) : M St unit :=
  v ← gets;
  check_cell (cursor_row v) (cursor_col v) ;;
  puts (put_cell (cursor_row v) (cursor_col v) (mkCell c (u8 (current_fg v)) (u8 (current_bg v))) v) ;;
  stream_char c ;;
  v ← gets;
  puts (set_cursor (cursor_row v) (u16 (cursor_col v + 1)) v) ;;
  v ← gets;
  vterm_move_cursor (cursor_row v) (cursor_col v).

Definition vterm_write_char (c : Z) : M St unit :=
  if c =? 10 then
    v ← gets;
    vterm_move_cursor (u16 (cursor_row v + 1)) 0 ;;
    v ← gets;
    if SCREEN_ROWS <=? cursor_row v then vterm_scroll else mret tt
  else if c =? 8 then write_backspace
  else
    v ← gets;
    (if SCREEN_COLS <=? cursor_col v then puts (set_cursor (u16 (cursor_row v + 1)) 0 v) else mret tt) ;;
    v ← gets;
    (if SCREEN_ROWS <=? cursor_row v then vterm_scroll else mret tt) ;;
    emit_char c.

Definition vterm_write (str : Z) : M St unit :=
  ploop (λ i, c ← load8 (str + i);
              if c =? 0 then mret (inr tt)
              else c ← load8 (str + i); vterm_write_char c ;; mret (inl (i + 1))) STR_FUEL 0.

Definition vterm_write_binary (byte : Z) : M St unit :=
  mfor 0 8 (λ bit,
    let mask := u8 (Z.shiftl 1 (7 - bit)) in
    vterm_write_char (if Z.land byte mask =? 0 then 48 else 49)).

Definition hex_chars : list Z := [48; 49; 50; 51; 52; 53; 54; 55; 56; 57; 65; 66; 67; 68; 69; 70].

Definition vterm_write_hex (val f b : Z) : M St unit :=
  v ← gets;
  let old_fg := current_fg v in
  let old_bg := current_bg v in
  vterm_set_color f b ;;
  vterm_write_char 48 ;;
  vterm_write_char 120 ;;
  mfor 0 8 (λ i,
    let nibble := Z.land (Z.shiftr val (28 - i * 4)) 0xF in
    vterm_write_char (nth (Z.to_nat nibble) hex_chars 0)) ;;
  vterm_set_color old_fg old_bg.

Definition vterm_print_at (row col text : Z) : M St unit :=
  vterm_move_cursor row col ;;
  vterm_write text ;;
  flush_if_stream.

Definition vterm_print_aligned (row text : Z) (align : VTermAlignment) : M St unit :=
  len ← kstrlen text;
  let len := u32 len in
  let col :=
    match align with
    | VTERM_ALIGN_LEFT => 0
    | VTERM_ALIGN_CENTER => if len <? SCREEN_COLS then (SCREEN_COLS - len) / 2 else 0
    | VTERM_ALIGN_RIGHT => if len <? SCREEN_COLS then SCREEN_COLS - len else 0
    end in
  vterm_print_at row col text.

Definition vterm_write_label_hex (label value newline : Z) : M St unit :=
  vterm_write label ;;
  vterm_write_hex value COLOR_WHITE COLOR_BLACK ;;
  vterm_write newline.

(** The short names vterm.h gives to these. *)
Definition kprint (str : Z) : M St unit := vterm_write str.
Definition kprint_c (c : Z) : M St unit := vterm_write_char c.
Definition kprint_hex (val f b : Z) : M St unit := vterm_write_hex val f b.
Definition kprint_at (r c text : Z) : M St unit := vterm_print_at r c text.
Definition kprint_aligned (r text : Z) (align : VTermAlignment) : M St unit := vterm_print_aligned r text align.
End vterm.

(** ** The terminal's invariant *)

Definition cell_ok (x : VTermCell) : Prop := 0 ≤ character x < 256 ∧ 0 ≤ fg x < 16 ∧ 0 ≤ bg x < 16.

(** Colours and characters are in range. *)
Record pal_ok (v : VTerm) : Prop := {
  vo_fg : 0 ≤ current_fg v < 16;
  vo_bg : 0 ≤ current_bg v < 16;
  vo_cells : ∀ r c, on_screen r c → cell_ok (cell_at v r c)
}.

(** And the cursor is on the screen or just past the end of a row. *)
Record vt_ok (v : VTerm) : Prop := {
  vo_row : 0 ≤ cursor_row v < SCREEN_ROWS;
  vo_col : 0 ≤ cursor_col v ≤ SCREEN_COLS;
  vo_pal : pal_ok v
}.

Definition cell_value (x : VTermCell) : Z := character x + 256 * fg x + 4096 * bg x.

(** The framebuffer shows the screen buffer. *)
Definition mirror (m : mem) (v : VTerm) : Prop :=
  ∀ r c, on_screen r c → fb_word m r c = cell_value (cell_at v r c).

(** [m'] is [m] outside the framebuffer. *)
Definition off_screen_same (m m' : mem) : Prop := ∀ x, ¬ in_framebuffer x → get8 m' x = get8 m x.

Definition moved (r c : Z) (v : VTerm) : VTerm :=
  set_cursor (if r <? SCREEN_ROWS then r else cursor_row v) (if c <=? SCREEN_COLS then c else cursor_col v) v.

Lemma cell_at_put v r c x r' c' :
  cell_at (put_cell r c x v) r' c' = if decide ((r, c) = (r', c')) then x else cell_at v r' c'.
Proof.
  unfold cell_at, put_cell. cbn. case_decide as H.
  - rewrite H. by rewrite lookup_insert_eq.
  - by rewrite lookup_insert_ne.
Qed.

Lemma lookup_color_ok {St} i (s : St) : 0 ≤ i < 16 → lookup_color i s = Ok i s.
Proof.
  intros Hi. unfold lookup_color. destruct (Z.leb_spec 0 i); [|lia].
  assert (∃ n, i = Z.of_nat n ∧ (n < 16)%nat) as (n & -> & Hn) by (exists (Z.to_nat i); lia).
  rewrite Nat2Z.id. do 16 (destruct n as [|n]; [done|]). lia.
Qed.

Lemma pal_ok_put v r c x : pal_ok v → cell_ok x → pal_ok (put_cell r c x v).
Proof.
  intros [] Hx. constructor; [done..|]. intros r' c' H. rewrite cell_at_put. case_decide; [done|auto].
Qed.

Lemma pal_ok_cells v v' :
  pal_ok v → current_fg v' = current_fg v → current_bg v' = current_bg v →
  (∀ r c, on_screen r c → cell_ok (cell_at v' r c)) → pal_ok v'.
Proof. intros [] Hf Hb Hc. by constructor; rewrite ?Hf, ?Hb. Qed.

Lemma moved_ok v r c : vt_ok v → 0 ≤ r → 0 ≤ c → vt_ok (moved r c v).
Proof.
  intros [Hr0 Hc0 [Hf Hb Hx]] Hr Hc. unfold moved. constructor; [cbn; zbool; lia..|]. by constructor.
Qed.

Lemma set_colors_ok v f b : vt_ok v → 0 ≤ f < 16 → 0 ≤ b < 16 → vt_ok (set_colors f b v).
Proof. intros [Hr Hc [_ _ Hx]] Hf Hb. constructor; [done|done|by constructor]. Qed.

Lemma moved_self v : vt_ok v → moved (cursor_row v) (cursor_col v) v = v.
Proof.
  intros [Hr Hc _]. unfold moved. by destruct v; cbn; destruct (_ <? _), (_ <=? _).
Qed.

(** ** Running the operations *)

Section vterm_run.
Context {St : Type} `{LM : Lens St mem} `{LV : Lens St VTerm} `{LIO : Lens St Ports}.
Context {AMV : Apart LM LV} {AMI : Apart LM LIO} {AVI : Apart LV LIO}.

(** Any part of the state the terminal does not touch. *)
Context {X : Type} (π : St → X) (x0 : X).
Context (π_mem : ∀ (m : mem) s, π (lput m s) = π s) (π_vt : ∀ (v : VTerm) s, π (lput v s) = π s)
  (π_io : ∀ (p : Ports) s, π (lput p s) = π s).

Definition vat (s : St) (v : VTerm) (m : mem) : Prop := lget s = v ∧ lget s = m ∧ π s = x0.

Definition vrun {B} (s : St) (op : M St B) (b : B) (v : VTerm) (m : mem) : Prop :=
  ∃ s', op s = Ok b s' ∧ vat s' v m.

Lemma vrun_ret {B} s (b : B) v m : vat s v m → vrun s (mret b) b v m.
Proof. intros. by exists s. Qed.

Lemma vrun_bind {B C} s (op : M St B) (f : B → M St C) b v m c v' m' :
  vrun s op b v m → (∀ s1, vat s1 v m → vrun s1 (f b) c v' m') → vrun s (op ≫= f) c v' m'.
Proof.
  intros (s1 & Hr & H1) Hf. destruct (Hf s1 H1) as (s2 & Hr2 & H2). exists s2.
  split; [by rewrite (bind_ok _ _ _ _ _ Hr)|done].
Qed.

Lemma vrun_gets {C} s v m (f : VTerm → M St C) c v' m' :
  vat s v m → vrun s (f v) c v' m' → vrun s (gets ≫= f) c v' m'.
Proof. intros (Hv & _) (s' & Hr & H). exists s'. rewrite bind_gets, Hv. done. Qed.

Lemma vrun_pure {B C} s (op : M St B) (f : B → M St C) b c v m :
  op s = Ok b s → vrun s (f b) c v m → vrun s (op ≫= f) c v m.
Proof. intros Hr (s' & Hr' & H). exists s'. split; [by rewrite (bind_ok _ _ _ _ _ Hr)|done]. Qed.

Lemma vrun_puts s v m v' : vat s v m → vrun s (puts v') tt v' m.
Proof.
  intros (Hv & Hm & Hx). eexists. split; [reflexivity|]. split_and!; [apply lget_lput| |by rewrite π_vt].
  by rewrite lget_other.
Qed.

Lemma vrun_modify s v m (f : VTerm → VTerm) : vat s v m → vrun s (modify f) tt (f v) m.
Proof. intros H. unfold modify. eapply vrun_gets; [exact H|]. by eapply vrun_puts. Qed.

Lemma vrun_outb s v m port x : vat s v m → vrun s (outb port x) tt v m.
Proof.
  intros (Hv & Hm & Hx). eexists. split; [reflexivity|]. split_and!; [by rewrite lget_other|by rewrite lget_other|by rewrite π_io].
Qed.

Lemma move_run s v m r c : vat s v m → vrun s (vterm_move_cursor r c) tt (moved r c v) m.
Proof.
  intros H. unfold vterm_move_cursor. eapply vrun_gets; [exact H|].
  eapply (vrun_bind _ _ _ tt (set_cursor (if r <? SCREEN_ROWS then r else cursor_row v) (cursor_col v) v) m).
  { destruct (r <? SCREEN_ROWS); [by eapply vrun_puts|]. apply vrun_ret. by destruct v. }
  intros s1 H1. eapply vrun_gets; [exact H1|].
  eapply (vrun_bind _ _ _ tt (moved r c v) m).
  { unfold moved. destruct (c <=? SCREEN_COLS); [by eapply vrun_puts|]. by apply vrun_ret. }
  intros s2 H2. eapply vrun_gets; [exact H2|]. destruct (visible _); [|by apply vrun_ret].
  do 3 (eapply vrun_bind; [by apply vrun_outb|]; intros ? ?). by apply vrun_outb.
Qed.

(** A character written to the framebuffer. *)
Lemma vrun_cell s v m ch r c f b :
  vat s v m → on_screen r c → 0 ≤ ch < 256 → 0 ≤ f < 16 → 0 ≤ b < 16 →
  ∃ m', vrun s (write_char_to_framebuffer ch r c f b) tt v m' ∧ fb_word m' r c = ch + 256 * f + 4096 * b ∧
    (∀ r' c', on_screen r' c' → (r', c') ≠ (r, c) → fb_word m' r' c' = fb_word m r' c') ∧ off_screen_same m m'.
Proof.
  intros (Hv & Hm & Hx) Hon Hch Hf Hb.
  destruct (write_cell_run ch r c f b s Hon Hch Hf Hb) as (m' & Hr & Hw & Ho & Hs). rewrite Hm in *.
  exists m'. split_and!; [|done|done|done]. exists (lput m' s). split; [done|].
  split_and!; [by rewrite lget_other'|by rewrite lget_lput|by rewrite π_mem].
Qed.

Lemma off_screen_trans m1 m2 m3 : off_screen_same m1 m2 → off_screen_same m2 m3 → off_screen_same m1 m3.
Proof. intros H1 H2 x Hx. by rewrite H2, H1. Qed.

(** Loops whose invariant is about the terminal and memory. *)
Lemma vrun_mfor (I : Z → VTerm → mem → Prop) lo hi (f : Z → M St unit) s v m :
  lo ≤ hi → vat s v m → I lo v m →
  (∀ i s v m, lo ≤ i < hi → vat s v m → I i v m → ∃ v' m', vrun s (f i) tt v' m' ∧ I (i + 1) v' m') →
  ∃ v' m', vrun s (mfor lo hi f) tt v' m' ∧ I hi v' m'.
Proof.
  intros Hle Hs HI Hstep.
  destruct (mfor_rule (λ i s, ∃ v m, vat s v m ∧ I i v m) lo hi f s Hle) as (s' & Hr & v' & m' & Hs' & HI').
  - intros i s1 Hi (v1 & m1 & H1 & HI1). destruct (Hstep i s1 v1 m1 Hi H1 HI1) as (v2 & m2 & (s2 & Hr2 & H2) & HI2).
    exists s2. split; [done|]. by exists v2, m2.
  - by exists v, m.
  - exists v', m'. split; [by exists s'|done].
Qed.

Lemma flush_cell_run s v m r c : vat s v m → pal_ok v → on_screen r c →
  ∃ m', vrun s (flush_cell r c) tt v m' ∧ fb_word m' r c = cell_value (cell_at v r c) ∧
    (∀ r' c', on_screen r' c' → (r', c') ≠ (r, c) → fb_word m' r' c' = fb_word m r' c') ∧ off_screen_same m m'.
Proof.
  intros Hs Hok Hon. destruct (vo_cells _ Hok r c Hon) as (Hch & Hf & Hb).
  destruct (vrun_cell s v m (character (cell_at v r c)) r c _ _ Hs Hon Hch Hf Hb) as (m' & Hr & Hw & Ho & Hsame).
  exists m'. split_and!; [|done|done|done]. unfold flush_cell. eapply vrun_gets; [exact Hs|].
  eapply vrun_pure; [by apply lookup_color_ok|]. by eapply vrun_pure; [by apply lookup_color_ok|].
Qed.

(** [vterm_flush] makes the framebuffer show the screen buffer. *)
Lemma flush_run s v m : vat s v m → vt_ok v →
  ∃ m', vrun s vterm_flush tt v m' ∧ mirror m' v ∧ off_screen_same m m'.
Proof.
  intros Hs Hok. unfold vterm_flush.
  destruct (vrun_mfor (λ r v1 m1, v1 = v ∧ off_screen_same m m1 ∧
      ∀ r' c', on_screen r' c' → r' < r → fb_word m1 r' c' = cell_value (cell_at v r' c'))
    0 SCREEN_ROWS (λ r, mfor 0 SCREEN_COLS (λ c, flush_cell r c)) s v m) as (v1 & m1 & (s1 & Hr1 & H1) & -> & Hsame & Hm1);
    [done|done|split_and!; [done|done|]; intros r' c' [? ?]; lia| |].
  - intros r s1 v1 m1 Hr H1 (-> & Hsame & Hm1).
    destruct (vrun_mfor (λ c v2 m2, v2 = v ∧ off_screen_same m m2 ∧
        (∀ r' c', on_screen r' c' → r' < r → fb_word m2 r' c' = cell_value (cell_at v r' c')) ∧
        ∀ c', 0 ≤ c' < c → c' < SCREEN_COLS → fb_word m2 r c' = cell_value (cell_at v r c'))
      0 SCREEN_COLS (λ c, flush_cell r c) s1 v m1) as (v2 & m2 & Hr2 & -> & Hsame2 & Hrows & Hrow);
      [done|done|split_and!; [done|done|done|]; lia| |].
    + intros c s2 v2 m2 Hc H2 (-> & Hsame2 & Hrows & Hrow).
      destruct (flush_cell_run s2 v m2 r c H2 (vo_pal _ Hok) ltac:(by split)) as (m3 & Hr3 & Hw & Ho & Hs3).
      exists v, m3. split; [done|]. split_and!; [done|by eapply off_screen_trans| |].
      * intros r' c' Hon Hlt. rewrite Ho; [by apply Hrows|done|]. intros [= -> ->]. lia.
      * intros c' Hc' Hlt. destruct (decide (c' = c)) as [->|Hne]; [done|].
        rewrite Ho; [apply Hrow; lia|split; lia|]. by intros [= ->].
    + exists v, m2. split; [done|]. split_and!; [done|done|]. intros r' c' Hon Hlt.
      destruct (decide (r' = r)) as [->|Hne]; [destruct Hon as [_ Hc]; apply Hrow; [done|by destruct Hc]|apply Hrows; [done|lia]].
  - exists m1. split_and!; [|intros r c Hon; apply Hm1; [done|by destruct Hon as [[? ?] ?]]|done].
    eapply vrun_bind; [by exists s1|]. intros s2 H2. eapply vrun_gets; [exact H2|].
    pose proof (move_run s2 v m1 (cursor_row v) (cursor_col v) H2) as Hmv. by rewrite moved_self in Hmv.
Qed.

(** In stream mode an operation keeps the framebuffer showing the buffer; in
    block mode it does not touch it. *)
Definition shows (m : mem) (v : VTerm) (m' : mem) (v' : VTerm) : Prop :=
  off_screen_same m m' ∧
  match current_mode v with
  | BUFFER_MODE_STREAM => mirror m v → mirror m' v'
  | BUFFER_MODE_BLOCK => m' = m
  end.

Lemma shows_refl m v v' : (∀ r c, on_screen r c → cell_at v' r c = cell_at v r c) → shows m v m v'.
Proof.
  intros H. split; [done|]. destruct (current_mode v); [|done]. intros Hm r c Hon. by rewrite Hm, H.
Qed.

Lemma shows_trans m v m1 v1 m2 v2 :
  shows m v m1 v1 → current_mode v1 = current_mode v → shows m1 v1 m2 v2 → shows m v m2 v2.
Proof.
  intros [H1 H2] Hmode [H3 H4]. split; [by eapply off_screen_trans|]. rewrite Hmode in H4.
  destruct (current_mode v); [auto|congruence].
Qed.

(** Only cells differ. *)
Definition same_frame (v v' : VTerm) : Prop := v' = set_cells (screen_buffer v') v.

Lemma flush_if_stream_run s v m : vat s v m → vt_ok v →
  ∃ m', vrun s flush_if_stream tt v m' ∧ off_screen_same m m' ∧
    match current_mode v with BUFFER_MODE_STREAM => mirror m' v | BUFFER_MODE_BLOCK => m' = m end.
Proof.
  intros Hs Hok. unfold flush_if_stream. destruct (current_mode v) eqn:E.
  - destruct (flush_run s v m Hs Hok) as (m' & Hr & Hmir & Hsame). exists m'.
    split; [eapply vrun_gets; [exact Hs|by rewrite E]|done].
  - exists m. split; [eapply vrun_gets; [exact Hs|rewrite E; by apply vrun_ret]|done].
Qed.

(** The rows move up by one; the last row is blank in the current colours. *)
Definition scrolled (v v' : VTerm) : Prop :=
  v' = set_cursor (SCREEN_ROWS - 1) 0 (set_cells (screen_buffer v') v) ∧
  ∀ r c, on_screen r c →
    cell_at v' r c = if r =? SCREEN_ROWS - 1 then mkCell 32 (current_fg v) (current_bg v) else cell_at v (r + 1) c.

Lemma scroll_rows_run s v m : vat s v m →
  ∃ v1, vrun s (mfor 1 SCREEN_ROWS (λ r, mfor 0 SCREEN_COLS (λ c,
      modify (λ v, put_cell (r - 1) c (cell_at v r c) v)))) tt v1 m ∧ same_frame v v1 ∧
    ∀ r c, on_screen r c → cell_at v1 r c = if r <? SCREEN_ROWS - 1 then cell_at v (r + 1) c else cell_at v r c.
Proof.
  intros Hs.
  pose (done_to := λ r c v1, same_frame v v1 ∧ ∀ r' c', on_screen r' c' →
    cell_at v1 r' c' = if (r' <? r - 1) || ((r' =? r - 1) && (c' <? c)) then cell_at v (r' + 1) c' else cell_at v r' c').
  destruct (vrun_mfor (λ r v1 m1, m1 = m ∧ done_to r 0 v1) 1 SCREEN_ROWS
    (λ r, mfor 0 SCREEN_COLS (λ c, modify (λ v, put_cell (r - 1) c (cell_at v r c) v))) s v m)
    as (v1 & m1 & Hr & -> & Hf & Hc); [done|done| | |].
  - split; [done|]. split; [by destruct v|]. intros r c [Hr Hc].
    destruct (Z.ltb_spec r (1 - 1)), (Z.eqb_spec r (1 - 1)), (Z.ltb_spec c 0); try lia; done.
  - intros r s1 v1 m1 Hr H1 (-> & Hd).
    destruct (vrun_mfor (λ c v2 m2, m2 = m ∧ done_to r c v2) 0 SCREEN_COLS
      (λ c, modify (λ v, put_cell (r - 1) c (cell_at v r c) v)) s1 v1 m) as (v2 & m2 & Hr2 & -> & Hf2 & Hc2);
      [done|done|done| |].
    + intros c s2 v2 m2 Hc H2 (-> & Hf2 & Hc2). eexists _, m. split; [by apply vrun_modify|]. split; [done|].
      split; [unfold same_frame in *; by rewrite Hf2|]. intros r' c' Hon. rewrite cell_at_put.
      case_decide as Heq.
      * injection Heq as <- <-. rewrite Hc2 by (unfold on_screen; lia).
        replace (r - 1 + 1) with r by lia. destruct (Z.ltb_spec r (r - 1)), (Z.eqb_spec r (r - 1)),
          (Z.ltb_spec (r - 1) (r - 1)), (Z.eqb_spec (r - 1) (r - 1)), (Z.ltb_spec c (c + 1)); try lia; done.
      * rewrite Hc2 by done. destruct (Z.ltb_spec r' (r - 1)), (Z.eqb_spec r' (r - 1)), (Z.ltb_spec c' c), (Z.ltb_spec c' (c + 1));
          try done; try lia. exfalso. apply Heq. f_equal; lia.
    + exists v2, m. split; [done|]. split; [done|]. split; [done|]. intros r' c' Hon. rewrite Hc2 by done.
      destruct Hon as [_ Hcol]. destruct (Z.ltb_spec r' (r - 1)), (Z.eqb_spec r' (r - 1)), (Z.ltb_spec c' SCREEN_COLS),
        (Z.ltb_spec r' (r + 1 - 1)), (Z.eqb_spec r' (r + 1 - 1)), (Z.ltb_spec c' 0); try done; try lia.
  - exists v1. split; [done|]. split; [done|]. intros r c Hon. rewrite Hc by done.
    destruct Hon as [_ Hcol]. destruct (Z.ltb_spec c 0); [lia|]. by rewrite andb_false_r, orb_false_r.
Qed.

Lemma scroll_blank_run s v m : vat s v m → pal_ok v →
  ∃ v1, vrun s (mfor 0 SCREEN_COLS (λ c,
      modify (λ v, put_cell (SCREEN_ROWS - 1) c (mkCell 32 (u8 (current_fg v)) (u8 (current_bg v))) v))) tt v1 m ∧
    same_frame v v1 ∧
    ∀ r c, on_screen r c →
      cell_at v1 r c = if r =? SCREEN_ROWS - 1 then mkCell 32 (current_fg v) (current_bg v) else cell_at v r c.
Proof.
  intros Hs Hok.
  destruct (vrun_mfor (λ c v1 m1, m1 = m ∧ same_frame v v1 ∧ ∀ r' c', on_screen r' c' →
      cell_at v1 r' c' = if (r' =? SCREEN_ROWS - 1) && (c' <? c) then mkCell 32 (current_fg v) (current_bg v) else cell_at v r' c')
    0 SCREEN_COLS (λ c, modify (λ v, put_cell (SCREEN_ROWS - 1) c (mkCell 32 (u8 (current_fg v)) (u8 (current_bg v))) v))
    s v m) as (v1 & m1 & Hr & -> & Hf & Hc); [done|done| | |].
  - split; [done|]. split; [by destruct v|]. intros r c [_ Hc]. destruct (Z.ltb_spec c 0); [lia|]. by rewrite andb_false_r.
  - intros c s1 v1 m1 Hc H1 (-> & Hf & Hcells). eexists _, m. split; [by apply vrun_modify|]. split; [done|].
    assert (current_fg v1 = current_fg v ∧ current_bg v1 = current_bg v) as [Efg Ebg] by (unfold same_frame in Hf; by rewrite Hf).
    destruct (vo_fg _ Hok), (vo_bg _ Hok).
    split; [unfold same_frame in *; by rewrite Hf|]. intros r' c' Hon. rewrite cell_at_put, Efg, Ebg, !u8_small by lia.
    case_decide as Heq; [injection Heq as <- <-; destruct (Z.ltb_spec c (c + 1)); [done|lia]|].
    rewrite Hcells by done. destruct (Z.eqb_spec r' (SCREEN_ROWS - 1)), (Z.ltb_spec c' c), (Z.ltb_spec c' (c + 1)); try done; try lia.
    exfalso. apply Heq. f_equal; lia.
  - exists v1. split; [done|]. split; [done|]. intros r c Hon. rewrite Hc by done. destruct Hon as [_ Hcol].
    destruct (Z.ltb_spec c SCREEN_COLS); [|lia]. by rewrite andb_true_r.
Qed.

Lemma vrun_seq {B C} s (op : M St B) (f : B → M St C) b v m c (P : VTerm → mem → Prop) :
  vrun s op b v m → (∀ s1, vat s1 v m → ∃ v' m', vrun s1 (f b) c v' m' ∧ P v' m') →
  ∃ v' m', vrun s (op ≫= f) c v' m' ∧ P v' m'.
Proof.
  intros (s1 & Hr & H1) Hf. destruct (Hf s1 H1) as (v' & m' & (s2 & Hr2 & H2) & HP). exists v', m'.
  split; [|done]. exists s2. split; [by rewrite (bind_ok _ _ _ _ _ Hr)|done].
Qed.

Lemma vrun_seq_gets {C} s v m (f : VTerm → M St C) c (P : VTerm → mem → Prop) :
  vat s v m → (∃ v' m', vrun s (f v) c v' m' ∧ P v' m') → ∃ v' m', vrun s (gets ≫= f) c v' m' ∧ P v' m'.
Proof. intros Hs (v' & m' & Hr & HP). exists v', m'. split; [by eapply vrun_gets|done]. Qed.

Lemma blank_ok f b : 0 ≤ f < 16 → 0 ≤ b < 16 → cell_ok (mkCell 32 f b).
Proof. intros Hf Hb. split_and!; cbn; lia. Qed.

Lemma scroll_run s v m : vat s v m → pal_ok v →
  ∃ v' m', vrun s vterm_scroll tt v' m' ∧ scrolled v v' ∧ vt_ok v' ∧ off_screen_same m m' ∧
    match current_mode v with BUFFER_MODE_STREAM => mirror m' v' | BUFFER_MODE_BLOCK => m' = m end.
Proof.
  intros Hs Hok. destruct (scroll_rows_run s v m Hs) as (v1 & Hr1 & Hf1 & Hc1).
  assert (pal_ok v1) as Hok1.
  { eapply (pal_ok_cells v); [done|by rewrite Hf1..|]. intros r c Hon. rewrite Hc1 by done.
    destruct (Z.ltb_spec r (SCREEN_ROWS - 1)); apply (vo_cells _ Hok); unfold on_screen in *; lia. }
  unfold vterm_scroll.
  eapply vrun_seq; [exact Hr1|]. intros s1 H1.
  destruct (scroll_blank_run s1 v1 m H1 Hok1) as (v2 & Hr2 & Hf2 & Hc2).
  eapply vrun_seq; [exact Hr2|]. intros s2 H2.
  eapply vrun_seq; [by apply move_run|]. intros s3 H3.
  set (v3 := moved (SCREEN_ROWS - 1) 0 v2) in *.
  assert (Hv3 : v3 = set_cursor (SCREEN_ROWS - 1) 0 (set_cells (screen_buffer v3) v)).
  { unfold v3, moved. cbn [screen_buffer set_cursor]. rewrite Hf2, Hf1. done. }
  assert (Hcells : ∀ r c, on_screen r c →
    cell_at v3 r c = if r =? SCREEN_ROWS - 1 then mkCell 32 (current_fg v) (current_bg v) else cell_at v (r + 1) c).
  { intros r c Hon. change (cell_at v3 r c) with (cell_at v2 r c). rewrite Hc2, Hf1 by done. cbn.
    destruct (Z.eqb_spec r (SCREEN_ROWS - 1)); [done|]. rewrite <- Hf1, Hc1 by done.
    destruct Hon as [[_ Hr] _]. destruct (Z.ltb_spec r (SCREEN_ROWS - 1)); [done|lia]. }
  assert (vt_ok v3) as Hok3.
  { rewrite Hv3. constructor; [done|done|]. rewrite <- Hv3. eapply (pal_ok_cells v); [done|by rewrite Hv3..|].
    intros r c Hon. rewrite Hcells by done. destruct (Z.eqb_spec r (SCREEN_ROWS - 1)); [apply blank_ok; [apply (vo_fg _ Hok)|apply (vo_bg _ Hok)]|].
    apply (vo_cells _ Hok). unfold on_screen in *. lia. }
  assert (current_mode v3 = current_mode v) as Emode by (by rewrite Hv3).
  unfold flush_if_stream. destruct (current_mode v) eqn:Hmode.
  - destruct (flush_run s3 v3 m H3 Hok3) as (m' & Hr & Hmir & Hsame). exists v3, m'.
    split; [|done]. eapply vrun_gets; [exact H3|]. by rewrite Emode.
  - exists v3, m. split; [|done]. eapply vrun_gets; [exact H3|]. rewrite Emode. by apply vrun_ret.
Qed.

Lemma stream_char_run s v m c : vat s v m → pal_ok v → on_screen (cursor_row v) (cursor_col v) → 0 ≤ c < 256 →
  ∃ m', vrun s (stream_char c) tt v m' ∧ off_screen_same m m' ∧
    match current_mode v with
    | BUFFER_MODE_STREAM =>
        fb_word m' (cursor_row v) (cursor_col v) = c + 256 * current_fg v + 4096 * current_bg v ∧
        ∀ r' c', on_screen r' c' → (r', c') ≠ (cursor_row v, cursor_col v) → fb_word m' r' c' = fb_word m r' c'
    | BUFFER_MODE_BLOCK => m' = m
    end.
Proof.
  intros Hs Hok Hon Hc. unfold stream_char. destruct (current_mode v) eqn:Hmode.
  - destruct (vrun_cell s v m c _ _ _ _ Hs Hon Hc (vo_fg _ Hok) (vo_bg _ Hok)) as (m' & Hr & Hw & Ho & Hsame).
    exists m'. split_and!; [|done|done|done]. eapply vrun_gets; [exact Hs|]. rewrite Hmode.
    eapply vrun_pure; [apply lookup_color_ok, Hok|]. by eapply vrun_pure; [apply lookup_color_ok, Hok|].
  - exists m. split_and!; [|done|done]. eapply vrun_gets; [exact Hs|]. rewrite Hmode. by apply vrun_ret.
Qed.

Lemma check_cell_ok r c (s : St) : on_screen r c → check_cell r c s = Ok tt s.
Proof.
  intros [Hr Hc]. unfold check_cell. destruct (Z.ltb_spec r SCREEN_ROWS), (Z.ltb_spec c SCREEN_COLS); try lia. done.
Qed.

(** [c] at the cursor in the current colours. *)
Definition emitted (c : Z) (v : VTerm) : VTerm :=
  set_cursor (cursor_row v) (cursor_col v + 1)
    (put_cell (cursor_row v) (cursor_col v) (mkCell c (current_fg v) (current_bg v)) v).

Lemma emitted_ok c v : vt_ok v → cursor_col v < SCREEN_COLS → 0 ≤ c < 256 → vt_ok (emitted c v).
Proof.
  intros [Hr Hc Hp] Hlt Hch. constructor; cbn; [done|lia|].
  apply (pal_ok_put v (cursor_row v) (cursor_col v) (mkCell c (current_fg v) (current_bg v))) in Hp as Hp'.
  - by destruct Hp'.
  - split_and!; cbn; try lia; apply Hp.
Qed.

Lemma emit_run s v m c : vat s v m → vt_ok v → cursor_col v < SCREEN_COLS → 0 ≤ c < 256 →
  ∃ m', vrun s (emit_char c) tt (emitted c v) m' ∧ shows m v m' (emitted c v).
Proof.
  intros Hs Hok Hlt Hc. pose proof Hok as [Hrow Hcol Hpal].
  assert (on_screen (cursor_row v) (cursor_col v)) as Hon by (unfold on_screen; lia).
  pose proof (vo_fg _ Hpal) as Hf. pose proof (vo_bg _ Hpal) as Hb.
  set (v1 := put_cell (cursor_row v) (cursor_col v) (mkCell c (current_fg v) (current_bg v)) v).
  assert (pal_ok v1) as Hpal1 by (apply pal_ok_put; [done|split_and!; cbn; lia]).
  assert (∃ s1, (check_cell (cursor_row v) (cursor_col v) ;;
      puts (put_cell (cursor_row v) (cursor_col v) (mkCell c (u8 (current_fg v)) (u8 (current_bg v))) v)) s = Ok tt s1 ∧
      vat s1 v1 m) as (s1 & Hr1 & H1).
  { rewrite (bind_ok _ _ _ _ _ (check_cell_ok _ _ _ Hon)), !u8_small by lia. by eapply vrun_puts. }
  destruct (stream_char_run s1 v1 m c H1 Hpal1 Hon Hc) as (m' & Hr2 & Hsame & Hfb).
  exists m'. split.
  - unfold emit_char. eapply vrun_gets; [exact Hs|].
    assert (∀ (k : M St unit), (check_cell (cursor_row v) (cursor_col v) ;;
      puts (put_cell (cursor_row v) (cursor_col v) (mkCell c (u8 (current_fg v)) (u8 (current_bg v))) v) ;; k) s = k s1) as Hseq.
    { intros k. rewrite <- (bind_ok _ (λ _, k) _ _ _ Hr1). by rewrite bind_assoc. }
    destruct Hr2 as (s2 & Hr2 & H2).
    assert (vrun s2 (v ← gets; puts (set_cursor (cursor_row v) (u16 (cursor_col v + 1)) v) ;;
      v ← gets; vterm_move_cursor (cursor_row v) (cursor_col v)) tt (emitted c v) m') as (s3 & Hr3 & H3).
    { eapply vrun_gets; [exact H2|]. cbn [v1 put_cell set_cells cursor_row cursor_col].
      unfold SCREEN_COLS in *. rewrite u16_small by lia.
      eapply vrun_bind; [by eapply vrun_puts|]. intros s3 H3. eapply vrun_gets; [exact H3|].
      pose proof (move_run s3 (emitted c v) m' (cursor_row v) (cursor_col v + 1) H3) as Hmv.
      pose proof (moved_self (emitted c v) (emitted_ok c v Hok Hlt Hc)) as Hself.
      change (cursor_row (emitted c v)) with (cursor_row v) in Hself.
      change (cursor_col (emitted c v)) with (cursor_col v + 1) in Hself. rewrite Hself in Hmv. exact Hmv. }
    exists s3. split; [|done]. rewrite Hseq. by rewrite (bind_ok _ _ _ _ _ Hr2).
  - split; [done|]. cbn [v1 put_cell set_cells current_mode] in Hfb. destruct (current_mode v); [|done].
    destruct Hfb as [Hw Ho]. intros Hmir r' c' Hon'. unfold emitted.
    change (cell_at (set_cursor _ _ ?x) r' c') with (cell_at x r' c'). rewrite cell_at_put. case_decide as Heq.
    + injection Heq as <- <-. exact Hw.
    + rewrite Ho, Hmir by (done || (cbn; congruence)). done.
Qed.

(** What typing a character other than newline and backspace does. *)
Definition wrapped (v : VTerm) : VTerm :=
  if SCREEN_COLS <=? cursor_col v then set_cursor (cursor_row v + 1) 0 v else v.

(** A backspace: the cell before the cursor becomes a space in its colours. *)
Definition erased (v : VTerm) : VTerm :=
  let blank r c :=
    put_cell r c (mkCell 32 (fg (cell_at v r c)) (bg (cell_at v r c))) (set_cursor r c v) in
  if 0 <? cursor_col v then blank (cursor_row v) (cursor_col v - 1)
  else if 0 <? cursor_row v then blank (cursor_row v - 1) (SCREEN_COLS - 1)
  else v.

Definition typed (c : Z) (v v' : VTerm) : Prop :=
  if c =? 10 then v' = moved (cursor_row v + 1) 0 v
  else if c =? 8 then v' = erased v
  else if SCREEN_ROWS <=? cursor_row (wrapped v) then ∃ v2, scrolled (wrapped v) v2 ∧ v' = emitted c v2
  else v' = emitted c (wrapped v).

Lemma wrapped_cells v r c : cell_at (wrapped v) r c = cell_at v r c.
Proof. unfold wrapped. by destruct (_ <=? _). Qed.
Lemma wrapped_mode v : current_mode (wrapped v) = current_mode v.
Proof. unfold wrapped. by destruct (_ <=? _). Qed.
Lemma wrapped_pal v : pal_ok v → pal_ok (wrapped v).
Proof. intros [Hf Hb Hc]. unfold wrapped. by destruct (_ <=? _). Qed.

Lemma write_visible_run s v m c : vat s v m → vt_ok v → 0 ≤ c < 256 → c ≠ 8 →
  ∃ v' m', vrun s (vterm_write_char c) tt v' m' ∧ (typed c v v' ∧ vt_ok v' ∧ shows m v m' v').
Proof.
  intros Hs Hok Hc H8. pose proof Hok as [Hrow Hcol Hpal]. unfold SCREEN_ROWS, SCREEN_COLS in Hrow, Hcol.
  unfold vterm_write_char, typed. destruct (Z.eqb_spec c 10) as [->|H10].
  { exists (moved (cursor_row v + 1) 0 v), m. split; [|split_and!; [done|apply moved_ok; [done|lia..]|by apply shows_refl]].
    eapply vrun_gets; [exact Hs|]. rewrite u16_small by lia.
    eapply vrun_bind; [by apply move_run|]. intros s1 H1. eapply vrun_gets; [exact H1|].
    destruct (Z.leb_spec SCREEN_ROWS (cursor_row (moved (cursor_row v + 1) 0 v))) as [Hge|]; [|by apply vrun_ret].
    exfalso. cbn in Hge. destruct (Z.ltb_spec (cursor_row v + 1) SCREEN_ROWS); unfold SCREEN_ROWS in *; lia. }
  destruct (Z.eqb_spec c 8); [done|].
  eapply vrun_seq_gets; [exact Hs|].
  eapply (vrun_seq _ _ _ tt (wrapped v) m).
  { unfold wrapped. rewrite u16_small by lia.
    destruct (SCREEN_COLS <=? cursor_col v); [by eapply vrun_puts|by apply vrun_ret]. }
  intros s1 H1. destruct (Z.leb_spec SCREEN_ROWS (cursor_row (wrapped v))) as [Hge|Hlt].
  - destruct (scroll_run s1 _ m H1 (wrapped_pal _ Hpal)) as (v2 & m2 & Hr2 & Hsc & Hok2 & Hsame & Hfb).
    assert (cursor_col v2 = 0) as Hcol2 by (destruct Hsc as [-> _]; done).
    assert (current_mode v2 = current_mode v) as Hm2 by (destruct Hsc as [-> _]; apply wrapped_mode).
    assert (cursor_col v2 < SCREEN_COLS) as Hlt2 by (rewrite Hcol2; done).
    destruct Hr2 as (s2 & Hr2 & H2). destruct (emit_run s2 v2 m2 c H2 Hok2 Hlt2 Hc) as (m3 & Hr3 & Hsh).
    exists (emitted c v2), m3. split; [|split; [exact (ex_intro _ v2 (conj Hsc eq_refl))|split; [exact (emitted_ok c v2 Hok2 Hlt2 Hc)|]]].
    + eapply vrun_gets; [exact H1|]. rewrite (proj2 (Z.leb_le _ _) Hge). cbv iota.
      destruct Hr3 as (s3 & Hr3 & H3). exists s3. split; [by rewrite (bind_ok _ _ _ _ _ Hr2)|exact H3].
    + apply (shows_trans m v m2 v2); [split; [done|]|done|done]. rewrite wrapped_mode in Hfb.
      destruct (current_mode v); [by intros|done].
  - assert (vt_ok (wrapped v) ∧ cursor_col (wrapped v) < SCREEN_COLS) as [Hokw Hltw].
    { unfold wrapped in *. destruct (Z.leb_spec SCREEN_COLS (cursor_col v)); [|by split].
      split; [constructor; cbn in *; [lia|done|by destruct Hpal]|done]. }
    destruct (emit_run s1 (wrapped v) m c H1 Hokw Hltw Hc) as (m3 & Hr3 & Hsh).
    exists (emitted c (wrapped v)), m3. split; [|split_and!; [done|by apply emitted_ok|]].
    + eapply vrun_gets; [exact H1|]. rewrite (proj2 (Z.leb_gt _ _) Hlt).
      destruct Hr3 as (s3 & Hr3 & H3). by exists s3.
    + apply (shows_trans m v m (wrapped v)); [apply shows_refl; intros; apply wrapped_cells|apply wrapped_mode|done].
Qed.

Lemma erase_run s v m r c : vat s v m → vt_ok v → on_screen r c →
  ∃ m', vrun s (erase_at r c) tt
      (put_cell r c (mkCell 32 (fg (cell_at v r c)) (bg (cell_at v r c))) (set_cursor r c v)) m' ∧
    vt_ok (put_cell r c (mkCell 32 (fg (cell_at v r c)) (bg (cell_at v r c))) (set_cursor r c v)) ∧
    off_screen_same m m' ∧ (current_mode v = BUFFER_MODE_BLOCK → m' = m).
Proof.
  intros Hs [Hrow Hcol Hpal] Hon. pose proof Hon as [Hr Hc]. set (x := mkCell 32 _ _).
  assert (cell_ok x) as Hx by (destruct (vo_cells _ Hpal r c Hon) as (_ & ? & ?); split_and!; cbn; lia).
  pose proof (move_run s v m r c Hs) as Hmv.
  assert (moved r c v = set_cursor r c v) as Hmoved.
  { unfold moved. destruct (Z.ltb_spec r SCREEN_ROWS), (Z.leb_spec c SCREEN_COLS); try lia. done. }
  rewrite Hmoved in Hmv. destruct Hmv as (s1 & Hr1 & H1).
  assert (pal_ok (put_cell r c x (set_cursor r c v))) as Hpal1.
  { apply pal_ok_put; [|done]. destruct Hpal. by constructor. }
  assert (∃ s2, (check_cell r c ;; puts (put_cell r c x (set_cursor r c v))) s1 = Ok tt s2 ∧
      vat s2 (put_cell r c x (set_cursor r c v)) m) as (s2 & Hr2 & H2).
  { rewrite (bind_ok _ _ _ _ _ (check_cell_ok _ _ _ Hon)). by eapply vrun_puts. }
  destruct (stream_char_run s2 _ m 32 H2 Hpal1 Hon ltac:(lia)) as (m' & Hr3 & Hsame & Hfb).
  exists m'. split_and!; [|constructor; [done|cbn; lia|done]|done|].
  - destruct Hr3 as (s3 & Hr3 & H3). exists s3. split; [|done]. unfold erase_at.
    rewrite (bind_ok _ _ _ _ _ Hr1), bind_gets, (proj1 H1). cbn [set_cursor cursor_row cursor_col].
    rewrite <- Hr3. rewrite <- (bind_ok _ (λ _, stream_char 32) _ _ _ Hr2). by rewrite bind_assoc.
  - intros Hmode. cbn [put_cell set_cells set_cursor current_mode] in Hfb. by rewrite Hmode in Hfb.
Qed.

Lemma backspace_run s v m : vat s v m → vt_ok v →
  ∃ m', vrun s write_backspace tt (erased v) m' ∧ vt_ok (erased v) ∧ off_screen_same m m' ∧
    (current_mode v = BUFFER_MODE_BLOCK → m' = m).
Proof.
  intros Hs Hok. pose proof Hok as [Hrow Hcol Hpal]. unfold SCREEN_ROWS, SCREEN_COLS in Hrow, Hcol.
  unfold write_backspace, erased. destruct (Z.ltb_spec 0 (cursor_col v)) as [Hc|Hc].
  - destruct (erase_run s v m (cursor_row v) (cursor_col v - 1) Hs Hok) as (m' & Hr & H).
    { unfold on_screen, SCREEN_ROWS, SCREEN_COLS. lia. }
    exists m'. split; [|exact H]. eapply vrun_gets; [exact Hs|]. destruct (Z.ltb_spec 0 (cursor_col v)); [|lia].
    by rewrite u16_small by lia.
  - destruct (Z.ltb_spec 0 (cursor_row v)) as [Hr0|Hr0].
    + destruct (erase_run s v m (cursor_row v - 1) (SCREEN_COLS - 1) Hs Hok) as (m' & Hr & H).
      { unfold on_screen, SCREEN_ROWS, SCREEN_COLS. lia. }
      exists m'. split; [|exact H]. eapply vrun_gets; [exact Hs|]. destruct (Z.ltb_spec 0 (cursor_col v)); [lia|].
      destruct (Z.ltb_spec 0 (cursor_row v)); [|lia]. by rewrite u16_small by lia.
    + exists m. split_and!; [|done|done|done]. eapply vrun_gets; [exact Hs|]. destruct (Z.ltb_spec 0 (cursor_col v)); [lia|].
      destruct (Z.ltb_spec 0 (cursor_row v)); [lia|]. by apply vrun_ret.
Qed.

(** Any character: the terminal stays well formed and only the framebuffer is
    written; in stream mode it keeps showing the buffer, backspace apart. *)
Lemma write_char_run s v m c : vat s v m → vt_ok v → 0 ≤ c < 256 →
  ∃ v' m', vrun s (vterm_write_char c) tt v' m' ∧
    (typed c v v' ∧ vt_ok v' ∧ off_screen_same m m' ∧ (c ≠ 8 → shows m v m' v')).
Proof.
  intros Hs Hok Hc. destruct (decide (c = 8)) as [->|H8].
  - destruct (backspace_run s v m Hs Hok) as (m' & Hr & Hok' & Hsame & _). by exists (erased v), m'.
  - destruct (write_visible_run s v m c Hs Hok Hc H8) as (v' & m' & Hr & Ht & Hok' & Hsh).
    exists v', m'. split_and!; [done|done|done|apply Hsh|done].
Qed.

Lemma typed_mode c v v' : typed c v v' → current_mode v' = current_mode v ∧ current_fg v' = current_fg v ∧ current_bg v' = current_bg v.
Proof.
  unfold typed. destruct (c =? 10); [by intros ->|]. destruct (c =? 8).
  { intros ->. unfold erased. by destruct (0 <? cursor_col v), (0 <? cursor_row v). }
  assert (current_mode (wrapped v) = current_mode v ∧ current_fg (wrapped v) = current_fg v ∧
    current_bg (wrapped v) = current_bg v) as Hw by (unfold wrapped; by destruct (_ <=? _)).
  destruct (_ <=? _); [|by intros ->]. intros (v2 & [Hv2 _] & ->). unfold emitted. cbn. rewrite Hv2. exact Hw.
Qed.

(** ** Writing strings *)

Inductive typeds : list Z → VTerm → VTerm → Prop :=
  | t_nil v : typeds [] v v
  | t_cons c cs v v1 v' : typed c v v1 → typeds cs v1 v' → typeds (c :: cs) v v'.

Lemma typeds_snoc cs c v v1 v' : typeds cs v v1 → typed c v1 v' → typeds (cs ++ [c]) v v'.
Proof. induction 1; intros; cbn; (econstructor; [eassumption|]); [constructor|auto]. Qed.

Lemma typeds_colors cs v v' : typeds cs v v' → current_fg v' = current_fg v ∧ current_bg v' = current_bg v.
Proof. induction 1 as [|c cs v v1 v' (_ & ? & ?)%typed_mode _ []]; split; congruence. Qed.

Lemma typeds_mode cs v v' : typeds cs v v' → current_mode v' = current_mode v.
Proof. induction 1 as [|c cs v v1 v' Ht _ IH]; [done|]. apply typed_mode in Ht as (? & _). congruence. Qed.

Definition off_framebuffer (a n : Z) : Prop := a + n ≤ FRAMEBUFFER ∨ FRAMEBUFFER + 4000 ≤ a.

Lemma write_run s v m str bs : vat s v m → vt_ok v → cstr m str bs →
  mapped str (zlen bs + 1) → off_framebuffer str (zlen bs + 1) →
  ∃ v' m', vrun s (vterm_write str) tt v' m' ∧
    (typeds bs v v' ∧ vt_ok v' ∧ off_screen_same m m' ∧ (8 ∉ bs → shows m v m' v')).
Proof.
  intros Hs Hok Hstr Hmap Hoff.
  pose (J := λ (i : Z) v1 m1, typeds (take (Z.to_nat i) bs) v v1 ∧ vt_ok v1 ∧ off_screen_same m m1 ∧ (8 ∉ bs → shows m v m1 v1)).
  destruct (ploop_rule (λ i, c ← load8 (str + i); if c =? 0 then mret (inr tt)
              else c ← load8 (str + i); vterm_write_char c ;; mret (inl (i + 1)))
    (λ i s1, 0 ≤ i ≤ zlen bs ∧ ∃ v1 m1, vat s1 v1 m1 ∧ J i v1 m1)
    (λ (_ : unit) s1, ∃ v1 m1, vat s1 v1 m1 ∧ J (zlen bs) v1 m1)
    (λ i, Z.to_nat (zlen bs - i)) STR_FUEL 0 s) as ([] & s' & Hr & v' & m' & Hs' & HJ).
  - intros i s1 (Hi & v1 & m1 & H1 & Ht & Hok1 & Hsame & Hsh).
    assert (load8 (str + i) s1 = Ok (get8 m (str + i)) s1) as Hload.
    { rewrite load8_run by mapped_tac. rewrite (proj1 (proj2 H1)). f_equal. apply Hsame.
      unfold in_framebuffer, off_framebuffer in *. lia. }
    rewrite (bind_ok _ _ _ _ _ Hload). destruct (Z.eq_dec i (zlen bs)) as [->|Hne].
    + rewrite (cstr_end _ _ _ Hstr). right. exists tt, s1. split; [reflexivity|by exists v1, m1].
    + destruct (cstr_get _ _ _ i Hstr ltac:(lia)) as (b & Hb & Hg & Hnz). rewrite Hg. left.
      destruct (Z.eqb_spec b 0); [done|]. rewrite (bind_ok _ _ _ _ _ Hload), Hg.
      assert (0 ≤ b < 256) as Hbr by (rewrite <- Hg; apply get8_range).
      destruct (write_char_run s1 v1 m1 b H1 Hok1 Hbr) as (v2 & m2 & (s2 & Hr2 & H2) & Ht2 & Hok2 & Hsame2 & Hsh2).
      exists (i + 1), s2. split; [by rewrite (bind_ok _ _ _ _ _ Hr2)|]. split; [|lia]. split; [lia|].
      exists v2, m2. split; [done|]. split_and!; [|done|by eapply off_screen_trans|].
      * replace (Z.to_nat (i + 1)) with (S (Z.to_nat i)) by lia. rewrite (take_S_r _ _ b) by done. by eapply typeds_snoc.
      * intros H8. apply (shows_trans m v m1 v1); [by apply Hsh|by apply typeds_mode in Ht|]. apply Hsh2.
        intros ->. apply H8. by eapply list_elem_of_lookup_2.
  - split; [lia|]. exists v, m. split; [done|]. split_and!; [constructor|done|done|intros _; by apply shows_refl].
  - unfold STR_FUEL. mapped_tac.
  - exists v', m'. split; [by exists s'|]. unfold J in HJ. rewrite take_ge in HJ by lia. exact HJ.
Qed.
End vterm_run.

(** ** Text that fits in its row *)

Definition visible_char (c : Z) : Prop := 0 ≤ c < 256 ∧ c ≠ 8 ∧ c ≠ 10.

Lemma typed_fits c v v' : typed c v v' → visible_char c → vt_ok v → cursor_col v < SCREEN_COLS → v' = emitted c v.
Proof.
  intros Ht (_ & H8 & H10) [Hrow _ _] Hc. unfold typed, wrapped in Ht.
  destruct (Z.eqb_spec c 10); [done|]. destruct (Z.eqb_spec c 8); [done|].
  destruct (Z.leb_spec SCREEN_COLS (cursor_col v)); [lia|].
  destruct (Z.leb_spec SCREEN_ROWS (cursor_row v)); [lia|done].
Qed.

(** The cells of a text written from column [c0] on of row [r0]. *)
Definition text_cell (r0 c0 : Z) (bs : list Z) (v : VTerm) (r c : Z) : VTermCell :=
  if (r =? r0) && (c0 <=? c) && (c <? c0 + zlen bs)
  then mkCell (nth (Z.to_nat (c - c0)) bs 0) (current_fg v) (current_bg v)
  else cell_at v r c.

Lemma typeds_row bs v v' : typeds bs v v' → Forall visible_char bs → vt_ok v →
  cursor_col v + zlen bs ≤ SCREEN_COLS →
  cursor_row v' = cursor_row v ∧ cursor_col v' = cursor_col v + zlen bs ∧
  (∀ r c, cell_at v' r c = text_cell (cursor_row v) (cursor_col v) bs v r c).
Proof.
  induction 1 as [v|b bs v v1 v' Ht _ IH]; intros Hbs Hok Hfit.
  - split_and!; [done|cbn; lia|]. intros r c. unfold text_cell. cbn [length]. change (Z.of_nat 0) with 0.
    destruct (Z.eqb_spec r (cursor_row v)), (Z.leb_spec (cursor_col v) c), (Z.ltb_spec c (cursor_col v + 0)); try lia; done.
  - apply Forall_cons in Hbs as [Hb Hbs]. cbn [length] in *.
    assert (v1 = emitted b v) as -> by (apply typed_fits; [done|done|done|lia]).
    destruct IH as (Hr & Hc & Hcells); [done|apply emitted_ok; [done|lia|by destruct Hb]|cbn; lia|].
    cbn [emitted set_cursor put_cell set_cells cursor_row cursor_col] in *.
    split_and!; [done|lia|]. intros r c. rewrite Hcells. unfold text_cell.
    change (cell_at (emitted b v) r c) with
      (cell_at (put_cell (cursor_row v) (cursor_col v) (mkCell b (current_fg v) (current_bg v)) v) r c).
    rewrite cell_at_put. cbn [emitted set_cursor put_cell set_cells current_fg current_bg length].
    destruct (Z.eqb_spec r (cursor_row v)) as [->|Hne]; cbn [andb]; [|case_decide as Heq; [by injection Heq as <-|done]].
    destruct (Z.leb_spec (cursor_col v + 1) c), (Z.leb_spec (cursor_col v) c),
      (Z.ltb_spec c (cursor_col v + 1 + zlen bs)), (Z.ltb_spec c (cursor_col v + Z.of_nat (S (length bs)))); try lia; cbn [andb];
      try (case_decide as Heq; [injection Heq as <-|]);
      first [ lia | done | by rewrite Z.sub_diag | exfalso; apply Heq; f_equal; lia |
        by replace (Z.to_nat (c - cursor_col v)) with (S (Z.to_nat (c - (cursor_col v + 1)))) by lia ].
Qed.

(** ** Hexadecimal text *)

(** ["0x"] and the eight digits of a 32-bit value, most significant first. *)
Definition hex_nibble (val i : Z) : Z := Z.land (Z.shiftr val (28 - i * 4)) 0xF.
Definition hex_digits (val : Z) : list Z := map (λ i, nth (Z.to_nat (hex_nibble val i)) hex_chars 0) (seqZ 0 8).
Definition hex_text (val : Z) : list Z := 48 :: 120 :: hex_digits val.

(** Reading such digits back. *)
Definition digit_value (c : Z) : Z := if c <=? 57 then c - 48 else c - 55.
Definition hex_value (ds : list Z) : Z := foldl (λ acc c, 16 * acc + digit_value c) 0 ds.

Lemma hex_nibble_range val i : 0 ≤ hex_nibble val i < 16.
Proof. unfold hex_nibble. change 0xF with (Z.ones 4). rewrite Z.land_ones by lia. by apply Z.mod_pos_bound. Qed.

Lemma hex_char_cases n : 0 ≤ n < 16 →
  let c := nth (Z.to_nat n) hex_chars 0 in visible_char c ∧ digit_value c = n.
Proof.
  intros Hn. assert (∃ k, n = Z.of_nat k ∧ (k < 16)%nat) as (k & -> & Hk) by (exists (Z.to_nat n); lia).
  rewrite Nat2Z.id. do 16 (destruct k as [|k]; [unfold visible_char; cbn; lia|]). lia.
Qed.

Lemma hex_digits_value val : 0 ≤ val < 4294967296 → hex_value (hex_digits val) = val.
Proof.
  intros Hv. unfold hex_digits, hex_value. change (seqZ 0 8) with [0; 1; 2; 3; 4; 5; 6; 7]. cbn [map foldl].
  rewrite !(proj2 (hex_char_cases _ (hex_nibble_range val _))).
  unfold hex_nibble. change 0xF with (Z.ones 4). rewrite !Z.land_ones, !Z.shiftr_div_pow2 by lia.
  change (2 ^ 4) with 16. change (2 ^ (28 - 0 * 4)) with 268435456. change (2 ^ (28 - 1 * 4)) with 16777216.
  change (2 ^ (28 - 2 * 4)) with 1048576. change (2 ^ (28 - 3 * 4)) with 65536. change (2 ^ (28 - 4 * 4)) with 4096.
  change (2 ^ (28 - 5 * 4)) with 256. change (2 ^ (28 - 6 * 4)) with 16. change (2 ^ (28 - 7 * 4)) with 1.
  Z.div_mod_to_equations. lia.
Qed.

Lemma hex_text_visible val : Forall visible_char (hex_text val).
Proof.
  unfold hex_text. do 2 (constructor; [unfold visible_char; lia|]). unfold hex_digits. apply Forall_forall.
  intros c (i & -> & _)%list_elem_of_fmap. apply hex_char_cases, hex_nibble_range.
Qed.

(** ** The claims *)

Section vterm_hex.
Context {St : Type} `{LM : Lens St mem} `{LV : Lens St VTerm} `{LIO : Lens St Ports}.
Context {AMV : Apart LM LV} {AMI : Apart LM LIO} {AVI : Apart LV LIO}.
Context {X : Type} (π : St → X) (x0 : X).
Context (π_mem : ∀ (m : mem) s, π (lput m s) = π s) (π_vt : ∀ (v : VTerm) s, π (lput v s) = π s)
  (π_io : ∀ (p : Ports) s, π (lput p s) = π s).

(** Writing a computed list of characters one by one. *)
Lemma write_digits_run s v m (f : Z → Z) lo hi : lo ≤ hi → vat π x0 s v m → vt_ok v → (∀ i, visible_char (f i)) →
  ∃ v' m', vrun π x0 s (mfor lo hi (λ i, vterm_write_char (f i))) tt v' m' ∧
    (typeds (map f (seqZ lo (hi - lo))) v v' ∧ vt_ok v' ∧ shows m v m' v').
Proof.
  intros Hle Hs Hok Hf.
  destruct (vrun_mfor π x0 (λ i v1 m1, typeds (map f (seqZ lo (i - lo))) v v1 ∧ vt_ok v1 ∧ shows m v m1 v1)
    lo hi (λ i, vterm_write_char (f i)) s v m) as (v' & m' & Hr & H); [done|done| | |by exists v', m'].
  - rewrite Z.sub_diag. split_and!; [constructor|done|by apply shows_refl].
  - intros i s1 v1 m1 Hi H1 (Ht & Hok1 & Hsh). destruct (Hf i) as (Hr & H8 & _).
    destruct (write_char_run π x0 π_mem π_vt π_io s1 v1 m1 (f i) H1 Hok1 Hr) as (v2 & m2 & Hr2 & Ht2 & Hok2 & _ & Hsh2).
    exists v2, m2. split; [done|]. split_and!; [|done|].
    + replace (i + 1 - lo) with ((i - lo) + 1) by lia. rewrite seqZ_app by lia.
      replace (lo + (i - lo)) with i by lia. change (seqZ i 1) with [i]. rewrite map_app. by eapply typeds_snoc.
    + apply (shows_trans m v m1 v1); [done|by apply typeds_mode in Ht|by apply Hsh2].
Qed.

Lemma write_hex_run s v m val f b : vat π x0 s v m → vt_ok v → 0 ≤ f < 16 → 0 ≤ b < 16 →
  ∃ v1 m', vrun π x0 s (vterm_write_hex val f b) tt (set_colors (current_fg v) (current_bg v) v1) m' ∧
    (typeds (hex_text val) (set_colors f b v) v1 ∧ vt_ok v1 ∧ shows m v m' v1).
Proof.
  intros Hs Hok Hf Hb. unfold vterm_write_hex.
  set (v0 := set_colors f b v). assert (vt_ok v0) as Hok0 by (by apply set_colors_ok).
  assert (vrun π x0 s (vterm_set_color f b) tt v0 m) as (s0 & Hr0 & H0) by (by apply (vrun_modify π x0 π_vt)).
  destruct (write_char_run π x0 π_mem π_vt π_io s0 v0 m 48 H0 Hok0 ltac:(lia)) as (v1 & m1 & (s1 & Hr1 & H1) & Ht1 & Hok1 & _ & Hsh1).
  destruct (write_char_run π x0 π_mem π_vt π_io s1 v1 m1 120 H1 Hok1 ltac:(lia)) as (v2 & m2 & (s2 & Hr2 & H2) & Ht2 & Hok2 & _ & Hsh2).
  destruct (write_digits_run s2 v2 m2 (λ i, nth (Z.to_nat (hex_nibble val i)) hex_chars 0) 0 8 ltac:(lia) H2 Hok2)
    as (v3 & m3 & (s3 & Hr3 & H3) & Ht3 & Hok3 & Hsh3); [intros i; apply hex_char_cases, hex_nibble_range|].
  exists v3, m3. split.
  - destruct (vrun_modify π x0 π_vt s3 v3 m3 (set_colors (current_fg v) (current_bg v)) H3) as (s4 & Hr4 & H4).
    exists s4. split; [|done]. destruct Hs as (Hv & _). rewrite bind_gets, Hv. cbv zeta.
    rewrite (bind_ok _ _ _ _ _ Hr0), (bind_ok _ _ _ _ _ Hr1), (bind_ok _ _ _ _ _ Hr2).
    exact (eq_trans (bind_ok _ _ _ _ _ Hr3) Hr4).
  - split_and!; [by econstructor; [|econstructor]|done|].
    apply (shows_trans m v m1 v1); [by apply Hsh1|by apply typed_mode in Ht1 as (? & _)|].
    apply (shows_trans m1 v1 m2 v2); [by apply Hsh2|by apply typed_mode in Ht2 as (? & _)|done].
Qed.
End vterm_hex.

Section vterm_spec.
Context {St : Type} `{LM : Lens St mem} `{LV : Lens St VTerm} `{LIO : Lens St Ports}.
Context {AMV : Apart LM LV} {AMI : Apart LM LIO} {AVI : Apart LV LIO}.

(** A run seen from the terminal and memory. *)
Definition vstate (s : St) (v : VTerm) (m : mem) : Prop := lget s = v ∧ lget s = m.

Abbreviation vat0 := (vat (λ _ : St, tt) tt).

Lemma vat_vstate s v m : vat0 s v m ↔ vstate s v m.
Proof. unfold vat, vstate. tauto. Qed.

(** C24: writing any string runs without fault: no index leaves the screen
    buffer or the colour table, whatever the characters; the cursor stays on
    the screen and nothing outside the framebuffer is written. In stream mode
    a framebuffer that shows the screen buffer still does, if the text has no
    backspace. *)
Theorem vterm_write_safe s v m str bs :
  vstate s v m → vt_ok v → cstr m str bs → mapped str (zlen bs + 1) → off_framebuffer str (zlen bs + 1) →
  ∃ s' v' m', vterm_write str s = Ok tt s' ∧ vstate s' v' m' ∧ vt_ok v' ∧ off_screen_same m m' ∧
    (current_mode v = BUFFER_MODE_STREAM → mirror m v → 8 ∉ bs → mirror m' v').
Proof.
  intros Hs%vat_vstate Hok Hstr Hmap Hoff.
  destruct (write_run (λ _, tt) tt ltac:(done) ltac:(done) ltac:(done) s v m str bs Hs Hok Hstr Hmap Hoff)
    as (v' & m' & (s' & Hr & Hs') & _ & Hok' & Hsame & Hsh).
  exists s', v', m'. split_and!; [done|by apply vat_vstate|done|done|].
  intros Hmode Hmir H8. destruct (Hsh H8) as [_ H]. rewrite Hmode in H. auto.
Qed.

(** A text printed in a row. *)
Lemma print_aligned_run s v m row text bs align :
  vstate s v m → vt_ok v → 0 ≤ row < SCREEN_ROWS → cstr m text bs → Forall visible_char bs → zlen bs < SCREEN_COLS →
  mapped text (zlen bs + 1) → off_framebuffer text (zlen bs + 1) →
  let col := match align with
             | VTERM_ALIGN_LEFT => 0
             | VTERM_ALIGN_CENTER => (SCREEN_COLS - zlen bs) / 2
             | VTERM_ALIGN_RIGHT => SCREEN_COLS - zlen bs
             end in
  ∃ s' v' m', vterm_print_aligned row text align s = Ok tt s' ∧ vstate s' v' m' ∧ vt_ok v' ∧
    cursor_row v' = row ∧ cursor_col v' = col + zlen bs ∧
    (∀ r c, cell_at v' r c = text_cell row col bs v r c) ∧
    match current_mode v with BUFFER_MODE_STREAM => mirror m' v' ∧ off_screen_same m m' | BUFFER_MODE_BLOCK => m' = m end ∧
    current_mode v' = current_mode v ∧ current_fg v' = current_fg v ∧ current_bg v' = current_bg v.
Proof.
  intros Hs Hok Hrow Hstr Hbs Hlen Hmap Hoff col.
  assert (0 ≤ col ∧ col + zlen bs ≤ SCREEN_COLS) as [Hcol0 Hcol].
  { unfold col, SCREEN_COLS in *. destruct align; [lia| |lia]. Z.div_mod_to_equations. lia. }
  unfold vterm_print_aligned. assert (kstrlen text s = Ok (zlen bs) s) as Hl.
  { apply kstrlen_run; [by rewrite (proj2 Hs)|done]. }
  rewrite (bind_ok _ _ _ _ _ Hl). unfold SCREEN_COLS in Hlen. rewrite u32_small by lia. cbv zeta.
  assert (match align with VTERM_ALIGN_LEFT => 0
    | VTERM_ALIGN_CENTER => if zlen bs <? SCREEN_COLS then (SCREEN_COLS - zlen bs) / 2 else 0
    | VTERM_ALIGN_RIGHT => if zlen bs <? SCREEN_COLS then SCREEN_COLS - zlen bs else 0 end = col) as ->.
  { unfold col, SCREEN_COLS. destruct (Z.ltb_spec (zlen bs) 80); [by destruct align|lia]. }
  apply vat_vstate in Hs. unfold vterm_print_at.
  destruct (move_run (λ _, tt) tt ltac:(done) ltac:(done) s v m row col Hs) as (s1 & Hr1 & H1).
  rewrite (bind_ok _ _ _ _ _ Hr1). set (v1 := moved row col v) in *.
  assert (vt_ok v1) as Hok1 by (apply moved_ok; [done|lia..]).
  assert (cursor_row v1 = row ∧ cursor_col v1 = col) as [Erow Ecol].
  { unfold v1, moved. cbn. destruct (Z.ltb_spec row SCREEN_ROWS), (Z.leb_spec col SCREEN_COLS); lia. }
  destruct (write_run (λ _, tt) tt ltac:(done) ltac:(done) ltac:(done) s1 v1 m text bs H1 Hok1 Hstr Hmap Hoff)
    as (v2 & m2 & (s2 & Hr2 & H2) & Ht & Hok2 & _ & Hsh).
  rewrite (bind_ok _ _ _ _ _ Hr2).
  destruct (typeds_row bs v1 v2 Ht Hbs Hok1 ltac:(lia)) as (Hrow2 & Hcol2 & Hcells).
  destruct (flush_if_stream_run (λ _, tt) tt ltac:(done) ltac:(done) ltac:(done) s2 v2 m2 H2 Hok2)
    as (m3 & (s3 & Hr3 & H3) & Hsame3 & Hfl).
  exists s3, v2, m3. split_and!; [done|by apply vat_vstate|done|congruence|lia| | |by apply typeds_mode in Ht|by apply typeds_colors in Ht as []..].
  - intros r c. rewrite Hcells, Erow, Ecol. done.
  - assert (8 ∉ bs) as H8 by (intros Hin; rewrite Forall_forall in Hbs; by destruct (Hbs 8 Hin) as (_ & ? & _)).
    destruct (Hsh H8) as [Hsame2 Hsh2]. rewrite (typeds_mode _ _ _ Ht) in Hfl.
    change (current_mode v1) with (current_mode v) in *.
    destruct (current_mode v); [split; [done|by eapply off_screen_trans]|congruence].
Qed.

(** [vterm_print_aligned] puts a text shorter than a row into its row, in
    the current colours, at the left, in the middle or at the right, and
    changes no other cell. In stream mode the framebuffer then shows the
    screen buffer, in block mode memory is untouched. *)
Theorem vterm_print_aligned_places s v m row text bs align :
  vstate s v m → vt_ok v → 0 ≤ row < SCREEN_ROWS → cstr m text bs → Forall visible_char bs → zlen bs < SCREEN_COLS →
  mapped text (zlen bs + 1) → off_framebuffer text (zlen bs + 1) →
  let col := match align with
             | VTERM_ALIGN_LEFT => 0
             | VTERM_ALIGN_CENTER => (SCREEN_COLS - zlen bs) / 2
             | VTERM_ALIGN_RIGHT => SCREEN_COLS - zlen bs
             end in
  ∃ s' v' m', vterm_print_aligned row text align s = Ok tt s' ∧ vstate s' v' m' ∧ vt_ok v' ∧
    cursor_row v' = row ∧ cursor_col v' = col + zlen bs ∧
    (∀ r c, cell_at v' r c = text_cell row col bs v r c) ∧
    match current_mode v with BUFFER_MODE_STREAM => mirror m' v' ∧ off_screen_same m m' | BUFFER_MODE_BLOCK => m' = m end.
Proof.
  intros H1 H2 H3 H4 H5 H6 H7 H8 col.
  destruct (print_aligned_run s v m row text bs align H1 H2 H3 H4 H5 H6 H7 H8) as (s' & v' & m' & R & Hs & Hok & Hrow & Hcol & Hcells & Hst & _).
  by exists s', v', m'.
Qed.

(** [vterm_write_hex] with room in the row writes, in the given colours,
    ["0x"] and eight digits that read back as the value, and restores the
    colours. *)
Theorem vterm_write_hex_digits s v m val f b :
  vstate s v m → vt_ok v → 0 ≤ val < 4294967296 → 0 ≤ f < 16 → 0 ≤ b < 16 → cursor_col v + 10 ≤ SCREEN_COLS →
  ∃ s' v' m' ds, vterm_write_hex val f b s = Ok tt s' ∧ vstate s' v' m' ∧ vt_ok v' ∧
    current_fg v' = current_fg v ∧ current_bg v' = current_bg v ∧
    cursor_row v' = cursor_row v ∧ cursor_col v' = cursor_col v + 10 ∧
    (∀ r c, cell_at v' r c = text_cell (cursor_row v) (cursor_col v) (48 :: 120 :: ds) (set_colors f b v) r c) ∧
    length ds = 8%nat ∧ hex_value ds = val.
Proof.
  intros Hs%vat_vstate Hok Hval Hf Hb Hfit.
  destruct (write_hex_run (λ _, tt) tt ltac:(done) ltac:(done) ltac:(done) s v m val f b Hs Hok Hf Hb)
    as (v1 & m' & (s' & Hr & Hs') & Ht & Hok1 & _).
  assert (vt_ok (set_colors f b v)) as Hok0 by (by apply set_colors_ok).
  destruct (typeds_row _ _ _ Ht (hex_text_visible val) Hok0 Hfit) as (Hrow & Hcol & Hcells).
  exists s', (set_colors (current_fg v) (current_bg v) v1), m', (hex_digits val).
  split_and!; [done|by apply vat_vstate| |done|done|done|exact Hcol|exact Hcells|done|by apply hex_digits_value].
  apply set_colors_ok; [done|apply (vo_pal _ Hok)..].
Qed.

(** A newline on the last row does not scroll: the cursor goes back to
    the start of that row, and neither the screen buffer nor the framebuffer
    changes. *)
Theorem vterm_newline_never_scrolls s v m :
  vstate s v m → vt_ok v → cursor_row v = SCREEN_ROWS - 1 →
  ∃ s', vterm_write_char 10 s = Ok tt s' ∧ vstate s' (set_cursor (SCREEN_ROWS - 1) 0 v) m.
Proof.
  intros Hs%vat_vstate Hok Hrow. unfold vterm_write_char. rewrite Z.eqb_refl.
  rewrite bind_gets, (proj1 Hs), Hrow.
  destruct (move_run (λ _, tt) tt ltac:(done) ltac:(done) s v m (u16 (SCREEN_ROWS - 1 + 1)) 0 Hs) as (s1 & Hr1 & H1).
  assert (moved (u16 (SCREEN_ROWS - 1 + 1)) 0 v = set_cursor (SCREEN_ROWS - 1) 0 v) as Hm.
  { unfold moved. rewrite Hrow. done. }
  rewrite Hm in H1. exists s1. rewrite (bind_ok _ _ _ _ _ Hr1), bind_gets, (proj1 H1). split; [done|by apply vat_vstate].
Qed.
End vterm_spec.

(** ** The theorems at a concrete terminal *)

Module TermExample.
Record machine : Type := mkMachine { m_mem : mem; m_term : VTerm; m_ports : Ports }.

#[local] Instance lens_mem : Lens machine mem.
Proof. refine {| lget := m_mem; lput m s := mkMachine m (m_term s) (m_ports s) |}; by intros; destruct s. Defined.
#[local] Instance lens_term : Lens machine VTerm.
Proof. refine {| lget := m_term; lput x s := mkMachine (m_mem s) x (m_ports s) |}; by intros; destruct s. Defined.
#[local] Instance lens_ports : Lens machine Ports.
Proof. refine {| lget := m_ports; lput x s := mkMachine (m_mem s) (m_term s) x |}; by intros; destruct s. Defined.
#[local] Instance apart_mt : Apart lens_mem lens_term.
Proof. by constructor. Qed.
#[local] Instance apart_mp : Apart lens_mem lens_ports.
Proof. by constructor. Qed.
#[local] Instance apart_tp : Apart lens_term lens_ports.
Proof. by constructor. Qed.

(** The statics as they are at boot, with the cursor on a given row, and
    the string "Hi" at 0x9000. *)
Definition term0 (row : Z) : VTerm := mkVTerm ∅ row 0 15 0 (mkCursor CURSOR_SHAPE_BLOCK true) BUFFER_MODE_STREAM.
Definition mem0 : mem := set8 (set8 ∅ 0x9000 72) 0x9001 105.
Definition s0 (row : Z) : machine := mkMachine mem0 (term0 row) (mkPorts [] (λ _ _, 0)).

Lemma term0_ok row : 0 ≤ row < SCREEN_ROWS → vt_ok (term0 row).
Proof. intros Hr. constructor; [done|done|]. constructor; [done|done|]. intros r c _.
  unfold cell_at, term0. cbn [screen_buffer]. rewrite lookup_empty. split_and!; cbn; lia. Qed.

Lemma hi : cstr mem0 0x9000 [72; 105].
Proof. vm_compute. done. Qed.

Lemma vterm_write_safe_witness :
  ∃ s' v' m', vterm_write 0x9000 (s0 0) = Ok tt s' ∧ vstate s' v' m' ∧ vt_ok v' ∧ off_screen_same mem0 m' ∧
    (current_mode (term0 0) = BUFFER_MODE_STREAM → mirror mem0 (term0 0) → 8 ∉ [72; 105] → mirror m' v').
Proof.
  apply (vterm_write_safe (s0 0) (term0 0) mem0 0x9000 [72; 105]); [done|by apply term0_ok|exact hi|done|by left].
Defined.

Lemma vterm_print_aligned_places_witness :
  ∃ s' v' m', vterm_print_aligned 2 0x9000 VTERM_ALIGN_CENTER (s0 0) = Ok tt s' ∧ vstate s' v' m' ∧ vt_ok v' ∧
    cursor_row v' = 2 ∧ cursor_col v' = 39 + 2 ∧
    (∀ r c, cell_at v' r c = text_cell 2 39 [72; 105] (term0 0) r c) ∧
    match current_mode (term0 0) with
    | BUFFER_MODE_STREAM => mirror m' v' ∧ off_screen_same mem0 m'
    | BUFFER_MODE_BLOCK => m' = mem0
    end.
Proof.
  apply (vterm_print_aligned_places (s0 0) (term0 0) mem0 2 0x9000 [72; 105] VTERM_ALIGN_CENTER);
    [done|by apply term0_ok|done|exact hi| |done|done|by left].
  do 2 (apply Forall_cons; split; [unfold visible_char; lia|]). apply Forall_nil_2.
Defined.

Lemma vterm_write_hex_digits_witness :
  ∃ s' v' m' ds, vterm_write_hex 0xB8000 4 0 (s0 3) = Ok tt s' ∧ vstate s' v' m' ∧ vt_ok v' ∧
    current_fg v' = 15 ∧ current_bg v' = 0 ∧ cursor_row v' = 3 ∧ cursor_col v' = 0 + 10 ∧
    (∀ r c, cell_at v' r c = text_cell 3 0 (48 :: 120 :: ds) (set_colors 4 0 (term0 3)) r c) ∧
    length ds = 8%nat ∧ hex_value ds = 0xB8000.
Proof.
  apply (vterm_write_hex_digits (s0 3) (term0 3) mem0 0xB8000 4 0); [done|by apply term0_ok|lia|lia|lia|done].
Defined.

Lemma vterm_newline_never_scrolls_witness :
  ∃ s', vterm_write_char 10 (s0 24) = Ok tt s' ∧ vstate s' (set_cursor (SCREEN_ROWS - 1) 0 (term0 24)) mem0.
Proof. apply (vterm_newline_never_scrolls (s0 24) (term0 24) mem0); [done|by apply term0_ok|done]. Defined.
End TermExample.
