(* ===== verification/Screen.v ===== *)
(** * Screen: clearing the terminal and the text on it
      (src/kernel/vterm/vterm.c)

    [vterm_clear] and [vterm_init], and the lines of text a sequence of
    [vterm_print_aligned] leaves on a cleared screen. *)

From S2P Require Import Prelude Memory KString PortIO Io VTerm.

(** ** Clearing *)

Section clear.
Context {St : Type} `{LM : Lens St mem} `{LV : Lens St VTerm} `{LIO : Lens St Ports}.
Context {AMV : Apart LM LV} {AMI : Apart LM LIO} {AVI : Apart LV LIO}.

(** Any part of the state the terminal does not touch. *)
Context {X : Type} (π : St → X) (x0 : X).
Context (π_mem : ∀ (m : mem) s, π (lput m s) = π s) (π_vt : ∀ (v : VTerm) s, π (lput v s) = π s)
  (π_io : ∀ (p : Ports) s, π (lput p s) = π s).

Abbreviation vat0 := (vat π x0).
Abbreviation vrun0 := (vrun π x0).

(** The cells before [(r, c)] in reading order are [x], the rest as in [v]. *)
Definition filled (x : VTermCell) (v v1 : VTerm) (r c : Z) : Prop :=
  same_frame v v1 ∧ ∀ r' c', on_screen r' c' →
    cell_at v1 r' c' = if (r' <? r) || ((r' =? r) && (c' <? c)) then x else cell_at v r' c'.

Lemma fill_run x s v m : vat0 s v m →
  ∃ v1, vrun0 s (mfor 0 SCREEN_ROWS (λ r, mfor 0 SCREEN_COLS (λ c, modify (put_cell r c x)))) tt v1 m ∧ filled x v v1 SCREEN_ROWS 0.
Proof.
  intros Hs.
  destruct (vrun_mfor π x0 (λ r v1 m1, m1 = m ∧ filled x v v1 r 0) 0 SCREEN_ROWS
    (λ r, mfor 0 SCREEN_COLS (λ c, modify (put_cell r c x))) s v m) as (v1 & m1 & Hr & -> & Hf); [done|done| | |].
  - split; [done|]. split; [by destruct v|]. intros r c [Hr Hc].
    destruct (Z.ltb_spec r 0), (Z.eqb_spec r 0), (Z.ltb_spec c 0); try lia; done.
  - intros r s1 v1 m1 Hr H1 (-> & Hd).
    destruct (vrun_mfor π x0 (λ c v2 m2, m2 = m ∧ filled x v v2 r c) 0 SCREEN_COLS (λ c, modify (put_cell r c x)) s1 v1 m)
      as (v2 & m2 & Hr2 & -> & Hf2 & Hc2); [done|done|done| |].
    + intros c s2 v2 m2 Hc H2 (-> & Hf2 & Hc2). eexists _, m. split; [by apply (vrun_modify π x0 π_vt)|]. split; [done|].
      split; [unfold same_frame in *; by rewrite Hf2|]. intros r' c' Hon. rewrite cell_at_put. case_decide as Heq.
      * injection Heq as <- <-. destruct (Z.ltb_spec r r), (Z.eqb_spec r r), (Z.ltb_spec c (c + 1)); try lia; done.
      * rewrite Hc2 by done. destruct (Z.ltb_spec r' r), (Z.eqb_spec r' r), (Z.ltb_spec c' c), (Z.ltb_spec c' (c + 1));
          try done; try lia. exfalso. apply Heq. f_equal; lia.
    + exists v2, m. split; [done|]. split; [done|]. split; [done|]. intros r' c' Hon. rewrite Hc2 by done.
      destruct Hon as [_ Hcol]. destruct (Z.ltb_spec r' r), (Z.eqb_spec r' r), (Z.ltb_spec c' SCREEN_COLS),
        (Z.ltb_spec r' (r + 1)), (Z.eqb_spec r' (r + 1)), (Z.ltb_spec c' 0); try done; try lia.
  - by exists v1.
Qed.

(** The terminal with every cell blank in the colours [f] on [b]. *)
Record cleared (f b : Z) (v v' : VTerm) : Prop := {
  cl_ok : vt_ok v';
  cl_cells : ∀ r c, on_screen r c → cell_at v' r c = mkCell 32 f b;
  cl_cursor : cursor_row v' = 0 ∧ cursor_col v' = 0;
  cl_colors : current_fg v' = f ∧ current_bg v' = b;
  cl_mode : current_mode v' = current_mode v;
  cl_style : active_cursor_style v' = active_cursor_style v
}.

Lemma clear_run f b s v m : vat0 s v m → 0 ≤ f < 16 → 0 ≤ b < 16 →
  ∃ v' m', vrun0 s (vterm_clear f b) tt v' m' ∧ cleared f b v v' ∧ off_screen_same m m' ∧
    match current_mode v with BUFFER_MODE_STREAM => mirror m' v' | BUFFER_MODE_BLOCK => m' = m end.
Proof.
  intros Hs Hf Hb. unfold vterm_clear. set (v0 := set_colors f b v).
  assert (∃ s0, modify (set_colors f b) s = Ok tt s0 ∧ vat0 s0 v0 m) as (s0 & R0 & H0) by (by apply (vrun_modify π x0 π_vt)).
  rewrite (u8_small f) by lia. rewrite (u8_small b) by lia.
  destruct (fill_run (mkCell 32 f b) s0 v0 m H0) as (v1 & (s1 & R1 & H1) & Hf1 & Hc1).
  destruct (move_run π x0 π_vt π_io s1 v1 m 0 0 H1) as (s2 & R2 & H2).
  assert (cleared f b v (moved 0 0 v1)) as Hcl.
  { assert (∀ r c, on_screen r c → cell_at v1 r c = mkCell 32 f b) as Hcells.
    { intros r c Hon. rewrite Hc1 by done. destruct Hon as [Hr _]. by destruct (Z.ltb_spec r SCREEN_ROWS); [|lia]. }
    unfold same_frame in Hf1. unfold moved. cbn [Z.ltb Z.leb Z.compare SCREEN_ROWS SCREEN_COLS]. rewrite Hf1. constructor; cbn; try done.
    - constructor; cbn; [done|done|]. constructor; [done|done|]. intros r c Hon.
      change (cell_ok (cell_at v1 r c)). rewrite Hcells by done. apply blank_ok; lia. }
  destruct (flush_if_stream_run π x0 π_mem π_vt π_io s2 _ m H2 (cl_ok _ _ _ _ Hcl)) as (m3 & (s3 & R3 & H3) & Hsame & Hm).
  exists (moved 0 0 v1), m3. split_and!; [|done|done|by rewrite (cl_mode _ _ _ _ Hcl) in Hm].
  exists s3. split; [|done]. by rewrite (bind_ok _ _ _ _ _ R0), (bind_ok _ _ _ _ _ R1), (bind_ok _ _ _ _ _ R2).
Qed.

Lemma init_screen_run f b s v m : vat0 s v m → 0 ≤ f < 16 → 0 ≤ b < 16 →
  ∃ v' m', vrun0 s (vterm_init f b) tt v' m' ∧ cleared f b (set_mode BUFFER_MODE_STREAM v) v' ∧ off_screen_same m m' ∧ mirror m' v'.
Proof.
  intros Hs Hf Hb. unfold vterm_init.
  assert (∃ s0, modify (set_mode BUFFER_MODE_STREAM) s = Ok tt s0 ∧ vat0 s0 (set_mode BUFFER_MODE_STREAM v) m) as (s0 & R0 & H0)
    by (by apply (vrun_modify π x0 π_vt)).
  destruct (clear_run f b s0 _ m H0 Hf Hb) as (v1 & m1 & (s1 & R1 & H1) & Hcl & Hs1 & Hm1).
  destruct (flush_run π x0 π_mem π_vt π_io s1 v1 m1 H1 (cl_ok _ _ _ _ Hcl)) as (m2 & (s2 & R2 & H2) & Hm2 & Hs2).
  exists v1, m2. split_and!; [|done|by eapply off_screen_trans|done].
  exists s2. split; [|done]. by rewrite (bind_ok _ _ _ _ _ R0), (bind_ok _ _ _ _ _ R1).
Qed.
End clear.
