(* ===== verification/Isr.v ===== *)
(** * Isr: registration and dispatch of interrupt handlers
      (src/kernel/arch/i386/interrupts/isr.c)

    The three arrays of function pointers. A handler is its address; calling
    one is a parameter, what the code of the address does. *)

From S2P Require Import Prelude Memory.

(** ** The code *)

Definition CPU_ENTRIES : Z := 32.
Definition IRQ_ENTRIES : Z := 16.
Definition SYSCALL_ENTRIES : Z := 256.

Record IsrTables : Type := mkIsr {
  cpu_exception_handlers : list Z;
  irq_handlers : list Z;
  syscall_handlers : list Z
}.

(** [regs->interrupt_number] in [CpuRegisters]: after [ds] and the eight
    registers of [pusha]. *)
Definition OFF_INTERRUPT_NUMBER : Z := 36.

(** Reading and writing a C array of handlers. *)
Definition arr_get {St} (l : list Z) (i : Z) : M St Z :=
  match (if 0 <=? i then l !! Z.to_nat i else None) with
  | Some x => mret x
  | None => stop (OutOfBounds i)
  end.
Definition arr_set {St} (l : list Z) (i x : Z) : M St (list Z) :=
  if (0 <=? i) && (i <? Z.of_nat (length l)) then mret (<[Z.to_nat i := x]> l) else stop (OutOfBounds i).

Section isr.
Context {St : Type} `{LM : Lens St mem} `{LI : Lens St IsrTables}.
(** Calls through a function pointer, with and without the registers. *)
Context (call_isr : Z → Z → M St unit) (call_irq : Z → M St unit).
(** The address of [kernel_panic]. *)
Context (kernel_panic : Z).

Definition register_cpu_handler (vector handler : Z) : M St unit :=
  if vector <? 32 then
    t ← gets;
    l ← arr_set (cpu_exception_handlers t) vector handler;
    puts (mkIsr l (irq_handlers t) (syscall_handlers t))
  else mret tt.

Definition register_irq_handler (irq_line handler : Z) : M St unit :=
  if (32 <=? irq_line) && (irq_line <? 48) then
    t ← gets;
    l ← arr_set (irq_handlers t) irq_line handler;
    puts (mkIsr (cpu_exception_handlers t) l (syscall_handlers t))
  else mret tt.

Definition register_syscall_handler (vector handler : Z) : M St unit :=
  if 48 <=? vector then
    t ← gets;
    l ← arr_set (syscall_handlers t) vector handler;
    puts (mkIsr (cpu_exception_handlers t) (irq_handlers t) l)
  else mret tt.

(** The three clearing loops of [init_isr]. *)
Definition clear_cpu (i : Z) : M St unit :=
  t ← gets; l ← arr_set (cpu_exception_handlers t) i 0; puts (mkIsr l (irq_handlers t) (syscall_handlers t)).
Definition clear_irq (i : Z) : M St unit :=
  t ← gets; l ← arr_set (irq_handlers t) i 0; puts (mkIsr (cpu_exception_handlers t) l (syscall_handlers t)).
Definition clear_syscall (i : Z) : M St unit :=
  t ← gets; l ← arr_set (syscall_handlers t) i 0; puts (mkIsr (cpu_exception_handlers t) (irq_handlers t) l).

Definition init_isr : M St unit :=
  mfor 0 CPU_ENTRIES clear_cpu ;;
  mfor 0 IRQ_ENTRIES clear_irq ;;
  mfor 0 SYSCALL_ENTRIES clear_syscall ;;
  mfor 0 32 (λ i, register_cpu_handler (u8 i) kernel_panic).

Definition master_exception_handler (regs : Z) : M St unit :=
  vector ← load32 (regs + OFF_INTERRUPT_NUMBER);
  if vector <? 32 then
    t ← gets;
    handler ← arr_get (cpu_exception_handlers t) vector;
    if negb (handler =? 0) then call_isr handler regs else mret tt
  else if (32 <=? vector) && (vector <? 48) then
    t ← gets;
    handler ← arr_get (irq_handlers t) vector;
    if negb (handler =? 0) then call_irq handler else mret tt
  else if (48 <=? vector) && (vector <? 256) then
    t ← gets;
    handler ← arr_get (syscall_handlers t) vector;
    if negb (handler =? 0) then call_isr handler regs else mret tt
  else mret tt.

(** ** What the code does *)

(** The arrays have their declared lengths. *)
Definition isr_ok (t : IsrTables) : Prop :=
  length (cpu_exception_handlers t) = 32%nat ∧ length (irq_handlers t) = 16%nat ∧
  length (syscall_handlers t) = 256%nat.

(** The handler registered for a vector, none for the interrupt lines. *)
Definition handler_of (t : IsrTables) (v : Z) : Z :=
  if v <? 32 then nth (Z.to_nat v) (cpu_exception_handlers t) 0
  else nth (Z.to_nat v) (syscall_handlers t) 0.

(** Vectors that the code keeps in range: exceptions and system calls. *)
Definition direct (v : Z) : Prop := 0 ≤ v < 32 ∨ 48 ≤ v < 256.

Lemma arr_get_ok l i (s : St) : 0 ≤ i < Z.of_nat (length l) → arr_get l i s = Ok (nth (Z.to_nat i) l 0) s.
Proof.
  intros Hi. unfold arr_get. destruct (Z.leb_spec 0 i); [|lia].
  destruct (lookup_lt_is_Some_2 l (Z.to_nat i)) as [x Hx]; [lia|]. by rewrite Hx, (nth_lookup_Some _ _ _ _ Hx).
Qed.
Lemma arr_set_ok l i x (s : St) : 0 ≤ i < Z.of_nat (length l) → arr_set l i x s = Ok (<[Z.to_nat i := x]> l) s.
Proof. intros Hi. unfold arr_set. destruct (Z.leb_spec 0 i), (Z.ltb_spec i (Z.of_nat (length l))); try lia. done. Qed.

(** Registering for a direct vector. *)
Definition register (v h : Z) : M St unit :=
  if v <? 32 then register_cpu_handler v h else register_syscall_handler v h.

Lemma nth_insert (l : list Z) i j x : 0 ≤ i < Z.of_nat (length l) → 0 ≤ j →
  nth (Z.to_nat j) (<[Z.to_nat i := x]> l) 0 = if i =? j then x else nth (Z.to_nat j) l 0.
Proof.
  intros Hi Hj. rewrite !nth_lookup. destruct (Z.eqb_spec i j) as [->|Hne].
  - by rewrite list_lookup_insert_eq by lia.
  - by rewrite list_lookup_insert_ne by lia.
Qed.

Lemma register_run v h (s : St) : isr_ok (lget s) → direct v →
  ∃ t, register v h s = Ok tt (lput t s) ∧ isr_ok t ∧
    ∀ w, direct w → handler_of t w = if v =? w then h else handler_of (lget s) w.
Proof.
  intros (Hc & Hq & Hs) Hv. unfold register, register_cpu_handler, register_syscall_handler.
  destruct (Z.ltb_spec v 32).
  - assert (0 ≤ v < Z.of_nat (length (cpu_exception_handlers (lget s)))) as Hr by (rewrite Hc; destruct Hv; lia).
    eexists. split; [rewrite bind_gets, (bind_ok _ _ _ _ _ (arr_set_ok (cpu_exception_handlers (lget s)) v h s Hr)); reflexivity|].
    split; [unfold isr_ok; cbn; by rewrite length_insert|]. intros w Hw. unfold handler_of. cbn.
    destruct (Z.ltb_spec w 32); [apply nth_insert; unfold direct in *; lia|].
    destruct (Z.eqb_spec v w); [lia|done].
  - destruct (Z.leb_spec 48 v); [|unfold direct in *; lia].
    assert (0 ≤ v < Z.of_nat (length (syscall_handlers (lget s)))) as Hr by (rewrite Hs; destruct Hv; lia).
    eexists. split; [rewrite bind_gets, (bind_ok _ _ _ _ _ (arr_set_ok (syscall_handlers (lget s)) v h s Hr)); reflexivity|].
    split; [unfold isr_ok; cbn; by rewrite length_insert|]. intros w Hw. unfold handler_of. cbn.
    destruct (Z.ltb_spec w 32); [destruct (Z.eqb_spec v w); [lia|done]|].
    apply nth_insert; unfold direct in *; lia.
Qed.

Lemma dispatch_run regs v (s : St) : isr_ok (lget s) → direct v → mapped regs 40 →
  ld32 (lget s) (regs + OFF_INTERRUPT_NUMBER) = v →
  master_exception_handler regs s =
    (if handler_of (lget s) v =? 0 then mret tt else call_isr (handler_of (lget s) v) regs) s.
Proof.
  intros (Hc & Hq & Hs) Hv Hm Hvec. unfold master_exception_handler, OFF_INTERRUPT_NUMBER in *.
  rewrite (bind_ok _ _ _ _ _ (load32_run (regs + 36) s ltac:(mapped_tac))), Hvec. unfold handler_of, direct in *.
  destruct (Z.ltb_spec v 32).
  - rewrite bind_gets, (bind_ok _ _ _ _ _ (arr_get_ok (cpu_exception_handlers (lget s)) v s ltac:(rewrite Hc; lia))). by destruct (nth _ _ _ =? 0).
  - destruct (Z.leb_spec 32 v), (Z.ltb_spec v 48); try lia; cbn [andb].
    destruct (Z.leb_spec 48 v), (Z.ltb_spec v 256); try lia; cbn [andb].
    rewrite bind_gets, (bind_ok _ _ _ _ _ (arr_get_ok (syscall_handlers (lget s)) v s ltac:(rewrite Hs; lia))). by destruct (nth _ _ _ =? 0).
Qed.

(** One clearing loop over an array: the others keep. *)
Lemma clear_loop_run (f : Z → M St unit) (arr : IsrTables → list Z) (upd : list Z → IsrTables → IsrTables) n (s : St) :
  (∀ i (s : St), f i s = (l ← arr_set (arr (lget s)) i 0; puts (upd l (lget s))) s) →
  (∀ l t, arr (upd l t) = l) → (∀ l l' t, upd l (upd l' t) = upd l t) → (∀ t, upd (arr t) t = t) →
  length (arr (lget s)) = Z.to_nat n → 0 ≤ n →
  ∃ l, mfor 0 n f s = Ok tt (lput (upd l (lget s)) s) ∧ length l = Z.to_nat n ∧ ∀ j, 0 ≤ j < n → nth (Z.to_nat j) l 0 = 0.
Proof.
  intros Hf Hau Huu Hua Hlen Hn.
  destruct (mfor_rule (λ i s', ∃ l, s' = lput (upd l (lget s)) s ∧ length l = Z.to_nat n ∧
      ∀ j, 0 ≤ j < i → nth (Z.to_nat j) l 0 = 0) 0 n f s Hn) as (s' & Hr & l & -> & Hl & Hz).
  - intros i s1 Hi (l & -> & Hl & Hz). rewrite Hf, lget_lput, Hau.
    rewrite (bind_ok _ _ _ _ _ (arr_set_ok l i 0 _ ltac:(lia))). eexists. split; [reflexivity|].
    exists (<[Z.to_nat i := 0]> l). rewrite Huu, lput_lput. split_and!; [done|by rewrite length_insert|].
    intros j Hj. rewrite nth_insert by lia. destruct (Z.eqb_spec i j); [done|apply Hz; lia].
  - exists (arr (lget s)). rewrite Hua, lput_lget. split_and!; [done|done|lia].
  - by exists l.
Qed.

Lemma init_run (s : St) : isr_ok (lget s) →
  ∃ t, init_isr s = Ok tt (lput t s) ∧ isr_ok t ∧
    ∀ w, direct w → handler_of t w = if w <? 32 then kernel_panic else 0.
Proof.
  intros (Hc & Hq & Hs). unfold init_isr.
  destruct (clear_loop_run clear_cpu cpu_exception_handlers (λ l t, mkIsr l (irq_handlers t) (syscall_handlers t))
    CPU_ENTRIES s) as (l1 & Hr1 & Hl1 & _); try done; [by intros [] |].
  rewrite (bind_ok _ _ _ _ _ Hr1). set (t1 := mkIsr l1 _ _).
  destruct (clear_loop_run clear_irq irq_handlers (λ l t, mkIsr (cpu_exception_handlers t) l (syscall_handlers t))
    IRQ_ENTRIES (lput t1 s)) as (l2 & Hr2 & Hl2 & _); try done; [by intros []|by rewrite lget_lput|].
  rewrite (bind_ok _ _ _ _ _ Hr2). rewrite lget_lput, lput_lput in *. set (t2 := mkIsr _ l2 _) in *.
  destruct (clear_loop_run clear_syscall syscall_handlers (λ l t, mkIsr (cpu_exception_handlers t) (irq_handlers t) l)
    SYSCALL_ENTRIES (lput t2 s)) as (l3 & Hr3 & Hl3 & Hz3); try done; [by intros []|by rewrite lget_lput|].
  rewrite (bind_ok _ _ _ _ _ Hr3). rewrite lget_lput, lput_lput in *. set (t3 := mkIsr _ _ l3) in *.
  destruct (mfor_rule (λ i s', ∃ t, s' = lput t s ∧ isr_ok t ∧ ∀ w, direct w →
      handler_of t w = if w <? i then kernel_panic else handler_of t3 w) 0 32
      (λ i, register_cpu_handler (u8 i) kernel_panic) (lput t3 s)) as (s' & Hr & t & -> & Hok & Hof); [done| | |].
  - intros i s1 Hi (t & -> & Hok & Hof). rewrite u8_small by lia.
    destruct (register_run i kernel_panic (lput t s)) as (t' & Hr' & Hok' & Hof'); [by rewrite lget_lput|left; lia|].
    unfold register in Hr'. destruct (Z.ltb_spec i 32); [|lia]. eexists. split; [exact Hr'|].
    exists t'. rewrite lput_lput. split; [done|]. split; [done|]. intros w Hw. rewrite Hof' by done. rewrite lget_lput, Hof by done.
    destruct (Z.eqb_spec i w), (Z.ltb_spec w i), (Z.ltb_spec w (i + 1)); try lia; done.
  - exists t3. split; [done|]. split; [done|]. intros w Hw. destruct (Z.ltb_spec w 0); [unfold direct in Hw; lia|done].
  - exists t. split; [done|]. split; [done|]. intros w Hw. rewrite Hof by done. destruct (Z.ltb_spec w 32); [done|].
    unfold handler_of. destruct (Z.ltb_spec w 32); [lia|]. apply Hz3. unfold SYSCALL_ENTRIES. destruct Hw; lia.
Qed.
End isr.

Section isr_claims.
Context {St : Type} `{LM : Lens St mem} `{LI : Lens St IsrTables} {AP : Apart LM LI}.
Context (call_isr : Z → Z → M St unit) (call_irq : Z → M St unit) (kernel_panic : Z).

(** After [init_isr] and the registration of one more handler, an
    interrupt calls, on the saved registers, that handler if it came for its
    vector, [kernel_panic] for any other exception and nothing for any other
    system call. *)
Theorem isr_dispatches_registered v w h regs (s : St) :
  isr_ok (lget s) → direct v → direct w → h ≠ 0 → kernel_panic ≠ 0 → mapped regs 40 →
  ld32 (lget s) (regs + OFF_INTERRUPT_NUMBER) = w →
  ∃ s', (init_isr kernel_panic ;; register v h) s = Ok tt s' ∧ isr_ok (lget s') ∧
    master_exception_handler call_isr call_irq regs s' =
      (if v =? w then call_isr h regs else if w <? 32 then call_isr kernel_panic regs else mret tt) s'.
Proof.
  intros Hok Hv Hw Hh Hk Hm Hvec. destruct (init_run kernel_panic s Hok) as (t & Hr & Hokt & Hof).
  destruct (register_run v h (lput t s)) as (t' & Hr' & Hok' & Hof'); [by rewrite lget_lput|done|].
  rewrite lput_lput in Hr'. rewrite lget_lput in Hof'. exists (lput t' s).
  split_and!; [by rewrite (bind_ok _ _ _ _ _ Hr)|by rewrite lget_lput|].
  rewrite (dispatch_run call_isr call_irq regs w (lput t' s)); [|by rewrite lget_lput|done|done|by rewrite lget_other].
  rewrite lget_lput, Hof', Hof by done. destruct (Z.eqb_spec v w); [by destruct (Z.eqb_spec h 0)|].
  destruct (w <? 32); [by destruct (Z.eqb_spec kernel_panic 0)|done].
Qed.

(** C40: the hardware interrupt lines never stay inside their array:
    [irq_handlers] has 16 entries, and both the registration of a handler and
    the dispatcher index it with the vector itself, 32 to 47, for every such
    vector. *)
Theorem irq_vectors_out_of_bounds v h regs (s : St) :
  isr_ok (lget s) → 32 ≤ v < 48 → mapped regs 40 → ld32 (lget s) (regs + OFF_INTERRUPT_NUMBER) = v →
  register_irq_handler v h s = Stop (OutOfBounds v) s ∧
  master_exception_handler call_isr call_irq regs s = Stop (OutOfBounds v) s.
Proof.
  intros (_ & Hq & _) Hv Hm Hvec. split.
  - unfold register_irq_handler, arr_set. destruct (Z.leb_spec 32 v), (Z.ltb_spec v 48); try lia. cbn [andb].
    rewrite bind_gets, Hq. destruct (Z.leb_spec 0 v), (Z.ltb_spec v (Z.of_nat 16)); try lia. done.
  - unfold master_exception_handler, OFF_INTERRUPT_NUMBER in *.
    rewrite (bind_ok _ _ _ _ _ (load32_run (regs + 36) s ltac:(mapped_tac))), Hvec.
    destruct (Z.ltb_spec v 32), (Z.leb_spec 32 v), (Z.ltb_spec v 48); try lia. cbn [andb].
    rewrite bind_gets. unfold arr_get. destruct (Z.leb_spec 0 v); [|lia].
    rewrite lookup_ge_None_2 by lia. done.
Qed.
End isr_claims.

(** ** The theorems at a concrete table *)

Module IsrExample.
#[local] Existing Instances lens_fst lens_snd.

Definition tables0 : IsrTables := mkIsr (replicate 32 0) (replicate 16 0) (replicate 256 0).
(** Saved registers at 0x9000 with a given interrupt number. *)
Definition s0 (vector : Z) : mem * IsrTables := (st32 ∅ 0x9024 vector, tables0).
(** Calling a handler records its address at 0xA000. *)
Definition call0 (h regs : Z) : M (mem * IsrTables) unit := store32 0xA000 h.
Definition call1 (h : Z) : M (mem * IsrTables) unit := store32 0xA000 h.

Lemma isr_dispatches_registered_witness :
  ∃ s', (init_isr 0x100200 ;; register 14 0x100300) (s0 14) = Ok tt s' ∧ isr_ok (lget s') ∧
    master_exception_handler call0 call1 0x9000 s' =
      (if 14 =? 14 then call0 0x100300 0x9000 else if 14 <? 32 then call0 0x100200 0x9000 else mret tt) s'.
Proof.
  refine (isr_dispatches_registered (AP:=apart_fst_snd) call0 call1 0x100200 14 14 0x100300 0x9000 (s0 14) _ _ _ _ _ _ _);
    [done|left; lia|left; lia|done|done|done|vm_compute; reflexivity].
Defined.

Lemma irq_vectors_out_of_bounds_witness :
  register_irq_handler 33 0x100400 (s0 33) = Stop (OutOfBounds 33) (s0 33) ∧
  master_exception_handler call0 call1 0x9000 (s0 33) = Stop (OutOfBounds 33) (s0 33).
Proof.
  apply (irq_vectors_out_of_bounds call0 call1 33 0x100400 0x9000 (s0 33)); [done|lia|done|vm_compute; reflexivity].
Defined.
End IsrExample.
