(* ===== verification/Panic.v ===== *)
(** * Panic: the kernel's last screen
      (src/kernel/arch/i386/interrupts/panic.c)

    [kernel_panic] over the terminal, the strings and the memory; the report
    it is to show, as lines of text; the handler of page faults and the
    dispatcher in front of it. *)

From stdpp Require Import strings.
From S2P Require Import Prelude Memory KString PortIO Io VTerm Screen Isr.

(** ** The code *)

(** The bytes of a string literal, without its NUL. *)
Definition text (s : string) : list Z := map (λ c, Z.of_N (Ascii.N_of_ascii c)) (String.list_ascii_of_string s).

Definition exception_messages : list string := [
  "Division By Zero"; "Debug Exception"; "Non-Maskable Interrupt"; "Breakpoint";
  "Into Detected Overflow"; "Out of Bounds"; "Invalid Opcode"; "No Coprocessor";
  "Double Fault"; "Coprocessor Segment Overrun"; "Bad TSS"; "Segment Not Present";
  "Stack Fault"; "General Protection Fault"; "Page Fault"; "Unknown Exception";
  "x87 FPU Floating-Point Error"; "Alignment Check"; "Machine Check"; "SIMD Floating-Point Exception";
  "Virtualization Exception"; "Control Protection Exception"; "Reserved"; "Reserved"; "Reserved";
  "Reserved"; "Reserved"; "Reserved"; "Hypervisor Injection Exception"; "VMM Communication Exception";
  "Security Exception"; "Reserved"]%string.

(** After the interrupt number in [CpuRegisters]. *)
Definition OFF_ERROR_CODE : Z := 40.

Section panic.
Context {St : Type} `{LM : Lens St mem} `{LV : Lens St VTerm} `{LIO : Lens St Ports}.
(** Where the compiler places a literal, and the two local arrays. *)
Context (lit : string → Z) (panic_buffer addr_str : Z).
(** What [mov %cr2] reads. *)
Context (cr2 : Z).

Definition hex_to_string (value buffer : Z) : M St unit :=
  let hex_digits := lit "0123456789ABCDEF"%string in
  store8 buffer 48 ;;
  store8 (buffer + 1) 120 ;;
  ploop (λ '(i, value),
    if 0 <=? i then
      c ← load8 (hex_digits + Z.land value 0xF);
      store8 (buffer + (2 + i)) c ;;
      mret (inl (i - 1, Z.shiftr value 4))
    else mret (inr tt)) 16 (7, value) ;;
  store8 (buffer + 10) 0.

Definition print_line (row : Z) : M St unit := vterm_print_aligned row panic_buffer VTERM_ALIGN_CENTER.

(** The branch for interrupt 14; it returns the row it has come to. *)
Definition panic_page_fault (regs current_row : Z) : M St Z :=
  let faulting_address := cr2 in
  let current_row := current_row + 2 in
  hex_to_string faulting_address addr_str ;;
  kstrncpy (lit "Fault Address: ") panic_buffer SCREEN_COLS ;;
  kstrncat panic_buffer addr_str SCREEN_COLS ;;
  print_line current_row ;;
  err_code ← load32 (regs + OFF_ERROR_CODE);
  let present := negb (Z.land err_code (Z.shiftl 1 0) =? 0) in
  let write := negb (Z.land err_code (Z.shiftl 1 1) =? 0) in
  let user := negb (Z.land err_code (Z.shiftl 1 2) =? 0) in
  let inst_exec := negb (Z.land err_code (Z.shiftl 1 4) =? 0) in
  let current_row := current_row + 2 in
  (if user then kstrncpy (lit "Context: A user-mode program tried to ") panic_buffer SCREEN_COLS
   else kstrncpy (lit "Context: The kernel tried to ") panic_buffer SCREEN_COLS) ;;
  (if inst_exec then kstrncat panic_buffer (lit "EXECUTE code at this address.") SCREEN_COLS
   else if write then kstrncat panic_buffer (lit "WRITE data to this address.") SCREEN_COLS
   else kstrncat panic_buffer (lit "READ data from this address.") SCREEN_COLS) ;;
  print_line current_row ;;
  let current_row := current_row + 1 in
  (if negb present then kstrncpy (lit "Cause: This virtual address is NOT mapped in the page tables.") panic_buffer SCREEN_COLS
   else kstrncpy (lit "Cause: Access denied! Page is protected (e.g., writing to Read-Only).") panic_buffer SCREEN_COLS) ;;
  print_line current_row ;;
  mret current_row.

Definition kernel_panic (regs : Z) : M St unit :=
  interrupt ← load32 (regs + OFF_INTERRUPT_NUMBER);
  message ← arr_get (map lit exception_messages) interrupt;
  vterm_set_buffering_mode BUFFER_MODE_BLOCK ;;
  vterm_clear COLOR_WHITE COLOR_BLUE ;;
  vterm_set_color COLOR_WHITE COLOR_BLUE ;;
  vterm_set_cursor_visible false ;;
  let current_row := 2 in
  kstrncpy (lit ":( A problem has been detected and kdbOS has been shut down.") panic_buffer SCREEN_COLS ;;
  print_line current_row ;;
  let current_row := current_row + 2 in
  kstrncpy (lit "Reason: ") panic_buffer SCREEN_COLS ;;
  kstrncat panic_buffer message SCREEN_COLS ;;
  print_line current_row ;;
  current_row ← (if interrupt =? 14 then panic_page_fault regs current_row else mret current_row);
  let current_row := current_row + 3 in
  kstrncpy (lit "If this is the first time you've seen this, restart your computer.") panic_buffer SCREEN_COLS ;;
  print_line current_row ;;
  let current_row := current_row + 1 in
  kstrncpy (lit "If errors persist, check your build.") panic_buffer SCREEN_COLS ;;
  print_line current_row ;;
  vterm_flush ;;
  stop Halted.

(** The page-fault handler of paging.c. *)
Definition paging_page_fault_handler (regs : Z) : M St unit := kernel_panic regs.
End panic.

(** ** The report *)

(** Its lines: rows and texts. *)
Definition access_text (error : Z) : string :=
  if Z.testbit error 4 then "EXECUTE code at this address."
  else if Z.testbit error 1 then "WRITE data to this address." else "READ data from this address.".
Definition context_text (error : Z) : string :=
  if Z.testbit error 2 then "Context: A user-mode program tried to " else "Context: The kernel tried to ".
Definition cause_text (error : Z) : string :=
  if Z.testbit error 0 then "Cause: Access denied! Page is protected (e.g., writing to Read-Only)."
  else "Cause: This virtual address is NOT mapped in the page tables.".

Definition fault_lines (error address : Z) : list (Z * list Z) :=
  [(6, text "Fault Address: " ++ hex_text address); (8, text (context_text error) ++ text (access_text error));
   (9, text (cause_text error))].

Definition report (interrupt error address : Z) : list (Z * list Z) :=
  let last := if interrupt =? 14 then 9 else 4 in
  [(2, text ":( A problem has been detected and kdbOS has been shut down.");
   (4, text "Reason: " ++ text (nth (Z.to_nat interrupt) exception_messages ""%string))] ++
  (if interrupt =? 14 then fault_lines error address else []) ++
  [(last + 3, text "If this is the first time you've seen this, restart your computer.");
   (last + 4, text "If errors persist, check your build.")].

(** A screen of centred white lines on blue. *)
Definition blank_cell : VTermCell := mkCell 32 COLOR_WHITE COLOR_BLUE.
Fixpoint line_cell (ls : list (Z * list Z)) (r c : Z) : VTermCell :=
  match ls with
  | [] => blank_cell
  | (row, bs) :: ls =>
      let col := (SCREEN_COLS - zlen bs) / 2 in
      if (r =? row) && (col <=? c) && (c <? col + zlen bs)
      then mkCell (nth (Z.to_nat (c - col)) bs 0) COLOR_WHITE COLOR_BLUE
      else line_cell ls r c
  end.

Lemma line_cell_snoc ls row bs r c : row ∉ ls.*1 →
  line_cell (ls ++ [(row, bs)]) r c =
    let col := (SCREEN_COLS - zlen bs) / 2 in
    if (r =? row) && (col <=? c) && (c <? col + zlen bs)
    then mkCell (nth (Z.to_nat (c - col)) bs 0) COLOR_WHITE COLOR_BLUE else line_cell ls r c.
Proof.
  cbv zeta. induction ls as [|[row' bs'] ls IH]; intros Hrow; [done|]. cbn [line_cell app fmap list_fmap fst] in *.
  apply not_elem_of_cons in Hrow as [Hne Hrow]. rewrite IH by done.
  destruct (Z.eqb_spec r row') as [->|]; [|done]. destruct (Z.eqb_spec row' row) as [->|]; [done|]. cbn [andb]. by repeat case_match.
Qed.

(** ** Running it *)

Section run.
Context {St : Type} `{LM : Lens St mem} `{LV : Lens St VTerm} `{LIO : Lens St Ports}.
Context {AMV : Apart LM LV} {AMI : Apart LM LIO} {AVI : Apart LV LIO}.
Context (lit : string → Z) (panic_buffer addr_str : Z) (cr2 : Z).

(** The two local arrays. *)
Definition local (x : Z) : Prop := panic_buffer ≤ x < panic_buffer + 80 ∨ addr_str ≤ x < addr_str + 12.

(** A string in memory apart from them. *)
Record literal (m : mem) (a : Z) (bs : list Z) : Prop := {
  li_cstr : cstr m a bs;
  li_mapped : mapped a (zlen bs + 1);
  li_apart : ∀ x, a ≤ x ≤ a + zlen bs → ¬ local x
}.

Definition panic_literals : list string :=
  exception_messages ++
  ["0123456789ABCDEF"; ":( A problem has been detected and kdbOS has been shut down."; "Reason: "; "Fault Address: ";
   "Context: A user-mode program tried to "; "Context: The kernel tried to ";
   "EXECUTE code at this address."; "WRITE data to this address."; "READ data from this address.";
   "Cause: This virtual address is NOT mapped in the page tables.";
   "Cause: Access denied! Page is protected (e.g., writing to Read-Only).";
   "If this is the first time you've seen this, restart your computer."; "If errors persist, check your build."]%string.

(** The literals are in memory; the arrays are in the kernel's window, apart
    from each other, from the saved registers and from the framebuffer. *)
Record panic_ready (m : mem) (regs : Z) : Prop := {
  pr_literals : Forall (λ t, literal m (lit t) (text t)) panic_literals;
  pr_buffer : mapped panic_buffer 80;
  pr_addr : mapped addr_str 12;
  pr_arrays : panic_buffer + 80 ≤ addr_str ∨ addr_str + 12 ≤ panic_buffer;
  pr_off : off_framebuffer panic_buffer 80;
  pr_regs : mapped regs 44;
  pr_regs_apart : ∀ x, regs ≤ x < regs + 44 → ¬ local x
}.

(** The screen buffer holds the lines; only the arrays were written. *)
Record drawn (m0 : mem) (ls : list (Z * list Z)) (s : St) : Prop := {
  dr_ok : vt_ok (lget s);
  dr_mode : current_mode (lget s) = BUFFER_MODE_BLOCK;
  dr_colors : current_fg (lget s) = COLOR_WHITE ∧ current_bg (lget s) = COLOR_BLUE;
  dr_cells : ∀ r c, on_screen r c → cell_at (lget s) r c = line_cell ls r c;
  dr_mem : ∀ x, ¬ local x → get8 (lget s) x = get8 m0 x
}.

(** Writing an array keeps it. *)
Lemma drawn_mem m0 ls s (m : mem) : drawn m0 ls s → (∀ x, ¬ local x → get8 m x = get8 (lget s) x) → drawn m0 ls (lput m s).
Proof.
  intros [] Hx. constructor; rewrite ?(lget_other' (L:=LM) (K:=LV)), ?lget_lput; try done.
  intros x Hl. rewrite Hx by done. auto.
Qed.

Lemma literal_drawn m0 ls s a bs : drawn m0 ls s → literal m0 a bs → literal (lget s) a bs.
Proof. intros Hd []. constructor; [|done|done]. eapply cstr_ext; [done|]. intros x Hx. apply (dr_mem _ _ _ Hd). auto. Qed.

(** A text of the report is shorter than a row. *)
Definition fits (bs : list Z) : Prop := Forall visible_char bs ∧ zlen bs < SCREEN_COLS.

Lemma literal_apart m a bs k : literal m a bs → 0 < k → k ≤ 80 → a + zlen bs < panic_buffer ∨ panic_buffer + k ≤ a ∨ panic_buffer + 80 ≤ a.
Proof.
  intros [_ _ Ha] Hk Hk80. destruct (Z.lt_ge_cases (a + zlen bs) panic_buffer); [by left|].
  destruct (Z.le_gt_cases (panic_buffer + 80) a); [by right; right|].
  exfalso. apply (Ha (Z.max a panic_buffer)); [lia|left; lia].
Qed.

(** [kstrncpy] of a text, [kstrncat] of another and the line. *)
Lemma copy_text_run m0 ls s a bs : drawn m0 ls s → mapped panic_buffer 80 → cstr (lget s) a bs → mapped a (zlen bs + 1) →
  (a + zlen bs < panic_buffer ∨ panic_buffer + 80 ≤ a) → zlen bs < SCREEN_COLS →
  ∃ s', kstrncpy a panic_buffer SCREEN_COLS s = Ok panic_buffer s' ∧ drawn m0 ls s' ∧ cstr (lget s') panic_buffer bs ∧
    ∀ x, x < panic_buffer ∨ panic_buffer + 80 ≤ x → get8 (lget s') x = get8 (lget s) x.
Proof.
  intros Hd Hb Hc Hm Hap Hlen. unfold SCREEN_COLS in *.
  destruct (kstrncpy_run a panic_buffer 80 bs s Hc Hm) as (m' & R & Hc' & Hx); [lia|mapped_tac|lia|].
  rewrite take_ge in Hc' by lia. exists (lput m' s). rewrite lget_lput. split_and!; [done| |done|].
  - apply drawn_mem; [done|]. intros x Hl. apply Hx. intros Hin. apply Hl. left. lia.
  - intros x Hout. apply Hx. lia.
Qed.

Lemma append_text_run m0 ls s a ds bs : drawn m0 ls s → mapped panic_buffer 80 → cstr (lget s) panic_buffer ds → cstr (lget s) a bs → mapped a (zlen bs + 1) →
  (a + zlen bs < panic_buffer ∨ panic_buffer + 80 ≤ a) → zlen (ds ++ bs) < SCREEN_COLS →
  ∃ s', kstrncat panic_buffer a SCREEN_COLS s = Ok panic_buffer s' ∧ drawn m0 ls s' ∧ cstr (lget s') panic_buffer (ds ++ bs).
Proof.
  intros Hd Hb Hcd Hc Hm Hap Hlen. rewrite length_app in Hlen. unfold SCREEN_COLS in *.
  destruct (kstrncat_run panic_buffer a 80 ds bs s Hcd Hc Hm) as (m' & R & Hc' & Hx); [lia|mapped_tac|lia|].
  rewrite take_ge in Hc' by (rewrite length_app; lia). exists (lput m' s). rewrite lget_lput. split_and!; [done| |done].
  apply drawn_mem; [done|]. intros x Hl. apply Hx. intros Hin. apply Hl. left. lia.
Qed.

Lemma print_line_run m0 ls s row bs : drawn m0 ls s → mapped panic_buffer 80 → off_framebuffer panic_buffer 80 → cstr (lget s) panic_buffer bs → fits bs →
  0 ≤ row < SCREEN_ROWS → row ∉ ls.*1 → ∃ s', print_line panic_buffer row s = Ok tt s' ∧ drawn m0 (ls ++ [(row, bs)]) s'.
Proof.
  intros [Hok Hmode [Hf Hb] Hcells Hm] Hbuf Hoff Hc [Hv Hlen] Hrow Hin. unfold SCREEN_COLS in Hlen.
  destruct (print_aligned_run s (lget s) (lget s) row panic_buffer bs VTERM_ALIGN_CENTER ltac:(by split) Hok Hrow Hc Hv Hlen)
    as (s' & v' & m' & R & [Ev Em] & Hok' & _ & _ & Hcells' & Hst); [mapped_tac|unfold off_framebuffer in *; lia|].
  destruct Hst as (Hst & Hmode' & Hf' & Hb'). rewrite Hmode in Hst. subst m'. exists s'. split; [done|]. subst v'. constructor.
  - done.
  - congruence.
  - split; congruence.
  - intros r c Hon. rewrite Hcells', line_cell_snoc by done. unfold text_cell. rewrite Hf, Hb, Hcells by done. done.
  - intros x Hx. rewrite Hst. auto.
Qed.

(** The start: a blank screen in block mode, without a cursor. *)
Lemma start_run s m : lget s = m →
  ∃ s', (∀ k : M St unit, (vterm_set_buffering_mode BUFFER_MODE_BLOCK ;; vterm_clear COLOR_WHITE COLOR_BLUE ;;
    vterm_set_color COLOR_WHITE COLOR_BLUE ;; vterm_set_cursor_visible false ;; k) s = k s') ∧ drawn m [] s'.
Proof.
  intros Hm. unfold vterm_set_buffering_mode, vterm_set_color.
  set (v := lget (T:=VTerm) s). assert (vat (λ _ : St, tt) tt s v m) as H0 by done.
  destruct (vrun_modify (λ _, tt) tt ltac:(done) s v m (set_mode BUFFER_MODE_BLOCK) H0) as (s1 & R1 & H1).
  destruct (clear_run (λ _, tt) tt ltac:(done) ltac:(done) ltac:(done) COLOR_WHITE COLOR_BLUE s1 _ m H1) as (v2 & m2 & (s2 & R2 & H2) & [Hok Hcells Hcur [Hf Hb] Hmode _] & _ & Hm2); [done|done|].
  cbn in Hm2. subst m2. destruct (vrun_modify (λ _, tt) tt ltac:(done) s2 v2 m (set_colors COLOR_WHITE COLOR_BLUE) H2) as (s3 & R3 & (Ev & Em & _)).
  eexists. split.
  { intros k. rewrite (bind_ok _ _ _ _ _ R1), (bind_ok _ _ _ _ _ R2), (bind_ok _ _ _ _ _ R3).
    unfold vterm_set_cursor_visible, modify. rewrite !bind_assoc, bind_gets, bind_puts, bind_assoc, bind_outb, bind_assoc, bind_inb. cbn [negb].
    rewrite bind_outb. reflexivity. }
  constructor; lens; rewrite ?Ev, ?Em.
  - pose proof (set_colors_ok v2 COLOR_WHITE COLOR_BLUE Hok ltac:(unfold COLOR_WHITE; lia) ltac:(unfold COLOR_BLUE; lia)) as H5.
    destruct H5 as [H5 H6 [H7 H8 H9]].
    constructor; [exact H5|exact H6|].
    constructor; [exact H7|exact H8|].
    exact H9.
  - exact Hmode.
  - by split.
  - intros r c Hon. exact (Hcells r c Hon).
  - intros x _. reflexivity.
Qed.

Lemma finish_run m0 ls s : drawn m0 ls s →
  ∃ s', (vterm_flush ;; stop Halted : M St unit) s = Stop Halted s' ∧
    (∀ r c, on_screen r c → cell_at (lget s') r c = line_cell ls r c) ∧ mirror (lget s') (lget s') ∧
    ∀ x, ¬ local x → ¬ in_framebuffer x → get8 (lget s') x = get8 m0 x.
Proof.
  intros [Hok Hmode _ Hcells Hm].
  destruct (flush_run (λ _, tt) tt ltac:(done) ltac:(done) ltac:(done) s (lget s) (lget s)) as (m' & (s' & R & (Ev & Em & _)) & Hmir & Hsame); [done|done|].
  exists s'. rewrite (bind_ok _ _ _ _ _ R), Ev, Em. split_and!; [done|done|done|].
  intros x Hx Hfb. rewrite Hsame by done. auto.
Qed.

(** One byte of [hex_to_string]. *)
Lemma hex_char_at m bs k : cstr m (lit "0123456789ABCDEF") bs → bs = text "0123456789ABCDEF" → 0 ≤ k < 16 →
  get8 m (lit "0123456789ABCDEF" + k) = nth (Z.to_nat k) hex_chars 0.
Proof.
  intros Hc -> Hk. destruct (cstr_get _ _ _ k Hc) as (b & Hb & -> & _); [done|].
  change (text "0123456789ABCDEF") with hex_chars in Hb. symmetry. by apply nth_lookup_Some.
Qed.
Lemma hex_digits_nth val j : 0 ≤ j < 8 → nth (Z.to_nat j) (hex_digits val) 0 = nth (Z.to_nat (hex_nibble val j)) hex_chars 0.
Proof.
  intros Hj. unfold hex_digits. apply nth_lookup_Some. rewrite list_lookup_fmap, lookup_seqZ_lt by lia. cbn.
  by replace (0 + Z.of_nat (Z.to_nat j)) with j by lia.
Qed.

(** [hex_to_string] leaves the text of the value in the array. *)
Lemma hex_to_string_run m0 ls s value : drawn m0 ls s → literal (lget s) (lit "0123456789ABCDEF") (text "0123456789ABCDEF") →
  mapped addr_str 12 → ∃ s', hex_to_string lit value addr_str s = Ok tt s' ∧ drawn m0 ls s' ∧ cstr (lget s') addr_str (hex_text value).
Proof.
  intros Hd [Hc Hmap Hap] Hb. set (ha := lit "0123456789ABCDEF") in *. change (zlen (text "0123456789ABCDEF")) with 16 in *.
  unfold hex_to_string. fold ha. unfold mapped, IDENT_LO, IDENT_HI in *. mrun.
  set (m1 := set8 (set8 (lget s) addr_str 48) (addr_str + 1) 120).
  pose (Inv := λ (i : Z) (m : mem), (∀ j, i < j ≤ 7 → get8 m (addr_str + (2 + j)) = nth (Z.to_nat (hex_nibble value j)) hex_chars 0) ∧
      ∀ x, ¬ (addr_str + 2 ≤ x < addr_str + 10) → get8 m x = get8 m1 x).
  destruct (ploop_rule (St:=St) (λ '(i, v), if 0 <=? i then c ← load8 (ha + Z.land v 0xF); store8 (addr_str + (2 + i)) c ;; mret (inl (i - 1, Z.shiftr v 4)) else mret (inr tt))
    (λ '(i, v) s', -1 ≤ i ≤ 7 ∧ v = Z.shiftr value (28 - i * 4) ∧ ∃ m, s' = lput m s ∧ Inv i m)
    (λ _ s', ∃ m, s' = lput m s ∧ Inv (-1) m)
    (λ '(i, _), Z.to_nat (i + 1)) 16 (7, value) (lput m1 s)) as ([] & s' & R & m2 & -> & Hdig & Hrest).
  - intros [i v] s1 (Hi & -> & m & -> & Hdig & Hrest). destruct (Z.leb_spec 0 i).
    + left. set (n := Z.land (Z.shiftr value (28 - i * 4)) 15). assert (0 ≤ n < 16) as Hn by (apply (hex_nibble_range value i)).
      exists (i - 1, Z.shiftr (Z.shiftr value (28 - i * 4)) 4). rewrite Z.shiftr_shiftr by lia. mrun.
      eexists. split; [reflexivity|]. split; [|lia]. split; [lia|]. split; [f_equal; lia|]. eexists. split; [reflexivity|]. split.
      * assert (get8 m (ha + n) = nth (Z.to_nat n) hex_chars 0) as Hbyte.
        { rewrite Hrest; [|intros Hin; apply (Hap (ha + n)); [lia|right; lia]].
          unfold m1. rewrite !get8_set8_ne by (intros ?; apply (Hap (ha + n)); [lia|right; lia]).
          by apply (hex_char_at _ (text "0123456789ABCDEF")). }
        intros j Hj. destruct (Z.eq_dec j i) as [->|].
        -- rewrite get8_set8, u8_get8. exact Hbyte.
        -- rewrite get8_set8_ne by lia. apply Hdig. lia.
      * intros x Hx. rewrite get8_set8_ne by lia. by apply Hrest.
    + right. exists tt, (lput m s). split; [done|]. exists m. split; [done|]. by replace (-1) with i by lia.
  - split; [lia|]. split; [done|]. exists m1. split; [done|]. split; [lia|done].
  - cbn. lia.
  - rewrite (bind_ok _ _ _ _ _ R). mrun. eexists. split; [reflexivity|]. rewrite lget_lput.
    assert (∀ x, x < addr_str ∨ addr_str + 11 ≤ x → get8 m2 x = get8 (lget s) x) as Hout.
    { intros x Hx. rewrite Hrest by lia. unfold m1. by rewrite !get8_set8_ne by lia. }
    split.
    + apply drawn_mem; [done|]. intros x Hx. unfold local in Hx. rewrite get8_set8_ne by (intros E; apply Hx; right; lia). apply Hout.
      destruct (Z.lt_ge_cases x addr_str); [by left|]. right. destruct (Z.le_gt_cases (addr_str + 12) x); [lia|]. exfalso. apply Hx. right. lia.
    + apply cstr_intro.
      * intros i b Hi. pose proof (lookup_lt_Some _ _ _ Hi) as Hlt. unfold hex_text in *. cbn [length] in Hlt. change (length (hex_digits value)) with 8%nat in Hlt.
        destruct i as [|[|i]]; cbn in Hi.
        -- injection Hi as <-. split; [|done]. rewrite get8_set8_ne, Hrest by lia. unfold m1. rewrite get8_set8_ne, Z.add_0_r, get8_set8 by lia. done.
        -- injection Hi as <-. split; [|done]. rewrite get8_set8_ne, Hrest by lia. unfold m1. by rewrite get8_set8.
        -- assert (b = nth (Z.to_nat (hex_nibble value (Z.of_nat i))) hex_chars 0) as ->.
           { rewrite <- hex_digits_nth, Nat2Z.id by lia. symmetry. by apply nth_lookup_Some. }
           rewrite get8_set8_ne by lia. replace (addr_str + Z.of_nat (S (S i))) with (addr_str + (2 + Z.of_nat i)) by lia.
           split; [by apply Hdig; lia|]. destruct (hex_char_cases _ (hex_nibble_range value (Z.of_nat i))) as [_ Hv].
           pose proof (hex_nibble_range value (Z.of_nat i)). intros E. rewrite E in Hv. unfold digit_value in Hv. cbn in Hv. lia.
      * change (zlen (hex_text value)) with 10. by rewrite get8_set8.
Qed.
(** A literal of the code is in the list. *)
Ltac lit_tac := apply (bool_decide_unpack _); vm_compute; exact I.

Definition fitsb (bs : list Z) : bool :=
  forallb (λ c, (0 <=? c) && (c <? 256) && negb (c =? 8) && negb (c =? 10)) bs && (zlen bs <? SCREEN_COLS).
Lemma fitsb_ok bs : fitsb bs = true → fits bs.
Proof.
  intros [H1 H2%Z.ltb_lt]%andb_true_iff. split; [|done]. apply Forall_forall. intros c Hc. rewrite forallb_forall in H1.
  apply list_elem_of_In, H1 in Hc. unfold visible_char. lia.
Qed.

Lemma ready_literal m regs t : panic_ready m regs → t ∈ panic_literals → literal m (lit t) (text t).
Proof. intros H Ht. pose proof (pr_literals _ _ H) as Hl. rewrite Forall_forall in Hl. auto. Qed.

(** One literal, and two, as a line. *)
Lemma text_line_run m0 regs ls s t row : panic_ready m0 regs → drawn m0 ls s → t ∈ panic_literals → fitsb (text t) = true →
  0 ≤ row < SCREEN_ROWS → row ∉ ls.*1 →
  ∃ s', (∀ B (k : M St B), (kstrncpy (lit t) panic_buffer SCREEN_COLS ;; print_line panic_buffer row ;; k) s = k s') ∧ drawn m0 (ls ++ [(row, text t)]) s'.
Proof.
  intros Hp Hd Ht Hfit%fitsb_ok Hrow Hin. pose proof (literal_drawn _ _ _ _ _ Hd (ready_literal _ _ _ Hp Ht)) as Hl.
  pose proof Hl as [Hc Hm _]. pose proof (literal_apart _ _ _ 80 Hl ltac:(lia) ltac:(lia)) as Ha.
  destruct (copy_text_run m0 ls s _ _ Hd (pr_buffer _ _ Hp) Hc Hm) as (s1 & R1 & D1 & C1 & _); [lia|apply Hfit|].
  destruct (print_line_run m0 ls s1 row _ D1 (pr_buffer _ _ Hp) (pr_off _ _ Hp) C1 Hfit Hrow Hin) as (s2 & R2 & D2).
  exists s2. split; [|done]. intros B k. by rewrite (bind_ok _ _ _ _ _ R1), (bind_ok _ _ _ _ _ R2).
Qed.

Lemma two_texts_run m0 regs ls s t u row : panic_ready m0 regs → drawn m0 ls s → t ∈ panic_literals → u ∈ panic_literals →
  fitsb (text t ++ text u) = true → 0 ≤ row < SCREEN_ROWS → row ∉ ls.*1 →
  ∃ s', (∀ B (k : M St B), (kstrncpy (lit t) panic_buffer SCREEN_COLS ;; kstrncat panic_buffer (lit u) SCREEN_COLS ;; print_line panic_buffer row ;; k) s = k s') ∧
    drawn m0 (ls ++ [(row, text t ++ text u)]) s'.
Proof.
  intros Hp Hd Ht Hu Hfit%fitsb_ok Hrow Hin. pose proof (literal_drawn _ _ _ _ _ Hd (ready_literal _ _ _ Hp Ht)) as Hl.
  pose proof Hl as [Hc Hm _]. pose proof (literal_apart _ _ _ 80 Hl ltac:(lia) ltac:(lia)) as Ha.
  destruct (copy_text_run m0 ls s _ _ Hd (pr_buffer _ _ Hp) Hc Hm) as (s1 & R1 & D1 & C1 & _); [lia| |].
  { destruct Hfit as [_ Hlen]. rewrite length_app in Hlen. lia. }
  pose proof (literal_drawn _ _ _ _ _ D1 (ready_literal _ _ _ Hp Hu)) as Hl'. pose proof Hl' as [Hc' Hm' _].
  pose proof (literal_apart _ _ _ 80 Hl' ltac:(lia) ltac:(lia)) as Ha'.
  destruct (append_text_run m0 ls s1 _ _ _ D1 (pr_buffer _ _ Hp) C1 Hc' Hm') as (s2 & R2 & D2 & C2); [lia|apply Hfit|].
  destruct (print_line_run m0 ls s2 row _ D2 (pr_buffer _ _ Hp) (pr_off _ _ Hp) C2 Hfit Hrow Hin) as (s3 & R3 & D3).
  exists s3. split; [|done]. intros B k. by rewrite (bind_ok _ _ _ _ _ R1), (bind_ok _ _ _ _ _ R2), (bind_ok _ _ _ _ _ R3).
Qed.

(** The line with the fault address. *)
Lemma address_line_run m0 regs ls s row : panic_ready m0 regs → drawn m0 ls s → 0 ≤ row < SCREEN_ROWS → row ∉ ls.*1 →
  ∃ s', (∀ B (k : M St B), (hex_to_string lit cr2 addr_str ;; kstrncpy (lit "Fault Address: ") panic_buffer SCREEN_COLS ;;
      kstrncat panic_buffer addr_str SCREEN_COLS ;; print_line panic_buffer row ;; k) s = k s') ∧
    drawn m0 (ls ++ [(row, text "Fault Address: " ++ hex_text cr2)]) s'.
Proof.
  intros Hp Hd Hrow Hin.
  assert (∀ s t, drawn m0 ls s → t ∈ panic_literals → literal (lget s) (lit t) (text t)) as Hlit.
  { intros s1 t Hs Ht. by apply (literal_drawn m0 ls s1 _ _ Hs), (ready_literal _ _ _ Hp). }
  destruct (hex_to_string_run m0 ls s cr2 Hd (Hlit s "0123456789ABCDEF"%string Hd ltac:(lit_tac)) (pr_addr _ _ Hp)) as (s1 & R1 & D1 & C1).
  pose proof (Hlit s1 "Fault Address: "%string D1 ltac:(lit_tac)) as Hl. pose proof Hl as [Hc Hm _].
  pose proof (literal_apart _ _ _ 80 Hl ltac:(lia) ltac:(lia)) as Ha. pose proof (pr_arrays _ _ Hp) as Harr.
  destruct (copy_text_run m0 ls s1 _ _ D1 (pr_buffer _ _ Hp) Hc Hm) as (s2 & R2 & D2 & C2 & X2); [lia|done|].
  assert (cstr (lget s2) addr_str (hex_text cr2)) as C1'.
  { eapply cstr_ext; [exact C1|]. change (zlen (hex_text cr2)) with 10. intros x Hx. apply X2. lia. }
  assert (fits (text "Fault Address: " ++ hex_text cr2)) as Hfit.
  { split; [|done]. apply Forall_app. split; [by apply fitsb_ok|apply hex_text_visible]. }
  pose proof (pr_addr _ _ Hp) as Hma.
  destruct (append_text_run m0 ls s2 _ _ _ D2 (pr_buffer _ _ Hp) C2 C1') as (s3 & R3 & D3 & C3);
    [change (zlen (hex_text cr2)) with 10; mapped_tac|change (zlen (hex_text cr2)) with 10; lia|apply Hfit|].
  destruct (print_line_run m0 ls s3 row _ D3 (pr_buffer _ _ Hp) (pr_off _ _ Hp) C3 Hfit Hrow Hin) as (s4 & R4 & D4).
  exists s4. split; [|done]. intros B k. by rewrite (bind_ok _ _ _ _ _ R1), (bind_ok _ _ _ _ _ R2), (bind_ok _ _ _ _ _ R3), (bind_ok _ _ _ _ _ R4).
Qed.
Lemma context_code err : (if negb (Z.land err (Z.shiftl 1 2) =? 0) then kstrncpy (lit "Context: A user-mode program tried to ") panic_buffer SCREEN_COLS
   else kstrncpy (lit "Context: The kernel tried to ") panic_buffer SCREEN_COLS) = (kstrncpy (lit (context_text err)) panic_buffer SCREEN_COLS : M St Z).
Proof. rewrite land_shiftl1 by done. unfold context_text. by destruct (Z.testbit err 2). Qed.
Lemma access_code err : (if negb (Z.land err (Z.shiftl 1 4) =? 0) then kstrncat panic_buffer (lit "EXECUTE code at this address.") SCREEN_COLS
   else if negb (Z.land err (Z.shiftl 1 1) =? 0) then kstrncat panic_buffer (lit "WRITE data to this address.") SCREEN_COLS
   else kstrncat panic_buffer (lit "READ data from this address.") SCREEN_COLS) = (kstrncat panic_buffer (lit (access_text err)) SCREEN_COLS : M St Z).
Proof. rewrite !land_shiftl1 by done. unfold access_text. by destruct (Z.testbit err 4), (Z.testbit err 1). Qed.
Lemma cause_code err : (if negb (negb (Z.land err (Z.shiftl 1 0) =? 0)) then kstrncpy (lit "Cause: This virtual address is NOT mapped in the page tables.") panic_buffer SCREEN_COLS
   else kstrncpy (lit "Cause: Access denied! Page is protected (e.g., writing to Read-Only).") panic_buffer SCREEN_COLS) =
  (kstrncpy (lit (cause_text err)) panic_buffer SCREEN_COLS : M St Z).
Proof. rewrite land_shiftl1 by done. unfold cause_text. by destruct (Z.testbit err 0). Qed.

Lemma fault_texts err : context_text err ∈ panic_literals ∧ access_text err ∈ panic_literals ∧ cause_text err ∈ panic_literals ∧
  fitsb (text (context_text err) ++ text (access_text err)) = true ∧ fitsb (text (cause_text err)) = true.
Proof.
  unfold context_text, access_text, cause_text.
  split_and!; repeat case_match; first [lit_tac|reflexivity].
Qed.

Lemma page_fault_run m0 regs ls s : panic_ready m0 regs → drawn m0 ls s → 6 ∉ ls.*1 → 8 ∉ ls.*1 → 9 ∉ ls.*1 →
  ∃ s', panic_page_fault lit panic_buffer addr_str cr2 regs 4 s = Ok 9 s' ∧ drawn m0 (ls ++ fault_lines (ld32 m0 (regs + OFF_ERROR_CODE)) cr2) s'.
Proof.
  intros Hp Hd H6 H8 H9. unfold panic_page_fault. cbv zeta. change (4 + 2) with 6. change (6 + 2) with 8. change (8 + 1) with 9.
  destruct (address_line_run m0 regs ls s 6 Hp Hd) as (s1 & R1 & D1); [done|done|]. rewrite R1.
  assert (mapped (regs + OFF_ERROR_CODE) 4) as Hm by (pose proof (pr_regs _ _ Hp); unfold OFF_ERROR_CODE; mapped_tac).
  rewrite (bind_ok _ _ _ _ _ (load32_run (regs + OFF_ERROR_CODE) s1 Hm)).
  assert (ld32 (lget s1) (regs + OFF_ERROR_CODE) = ld32 m0 (regs + OFF_ERROR_CODE)) as ->.
  { unfold ld32. unfold OFF_ERROR_CODE in *. by rewrite !(dr_mem _ _ _ D1) by (apply (pr_regs_apart _ _ Hp); lia). }
  set (err := ld32 m0 (regs + OFF_ERROR_CODE)) in *. rewrite context_code, access_code, cause_code.
  destruct (fault_texts err) as (Hc & Ha & Hcs & F1 & F2).
  destruct (two_texts_run m0 regs _ s1 _ _ 8 Hp D1 Hc Ha F1) as (s2 & R2 & D2); [done| |].
  { rewrite fmap_app, not_elem_of_app. split; [done|]. cbn. by rewrite list_elem_of_singleton. }
  rewrite R2. destruct (text_line_run m0 regs _ s2 _ 9 Hp D2 Hcs F2) as (s3 & R3 & D3); [done| |].
  { rewrite !fmap_app, !not_elem_of_app. split_and!; [done|..]; cbn; by rewrite list_elem_of_singleton. }
  rewrite R3. exists s3. split; [done|]. by rewrite <- !app_assoc in D3.
Qed.

Lemma messages_fit : Forall (λ t, t ∈ panic_literals ∧ fitsb (text "Reason: " ++ text t) = true) exception_messages.
Proof. repeat (apply Forall_cons; split; [split; [lit_tac|reflexivity]|]). by apply Forall_nil_2. Qed.

(** The last two lines and the flush. *)
Lemma closing_run m0 regs ls s row : panic_ready m0 regs → drawn m0 ls s → 0 ≤ row < 21 → row + 3 ∉ ls.*1 → row + 4 ∉ ls.*1 →
  ∃ s', (kstrncpy (lit "If this is the first time you've seen this, restart your computer.") panic_buffer SCREEN_COLS ;;
      print_line panic_buffer (row + 3) ;;
      kstrncpy (lit "If errors persist, check your build.") panic_buffer SCREEN_COLS ;;
      print_line panic_buffer (row + 3 + 1) ;; vterm_flush ;; stop Halted : M St unit) s = Stop Halted s' ∧
    let ls' := ls ++ [(row + 3, text "If this is the first time you've seen this, restart your computer."); (row + 4, text "If errors persist, check your build.")] in
    (∀ r c, on_screen r c → cell_at (lget s') r c = line_cell ls' r c) ∧ mirror (lget s') (lget s') ∧
    ∀ x, ¬ local x → ¬ in_framebuffer x → get8 (lget s') x = get8 m0 x.
Proof.
  intros Hp Hd Hrow H3 H4.
  destruct (text_line_run m0 regs ls s "If this is the first time you've seen this, restart your computer." (row + 3) Hp Hd ltac:(lit_tac) eq_refl) as (s1 & R1 & D1);
    [unfold SCREEN_ROWS; lia|done|]. rewrite R1. replace (row + 3 + 1) with (row + 4) by lia.
  destruct (text_line_run m0 regs _ s1 "If errors persist, check your build." (row + 4) Hp D1 ltac:(lit_tac) eq_refl) as (s2 & R2 & D2);
    [unfold SCREEN_ROWS; lia| |].
  { rewrite fmap_app, not_elem_of_app. split; [done|]. cbn. rewrite list_elem_of_singleton. lia. }
  rewrite R2, <- app_assoc in *. destruct (finish_run m0 _ s2 D2) as (s' & R & Hs'). by exists s'.
Qed.

(** The whole of it. *)
Lemma kernel_panic_run s regs i : panic_ready (lget s) regs → ld32 (lget s) (regs + OFF_INTERRUPT_NUMBER) = i → 0 ≤ i < 32 →
  ∃ s', kernel_panic lit panic_buffer addr_str cr2 regs s = Stop Halted s' ∧
    (∀ r c, on_screen r c → cell_at (lget s') r c = line_cell (report i (ld32 (lget s) (regs + OFF_ERROR_CODE)) cr2) r c) ∧
    mirror (lget s') (lget s') ∧ ∀ x, ¬ local x → ¬ in_framebuffer x → get8 (lget s') x = get8 (lget s) x.
Proof.
  intros Hp Hint Hi. unfold kernel_panic.
  assert (mapped (regs + OFF_INTERRUPT_NUMBER) 4) as Hm by (pose proof (pr_regs _ _ Hp); unfold OFF_INTERRUPT_NUMBER; mapped_tac).
  rewrite (bind_ok _ _ _ _ _ (load32_run (regs + OFF_INTERRUPT_NUMBER) s Hm)), Hint.
  rewrite (bind_ok _ _ _ _ _ (arr_get_ok (map lit exception_messages) i s Hi)). cbv zeta.
  destruct (lookup_lt_is_Some_2 exception_messages (Z.to_nat i)) as [t Ht]; [cbn; lia|].
  assert (nth (Z.to_nat i) (map lit exception_messages) 0 = lit t) as -> by (apply nth_lookup_Some; by rewrite list_lookup_fmap, Ht).
  assert (text (nth (Z.to_nat i) exception_messages ""%string) = text t) as Et by (by rewrite (nth_lookup_Some _ _ _ _ Ht)).
  pose proof messages_fit as Hmsg. rewrite Forall_lookup in Hmsg. destruct (Hmsg _ _ Ht) as [Hin Hfit]. clear Hmsg.
  set (m0 := lget s) in *. destruct (start_run s m0 eq_refl) as (s1 & R1 & D1). rewrite R1.
  destruct (text_line_run m0 regs [] s1 ":( A problem has been detected and kdbOS has been shut down." 2 Hp D1 ltac:(lit_tac) eq_refl) as (s2 & R2 & D2); [done|by apply not_elem_of_nil|].
  rewrite R2. change (2 + 2) with 4.
  destruct (two_texts_run m0 regs _ s2 "Reason: " t 4 Hp D2 ltac:(lit_tac) Hin Hfit) as (s3 & R3 & D3); [done|cbn; by rewrite list_elem_of_singleton|].
  rewrite R3. unfold report. rewrite Et. clear Ht Et Hfit Hin. destruct (Z.eqb_spec i 14) as [->|Hne].
  - destruct (page_fault_run m0 regs _ s3 Hp D3) as (s4 & R4 & D4); [lit_tac..|].
    rewrite (bind_ok _ _ _ _ _ R4). destruct (closing_run m0 regs _ s4 9 Hp D4) as (s' & R & Hs'); [done|lit_tac..|].
    exists s'. split; [exact R|exact Hs'].
  - rewrite bind_ret. destruct (closing_run m0 regs _ s3 4 Hp D3) as (s' & R & Hs'); [done|lit_tac..|].
    exists s'. split; [exact R|exact Hs'].
Qed.
End run.

(** ** The claim *)

Section claim.
Context {St : Type} `{LM : Lens St mem} `{LV : Lens St VTerm} `{LIO : Lens St Ports} `{LI : Lens St IsrTables}.
Context {AMV : Apart LM LV} {AMI : Apart LM LIO} {AVI : Apart LV LIO} {AI : Apart LM LI}.
Context (lit : string → Z) (panic_buffer addr_str : Z) (cr2 : Z).
(** Calls through a pointer, and the addresses of the two handlers. *)
Context (call_isr : Z → Z → M St unit) (call_irq : Z → M St unit) (panic_at page_fault_at : Z).

(** C15: with the handlers [init_isr] and [paging_init] register, every
    processor exception ends in a halt, never in a fault, with the report on
    the screen: the exception's name, for a page fault the address in
    hexadecimal and what the error code says, each line centred in its row,
    every other cell blank. The framebuffer shows it, and outside it only the
    two local arrays of [kernel_panic] were written. *)
Theorem exception_reported v regs (s : St) :
  isr_ok (lget s) → 0 ≤ v < 32 → panic_at ≠ 0 → page_fault_at ≠ 0 →
  (∀ r, call_isr panic_at r = kernel_panic lit panic_buffer addr_str cr2 r) →
  (∀ r, call_isr page_fault_at r = paging_page_fault_handler lit panic_buffer addr_str cr2 r) →
  panic_ready lit panic_buffer addr_str (lget s) regs → ld32 (lget s) (regs + OFF_INTERRUPT_NUMBER) = v →
  ∃ s1 s', (init_isr panic_at ;; register_cpu_handler 14 page_fault_at) s = Ok tt s1 ∧
    master_exception_handler call_isr call_irq regs s1 = Stop Halted s' ∧
    (∀ r c, on_screen r c → cell_at (lget s') r c = line_cell (report v (ld32 (lget s) (regs + OFF_ERROR_CODE)) cr2) r c) ∧
    mirror (lget s') (lget s') ∧
    ∀ x, ¬ local panic_buffer addr_str x → ¬ in_framebuffer x → get8 (lget s') x = get8 (lget s) x.
Proof.
  intros Hok Hv Hp Hf Hcp Hcf Hready Hint. destruct (init_run panic_at s Hok) as (t & R & Hokt & Hof).
  destruct (register_run 14 page_fault_at (lput t s)) as (t' & R' & Hok' & Hof'); [by rewrite lget_lput|by left|].
  rewrite lput_lput in R'. rewrite lget_lput in Hof'.
  assert (lget (T:=mem) (lput t' s) = lget s) as Em by apply lget_other.
  destruct (kernel_panic_run lit panic_buffer addr_str cr2 (lput t' s) regs v) as (s' & Rp & Hs'); [by rewrite Em|by rewrite Em|done|].
  exists (lput t' s), s'. rewrite Em in Hs'. split; [by rewrite (bind_ok _ _ _ _ _ R)|]. split; [|exact Hs'].
  assert (mapped regs 40) as Hm by (pose proof (pr_regs _ _ _ _ _ Hready); mapped_tac).
  rewrite (dispatch_run call_isr call_irq regs v (lput t' s)); [|by rewrite lget_lput|by left|done|by rewrite Em].
  rewrite lget_lput, Hof', Hof by (by left). destruct (Z.ltb_spec v 32); [|lia].
  destruct (14 =? v); [destruct (Z.eqb_spec page_fault_at 0)|destruct (Z.eqb_spec panic_at 0)]; try done; [by rewrite Hcf|by rewrite Hcp].
Qed.
End claim.

(** ** The theorem at a concrete page fault *)

Module PanicExample.
Record machine : Type := mkMachine { m_mem : mem; m_term : VTerm; m_ports : Ports; m_isr : IsrTables }.

#[local] Instance lens_mem : Lens machine mem.
Proof. refine {| lget := m_mem; lput m s := mkMachine m (m_term s) (m_ports s) (m_isr s) |}; by intros; destruct s. Defined.
#[local] Instance lens_term : Lens machine VTerm.
Proof. refine {| lget := m_term; lput x s := mkMachine (m_mem s) x (m_ports s) (m_isr s) |}; by intros; destruct s. Defined.
#[local] Instance lens_ports : Lens machine Ports.
Proof. refine {| lget := m_ports; lput x s := mkMachine (m_mem s) (m_term s) x (m_isr s) |}; by intros; destruct s. Defined.
#[local] Instance lens_isr : Lens machine IsrTables.
Proof. refine {| lget := m_isr; lput x s := mkMachine (m_mem s) (m_term s) (m_ports s) x |}; by intros; destruct s. Defined.
#[local] Instance apart_mt : Apart lens_mem lens_term.
Proof. by constructor. Qed.
#[local] Instance apart_mp : Apart lens_mem lens_ports.
Proof. by constructor. Qed.
#[local] Instance apart_tp : Apart lens_term lens_ports.
Proof. by constructor. Qed.
#[local] Instance apart_mi : Apart lens_mem lens_isr.
Proof. by constructor. Qed.

(** The literals 128 bytes apart from 0x10000 on. *)
Fixpoint position (t : string) (ls : list string) : Z :=
  match ls with [] => 0 | u :: ls => if String.eqb t u then 0 else 1 + position t ls end.
Definition lit0 (t : string) : Z := 0x10000 + 128 * position t panic_literals.
Fixpoint put_bytes (m : mem) (a : Z) (bs : list Z) : mem :=
  match bs with [] => m | b :: bs => put_bytes (set8 m a b) (a + 1) bs end.
Definition literals0 : mem := foldr (λ t m, put_bytes m (lit0 t) (text t)) ∅ panic_literals.

(** The registers at 0x9200: a write by the user to a page not mapped. *)
Definition mem0 : mem := st32 (st32 literals0 0x9224 14) 0x9228 6.
Definition s0 : machine :=
  mkMachine mem0 (mkVTerm ∅ 0 0 7 0 (mkCursor CURSOR_SHAPE_BLOCK true) BUFFER_MODE_STREAM) (mkPorts [] (λ _ _, 0))
    (mkIsr (replicate 32 0) (replicate 16 0) (replicate 256 0)).

Definition call0 (h r : Z) : M machine unit :=
  if h =? 0x100200 then kernel_panic lit0 0x9000 0x9100 0xC0003FFC r
  else if h =? 0x100300 then paging_page_fault_handler lit0 0x9000 0x9100 0xC0003FFC r else mret tt.

Fixpoint cstrb (m : mem) (a : Z) (bs : list Z) : bool :=
  match bs with
  | [] => get8 m a =? 0
  | b :: bs => (get8 m a =? b) && negb (b =? 0) && cstrb m (a + 1) bs
  end.
Lemma cstrb_ok m : ∀ bs a, cstrb m a bs = true → cstr m a bs.
Proof.
  induction bs as [|b bs IH]; intros a; cbn [cstrb cstr]; [apply Z.eqb_eq|].
  rewrite !andb_true_iff, Z.eqb_eq, negb_true_iff, Z.eqb_neq. naive_solver.
Qed.

Definition literalb (m : mem) (t : string) : bool :=
  cstrb m (lit0 t) (text t) && (0x10000 <=? lit0 t) && (lit0 t + zlen (text t) + 1 <=? 0x20000).

Lemma ready0 : panic_ready lit0 0x9000 0x9100 mem0 0x9200.
Proof.
  constructor; [|done|done|by left|by left|done|].
  - assert (forallb (literalb mem0) panic_literals = true) as H by (vm_compute; reflexivity).
    apply Forall_forall. intros t Ht. rewrite forallb_forall in H. apply list_elem_of_In, H in Ht. unfold literalb in Ht.
    rewrite !andb_true_iff in Ht. destruct Ht as [[H1 H2%Z.leb_le] H3%Z.leb_le]. constructor; [by apply cstrb_ok|mapped_tac|].
    intros x Hx. unfold local. lia.
  - intros x Hx. unfold local. lia.
Qed.

Lemma exception_reported_witness :
  ∃ s1 s', (init_isr 0x100200 ;; register_cpu_handler 14 0x100300) s0 = Ok tt s1 ∧
    master_exception_handler call0 (λ _, mret tt) 0x9200 s1 = Stop Halted s' ∧
    (∀ r c, on_screen r c → cell_at (lget s') r c = line_cell (report 14 (ld32 mem0 (0x9200 + OFF_ERROR_CODE)) 0xC0003FFC) r c) ∧
    mirror (lget s') (lget s') ∧
    ∀ x, ¬ local 0x9000 0x9100 x → ¬ in_framebuffer x → get8 (lget s') x = get8 mem0 x.
Proof.
  refine (exception_reported lit0 0x9000 0x9100 0xC0003FFC call0 (λ _, mret tt) 0x100200 0x100300 14 0x9200 s0 _ _ _ _ _ _ _ _);
    [done|lia|lia|lia|intros r; reflexivity|intros r; reflexivity|exact ready0|vm_compute; reflexivity].
Defined.

(** The report itself. *)
Example report_rows : map fst (report 14 6 0xC0003FFC) = [2; 4; 6; 8; 9; 12; 13] ∧ map fst (report 0 0 0) = [2; 4; 7; 8].
Proof. done. Qed.
End PanicExample.
