(* ===== verification/Keyboard.v ===== *)
(** * Keyboard: the PS/2 keyboard driver
      (src/kernel/arch/i386/drivers/keyboard.c)

    Scan code set 1: make codes below 0x80, break codes with bit 7 set, a
    prefix 0xE0 for the extended keys. The driver keeps shift, caps lock and
    the prefix, and types characters or moves the cursor of the terminal. *)

From S2P Require Import Prelude Memory KString PortIO Pic Io VTerm.

(** ** The code *)

Definition KEYBOARD_DATA_PORT : Z := 0x60.
Definition KEYBOARD_STATUS_PORT : Z := 0x64.

Record Keyboard : Type := mkKeyboard { shift_pressed : bool; caps_lock_active : bool; is_extended : bool }.

Definition set_shift (b : bool) (k : Keyboard) : Keyboard := mkKeyboard b (caps_lock_active k) (is_extended k).
Definition set_caps (b : bool) (k : Keyboard) : Keyboard := mkKeyboard (shift_pressed k) b (is_extended k).
Definition set_extended (b : bool) (k : Keyboard) : Keyboard := mkKeyboard (shift_pressed k) (caps_lock_active k) b.

(** The two layouts as ASCII codes; indices 58 to 127 hold zero. *)
Definition kbd_us_map : list Z :=
  [0; 27; 49; 50; 51; 52; 53; 54; 55; 56; 57; 48; 45; 61; 8;
   9; 113; 119; 101; 114; 116; 121; 117; 105; 111; 112; 91; 93; 10;
   0; 97; 115; 100; 102; 103; 104; 106; 107; 108; 59; 39; 96; 0;
   92; 122; 120; 99; 118; 98; 110; 109; 44; 46; 47; 0; 42; 0; 32] ++ replicate 70 0.
Definition kbd_us_shifted_map : list Z :=
  [0; 27; 33; 64; 35; 36; 37; 94; 38; 42; 40; 41; 95; 43; 8;
   9; 81; 87; 69; 82; 84; 89; 85; 73; 79; 80; 123; 125; 10;
   0; 65; 83; 68; 70; 71; 72; 74; 75; 76; 58; 34; 126; 0;
   124; 90; 88; 67; 86; 66; 78; 77; 60; 62; 63; 0; 42; 0; 32] ++ replicate 70 0.

Section keyboard.
Context {St : Type} `{LM : Lens St mem} `{LV : Lens St VTerm} `{LIO : Lens St Ports} `{LK : Lens St Keyboard}.

Definition kbd_lookup (l : list Z) (i : Z) : M St Z :=
  match l !! Z.to_nat i with Some x => mret x | None => stop (OutOfBounds i) end.

(** The [switch] on an extended make code. *)
Definition extended_key (scancode : Z) : M St unit :=
  row ← vterm_get_cursor_row;
  col ← vterm_get_cursor_col;
  if scancode =? 0x48 then vterm_move_cursor (u16 (row - 1)) col
  else if scancode =? 0x50 then vterm_move_cursor (u16 (row + 1)) col
  else if scancode =? 0x4B then vterm_move_cursor row (u16 (col - 1))
  else if scancode =? 0x4D then vterm_move_cursor row (u16 (col + 1))
  else mret tt.

(** A make code that is not a modifier. *)
Definition type_key (scancode : Z) : M St unit :=
  k ← gets;
  base_char ← kbd_lookup kbd_us_map scancode;
  let use_uppercase :=
    if (97 <=? base_char) && (base_char <=? 122) then
      if caps_lock_active k then negb (shift_pressed k) else shift_pressed k
    else shift_pressed k in
  ascii ← (if use_uppercase then kbd_lookup kbd_us_shifted_map scancode else kbd_lookup kbd_us_map scancode);
  if negb (ascii =? 0) then vterm_write_char ascii else mret tt.

Definition keyboard_handler : M St unit :=
  status ← inb KEYBOARD_STATUS_PORT;
  if negb (Z.land status 0x01 =? 0) then
    scancode ← inb KEYBOARD_DATA_PORT;
    pic_send_eoi 1 ;;
    if scancode =? 0xE0 then k ← gets; puts (set_extended true k) else
    k ← gets;
    if is_extended k then
      puts (set_extended false k) ;;
      if negb (Z.land scancode 0x80 =? 0) then mret tt else extended_key scancode
    else if negb (Z.land scancode 0x80 =? 0) then
      let released_scancode := Z.land scancode 0x7F in
      if (released_scancode =? 0x2A) || (released_scancode =? 0x36) then puts (set_shift false k) else mret tt
    else if (scancode =? 0x2A) || (scancode =? 0x36) then puts (set_shift true k)
    else if scancode =? 0x3A then puts (set_caps (negb (caps_lock_active k)) k)
    else if 128 <=? scancode then mret tt
    else type_key scancode
  else mret tt.
End keyboard.

(** ** What a key means *)

(** What one scan code does to the driver and asks of the terminal. *)
Inductive key_action : Type :=
  | NoAction
  | TypeChar (c : Z)
  | MoveBy (drow dcol : Z).

Definition is_letter (c : Z) : bool := (97 <=? c) && (c <=? 122).

(** The character of a key: shift selects the upper layout; for letters the
    upper case, its code 32 below, is selected by shift or caps lock but not
    by both. *)
Definition key_char (shift caps : bool) (code : Z) : Z :=
  let base := nth (Z.to_nat code) kbd_us_map 0 in
  if is_letter base then if xorb shift caps then base - 32 else base
  else if shift then nth (Z.to_nat code) kbd_us_shifted_map 0 else base.

Definition arrow (code : Z) : key_action :=
  if code =? 0x48 then MoveBy (-1) 0 else if code =? 0x50 then MoveBy 1 0
  else if code =? 0x4B then MoveBy 0 (-1) else if code =? 0x4D then MoveBy 0 1 else NoAction.

Definition key_step (k : Keyboard) (code : Z) : Keyboard * key_action :=
  if code =? 0xE0 then (set_extended true k, NoAction)
  else if is_extended k then (set_extended false k, if code <? 128 then arrow code else NoAction)
  else if 128 <=? code then
    ((if (code =? 0xAA) || (code =? 0xB6) then set_shift false k else k), NoAction)
  else if (code =? 0x2A) || (code =? 0x36) then (set_shift true k, NoAction)
  else if code =? 0x3A then (set_caps (negb (caps_lock_active k)) k, NoAction)
  else
    let c := key_char (shift_pressed k) (caps_lock_active k) code in
    (k, if c =? 0 then NoAction else TypeChar c).

(** What the terminal does for an action: a move off the screen in one
    coordinate is ignored. *)
Definition acted (a : key_action) (v v' : VTerm) : Prop :=
  match a with
  | NoAction => v' = v
  | TypeChar c => typed c v v'
  | MoveBy dr dc => v' = moved (if cursor_row v + dr <? 0 then SCREEN_ROWS else cursor_row v + dr)
                             (if cursor_col v + dc <? 0 then SCREEN_COLS + 1 else cursor_col v + dc) v
  end.

(** The two layouts agree: the upper layout has a letter's capital. *)
Lemma layouts_agree code : 0 ≤ code < 128 →
  ∃ b u, kbd_us_map !! Z.to_nat code = Some b ∧ kbd_us_shifted_map !! Z.to_nat code = Some u ∧
    0 ≤ b < 256 ∧ 0 ≤ u < 256 ∧ (is_letter b = true → u = b - 32).
Proof.
  intros Hc. assert (∃ n, code = Z.of_nat n ∧ (n < 128)%nat) as (n & -> & Hn) by (exists (Z.to_nat code); lia).
  rewrite Nat2Z.id.
  assert (Forall2 (λ b u, 0 ≤ b < 256 ∧ 0 ≤ u < 256 ∧ (is_letter b = true → u = b - 32)) kbd_us_map kbd_us_shifted_map) as Hall.
  { apply Forall2_same_length_lookup_2; [done|]. intros i b u Hb Hu.
    pose proof (lookup_lt_Some _ _ _ Hb) as Hi. change (length kbd_us_map) with 128%nat in Hi.
    do 128 (destruct i as [|i]; [injection Hb as <-; injection Hu as <-; cbn; split_and!; (lia || done)|]). lia. }
  destruct (lookup_lt_is_Some_2 kbd_us_map n) as [b Hb]; [done|].
  destruct (Forall2_lookup_l _ _ _ _ _ Hall Hb) as (u & Hu & Hr). exists b, u. tauto.
Qed.

Lemma land_0x80 x : 0 ≤ x < 256 → negb (Z.land x 0x80 =? 0) = (128 <=? x).
Proof.
  intros Hx. change (Z.land x 0x80) with (Z.land x (Z.shiftl 1 7)). rewrite land_shiftl1 by lia.
  rewrite Z.testbit_eqb by lia. change (2 ^ 7) with 128. destruct (Z.leb_spec 128 x).
  - assert (x / 128 = 1) as -> by (Z.div_mod_to_equations; lia). done.
  - rewrite Z.div_small by lia. done.
Qed.

Lemma land_0x7F x : Z.land x 0x7F = x mod 128.
Proof. change 0x7F with (Z.ones 7). by rewrite Z.land_ones. Qed.

Section keyboard_run.
Context {St : Type} `{LM : Lens St mem} `{LV : Lens St VTerm} `{LIO : Lens St Ports} `{LK : Lens St Keyboard}.
Context {AMV : Apart LM LV} {AMI : Apart LM LIO} {AVI : Apart LV LIO}.
Context {AKM : Apart LK LM} {AKV : Apart LK LV} {AKI : Apart LK LIO}.

(** The driver's, the terminal's and memory's part of a state. *)
Definition kstate (s : St) (k : Keyboard) (v : VTerm) (m : mem) : Prop :=
  lget s = k ∧ lget s = v ∧ lget s = m.

Abbreviation vatk k := (vat (λ s : St, lget (T:=Keyboard) s) k).

Lemma vatk_kstate s k v m : vatk k s v m ↔ kstate s k v m.
Proof. unfold vat, kstate. tauto. Qed.

Lemma kstate_puts s k v m k' : kstate s k v m → kstate (lput k' s) k' v m.
Proof. intros (Hk & Hv & Hm). split_and!; [apply lget_lput|by rewrite lget_other'|by rewrite lget_other']. Qed.

Lemma kstate_io s k v m (p : Ports) : kstate s k v m → kstate (lput p s) k v m.
Proof. intros (Hk & Hv & Hm). split_and!; by rewrite lget_other. Qed.

Lemma move_key s k v m r c : kstate s k v m → 0 ≤ r → 0 ≤ c → vt_ok v →
  ∃ s', vterm_move_cursor r c s = Ok tt s' ∧ kstate s' k (moved r c v) m ∧ vt_ok (moved r c v).
Proof.
  intros Hs%vatk_kstate Hr Hc Hok.
  destruct (move_run (λ s : St, lget (T:=Keyboard) s) k (λ m s, lget_other m s) (λ v s, lget_other v s) s v m r c Hs)
    as (s' & Hrun & H'). exists s'. split_and!; [done|by apply vatk_kstate|by apply moved_ok].
Qed.

Lemma extended_key_run s k v m code : kstate s k v m → vt_ok v →
  ∃ s' v', extended_key code s = Ok tt s' ∧ kstate s' k v' m ∧ acted (arrow code) v v' ∧ vt_ok v'.
Proof.
  intros Hs Hok. pose proof Hok as [Hrow Hcol _]. unfold SCREEN_ROWS, SCREEN_COLS in Hrow, Hcol.
  assert (Hgo : ∀ r c, 0 ≤ r → 0 ≤ c → ∃ s' v', vterm_move_cursor r c s = Ok tt s' ∧ kstate s' k v' m ∧ v' = moved r c v ∧ vt_ok v').
  { intros r c Hr Hc. destruct (move_key s k v m r c Hs Hr Hc Hok) as (s' & Hrun & H & Hok'). exists s'. eauto. }
  unfold extended_key, vterm_get_cursor_row, vterm_get_cursor_col, arrow, acted.
  rewrite bind_assoc, bind_gets, bind_ret, bind_assoc, bind_gets, bind_ret.
  destruct Hs as (Hk & Hv & Hm). rewrite Hv.
  destruct (code =? 0x48).
  { destruct (Hgo (u16 (cursor_row v - 1)) (cursor_col v)) as (s' & v' & Hr & H & -> & Hok'); [apply u16_range|lia|].
    exists s'. eexists. split_and!; [done|done| |done].
    rewrite Z.add_0_r. destruct (Z.ltb_spec (cursor_col v) 0); [lia|]. unfold moved. f_equal.
    destruct (Z.ltb_spec (cursor_row v + -1) 0).
    - replace (cursor_row v) with 0 by lia. done.
    - by rewrite u16_small by lia. }
  destruct (code =? 0x50).
  { destruct (Hgo (u16 (cursor_row v + 1)) (cursor_col v)) as (s' & v' & Hr & H & -> & Hok'); [apply u16_range|lia|].
    exists s'. eexists. split_and!; [done|done| |done].
    rewrite Z.add_0_r. destruct (Z.ltb_spec (cursor_col v) 0); [lia|]. destruct (Z.ltb_spec (cursor_row v + 1) 0); [lia|].
    by rewrite u16_small by lia. }
  destruct (code =? 0x4B).
  { destruct (Hgo (cursor_row v) (u16 (cursor_col v - 1))) as (s' & v' & Hr & H & -> & Hok'); [lia|apply u16_range|].
    exists s'. eexists. split_and!; [done|done| |done].
    rewrite Z.add_0_r. destruct (Z.ltb_spec (cursor_row v) 0); [lia|]. unfold moved. f_equal.
    destruct (Z.ltb_spec (cursor_col v + -1) 0).
    - replace (cursor_col v) with 0 by lia. done.
    - by rewrite u16_small by lia. }
  destruct (code =? 0x4D).
  { destruct (Hgo (cursor_row v) (u16 (cursor_col v + 1))) as (s' & v' & Hr & H & -> & Hok'); [lia|apply u16_range|].
    exists s'. eexists. split_and!; [done|done| |done].
    rewrite Z.add_0_r. destruct (Z.ltb_spec (cursor_row v) 0); [lia|]. destruct (Z.ltb_spec (cursor_col v + 1) 0); [lia|].
    by rewrite u16_small by lia. }
  exists s, v. by split_and!.
Qed.

Lemma kbd_lookup_ok l i x (s : St) : l !! Z.to_nat i = Some x → kbd_lookup l i s = Ok x s.
Proof. intros H. unfold kbd_lookup. by rewrite H. Qed.

Lemma type_key_run s k v m code : kstate s k v m → vt_ok v → 0 ≤ code < 128 →
  let c := key_char (shift_pressed k) (caps_lock_active k) code in
  ∃ s' v' m', type_key code s = Ok tt s' ∧ kstate s' k v' m' ∧
    acted (if c =? 0 then NoAction else TypeChar c) v v' ∧ vt_ok v' ∧ off_screen_same m m'.
Proof.
  intros Hs Hok Hcode c. destruct (layouts_agree code Hcode) as (b & u & Hb & Hu & Hbr & Hur & Hcap).
  assert (type_key code s = (if c =? 0 then mret tt else vterm_write_char c) s ∧ 0 ≤ c < 256) as [-> Hcr].
  { unfold type_key. rewrite bind_gets, (bind_ok _ _ _ _ _ (kbd_lookup_ok _ _ _ s Hb)). rewrite (proj1 Hs).
    fold (is_letter b). unfold c, key_char. rewrite (nth_lookup_Some _ _ _ _ Hb), (nth_lookup_Some _ _ _ _ Hu).
    destruct (is_letter b) eqn:Hl; [rewrite <- (Hcap eq_refl)|];
      destruct (shift_pressed k), (caps_lock_active k); cbn [negb xorb];
      first [rewrite (bind_ok _ _ _ _ _ (kbd_lookup_ok _ _ _ s Hu)) | rewrite (bind_ok _ _ _ _ _ (kbd_lookup_ok _ _ _ s Hb))];
      (split; [match goal with |- context [?x =? 0] => by destruct (x =? 0) end|done]). }
  destruct (Z.eqb_spec c 0); [by exists s, v, m|].
  destruct (write_char_run (λ s : St, lget (T:=Keyboard) s) k (λ m s, lget_other m s) (λ v s, lget_other v s)
    (λ p s, lget_other p s) s v m c ltac:(by apply vatk_kstate) Hok Hcr) as (v' & m' & (s' & Hr & H') & Ht & Hok' & Hsame & _).
  exists s', v', m'. split_and!; [done|by apply vatk_kstate|done|done|done].
Qed.

Lemma kstate_eoi s k v m : kstate s k v m → ∃ s', pic_send_eoi 1 s = Ok tt s' ∧ kstate s' k v m.
Proof. intros Hs. eexists. split; [reflexivity|]. by apply kstate_io. Qed.

(** C35: with data waiting, the handler reads one scan code and does what the
    key means: it updates shift, caps lock or the prefix, types the key's
    character, or moves the cursor by an arrow key, within the screen. *)
Theorem keyboard_handler_keys s k v m :
  kstate s k v m → vt_ok v →
  let status := io_answer (lget s) KEYBOARD_STATUS_PORT in
  let code := io_answer (io_log (lget s) [In KEYBOARD_STATUS_PORT status]) KEYBOARD_DATA_PORT in
  Z.testbit status 0 = true →
  ∃ s' v' m', keyboard_handler s = Ok tt s' ∧ kstate s' (key_step k code).1 v' m' ∧
    acted (key_step k code).2 v v' ∧ vt_ok v' ∧ off_screen_same m m'.
Proof.
  intros Hs Hok status code Hst.
  assert (0 ≤ code < 256) as Hcode by (rewrite <- (u8_answer _ _ : u8 code = code); apply u8_range).
  unfold keyboard_handler. rewrite bind_inb. change (u16 KEYBOARD_STATUS_PORT) with KEYBOARD_STATUS_PORT. fold status.
  assert (negb (Z.land status 1 =? 0) = true) as ->.
  { change 1 with (Z.shiftl 1 0). by rewrite land_shiftl1. }
  rewrite bind_inb. change (u16 KEYBOARD_DATA_PORT) with KEYBOARD_DATA_PORT. rewrite lget_lput, lput_lput. fold code.
  match goal with |- context [lput ?p s] => set (s1 := lput p s) end.
  assert (kstate s1 k v m) as H1 by by apply kstate_io.
  destruct (kstate_eoi s1 k v m H1) as (s2 & Hr2 & H2). rewrite (bind_ok _ _ _ _ _ Hr2).
  assert (Hput : ∀ k', ∃ s' v' m', puts k' s2 = Ok tt s' ∧ kstate s' k' v' m' ∧ v' = v ∧ vt_ok v' ∧ off_screen_same m m').
  { intros k'. exists (lput k' s2), v, m. split_and!; [done|by eapply kstate_puts|done|done|done]. }
  unfold key_step. destruct (Z.eqb_spec code 0xE0).
  { rewrite bind_gets, (proj1 H2). apply Hput. }
  rewrite bind_gets, (proj1 H2), !land_0x80 by done. destruct (is_extended k).
  { rewrite bind_puts. destruct (Z.leb_spec 128 code), (Z.ltb_spec code 128); try lia; cbn [fst snd].
    - exists (lput (set_extended false k) s2), v, m. split_and!; [done|by eapply kstate_puts|done|done|done].
    - destruct (extended_key_run (lput (set_extended false k) s2) (set_extended false k) v m code) as (s' & v' & Hr & H' & Ha & Hok');
        [by eapply kstate_puts|done|]. by exists s', v', m. }
  destruct (Z.leb_spec 128 code).
  { rewrite land_0x7F. replace (code mod 128) with (code - 128) by (Z.div_mod_to_equations; lia).
    replace (code - 128 =? 0x2A) with (code =? 0xAA) by (destruct (Z.eqb_spec code 0xAA), (Z.eqb_spec (code - 128) 0x2A); lia).
    replace (code - 128 =? 0x36) with (code =? 0xB6) by (destruct (Z.eqb_spec code 0xB6), (Z.eqb_spec (code - 128) 0x36); lia).
    destruct (_ || _); [apply Hput|]. by exists s2, v, m. }
  destruct ((code =? 0x2A) || (code =? 0x36)); [apply Hput|].
  destruct (code =? 0x3A); [apply Hput|]. apply type_key_run; [done|done|lia].
Qed.
End keyboard_run.

(** ** The theorem at a concrete keyboard *)

Module KeyExample.
Record machine : Type := mkMachine { m_mem : mem; m_term : VTerm; m_ports : Ports; m_kbd : Keyboard }.

#[local] Instance lens_mem : Lens machine mem.
Proof. refine {| lget := m_mem; lput x s := mkMachine x (m_term s) (m_ports s) (m_kbd s) |}; by intros; destruct s. Defined.
#[local] Instance lens_term : Lens machine VTerm.
Proof. refine {| lget := m_term; lput x s := mkMachine (m_mem s) x (m_ports s) (m_kbd s) |}; by intros; destruct s. Defined.
#[local] Instance lens_ports : Lens machine Ports.
Proof. refine {| lget := m_ports; lput x s := mkMachine (m_mem s) (m_term s) x (m_kbd s) |}; by intros; destruct s. Defined.
#[local] Instance lens_kbd : Lens machine Keyboard.
Proof. refine {| lget := m_kbd; lput x s := mkMachine (m_mem s) (m_term s) (m_ports s) x |}; by intros; destruct s. Defined.
#[local] Instance apart_mt : Apart lens_mem lens_term.
Proof. by constructor. Qed.
#[local] Instance apart_mp : Apart lens_mem lens_ports.
Proof. by constructor. Qed.
#[local] Instance apart_tp : Apart lens_term lens_ports.
Proof. by constructor. Qed.
#[local] Instance apart_km : Apart lens_kbd lens_mem.
Proof. by constructor. Qed.
#[local] Instance apart_kt : Apart lens_kbd lens_term.
Proof. by constructor. Qed.
#[local] Instance apart_kp : Apart lens_kbd lens_ports.
Proof. by constructor. Qed.

(** The key Q with shift held: status 1, then scan code 0x10. *)
Definition kbd0 : Keyboard := mkKeyboard true false false.
Definition s0 : machine :=
  mkMachine ∅ (TermExample.term0 0) (mkPorts [] (λ _ port, if port =? KEYBOARD_STATUS_PORT then 1 else 0x10)) kbd0.

Lemma keyboard_handler_keys_witness :
  ∃ s' v' m', keyboard_handler s0 = Ok tt s' ∧ kstate s' kbd0 v' m' ∧
    typed 81 (TermExample.term0 0) v' ∧ vt_ok v' ∧ off_screen_same ∅ m'.
Proof.
  pose (code := io_answer (io_log (lget s0) [In KEYBOARD_STATUS_PORT (io_answer (lget s0) KEYBOARD_STATUS_PORT)])
    KEYBOARD_DATA_PORT).
  assert (key_step kbd0 code = (kbd0, TypeChar 81)) as Hkey by (vm_compute; reflexivity).
  assert (vt_ok (TermExample.term0 0)) as Hok by (by apply TermExample.term0_ok).
  assert (Z.testbit (io_answer (lget s0) KEYBOARD_STATUS_PORT) 0 = true) as Hst by (vm_compute; reflexivity).
  pose proof (keyboard_handler_keys s0 kbd0 (TermExample.term0 0) ∅ ltac:(done) Hok Hst) as H.
  cbv zeta in H. fold code in H. rewrite Hkey in H. exact H.
Defined.
End KeyExample.
