(* ===== verification/Tables.v ===== *)
(** * Tables: the segment and interrupt descriptor tables
      (src/kernel/arch/i386/tables/gdt.c, idt.c)

    The packed descriptors as records of their fields, how the two
    [set_gate] functions split a base and a limit over them, how the
    processor reads them back, and the loading of its table and segment
    registers. *)

From S2P Require Import Prelude.

(** ** The code *)

Definition GDT_ENTRIES : Z := 5.
Definition IDT_ENTRIES : Z := 256.

Record GdtDescriptor : Type := mkGdt {
  limit_low : Z;
  g_base_low : Z;
  base_middle : Z;
  access : Z;
  granularity : Z;
  g_base_high : Z
}.

Record IdtDescriptor : Type := mkIdt {
  i_base_low : Z;
  selector : Z;
  always0 : Z;
  flags : Z;
  i_base_high : Z
}.

(** [GdtRegister] and [IdtRegister]. *)
Record TableRegister : Type := mkReg { r_limit : Z; r_base : Z }.

Inductive SegReg : Type := CS | DS | ES | FS | GS | SS.
#[export] Instance seg_reg_eq_dec : EqDecision SegReg.
Proof. solve_decision. Defined.

(** The processor's table registers and the selectors in its segment
    registers. *)
Record SegState : Type := mkSegs { gdtr : TableRegister; idtr : TableRegister; selectors : SegReg → Z }.

Record Tables : Type := mkTables {
  gdt : list GdtDescriptor;
  gdt_pointer : TableRegister;
  idt : list IdtDescriptor;
  idt_pointer : TableRegister;
  segs : SegState
}.

Definition set_gdt (l : list GdtDescriptor) (t : Tables) : Tables := mkTables l (gdt_pointer t) (idt t) (idt_pointer t) (segs t).
Definition set_gdt_pointer (r : TableRegister) (t : Tables) : Tables := mkTables (gdt t) r (idt t) (idt_pointer t) (segs t).
Definition set_idt (l : list IdtDescriptor) (t : Tables) : Tables := mkTables (gdt t) (gdt_pointer t) l (idt_pointer t) (segs t).
Definition set_idt_pointer (r : TableRegister) (t : Tables) : Tables := mkTables (gdt t) (gdt_pointer t) (idt t) r (segs t).
Definition set_segs (x : SegState) (t : Tables) : Tables := mkTables (gdt t) (gdt_pointer t) (idt t) (idt_pointer t) x.
Definition set_gdtr (r : TableRegister) (x : SegState) : SegState := mkSegs r (idtr x) (selectors x).
Definition set_idtr (r : TableRegister) (x : SegState) : SegState := mkSegs (gdtr x) r (selectors x).
Definition set_selector (r : SegReg) (sel : Z) (x : SegState) : SegState :=
  mkSegs (gdtr x) (idtr x) (λ r', if decide (r' = r) then sel else selectors x r').

(** What the access byte of a descriptor says. *)
Definition segment_dpl (d : GdtDescriptor) : Z := (access d / 32) mod 4.
Definition segment_code (d : GdtDescriptor) : bool := Z.testbit (access d) 3.
Definition segment_present (d : GdtDescriptor) : bool := Z.testbit (access d) 7.
Definition segment_rw (d : GdtDescriptor) : bool := Z.testbit (access d) 1.

(** What ring 0 may load into a segment register, for a selector of ring 0:
    code into CS, data to write into SS, what can be read into the others. *)
Definition loadable_seg (r : SegReg) (d : GdtDescriptor) : bool :=
  segment_present d && Z.testbit (access d) 4 &&
  match r with
  | CS => segment_code d && (segment_dpl d =? 0)
  | SS => negb (segment_code d) && segment_rw d && (segment_dpl d =? 0)
  | _ => negb (segment_code d) || segment_rw d
  end.

Definition gdt_entry (base limit acc gran : Z) : GdtDescriptor :=
  mkGdt (u16 (Z.land limit 0xFFFF)) (u16 (Z.land base 0xFFFF)) (u8 (Z.land (Z.shiftr base 16) 0xFF)) acc
    (Z.lor (u8 (Z.land (Z.shiftr limit 16) 0x0F)) (Z.land gran 0xF0)) (u8 (Z.land (Z.shiftr base 24) 0xFF)).

Definition idt_entry (base sel flg : Z) : IdtDescriptor :=
  mkIdt (u16 (Z.land base 0xFFFF)) sel 0 flg (u16 (Z.land (Z.shiftr base 16) 0xFFFF)).

Section tables.
Context {St : Type} `{LT : Lens St Tables}.
(** The addresses of the two arrays, and the stubs of interrupts.asm. *)
Context (gdt_addr idt_addr : Z) (idt_stub_table : Z → Z).

Definition gdt_set_gate (num base limit acc gran : Z) : M St unit :=
  t ← gets;
  if (0 <=? num) && (num <? Z.of_nat (length (gdt t)))
  then puts (set_gdt (<[Z.to_nat num := gdt_entry base limit acc gran]> (gdt t)) t)
  else stop (OutOfBounds num).

Definition upd_segs (f : SegState → SegState) : M St unit := t ← gets; puts (set_segs (f (segs t)) t).
Definition lgdt : M St unit := t ← gets; upd_segs (set_gdtr (gdt_pointer t)).
Definition lidt : M St unit := t ← gets; upd_segs (set_idtr (idt_pointer t)).

(** The descriptor a selector names in the table that GDTR describes. *)
Definition descriptor_of (t : Tables) (sel : Z) : option GdtDescriptor :=
  let r := gdtr (segs t) in
  if (r_base r =? gdt_addr) && (0 <? sel / 8) && (8 * (sel / 8) + 7 <=? r_limit r) && (sel mod 8 =? 0)
  then gdt t !! Z.to_nat (sel / 8) else None.

(** Loading a segment register, by a [mov] or the far jump. A selector that
    names no fitting descriptor is a fault, here before there is an
    interrupt table: the processor shuts down. *)
Definition load_segment (sel : Z) (r : SegReg) : M St unit :=
  t ← gets;
  match descriptor_of t sel with
  | Some d => if loadable_seg r d then upd_segs (set_selector r sel) else stop Halted
  | None => stop Halted
  end.

Definition init_gdt : M St unit :=
  t ← gets;
  puts (set_gdt_pointer (mkReg (u16 (8 * GDT_ENTRIES - 1)) gdt_addr) t) ;;
  gdt_set_gate 0 0 0 0 0 ;;
  gdt_set_gate 1 0 0xFFFFFFFF 0x9A 0xCF ;;
  gdt_set_gate 2 0 0xFFFFFFFF 0x92 0xCF ;;
  gdt_set_gate 3 0 0xFFFFFFFF 0xFA 0xCF ;;
  gdt_set_gate 4 0 0xFFFFFFFF 0xF2 0xCF ;;
  lgdt ;;
  load_segment 0x08 CS ;;
  mforeach [DS; ES; FS; GS; SS] (load_segment 0x10).

Definition idt_set_gate (num base sel flg : Z) : M St unit :=
  t ← gets;
  if (0 <=? num) && (num <? Z.of_nat (length (idt t)))
  then puts (set_idt (<[Z.to_nat num := idt_entry base sel flg]> (idt t)) t)
  else stop (OutOfBounds num).

Definition init_idt : M St unit :=
  t ← gets;
  puts (set_idt_pointer (mkReg (u16 (8 * IDT_ENTRIES - 1)) idt_addr) t) ;;
  mfor 0 IDT_ENTRIES (λ i, idt_set_gate (u8 i) (idt_stub_table i) 0x08 0x8E) ;;
  lidt.
End tables.

(** ** How the processor reads a descriptor *)

Definition segment_base (d : GdtDescriptor) : Z := g_base_low d + 65536 * base_middle d + 16777216 * g_base_high d.

(** The limit field, 20 bits, counted in 4 KB pages when bit 7 of the
    granularity byte is set; the last valid offset. *)
Definition segment_limit (d : GdtDescriptor) : Z :=
  let raw := limit_low d + 65536 * (granularity d mod 16) in
  if Z.testbit (granularity d) 7 then 4096 * raw + 4095 else raw.
Definition segment_flags (d : GdtDescriptor) : Z := granularity d / 16.

Definition gate_offset (d : IdtDescriptor) : Z := i_base_low d + 65536 * i_base_high d.
Definition gate_present (d : IdtDescriptor) : bool := Z.testbit (flags d) 7.
Definition gate_type (d : IdtDescriptor) : Z := flags d mod 16.

Lemma land_mask x k : 0 ≤ k → Z.land x (Z.ones k) = x mod 2 ^ k.
Proof. apply Z.land_ones. Qed.

Lemma land_F0 x : 0 ≤ x < 256 → Z.land x 0xF0 = 16 * (x / 16).
Proof.
  intros Hx. apply Z.bits_inj'. intros j Hj. rewrite Z.land_spec. change 0xF0 with (Z.shiftl (Z.ones 4) 4).
  replace (16 * (x / 16)) with ((x / 2 ^ 4) * 2 ^ 4) by (change (2 ^ 4) with 16; lia). rewrite <- Z.shiftl_mul_pow2, <- Z.shiftr_div_pow2 by lia.
  rewrite !Z.shiftl_spec by done. destruct (Z.lt_ge_cases j 4).
  - rewrite !(Z.testbit_neg_r _ (j - 4)) by lia. apply andb_false_r.
  - rewrite Z.shiftr_spec by lia. replace (j - 4 + 4) with j by lia.
    destruct (Z.lt_ge_cases j 8).
    + rewrite Z.ones_spec_low by lia. apply andb_true_r.
    + destruct (decide (x = 0)) as [->|]; [by rewrite Z.bits_0|].
      rewrite (Z.bits_above_log2 x); [done|lia|]. apply Z.log2_lt_pow2; [lia|].
      apply Z.lt_le_trans with (2 ^ 8); [lia|]. by apply Z.pow_le_mono_r.
Qed.

(** The descriptor of a gate reads back as its base, the low 20 bits of its
    limit and its flags. *)
Lemma gdt_entry_fields base limit acc gran : 0 ≤ base < 4294967296 → 0 ≤ gran < 256 →
  let d := gdt_entry base limit acc gran in
  segment_base d = base ∧ limit_low d + 65536 * (granularity d mod 16) = limit mod 1048576 ∧
  segment_flags d = gran / 16 ∧ access d = acc.
Proof.
  intros Hb Hg d. unfold d, gdt_entry, segment_base, segment_flags, u16, u8. cbn.
  change 0xFFFF with (Z.ones 16). change 0xFF with (Z.ones 8). change 0x0F with (Z.ones 4).
  rewrite !land_mask, !Z.shiftr_div_pow2, land_F0 by lia.
  change (2 ^ 16) with 65536. change (2 ^ 8) with 256. change (2 ^ 24) with 16777216.
  assert (Z.lor ((limit / 65536) mod 2 ^ 4 mod 256) (16 * (gran / 16)) = (limit / 65536) mod 16 + 16 * (gran / 16)) as ->.
  { rewrite (Z.mul_comm 16). change (gran / 16 * 16) with (gran / 16 * 2 ^ 4). change (2 ^ 4) with 16 at 1.
    assert (0 ≤ (limit / 65536) mod 16 < 16) by (by apply Z.mod_pos_bound). rewrite (Z.mod_small _ 256) by lia.
    apply (lor_add _ _ 4); [lia|]. change (2 ^ 4) with 16. lia. }
  split_and!; [| | |done].
  - Z.div_mod_to_equations. lia.
  - assert (((limit / 65536) mod 16 + 16 * (gran / 16)) mod 16 = (limit / 65536) mod 16) as -> by (Z.div_mod_to_equations; lia).
    Z.div_mod_to_equations. lia.
  - Z.div_mod_to_equations. lia.
Qed.

Lemma idt_entry_fields base sel flg : 0 ≤ base < 4294967296 →
  let d := idt_entry base sel flg in gate_offset d = base ∧ selector d = sel ∧ flags d = flg.
Proof.
  intros Hb d. unfold d, idt_entry, gate_offset, u16. cbn. change 0xFFFF with (Z.ones 16).
  rewrite !land_mask, !Z.shiftr_div_pow2 by lia. change (2 ^ 16) with 65536.
  split_and!; [|done|done]. Z.div_mod_to_equations. lia.
Qed.

Section tables_spec.
Context {St : Type} `{LT : Lens St Tables}.
Context (gdt_addr idt_addr : Z) (idt_stub_table : Z → Z).

Lemma gdt_set_gate_run num base limit acc gran (s : St) :
  0 ≤ num < Z.of_nat (length (gdt (lget s))) →
  gdt_set_gate num base limit acc gran s =
    Ok tt (lput (set_gdt (<[Z.to_nat num := gdt_entry base limit acc gran]> (gdt (lget s))) (lget s)) s).
Proof.
  intros Hn. unfold gdt_set_gate. rewrite bind_gets.
  destruct (Z.leb_spec 0 num), (Z.ltb_spec num (Z.of_nat (length (gdt (lget s))))); try lia. done.
Qed.

Lemma upd_segs_run f (t : Tables) (s : St) : upd_segs f (lput t s) = Ok tt (lput (set_segs (f (segs t)) t) s).
Proof. unfold upd_segs. rewrite bind_gets, lget_lput. unfold puts. by rewrite lput_lput. Qed.

Lemma load_segment_run r sel d (t : Tables) (s : St) : descriptor_of gdt_addr t sel = Some d → loadable_seg r d = true →
  load_segment gdt_addr sel r (lput t s) = Ok tt (lput (set_segs (set_selector r sel (segs t)) t) s).
Proof. intros Hd Hl. unfold load_segment. rewrite bind_gets, lget_lput, Hd, Hl. apply upd_segs_run. Qed.

(** A run of them with one selector. *)
Definition set_all (rs : list SegReg) (sel : Z) (x : SegState) : SegState := foldl (λ x r, set_selector r sel x) x rs.

Lemma load_segments_run sel d rs : ∀ (t : Tables) (s : St), descriptor_of gdt_addr t sel = Some d → forallb (λ r, loadable_seg r d) rs = true →
  mforeach rs (load_segment gdt_addr sel) (lput t s) = Ok tt (lput (set_segs (set_all rs sel (segs t)) t) s).
Proof.
  induction rs as [|r rs IH]; intros t s Hd Hl; cbn [mforeach set_all foldl]; [by destruct t|].
  apply andb_prop in Hl as [Hr Hl]. rewrite (bind_ok _ _ _ _ _ (load_segment_run r sel d t s Hd Hr)). by rewrite IH.
Qed.

(** The five descriptors, and the registers once they are loaded. *)
Definition gdt_flat : list GdtDescriptor :=
  [gdt_entry 0 0 0 0; gdt_entry 0 0xFFFFFFFF 0x9A 0xCF; gdt_entry 0 0xFFFFFFFF 0x92 0xCF; gdt_entry 0 0xFFFFFFFF 0xFA 0xCF; gdt_entry 0 0xFFFFFFFF 0xF2 0xCF].
Definition flat_segs (x : SegState) : SegState :=
  set_all [DS; ES; FS; GS; SS] 0x10 (set_selector CS 0x08 (set_gdtr (mkReg 39 gdt_addr) x)).

Lemma init_gdt_run (s : St) : length (gdt (lget s)) = 5%nat →
  init_gdt gdt_addr s = Ok tt (lput (mkTables gdt_flat (mkReg 39 gdt_addr) (idt (lget s)) (idt_pointer (lget s)) (flat_segs (segs (lget s)))) s).
Proof.
  intros Hl. unfold init_gdt. rewrite bind_gets, bind_puts.
  destruct (gdt (lget s)) as [|d0 [|d1 [|d2 [|d3 [|d4 [|]]]]]] eqn:Hg; try done.
  set (t0 := set_gdt_pointer _ _).
  assert (Hstep : ∀ num base limit acc gran (t : Tables), (0 ≤ num < Z.of_nat (length (gdt t))) →
    gdt_set_gate num base limit acc gran (lput t s) =
      Ok tt (lput (set_gdt (<[Z.to_nat num := gdt_entry base limit acc gran]> (gdt t)) t) s)).
  { intros num base limit acc gran t Hn. rewrite gdt_set_gate_run by (by rewrite lget_lput). by rewrite lget_lput, lput_lput. }
  assert (gdt t0 = [d0; d1; d2; d3; d4]) as H0 by done.
  do 5 (erewrite bind_ok; [|apply Hstep; cbn; rewrite Hg, ?length_insert; cbn; lia]).
  set (t1 := mkTables gdt_flat (mkReg 39 gdt_addr) (idt (lget s)) (idt_pointer (lget s)) (segs (lget s))).
  match goal with |- context [lput ?t s] => replace t with t1 by (unfold t0; cbn; rewrite Hg; reflexivity) end.
  unfold lgdt. rewrite bind_assoc, bind_gets, lget_lput, (bind_ok _ _ _ _ _ (upd_segs_run _ _ _)).
  assert (∀ x k, gdtr x = mkReg 39 gdt_addr → (0 < k < 5)%nat → descriptor_of gdt_addr (set_segs x t1) (8 * Z.of_nat k) = gdt_flat !! k) as Hdesc.
  { intros x k Hx Hk. unfold descriptor_of. cbn [segs set_segs gdt t1]. rewrite Hx. cbn [r_base r_limit]. rewrite Z.eqb_refl.
    do 5 (destruct k as [|k]; [done || lia|]). lia. }
  erewrite bind_ok; [|eapply load_segment_run; [apply (Hdesc _ 1%nat); [done|lia]|reflexivity]].
  erewrite load_segments_run; [reflexivity|apply (Hdesc _ 2%nat); [done|lia]|reflexivity].
Qed.

(** After [init_gdt] the table has a null descriptor and four flat
    segments over the whole 4 GB, code and data for ring 0 and for ring 3;
    the processor uses this table, runs in its ring-0 code segment and has
    its ring-0 data segment in every other segment register. *)
Theorem init_gdt_flat (s : St) :
  length (gdt (lget s)) = 5%nat →
  ∃ s' ds, init_gdt gdt_addr s = Ok tt s' ∧ gdt (lget s') = gdt_entry 0 0 0 0 :: ds ∧
    map segment_base ds = [0; 0; 0; 0] ∧ map segment_limit ds = replicate 4 0xFFFFFFFF ∧
    map segment_code ds = [true; false; true; false] ∧ map segment_dpl ds = [0; 0; 3; 3] ∧
    gdtr (segs (lget s')) = mkReg 39 gdt_addr ∧ ∀ r, selectors (segs (lget s')) r = if decide (r = CS) then 0x08 else 0x10.
Proof.
  intros Hl. eexists _, _. split; [exact (init_gdt_run s Hl)|]. rewrite lget_lput. split_and!; [reflexivity..|]. by intros [].
Qed.

(** The 256 gates, with what is written. *)
Lemma init_idt_run (s : St) :
  length (idt (lget s)) = 256%nat → (∀ i, 0 ≤ i < 256 → 0 ≤ idt_stub_table i < 4294967296) →
  ∃ t, init_idt idt_addr idt_stub_table s = Ok tt (lput t s) ∧ segs t = set_idtr (mkReg 2047 idt_addr) (segs (lget s)) ∧
    ∀ v, 0 ≤ v < 256 → ∃ d, idt t !! Z.to_nat v = Some d ∧
      gate_offset d = idt_stub_table v ∧ selector d = 0x08 ∧ gate_present d = true ∧ gate_type d = 0xE.
Proof.
  intros Hl Hstub. unfold init_idt. rewrite bind_gets, bind_puts. set (t0 := set_idt_pointer _ _).
  destruct (mfor_rule (λ i s', ∃ t, s' = lput t s ∧ length (idt t) = 256%nat ∧ (idt_pointer t = mkReg 2047 idt_addr ∧ segs t = segs (lget s)) ∧
      ∀ v, 0 ≤ v < i → idt t !! Z.to_nat v = Some (idt_entry (idt_stub_table v) 0x08 0x8E)) 0 IDT_ENTRIES
    (λ i, idt_set_gate (u8 i) (idt_stub_table i) 0x08 0x8E) (lput t0 s)) as (s' & Hr & t & -> & Hlt & Hp & Hv); [done| | |].
  - unfold IDT_ENTRIES. intros i s1 Hi (t & -> & Hlt & Hp & Hv). rewrite u8_small by lia. unfold idt_set_gate.
    rewrite bind_gets, lget_lput. destruct (Z.leb_spec 0 i), (Z.ltb_spec i (Z.of_nat (length (idt t)))); try lia. cbn [andb].
    eexists. split; [reflexivity|]. eexists. rewrite lput_lput. split; [reflexivity|]. cbn.
    rewrite length_insert. destruct Hp. split_and!; [done..|]. intros v Hvr.
    destruct (decide (v = i)) as [->|Hne]; [by rewrite list_lookup_insert_eq by lia|].
    rewrite list_lookup_insert_ne by lia. apply Hv. lia.
  - exists t0. split_and!; [done|done|done|done|lia].
  - exists (set_segs (set_idtr (idt_pointer t) (segs t)) t). destruct Hp as [Hp Hsegs].
    rewrite (bind_ok _ _ _ _ _ Hr). unfold lidt. rewrite bind_gets, lget_lput, upd_segs_run, Hp, Hsegs. split_and!; [done|done|]. intros v Hvr. eexists. split; [by apply Hv|].
    destruct (idt_entry_fields (idt_stub_table v) 0x08 0x8E (Hstub v Hvr)) as (H1 & H2 & H3).
    by split_and!.
Qed.

(** After [init_idt] every one of the 256 vectors has a present 32-bit
    interrupt gate in the kernel's code segment that leads to its stub. *)
Theorem init_idt_gates (s : St) :
  length (idt (lget s)) = 256%nat → (∀ i, 0 ≤ i < 256 → 0 ≤ idt_stub_table i < 4294967296) →
  ∃ s', init_idt idt_addr idt_stub_table s = Ok tt s' ∧ idtr (segs (lget s')) = mkReg 2047 idt_addr ∧
    ∀ v, 0 ≤ v < 256 → ∃ d, idt (lget s') !! Z.to_nat v = Some d ∧
      gate_offset d = idt_stub_table v ∧ selector d = 0x08 ∧ gate_present d = true ∧ gate_type d = 0xE.
Proof.
  intros Hl Hstub. destruct (init_idt_run s Hl Hstub) as (t & Hr & Hsegs & H). exists (lput t s). rewrite lget_lput. split_and!; [done|by rewrite Hsegs|done].
Qed.
End tables_spec.

(** ** The theorems at concrete tables *)

Module TablesExample.
#[local] Instance lens_tables : Lens Tables Tables := lens_id.

Definition tables0 : Tables :=
  mkTables (replicate 5 (mkGdt 0 0 0 0 0 0)) (mkReg 0 0) (replicate 256 (mkIdt 0 0 0 0 0)) (mkReg 0 0)
    (mkSegs (mkReg 0 0) (mkReg 0 0) (λ r, match r with CS => 0x10 | _ => 0x18 end)).

Lemma init_gdt_flat_witness :
  ∃ s' ds, init_gdt 0x104000 tables0 = Ok tt s' ∧ gdt (lget s') = gdt_entry 0 0 0 0 :: ds ∧
    map segment_base ds = [0; 0; 0; 0] ∧ map segment_limit ds = replicate 4 0xFFFFFFFF ∧
    map segment_code ds = [true; false; true; false] ∧ map segment_dpl ds = [0; 0; 3; 3] ∧
    gdtr (segs (lget s')) = mkReg 39 0x104000 ∧ ∀ r, selectors (segs (lget s')) r = if decide (r = CS) then 0x08 else 0x10.
Proof. apply (init_gdt_flat 0x104000 tables0). reflexivity. Defined.

Lemma init_idt_gates_witness :
  ∃ s', init_idt 0x105000 (λ i, 0x101000 + 16 * i) tables0 = Ok tt s' ∧ idtr (segs (lget s')) = mkReg 2047 0x105000 ∧
    ∀ v, 0 ≤ v < 256 → ∃ d, idt (lget s') !! Z.to_nat v = Some d ∧
      gate_offset d = 0x101000 + 16 * v ∧ selector d = 0x08 ∧ gate_present d = true ∧ gate_type d = 0xE.
Proof.
  apply (init_idt_gates 0x105000 (λ i, 0x101000 + 16 * i) tables0); [reflexivity|]. intros i Hi. lia.
Defined.
End TablesExample.
