(* ===== verification/Paging.v ===== *)
(** * Paging: page tables and the kernel's address space
      (src/kernel/arch/i386/memory/paging.c, src/include/arch/i386/memory/paging.h)

    The packed bit fields of directory and table entries, [paging_init], and
    the processor's two-level walk over the tables in memory. The frames of
    the tables are the ones the frame allocator hands out. The processor may
    keep translations: loading CR3 drops them all, [invlpg] one page's (Mmu.v
    uses them at each access). Until [paging_init] sets bit 31 of CR0 addresses are physical;
    the accesses of the model are checked against the same window there. *)

From S2P Require Import Prelude Memory Alloc KMemory Bitmap Pmm Isr.

(** ** The code *)

Definition PAGE_SIZE : Z := 4096.
Definition TOTAL_ENTRIES : Z := 1024.

(** Bit fields of a 32-bit entry: [width] bits from bit [lo] on. *)
Definition get_field (lo width w : Z) : Z := Z.land (Z.shiftr w lo) (Z.ones width).
Definition put_field (lo width x w : Z) : Z :=
  Z.lor (Z.land w (Z.lnot (Z.shiftl (Z.ones width) lo))) (Z.shiftl (Z.land x (Z.ones width)) lo).

(** [Page] and [PageTableDirectoryEntry] have the same layout. *)
Definition present (w : Z) : Z := get_field 0 1 w.
Definition rw (w : Z) : Z := get_field 1 1 w.
Definition user (w : Z) : Z := get_field 2 1 w.
Definition frame_addr (w : Z) : Z := get_field 12 20 w.
Definition set_present (x w : Z) : Z := put_field 0 1 x w.
Definition set_rw (x w : Z) : Z := put_field 1 1 x w.
Definition set_user (x w : Z) : Z := put_field 2 1 x w.
Definition set_frame_addr (x w : Z) : Z := put_field 12 20 x w.

(** [table->pages[i]] and [space->directory_entries[i]]. *)
Definition entry (table i : Z) : Z := table + 4 * i.

(** The control registers, the processor's cache of translations (the frame
    of each cached page) and the global [kernel_directory]. *)
Record Cpu : Type := mkCpu { cr0 : Z; cr3 : Z; tlb : gmap Z Z; kernel_directory : Z }.

Section paging.
Context {St : Type} `{LM : Lens St mem} `{LP : Lens St PmmStatics} `{LC : Lens St Cpu} `{LI : Lens St IsrTables}.
(** The linker's symbols and the address of [paging_page_fault_handler]. *)
Context (text_start rodata_start data_start : Z) (page_fault_handler : Z).

(** An assignment to a bit field of the entry at [a]. *)
Definition update32 (a : Z) (f : Z → Z) : M St unit := w ← load32 a; store32 a (f w).

Definition paging_switch_address_space (space : Z) : M St unit :=
  c ← gets; puts (mkCpu (cr0 c) space ∅ (kernel_directory c)).

Definition paging_invalidate_page_cache (virtual_addr : Z) : M St unit :=
  c ← gets; puts (mkCpu (cr0 c) (cr3 c) (delete (virtual_addr / PAGE_SIZE) (tlb c)) (kernel_directory c)).

(** The first loop: page [i] of the first 4 MB. *)
Definition map_low_page (kernel_page_table i : Z) : M St unit :=
  let physical_address := i ⊠ PAGE_SIZE in
  update32 (entry kernel_page_table i) (set_present 1) ;;
  update32 (entry kernel_page_table i) (set_user 0) ;;
  let is_writeable :=
    if ((text_start <=? physical_address) && (physical_address <? rodata_start)) ||
       ((rodata_start <=? physical_address) && (physical_address <? data_start)) then 0 else 1 in
  update32 (entry kernel_page_table i) (set_rw is_writeable) ;;
  update32 (entry kernel_page_table i) (set_frame_addr (Z.shiftr physical_address 12)).

(** The second loop: page [i] of the next 4 MB. *)
Definition map_high_page (second_page_table i : Z) : M St unit :=
  let physical_address := (4 * 1024 * 1024) ⊞ (i ⊠ PAGE_SIZE) in
  update32 (entry second_page_table i) (set_present 1) ;;
  update32 (entry second_page_table i) (set_rw 1) ;;
  update32 (entry second_page_table i) (set_user 0) ;;
  update32 (entry second_page_table i) (set_frame_addr (Z.shiftr physical_address 12)).

(** Entry [i] of the directory points to a table. *)
Definition map_table (directory i table_frame_addr : Z) : M St unit :=
  update32 (entry directory i) (set_present 1) ;;
  update32 (entry directory i) (set_rw 1) ;;
  update32 (entry directory i) (set_user 0) ;;
  update32 (entry directory i) (set_frame_addr (Z.shiftr table_frame_addr 12)).

Definition paging_init : M St unit :=
  kernel_directory_frame_addr ← pmm_allocate_frame;
  kernel_page_table_frame_addr ← pmm_allocate_frame;
  second_kernel_table_frame_addr ← pmm_allocate_frame;
  c ← gets;
  puts (mkCpu (cr0 c) (cr3 c) (tlb c) kernel_directory_frame_addr) ;;
  kmemset kernel_directory_frame_addr 0 4096 ;;
  kmemset kernel_page_table_frame_addr 0 4096 ;;
  kmemset second_kernel_table_frame_addr 0 4096 ;;
  mfor 0 TOTAL_ENTRIES (map_low_page kernel_page_table_frame_addr) ;;
  update32 (entry kernel_page_table_frame_addr 0) (set_present 0) ;;
  mfor 0 TOTAL_ENTRIES (map_high_page second_kernel_table_frame_addr) ;;
  map_table kernel_directory_frame_addr 0 kernel_page_table_frame_addr ;;
  map_table kernel_directory_frame_addr 1 second_kernel_table_frame_addr ;;
  register_cpu_handler 14 page_fault_handler ;;
  paging_switch_address_space kernel_directory_frame_addr ;;
  c ← gets;
  puts (mkCpu (Z.lor (cr0 c) 0x80000000) (cr3 c) (tlb c) (kernel_directory c)).
End paging.

(** ** The processor's walk *)

(** Where a virtual address leads through the directory at [dir], with the
    conjunction of the two levels' write and user bits. *)
Definition translate (m : mem) (dir va : Z) : option (Z * bool * bool) :=
  let pde := ld32 m (entry dir (va / 4194304)) in
  if present pde =? 0 then None else
  let pte := ld32 m (entry (frame_addr pde * 4096) ((va / 4096) mod 1024)) in
  if present pte =? 0 then None else
  Some (frame_addr pte * 4096 + va mod 4096,
        negb (rw pde =? 0) && negb (rw pte =? 0), negb (user pde =? 0) && negb (user pte =? 0)).

(** ** Bit fields *)

Lemma get_field_testbit lo width w j : 0 ≤ lo → 0 ≤ width → 0 ≤ j →
  Z.testbit (get_field lo width w) j = (j <? width) && Z.testbit w (j + lo).
Proof.
  intros Hlo Hw Hj. unfold get_field. rewrite Z.land_spec, Z.shiftr_spec by done.
  destruct (Z.ltb_spec j width); [rewrite Z.ones_spec_low by lia; by rewrite andb_true_r|].
  rewrite Z.ones_spec_high by lia. by rewrite andb_false_r.
Qed.

Lemma put_field_testbit lo width x w j : 0 ≤ lo → 0 ≤ width → 0 ≤ j →
  Z.testbit (put_field lo width x w) j =
  if (lo <=? j) && (j <? lo + width) then Z.testbit x (j - lo) else Z.testbit w j.
Proof.
  intros Hlo Hw Hj. unfold put_field. rewrite Z.lor_spec, Z.land_spec, Z.lnot_spec, !Z.shiftl_spec by done.
  destruct (Z.leb_spec lo j); cbn [andb].
  - rewrite Z.land_spec. destruct (Z.ltb_spec j (lo + width)).
    + rewrite Z.ones_spec_low by lia. cbn. by rewrite andb_false_r, andb_true_r.
    + rewrite Z.ones_spec_high by lia. cbn. by rewrite andb_true_r, andb_false_r, orb_false_r.
  - rewrite !(Z.testbit_neg_r _ (j - lo)) by lia. cbn. by rewrite andb_true_r, orb_false_r.
Qed.

Lemma get_put_same lo width x w : 0 ≤ lo → 0 ≤ width → 0 ≤ x < 2 ^ width → get_field lo width (put_field lo width x w) = x.
Proof.
  intros Hlo Hw Hx. apply Z.bits_inj'. intros j Hj. rewrite get_field_testbit, put_field_testbit by lia.
  destruct (Z.leb_spec lo (j + lo)), (Z.ltb_spec (j + lo) (lo + width)), (Z.ltb_spec j width); try lia; cbn [andb].
  - f_equal. lia.
  - destruct (decide (x = 0)) as [->|]; [by rewrite Z.bits_0|].
    symmetry. apply Z.bits_above_log2; [lia|]. apply Z.log2_lt_pow2; [lia|].
    apply Z.lt_le_trans with (2 ^ width); [lia|]. by apply Z.pow_le_mono_r.
Qed.

Lemma get_put_other lo width lo' width' x w : 0 ≤ lo → 0 ≤ width → 0 ≤ lo' → 0 ≤ width' →
  lo + width ≤ lo' ∨ lo' + width' ≤ lo → get_field lo width (put_field lo' width' x w) = get_field lo width w.
Proof.
  intros Hlo Hw Hlo' Hw' Hd. apply Z.bits_inj'. intros j Hj. rewrite !get_field_testbit, put_field_testbit by lia.
  destruct (Z.ltb_spec j width); [|done]. cbn [andb].
  destruct (Z.leb_spec lo' (j + lo)), (Z.ltb_spec (j + lo) (lo' + width')); try lia; done.
Qed.

Lemma get_field_u32 lo width w : 0 ≤ lo → 0 ≤ width → lo + width ≤ 32 → get_field lo width (u32 w) = get_field lo width w.
Proof.
  intros Hlo Hw Hle. apply Z.bits_inj'. intros j Hj. rewrite !get_field_testbit by lia.
  destruct (Z.ltb_spec j width); [|done]. cbn [andb]. apply u32_testbit. lia.
Qed.

Lemma get_field_0 lo width : get_field lo width 0 = 0.
Proof. unfold get_field. by rewrite Z.shiftr_0_l, Z.land_0_l. Qed.

(** [fields]: reading the fields of an entry that was just written. *)
Ltac fields :=
  unfold present, rw, user, frame_addr, set_present, set_rw, set_user, set_frame_addr in *;
  repeat first
    [ rewrite get_field_u32 by lia
    | rewrite get_put_same by lia
    | rewrite get_put_other by lia ].

(** An entry with given fields. *)
Definition entry_is (w p r u f : Z) : Prop := present w = p ∧ rw w = r ∧ user w = u ∧ frame_addr w = f.

Lemma entry_is_0 : present 0 = 0.
Proof. done. Qed.

(** ** Filling the tables *)

(** The page-aligned table at [t] is in the kernel's window. *)
Definition table_ok (t : Z) : Prop := t mod 4096 = 0 ∧ mapped t 4096.

Section paging_spec.
Context {St : Type} `{LM : Lens St mem}.

(** [m'] differs from [m] at most in the word at [a]; in the table at [t]. *)
Definition same_but (m m' : mem) (a n : Z) : Prop := ∀ x, x < a ∨ a + n ≤ x → get8 m' x = get8 m x.

Lemma same_but_ld32 m m' a n b : same_but m m' a n → b + 4 ≤ a ∨ a + n ≤ b → ld32 m' b = ld32 m b.
Proof. intros H Hb. apply get8_ext_ld32. intros x Hx. apply H. lia. Qed.

Lemma same_but_trans m1 m2 m3 a n : same_but m1 m2 a n → same_but m2 m3 a n → same_but m1 m3 a n.
Proof. intros H1 H2 x Hx. by rewrite H2, H1. Qed.

Lemma same_but_widen m m' a n b k : same_but m m' b k → a ≤ b → b + k ≤ a + n → same_but m m' a n.
Proof. intros H ?? x Hx. apply H. lia. Qed.

Lemma same_but_st32 m a v : same_but m (st32 m a v) a 4.
Proof. intros x Hx. apply get8_st32_ne. lia. Qed.

(** An assignment to a field of an entry. *)
Lemma update32_bind {B} a f (k : unit → M St B) s :
  mapped a 4 → (update32 a f ≫= k) s = k tt (lput (st32 (lget s) a (f (ld32 (lget s) a))) s).
Proof. intros Ha. unfold update32. by mrun. Qed.
Lemma update32_run a f s :
  mapped a 4 → update32 a f s = Ok tt (lput (st32 (lget s) a (f (ld32 (lget s) a))) s).
Proof. intros Ha. unfold update32. by mrun. Qed.

Ltac set_fields Ha :=
  rewrite ?(update32_bind _ _ _ _ Ha), (update32_run _ _ _ Ha); lens; eexists; split; [reflexivity|]; split;
  [unfold entry_is; ldst; split_and!; fields; try done
  |repeat (eapply same_but_trans; [|apply same_but_st32]); by intros ??].

(** Frame [i] of the first 4 MB: read-only from [text_start] to
    [data_start], writable elsewhere. *)
Definition low_rw (text_start rodata_start data_start pa : Z) : Z :=
  if ((text_start <=? pa) && (pa <? rodata_start)) || ((rodata_start <=? pa) && (pa <? data_start)) then 0 else 1.

Lemma map_low_page_run ts rs ds t i s :
  0 ≤ i < 1024 → table_ok t →
  ∃ m', map_low_page ts rs ds t i s = Ok tt (lput m' s) ∧
    entry_is (ld32 m' (entry t i)) 1 (low_rw ts rs ds (i * 4096)) 0 i ∧ same_but (lget s) m' (entry t i) 4.
Proof.
  intros Hi [_ Ht]. assert (mapped (entry t i) 4) as Ha by (unfold entry; mapped_tac).
  unfold map_low_page, PAGE_SIZE. wraps. rewrite Z.shiftr_div_pow2 by lia.
  change (2 ^ 12) with 4096. rewrite Z.div_mul by lia.
  fold (low_rw ts rs ds (i * 4096)). assert (0 ≤ low_rw ts rs ds (i * 4096) < 2).
  { unfold low_rw. destruct (_ || _); lia. }
  set_fields Ha.
Qed.

Lemma map_high_page_run t i s :
  0 ≤ i < 1024 → table_ok t →
  ∃ m', map_high_page t i s = Ok tt (lput m' s) ∧
    entry_is (ld32 m' (entry t i)) 1 1 0 (1024 + i) ∧ same_but (lget s) m' (entry t i) 4.
Proof.
  intros Hi [_ Ht]. assert (mapped (entry t i) 4) as Ha by (unfold entry; mapped_tac).
  unfold map_high_page, PAGE_SIZE. wraps. rewrite Z.shiftr_div_pow2 by lia.
  change (2 ^ 12) with 4096. replace ((4 * 1024 * 1024 + i * 4096) / 4096) with (1024 + i) by (Z.div_mod_to_equations; lia).
  set_fields Ha.
Qed.

Lemma map_table_run d i t s :
  0 ≤ i < 1024 → table_ok d → table_ok t →
  ∃ m', map_table d i t s = Ok tt (lput m' s) ∧
    entry_is (ld32 m' (entry d i)) 1 1 0 (t / 4096) ∧ same_but (lget s) m' (entry d i) 4.
Proof.
  intros Hi [_ Hd] [_ Ht]. assert (mapped (entry d i) 4) as Ha by (unfold entry; mapped_tac).
  unfold map_table. rewrite Z.shiftr_div_pow2 by lia. change (2 ^ 12) with 4096.
  assert (0 ≤ t / 4096 < 2 ^ 20) by (unfold mapped, IDENT_LO, IDENT_HI in Ht; Z.div_mod_to_equations; lia).
  set_fields Ha.
Qed.

(** A loop that fills the entries of a table one by one. *)
Lemma fill_table_run (P : Z → Z → Prop) (f : Z → M St unit) t s :
  (∀ i s, 0 ≤ i < 1024 → ∃ m', f i s = Ok tt (lput m' s) ∧ P i (ld32 m' (entry t i)) ∧
     same_but (lget s) m' (entry t i) 4) →
  ∃ m', mfor 0 TOTAL_ENTRIES f s = Ok tt (lput m' s) ∧
    (∀ i, 0 ≤ i < 1024 → P i (ld32 m' (entry t i))) ∧ same_but (lget s) m' t 4096.
Proof.
  intros Hf.
  destruct (mfor_rule (λ i s', ∃ m', s' = lput m' s ∧ (∀ k, 0 ≤ k < i → P k (ld32 m' (entry t k))) ∧
    same_but (lget s) m' t 4096) 0 TOTAL_ENTRIES f s) as (s' & Hrun & m' & -> & HP & Hs).
  - done.
  - unfold TOTAL_ENTRIES. intros i s1 Hi (m1 & -> & HP & Hs).
    destruct (Hf i (lput m1 s)) as (m2 & Hr & HPi & Hs2); [lia|].
    rewrite lput_lput in Hr. rewrite lget_lput in Hs2. eexists. split; [exact Hr|].
    exists m2. split_and!; [done| |].
    + intros k Hk. destruct (decide (k = i)) as [->|]; [done|].
      rewrite (same_but_ld32 _ _ _ _ _ Hs2) by (unfold entry; lia). apply HP. lia.
    + eapply same_but_trans; [exact Hs|]. eapply same_but_widen; [exact Hs2|unfold entry; lia..].
  - exists (lget s). rewrite lput_lget. split_and!; [done|lia|]. by intros ??.
  - exists m'. done.
Qed.

Lemma clear_table_run t s : table_ok t →
  ∃ m', kmemset t 0 4096 s = Ok t (lput m' s) ∧
    (∀ i, 0 ≤ i < 1024 → ld32 m' (entry t i) = 0) ∧ same_but (lget s) m' t 4096.
Proof.
  intros [_ Ht]. destruct (kmemset_run t 0 4096 s) as (m' & Hr & Hm); [lia|done|].
  exists m'. split_and!; [done| |].
  - intros i Hi. unfold ld32, entry. rewrite !Hm.
    repeat match goal with |- context [?a <=? ?b] => destruct (Z.leb_spec a b); [|lia] end.
    repeat match goal with |- context [?a <? ?b] => destruct (Z.ltb_spec a b); [|lia] end. done.
  - intros x Hx. rewrite Hm. zbool; try lia; done.
Qed.
End paging_spec.

(** ** The address space [paging_init] builds *)

Section paging_init.
Context {St : Type} `{LM : Lens St mem} `{LP : Lens St PmmStatics} `{LC : Lens St Cpu} `{LI : Lens St IsrTables}.
Context {AP : Apart LM LP} {AC : Apart LM LC} {AI : Apart LM LI} {ACI : Apart LC LI}.
Context (text_start rodata_start data_start : Z) (page_fault_handler : Z).

(** The contents of the three tables: the directory at [d], the two page
    tables at [t1] and [t2]. *)
Record kernel_tables (m : mem) (d t1 t2 : Z) : Prop := mkKT {
  kt_dir0 : entry_is (ld32 m (entry d 0)) 1 1 0 (t1 / 4096);
  kt_dir1 : entry_is (ld32 m (entry d 1)) 1 1 0 (t2 / 4096);
  kt_rest : ∀ i, 2 ≤ i < 1024 → ld32 m (entry d i) = 0;
  kt_null : present (ld32 m (entry t1 0)) = 0;
  kt_low : ∀ i, 1 ≤ i < 1024 →
    entry_is (ld32 m (entry t1 i)) 1 (low_rw text_start rodata_start data_start (i * 4096)) 0 i;
  kt_high : ∀ i, 0 ≤ i < 1024 → entry_is (ld32 m (entry t2 i)) 1 1 0 (1024 + i)
}.

(** The page of a virtual address may be written. *)
Definition writable (va : Z) : bool :=
  (0x400000 <=? va) || negb ((text_start <=? va / 4096 * 4096) && (va / 4096 * 4096 <? data_start)).

Lemma low_rw_writable va : 0 ≤ va < 0x400000 → text_start ≤ rodata_start ≤ data_start →
  negb (low_rw text_start rodata_start data_start (va / 4096 * 4096) =? 0) = writable va.
Proof.
  intros Hva Ho. unfold low_rw, writable. destruct (Z.leb_spec 0x400000 va); [lia|].
  generalize (va / 4096 * 4096). intros x. zbool; try lia; done.
Qed.

Lemma kernel_tables_walk m d t1 t2 va :
  kernel_tables m d t1 t2 → t1 mod 4096 = 0 → t2 mod 4096 = 0 → text_start ≤ rodata_start ≤ data_start →
  0 ≤ va < 4294967296 →
  translate m d va = if (0x1000 <=? va) && (va <? 0x800000) then Some (va, writable va, false) else None.
Proof.
  intros [H0 H1 Hr Hn Hl Hh] Ht1 Ht2 Ho Hva. unfold translate.
  destruct (Z.lt_ge_cases va 0x800000) as [Hlt|Hge].
  2: { rewrite Hr by (Z.div_mod_to_equations; lia). cbn. zbool; try lia; done. }
  destruct (Z.lt_ge_cases va 0x400000) as [Hlo|Hhi].
  - replace (va / 4194304) with 0 by (Z.div_mod_to_equations; lia).
    destruct H0 as (-> & -> & -> & ->). cbn [Z.eqb].
    replace (t1 / 4096 * 4096) with t1 by (Z.div_mod_to_equations; lia).
    rewrite (Z.mod_small (va / 4096)) by (Z.div_mod_to_equations; lia).
    destruct (Z.leb_spec 0x1000 va).
    + destruct (Hl (va / 4096)) as (-> & -> & -> & ->); [Z.div_mod_to_equations; lia|].
      destruct (Z.ltb_spec va 0x800000); [|lia]. cbn [andb negb Z.eqb].
      rewrite low_rw_writable by lia. f_equal. f_equal. f_equal. Z.div_mod_to_equations; lia.
    + replace (va / 4096) with 0 by (Z.div_mod_to_equations; lia). by rewrite Hn.
  - replace (va / 4194304) with 1 by (Z.div_mod_to_equations; lia).
    destruct H1 as (-> & -> & -> & ->). cbn [Z.eqb].
    replace (t2 / 4096 * 4096) with t2 by (Z.div_mod_to_equations; lia).
    destruct (Hh ((va / 4096) mod 1024)) as (-> & -> & -> & ->); [Z.div_mod_to_equations; lia|].
    unfold writable. destruct (Z.leb_spec 0x1000 va), (Z.ltb_spec va 0x800000), (Z.leb_spec 0x400000 va); try lia.
    cbn. f_equal. f_equal. f_equal. Z.div_mod_to_equations; lia.
Qed.

(** The part of [paging_init] that writes the tables, and what follows it. *)
Definition build_tables (d t1 t2 : Z) (k : M St unit) : M St unit :=
  kmemset d 0 4096 ;; kmemset t1 0 4096 ;; kmemset t2 0 4096 ;;
  mfor 0 TOTAL_ENTRIES (map_low_page text_start rodata_start data_start t1) ;;
  update32 (entry t1 0) (set_present 0) ;;
  mfor 0 TOTAL_ENTRIES (map_high_page t2) ;;
  map_table d 0 t1 ;; map_table d 1 t2 ;; k.

(** Two page-aligned tables that do not overlap. *)
Definition apart_tables (a b : Z) : Prop := a + 4096 ≤ b ∨ b + 4096 ≤ a.

(** A byte outside a table. *)
Definition off_table (t x : Z) : Prop := x < t ∨ t + 4096 ≤ x.

Lemma build_tables_run d t1 t2 s :
  table_ok d → table_ok t1 → table_ok t2 → apart_tables d t1 → apart_tables d t2 → apart_tables t1 t2 →
  ∃ m' : mem, (∀ k, build_tables d t1 t2 k s = k (lput m' s)) ∧ kernel_tables m' d t1 t2 ∧
    ∀ x, off_table d x → off_table t1 x → off_table t2 x → get8 m' x = get8 (lget s) x.
Proof.
  intros Hd H1 H2 A1 A2 A3. unfold apart_tables in *.
  destruct (clear_table_run d s Hd) as (m1 & R1 & Z1 & S1).
  destruct (clear_table_run t1 (lput m1 s) H1) as (m2 & R2 & _ & S2).
  destruct (clear_table_run t2 (lput m2 s) H2) as (m3 & R3 & _ & S3).
  destruct (fill_table_run (λ i w, entry_is w 1 (low_rw text_start rodata_start data_start (i * 4096)) 0 i)
    (map_low_page text_start rodata_start data_start t1) t1 (lput m3 s)) as (m4 & R4 & Z4 & S4).
  { intros. by apply map_low_page_run. }
  assert (mapped (entry t1 0) 4) as Ha by (unfold entry; destruct H1; mapped_tac).
  pose proof (update32_run (entry t1 0) (set_present 0) (lput m4 s) Ha) as R5.
  rewrite ?lput_lput, ?lget_lput in *.
  set (m5 := st32 m4 _ _) in R5. pose proof (same_but_st32 m4 (entry t1 0) (set_present 0 (ld32 m4 (entry t1 0)))) as S5. fold m5 in S5.
  destruct (fill_table_run (λ i w, entry_is w 1 1 0 (1024 + i)) (map_high_page t2) t2 (lput m5 s)) as (m6 & R6 & Z6 & S6).
  { intros. by apply map_high_page_run. }
  destruct (map_table_run d 0 t1 (lput m6 s)) as (m7 & R7 & Z7 & S7); [lia|done..|].
  destruct (map_table_run d 1 t2 (lput m7 s)) as (m8 & R8 & Z8 & S8); [lia|done..|].
  rewrite ?lput_lput, ?lget_lput in *. exists m8. split.
  - intros k. unfold build_tables.
    rewrite (bind_ok _ _ _ _ _ R1), (bind_ok _ _ _ _ _ R2), (bind_ok _ _ _ _ _ R3), (bind_ok _ _ _ _ _ R4).
    by rewrite (bind_ok _ _ _ _ _ R5), (bind_ok _ _ _ _ _ R6), (bind_ok _ _ _ _ _ R7), (bind_ok _ _ _ _ _ R8).
  - split.
    2: { unfold off_table. intros x Hx Hx1 Hx2. rewrite S8, S7, S6, S5, S4, S3, S2, S1 by (unfold entry; lia). done. }
    assert (∀ b, b + 4 ≤ entry d 0 ∨ entry d 1 + 4 ≤ b → ld32 m8 b = ld32 m6 b) as K8.
    { unfold entry in *. intros b Hb. rewrite (same_but_ld32 _ _ _ _ _ S8), (same_but_ld32 _ _ _ _ _ S7) by lia. done. }
    assert (∀ b, b + 4 ≤ t2 ∨ t2 + 4096 ≤ b → b + 4 ≤ t1 ∨ t1 + 4096 ≤ b → ld32 m6 b = ld32 m1 b) as K6.
    { unfold entry in *. intros b Hb Hb'. rewrite (same_but_ld32 _ _ _ _ _ S6), (same_but_ld32 _ _ _ _ _ S5),
        (same_but_ld32 _ _ _ _ _ S4), (same_but_ld32 _ _ _ _ _ S3), (same_but_ld32 _ _ _ _ _ S2) by lia. done. }
    constructor.
    + unfold entry in *. rewrite (same_but_ld32 _ _ _ _ _ S8) by lia. exact Z7.
    + exact Z8.
    + intros i Hi. rewrite K8, K6 by (unfold entry in *; lia). apply Z1. lia.
    + rewrite K8, (same_but_ld32 _ _ _ _ _ S6) by (unfold entry in *; lia). unfold m5. ldst. by fields.
    + intros i Hi. rewrite K8, (same_but_ld32 _ _ _ _ _ S6), (same_but_ld32 _ _ _ _ _ S5) by (unfold entry in *; lia).
      apply Z4. lia.
    + intros i Hi. rewrite K8 by (unfold entry in *; lia). by apply Z6.
Qed.

(** Three frames in a row from the allocator are distinct. *)
Lemma allocated_frame s a s1 :
  pmm_ok s → pmm_allocate_frame s = Ok a s1 → a ≠ 0 →
  ∃ f (m' : mem), a = f * 4096 ∧ 0 < f ∧ s1 = lput m' s ∧ pmm_ok s1 ∧ frame_used s f = false ∧
    ∀ j, 0 ≤ j → frame_used s1 j = (if f =? j then true else frame_used s j).
Proof.
  intros Hok Hr Ha. destruct (pmm_allocate_run s Hok) as [(f & m' & Hm & Hfree & _ & Hrun & Hbit & _)|[_ Hrun]];
    rewrite Hrun in Hr; injection Hr as <- <-; [|done].
  exists f, m'. unfold managed, PMM_FRAME_SIZE in *. split_and!; try done; [lia|by apply pmm_ok_lput].
Qed.

Context {ACP : Apart LC LP} {AIP : Apart LI LP}.

(** The whole run: the tables are built over fresh frames, nothing else of
    memory but the allocator's three bits changes. *)
Lemma paging_init_run s d s1 t1 s2 t2 s3 :
  pmm_ok s → isr_ok (lget s) →
  pmm_allocate_frame s = Ok d s1 → pmm_allocate_frame s1 = Ok t1 s2 → pmm_allocate_frame s2 = Ok t2 s3 →
  0 < d < IDENT_HI → 0 < t1 < IDENT_HI → 0 < t2 < IDENT_HI →
  d mod 4096 = 0 ∧ t1 mod 4096 = 0 ∧ t2 mod 4096 = 0 ∧ apart_tables d t1 ∧ apart_tables d t2 ∧ apart_tables t1 t2 ∧
  (∀ j, 0 ≤ j → frame_used s3 j = (j =? d / 4096) || (j =? t1 / 4096) || (j =? t2 / 4096) || frame_used s j) ∧
  ∃ s', paging_init text_start rodata_start data_start page_fault_handler s = Ok tt s' ∧
    lget s' = mkCpu (Z.lor (cr0 (lget s)) 0x80000000) d ∅ d ∧ lget (T:=PmmStatics) s' = lget s ∧
    handler_of (lget s') 14 = page_fault_handler ∧ kernel_tables (lget s') d t1 t2 ∧
    ∀ x, off_table d x → off_table t1 x → off_table t2 x → get8 (lget s') x = get8 (lget s3) x.
Proof.
  intros Hok Hisr R1 R2 R3 Hd H1 H2.
  destruct (allocated_frame _ _ _ Hok R1) as (f & m1 & -> & ? & -> & Hok1 & F1 & U1); [lia|].
  destruct (allocated_frame _ _ _ Hok1 R2) as (g & m2 & -> & ? & -> & Hok2 & F2 & U2); [lia|].
  destruct (allocated_frame _ _ _ Hok2 R3) as (h & m3 & -> & ? & -> & _ & F3 & U3); [lia|].
  rewrite U1 in F2 by lia. rewrite U2, U1 in F3 by lia. unfold IDENT_HI in *.
  destruct (Z.eqb_spec f g); [done|]. destruct (Z.eqb_spec g h); [done|]. destruct (Z.eqb_spec f h); [done|].
  assert (∀ x, 0 < x → x * 4096 < 0x800000 → table_ok (x * 4096)) as Hto.
  { intros x ??. split; [by rewrite Z.mod_mul|]. mapped_tac. }
  rewrite !Z.mod_mul by done. unfold apart_tables. split_and!; [done..|lia|lia|lia| |].
  { intros j Hj. rewrite U3, U2, U1, !Z.div_mul by lia. rewrite (Z.eqb_sym f), (Z.eqb_sym g), (Z.eqb_sym h).
    by destruct (j =? f), (j =? g), (j =? h). }
  set (s4 := lput (mkCpu (cr0 (lget s)) (cr3 (lget s)) (tlb (lget s)) (f * 4096)) (lput m3 s)).
  destruct (build_tables_run (f * 4096) (g * 4096) (h * 4096) s4) as (m' & Hb & Hkt & Hrest);
    [first [by apply Hto; lia | unfold apart_tables; lia]..|].
  unfold paging_init. rewrite (bind_ok _ _ _ _ _ R1), (bind_ok _ _ _ _ _ R2), (bind_ok _ _ _ _ _ R3), bind_gets, bind_puts.
  rewrite !lget_other', !lput_lput. fold s4.
  change (kmemset (f * 4096) 0 4096 ≫= _) with (build_tables (f * 4096) (g * 4096) (h * 4096)
    (register_cpu_handler 14 page_fault_handler ;; paging_switch_address_space (f * 4096) ;;
     c ← gets; puts (mkCpu (Z.lor (cr0 c) 0x80000000) (cr3 c) (tlb c) (kernel_directory c)))).
  rewrite Hb.
  destruct (register_run 14 page_fault_handler (lput m' s4)) as (t & Rt & _ & Ht).
  { unfold s4. rewrite !lget_other'. done. } { left. lia. }
  rewrite (bind_ok _ _ _ _ _ Rt). unfold paging_switch_address_space. rewrite !bind_assoc, !bind_gets, !bind_puts, bind_gets.
  eexists. split; [reflexivity|]. unfold s4 in *. lens. cbn [cr0 cr3 tlb kernel_directory] in *. split_and!; try done.
  - by rewrite Ht by (left; lia).
  - intros x ???. rewrite Hrest by done. by rewrite lget_other, lget_lput.
Qed.

(** C10: when the frame allocator hands out three frames below 8 MB,
    [paging_init] returns with paging on, CR3 at the new directory, no cached translation and the
    page-fault handler installed for vector 14, and under the new tables an
    address translates exactly when it is in [0x1000, 0x800000): to itself,
    never from user mode, and writable unless its page is in
    [text_start, data_start) below 4 MB. This is the window the memory model
    checks accesses against. *)
Theorem paging_init_identity s d s1 t1 s2 t2 s3 :
  pmm_ok s → isr_ok (lget s) → text_start ≤ rodata_start ≤ data_start →
  pmm_allocate_frame s = Ok d s1 → pmm_allocate_frame s1 = Ok t1 s2 → pmm_allocate_frame s2 = Ok t2 s3 →
  0 < d < IDENT_HI → 0 < t1 < IDENT_HI → 0 < t2 < IDENT_HI →
  ∃ s', paging_init text_start rodata_start data_start page_fault_handler s = Ok tt s' ∧
    Z.testbit (cr0 (lget s')) 31 = true ∧ cr3 (lget s') = d ∧ tlb (lget s') = ∅ ∧ kernel_directory (lget s') = d ∧
    handler_of (lget s') 14 = page_fault_handler ∧
    ∀ va, 0 ≤ va < 4294967296 →
      translate (lget s') d va =
      if (0x1000 <=? va) && (va <? 0x800000) then Some (va, writable va, false) else None.
Proof.
  intros Hok Hisr Hord R1 R2 R3 Hd H1 H2.
  destruct (paging_init_run s d s1 t1 s2 t2 s3) as (Ed & E1 & E2 & _ & _ & _ & _ & s' & Hr & Hc & _ & Hh & Hkt & _); [done..|].
  exists s'. rewrite Hc. cbn [cr0 cr3 tlb kernel_directory]. split_and!; try done.
  - rewrite Z.lor_spec. apply orb_true_r.
  - intros va Hva. by apply (kernel_tables_walk _ _ _ _ _ Hkt).
Qed.
End paging_init.

(** ** Booting with 6 MB, the kernel linked at 1 MB *)

Module PagingExample.
Record machine : Type := mkMachine { m_mem : mem; m_pmm : PmmStatics; m_cpu : Cpu; m_isr : IsrTables }.

#[local] Instance lens_mem : Lens machine mem.
Proof. refine {| lget := m_mem; lput x s := mkMachine x (m_pmm s) (m_cpu s) (m_isr s) |}; by intros; destruct s. Defined.
#[local] Instance lens_pmm : Lens machine PmmStatics.
Proof. refine {| lget := m_pmm; lput x s := mkMachine (m_mem s) x (m_cpu s) (m_isr s) |}; by intros; destruct s. Defined.
#[local] Instance lens_cpu : Lens machine Cpu.
Proof. refine {| lget := m_cpu; lput x s := mkMachine (m_mem s) (m_pmm s) x (m_isr s) |}; by intros; destruct s. Defined.
#[local] Instance lens_isr : Lens machine IsrTables.
Proof. refine {| lget := m_isr; lput x s := mkMachine (m_mem s) (m_pmm s) (m_cpu s) x |}; by intros; destruct s. Defined.
#[local] Instance apart_mp : Apart lens_mem lens_pmm.
Proof. by constructor. Qed.
#[local] Instance apart_mc : Apart lens_mem lens_cpu.
Proof. by constructor. Qed.
#[local] Instance apart_mi : Apart lens_mem lens_isr.
Proof. by constructor. Qed.
#[local] Instance apart_ci : Apart lens_cpu lens_isr.
Proof. by constructor. Qed.
#[local] Instance apart_cp : Apart lens_cpu lens_pmm.
Proof. by constructor. Qed.
#[local] Instance apart_ip : Apart lens_isr lens_pmm.
Proof. by constructor. Qed.

Definition blank : machine :=
  mkMachine ∅ (mkPmm (mkBitmap NULL 0) 0) (mkCpu 0x11 0 ∅ 0) (mkIsr (replicate 32 0) (replicate 16 0) (replicate 256 0)).
Definition s0 : machine := state_of (pmm_init 6291456 0x400000 blank).
Definition s1 : machine := state_of (pmm_allocate_frame s0).
Definition s2 : machine := state_of (pmm_allocate_frame s1).
Definition s3 : machine := state_of (pmm_allocate_frame s2).

Lemma s1_run : pmm_allocate_frame s0 = Ok 0x400000 s1.
Proof. unfold s1. apply returned_ok. vm_compute. reflexivity. Qed.
Lemma s2_run : pmm_allocate_frame s1 = Ok 0x401000 s2.
Proof. unfold s2. apply returned_ok. vm_compute. reflexivity. Qed.
Lemma s3_run : pmm_allocate_frame s2 = Ok 0x402000 s3.
Proof. unfold s3. apply returned_ok. vm_compute. reflexivity. Qed.

Lemma paging_init_identity_witness :
  ∃ s', paging_init 0x100000 0x104000 0x106000 0x100500 s0 = Ok tt s' ∧
    Z.testbit (cr0 (lget s')) 31 = true ∧ cr3 (lget s') = 0x400000 ∧ tlb (lget s') = ∅ ∧ kernel_directory (lget s') = 0x400000 ∧
    handler_of (lget s') 14 = 0x100500 ∧
    ∀ va, 0 ≤ va < 4294967296 →
      translate (lget s') 0x400000 va =
      if (0x1000 <=? va) && (va <? 0x800000) then Some (va, writable 0x100000 0x106000 va, false) else None.
Proof.
  apply (paging_init_identity 0x100000 0x104000 0x106000 0x100500 s0 0x400000 s1 0x401000 s2 0x402000 s3);
    [vm_compute; repeat split; done|vm_compute; repeat split|done|exact s1_run|exact s2_run|exact s3_run|done..].
Defined.
End PagingExample.
