(* ===== verification/Mmu.v ===== *)
(** * Mmu: the kernel's accesses through the page tables

    Once paging is on every address the kernel uses is translated: from the
    processor's cache if it has the page, otherwise by the walk of Paging.v,
    whose result it then keeps. The kernel runs in ring 0 and [paging_init]
    leaves the write-protect bit of CR0 clear, so the permission bits do not
    stop it. The file has the accesses, [kmemset] and [kmemcpy] through them,
    and the rules of a weakest-precondition calculus that keeps track of
    which translations may be cached. *)

From S2P Require Import Prelude Memory Paging.

(** ** The accesses *)

(** The frame the page [p] is mapped to. *)
Definition page_frame (m : mem) (dir p : Z) : option Z :=
  let pde := ld32 m (entry dir (p / 1024)) in
  if present pde =? 0 then None else
  let pte := ld32 m (entry (frame_addr pde * 4096) (p mod 1024)) in
  if present pte =? 0 then None else Some (frame_addr pte).

Section mmu.
Context {St : Type} `{LM : Lens St mem} `{LC : Lens St Cpu}.

Definition mmu_page (va : Z) : M St Z :=
  c ← gets;
  match tlb c !! (va / 4096) with
  | Some f => mret f
  | None =>
      m ← gets;
      match translate m (cr3 c) va with
      | Some (pa, _, _) =>
          puts (mkCpu (cr0 c) (cr3 c) (<[va / 4096 := pa / 4096]> (tlb c)) (kernel_directory c)) ;;
          mret (pa / 4096)
      | None => stop (PageFault va)
      end
  end.
Definition mmu_addr (va : Z) : M St Z := f ← mmu_page va; mret (f * 4096 + va mod 4096).

Definition vload8 (va : Z) : M St Z := pa ← mmu_addr va; m ← gets (T:=mem); mret (get8 m pa).
Definition vstore8 (va v : Z) : M St unit := pa ← mmu_addr va; m ← gets; puts (set8 m pa v).

(** A word inside a page is translated once, one that crosses into the next
    page byte by byte. *)
Definition vload32 (va : Z) : M St Z :=
  if va mod 4096 <=? 4092 then pa ← mmu_addr va; m ← gets (T:=mem); mret (ld32 m pa)
  else
    b0 ← vload8 va; b1 ← vload8 (va ⊞ 1); b2 ← vload8 (va ⊞ 2); b3 ← vload8 (va ⊞ 3);
    mret (b0 + 256 * b1 + 65536 * b2 + 16777216 * b3).
Definition vstore32 (va v : Z) : M St unit :=
  if va mod 4096 <=? 4092 then pa ← mmu_addr va; m ← gets; puts (st32 m pa v)
  else
    vstore8 va v ;; vstore8 (va ⊞ 1) (v / 256) ;; vstore8 (va ⊞ 2) (v / 65536) ;; vstore8 (va ⊞ 3) (v / 16777216).

Definition vupdate32 (va : Z) (f : Z → Z) : M St unit := w ← vload32 va; vstore32 va (f w).

(** [kmemset] and [kmemcpy] (kmemory.c) on translated addresses. *)
Definition vkmemset (dest val count : Z) : M St Z :=
  mfor 0 count (λ i, vstore8 (dest ⊞ i) val) ;; mret dest.
Definition vkmemcpy (src dest count : Z) : M St Z :=
  mfor 0 count (λ i, b ← vload8 (src ⊞ i); vstore8 (dest ⊞ i) b) ;; mret dest.
End mmu.

(** ** The walk by pages *)

Lemma frame_addr_range w : 0 ≤ frame_addr w < 1048576.
Proof.
  unfold frame_addr, get_field. rewrite Z.land_ones by lia. change (2 ^ 20) with 1048576.
  apply Z.mod_pos_bound. lia.
Qed.

Lemma translate_page m dir va : 0 ≤ va →
  translate m dir va = None ∧ page_frame m dir (va / 4096) = None ∨
  ∃ f r u, translate m dir va = Some (f * 4096 + va mod 4096, r, u) ∧ page_frame m dir (va / 4096) = Some f.
Proof.
  intros Hva. unfold translate, page_frame. replace (va / 4096 / 1024) with (va / 4194304) by (Z.div_mod_to_equations; lia).
  destruct (present (ld32 m (entry dir (va / 4194304))) =? 0); [by left|].
  destruct (present _ =? 0); [by left|]. right. eauto.
Qed.

(** ** The calculus

    [R p f]: the processor may have cached frame [f] for page [p]. [kw R m op
    Q]: from memory [m], with at most the translations of [R] cached, [op]
    returns, and result, memory and possible translations then satisfy [Q].
    The state is the fixed state [s0] but for memory and the cache; the
    current directory and [kernel_directory] are [d]. *)

Abbreviation cached := (Z → Z → Prop).

Section wp.
Context {St : Type} `{LM : Lens St mem} `{LC : Lens St Cpu} {AC : Apart LM LC}.
Context (s0 : St) (c0 d : Z).

Definition kput (m : mem) (t : gmap Z Z) : St := lput m (lput (mkCpu c0 d t d) s0).

Lemma kput_mem m t : lget (kput m t) = m.
Proof. apply lget_lput. Qed.
Lemma kput_cpu m t : lget (kput m t) = mkCpu c0 d t d.
Proof. unfold kput. by rewrite lget_other', lget_lput. Qed.
Lemma kput_put_mem m m' t : lput m' (kput m t) = kput m' t.
Proof. apply lput_lput. Qed.
Lemma kput_put_cpu m t t' : lput (mkCpu c0 d t' d) (kput m t) = kput m t'.
Proof. unfold kput. by rewrite <- lput_comm, lput_lput. Qed.

Definition coh (R : cached) (t : gmap Z Z) : Prop := ∀ p f, t !! p = Some f → R p f.

Definition kw {B} (R : cached) (m : mem) (op : M St B) (Q : B → mem → cached → Prop) : Prop :=
  ∀ t, coh R t → ∃ b m' t' R', op (kput m t) = Ok b (kput m' t') ∧ coh R' t' ∧ Q b m' R'.

Lemma kw_ret {B} R m (b : B) (Q : B → mem → cached → Prop) : Q b m R → kw R m (mret b) Q.
Proof. intros HQ t Ht. eexists b, m, t, R. done. Qed.

Lemma kw_mono {B} R m (op : M St B) (Q Q' : B → mem → cached → Prop) :
  kw R m op Q → (∀ b m' R', Q b m' R' → Q' b m' R') → kw R m op Q'.
Proof. intros H HQ t Ht. destruct (H t Ht) as (b & m' & t' & R' & ? & ? & ?). exists b, m', t', R'. auto. Qed.

Lemma kw_bind {B C} R m (op : M St B) (f : B → M St C) (Q : C → mem → cached → Prop) :
  kw R m op (λ b m' R', kw R' m' (f b) Q) → kw R m (op ≫= f) Q.
Proof.
  intros H t Ht. destruct (H t Ht) as (b & m' & t' & R' & Hr & Ht' & Hf). rewrite (bind_ok _ _ _ _ _ Hr). by apply Hf.
Qed.

(** First [op], by its own triple, then the rest. *)
Lemma kw_seq {B C} R m (op : M St B) (f : B → M St C) (P : B → mem → cached → Prop) (Q : C → mem → cached → Prop) :
  kw R m op P → (∀ b m' R', P b m' R' → kw R' m' (f b) Q) → kw R m (op ≫= f) Q.
Proof. intros H Hf. apply kw_bind. eapply kw_mono; [exact H|done]. Qed.

Lemma kw_ret_bind {A B} R m (a : A) (f : A → M St B) Q : kw R m (f a) Q → kw R m (mret a ≫= f) Q.
Proof. intros H. by apply kw_bind, kw_ret. Qed.

Lemma kw_bind_ret {B} R m (op : M St B) Q : kw R m (op ≫= mret) Q → kw R m op Q.
Proof.
  intros H t Ht. destruct (H t Ht) as (b & m' & t' & R' & Hr & HQ). exists b, m', t', R'. split; [|done].
  unfold mbind, M_bind in Hr. by destruct (op (kput m t)).
Qed.

Lemma kw_assoc {A B C} R m (op : M St A) (f : A → M St B) (k : B → M St C) Q :
  kw R m (op ≫= λ a, f a ≫= k) Q → kw R m ((op ≫= f) ≫= k) Q.
Proof. intros H t Ht. rewrite bind_assoc. by apply H. Qed.

(** More translations may be assumed cached. *)
Lemma kw_weaken {B} (R R2 : cached) m (op : M St B) Q : kw R2 m op Q → (∀ p f, R p f → R2 p f) → kw R m op Q.
Proof. intros H HR t Ht. apply H. intros p f Hp. by apply HR, Ht. Qed.

(** Reading the control registers and globals: the code uses only
    [kernel_directory]. *)
Lemma kw_cpu {B} R m (f : Cpu → M St B) Q :
  (∀ t, kw R m (f (mkCpu c0 d t d)) Q) → kw R m (c ← gets; f c) Q.
Proof. intros H t Ht. rewrite bind_gets, kput_cpu. by apply H. Qed.

Lemma kw_ploop {A B} (body : A → M St (A + B)) fuel (I : A → mem → cached → Prop) (μ : A → nat)
    (Q : B → mem → cached → Prop) a m R :
  (∀ a m R, I a m R →
     kw R m (body a) (λ r m' R', match r with inl a' => I a' m' R' ∧ (μ a' < μ a)%nat | inr b => Q b m' R' end)) →
  I a m R → (μ a < Pos.to_nat fuel)%nat → kw R m (ploop body fuel a) Q.
Proof.
  intros Hb HI Hμ t Ht.
  destruct (ploop_rule body (λ a s, ∃ m t R, s = kput m t ∧ coh R t ∧ I a m R)
    (λ b s, ∃ m t R, s = kput m t ∧ coh R t ∧ Q b m R) μ fuel a (kput m t)) as (b & s' & Hr & m' & t' & R' & -> & Ht' & HQ).
  - intros a1 s1 (m1 & t1 & R1 & -> & Ht1 & HI1).
    destruct (Hb a1 m1 R1 HI1 t1 Ht1) as ([a'|b] & m' & t' & R' & Hr & Ht' & HQ).
    + left. exists a', (kput m' t'). destruct HQ. split_and!; [done|eauto 6|done].
    + right. exists b, (kput m' t'). split; [done|eauto 6].
  - eauto 6.
  - done.
  - exists b, m', t', R'. done.
Qed.

Lemma kw_mfor (I : Z → mem → cached → Prop) lo hi (f : Z → M St unit) m R Q :
  lo ≤ hi → (∀ i m R, lo ≤ i < hi → I i m R → kw R m (f i) (λ _ m' R', I (i + 1) m' R')) →
  I lo m R → (∀ m' R', I hi m' R' → Q tt m' R') → kw R m (mfor lo hi f) Q.
Proof.
  intros Hle Hf HI HQ t Ht.
  destruct (mfor_rule (λ i s, ∃ m t R, s = kput m t ∧ coh R t ∧ I i m R) lo hi f (kput m t))
    as (s' & Hr & m' & t' & R' & -> & Ht' & HI').
  - done.
  - intros i s1 Hi (m1 & t1 & R1 & -> & Ht1 & HI1).
    destruct (Hf i m1 R1 Hi HI1 t1 Ht1) as ([] & m' & t' & R' & Hr & Ht' & HI'). exists (kput m' t'). eauto 8.
  - eauto 6.
  - exists tt, m', t', R'. auto.
Qed.

(** [invlpg] drops a page. *)
Definition drop (p : Z) (R : cached) : cached := λ q f, q ≠ p ∧ R q f.

Lemma kw_invalidate R m va (Q : unit → mem → cached → Prop) :
  Q tt m (drop (va / 4096) R) → kw R m (paging_invalidate_page_cache va) Q.
Proof.
  intros HQ t Ht. unfold paging_invalidate_page_cache, PAGE_SIZE. rewrite bind_gets, kput_cpu. cbn [cr0 cr3 tlb kernel_directory].
  exists tt, m, (delete (va / 4096) t), (drop (va / 4096) R). split_and!; [|intros p f|done].
  - unfold puts. by rewrite kput_put_cpu.
  - intros [Hne Hp]%lookup_delete_Some. split; [done|by apply Ht].
Qed.

(** An address in a page that is mapped to [F], in memory and in whatever
    the processor has cached. *)
Definition at_frame (R : cached) (m : mem) (p F : Z) : Prop :=
  page_frame m d p = Some F ∧ R p F ∧ ∀ f, R p f → f = F.

Lemma kw_addr R m va F (Q : Z → mem → cached → Prop) :
  0 ≤ va → at_frame R m (va / 4096) F → Q (F * 4096 + va mod 4096) m R → kw R m (mmu_addr va) Q.
Proof.
  intros Hva (Hm & HR & HF) HQ t Ht. unfold mmu_addr.
  assert (∃ t', mmu_page va (kput m t) = Ok F (kput m t') ∧ coh R t') as (t' & Hr & Ht').
  { unfold mmu_page. rewrite bind_gets, kput_cpu. cbn [cr0 cr3 tlb kernel_directory].
    destruct (t !! (va / 4096)) as [f|] eqn:E.
    - rewrite (HF f (Ht _ _ E)). eauto.
    - rewrite bind_gets, kput_mem. destruct (translate_page m d va Hva) as [[_ ?]|(f & r & u & -> & Hf)]; [congruence|].
      rewrite bind_puts, kput_put_cpu. assert (f = F) as -> by congruence.
      replace ((F * 4096 + va mod 4096) / 4096) with F by (Z.div_mod_to_equations; lia).
      eexists. split; [reflexivity|]. intros p g. destruct (decide (p = va / 4096)) as [->|Hne].
      + rewrite lookup_insert_eq. by intros [= <-].
      + rewrite lookup_insert_ne by done. apply Ht. }
  rewrite (bind_ok _ _ _ _ _ Hr). exists (F * 4096 + va mod 4096), m, t', R. done.
Qed.

Lemma kw_mem {B} R m (f : mem → M St B) Q : kw R m (f m) Q → kw R m (x ← gets; f x) Q.
Proof. intros H t Ht. rewrite bind_gets, kput_mem. by apply H. Qed.
Lemma kw_put_mem R m m' (Q : unit → mem → cached → Prop) : Q tt m' R → kw R m (puts m') Q.
Proof. intros HQ t Ht. exists tt, m', t, R. unfold puts. by rewrite kput_put_mem. Qed.

Lemma kw_vload8 R m va F (Q : Z → mem → cached → Prop) :
  0 ≤ va → at_frame R m (va / 4096) F → Q (get8 m (F * 4096 + va mod 4096)) m R → kw R m (vload8 va) Q.
Proof. intros. unfold vload8. eapply kw_bind, kw_addr; [done..|]. by apply kw_mem, kw_ret. Qed.
Lemma kw_vstore8 R m va v F (Q : unit → mem → cached → Prop) :
  0 ≤ va → at_frame R m (va / 4096) F → Q tt (set8 m (F * 4096 + va mod 4096) v) R → kw R m (vstore8 va v) Q.
Proof. intros. unfold vstore8. eapply kw_bind, kw_addr; [done..|]. by apply kw_mem, kw_put_mem. Qed.
Lemma kw_vload32 R m va F (Q : Z → mem → cached → Prop) :
  0 ≤ va → va mod 4 = 0 → at_frame R m (va / 4096) F → Q (ld32 m (F * 4096 + va mod 4096)) m R → kw R m (vload32 va) Q.
Proof.
  intros. unfold vload32. destruct (Z.leb_spec (va mod 4096) 4092); [|Z.div_mod_to_equations; lia].
  eapply kw_bind, kw_addr; [done..|]. by apply kw_mem, kw_ret.
Qed.
Lemma kw_vstore32 R m va v F (Q : unit → mem → cached → Prop) :
  0 ≤ va → va mod 4 = 0 → at_frame R m (va / 4096) F → Q tt (st32 m (F * 4096 + va mod 4096) v) R → kw R m (vstore32 va v) Q.
Proof.
  intros. unfold vstore32. destruct (Z.leb_spec (va mod 4096) 4092); [|Z.div_mod_to_equations; lia].
  eapply kw_bind, kw_addr; [done..|]. by apply kw_mem, kw_put_mem.
Qed.
Lemma kw_vupdate32 R m va g F (Q : unit → mem → cached → Prop) :
  0 ≤ va → va mod 4 = 0 → at_frame R m (va / 4096) F →
  Q tt (st32 m (F * 4096 + va mod 4096) (g (ld32 m (F * 4096 + va mod 4096)))) R → kw R m (vupdate32 va g) Q.
Proof. intros. unfold vupdate32. eapply kw_bind, kw_vload32; [done..|]. by eapply kw_vstore32. Qed.

Lemma kw_run {B} R m t (op : M St B) Q : kw R m op Q → coh R t →
  ∃ b m' t' R', op (kput m t) = Ok b (kput m' t') ∧ coh R' t' ∧ Q b m' R'.
Proof. auto. Qed.
End wp.

(** ** Filling and copying a page *)

Section wp_fill.
Context {St : Type} `{LM : Lens St mem} `{LC : Lens St Cpu} {AC : Apart LM LC}.
Context (s0 : St) (c0 d : Z).

Abbreviation kw0 := (kw s0 c0 d).

(** The result may be claimed with more translations cached. *)
Lemma kw_post {B} R m (op : M St B) (Q Q' : B → mem → cached → Prop) :
  kw0 R m op Q → (∀ b m' R', Q b m' R' → ∃ R2 : cached, (∀ p f, R' p f → R2 p f) ∧ Q' b m' R2) → kw0 R m op Q'.
Proof.
  intros H HQ t Ht. destruct (H t Ht) as (b & m' & t' & R' & Hr & Ht' & Hb).
  destruct (HQ _ _ _ Hb) as (R2 & HR & HQ'). exists b, m', t', R2. split_and!; [done| |done].
  intros p f Hp. by apply HR, Ht'.
Qed.

(** [m'] is [m] but for the frame [F]. *)
Definition but_frame (m m' : mem) (F : Z) : Prop := same_but m m' (F * 4096) 4096.

Lemma page_of p i : 0 ≤ i < 4096 → (p * 4096 + i) / 4096 = p.
Proof. intros. Z.div_mod_to_equations. lia. Qed.
Lemma offset_of p i : 0 ≤ i < 4096 → (p * 4096 + i) mod 4096 = i.
Proof. intros. Z.div_mod_to_equations. lia. Qed.

(** [kmemset] of the start of a page that stays mapped to [F] whatever is
    written into [F]. *)
Lemma kw_memset R m p F v n (Q : Z → mem → cached → Prop) :
  0 ≤ p < 1048576 → 0 ≤ n ≤ 4096 → R p F → (∀ f, R p f → f = F) →
  (∀ m', but_frame m m' F → page_frame m' d p = Some F) →
  (∀ m', but_frame m m' F → (∀ x, 0 ≤ x < 4096 → get8 m' (F * 4096 + x) = if x <? n then u8 v else get8 m (F * 4096 + x)) →
     Q (p * 4096) m' R) →
  kw0 R m (vkmemset (p * 4096) v n) Q.
Proof.
  intros Hp Hn HR HF Hm HQ. unfold vkmemset. apply kw_bind.
  apply (kw_mfor _ _ _ (λ i m' R', R' = R ∧ but_frame m m' F ∧
    ∀ x, 0 ≤ x < 4096 → get8 m' (F * 4096 + x) = if x <? i then u8 v else get8 m (F * 4096 + x))); [lia| | |].
  - intros i m1 R1 Hi (-> & Hb & Hx). rewrite u32_small by lia.
    eapply kw_vstore8; [lia|rewrite page_of by lia; split_and!; [by apply Hm|done|done]|].
    rewrite offset_of by lia. split_and!; [done| |].
    + intros y Hy. rewrite get8_set8_ne by lia. by apply Hb.
    + intros x Hxr. destruct (decide (x = i)) as [->|].
      * rewrite get8_set8. destruct (Z.ltb_spec i (i + 1)); [done|lia].
      * rewrite get8_set8_ne, Hx by lia. destruct (Z.ltb_spec x i), (Z.ltb_spec x (i + 1)); try lia; done.
  - split_and!; [done|by intros ??|]. intros x Hx. destruct (Z.ltb_spec x 0); [lia|done].
  - intros m' R' (-> & Hb & Hx). by apply kw_ret, HQ.
Qed.

(** [kmemcpy] from addresses that lead to themselves, into such a page. *)
Lemma kw_memcpy R m src p F n (Q : Z → mem → cached → Prop) :
  0 ≤ src → src + n ≤ 4294967296 → 0 ≤ p < 1048576 → 0 ≤ n ≤ 4096 → R p F → (∀ f, R p f → f = F) →
  (∀ m', but_frame m m' F → page_frame m' d p = Some F) →
  (∀ m' a, but_frame m m' F → src ≤ a < src + n → at_frame d R m' (a / 4096) (a / 4096)) →
  (∀ a, src ≤ a < src + n → a / 4096 ≠ F) →
  (∀ m', but_frame m m' F → (∀ x, 0 ≤ x < 4096 → get8 m' (F * 4096 + x) = if x <? n then get8 m (src + x) else get8 m (F * 4096 + x)) →
     Q (p * 4096) m' R) →
  kw0 R m (vkmemcpy src (p * 4096) n) Q.
Proof.
  intros Hs Hs' Hp Hn HR HF Hm Hid Hne HQ. unfold vkmemcpy. apply kw_bind.
  apply (kw_mfor _ _ _ (λ i m' R', R' = R ∧ but_frame m m' F ∧
    ∀ x, 0 ≤ x < 4096 → get8 m' (F * 4096 + x) = if x <? i then get8 m (src + x) else get8 m (F * 4096 + x))); [lia| | |].
  - intros i m1 R1 Hi (-> & Hb & Hx). rewrite !u32_small by lia. apply kw_bind.
    eapply kw_vload8; [lia|apply Hid; [done|lia]|].
    replace ((src + i) / 4096 * 4096 + (src + i) mod 4096) with (src + i) by (Z.div_mod_to_equations; lia).
    assert (get8 m1 (src + i) = get8 m (src + i)) as ->.
    { apply Hb. specialize (Hne (src + i) ltac:(lia)). Z.div_mod_to_equations; lia. }
    eapply kw_vstore8; [lia|rewrite page_of by lia; split_and!; [by apply Hm|done|done]|].
    rewrite offset_of by lia. split_and!; [done| |].
    + intros y Hy. rewrite get8_set8_ne by lia. by apply Hb.
    + intros x Hxr. destruct (decide (x = i)) as [->|].
      * rewrite get8_set8, u8_get8. destruct (Z.ltb_spec i (i + 1)); [done|lia].
      * rewrite get8_set8_ne, Hx by lia. destruct (Z.ltb_spec x i), (Z.ltb_spec x (i + 1)); try lia; done.
  - split_and!; [done|by intros ??|]. intros x Hx. destruct (Z.ltb_spec x 0); [lia|done].
  - intros m' R' (-> & Hb & Hx). by apply kw_ret, HQ.
Qed.
End wp_fill.
