(* ===== verification/Vmm.v ===== *)
(** * Vmm: the virtual memory manager (src/kernel/memory/vmm.c)

    New pages for the kernel, mapping and unmapping frames, reading back a
    translation, and building the address space of a process, all through the
    kernel's own page tables (Mmu.v). Tables that are not identity mapped are
    reached through a window, the last page of the kernel's 8 MB. *)

From S2P Require Import Prelude Memory Bitmap Pmm Paging Mmu.

(** ** The code *)

Definition VMM_TEMP_WINDOW_VIRTUAL : Z := 0x007FF000.
Definition VMM_TEMP_WINDOW_PAGE_IDX : Z := 1023.
Definition KERNEL_PT1_DIR_IDX : Z := 1.

(** [entry->page_table_addr << 12] and the indices of an address. *)
Definition table_of (e : Z) : Z := u32 (Z.shiftl (frame_addr e) 12).
Definition directory_index (va : Z) : Z := Z.land (Z.shiftr va 22) 0x3FF.
Definition page_index (va : Z) : Z := Z.land (Z.shiftr va 12) 0x3FF.

(** The scans of [vmm_get_new_page] make at most 1024 turns each. *)
Definition VMM_FUEL : positive := 2048.

Section vmm.
Context {St : Type} `{LM : Lens St mem} `{LC : Lens St Cpu} `{LP : Lens St PmmStatics}.

Definition vmm_map_to_temp_window (table_physical_addr : Z) : M St Z :=
  c ← gets;
  let kernel_directory := kernel_directory c in
  e ← vload32 (entry kernel_directory KERNEL_PT1_DIR_IDX);
  let kernel_pt1 := table_of e in
  vupdate32 (entry kernel_pt1 VMM_TEMP_WINDOW_PAGE_IDX) (set_present 1) ;;
  vupdate32 (entry kernel_pt1 VMM_TEMP_WINDOW_PAGE_IDX) (set_rw 1) ;;
  vupdate32 (entry kernel_pt1 VMM_TEMP_WINDOW_PAGE_IDX) (set_frame_addr (Z.shiftr table_physical_addr 12)) ;;
  paging_invalidate_page_cache VMM_TEMP_WINDOW_VIRTUAL ;;
  mret VMM_TEMP_WINDOW_VIRTUAL.

Definition vmm_unmap_temp_window : M St unit :=
  c ← gets;
  let kernel_directory := kernel_directory c in
  e ← vload32 (entry kernel_directory KERNEL_PT1_DIR_IDX);
  let kernel_pt1 := table_of e in
  vupdate32 (entry kernel_pt1 VMM_TEMP_WINDOW_PAGE_IDX) (set_present 0) ;;
  paging_invalidate_page_cache VMM_TEMP_WINDOW_VIRTUAL.

(** The search for a free slot: [inr (Some va)] when found. *)
Definition scan_table (pd_idx pt pt_idx : Z) : M St (Z + option Z) :=
  if pt_idx <? 1024 then
    w ← vload32 (entry pt pt_idx);
    if present w =? 0 then mret (inr (Some (Z.lor (u32 (Z.shiftl pd_idx 22)) (u32 (Z.shiftl pt_idx 12)))))
    else mret (inl (pt_idx + 1))
  else mret (inr None).
Definition scan_directory (space pd_idx : Z) : M St (Z + option Z) :=
  if pd_idx <? 1024 then
    if (pd_idx =? 768) || (pd_idx =? 769) then mret (inl (pd_idx + 1)) else
    e ← vload32 (entry space pd_idx);
    if present e =? 0 then mret (inr (Some (u32 (Z.shiftl pd_idx 22)))) else
    e ← vload32 (entry space pd_idx);
    r ← ploop (scan_table pd_idx (table_of e)) VMM_FUEL 0;
    match r with Some va => mret (inr (Some va)) | None => mret (inl (pd_idx + 1)) end
  else mret (inr None).
Definition find_slot (space : Z) : M St (option Z) := ploop (scan_directory space) VMM_FUEL 2.

(** A new, cleared page table for the directory entry; false when no frame
    is left. *)
Definition add_table (space idx : Z) (is_rw is_user : bool) : M St bool :=
  new_table_frame ← pmm_allocate_frame;
  if new_table_frame =? 0 then mret false else
  vupdate32 (entry space idx) (set_present 1) ;;
  vupdate32 (entry space idx) (set_rw (Z.b2z is_rw)) ;;
  vupdate32 (entry space idx) (set_user (Z.b2z is_user)) ;;
  vupdate32 (entry space idx) (set_frame_addr (Z.shiftr new_table_frame 12)) ;;
  temp_table ← vmm_map_to_temp_window new_table_frame;
  vkmemset temp_table 0 4096 ;;
  vmm_unmap_temp_window ;;
  mret true.

(** The four assignments to a page table entry. *)
Definition map_page (table idx physical_frame : Z) (is_rw is_user : bool) : M St unit :=
  vupdate32 (entry table idx) (set_present 1) ;;
  vupdate32 (entry table idx) (set_rw (Z.b2z is_rw)) ;;
  vupdate32 (entry table idx) (set_user (Z.b2z is_user)) ;;
  vupdate32 (entry table idx) (set_frame_addr (Z.shiftr physical_frame 12)).

Definition vmm_get_new_page (space : Z) (is_rw is_user : bool) (explicit_virtual : Z) : M St Z :=
  target ← (if negb (explicit_virtual =? NULL) then mret (Some explicit_virtual) else find_slot space);
  match target with
  | None => mret NULL
  | Some target_virtual =>
      physical_frame ← pmm_allocate_frame;
      if physical_frame =? 0 then mret NULL else
      e ← vload32 (entry space (directory_index target_virtual));
      ok ← (if present e =? 0 then add_table space (directory_index target_virtual) is_rw is_user else mret true);
      if negb ok then mret NULL else
      e ← vload32 (entry space (directory_index target_virtual));
      let table_physical_address := table_of e in
      table ← vmm_map_to_temp_window table_physical_address;
      map_page table (page_index target_virtual) physical_frame is_rw is_user ;;
      vmm_unmap_temp_window ;;
      paging_invalidate_page_cache target_virtual ;;
      mret target_virtual
  end.

Definition vmm_free_page (space virtual_address : Z) : M St unit :=
  e ← vload32 (entry space (directory_index virtual_address));
  if present e =? 0 then mret tt else
  e ← vload32 (entry space (directory_index virtual_address));
  let table := table_of e in
  vupdate32 (entry table (page_index virtual_address)) (set_present 0) ;;
  vupdate32 (entry table (page_index virtual_address)) (set_frame_addr 0) ;;
  paging_invalidate_page_cache virtual_address.

Definition vmm_get_physical_address (space virtual_address : Z) : M St Z :=
  e ← vload32 (entry space (directory_index virtual_address));
  if present e =? 0 then mret 0 else
  e ← vload32 (entry space (directory_index virtual_address));
  let table_phys := table_of e in
  c ← gets;
  let kernel_directory := kernel_directory c in
  k ← vload32 (entry kernel_directory 1);
  let kernel_pt1 := table_of k in
  vupdate32 (entry kernel_pt1 1023) (set_present 1) ;;
  vupdate32 (entry kernel_pt1 1023) (set_rw 0) ;;
  vupdate32 (entry kernel_pt1 1023) (set_frame_addr (Z.shiftr table_phys 12)) ;;
  paging_invalidate_page_cache 0x007FF000 ;;
  w ← vload32 (entry 0x007FF000 (page_index virtual_address));
  let phys_frame := table_of w in
  vupdate32 (entry kernel_pt1 1023) (set_present 0) ;;
  paging_invalidate_page_cache 0x007FF000 ;;
  mret phys_frame.

(** The page table of [vmm_map_frame]: the one the directory names, used at
    its physical address, or a new one; [None] when there is no memory. *)
Definition table_for (target_dir pd_idx : Z) (is_user_process : bool) : M St (option Z) :=
  e ← vload32 (entry target_dir pd_idx);
  if negb (present e =? 0) then
    e ← vload32 (entry target_dir pd_idx);
    mret (Some (table_of e))
  else
    c ← gets;
    local_pt_window ← vmm_get_new_page (kernel_directory c) true false NULL;
    if local_pt_window =? 0 then mret None else
    vkmemset local_pt_window 0 4096 ;;
    c ← gets;
    pt_phys ← vmm_get_physical_address (kernel_directory c) local_pt_window;
    vupdate32 (entry target_dir pd_idx) (set_present 1) ;;
    vupdate32 (entry target_dir pd_idx) (set_rw 1) ;;
    vupdate32 (entry target_dir pd_idx) (set_user (Z.b2z is_user_process)) ;;
    vupdate32 (entry target_dir pd_idx) (set_frame_addr (Z.shiftr pt_phys 12)) ;;
    mret (Some local_pt_window).

Definition vmm_map_frame (target_dir virtual_addr physical_frame : Z) (is_writeable is_user_process : bool) : M St bool :=
  let pd_idx := Z.shiftr virtual_addr 22 in
  let pt_idx := Z.land (Z.shiftr virtual_addr 12) 0x3FF in
  pt_virt ← table_for target_dir pd_idx is_user_process;
  match pt_virt with
  | None => mret false
  | Some pt_virt =>
      map_page pt_virt pt_idx physical_frame is_writeable is_user_process ;;
      paging_invalidate_page_cache virtual_addr ;;
      mret true
  end.

(** One turn of the copy loop of [vmm_create_virtual_address_space]; false
    for the early return. *)
Definition copy_code_page (new_address_space entry_point size num_pages : Z) (is_user_process : bool) (p : Z) : M St bool :=
  c ← gets;
  local_user_code ← vmm_get_new_page (kernel_directory c) true false NULL;
  if local_user_code =? 0 then mret false else
  let src_chunk := entry_point ⊞ (p ⊠ PAGE_SIZE) in
  let bytes_to_copy := if p =? num_pages ⊟ 1 then size ⊟ (p ⊠ PAGE_SIZE) else PAGE_SIZE in
  (if p =? num_pages ⊟ 1 then vkmemset local_user_code 0 PAGE_SIZE ;; mret tt else mret tt) ;;
  vkmemcpy src_chunk local_user_code bytes_to_copy ;;
  c ← gets;
  user_code_physical_frame ← vmm_get_physical_address (kernel_directory c) local_user_code;
  let target_virtual_address := 0xC0000000 ⊞ (p ⊠ PAGE_SIZE) in
  vmm_map_frame new_address_space target_virtual_address user_code_physical_frame true is_user_process ;;
  c ← gets;
  vmm_free_page (kernel_directory c) local_user_code ;;
  mret true.

Definition vmm_create_virtual_address_space (entry_point size : Z) (is_user_process : bool) : M St Z :=
  c ← gets;
  new_address_space ← vmm_get_new_page (kernel_directory c) true false NULL;
  if new_address_space =? 0 then mret NULL else
  vkmemset new_address_space 0 4096 ;;
  mfor 0 2 (λ i,
    c ← gets;
    e ← vload32 (entry (kernel_directory c) i);
    vstore32 (entry new_address_space i) e) ;;
  let num_pages := u32 (size + PAGE_SIZE - 1) / PAGE_SIZE in
  ploop (λ p,
    if p <? num_pages then
      ok ← copy_code_page new_address_space entry_point size num_pages is_user_process p;
      if ok : bool then mret (inl (p + 1)) else mret (inr NULL)
    else mret (inr new_address_space)) PMM_FUEL 0.
End vmm.

(** ** The kernel's address space *)

Section kspace.
Context (d t1 t2 : Z).

Definition pde (m : mem) (i : Z) : Z := ld32 m (entry d i).
Definition pte (m : mem) (f j : Z) : Z := ld32 m (entry (f * 4096) j).

(** The directory at [d] names the tables [kt] (their frames, by index); the
    tables are distinct frames below the window's; tables [t1] and [t2] map
    the first 8 MB to itself, page 0 and the window excepted, for the kernel
    only. *)
Record kspace (m : mem) (kt : gmap Z Z) : Prop := {
  ks_d : d mod 4096 = 0 ∧ 1 ≤ d / 4096 < 2047;
  ks_pde : ∀ i, 0 ≤ i < 1024 → present (pde m i) = match kt !! i with Some _ => 1 | None => 0 end;
  ks_table : ∀ i f, kt !! i = Some f → 0 ≤ i < 1024 ∧ 1 ≤ f < 2047 ∧ f ≠ d / 4096 ∧ frame_addr (pde m i) = f;
  ks_inj : ∀ i j f, kt !! i = Some f → kt !! j = Some f → i = j;
  ks_t1 : kt !! 0 = Some t1;
  ks_t2 : kt !! 1 = Some t2;
  ks_low : ∀ j, 1 ≤ j < 1024 → present (pte m t1 j) = 1 ∧ frame_addr (pte m t1 j) = j;
  ks_high : ∀ j, 0 ≤ j < 1023 → present (pte m t2 j) = 1 ∧ frame_addr (pte m t2 j) = 1024 + j;
  ks_super : user (pde m 0) = 0 ∧ user (pde m 1) = 0
}.

(** The part of it that the kernel itself runs in. *)
Record kcore (m : mem) : Prop := {
  kc_d : d mod 4096 = 0 ∧ 1 ≤ d / 4096 < 2047;
  kc_0 : present (pde m 0) = 1 ∧ frame_addr (pde m 0) = t1;
  kc_1 : present (pde m 1) = 1 ∧ frame_addr (pde m 1) = t2;
  kc_low : ∀ j, 1 ≤ j < 1024 → present (pte m t1 j) = 1 ∧ frame_addr (pte m t1 j) = j;
  kc_high : ∀ j, 0 ≤ j < 1023 → present (pte m t2 j) = 1 ∧ frame_addr (pte m t2 j) = 1024 + j
}.

Lemma ks_core m kt : kspace m kt → kcore m.
Proof.
  intros []. constructor; try done.
  - rewrite ks_pde0, ks_t3 by lia. split; [done|by apply (ks_table0 0)].
  - rewrite ks_pde0, ks_t4 by lia. split; [done|by apply (ks_table0 1)].
Qed.

Lemma kc_ident m p : kcore m → 1 ≤ p < 2047 → page_frame m d p = Some p.
Proof.
  intros H Hp. unfold page_frame. fold (pde m (p / 1024)). destruct (Z.lt_ge_cases p 1024).
  - rewrite Z.div_small, Z.mod_small by lia. destruct (kc_0 _ H) as [-> ->]. fold (pte m t1 p).
    by destruct (kc_low _ H p) as [-> ->]; [lia|].
  - replace (p / 1024) with 1 by (Z.div_mod_to_equations; lia). destruct (kc_1 _ H) as [-> ->]. fold (pte m t2 (p mod 1024)).
    destruct (kc_high _ H (p mod 1024)) as [-> ->]; [Z.div_mod_to_equations; lia|]. cbn. f_equal. Z.div_mod_to_equations; lia.
Qed.

(** What the tables say of page [p]. *)
Definition slot (m : mem) (f j : Z) : option Z :=
  if present (pte m f j) =? 0 then None else Some (frame_addr (pte m f j)).

Lemma ks_page m kt p : kspace m kt → 0 ≤ p < 1048576 →
  page_frame m d p = f ← kt !! (p / 1024); slot m f (p mod 1024).
Proof.
  intros H Hp. unfold page_frame. fold (pde m (p / 1024)).
  rewrite (ks_pde _ _ H) by (Z.div_mod_to_equations; lia).
  destruct (kt !! (p / 1024)) as [f|] eqn:E; cbn; [|done].
  destruct (ks_table _ _ H _ _ E) as (_ & _ & _ & ->). done.
Qed.

(** [m'] and [m] have the same directory and tables. *)
Definition same_tables (m m' : mem) (kt : gmap Z Z) : Prop :=
  (∀ i, 0 ≤ i < 1024 → pde m' i = pde m i) ∧ (∀ i f j, kt !! i = Some f → 0 ≤ j < 1024 → pte m' f j = pte m f j).

Lemma same_tables_page m m' kt p : kspace m kt → kspace m' kt → same_tables m m' kt → 0 ≤ p < 1048576 →
  page_frame m' d p = page_frame m d p.
Proof.
  intros H H' [_ Ht] Hp. rewrite !(ks_page _ kt) by done. destruct (kt !! (p / 1024)) as [f|] eqn:E; [|done].
  cbn. unfold slot. rewrite (Ht _ _ (p mod 1024) E); [done|Z.div_mod_to_equations; lia].
Qed.

Lemma same_tables_ks m m' kt : kspace m kt → same_tables m m' kt → kspace m' kt.
Proof.
  intros [] [Hd Ht]. constructor; try done.
  - intros i Hi. rewrite Hd by done. auto.
  - intros i f Hf. destruct (ks_table0 i f Hf) as (Hi & ? & ? & ?). rewrite Hd by done. auto.
  - intros j Hj. rewrite (Ht _ _ _ ks_t3) by lia. auto.
  - intros j Hj. rewrite (Ht _ _ _ ks_t4) by lia. auto.
  - by rewrite !Hd by lia.
Qed.

(** Bytes outside the directory and the tables. *)
Definition off_tables (kt : gmap Z Z) (a n : Z) : Prop :=
  (a + n ≤ d ∨ d + 4096 ≤ a) ∧ ∀ i f, kt !! i = Some f → a + n ≤ f * 4096 ∨ f * 4096 + 4096 ≤ a.

Lemma off_tables_same m m' kt a n : off_tables kt a n → same_but m m' a n → same_tables m m' kt.
Proof.
  intros [Hd Ht] Hs. split.
  - intros i Hi. unfold pde, entry. apply (same_but_ld32 _ _ _ _ _ Hs). lia.
  - intros i f j Hf Hj. unfold pte, entry. apply (same_but_ld32 _ _ _ _ _ Hs). specialize (Ht i f Hf). lia.
Qed.

(** Writing one page table entry outside the identity map. *)
Lemma write_pte_tables m m' kt i f j : kspace m kt → kt !! i = Some f → 0 ≤ j < 1024 →
  same_but m m' (entry (f * 4096) j) 4 →
  (∀ i, 0 ≤ i < 1024 → pde m' i = pde m i) ∧
  ∀ i' f' j', kt !! i' = Some f' → 0 ≤ j' < 1024 → (f', j') ≠ (f, j) → pte m' f' j' = pte m f' j'.
Proof.
  intros H Hf Hj Hs. destruct (ks_d _ _ H) as [Hd0 _]. destruct (ks_table _ _ H _ _ Hf) as (_ & _ & Hne & _). split.
  - intros k Hk. unfold pde. apply (same_but_ld32 _ _ _ _ _ Hs). unfold entry. Z.div_mod_to_equations; lia.
  - intros i' f' j' Hf' Hj' Hne'. unfold pte. apply (same_but_ld32 _ _ _ _ _ Hs). unfold entry.
    destruct (decide (f' = f)) as [->|]; [|lia]. assert (j' ≠ j) by congruence. lia.
Qed.

Lemma write_pte m m' kt i f j : kspace m kt → kt !! i = Some f → 0 ≤ j < 1024 → 2047 ≤ i * 1024 + j →
  same_but m m' (entry (f * 4096) j) 4 →
  kspace m' kt ∧ (∀ p, 0 ≤ p < 1048576 → p ≠ i * 1024 + j → page_frame m' d p = page_frame m d p) ∧
  page_frame m' d (i * 1024 + j) = slot m' f j.
Proof.
  intros H Hf Hj Hij Hs. destruct (write_pte_tables _ _ _ _ _ _ H Hf Hj Hs) as [Hd Ht].
  pose proof (ks_table _ _ H _ _ Hf) as (Hi & _ & _ & _).
  assert (kspace m' kt) as H'.
  { destruct H. constructor; try done.
    - intros k Hk. rewrite Hd by done. auto.
    - intros k g Hg. destruct (ks_table0 k g Hg) as (Hk & ? & ? & ?). rewrite Hd by done. auto.
    - intros k Hk. rewrite (Ht _ _ _ ks_t3); [auto|lia|]. intros [= -> ->]. specialize (ks_inj0 _ _ _ ks_t3 Hf). lia.
    - intros k Hk. rewrite (Ht _ _ _ ks_t4); [auto|lia|]. intros [= -> ->]. specialize (ks_inj0 _ _ _ ks_t4 Hf). lia.
    - by rewrite !Hd by lia. }
  split_and!; [done| |].
  - intros p Hp Hne. rewrite !(ks_page _ kt) by done. destruct (kt !! (p / 1024)) as [g|] eqn:E; [|done]. cbn.
    unfold slot. rewrite (Ht _ _ (p mod 1024) E); [done|Z.div_mod_to_equations; lia|].
    intros [= -> <-]. pose proof (ks_inj _ _ H _ _ _ E Hf). Z.div_mod_to_equations; lia.
  - rewrite (ks_page _ kt) by (done || Z.div_mod_to_equations; lia).
    replace ((i * 1024 + j) / 1024) with i by (Z.div_mod_to_equations; lia).
    replace ((i * 1024 + j) mod 1024) with j by (Z.div_mod_to_equations; lia). by rewrite Hf.
Qed.

(** Writing a directory entry that was not present, to name a new table. *)
Lemma write_pde m m' kt i f : kspace m kt → kt !! i = None → 2 ≤ i < 1024 → same_but m m' (entry d i) 4 →
  present (pde m' i) = 1 → frame_addr (pde m' i) = f → 1 ≤ f < 2047 → f ≠ d / 4096 → (∀ j, kt !! j ≠ Some f) →
  kspace m' (<[i := f]> kt) ∧
  (∀ p, 0 ≤ p < 1048576 → p / 1024 ≠ i → page_frame m' d p = page_frame m d p) ∧
  (∀ j, 0 ≤ j < 1024 → pte m' f j = pte m f j).
Proof.
  intros H Hi Hir Hs Hpr Hfr Hf Hfd Hnew. destruct (ks_d _ _ H) as [Hd0 Hd1].
  assert (∀ g j, 1 ≤ g → g ≠ d / 4096 → 0 ≤ j < 1024 → pte m' g j = pte m g j) as Ht.
  { intros g j ???. unfold pte. apply (same_but_ld32 _ _ _ _ _ Hs). unfold entry. Z.div_mod_to_equations; lia. }
  assert (∀ k, k ≠ i → pde m' k = pde m k) as Hd.
  { intros k ?. unfold pde. apply (same_but_ld32 _ _ _ _ _ Hs). unfold entry. lia. }
  assert (kspace m' (<[i := f]> kt)) as H'.
  { destruct H. constructor; try done.
    - intros k Hk. destruct (decide (k = i)) as [->|]; [by rewrite lookup_insert_eq|].
      rewrite lookup_insert_ne, Hd by done. auto.
    - intros k g. destruct (decide (k = i)) as [->|]; [rewrite lookup_insert_eq; intros [= <-]; split_and!; done || lia|].
      rewrite lookup_insert_ne, Hd by done. auto.
    - intros k l g. rewrite !lookup_insert_Some. intros [[<- <-]|[? Hk]] [[<- ?]|[? Hl]]; [done| | |by eapply ks_inj0].
      + by destruct (Hnew l).
      + by subst; destruct (Hnew k).
    - by rewrite lookup_insert_ne by lia.
    - by rewrite lookup_insert_ne by lia.
    - intros j Hj. destruct (ks_table0 _ _ ks_t3) as (_ & ? & ? & _). rewrite Ht by lia. auto.
    - intros j Hj. destruct (ks_table0 _ _ ks_t4) as (_ & ? & ? & _). rewrite Ht by lia. auto.
    - by rewrite !Hd by lia. }
  split_and!; [done| |intros; apply Ht; lia].
  intros p Hp Hne. rewrite (ks_page m' _ _ H'), (ks_page m _ _ H) by done. rewrite lookup_insert_ne by done.
  destruct (kt !! (p / 1024)) as [g|] eqn:E; [|done]. cbn. destruct (ks_table _ _ H _ _ E) as (_ & ? & ? & _).
  unfold slot. rewrite Ht by (try done; Z.div_mod_to_equations; lia). done.
Qed.
End kspace.

(** ** The window and the four assignments *)

Section vmm_spec.
Context {St : Type} `{LM : Lens St mem} `{LC : Lens St Cpu} `{LP : Lens St PmmStatics}.
Context {AC : Apart LM LC} {AP : Apart LM LP} {ACP : Apart LC LP}.
Context (s0 : St) (c0 d t1 t2 : Z).

Abbreviation kw0 := (kw s0 c0 d).
Abbreviation ks := (kspace d t1 t2).

(** The identity map as the processor may have it cached. *)
Definition Rk (R : cached) : Prop := ∀ p, 1 ≤ p < 2047 → R p p ∧ ∀ f, R p f → f = p.

Lemma at_ident R m p : kcore d t1 t2 m → Rk R → 1 ≤ p < 2047 → at_frame d R m p p.
Proof. intros H HR Hp. destruct (HR p Hp). split_and!; [by eapply kc_ident|done|done]. Qed.

(** An aligned word of the identity map. *)
Definition low_word (a : Z) : Prop := 4096 ≤ a ∧ a + 4 ≤ 8384512 ∧ a mod 4 = 0.

Lemma low_word_split a : low_word a → 1 ≤ a / 4096 < 2047 ∧ a / 4096 * 4096 + a mod 4096 = a.
Proof. unfold low_word. intros. Z.div_mod_to_equations; lia. Qed.

Lemma kw_load_ident R m a (Q : Z → mem → cached → Prop) :
  kcore d t1 t2 m → Rk R → low_word a → Q (ld32 m a) m R → kw0 R m (vload32 a) Q.
Proof.
  intros H HR Ha HQ. destruct (low_word_split a Ha) as [Hp E]. destruct Ha as (? & ? & ?).
  eapply kw_vload32; [lia|done|by eapply at_ident|]. by rewrite E.
Qed.
Lemma kw_update_ident R m a g (Q : unit → mem → cached → Prop) :
  kcore d t1 t2 m → Rk R → low_word a → Q tt (st32 m a (g (ld32 m a))) R → kw0 R m (vupdate32 a g) Q.
Proof.
  intros H HR Ha HQ. destruct (low_word_split a Ha) as [Hp E]. destruct Ha as (? & ? & ?).
  eapply kw_vupdate32; [lia|done|by eapply at_ident|]. by rewrite E.
Qed.

Lemma dir_word m kt i : ks m kt → 0 ≤ i < 1024 → low_word (entry d i).
Proof. intros H Hi. destruct (ks_d _ _ _ _ _ H). unfold low_word, entry. Z.div_mod_to_equations; lia. Qed.
Lemma table_word m kt i f j : ks m kt → kt !! i = Some f → 0 ≤ j < 1024 → low_word (entry (f * 4096) j).
Proof. intros H Hf Hj. pose proof (ks_table _ _ _ _ _ H _ _ Hf). unfold low_word, entry. Z.div_mod_to_equations; lia. Qed.

Lemma table_of_pde m kt i f : ks m kt → kt !! i = Some f → table_of (pde d m i) = f * 4096.
Proof.
  intros H Hf. destruct (ks_table _ _ _ _ _ H _ _ Hf) as (_ & ? & _ & E). unfold table_of. rewrite E, Z.shiftl_mul_pow2 by lia.
  rewrite u32_small; lia.
Qed.

(** What may be cached, with the window's page leading to [o]. *)
Definition win (R : cached) (o : option Z) : cached := λ p f, if decide (p = 2047) then o = Some f else R p f.

Lemma Rk_win R o : Rk R → Rk (win R o).
Proof. intros H p Hp. unfold win. destruct (decide (p = 2047)); [lia|by apply H]. Qed.
Lemma Rk_drop R p : Rk R → ¬ (1 ≤ p < 2047) → Rk (drop p R).
Proof. intros H Hp q Hq. destruct (H q Hq). unfold drop. split; [split; [lia|done]|naive_solver]. Qed.
Lemma drop_win R o p f : drop 2047 (win R o) p f → win R None p f.
Proof. unfold drop, win. intros [? H]. by destruct (decide (p = 2047)). Qed.
Lemma win_None R o p f : win R None p f → win R o p f.
Proof. unfold win. by destruct (decide (p = 2047)). Qed.

Lemma kw_drop_window R o m (Q : unit → mem → cached → Prop) :
  Q tt m (win R None) → kw0 (win R o) m (paging_invalidate_page_cache VMM_TEMP_WINDOW_VIRTUAL) Q.
Proof.
  intros HQ. eapply kw_post; [by apply kw_invalidate with (Q := λ b m' R', b = tt ∧ m' = m ∧ R' = drop 2047 (win R o))|].
  intros [] m' R' (_ & -> & ->). exists (win R None). split; [apply drop_win|done].
Qed.

(** The entry of the window. *)
Abbreviation window_entry := (entry (t2 * 4096) 1023).

(** Rewriting the entry of the window: the other pages keep. *)
Definition window_moved (m m' : mem) (kt : gmap Z Z) (o : option Z) : Prop :=
  same_but m m' window_entry 4 ∧ ks m' kt ∧ page_frame m' d 2047 = o ∧
  ∀ p, 0 ≤ p < 1048576 → p ≠ 2047 → page_frame m' d p = page_frame m d p.

Lemma window_write m m' kt w : ks m kt → same_but m m' window_entry 4 → ld32 m' window_entry = w →
  window_moved m m' kt (if present w =? 0 then None else Some (frame_addr w)).
Proof.
  intros H Hs Hw. destruct (write_pte d t1 t2 m m' kt 1 t2 1023 H (ks_t2 _ _ _ _ _ H) ltac:(lia) ltac:(lia) Hs) as (H' & Hp & Hpg).
  split_and!; [done|done| |by intros; apply Hp]. change (1 * 1024 + 1023) with 2047 in Hpg. rewrite Hpg.
  unfold slot, pte. by rewrite Hw.
Qed.

(** One more assignment to the entry of the window. *)
Lemma kw_update_window {B} R o m0 m kt g (k : unit → M St B) Q :
  ks m0 kt → Rk R → same_but m0 m window_entry 4 →
  (∀ m', same_but m0 m' window_entry 4 → ld32 m' window_entry = u32 (g (ld32 m window_entry)) → kw0 (win R o) m' (k tt) Q) →
  kw0 (win R o) m (vupdate32 window_entry g ≫= k) Q.
Proof.
  intros H HR Hs Hk. pose proof (table_word _ _ _ _ 1023 H (ks_t2 _ _ _ _ _ H) ltac:(lia)) as Hw.
  apply kw_bind. eapply kw_update_ident; [by eapply ks_core, (window_write m0 m kt _ H Hs eq_refl)|by apply Rk_win|done|].
  apply Hk; [|by rewrite ld32_st32]. eapply same_but_trans; [exact Hs|apply same_but_st32].
Qed.

(** The assignments that point the window at table [T], then drop its page. *)
Lemma kw_point_window {B} R o m kt x T (k : M St B) Q :
  ks m kt → Rk R → 0 ≤ x < 2 → 0 ≤ T < 1048576 →
  (∀ m', window_moved m m' kt (Some T) → kw0 (win R None) m' k Q) →
  kw0 (win R o) m (vupdate32 window_entry (set_present 1) ;; vupdate32 window_entry (set_rw x) ;;
    vupdate32 window_entry (set_frame_addr T) ;; paging_invalidate_page_cache VMM_TEMP_WINDOW_VIRTUAL ;; k) Q.
Proof.
  intros H HR Hx HT HQ. eapply kw_update_window; [done..|by intros ??|]. intros m1 S1 E1.
  eapply kw_update_window; [exact H|done|done|]. intros m2 S2 E2.
  eapply kw_update_window; [exact H|done|done|]. intros m3 S3 E3.
  apply kw_bind, kw_drop_window, HQ. pose proof (window_write m m3 kt _ H S3 eq_refl) as HW.
  assert (present (ld32 m3 window_entry) = 1 ∧ frame_addr (ld32 m3 window_entry) = T) as [E F].
  { rewrite E3, E2, E1. split; by fields. }
  by rewrite E, F in HW.
Qed.

(** Clearing the present bit of the window. *)
Lemma kw_close_window {B} R o m kt (k : M St B) Q :
  ks m kt → Rk R → (∀ m', window_moved m m' kt None → kw0 (win R None) m' k Q) →
  kw0 (win R o) m (vupdate32 window_entry (set_present 0) ;; paging_invalidate_page_cache VMM_TEMP_WINDOW_VIRTUAL ;; k) Q.
Proof.
  intros H HR HQ. eapply kw_update_window; [done..|by intros ??|]. intros m1 S1 E1.
  apply kw_bind, kw_drop_window, HQ. pose proof (window_write m m1 kt _ H S1 eq_refl) as HW.
  assert (present (ld32 m1 window_entry) = 0) as E by (rewrite E1; by fields). by rewrite E in HW.
Qed.

Lemma shiftr_table T : Z.shiftr (T * 4096) 12 = T.
Proof. rewrite Z.shiftr_div_pow2 by lia. apply Z.div_mul. lia. Qed.

(** Reading where the kernel's second table is. *)
Lemma kw_pt1 {B} R m kt (k : Z → M St B) Q : ks m kt → Rk R → kw0 R m (k (pde d m 1)) Q →
  kw0 R m (e ← vload32 (entry d 1); k e) Q.
Proof. intros H HR HQ. eapply kw_bind, kw_load_ident; [by eapply ks_core|done|by eapply dir_word|done]. Qed.

Lemma kw_map_to_temp_window {B} R o m kt T (k : Z → M St B) Q :
  ks m kt → Rk R → 0 ≤ T < 1048576 →
  (∀ m', window_moved m m' kt (Some T) → kw0 (win R None) m' (k VMM_TEMP_WINDOW_VIRTUAL) Q) →
  kw0 (win R o) m (vmm_map_to_temp_window (T * 4096) ≫= k) Q.
Proof.
  intros H HR HT HQ. eapply kw_seq with (P := λ b m' R', b = VMM_TEMP_WINDOW_VIRTUAL ∧ window_moved m m' kt (Some T) ∧ R' = win R None).
  - unfold vmm_map_to_temp_window. apply kw_cpu. intros t. cbv zeta. cbn [kernel_directory]. unfold KERNEL_PT1_DIR_IDX.
    eapply kw_pt1; [done|by apply Rk_win|]. rewrite (table_of_pde m kt 1 t2) by (done || apply (ks_t2 _ _ _ _ _ H)).
    rewrite shiftr_table. eapply kw_point_window; [done..|]. intros m' Hm'. by apply kw_ret.
  - intros b m' R' (-> & Hm' & ->). by apply HQ.
Qed.

Lemma kw_unmap_temp_window {B} R o m kt (k : unit → M St B) Q :
  ks m kt → Rk R → (∀ m', window_moved m m' kt None → kw0 (win R None) m' (k tt) Q) →
  kw0 (win R o) m (vmm_unmap_temp_window ≫= k) Q.
Proof.
  intros H HR HQ. eapply kw_seq with (P := λ b m' R', window_moved m m' kt None ∧ R' = win R None).
  - unfold vmm_unmap_temp_window. apply kw_cpu. intros t. cbv zeta. cbn [kernel_directory]. unfold KERNEL_PT1_DIR_IDX.
    eapply kw_pt1; [done|by apply Rk_win|]. rewrite (table_of_pde m kt 1 t2) by (done || apply (ks_t2 _ _ _ _ _ H)).
    eapply kw_update_window; [done..|by intros ??|]. intros m1 S1 E1. apply kw_drop_window. split; [|done].
    pose proof (window_write m m1 kt _ H S1 eq_refl) as HW.
    assert (present (ld32 m1 window_entry) = 0) as E by (rewrite E1; by fields). by rewrite E in HW.
  - intros [] m' R' (Hm' & ->). by apply HQ.
Qed.
End vmm_spec.
