(* ===== verification/VmmSpec.v ===== *)
(** * VmmSpec: what the operations of the virtual memory manager do

    New pages, clearing and mapping, over the invariant of the kernel's
    address space and of the frame allocator. *)

From S2P Require Import Prelude Memory Bitmap Pmm Paging Mmu Vmm.

(** ** The invariant *)

Section inv.
Context (d t1 t2 : Z) (bm : Bitmap).

(** The tables are in order, and the allocator hands out neither page 0 nor
    the directory, a table or a frame of its own bitmap. *)
Record vmi (m : mem) (kt : gmap Z Z) : Prop := {
  vi_ks : kspace d t1 t2 m kt;
  vi_bm : bitmap_ok bm ∧ total_bits bm ≤ 1048576 ∧ storage bm + 4 * words bm ≤ 0x7FF000;
  vi_off : off_tables d kt (storage bm) (4 * words bm);
  vi_free : ∀ f, 0 ≤ f < total_bits bm → bit m bm f = false →
    1 ≤ f ∧ f ≠ d / 4096 ∧ (∀ i, kt !! i ≠ Some f) ∧
    (f * 4096 + 4096 ≤ storage bm ∨ storage bm + 4 * words bm ≤ f * 4096)
}.

(** Bytes outside the bitmap. *)
Definition off_bitmap (a n : Z) : Prop := a + n ≤ storage bm ∨ storage bm + 4 * words bm ≤ a.

Lemma bit_same m m' a n f : same_but m m' a n → off_bitmap a n → 0 ≤ f < total_bits bm → bit m' bm f = bit m bm f.
Proof.
  intros Hs Ho Hf. unfold bit. destruct (word_index bm f Hf). f_equal. apply (same_but_ld32 _ _ _ _ _ Hs).
  unfold off_bitmap in Ho. lia.
Qed.

Lemma vmi_same m m' kt a n : vmi m kt → same_but m m' a n → off_bitmap a n → kspace d t1 t2 m' kt → vmi m' kt.
Proof.
  intros H Hs Ho Hk. destruct H. constructor; [done..|]. intros f Hf. rewrite (bit_same m m' a n) by done. auto.
Qed.

(** [m'] is [m] with frame [f] allocated. *)
Definition allocated (m m' : mem) (f : Z) : Prop :=
  0 ≤ f < total_bits bm ∧ bit m bm f = false ∧ (∀ g, 0 ≤ g < f → bit m bm g = true) ∧
  (∀ j, 0 ≤ j → bit m' bm j = (if f =? j then true else bit m bm j)) ∧
  same_but m m' (storage bm) (4 * words bm).

Lemma allocated_vmi m m' kt f : vmi m kt → allocated m m' f → vmi m' kt ∧ same_tables d m m' kt.
Proof.
  intros H (Hf & _ & _ & Hb & Hs). pose proof (off_tables_same _ _ _ _ _ _ (vi_off _ _ H) Hs) as Ht.
  split; [|done]. destruct H. constructor; [by eapply same_tables_ks|done|done|].
  intros g Hg. rewrite Hb by lia. destruct (f =? g); [done|auto].
Qed.
End inv.

(** ** Writes and the tables *)

Section writes.
Context (d t1 t2 : Z).
Abbreviation ks := (kspace d t1 t2).

(** Writing a directory entry above the first two leaves the identity map. *)
Lemma kcore_write_pde m m' kt i : ks m kt → 2 ≤ i < 1024 → same_but m m' (entry d i) 4 → kcore d t1 t2 m'.
Proof.
  intros H Hi Hs. pose proof (ks_core _ _ _ _ _ H) as Hc. destruct (kc_d _ _ _ _ Hc) as [Hd0 Hd1].
  destruct (ks_table _ _ _ _ _ H _ _ (ks_t1 _ _ _ _ _ H)) as (_ & ? & ? & _).
  destruct (ks_table _ _ _ _ _ H _ _ (ks_t2 _ _ _ _ _ H)) as (_ & ? & ? & _).
  assert (∀ k, k ≠ i → pde d m' k = pde d m k) as Hpd.
  { intros k ?. unfold pde. apply (same_but_ld32 _ _ _ _ _ Hs). unfold entry. lia. }
  assert (∀ g j, g ≠ d / 4096 → 0 ≤ j < 1024 → pte m' g j = pte m g j) as Hpt.
  { intros g j ??. unfold pte. apply (same_but_ld32 _ _ _ _ _ Hs). unfold entry. Z.div_mod_to_equations; lia. }
  constructor; [done|rewrite Hpd by lia; apply Hc|rewrite Hpd by lia; apply Hc| |]; intros j Hj; rewrite Hpt by lia; by apply Hc.
Qed.

(** Writing anything into a table that is not one of the first two. *)
Lemma write_table m m' kt i f : ks m kt → kt !! i = Some f → 2 ≤ i → but_frame m m' f →
  ks m' kt ∧ (∀ q, 0 ≤ q < 1048576 → q / 1024 ≠ i → page_frame m' d q = page_frame m d q).
Proof.
  intros H Hf Hi Hs. destruct (ks_d _ _ _ _ _ H) as [Hd0 Hd1]. destruct (ks_table _ _ _ _ _ H _ _ Hf) as (Hi2 & Hfr & Hfd & _).
  assert (∀ k, 0 ≤ k < 1024 → pde d m' k = pde d m k) as Hpd.
  { intros k ?. unfold pde. apply (same_but_ld32 _ _ _ _ _ Hs). unfold entry. Z.div_mod_to_equations; lia. }
  assert (∀ k g j, kt !! k = Some g → k ≠ i → 0 ≤ j < 1024 → pte m' g j = pte m g j) as Hpt.
  { intros k g j Hg Hne Hj. unfold pte. apply (same_but_ld32 _ _ _ _ _ Hs).
    assert (g ≠ f) by (intros ->; by apply Hne, (ks_inj _ _ _ _ _ H _ _ _ Hg Hf)). unfold entry. lia. }
  assert (ks m' kt) as H'.
  { destruct H. constructor; try done.
    - intros k Hk. rewrite Hpd by done. auto.
    - intros k g Hg. destruct (ks_table k g Hg) as (? & ? & ? & ?). rewrite Hpd by done. auto.
    - intros j Hj. rewrite (Hpt _ _ _ ks_t1) by lia. auto.
    - intros j Hj. rewrite (Hpt _ _ _ ks_t2) by lia. auto.
    - by rewrite !Hpd by lia. }
  split; [done|]. intros q Hq Hne. rewrite (ks_page _ _ _ _ _ _ H'), (ks_page _ _ _ _ _ _ H) by done.
  destruct (kt !! (q / 1024)) as [g|] eqn:E; [|done]. cbn. unfold slot.
  rewrite (Hpt _ _ _ E) by (done || (Z.div_mod_to_equations; lia)). done.
Qed.

(** The window's page depends on two entries. *)
Lemma window_frame m m' a n kt : ks m kt → same_but m m' a n →
  (a + n ≤ d ∨ d + 4096 ≤ a) → (a + n ≤ t2 * 4096 ∨ t2 * 4096 + 4096 ≤ a) → page_frame m' d 2047 = page_frame m d 2047.
Proof.
  intros H Hs Hd Ht. unfold page_frame. change (2047 / 1024) with 1. change (2047 mod 1024) with 1023.
  rewrite (same_but_ld32 _ _ _ _ (entry d 1) Hs) by (unfold entry; lia).
  fold (pde d m 1). destruct (kc_1 _ _ _ _ (ks_core _ _ _ _ _ H)) as [-> ->].
  by rewrite (same_but_ld32 _ _ _ _ (entry (t2 * 4096) 1023) Hs) by (unfold entry; lia).
Qed.
End writes.

(** Page-number arithmetic. *)
Lemma directory_index_page p : 0 ≤ p < 1048576 → directory_index (p * 4096) = p / 1024.
Proof.
  intros Hp. unfold directory_index. rewrite Z.shiftr_div_pow2 by lia. change 0x3FF with (Z.ones 10).
  rewrite Z.land_ones by lia. change (2 ^ 22) with 4194304. change (2 ^ 10) with 1024. Z.div_mod_to_equations; lia.
Qed.
Lemma page_index_page p : 0 ≤ p < 1048576 → page_index (p * 4096) = p mod 1024.
Proof.
  intros Hp. unfold page_index. rewrite shiftr_table. change 0x3FF with (Z.ones 10). by rewrite Z.land_ones by lia.
Qed.
Lemma slot_address i j : 0 ≤ i < 1024 → 0 ≤ j < 1024 →
  Z.lor (u32 (Z.shiftl i 22)) (u32 (Z.shiftl j 12)) = (i * 1024 + j) * 4096.
Proof.
  intros Hi Hj. rewrite !Z.shiftl_mul_pow2 by lia. change (2 ^ 12) with 4096. rewrite (u32_small (j * 4096)) by lia.
  rewrite u32_small by (change (2 ^ 22) with 4194304; lia).
  rewrite Z.lor_comm, lor_add by (change (2 ^ 22) with 4194304; lia). change (2 ^ 22) with 4194304. lia.
Qed.

Section vmm_ops.
Context {St : Type} `{LM : Lens St mem} `{LC : Lens St Cpu} `{LP : Lens St PmmStatics}.
Context {AC : Apart LM LC} {AP : Apart LM LP} {ACP : Apart LC LP}.
Context (s0 : St) (c0 d t1 t2 : Z).

Abbreviation kw0 := (kw s0 c0 d).
Abbreviation bm := (frame_bitmap (lget s0)).
Abbreviation vi := (vmi d t1 t2 bm).
Abbreviation ks := (kspace d t1 t2).

Lemma kput_pmm m t : lget (T:=PmmStatics) (kput s0 c0 d m t) = lget s0.
Proof. unfold kput. by rewrite lget_other', lget_other'. Qed.

Lemma kput_used m t j : frame_used (kput s0 c0 d m t) j = bit m bm j.
Proof. unfold frame_used. by rewrite kput_mem, kput_pmm. Qed.

(** ** Taking a frame *)

Lemma kw_pmm {B} R m kt (k : Z → M St B) Q :
  vi m kt → (∀ f m', allocated bm m m' f → 1 ≤ f → vi m' kt → same_tables d m m' kt → kw0 R m' (k (f * 4096)) Q) →
  ((∀ f, 0 ≤ f < total_bits bm → bit m bm f = true) → kw0 R m (k 0) Q) →
  kw0 R m (pmm_allocate_frame ≫= k) Q.
Proof.
  intros H Hs Hn t Ht. destruct (vi_bm _ _ _ _ _ _ H) as (Hb1 & Hb2 & _).
  destruct (pmm_allocate_run (kput s0 c0 d m t)) as [(f & m' & Hm & Hfree & Hlow & Hr & Hbit & Hfr)|[Hall Hr]].
  - unfold pmm_ok. by rewrite kput_pmm.
  - assert (allocated bm m m' f) as Ha.
    { unfold managed in Hm. rewrite kput_pmm in Hm. rewrite kput_used in Hfree. split_and!; [lia|lia|done| | |].
      - intros g Hg. by rewrite <- (kput_used m t g), Hlow.
      - intros j Hj. specialize (Hbit j Hj). by rewrite kput_put_mem, !kput_used in Hbit.
      - intros x Hx. specialize (Hfr x). rewrite kput_pmm, kput_mem in Hfr. apply Hfr. unfold in_bitmap. lia. }
    destruct (allocated_vmi _ _ _ _ _ _ _ _ H Ha) as [H' Hsame].
    rewrite (bind_ok _ _ _ _ _ Hr), kput_put_mem. apply (Hs f m' Ha); [|done..].
    by apply (vi_free _ _ _ _ _ _ H); apply Ha.
  - rewrite (bind_ok _ _ _ _ _ Hr). apply Hn; [|done]. intros f Hf. rewrite <- (kput_used m t f). apply Hall.
    unfold managed. by rewrite kput_pmm.
Qed.

(** ** The search *)

(** Page [p] may be given out by the search and is not mapped. *)
Definition free_page (m : mem) (p : Z) : Prop :=
  2048 ≤ p < 1048576 ∧ p / 1024 ≠ 768 ∧ p / 1024 ≠ 769 ∧ page_frame m d p = None.

Lemma kw_scan_table R m kt i f (Q : option Z → mem → cached → Prop) :
  kspace d t1 t2 m kt → Rk R → kt !! i = Some f →
  (∀ j, 0 ≤ j < 1024 → slot m f j = None → (∀ l, 0 ≤ l < j → slot m f l ≠ None) → Q (Some ((i * 1024 + j) * 4096)) m R) →
  ((∀ j, 0 ≤ j < 1024 → slot m f j ≠ None) → Q None m R) →
  kw0 R m (ploop (scan_table i (f * 4096)) VMM_FUEL 0) Q.
Proof.
  intros H HR Hf Hs Hn. pose proof (ks_table _ _ _ _ _ H _ _ Hf) as (Hi & _).
  apply kw_ploop with (I := λ j m' R', m' = m ∧ R' = R ∧ 0 ≤ j ≤ 1024 ∧ ∀ l, 0 ≤ l < j → slot m f l ≠ None)
    (μ := λ j, Z.to_nat (1024 - j)).
  - intros j m1 R1 (-> & -> & Hj & Hl). unfold scan_table. destruct (Z.ltb_spec j 1024).
    + eapply kw_bind, kw_load_ident; [by eapply ks_core|done|by eapply table_word; [..|lia]|].
      fold (pte m f j). destruct (present (pte m f j) =? 0) eqn:E.
      * apply kw_ret. rewrite slot_address by lia. apply Hs; [lia| |done]. unfold slot. by rewrite E.
      * apply kw_ret. split; [|lia]. split_and!; [done..|lia|lia|]. intros l Hlr.
        destruct (decide (l = j)) as [->|]; [unfold slot; by rewrite E|apply Hl; lia].
    + apply kw_ret. apply Hn. intros l Hlr. apply Hl. lia.
  - split_and!; [done..|lia|lia|lia].
  - unfold VMM_FUEL. lia.
Qed.

Lemma page_slot m kt i j : kspace d t1 t2 m kt → 0 ≤ i < 1024 → 0 ≤ j < 1024 →
  page_frame m d (i * 1024 + j) = f ← kt !! i; slot m f j.
Proof.
  intros H Hi Hj. rewrite (ks_page _ _ _ _ _ _ H) by lia.
  replace ((i * 1024 + j) / 1024) with i by (Z.div_mod_to_equations; lia).
  by replace ((i * 1024 + j) mod 1024) with j by (Z.div_mod_to_equations; lia).
Qed.

(** Every page below [p] that the search may give out is mapped. *)
Definition full_below (m : mem) (p : Z) : Prop := ∀ q, q < p → ¬ free_page m q.

Lemma full_below_next m kt i : kspace d t1 t2 m kt → 0 ≤ i < 1024 → full_below m (i * 1024) →
  i = 768 ∨ i = 769 ∨ (∃ f, kt !! i = Some f ∧ ∀ j, 0 ≤ j < 1024 → slot m f j ≠ None) → full_below m ((i + 1) * 1024).
Proof.
  intros H Hi Hb Hc q Hq Hfree. destruct (Z.lt_ge_cases q (i * 1024)); [by apply (Hb q)|].
  destruct Hfree as (Hr & H1 & H2 & Hp). assert (q / 1024 = i) as E by (Z.div_mod_to_equations; lia).
  destruct Hc as [->|[->|(f & Hf & Hall)]]; [lia|lia|].
  rewrite (ks_page _ _ _ _ _ _ H), E, Hf in Hp by lia. apply (Hall (q mod 1024)); [Z.div_mod_to_equations; lia|done].
Qed.

Lemma kw_find_slot R m kt (Q : option Z → mem → cached → Prop) :
  kspace d t1 t2 m kt → Rk R →
  (∀ p, free_page m p → full_below m p → Q (Some (p * 4096)) m R) → ((∀ p, ¬ free_page m p) → Q None m R) →
  kw0 R m (find_slot d) Q.
Proof.
  intros H HR Hs Hn. unfold find_slot.
  apply kw_ploop with (I := λ i m' R', m' = m ∧ R' = R ∧ 2 ≤ i ≤ 1024 ∧ full_below m (i * 1024)) (μ := λ i, Z.to_nat (1024 - i)).
  - intros i m1 R1 (-> & -> & Hi & Hb). unfold scan_directory. destruct (Z.ltb_spec i 1024) as [Hlt|].
    2: { apply kw_ret, Hn. intros p Hp. apply (Hb p); [destruct Hp; lia|done]. }
    destruct ((i =? 768) || (i =? 769)) eqn:E768.
    { apply kw_ret. split; [|lia]. split_and!; [done..|lia|lia|]. eapply full_below_next; [done|lia|done|]. lia. }
    assert (i ≠ 768 ∧ i ≠ 769) as [H768 H769] by lia.
    eapply kw_bind, kw_load_ident; [by eapply ks_core|done|by eapply dir_word; [|lia]|]. fold (pde d m i).
    rewrite (ks_pde _ _ _ _ _ H) by lia. destruct (kt !! i) as [f|] eqn:Hf; cbn [Z.eqb].
    + eapply kw_bind, kw_load_ident; [by eapply ks_core|done|by eapply dir_word; [|lia]|]. fold (pde d m i).
      rewrite (table_of_pde _ _ _ _ _ _ _ H Hf). apply kw_bind. eapply kw_scan_table; [done..| |].
      * intros j Hj Hslot Hl. apply kw_ret. apply Hs.
        { split_and!; [lia|lia|Z.div_mod_to_equations; lia|Z.div_mod_to_equations; lia|].
          rewrite (page_slot _ _ _ _ H) by lia. by rewrite Hf. }
        intros q Hq Hfree. destruct (Z.lt_ge_cases q (i * 1024)); [by apply (Hb q)|].
        destruct Hfree as (_ & _ & _ & Hp). replace q with (i * 1024 + (q - i * 1024)) in Hp by lia.
        rewrite (page_slot _ _ _ _ H), Hf in Hp by lia. by apply (Hl (q - i * 1024)); [lia|].
      * intros Hall. apply kw_ret. split; [|lia]. split_and!; [done..|lia|lia|]. eapply full_below_next; [done|lia|done|eauto].
    + apply kw_ret. rewrite Z.shiftl_mul_pow2 by lia. change (2 ^ 22) with (1024 * 4096).
      rewrite u32_small by lia. replace (i * (1024 * 4096)) with ((i * 1024 + 0) * 4096) by lia. apply Hs.
      * split_and!; [lia|lia|Z.div_mod_to_equations; lia|Z.div_mod_to_equations; lia|].
        rewrite (page_slot _ _ _ _ H) by lia. by rewrite Hf.
      * by rewrite Z.add_0_r.
  - split_and!; [done..|lia|lia|]. intros q Hq [? _]. lia.
  - unfold VMM_FUEL. lia.
Qed.

(** ** Assignments to an entry *)

(** One assignment to an entry reached through page [v], which leads to the
    table [T] whatever the entry holds. *)
Lemma kw_entry_step {B} R m0 m v T j g (k : unit → M St B) Q :
  0 ≤ v < 1048576 → 0 ≤ j < 1024 → R v T → (∀ f, R v f → f = T) →
  (∀ m', same_but m0 m' (entry (T * 4096) j) 4 → page_frame m' d v = Some T) →
  same_but m0 m (entry (T * 4096) j) 4 →
  (∀ m', same_but m0 m' (entry (T * 4096) j) 4 → pte m' T j = u32 (g (pte m T j)) → kw0 R m' (k tt) Q) →
  kw0 R m (vupdate32 (entry (v * 4096) j) g ≫= k) Q.
Proof.
  intros Hv Hj HR HR' Hm Hs Hk. apply kw_bind.
  assert (entry (v * 4096) j / 4096 = v ∧ entry (v * 4096) j mod 4096 = 4 * j ∧ entry (v * 4096) j mod 4 = 0) as (E1 & E2 & E3).
  { unfold entry. Z.div_mod_to_equations; lia. }
  eapply (kw_vupdate32 _ _ _ _ _ _ _ T); [unfold entry; lia|done|rewrite E1; split_and!; auto|].
  rewrite E2. change (T * 4096 + 4 * j) with (entry (T * 4096) j).
  apply Hk; [eapply same_but_trans; [exact Hs|apply same_but_st32]|]. unfold pte. by rewrite ld32_st32.
Qed.

Section set_entry.
Context {B : Type} (R : cached) (m : mem) (v T j phys w u : Z) (Q : B → mem → cached → Prop).
Context (Hv : 0 ≤ v < 1048576) (Hj : 0 ≤ j < 1024) (HR : R v T) (HR' : ∀ f, R v f → f = T).
Context (Hm : ∀ m', same_but m m' (entry (T * 4096) j) 4 → page_frame m' d v = Some T).
Context (Hp : 0 ≤ phys < 1048576) (Hw : 0 ≤ w < 2) (Hu : 0 ≤ u < 2).

(** The four assignments that fill an entry. *)
Lemma kw_set_entry (k : M St B) :
  (∀ m', same_but m m' (entry (T * 4096) j) 4 → entry_is (pte m' T j) 1 w u phys → kw0 R m' k Q) →
  kw0 R m (vupdate32 (entry (v * 4096) j) (set_present 1) ;; vupdate32 (entry (v * 4096) j) (set_rw w) ;;
    vupdate32 (entry (v * 4096) j) (set_user u) ;; vupdate32 (entry (v * 4096) j) (set_frame_addr phys) ;; k) Q.
Proof using All.
  intros Hk. eapply kw_entry_step; [done..|by intros ??|]. intros m1 S1 E1.
  eapply kw_entry_step; [done..|]. intros m2 S2 E2. eapply kw_entry_step; [done..|]. intros m3 S3 E3.
  eapply kw_entry_step; [done..|]. intros m4 S4 E4. apply Hk; [done|].
  rewrite E4, E3, E2, E1. unfold entry_is. split_and!; by fields.
Qed.

Lemma kw_map_page (k : unit → M St B) wb ub : w = Z.b2z wb → u = Z.b2z ub →
  (∀ m', same_but m m' (entry (T * 4096) j) 4 → entry_is (pte m' T j) 1 w u phys → kw0 R m' (k tt) Q) →
  kw0 R m (map_page (v * 4096) j (phys * 4096) wb ub ≫= k) Q.
Proof using All.
  intros -> -> Hk. unfold map_page. rewrite shiftr_table. apply kw_assoc.
  eapply kw_entry_step; [done..|by intros ??|]. intros m1 S1 E1. apply kw_assoc.
  eapply kw_entry_step; [done..|]. intros m2 S2 E2. apply kw_assoc. eapply kw_entry_step; [done..|]. intros m3 S3 E3.
  eapply kw_entry_step; [done..|]. intros m4 S4 E4. apply Hk; [done|].
  rewrite E4, E3, E2, E1. unfold entry_is. split_and!; by fields.
Qed.
End set_entry.

(** ** A new page table *)

(** What lies outside the bitmap, the directory and the tables is kept. *)
Definition frame_same (kt : gmap Z Z) (m m' : mem) : Prop :=
  ∀ x, off_bitmap bm x 1 → off_tables d kt x 1 → get8 m' x = get8 m x.

Lemma frame_same_trans kt m1 m2 m3 : frame_same kt m1 m2 → frame_same kt m2 m3 → frame_same kt m1 m3.
Proof. intros H1 H2 x Hb Ht. by rewrite H2, H1. Qed.
Lemma frame_same_sub kt kt' m m' : kt ⊆ kt' → frame_same kt m m' → frame_same kt' m m'.
Proof.
  intros Hk H x Hb [Hd Ht]. apply H; [done|]. split; [done|]. intros i f Hf. apply (Ht i). by eapply lookup_weaken.
Qed.
Lemma frame_same_allocated kt m m' f : allocated bm m m' f → frame_same kt m m'.
Proof. intros (_ & _ & _ & _ & Hs) x Hb _. apply Hs. unfold off_bitmap in Hb. lia. Qed.
Lemma frame_same_dir kt m m' i : 0 ≤ i < 1024 → same_but m m' (entry d i) 4 → frame_same kt m m'.
Proof. intros Hi Hs x _ [Hd _]. apply Hs. unfold entry. lia. Qed.
Lemma frame_same_table kt m m' i f a n : kt !! i = Some f → f * 4096 ≤ a → a + n ≤ f * 4096 + 4096 →
  same_but m m' a n → frame_same kt m m'.
Proof. intros Hf ?? Hs x _ [_ Ht]. specialize (Ht i f Hf). apply Hs. lia. Qed.

(** A table or the directory lies off the bitmap. *)
Lemma off_bitmap_table m kt i f a n : vi m kt → kt !! i = Some f → f * 4096 ≤ a → a + n ≤ f * 4096 + 4096 → off_bitmap bm a n.
Proof. intros H Hf ??. destruct (vi_off _ _ _ _ _ _ H) as [_ Ht]. specialize (Ht i f Hf). unfold off_bitmap. lia. Qed.
Lemma off_bitmap_dir m kt i : vi m kt → 0 ≤ i < 1024 → off_bitmap bm (entry d i) 4.
Proof. intros H Hi. destruct (vi_off _ _ _ _ _ _ H) as [Hd _]. unfold off_bitmap, entry. lia. Qed.

(** Moving the window keeps the invariant. *)
Lemma window_moved_vi m m' kt o : vi m kt → window_moved d t1 t2 m m' kt o → vi m' kt ∧ frame_same kt m m'.
Proof.
  intros H (Hs & Hk & _). pose proof (ks_t2 _ _ _ _ _ (vi_ks _ _ _ _ _ _ H)) as Ht2. split.
  - eapply vmi_same; [done|exact Hs| |done]. eapply off_bitmap_table; [done|exact Ht2|unfold entry; lia..].
  - eapply frame_same_table; [exact Ht2| | |exact Hs]; unfold entry; lia.
Qed.

(** The first steps of a new table: its frame is named by the directory. *)
Lemma new_table_vi m m1 m2 kt i g : vi m kt → allocated bm m m1 g → 1 ≤ g < 2047 → kt !! i = None → 2 ≤ i < 1024 →
  same_but m1 m2 (entry d i) 4 → present (pde d m2 i) = 1 → frame_addr (pde d m2 i) = g →
  vi m2 (<[i := g]> kt) ∧ ∀ q, 0 ≤ q < 1048576 → q / 1024 ≠ i → page_frame m2 d q = page_frame m d q.
Proof.
  intros H Ha Hg Hi Hir Hs Hp Hf. destruct (allocated_vmi _ _ _ _ _ _ _ _ H Ha) as [H1 Hst].
  destruct (vi_free _ _ _ _ _ _ H g) as (_ & Hgd & Hgn & Hgb); [apply Ha..|].
  destruct (write_pde d t1 t2 m1 m2 kt i g (vi_ks _ _ _ _ _ _ H1) Hi Hir Hs Hp Hf Hg Hgd Hgn) as (Hk2 & Hpg & _). split.
  - pose proof (off_bitmap_dir _ _ i H1 ltac:(lia)) as Hob.
    constructor; [done|apply H| |].
    + destruct (vi_off _ _ _ _ _ _ H) as [Hd Ht]. split; [done|]. intros j f. rewrite lookup_insert_Some.
      intros [[<- <-]|[_ Hj]]; [lia|by apply (Ht j)].
    + intros f Hfr Hbit. rewrite (bit_same bm m1 m2 (entry d i) 4) in Hbit by done.
      destruct (vi_free _ _ _ _ _ _ H1 f Hfr Hbit) as (? & ? & Hn & ?). split_and!; [done|done| |done].
      intros j. rewrite lookup_insert_Some. intros [[<- <-]|[_ Hj]]; [|by apply (Hn j)].
      destruct Ha as (Hgr & _ & _ & Hb & _). rewrite Hb, Z.eqb_refl in Hbit by lia. done.
  - intros q Hq Hne. rewrite Hpg by done. eapply same_tables_page; [apply H|apply H1|done|done].
Qed.

Record table_added (m m' : mem) (kt : gmap Z Z) (i g : Z) : Prop := {
  ta_vi : vi m' (<[i := g]> kt);
  ta_free : 0 ≤ g < total_bits bm ∧ bit m bm g = false;
  ta_bits : ∀ j, 0 ≤ j < total_bits bm → bit m' bm j = (if g =? j then true else bit m bm j);
  ta_pages : ∀ q, 0 ≤ q < 1048576 → q / 1024 = i → page_frame m' d q = None;
  ta_others : ∀ q, 0 ≤ q < 1048576 → q / 1024 ≠ i → q ≠ 2047 → page_frame m' d q = page_frame m d q;
  ta_window : page_frame m' d 2047 = None;
  ta_frame : frame_same (<[i := g]> kt) m m'
}.

(** A cleared table maps nothing. *)
Lemma cleared_slot m f j : (∀ x, 0 ≤ x < 4096 → get8 m (f * 4096 + x) = 0) → 0 ≤ j < 1024 → slot m f j = None.
Proof.
  intros Hz Hj. unfold slot, pte, entry, ld32. rewrite <- !Z.add_assoc. rewrite !Hz by lia. done.
Qed.

Lemma win_open R g p f : win R None p f → win R (Some g) p f.
Proof. unfold win. by destruct (decide (p = 2047)). Qed.

(** Clearing the table [g] of directory entry [i] through the window. *)
Lemma kw_clear_table {B} R o m kt i g (k : M St B) Q :
  vi m kt → Rk R → kt !! i = Some g → 2 ≤ i →
  (∀ m', vi m' kt → frame_same kt m m' →
     (∀ j, 0 ≤ j < total_bits bm → bit m' bm j = bit m bm j) →
     (∀ q, 0 ≤ q < 1048576 → q / 1024 = i → page_frame m' d q = None) →
     (∀ q, 0 ≤ q < 1048576 → q / 1024 ≠ i → q ≠ 2047 → page_frame m' d q = page_frame m d q) →
     page_frame m' d 2047 = None → kw0 (win R None) m' k Q) →
  kw0 (win R o) m (temp_table ← vmm_map_to_temp_window (g * 4096); vkmemset temp_table 0 4096 ;; vmm_unmap_temp_window ;; k) Q.
Proof.
  intros H HR Hg Hi Hk. pose proof (vi_ks _ _ _ _ _ _ H) as Hks. destruct (ks_table _ _ _ _ _ Hks _ _ Hg) as (Hi2 & Hgr & Hgd & _).
  eapply kw_map_to_temp_window; [done|done|lia|]. intros m1 Hw1.
  destruct (window_moved_vi _ _ _ _ H Hw1) as [H1 F1]. destruct Hw1 as (S1 & K1 & P1 & O1).
  eapply kw_seq with (P := λ _ m2 R2, but_frame m1 m2 g ∧ (∀ x, 0 ≤ x < 4096 → get8 m2 (g * 4096 + x) = 0) ∧ R2 = win R (Some g)).
  { eapply kw_weaken; [|apply win_open]. change VMM_TEMP_WINDOW_VIRTUAL with (2047 * 4096). eapply (kw_memset _ _ _ _ _ _ g); [lia|lia| | | |].
    - unfold win. by destruct (decide (2047 = 2047)).
    - unfold win. destruct (decide (2047 = 2047)); [by intros f [= ->]|done].
    - intros m2 S2. rewrite <- P1. destruct (ks_d _ _ _ _ _ K1) as [Hd0 Hd1].
      eapply window_frame; [exact K1|exact S2|Z.div_mod_to_equations; lia|].
      assert (g ≠ t2) by (intros ->; pose proof (ks_inj _ _ _ _ _ K1 _ _ _ Hg (ks_t2 _ _ _ _ _ K1)); lia). lia.
    - intros m2 S2 Hz. split_and!; [done| |done]. intros x Hx. rewrite Hz by done. by destruct (Z.ltb_spec x 4096); [|lia]. }
  intros _ m2 R2 (S2 & Z2 & ->). destruct (write_table d t1 t2 m1 m2 kt i g K1 Hg Hi S2) as [K2 O2].
  assert (vi m2 kt) as H2.
  { eapply vmi_same; [exact H1|exact S2|eapply off_bitmap_table; [exact H1|exact Hg|lia..]|done]. }
  eapply kw_unmap_temp_window; [exact K2|done|]. intros m3 Hw3.
  destruct (window_moved_vi _ _ _ _ H2 Hw3) as [H3 F3]. destruct Hw3 as (S3 & K3 & P3 & O3).
  assert (frame_same kt m1 m2) as F2 by (eapply frame_same_table; [exact Hg| | |exact S2]; lia).
  apply Hk; [done| | | | |done].
  - eapply frame_same_trans; [exact F1|]. by eapply frame_same_trans.
  - intros j Hj. pose proof (ks_t2 _ _ _ _ _ K1) as Ht2.
    rewrite (bit_same bm m2 m3 _ _ j S3), (bit_same bm m1 m2 _ _ j S2), (bit_same bm m m1 _ _ j S1); [done|try done..].
    + eapply off_bitmap_table; [exact H|exact Ht2|unfold entry; lia..].
    + eapply off_bitmap_table; [exact H|exact Hg|lia..].
    + eapply off_bitmap_table; [exact H|exact Ht2|unfold entry; lia..].
  - intros q Hq Hqi. rewrite O3 by (lia || (Z.div_mod_to_equations; lia)). rewrite (ks_page _ _ _ _ _ _ K2), Hqi, Hg by done. cbn.
    apply cleared_slot; [done|Z.div_mod_to_equations; lia].
  - intros q Hq Hne Hne'. rewrite O3, O2, O1 by done. done.
Qed.

(** The next frame the allocator hands out, if any, may hold a table. *)
Definition next_low (m : mem) : Prop := ∀ f m', allocated bm m m' f → f < 2047.

Lemma dir_base m kt : ks m kt → d / 4096 * 4096 = d.
Proof. intros H. destruct (ks_d _ _ _ _ _ H). Z.div_mod_to_equations; lia. Qed.

(** Filling an entry of the kernel's directory. *)
Lemma kw_set_pde {B} R m kt i g w u (k : M St B) Q :
  ks m kt → Rk R → 2 ≤ i < 1024 → 0 ≤ g < 1048576 → 0 ≤ w < 2 → 0 ≤ u < 2 →
  (∀ m', same_but m m' (entry d i) 4 → entry_is (pde d m' i) 1 w u g → kw0 R m' k Q) →
  kw0 R m (vupdate32 (entry d i) (set_present 1) ;; vupdate32 (entry d i) (set_rw w) ;;
    vupdate32 (entry d i) (set_user u) ;; vupdate32 (entry d i) (set_frame_addr g) ;; k) Q.
Proof.
  intros H HR Hi Hg Hw Hu Hk. destruct (ks_d _ _ _ _ _ H) as [_ Hd1]. destruct (HR (d / 4096) Hd1) as [HRd HRd'].
  pose proof (kw_set_entry R m (d / 4096) (d / 4096) i g w u Q ltac:(lia) ltac:(lia) HRd HRd') as X.
  unfold pte in X. rewrite (dir_base m kt H) in X. apply X; try done.
  intros m' S'. eapply kc_ident; [by eapply kcore_write_pde|lia].
Qed.

Lemma kw_add_table {B} R o m kt i wb ub (k : bool → M St B) Q :
  vi m kt → Rk R → kt !! i = None → 2 ≤ i < 1024 → next_low m →
  (∀ g m', 1 ≤ g < 2047 → table_added m m' kt i g → kw0 (win R None) m' (k true) Q) →
  ((∀ f, 0 ≤ f < total_bits bm → bit m bm f = true) → kw0 (win R o) m (k false) Q) →
  kw0 (win R o) m (add_table d i wb ub ≫= k) Q.
Proof.
  intros H HR Hi Hir Hlow Hk Hn. unfold add_table. apply kw_assoc. eapply kw_pmm; [exact H| |].
  2: { intros Hall. cbn. apply kw_ret_bind. by apply Hn. }
  intros g m1 Ha Hg1 H1 Hst. specialize (Hlow g m1 Ha). pose proof (vi_ks _ _ _ _ _ _ H1) as K1.
  destruct (Z.eqb_spec (g * 4096) 0); [lia|]. rewrite shiftr_table.
  eapply kw_seq with (P := λ b m' R', b = true ∧ table_added m m' kt i g ∧ R' = win R None).
  2: { intros b m' R' (-> & Ht & ->). by eapply Hk. }
  eapply kw_set_pde; [exact K1|by apply Rk_win|lia|lia|by destruct wb|by destruct ub|].
  intros m2 S2 (Ep & _ & _ & Ef).
  destruct (new_table_vi m m1 m2 kt i g H Ha ltac:(lia) Hi Hir S2 Ep Ef) as [H2 O2].
  pose proof (off_bitmap_dir _ _ i H1 ltac:(lia)) as Hob.
  eapply kw_clear_table; [exact H2|done|by rewrite lookup_insert_eq|lia|].
  intros m3 H3 F3 B3 P3 O3 W3. apply kw_ret. split_and!; [done| |done]. constructor; try done.
  - split; apply Ha.
  - intros j Hj. rewrite B3, (bit_same bm m1 m2 _ _ j S2 Hob) by done. apply Ha. lia.
  - intros q Hq Hne Hne'. by rewrite O3, O2.
  - eapply frame_same_trans; [|exact F3]. eapply frame_same_sub; [by apply insert_subseteq|].
    eapply frame_same_trans; [by eapply frame_same_allocated|]. eapply frame_same_dir; [|exact S2]. lia.
Qed.

(** ** Mapping a page through the window *)

(** The translations of [m], as the processor may have them cached. *)
Definition full (m : mem) : cached := λ p f, 0 ≤ p < 1048576 ∧ page_frame m d p = Some f.

Lemma Rk_full m : kcore d t1 t2 m → Rk (full m).
Proof.
  intros H p Hp. pose proof (kc_ident _ _ _ _ _ H Hp) as E. unfold full. split; [split; [lia|done]|].
  intros f [_ Hf]. congruence.
Qed.

(** Page [p], not mapped before, now leads to [f] with the given rights. *)
Record page_mapped (m m' : mem) (kt : gmap Z Z) (p f w u : Z) : Prop := {
  pm_vi : vi m' kt;
  pm_page : page_frame m' d p = Some f;
  pm_entry : ∃ T, kt !! (p / 1024) = Some T ∧ entry_is (pte m' T (p mod 1024)) 1 w u f;
  pm_others : ∀ q, 0 ≤ q < 1048576 → q ≠ p → q ≠ 2047 → page_frame m' d q = page_frame m d q;
  pm_window : page_frame m' d 2047 = None;
  pm_bits : ∀ j, 0 ≤ j < total_bits bm → bit m' bm j = bit m bm j;
  pm_frame : frame_same kt m m'
}.

Lemma kw_map_through_window {B} R o m kt p f wb ub (k : M St B) Q :
  vi m kt → Rk R → 2048 ≤ p < 1048576 → is_Some (kt !! (p / 1024)) → 0 ≤ f < 1048576 →
  (∀ m', page_mapped m m' kt p f (Z.b2z wb) (Z.b2z ub) → kw0 (win R None) m' k Q) →
  kw0 (win R o) m (e ← vload32 (entry d (p / 1024));
    let table_physical_address := table_of e in
    table ← vmm_map_to_temp_window table_physical_address;
    map_page table (p mod 1024) (f * 4096) wb ub ;; vmm_unmap_temp_window ;; k) Q.
Proof.
  intros H HR Hp [T HT] Hf Hk. pose proof (vi_ks _ _ _ _ _ _ H) as Hks.
  destruct (ks_table _ _ _ _ _ Hks _ _ HT) as (Hi & HTr & HTd & _).
  assert (0 ≤ p mod 1024 < 1024 ∧ 2 ≤ p / 1024 ∧ p = p / 1024 * 1024 + p mod 1024) as (Hj & Hi2 & Ep) by (Z.div_mod_to_equations; lia).
  eapply kw_bind, kw_load_ident; [by eapply ks_core|by apply Rk_win|by eapply dir_word|]. fold (pde d m (p / 1024)).
  rewrite (table_of_pde _ _ _ _ _ _ _ Hks HT). cbv zeta.
  eapply kw_map_to_temp_window; [done|done|lia|]. intros m1 Hw1.
  destruct (window_moved_vi _ _ _ _ H Hw1) as [H1 F1]. destruct Hw1 as (S1 & K1 & P1 & O1).
  eapply kw_weaken; [|apply win_open]. change VMM_TEMP_WINDOW_VIRTUAL with (2047 * 4096).
  destruct (ks_d _ _ _ _ _ Hks) as [Hd0 Hd1].
  assert (T ≠ t2) as HT2 by (intros ->; pose proof (ks_inj _ _ _ _ _ K1 _ _ _ HT (ks_t2 _ _ _ _ _ K1)); lia).
  eapply (kw_map_page (win R (Some T)) m1 2047 T (p mod 1024) f (Z.b2z wb) (Z.b2z ub)); [lia|done| | | |lia|by destruct wb|by destruct ub|done|done|].
  - unfold win. by destruct (decide (2047 = 2047)).
  - unfold win. destruct (decide (2047 = 2047)); [by intros g [= ->]|done].
  - intros m2 S2. rewrite <- P1. eapply window_frame; [exact K1|exact S2|unfold entry; Z.div_mod_to_equations; lia|unfold entry; lia].
  - intros m2 S2 E2. destruct (write_pte d t1 t2 m1 m2 kt _ _ _ K1 HT Hj ltac:(lia) S2) as (K2 & O2 & P2). rewrite <- Ep in *.
    assert (off_bitmap bm (entry (T * 4096) (p mod 1024)) 4) as Hob
      by (eapply off_bitmap_table; [exact H1|exact HT|unfold entry; lia..]).
    assert (vi m2 kt) as H2 by (eapply vmi_same; [exact H1|exact S2|done|done]).
    eapply kw_unmap_temp_window; [exact K2|done|]. intros m3 Hw3.
    destruct (window_moved_vi _ _ _ _ H2 Hw3) as [H3 F3]. destruct Hw3 as (S3 & K3 & P3 & O3). apply Hk. constructor; try done.
    + rewrite O3, P2 by lia. unfold slot. by destruct E2 as (-> & _ & _ & ->).
    + exists T. split; [done|]. pose proof (ks_t2 _ _ _ _ _ K1) as Ht2. unfold pte.
      rewrite (same_but_ld32 _ _ _ _ _ S3) by (unfold entry; lia). exact E2.
    + intros q Hq Hne Hne'. by rewrite O3, O2, O1.
    + intros j Hjb. pose proof (ks_t2 _ _ _ _ _ K1) as Ht2.
      rewrite (bit_same bm m2 m3 _ _ j S3), (bit_same bm m1 m2 _ _ j S2), (bit_same bm m m1 _ _ j S1); try done.
      * eapply off_bitmap_table; [exact H|exact Ht2|unfold entry; lia..].
      * eapply off_bitmap_table; [exact H|exact Ht2|unfold entry; lia..].
    + eapply frame_same_trans; [exact F1|]. eapply frame_same_trans; [|exact F3].
      eapply frame_same_table; [exact HT| | |exact S2]; unfold entry; lia.
Qed.

(** ** [vmm_get_new_page] on the kernel's directory *)

(** No free frame is left. *)
Definition exhausted (m : mem) : Prop := ∀ f, 0 ≤ f < total_bits bm → bit m bm f = true.

(** The lowest free page [p] was given the lowest free frame [f]; a new table
    was made if its 4 MB had none. *)
Record new_page (m m' : mem) (kt kt' : gmap Z Z) (p f w u : Z) : Prop := {
  np_vi : vi m' kt';
  np_tables : kt' = kt ∨ kt !! (p / 1024) = None ∧ ∃ g, 0 ≤ g < total_bits bm ∧ bit m bm g = false ∧ kt' = <[p / 1024 := g]> kt;
  np_lowest : free_page m p ∧ full_below m p;
  np_fresh : 1 ≤ f < total_bits bm ∧ bit m bm f = false ∧ ∀ g, 0 ≤ g < f → bit m bm g = true;
  np_apart : f ≠ d / 4096 ∧ (∀ i, kt' !! i ≠ Some f) ∧ off_bitmap bm (f * 4096) 4096;
  np_used : bit m' bm f = true;
  np_bits : ∀ j, 0 ≤ j < total_bits bm → bit m bm j = true → bit m' bm j = true;
  np_taken : ∃ g, (kt' = kt → g = f) ∧ ∀ j, 0 ≤ j < total_bits bm → j ≠ f → j ≠ g → bit m' bm j = bit m bm j;
  np_page : page_frame m' d p = Some f;
  np_entry : ∃ T, kt' !! (p / 1024) = Some T ∧ entry_is (pte m' T (p mod 1024)) 1 w u f;
  np_others : ∀ q, 0 ≤ q < 1048576 → q ≠ p → q ≠ 2047 → page_frame m' d q = page_frame m d q;
  np_window : page_frame m' d 2047 = None;
  np_frame : frame_same kt' m m'
}.

(** The ways to return NULL: no page left, no frame left, or a frame taken
    and lost because there was none left for a table. *)
Definition no_page (m m' : mem) (kt : gmap Z Z) : Prop :=
  (m' = m ∧ ((∀ p, ¬ free_page m p) ∨ exhausted m)) ∨
  (∃ p f, allocated bm m m' f ∧ (free_page m p ∧ full_below m p) ∧ kt !! (p / 1024) = None ∧ exhausted m').

(** The next two frames, if any, may hold tables. *)
Definition two_low (m : mem) : Prop := ∀ f m', allocated bm m m' f → next_low m'.

Lemma mapped_new_page m m1 m2 m3 kt kt' p f w u :
  vi m kt → allocated bm m m1 f → 1 ≤ f → free_page m p → full_below m p →
  (m2 = m1 ∧ kt' = kt ∨ kt !! (p / 1024) = None ∧ ∃ g, 1 ≤ g ∧ table_added m1 m2 kt (p / 1024) g ∧ kt' = <[p / 1024 := g]> kt) →
  page_mapped m2 m3 kt' p f w u → new_page m m3 kt kt' p f w u.
Proof.
  intros H Ha Hf Hp Hlow Ht Hm. destruct (allocated_vmi _ _ _ _ _ _ _ _ H Ha) as [H1 Hst].
  pose proof Ha as (Hfr & Hf0 & Hfl & Hfb & _).
  assert (∀ q, 0 ≤ q < 1048576 → page_frame m1 d q = page_frame m d q) as O1.
  { intros q Hq. eapply same_tables_page; [apply H|apply H1|done|done]. }
  assert (kt ⊆ kt') as Hsub.
  { destruct Ht as [[_ ->]|(Hn & g & _ & _ & ->)]; [done|by apply insert_subseteq]. }
  assert (∀ j, 0 ≤ j < total_bits bm → bit m1 bm j = true → bit m2 bm j = true) as B2.
  { intros j Hj Hb. destruct Ht as [[-> _]|(_ & g & _ & Hg & _)]; [done|]. rewrite (ta_bits _ _ _ _ _ Hg) by done.
    by destruct (g =? j). }
  destruct (vi_free _ _ _ _ _ _ H f Hfr Hf0) as (_ & Hfd & Hfk & Hfo).
  assert (∀ i, kt' !! i ≠ Some f) as Hfk'.
  { destruct Ht as [[_ ->]|(Hn & g & _ & Hg & ->)]; [done|]. intros i. rewrite lookup_insert_Some.
    intros [[_ ->]|[_ Hi]]; [|by apply (Hfk i)]. destruct (ta_free _ _ _ _ _ Hg) as [_ Hgb].
    rewrite Hfb, Z.eqb_refl in Hgb by lia. done. }
  constructor.
  - apply Hm.
  - destruct Ht as [[_ ->]|(Hn & g & _ & Hg & ->)]; [by left|right]. split; [done|]. exists g.
    destruct (ta_free _ _ _ _ _ Hg) as [Hgr Hgb]. rewrite Hfb in Hgb by lia. destruct (f =? g); [done|eauto].
  - done.
  - split_and!; [lia|lia|done|done].
  - split_and!; [done|done|]. unfold off_bitmap. lia.
  - rewrite (pm_bits _ _ _ _ _ _ _ Hm) by done. apply B2; [done|]. rewrite Hfb, Z.eqb_refl by lia. done.
  - intros j Hj Hb. rewrite (pm_bits _ _ _ _ _ _ _ Hm) by done. apply B2; [done|]. rewrite Hfb by lia.
    destruct (f =? j); done.
  - destruct Ht as [[-> _]|(Hn & g & _ & Hg & ->)]; [exists f; split; [done|]|exists g; split].
    2: { intros E. rewrite <- E, lookup_insert_eq in Hn. done. }
    all: intros j Hj Hjf Hjg; rewrite (pm_bits _ _ _ _ _ _ _ Hm) by done.
    + rewrite Hfb by lia. destruct (Z.eqb_spec f j); [lia|done].
    + rewrite (ta_bits _ _ _ _ _ Hg), Hfb by lia. destruct (Z.eqb_spec f j), (Z.eqb_spec g j); try lia; done.
  - apply Hm.
  - apply Hm.
  - intros q Hq Hne Hne'. rewrite (pm_others _ _ _ _ _ _ _ Hm) by done. rewrite <- O1 by done.
    destruct Ht as [[-> _]|(Hn & g & _ & Hg & _)]; [done|]. destruct (decide (q / 1024 = p / 1024)) as [E|E].
    + rewrite (ta_pages _ _ _ _ _ Hg) by done. rewrite O1, (ks_page _ _ _ _ _ _ (vi_ks _ _ _ _ _ _ H)), E, Hn by done. done.
    + by apply (ta_others _ _ _ _ _ Hg).
  - apply Hm.
  - eapply frame_same_trans; [|apply Hm]. eapply frame_same_trans; [by eapply frame_same_allocated|].
    destruct Ht as [[-> _]|(Hn & g & _ & Hg & ->)]; [by intros ???|apply Hg].
Qed.

Lemma full_win m p f : full m p f → win (full m) (page_frame m d 2047) p f.
Proof. unfold full, win. destruct (decide (p = 2047)) as [->|]; naive_solver. Qed.
Lemma win_full m p f : win (full m) (page_frame m d 2047) p f → full m p f.
Proof. unfold full, win. destruct (decide (p = 2047)) as [->|]; [|done]. intros H. split; [lia|done]. Qed.

Lemma kw_get_new_page m kt wb ub (Q : Z → mem → cached → Prop) :
  vi m kt → two_low m →
  (∀ p f kt' m', new_page m m' kt kt' p f (Z.b2z wb) (Z.b2z ub) → Q (p * 4096) m' (full m')) →
  (∀ m', no_page m m' kt → Q NULL m' (full m')) →
  kw0 (full m) m (vmm_get_new_page d wb ub NULL) Q.
Proof.
  intros H Hlow Hs Hn. pose proof (vi_ks _ _ _ _ _ _ H) as Hks. pose proof (Rk_full m (ks_core _ _ _ _ _ Hks)) as HR.
  unfold vmm_get_new_page. change (negb (NULL =? NULL)) with false. cbv iota. apply kw_bind.
  eapply kw_find_slot; [exact Hks|done| |].
  2: { intros Hnone. apply kw_ret, Hn. left. by auto. }
  intros p Hp Hbelow. assert (2048 ≤ p < 1048576) as Hpr by (by destruct Hp).
  rewrite directory_index_page, page_index_page by lia. eapply kw_pmm; [exact H| |].
  2: { intros Hall. apply kw_ret, Hn. left. by auto. }
  intros f m1 Ha Hf H1 Hst. pose proof (vi_ks _ _ _ _ _ _ H1) as K1. destruct (Z.eqb_spec (f * 4096) 0); [lia|].
  assert (f < 1048576) as Hf2 by (destruct Ha as (? & _); pose proof (vi_bm _ _ _ _ _ _ H); lia).
  assert (∀ m2 o kt', (m2 = m1 ∧ kt' = kt ∨ kt !! (p / 1024) = None ∧ ∃ g, 1 ≤ g ∧ table_added m1 m2 kt (p / 1024) g ∧ kt' = <[p / 1024 := g]> kt) →
    vi m2 kt' → is_Some (kt' !! (p / 1024)) →
    kw0 (win (full m) o) m2 (e ← vload32 (entry d (p / 1024));
      let table_physical_address := table_of e in
      table ← vmm_map_to_temp_window table_physical_address;
      map_page table (p mod 1024) (f * 4096) wb ub ;; vmm_unmap_temp_window ;;
      paging_invalidate_page_cache (p * 4096) ;; mret (p * 4096)) Q) as Hmap.
  { intros m2 o kt' Ht H2 Hsome. eapply kw_map_through_window; [done..|lia|].
    intros m3 Hm3. pose proof (mapped_new_page m m1 m2 m3 kt kt' p f _ _ H Ha Hf Hp Hbelow Ht Hm3) as Hnp.
    apply kw_bind, kw_invalidate. rewrite Z.div_mul by lia.
    eapply kw_post; [by apply (kw_ret _ _ _ _ _ _ (λ b m' R', b = p * 4096 ∧ m' = m3 ∧ R' = drop p (win (full m) None)))|].
    intros b m' R' (-> & -> & ->). exists (full m3). split; [|by eapply Hs].
    intros q g [Hne Hw]. unfold win in Hw. destruct (decide (q = 2047)); [done|]. destruct Hw as [Hq Hg].
    split; [done|]. by rewrite (np_others _ _ _ _ _ _ _ _ Hnp). }
  eapply kw_weaken; [|apply full_win].
  eapply kw_bind, kw_load_ident; [by eapply ks_core|by apply Rk_win|eapply dir_word; [done|Z.div_mod_to_equations; lia]|].
  fold (pde d m1 (p / 1024)). rewrite (ks_pde _ _ _ _ _ K1) by (Z.div_mod_to_equations; lia).
  destruct (kt !! (p / 1024)) as [T|] eqn:HT; cbn [Z.eqb].
  - apply kw_ret_bind. cbn [negb]. apply Hmap with kt; [by left|done|by eauto].
  - eapply kw_add_table; [done|done|done|Z.div_mod_to_equations; lia|by eapply Hlow| |].
    + intros g m2 Hg Hta. cbn [negb]. eapply Hmap; [right; split; [done|]; exists g; split_and!; [lia|done|reflexivity]|apply Hta|].
      rewrite lookup_insert_eq. eauto.
    + intros Hex. cbn [negb]. eapply kw_post; [by apply (kw_ret _ _ _ _ _ _ (λ b m' R', b = NULL ∧ m' = m1 ∧ R' = win (full m) (page_frame m d 2047)))|].
      intros b m' R' (-> & -> & ->). exists (full m1). split; [|apply Hn; right; exists p, f; done].
      intros q g [Hq Hg]%win_full. split; [done|]. rewrite <- Hg. eapply same_tables_page; [exact Hks|exact K1|done|done].
Qed.

(** ** Reading a translation back, and dropping a page *)

Lemma win_moved_full m m' kt o p f : window_moved d t1 t2 m m' kt o → win (full m) None p f → full m' p f.
Proof.
  intros (_ & _ & _ & O) H. unfold win in H. destruct (decide (p = 2047)); [done|]. destruct H as [Hp Hf].
  split; [done|]. by rewrite O.
Qed.

Lemma window_moved_trans m1 m2 m3 kt o o' : window_moved d t1 t2 m1 m2 kt o → window_moved d t1 t2 m2 m3 kt o' →
  window_moved d t1 t2 m1 m3 kt o'.
Proof.
  intros (S1 & _ & _ & O1) (S2 & K2 & P2 & O2). split_and!; [by eapply same_but_trans|done|done|].
  intros p Hp Hne. by rewrite O2, O1.
Qed.

(** [vmm_get_physical_address] of a page of a 4 MB that has a table: the
    frame its entry names, present or not. *)
Lemma kw_get_physical {B} m kt p T (k : Z → M St B) Q :
  vi m kt → 0 ≤ p < 1048576 → p / 1024 ≠ 1 → kt !! (p / 1024) = Some T →
  (∀ m', window_moved d t1 t2 m m' kt None → kw0 (full m') m' (k (frame_addr (pte m T (p mod 1024)) * 4096)) Q) →
  kw0 (full m) m (vmm_get_physical_address d (p * 4096) ≫= k) Q.
Proof.
  intros H Hp Hi2 HT Hk. pose proof (vi_ks _ _ _ _ _ _ H) as Hks. pose proof (Rk_full m (ks_core _ _ _ _ _ Hks)) as HR.
  destruct (ks_table _ _ _ _ _ Hks _ _ HT) as (Hi & HTr & _ & _).
  assert (0 ≤ p mod 1024 < 1024) as Hj by (Z.div_mod_to_equations; lia).
  eapply kw_seq with (P := λ b m' R', b = frame_addr (pte m T (p mod 1024)) * 4096 ∧ window_moved d t1 t2 m m' kt None ∧ R' = full m').
  2: { intros b m' R' (-> & Hm' & ->). by apply Hk. }
  unfold vmm_get_physical_address. rewrite directory_index_page, page_index_page by lia.
  eapply kw_weaken; [|apply full_win]. pose proof (dir_word _ _ _ _ _ (p / 1024) Hks ltac:(lia)) as Hdw.
  eapply kw_bind, kw_load_ident; [by eapply ks_core|by apply Rk_win|done|]. fold (pde d m (p / 1024)).
  rewrite (ks_pde _ _ _ _ _ Hks), HT by lia. cbn [Z.eqb].
  eapply kw_bind, kw_load_ident; [by eapply ks_core|by apply Rk_win|done|]. fold (pde d m (p / 1024)).
  rewrite (table_of_pde _ _ _ _ _ _ _ Hks HT). cbv zeta. apply kw_cpu. intros t. cbn [kernel_directory].
  eapply kw_pt1; [done|by apply Rk_win|]. rewrite (table_of_pde _ _ _ _ _ 1 t2 Hks) by apply Hks.
  rewrite shiftr_table. eapply kw_point_window; [done|done|lia|lia|]. intros m1 Hw1. pose proof Hw1 as (S1 & K1 & P1 & _).
  eapply kw_weaken; [|apply win_open]. apply kw_bind. change 0x007FF000 with (2047 * 4096).
  assert (entry (2047 * 4096) (p mod 1024) / 4096 = 2047 ∧ entry (2047 * 4096) (p mod 1024) mod 4096 = 4 * (p mod 1024) ∧
    entry (2047 * 4096) (p mod 1024) mod 4 = 0) as (E1 & E2 & E3) by (unfold entry; Z.div_mod_to_equations; lia).
  eapply (kw_vload32 _ _ _ _ _ _ T); [unfold entry; lia|done|rewrite E1; split_and!; [done|by unfold win; destruct (decide (2047 = 2047))|]|].
  { unfold win. destruct (decide (2047 = 2047)); [by intros f [= ->]|done]. }
  rewrite E2. change (T * 4096 + 4 * (p mod 1024)) with (entry (T * 4096) (p mod 1024)). fold (pte m1 T (p mod 1024)).
  assert (pte m1 T (p mod 1024) = pte m T (p mod 1024)) as ->.
  { unfold pte. apply (same_but_ld32 _ _ _ _ _ S1). pose proof (ks_inj _ _ _ _ _ Hks (p / 1024) 1 T HT) as Hinj.
    assert (T ≠ t2) by (intros ->; specialize (Hinj (ks_t2 _ _ _ _ _ Hks)); lia). unfold entry. lia. }
  eapply kw_close_window; [done|done|]. intros m2 Hw2. eapply kw_post; [by apply (kw_ret _ _ _ _ _ _ (λ b m' R', b = table_of (pte m T (p mod 1024)) ∧ m' = m2 ∧ R' = win (full m) None))|].
  intros b m' R' (-> & -> & ->). pose proof (window_moved_trans _ _ _ _ _ _ Hw1 Hw2) as Hw. exists (full m2). split_and!; [|..|done|done].
  - intros q f. by apply (win_moved_full m m2 kt None).
  - unfold table_of. rewrite Z.shiftl_mul_pow2 by lia. pose proof (frame_addr_range (pte m T (p mod 1024))). rewrite u32_small; lia.
Qed.

(** Page [p] is no longer mapped; the frames in use are as before. *)
Record page_freed (m m' : mem) (kt : gmap Z Z) (p : Z) : Prop := {
  pf_vi : vi m' kt;
  pf_page : page_frame m' d p = None;
  pf_others : ∀ q, 0 ≤ q < 1048576 → q ≠ p → page_frame m' d q = page_frame m d q;
  pf_bits : ∀ j, 0 ≤ j < total_bits bm → bit m' bm j = bit m bm j;
  pf_frame : frame_same kt m m'
}.

(** One assignment to an identity-mapped table entry. *)
Lemma kw_update_pte {B} R m0 m kt p T g (k : unit → M St B) Q :
  ks m0 kt → Rk R → 2048 ≤ p < 1048576 → kt !! (p / 1024) = Some T → same_but m0 m (entry (T * 4096) (p mod 1024)) 4 →
  (∀ m', same_but m0 m' (entry (T * 4096) (p mod 1024)) 4 → pte m' T (p mod 1024) = u32 (g (pte m T (p mod 1024))) →
     kw0 R m' (k tt) Q) →
  kw0 R m (vupdate32 (entry (T * 4096) (p mod 1024)) g ≫= k) Q.
Proof.
  intros H HR Hp HT Hs Hk. assert (0 ≤ p mod 1024 < 1024 ∧ 2 ≤ p / 1024) as (Hj & Hi2) by (Z.div_mod_to_equations; lia).
  destruct (write_pte d t1 t2 m0 m kt _ _ _ H HT Hj ltac:(lia) Hs) as (K & _ & _).
  apply kw_bind. eapply kw_update_ident; [by eapply ks_core|done|by eapply table_word|].
  apply Hk; [|unfold pte; by rewrite ld32_st32]. eapply same_but_trans; [exact Hs|apply same_but_st32].
Qed.

Lemma pte_freed m m' kt p T : vi m kt → 2048 ≤ p < 1048576 → kt !! (p / 1024) = Some T →
  same_but m m' (entry (T * 4096) (p mod 1024)) 4 → present (pte m' T (p mod 1024)) = 0 → page_freed m m' kt p.
Proof.
  intros H Hp HT Hs Hpr. assert (0 ≤ p mod 1024 < 1024 ∧ 2 ≤ p / 1024 ∧ p = p / 1024 * 1024 + p mod 1024) as (Hj & Hi2 & Ep) by (Z.div_mod_to_equations; lia).
  destruct (write_pte d t1 t2 m m' kt _ _ _ (vi_ks _ _ _ _ _ _ H) HT Hj ltac:(lia) Hs) as (K & O & P). rewrite <- Ep in *.
  assert (off_bitmap bm (entry (T * 4096) (p mod 1024)) 4) as Hob by (eapply off_bitmap_table; [exact H|exact HT|unfold entry; lia..]).
  constructor.
  - by eapply vmi_same.
  - rewrite P. unfold slot. by rewrite Hpr.
  - intros q Hq Hne. by apply O.
  - intros j Hj'. by eapply bit_same.
  - eapply frame_same_table; [exact HT| | |exact Hs]; unfold entry; lia.
Qed.

Lemma kw_free_page {B} m kt p (k : unit → M St B) Q :
  vi m kt → 2048 ≤ p < 1048576 →
  (∀ m', page_freed m m' kt p → kw0 (full m') m' (k tt) Q) →
  kw0 (full m) m (vmm_free_page d (p * 4096) ≫= k) Q.
Proof.
  intros H Hp Hk. pose proof (vi_ks _ _ _ _ _ _ H) as Hks. pose proof (Rk_full m (ks_core _ _ _ _ _ Hks)) as HR.
  assert (0 ≤ p mod 1024 < 1024 ∧ 2 ≤ p / 1024 < 1024) as (Hj & Hi2) by (Z.div_mod_to_equations; lia).
  eapply kw_seq with (P := λ _ m' R', page_freed m m' kt p ∧ R' = full m').
  2: { intros [] m' R' (Hm' & ->). by apply Hk. }
  unfold vmm_free_page. rewrite directory_index_page, page_index_page by lia.
  pose proof (dir_word _ _ _ _ _ (p / 1024) Hks ltac:(lia)) as Hdw.
  eapply kw_bind, kw_load_ident; [by eapply ks_core|done|done|]. fold (pde d m (p / 1024)).
  rewrite (ks_pde _ _ _ _ _ Hks) by lia. destruct (kt !! (p / 1024)) as [T|] eqn:HT; cbn [Z.eqb].
  - eapply kw_bind, kw_load_ident; [by eapply ks_core|done|done|]. fold (pde d m (p / 1024)).
    rewrite (table_of_pde _ _ _ _ _ _ _ Hks HT). cbv zeta.
    eapply kw_update_pte; [exact Hks|done|done|done|by intros ??|]. intros m1 S1 E1.
    eapply kw_update_pte; [exact Hks|done|done|done|done|]. intros m2 S2 E2.
    assert (page_freed m m2 kt p) as Hf.
    { eapply pte_freed; [done..|]. rewrite E2, E1. by fields. }
    eapply kw_post; [by apply (kw_invalidate _ _ _ _ _ _ (λ b m' R', m' = m2 ∧ R' = drop p (full m))); rewrite Z.div_mul by lia|].
    intros b m' R' (-> & ->). exists (full m2). split_and!; [|done|done].
    intros q f [Hne [Hq Hf']]. split; [done|]. by rewrite (pf_others _ _ _ _ Hf).
  - apply kw_ret. split; [|done]. constructor; try done. rewrite (ks_page _ _ _ _ _ _ Hks), HT by lia. done.
Qed.
End vmm_ops.
