(* ===== verification/AddrSpace.v ===== *)
(** * AddrSpace: the address space of a process
      ([vmm_map_frame] and [vmm_create_virtual_address_space] of vmm.c)

    Building a second directory through the kernel's own pages: the frames
    that hold data, the pages the kernel reaches them through, and the
    directory, table and code of a new process. *)

From S2P Require Import Prelude Memory Bitmap Pmm Paging Mmu Vmm VmmSpec.

Section space.
Context {St : Type} `{LM : Lens St mem} `{LC : Lens St Cpu} `{LP : Lens St PmmStatics}.
Context {AC : Apart LM LC} {AP : Apart LM LP} {ACP : Apart LC LP}.
Context (s0 : St) (c0 d t1 t2 : Z).

Abbreviation kw0 := (kw s0 c0 d).
Abbreviation bm := (frame_bitmap (lget s0)).
Abbreviation vi := (vmi d t1 t2 bm).
Abbreviation ks := (kspace d t1 t2).
Abbreviation full := (full d).

(** ** Frames in use that are neither tables of the kernel nor the bitmap *)

Record data (m : mem) (kt : gmap Z Z) (F : Z) : Prop := {
  da_range : 1 ≤ F < 1048576;
  da_dir : F ≠ d / 4096;
  da_tables : ∀ i, kt !! i ≠ Some F;
  da_bitmap : off_bitmap bm (F * 4096) 4096;
  da_used : 0 ≤ F < total_bits bm → bit m bm F = true
}.

(** The pages above the identity map lead to frames in use, apart from each
    other, from the tables and from the allocator's bitmap. *)
Definition clean (m : mem) (kt : gmap Z Z) : Prop :=
  ∀ p f, 2048 ≤ p < 1048576 → page_frame m d p = Some f →
    data m kt f ∧ ∀ q, 2048 ≤ q < 1048576 → page_frame m d q = Some f → q = p.

(** Page [v] of the kernel leads to the data frame [F]. *)
Definition holds (m : mem) (kt : gmap Z Z) (v F : Z) : Prop :=
  2048 ≤ v < 1048576 ∧ page_frame m d v = Some F ∧ data m kt F.

(** The bytes of frame [F] are the same. *)
Definition same_frame (m m' : mem) (F : Z) : Prop := ∀ x, 0 ≤ x < 4096 → get8 m' (F * 4096 + x) = get8 m (F * 4096 + x).

Lemma data_off m kt F a n : ks m kt → data m kt F → F * 4096 ≤ a → a + n ≤ F * 4096 + 4096 → off_tables d kt a n.
Proof.
  intros H [] ??. destruct (ks_d _ _ _ _ _ H). split; [Z.div_mod_to_equations; lia|].
  intros i f Hi. assert (f ≠ F) by (intros ->; by apply (da_tables0 i)). lia.
Qed.

Lemma frame_same_data kt m m' F : ks m kt → data m kt F → frame_same s0 d kt m m' → same_frame m m' F.
Proof.
  intros H HF Hs x Hx. apply Hs; [|eapply data_off; [exact H|exact HF|lia..]].
  pose proof (da_bitmap _ _ _ HF) as Hb. unfold off_bitmap in *. lia.
Qed.

(** Writing into a data frame. *)
Lemma data_write m m' kt F a n : vi m kt → data m kt F → F * 4096 ≤ a → a + n ≤ F * 4096 + 4096 → same_but m m' a n →
  vi m' kt ∧ (∀ p, 0 ≤ p < 1048576 → page_frame m' d p = page_frame m d p) ∧
  (∀ G, data m kt G → data m' kt G) ∧ (∀ G, G ≠ F → same_frame m m' G) ∧
  (∀ j, 0 ≤ j < total_bits bm → bit m' bm j = bit m bm j).
Proof.
  intros H HF Ha Hn Hs. pose proof (data_off _ _ _ a n (vi_ks _ _ _ _ _ _ H) HF Ha Hn) as Ho.
  pose proof (off_tables_same _ _ _ _ _ _ Ho Hs) as Hst. pose proof (same_tables_ks _ _ _ _ _ _ (vi_ks _ _ _ _ _ _ H) Hst) as K'.
  assert (off_bitmap bm a n) as Hob by (pose proof (da_bitmap _ _ _ HF) as Hb; unfold off_bitmap in *; lia).
  assert (∀ j, 0 ≤ j < total_bits bm → bit m' bm j = bit m bm j) as Hbits by (intros; by eapply bit_same).
  split_and!; [by eapply vmi_same| | | |done].
  - intros p Hp. eapply same_tables_page; [apply H|exact K'|done|done].
  - intros G []. constructor; try done. intros HG. rewrite Hbits by done. auto.
  - intros G Hne x Hx. apply Hs. lia.
Qed.

Lemma holds_pages m m' kt v F : holds m kt v F → page_frame m' d v = page_frame m d v → (∀ G, data m kt G → data m' kt G) → holds m' kt v F.
Proof. intros (Hv & Hp & HF) E Hd. split_and!; [lia|lia|by rewrite E|auto]. Qed.

(** The window. *)
Lemma data_window m m' kt o F : window_moved d t1 t2 m m' kt o → vi m kt → data m kt F → data m' kt F.
Proof.
  intros Hw H []. destruct (window_moved_vi _ _ _ _ _ _ _ _ H Hw) as [H' _]. destruct Hw as (Hs & _).
  constructor; try done. intros HF. rewrite <- da_used0 by done. eapply bit_same; [exact Hs| |done].
  eapply off_bitmap_table; [exact H|exact (ks_t2 _ _ _ _ _ (vi_ks _ _ _ _ _ _ H))|unfold entry; lia..].
Qed.

(** A new page keeps the data frames and their pages, and adds one. *)
Lemma data_new_page m m' kt kt' p f w u F : vi m kt → new_page s0 d t1 t2 m m' kt kt' p f w u → data m kt F →
  data m' kt' F ∧ F ≠ f ∧ same_frame m m' F.
Proof.
  intros H Hn HF. assert (data m' kt' F) as HF'.
  { destruct HF. constructor; try done.
    - intros i. destruct (np_tables _ _ _ _ _ _ _ _ _ _ _ _ Hn) as [->|(_ & g & Hg & Hgb & ->)]; [done|].
      rewrite lookup_insert_Some. intros [[_ ->]|[_ Hi]]; [by rewrite da_used0 in Hgb|by apply (da_tables0 i)].
    - intros HFr. apply (np_bits _ _ _ _ _ _ _ _ _ _ _ _ Hn); auto. }
  destruct (np_fresh _ _ _ _ _ _ _ _ _ _ _ _ Hn) as (Hf & Hfb & _). split_and!; [done| |].
  - intros ->. rewrite (da_used _ _ _ HF) in Hfb by lia. done.
  - intros x Hx. pose proof (np_frame _ _ _ _ _ _ _ _ _ _ _ _ Hn) as Hs. apply Hs.
    + pose proof (da_bitmap _ _ _ HF) as Hb. unfold off_bitmap in *. lia.
    + eapply data_off; [apply (np_vi _ _ _ _ _ _ _ _ _ _ _ _ Hn)|exact HF'|lia..].
Qed.

Lemma holds_new_page m m' kt kt' p f w u v F : vi m kt → new_page s0 d t1 t2 m m' kt kt' p f w u → holds m kt v F →
  holds m' kt' v F ∧ v ≠ p.
Proof.
  intros H Hn (Hv & Hp & HF). destruct (np_lowest _ _ _ _ _ _ _ _ _ _ _ _ Hn) as [(_ & _ & _ & Hfree) _].
  assert (v ≠ p) by congruence. destruct (data_new_page _ _ _ _ _ _ _ _ _ H Hn HF) as (HF' & _ & _).
  split; [|done]. split_and!; [lia|lia| |done]. by rewrite (np_others _ _ _ _ _ _ _ _ _ _ _ _ Hn) by lia.
Qed.

Lemma new_page_holds m m' kt kt' p f w u : vi m kt → new_page s0 d t1 t2 m m' kt kt' p f w u → holds m' kt' p f.
Proof.
  intros H Hn. destruct (np_lowest _ _ _ _ _ _ _ _ _ _ _ _ Hn) as [(Hp & _) _].
  destruct (np_fresh _ _ _ _ _ _ _ _ _ _ _ _ Hn) as (Hf & _). destruct (np_apart _ _ _ _ _ _ _ _ _ _ _ _ Hn) as (? & ? & ?).
  pose proof (vi_bm _ _ _ _ _ _ H). split_and!; [lia|lia|apply Hn|]. constructor; try done; [lia|].
  intros _. apply Hn.
Qed.

(** Dropping a page keeps the others. *)
Lemma data_freed m m' kt q F : page_freed s0 d t1 t2 m m' kt q → data m kt F → data m' kt F.
Proof. intros Hf []. constructor; try done. intros HF. rewrite (pf_bits _ _ _ _ _ _ _ _ Hf) by done. auto. Qed.

(** ** Filling a data frame through its page *)

Lemma full_at m p F : page_frame m d p = Some F → 0 ≤ p < 1048576 → full m p F ∧ ∀ f, full m p f → f = F.
Proof. intros Hp Hr. split; [done|]. intros f [_ Hf]. congruence. Qed.

Lemma full_same m m' : (∀ p, 0 ≤ p < 1048576 → page_frame m' d p = page_frame m d p) → ∀ p f, full m p f → full m' p f.
Proof. intros H p f [Hp Hf]. split; [done|]. by rewrite H. Qed.

Lemma kw_fill {B} m kt v F b n (k : Z → M St B) Q :
  vi m kt → holds m kt v F → 0 ≤ n ≤ 4096 →
  (∀ m', but_frame m m' F → (∀ x, 0 ≤ x < 4096 → get8 m' (F * 4096 + x) = if x <? n then u8 b else get8 m (F * 4096 + x)) →
     kw0 (full m') m' (k (v * 4096)) Q) →
  kw0 (full m) m (vkmemset (v * 4096) b n ≫= k) Q.
Proof.
  intros H (Hv & Hp & HF) Hn Hk. destruct (full_at m v F Hp ltac:(lia)) as [R1 R2].
  assert (∀ m', but_frame m m' F → ∀ p, 0 ≤ p < 1048576 → page_frame m' d p = page_frame m d p) as Hsame.
  { intros m' Hs. by eapply (data_write m m' kt F); [exact H|exact HF|..|exact Hs]; lia. }
  eapply kw_seq with (P := λ r m' R', r = v * 4096 ∧ but_frame m m' F ∧
    (∀ x, 0 ≤ x < 4096 → get8 m' (F * 4096 + x) = if x <? n then u8 b else get8 m (F * 4096 + x)) ∧ R' = full m).
  - eapply (kw_memset _ _ _ _ _ _ F); [lia|done|done|done| |].
    + intros m' Hs. by rewrite Hsame by (done || lia).
    + intros m' Hs Hx. done.
  - intros r m' R' (-> & Hs & Hx & ->). eapply kw_weaken; [by apply Hk|]. apply full_same. by apply Hsame.
Qed.

(** The source of a copy: identity-mapped memory apart from what the vmm
    writes. *)
Definition source_ok (m : mem) (kt : gmap Z Z) (a : Z) : Prop :=
  1 ≤ a / 4096 < 2047 ∧ off_bitmap bm a 1 ∧ off_tables d kt a 1 ∧ (a / 4096 < total_bits bm → bit m bm (a / 4096) = true).

Lemma kw_copy {B} m kt v F src n (k : Z → M St B) Q :
  vi m kt → holds m kt v F → 0 ≤ n ≤ 4096 → 0 ≤ src → src + n ≤ 8384512 → (∀ a, src ≤ a < src + n → source_ok m kt a ∧ a / 4096 ≠ F) →
  (∀ m', but_frame m m' F → (∀ x, 0 ≤ x < 4096 → get8 m' (F * 4096 + x) = if x <? n then get8 m (src + x) else get8 m (F * 4096 + x)) →
     kw0 (full m') m' (k (v * 4096)) Q) →
  kw0 (full m) m (vkmemcpy src (v * 4096) n ≫= k) Q.
Proof.
  intros H (Hv & Hp & HF) Hn Hsrc Hsrc' Hsr Hk. destruct (full_at m v F Hp ltac:(lia)) as [R1 R2].
  assert (∀ m', but_frame m m' F → vi m' kt ∧ ∀ p, 0 ≤ p < 1048576 → page_frame m' d p = page_frame m d p) as Hsame.
  { intros m' Hs. destruct (data_write m m' kt F (F * 4096) 4096 H HF ltac:(lia) ltac:(lia) Hs) as (? & ? & _). done. }
  eapply kw_seq with (P := λ r m' R', r = v * 4096 ∧ but_frame m m' F ∧
    (∀ x, 0 ≤ x < 4096 → get8 m' (F * 4096 + x) = if x <? n then get8 m (src + x) else get8 m (F * 4096 + x)) ∧ R' = full m).
  - pose proof (ks_core _ _ _ _ _ (vi_ks _ _ _ _ _ _ H)) as Hc. pose proof (Rk_full _ _ _ m Hc) as HR.
    eapply (kw_memcpy _ _ _ _ _ _ _ F); [done|lia|lia|done|done|done| | | |done].
    + intros m' Hs. destruct (Hsame m' Hs) as [_ E]. by rewrite E by lia.
    + intros m' a Hs Ha. destruct (Hsr a Ha) as ((Hr & _) & _). eapply at_ident; [|done|done].
      eapply ks_core, vi_ks, (Hsame m' Hs).
    + intros a Ha. by apply Hsr.
  - intros r m' R' (-> & Hs & Hx & ->). eapply kw_weaken; [by apply Hk|]. apply full_same. by apply Hsame.
Qed.

(** ** Enough memory *)

(** At least [n] frames below the window's are free; at least [n] of the 4 MB
    regions of the search have no table. *)
Definition low_free (m : mem) (n : nat) : Prop :=
  ∃ l, NoDup l ∧ length l = n ∧ ∀ f, f ∈ l → 0 ≤ f < 2047 ∧ f < total_bits bm ∧ bit m bm f = false.
Definition room (kt : gmap Z Z) (n : nat) : Prop :=
  ∃ l, NoDup l ∧ length l = n ∧ ∀ i, i ∈ l → 2 ≤ i < 1024 ∧ i ≠ 768 ∧ i ≠ 769 ∧ kt !! i = None.

(** Taking an element out of a list costs at most one. *)
Lemma drop_one (l : list Z) x n : NoDup l → length l = S n → ∃ l', NoDup l' ∧ length l' = n ∧ ∀ y, y ∈ l' → y ∈ l ∧ y ≠ x.
Proof.
  intros Hnd Hl. destruct (decide (x ∈ l)) as [Hx|Hx].
  - apply list_elem_of_split in Hx as (l1 & l2 & ->). exists (l1 ++ l2).
    rewrite NoDup_app, NoDup_cons in Hnd. destruct Hnd as (N1 & N12 & Nx & N2). rewrite !length_app in *. cbn in Hl. split_and!.
    + apply NoDup_app. split_and!; [done| |done]. intros y Hy Hy2. by apply (N12 y Hy), list_elem_of_further.
    + lia.
    + intros y [Hy|Hy]%elem_of_app; (split; [set_solver|]); intros ->; [by apply (N12 x Hy), list_elem_of_here|done].
  - destruct l as [|y l]; [done|]. apply NoDup_cons in Hnd as [_ Hnd]. exists l. split_and!; [done|by injection Hl|]. set_solver.
Qed.

Lemma low_free_one m n : low_free m (S n) → ∃ f, 0 ≤ f < 2047 ∧ f < total_bits bm ∧ bit m bm f = false.
Proof. intros ([|f l] & _ & Hl & H); [done|]. exists f. apply H. by left. Qed.

Lemma take_some (l : list Z) n : NoDup l → (n ≤ length l)%nat → NoDup (take n l) ∧ length (take n l) = n ∧ ∀ x, x ∈ take n l → x ∈ l.
Proof.
  intros Hnd Hn. rewrite <- (take_drop n l), NoDup_app in Hnd. split_and!; [apply Hnd|rewrite length_take; lia|].
  intros x Hx. rewrite <- (take_drop n l). apply elem_of_app. by left.
Qed.
Lemma low_free_le m n k : (n ≤ k)%nat → low_free m k → low_free m n.
Proof.
  intros Hle (l & Hnd & Hl & H). destruct (take_some l n Hnd ltac:(lia)) as (? & ? & Hin). exists (take n l). auto.
Qed.
Lemma room_le kt n k : (n ≤ k)%nat → room kt k → room kt n.
Proof.
  intros Hle (l & Hnd & Hl & H). destruct (take_some l n Hnd ltac:(lia)) as (? & ? & Hin). exists (take n l). auto.
Qed.

Lemma low_free_bits m m' f n : (∀ j, 0 ≤ j < total_bits bm → j ≠ f → bit m' bm j = bit m bm j) → low_free m (S n) → low_free m' n.
Proof.
  intros Hb (l & Hnd & Hl & H). destruct (drop_one l f n Hnd Hl) as (l' & Hnd' & Hl' & H').
  exists l'. split_and!; [done|done|]. intros j Hj. destruct (H' j Hj) as [Hin Hne]. destruct (H j Hin) as (? & ? & ?).
  rewrite Hb by (done || lia). done.
Qed.
Lemma low_free_same m m' n : (∀ j, 0 ≤ j < total_bits bm → bit m' bm j = bit m bm j) → low_free m n → low_free m' n.
Proof.
  intros Hb (l & Hnd & Hl & H). exists l. split_and!; [done|done|]. intros j Hj. destruct (H j Hj) as (? & ? & ?).
  rewrite Hb by (done || lia). done.
Qed.

Lemma allocated_low m m' f n : allocated bm m m' f → low_free m (S n) → f < 2047 ∧ low_free m' n.
Proof.
  intros (Hf & _ & Hlow & Hb & _) Hl. split.
  - destruct (low_free_one m n Hl) as (g & Hg & Hgt & Hgb). destruct (Z.lt_ge_cases g f); [|lia].
    rewrite Hlow in Hgb by lia. done.
  - eapply (low_free_bits m m' f); [|exact Hl]. intros j Hj Hne. rewrite Hb by lia. destruct (Z.eqb_spec f j); [lia|done].
Qed.

Lemma room_free_page m kt n : ks m kt → room kt (S n) → ∃ p, free_page d m p.
Proof.
  intros H ([|i l] & _ & Hl & Hr); [done|]. destruct (Hr i) as (Hi & H1 & H2 & Hn); [by left|].
  assert ((i * 1024 + 0) / 1024 = i) as E by (Z.div_mod_to_equations; lia).
  exists (i * 1024 + 0). unfold free_page. rewrite E. split_and!; [lia|lia|lia|lia|].
  rewrite (page_slot d t1 t2 _ _ _ _ H) by lia. by rewrite Hn.
Qed.

Lemma kw_new_page_free {B} m kt wb ub (k : Z → M St B) Q :
  vi m kt → low_free m 2 → (∃ p, free_page d m p) →
  (∀ p f kt' m', new_page s0 d t1 t2 m m' kt kt' p f (Z.b2z wb) (Z.b2z ub) → kw0 (full m') m' (k (p * 4096)) Q) →
  kw0 (full m) m (vmm_get_new_page d wb ub NULL ≫= k) Q.
Proof.
  intros H Hl Hr Hk.
  eapply kw_seq with (P := λ b m' R', ∃ p f kt', b = p * 4096 ∧ new_page s0 d t1 t2 m m' kt kt' p f (Z.b2z wb) (Z.b2z ub) ∧ R' = full m').
  2: { intros b m' R' (p & f & kt' & -> & Hn & ->). by eapply Hk. }
  eapply kw_get_new_page; [exact H| |eauto 8|].
  - intros f m1 Ha g m2 Hg. destruct (allocated_low _ _ _ _ Ha Hl) as [_ Hl1]. by destruct (allocated_low _ _ _ _ Hg Hl1).
  - intros m' Hn. exfalso. destruct Hn as [(_ & [Hn|Hn])|(p & f & Ha & _ & _ & Hn)].
    + destruct Hr as [p Hp]. by apply (Hn p).
    + destruct (low_free_one m 1 Hl) as (f & ? & ? & Hf). rewrite Hn in Hf by lia. done.
    + destruct (allocated_low _ _ _ _ Ha Hl) as [_ Hl1]. destruct (low_free_one _ _ Hl1) as (g & ? & ? & Hg).
      rewrite Hn in Hg by lia. done.
Qed.

Lemma kw_new_page {B} m kt wb ub (k : Z → M St B) Q :
  vi m kt → low_free m 2 → room kt 1 →
  (∀ p f kt' m', new_page s0 d t1 t2 m m' kt kt' p f (Z.b2z wb) (Z.b2z ub) → kw0 (full m') m' (k (p * 4096)) Q) →
  kw0 (full m) m (vmm_get_new_page d wb ub NULL ≫= k) Q.
Proof. intros H Hl Hr. apply kw_new_page_free; [done|done|]. eapply room_free_page; [apply H|done]. Qed.

(** ** What a series of operations keeps *)

(** At most [n] new pages were taken, the frames [W] were written and the
    pages [E] dropped; the rest is as before. *)
Record grows (n : nat) (W E : list Z) (m : mem) (kt : gmap Z Z) (m' : mem) (kt' : gmap Z Z) : Prop := {
  gr_vi : vi m' kt';
  gr_data : ∀ G, data m kt G → data m' kt' G;
  gr_pages : ∀ v G, 2048 ≤ v < 1048576 → v ∉ E → page_frame m d v = Some G → page_frame m' d v = Some G;
  gr_same : ∀ G, data m kt G → G ∉ W → same_frame m m' G;
  gr_source : ∀ a, source_ok m kt a → a / 4096 ∉ W → source_ok m' kt' a ∧ get8 m' a = get8 m a;
  gr_used : ∀ j, 0 ≤ j < total_bits bm → bit m bm j = true → bit m' bm j = true;
  gr_low : ∀ k, low_free m (2 * n + k) → low_free m' k;
  gr_room : ∀ k, room kt (n + k) → room kt' k;
  gr_clean : clean m kt → clean m' kt';
  gr_zero : page_frame m' d 0 = page_frame m d 0;
  gr_still : n = 0%nat → (∀ j, 0 ≤ j < total_bits bm → bit m' bm j = bit m bm j) ∧
    ∀ v, 2048 ≤ v < 1048576 → v ∉ E → page_frame m' d v = page_frame m d v
}.

Lemma grows_weaken n W W' E m kt m' kt' : (∀ x, x ∈ W → x ∈ W') → grows n W E m kt m' kt' → grows n W' E m kt m' kt'.
Proof. intros HW []. constructor; auto. Qed.

Lemma grows_holds n W E m kt m' kt' v F : grows n W E m kt m' kt' → v ∉ E → holds m kt v F → holds m' kt' v F.
Proof. intros Hg HE (Hv & Hp & HF). split_and!; [lia|lia| |]; by apply Hg || (eapply gr_pages; done). Qed.

Lemma grows_trans n1 n2 W1 W2 E1 E2 m1 k1 m2 k2 m3 k3 :
  grows n1 W1 E1 m1 k1 m2 k2 → grows n2 W2 E2 m2 k2 m3 k3 → grows (n1 + n2) (W1 ++ W2) (E1 ++ E2) m1 k1 m3 k3.
Proof.
  intros [] []. constructor.
  - done.
  - auto.
  - intros v G Hv HE HG. rewrite elem_of_app in HE. apply gr_pages1; [done|tauto|]. apply gr_pages0; [done|tauto|done].
  - intros G HG HW x Hx. rewrite elem_of_app in HW. rewrite (gr_same1 G), (gr_same0 G) by (done || tauto || auto). done.
  - intros a Ha HW. rewrite elem_of_app in HW. destruct (gr_source0 a Ha) as [Ha' E']; [tauto|].
    destruct (gr_source1 a Ha') as [? E'']; [tauto|]. split; [done|congruence].
  - auto.
  - intros k Hk. apply gr_low1, gr_low0. by replace (2 * n1 + (2 * n2 + k))%nat with (2 * (n1 + n2) + k)%nat by lia.
  - intros k Hk. apply gr_room1, gr_room0. by replace (n1 + (n2 + k))%nat with (n1 + n2 + k)%nat by lia.
  - auto.
  - congruence.
  - intros E0. destruct gr_still0 as [B1 P1]; [lia|]. destruct gr_still1 as [B2 P2]; [lia|]. split.
    + intros j Hj. by rewrite B2, B1.
    + intros v Hv HE. rewrite elem_of_app in HE. by rewrite P2, P1 by tauto.
Qed.

Lemma source_page a kt : 1 ≤ a / 4096 → off_tables d kt a 1 → ∀ i f, kt !! i = Some f → a / 4096 ≠ f.
Proof. intros Ha [_ Ht] i f Hf. specialize (Ht i f Hf). Z.div_mod_to_equations; lia. Qed.

(** Frame [F] was free in [m]. *)
Definition was_free (m : mem) (F : Z) : Prop := 0 ≤ F < total_bits bm ∧ bit m bm F = false.

Lemma was_free_data m kt F G : was_free m F → data m kt G → G ≠ F.
Proof. intros [Hr Hb] HG ->. rewrite (da_used _ _ _ HG) in Hb by done. done. Qed.
Lemma was_free_source m kt F a : was_free m F → source_ok m kt a → a / 4096 ≠ F.
Proof. intros [Hr Hb] (Ha & _ & _ & Hu) <-. rewrite Hu in Hb by lia. done. Qed.
Lemma new_page_free m m' kt kt' p f w x : new_page s0 d t1 t2 m m' kt kt' p f w x → was_free m f.
Proof. intros Hn. destruct (np_fresh _ _ _ _ _ _ _ _ _ _ _ _ Hn) as (? & ? & _). split; [lia|done]. Qed.

Lemma clean_new_page m m' kt kt' p f w u : vi m kt → new_page s0 d t1 t2 m m' kt kt' p f w u → clean m kt → clean m' kt'.
Proof.
  intros Hvi Hn H q g Hq Hg.
  pose proof (new_page_holds _ _ _ _ _ _ _ _ Hvi Hn) as (Hp & Hpf & Hdf). pose proof (new_page_free _ _ _ _ _ _ _ _ Hn) as Hfree.
  assert (∀ r, 2048 ≤ r < 1048576 → r ≠ p → page_frame m' d r = page_frame m d r) as Hsame
    by (intros; apply (np_others _ _ _ _ _ _ _ _ _ _ _ _ Hn); lia).
  assert (∀ r, 2048 ≤ r < 1048576 → r ≠ p → page_frame m' d r ≠ Some f) as Hnew.
  { intros r Hr Hne. rewrite Hsame by done. intros E. destruct (H r f Hr E) as [Hd _]. by eapply was_free_data. }
  destruct (decide (q = p)) as [->|Hne].
  - assert (g = f) as -> by congruence. split; [done|]. intros r Hr Er. destruct (decide (r = p)); [done|]. by destruct (Hnew r Hr).
  - rewrite Hsame in Hg by done. destruct (H q g Hq Hg) as [Hd Hu]. split; [by eapply data_new_page|].
    intros r Hr Er. destruct (decide (r = p)) as [->|]; [|apply Hu; [done|by rewrite <- Hsame]].
    exfalso. assert (g = f) as -> by congruence. by eapply was_free_data.
Qed.

Lemma grows_new_page m m' kt kt' p f w u : vi m kt → new_page s0 d t1 t2 m m' kt kt' p f w u → grows 1 [] [] m kt m' kt'.
Proof.
  intros H Hn. constructor.
  - apply Hn.
  - intros G HG. by eapply data_new_page.
  - intros v G Hv _ HG. destruct (np_lowest _ _ _ _ _ _ _ _ _ _ _ _ Hn) as [(_ & _ & _ & Hfree) _].
    assert (v ≠ p) by congruence. by rewrite (np_others _ _ _ _ _ _ _ _ _ _ _ _ Hn) by lia.
  - intros G HG _. by eapply data_new_page.
  - intros a (Ha & Hab & [Hd Ht] & Hu) _. assert (source_ok m' kt' a) as Hs'.
    { split_and!; [lia|lia|done| |].
      - split; [done|]. intros i g Hg. destruct (np_tables _ _ _ _ _ _ _ _ _ _ _ _ Hn) as [->|(_ & g' & Hgr & Hgb & ->)]; [by apply (Ht i)|].
        apply lookup_insert_Some in Hg as [[_ <-]|[_ Hg]]; [|by apply (Ht i)].
        assert (a / 4096 ≠ g') by (intros <-; rewrite Hu in Hgb by lia; done). Z.div_mod_to_equations; lia.
      - intros Hr. apply (np_bits _ _ _ _ _ _ _ _ _ _ _ _ Hn); [lia|auto]. }
    split; [done|]. apply (np_frame _ _ _ _ _ _ _ _ _ _ _ _ Hn); [done|apply Hs'].
  - apply Hn.
  - intros k Hk. destruct (np_taken _ _ _ _ _ _ _ _ _ _ _ _ Hn) as (g & _ & Hg).
    destruct Hk as (l & Hnd & Hl & Hin). destruct (drop_one l f (S k) Hnd Hl) as (l1 & Hnd1 & Hl1 & Hin1).
    destruct (drop_one l1 g k Hnd1 Hl1) as (l2 & Hnd2 & Hl2 & Hin2). exists l2. split_and!; [done|done|].
    intros j Hj. destruct (Hin2 j Hj) as [Hj1 ?]. destruct (Hin1 j Hj1) as [Hj0 ?]. destruct (Hin j Hj0) as (? & ? & ?).
    rewrite Hg by (done || lia). done.
  - intros k (l & Hnd & Hl & Hin). destruct (drop_one l (p / 1024) k Hnd Hl) as (l1 & Hnd1 & Hl1 & Hin1).
    exists l1. split_and!; [done|done|]. intros i Hi. destruct (Hin1 i Hi) as [Hi0 Hne]. destruct (Hin i Hi0) as (? & ? & ? & Hni).
    split_and!; [lia|lia|lia|lia|]. destruct (np_tables _ _ _ _ _ _ _ _ _ _ _ _ Hn) as [->|(_ & g & _ & _ & ->)]; [done|].
    by rewrite lookup_insert_ne.
  - by eapply clean_new_page.
  - destruct (np_lowest _ _ _ _ _ _ _ _ _ _ _ _ Hn) as [(Hp & _) _]. apply (np_others _ _ _ _ _ _ _ _ _ _ _ _ Hn); lia.
  - done.
Qed.

Lemma grows_bits W E m m' kt : vi m' kt →
  (∀ j, 0 ≤ j < total_bits bm → bit m' bm j = bit m bm j) →
  (∀ v, 2048 ≤ v < 1048576 → v ∉ E → page_frame m' d v = page_frame m d v) →
  (∀ G, data m kt G → G ∉ W → same_frame m m' G) →
  (∀ a, off_bitmap bm a 1 → off_tables d kt a 1 → a / 4096 ∉ W → get8 m' a = get8 m a) →
  page_frame m' d 0 = page_frame m d 0 → (∀ v, v ∈ E → page_frame m' d v = None) → grows 0 W E m kt m' kt.
Proof.
  intros H Hb Hp Hs Ha H0 Hgone.
  assert (∀ G, data m kt G → data m' kt G) as Hd.
  { intros G []. constructor; try done. intros HG. rewrite Hb by done. auto. }
  constructor; try done.
  - intros v G Hv HE. by rewrite Hp.
  - intros a (Hr & Hab & Ht & Hu) HW. split; [|by apply Ha]. split_and!; [lia|lia|done|done|].
    intros Hlt. rewrite Hb by lia. auto.
  - intros j Hj Hu. by rewrite Hb.
  - intros k. by apply low_free_same.
  - intros Hc. assert (∀ v f, 2048 ≤ v < 1048576 → page_frame m' d v = Some f → page_frame m d v = Some f) as Hback.
    { intros v f Hv Ef. destruct (decide (v ∈ E)) as [HvE|HvE]; [by rewrite Hgone in Ef|by rewrite <- Hp]. }
    intros p f Hpr Ef. destruct (Hc p f Hpr) as [Hdf Hu]; [by apply Hback|]. split; [by apply Hd|auto].
Qed.

Lemma grows_none W m kt : vi m kt → grows 0 W [] m kt m kt.
Proof. intros H. apply grows_bits; try done. by intros ? ?%not_elem_of_nil. Qed.

Lemma grows_window m m' kt o : vi m kt → window_moved d t1 t2 m m' kt o → grows 0 [] [] m kt m' kt.
Proof.
  intros H Hw. destruct (window_moved_vi _ _ _ _ _ _ _ _ H Hw) as [H' Hf]. destruct Hw as (Hs & _ & _ & O). apply grows_bits; [done| | | | |by apply O|by intros ? ?%not_elem_of_nil].
  - intros j Hj. eapply bit_same; [exact Hs| |done].
    eapply off_bitmap_table; [exact H|exact (ks_t2 _ _ _ _ _ (vi_ks _ _ _ _ _ _ H))|unfold entry; lia..].
  - intros v Hv _. apply O; lia.
  - intros G HG _. eapply frame_same_data; [apply H|done|done].
  - intros a Hb Ht _. by apply Hf.
Qed.

Lemma grows_freed m m' kt q : vi m kt → 2048 ≤ q → page_freed s0 d t1 t2 m m' kt q → grows 0 [] [q] m kt m' kt.
Proof.
  intros H Hqr Hq. apply grows_bits;
    [apply Hq|apply Hq| | | |apply (pf_others _ _ _ _ _ _ _ _ Hq); lia|intros v ->%list_elem_of_singleton; apply Hq].
  - intros v Hv HE. apply (pf_others _ _ _ _ _ _ _ _ Hq); [lia|set_solver].
  - intros G HG _. eapply frame_same_data; [apply H|done|apply Hq].
  - intros a Hb Ht _. by apply (pf_frame _ _ _ _ _ _ _ _ Hq).
Qed.

Lemma grows_write m m' kt F a n : vi m kt → data m kt F → F * 4096 ≤ a → a + n ≤ F * 4096 + 4096 → same_but m m' a n →
  grows 0 [F] [] m kt m' kt.
Proof.
  intros H HF Ha Hn Hs. destruct (data_write m m' kt F a n H HF Ha Hn Hs) as (H' & Hp & _ & Hfr & Hb). apply grows_bits; [done|done| | | |by apply Hp|by intros ? ?%not_elem_of_nil].
  - intros v Hv _. apply Hp. lia.
  - intros G HG HW. apply Hfr. set_solver.
  - intros b _ _ HW. apply Hs. assert (b / 4096 ≠ F) by set_solver. Z.div_mod_to_equations; lia.
Qed.

(** ** The directory of a process *)

Context (w0 w1 u : Z).

(** The directory in frame [D]: the first two entries are the words [w0] and
    [w1], entry 768 (0xC0000000) names the table in frame [o] if there is
    one, nothing else is present; the table maps the pages [pg]. *)
Record pspace (m : mem) (D : Z) (o : option Z) (pg : gmap Z Z) : Prop := {
  ps_0 : pte m D 0 = w0;
  ps_1 : pte m D 1 = w1;
  ps_rest : ∀ i, 2 ≤ i < 1024 → i ≠ 768 → pte m D i = 0;
  ps_768 : match o with
           | None => pte m D 768 = 0 ∧ pg = ∅
           | Some F => entry_is (pte m D 768) 1 1 u F ∧
               ∀ j, 0 ≤ j < 1024 → match pg !! j with
                                   | Some f => entry_is (pte m F j) 1 1 u f
                                   | None => present (pte m F j) = 0
                                   end
           end
}.

Lemma pte_same m m' F j : same_frame m m' F → 0 ≤ j < 1024 → pte m' F j = pte m F j.
Proof.
  intros Hs Hj. unfold pte. apply get8_ext_ld32. intros x Hx. unfold entry in Hx.
  replace x with (F * 4096 + (x - F * 4096)) by lia. apply Hs. lia.
Qed.

Lemma pte_zero m F j : (∀ x, 0 ≤ x < 4096 → get8 m (F * 4096 + x) = 0) → 0 ≤ j < 1024 → pte m F j = 0.
Proof. intros Hz Hj. unfold pte, entry, ld32. rewrite <- !Z.add_assoc. rewrite !Hz by lia. done. Qed.

Lemma pspace_same m m' D o pg : same_frame m m' D → (∀ F, o = Some F → same_frame m m' F) → pspace m D o pg → pspace m' D o pg.
Proof.
  intros HD HF [H0 H1 Hr H768]. constructor.
  - by rewrite (pte_same m m' D) by (done || lia).
  - by rewrite (pte_same m m' D) by (done || lia).
  - intros i Hi Hne. rewrite (pte_same m m' D) by (done || lia). auto.
  - rewrite (pte_same m m' D) by (done || lia). destruct o as [F|]; [|exact H768]. destruct H768 as [HE Hpg]. split; [done|].
    intros j Hj. rewrite (pte_same m m' F) by (auto || lia). by apply Hpg.
Qed.

Lemma pspace_grows n W E m kt m' kt' D o pg : grows n W E m kt m' kt' → data m kt D → D ∉ W →
  (∀ F, o = Some F → data m kt F ∧ F ∉ W) → pspace m D o pg → pspace m' D o pg.
Proof.
  intros Hg HD HW HF. apply pspace_same; [by apply (gr_same _ _ _ _ _ _ _ Hg)|].
  intros F E'. destruct (HF F E'). by apply (gr_same _ _ _ _ _ _ _ Hg).
Qed.

Lemma shiftr_22 i j : 0 ≤ i → 0 ≤ j < 1024 → Z.shiftr ((i * 1024 + j) * 4096) 22 = i.
Proof. intros. rewrite Z.shiftr_div_pow2 by lia. change (2 ^ 22) with 4194304. Z.div_mod_to_equations; lia. Qed.
Lemma page_of_768 j : 0 ≤ j < 1024 → Z.land (Z.shiftr ((768 * 1024 + j) * 4096) 12) 0x3FF = j.
Proof.
  intros Hj. rewrite shiftr_table. change 0x3FF with (Z.ones 10). rewrite Z.land_ones by lia.
  change (2 ^ 10) with 1024. Z.div_mod_to_equations; lia.
Qed.

(** Reading an entry of a directory reached through page [v]. *)
Lemma kw_load_via {B} m kt v D i (k : Z → M St B) Q :
  holds m kt v D → 0 ≤ i < 1024 → kw0 (full m) m (k (pte m D i)) Q → kw0 (full m) m (vload32 (entry (v * 4096) i) ≫= k) Q.
Proof.
  intros (Hv & Hp & HD) Hi Hk. destruct (full_at m v D Hp ltac:(lia)) as [R1 R2].
  assert (entry (v * 4096) i / 4096 = v ∧ entry (v * 4096) i mod 4096 = 4 * i ∧ entry (v * 4096) i mod 4 = 0) as (E1 & E2 & E3).
  { unfold entry. Z.div_mod_to_equations; lia. }
  eapply kw_bind, (kw_vload32 _ _ _ _ _ _ D); [unfold entry; lia|done|rewrite E1; done|].
  rewrite E2. exact Hk.
Qed.

(** [map_page] and the directory assignments through a page that leads to a
    data frame. *)
Lemma kw_map_page_via {B} m kt v F j f wb ub (k : unit → M St B) Q :
  vi m kt → data m kt F → page_frame m d v = Some F → 0 ≤ v < 1048576 → 0 ≤ j < 1024 → 0 ≤ f < 1048576 →
  (∀ m', same_but m m' (entry (F * 4096) j) 4 → entry_is (pte m' F j) 1 (Z.b2z wb) (Z.b2z ub) f →
     kw0 (full m') m' (k tt) Q) →
  kw0 (full m) m (map_page (v * 4096) j (f * 4096) wb ub ≫= k) Q.
Proof.
  intros H HF Hp Hv Hj Hf Hk. destruct (full_at m v F Hp Hv) as [R1 R2].
  assert (∀ m', same_but m m' (entry (F * 4096) j) 4 → ∀ p, 0 ≤ p < 1048576 → page_frame m' d p = page_frame m d p) as Hsame.
  { intros m' Hs. eapply (data_write m m' kt F); [exact H|exact HF|..|exact Hs]; unfold entry; lia. }
  eapply (kw_map_page _ _ _ t1 t2 (full m) m v F j f (Z.b2z wb) (Z.b2z ub)); [lia|lia|done|done| |lia|by destruct wb|by destruct ub|done|done|].
  - intros m' Hs. by rewrite (Hsame m' Hs) by lia.
  - intros m' Hs He. eapply kw_weaken; [by apply Hk|]. apply full_same. by apply Hsame.
Qed.

Lemma kw_set_entry_via {B} m kt v F j f w ub (k : M St B) Q :
  vi m kt → data m kt F → page_frame m d v = Some F → 0 ≤ v < 1048576 → 0 ≤ j < 1024 → 0 ≤ f < 1048576 → 0 ≤ w < 2 →
  (∀ m', same_but m m' (entry (F * 4096) j) 4 → entry_is (pte m' F j) 1 w (Z.b2z ub) f → kw0 (full m') m' k Q) →
  kw0 (full m) m (vupdate32 (entry (v * 4096) j) (set_present 1) ;; vupdate32 (entry (v * 4096) j) (set_rw w) ;;
    vupdate32 (entry (v * 4096) j) (set_user (Z.b2z ub)) ;; vupdate32 (entry (v * 4096) j) (set_frame_addr f) ;; k) Q.
Proof.
  intros H HF Hp Hv Hj Hf Hw Hk. destruct (full_at m v F Hp Hv) as [R1 R2].
  assert (∀ m', same_but m m' (entry (F * 4096) j) 4 → ∀ p, 0 ≤ p < 1048576 → page_frame m' d p = page_frame m d p) as Hsame.
  { intros m' Hs. eapply (data_write m m' kt F); [exact H|exact HF|..|exact Hs]; unfold entry; lia. }
  eapply (kw_set_entry _ _ _ t1 t2 (full m) m v F j f w (Z.b2z ub)); [lia|lia|done|done| |lia|lia|by destruct ub|].
  - intros m' Hs. by rewrite (Hsame m' Hs) by lia.
  - intros m' Hs He. eapply kw_weaken; [by apply Hk|]. apply full_same. by apply Hsame.
Qed.

(** ** [vmm_map_frame] *)

Lemma pspace_map m m' D F pg j f : pspace m D (Some F) pg → F ≠ D → 0 ≤ j < 1024 → same_but m m' (entry (F * 4096) j) 4 →
  entry_is (pte m' F j) 1 1 u f → pspace m' D (Some F) (<[j := f]> pg).
Proof.
  intros [H0 H1 Hr [HE Hpg]] Hne Hj Hs He.
  assert (∀ G i, 0 ≤ i < 1024 → G ≠ F ∨ i ≠ j → pte m' G i = pte m G i) as Hp.
  { intros G i Hi Hd. unfold pte. apply (same_but_ld32 _ _ _ _ _ Hs). unfold entry. destruct (decide (G = F)) as [->|]; lia. }
  constructor.
  - by rewrite Hp by (lia || auto).
  - by rewrite Hp by (lia || auto).
  - intros i Hi Hne'. rewrite Hp by (lia || auto). auto.
  - rewrite Hp by (lia || auto). split; [done|]. intros i Hi. destruct (decide (i = j)) as [->|].
    + by rewrite lookup_insert_eq.
    + rewrite lookup_insert_ne by done. rewrite Hp by auto. by apply Hpg.
Qed.

Lemma new_page_low m m' kt kt' p f w x n : low_free m (S n) → new_page s0 d t1 t2 m m' kt kt' p f w x → f < 2047.
Proof.
  intros Hl Hn. destruct (np_fresh _ _ _ _ _ _ _ _ _ _ _ _ Hn) as (_ & _ & Hlow).
  destruct (low_free_one _ _ Hl) as (g & ? & ? & Hg). destruct (Z.lt_ge_cases g f); [|lia]. rewrite Hlow in Hg by lia. done.
Qed.

(** The frame behind a page of the kernel. *)
Lemma kw_physical_of {B} m kt v F (k : Z → M St B) Q :
  vi m kt → holds m kt v F → (∀ m', grows 0 [] [] m kt m' kt → kw0 (full m') m' (k (F * 4096)) Q) →
  kw0 (full m) m (vmm_get_physical_address d (v * 4096) ≫= k) Q.
Proof.
  intros H (Hv & Hp & HF) Hk. rewrite (ks_page _ _ _ _ _ _ (vi_ks _ _ _ _ _ _ H)) in Hp by lia.
  destruct (kt !! (v / 1024)) as [T|] eqn:HT; [|done]. cbn in Hp. unfold slot in Hp.
  destruct (present (pte m T (v mod 1024)) =? 0); [done|]. injection Hp as Hp.
  eapply kw_get_physical; [exact H|lia|Z.div_mod_to_equations; lia|exact HT|]. intros m' Hw. rewrite Hp. apply Hk. by eapply grows_window.
Qed.

Lemma kw_map_present {B} m kt v D F pg j f ub (k : bool → M St B) Q :
  vi m kt → holds m kt v D → data m kt F → F < 2047 → F ≠ D → pspace m D (Some F) pg → 0 ≤ j < 1024 → 0 ≤ f < 1048576 →
  u = Z.b2z ub →
  (∀ m', grows 0 [F] [] m kt m' kt → pspace m' D (Some F) (<[j := f]> pg) → kw0 (full m') m' (k true) Q) →
  kw0 (full m) m (vmm_map_frame (v * 4096) ((768 * 1024 + j) * 4096) (f * 4096) true ub ≫= k) Q.
Proof.
  intros H Hh HF Hlow Hne Hps Hj Hf Hu Hk. pose proof (ks_core _ _ _ _ _ (vi_ks _ _ _ _ _ _ H)) as Hc.
  destruct (ps_768 _ _ _ _ Hps) as [(Ep & _ & _ & Ef) _]. pose proof (da_range _ _ _ HF) as HFr.
  unfold vmm_map_frame. rewrite shiftr_22, page_of_768 by lia. apply kw_assoc. unfold table_for. apply kw_assoc.
  eapply kw_load_via; [exact Hh|lia|]. rewrite Ep. cbn [Z.eqb negb]. apply kw_assoc.
  eapply kw_load_via; [exact Hh|lia|]. apply kw_ret_bind. unfold table_of. rewrite Ef.
  rewrite Z.shiftl_mul_pow2 by lia. change (2 ^ 12) with 4096. rewrite u32_small by lia. apply kw_assoc.
  eapply kw_map_page_via; [exact H|exact HF|eapply kc_ident; [done|lia]|lia|lia|lia|]. intros m' Hs He. apply kw_assoc, kw_bind, kw_invalidate.
  apply kw_ret_bind. eapply kw_weaken; [apply Hk|by intros ?? [_ ?]].
  - eapply grows_write; [exact H|exact HF| | |exact Hs]; unfold entry; lia.
  - rewrite <- Hu in He. by eapply pspace_map.
Qed.

(** The new table is the page [Hnew] speaks of, with what is known of it. *)
Lemma kw_map_into_new {B} m kt v D j f ub (N : Z → gmap Z Z → mem → Prop) (k : bool → M St B) Q :
  (∀ k' : Z → M St B, (∀ p f kt' m', new_page s0 d t1 t2 m m' kt kt' p f 1 0 → N f kt' m' → kw0 (full m') m' (k' (p * 4096)) Q) →
     kw0 (full m) m (vmm_get_new_page d true false NULL ≫= k') Q) →
  (∀ F kt' m', N F kt' m' → F < 2047) →
  vi m kt → holds m kt v D → pspace m D None ∅ → 0 ≤ j < 1024 → 0 ≤ f < 1048576 → u = Z.b2z ub →
  (∀ m1 m' kt' F, N F kt' m1 → (∀ i, 0 ≤ i < total_bits bm → bit m1 bm i = true → bit m' bm i = true) →
     grows 1 [F; D; F] [] m kt m' kt' → pspace m' D (Some F) (<[j := f]> ∅) → data m' kt' F → F < 2047 → was_free m F →
     kw0 (full m') m' (k true) Q) →
  kw0 (full m) m (vmm_map_frame (v * 4096) ((768 * 1024 + j) * 4096) (f * 4096) true ub ≫= k) Q.
Proof.
  intros Hnew HN H Hh Hps Hj Hf Hu Hk. unfold vmm_map_frame. rewrite shiftr_22, page_of_768 by lia. apply kw_assoc.
  unfold table_for. apply kw_assoc. eapply kw_load_via; [exact Hh|lia|].
  destruct (ps_768 _ _ _ _ Hps) as [-> _]. cbn [negb]. apply kw_assoc, kw_cpu. intros t. cbn [kernel_directory]. apply kw_assoc.
  apply Hnew. intros q F kt1 m1 Hn HNF.
  pose proof (new_page_free _ _ _ _ _ _ _ _ Hn) as Hfree. pose proof (HN _ _ _ HNF) as HF2047.
  pose proof (new_page_holds _ _ _ _ _ _ _ _ H Hn) as Hq. pose proof (grows_new_page _ _ _ _ _ _ _ _ H Hn) as G1.
  pose proof (np_vi _ _ _ _ _ _ _ _ _ _ _ _ Hn) as H1. destruct (holds_new_page _ _ _ _ _ _ _ _ v D H Hn Hh) as [Hv1 Hvq].
  assert (D ≠ F) as HDF by (eapply was_free_data; [exact Hfree|apply Hh]).
  destruct (Z.eqb_spec (q * 4096) 0) as [E0|_]; [destruct Hq; lia|]. apply kw_assoc.
  eapply kw_fill; [exact H1|exact Hq|lia|]. intros m2 S2 Z2.
  pose proof (grows_write m1 m2 kt1 F (F * 4096) 4096 H1 (proj2 (proj2 Hq)) ltac:(lia) ltac:(lia) S2) as G2.
  apply kw_assoc, kw_cpu. intros t'. cbn [kernel_directory]. apply kw_assoc.
  eapply kw_physical_of; [apply G2|eapply grows_holds; [exact G2|set_solver|exact Hq]|]. intros m3 G3.
  pose proof (grows_trans _ _ _ _ _ _ _ _ _ _ _ _ G2 G3) as G23. rewrite shiftr_table.
  assert (grows 1 [F] [] m kt m3 kt1) as G3' by exact (grows_trans _ _ _ _ _ _ _ _ _ _ _ _ G1 G23).
  assert (holds m3 kt1 v D) as Hv3 by (eapply grows_holds; [exact G3'|set_solver|exact Hh]).
  assert (holds m3 kt1 q F) as Hq3 by (eapply grows_holds; [exact G23|set_solver|exact Hq]).
  assert (pspace m3 D None ∅) as Hps3.
  { eapply pspace_grows; [exact G3'|apply Hh|set_solver|done|done]. }
  assert (∀ i, 0 ≤ i < 1024 → present (pte m3 F i) = 0) as Hz3.
  { intros i Hi. assert (same_frame m2 m3 F) as Hsf by (apply (gr_same _ _ _ _ _ _ _ G3); [apply G2, Hq|set_solver]).
    rewrite (pte_same m2 m3 F) by done. rewrite (pte_zero m2 F i); [done| |done].
    intros x Hx. rewrite Z2 by done. by destruct (Z.ltb_spec x 4096); [|lia]. }
  eapply kw_seq with (P := λ r m4 R4, r = Some (q * 4096) ∧ same_but m3 m4 (entry (D * 4096) 768) 4 ∧
    entry_is (pte m4 D 768) 1 1 (Z.b2z ub) F ∧ R4 = full m4).
  { eapply kw_set_entry_via; [apply G3'|apply Hv3|exact (proj1 (proj2 Hv3))|destruct Hv3; lia|lia|destruct Hq as (_ & _ & []); lia|lia|]. intros m4 S4 E4. by apply kw_ret. }
  intros r m4 R4 (-> & S4 & E4 & ->).
  pose proof (grows_write m3 m4 kt1 D (entry (D * 4096) 768) 4 (gr_vi _ _ _ _ _ _ _ G3') (proj2 (proj2 Hv3)) ltac:(unfold entry; lia) ltac:(unfold entry; lia) S4) as G4.
  assert (holds m4 kt1 q F) as Hq4 by (eapply grows_holds; [exact G4|set_solver|exact Hq3]).
  assert (pspace m4 D (Some F) ∅) as Hps4.
  { destruct Hps3 as [P0 P1 Pr _].
    assert (∀ i, 0 ≤ i < 1024 → i ≠ 768 → pte m4 D i = pte m3 D i) as Hp.
    { intros i Hi Hne. unfold pte. apply (same_but_ld32 _ _ _ _ _ S4). unfold entry. lia. }
    constructor.
    - by rewrite Hp by lia.
    - by rewrite Hp by lia.
    - intros i Hi Hne. rewrite Hp by lia. auto.
    - rewrite Hu. split; [done|]. intros i Hi. rewrite lookup_empty, (pte_same m3 m4 F); [auto| |done].
      apply (gr_same _ _ _ _ _ _ _ G4); [apply Hq3|set_solver]. }
  apply kw_assoc. eapply kw_map_page_via; [apply G4|apply Hq4|exact (proj1 (proj2 Hq4))|destruct Hq4; lia|lia|lia|]. intros m5 S5 E5.
  apply kw_assoc, kw_bind, kw_invalidate. apply kw_ret_bind.
  pose proof (grows_write m4 m5 kt1 F (entry (F * 4096) j) 4 (gr_vi _ _ _ _ _ _ _ G4) (proj2 (proj2 Hq4)) ltac:(unfold entry; lia) ltac:(unfold entry; lia) S5) as G5.
  pose proof (grows_trans _ _ _ _ _ _ _ _ _ _ _ _ G4 G5) as G45.
  eapply kw_weaken; [eapply (Hk m1 m5 kt1 F HNF)|by intros ?? [_ ?]].
  - intros i Hi Hb. by apply (gr_used _ _ _ _ _ _ _ (grows_trans _ _ _ _ _ _ _ _ _ _ _ _ G23 G45)).
  - exact (grows_trans _ _ _ _ _ _ _ _ _ _ _ _ G3' G45).
  - rewrite <- Hu in E5. by eapply pspace_map.
  - apply G5, Hq4.
  - done.
  - done.
Qed.

Lemma kw_map_absent {B} m kt v D j f ub (k : bool → M St B) Q :
  vi m kt → holds m kt v D → pspace m D None ∅ → low_free m 2 → (∃ p, free_page d m p) → 0 ≤ j < 1024 → 0 ≤ f < 1048576 → u = Z.b2z ub →
  (∀ m' kt' F, grows 1 [F; D; F] [] m kt m' kt' → pspace m' D (Some F) (<[j := f]> ∅) → data m' kt' F → F < 2047 → was_free m F →
     kw0 (full m') m' (k true) Q) →
  kw0 (full m) m (vmm_map_frame (v * 4096) ((768 * 1024 + j) * 4096) (f * 4096) true ub ≫= k) Q.
Proof.
  intros H Hh Hps Hl Hroom Hj Hf Hu Hk. eapply (kw_map_into_new _ _ _ _ _ _ _ (λ F _ _, F < 2047)); try done; [|by intros; eapply Hk].
  intros k' Hk'. eapply kw_new_page_free; [exact H|exact Hl|exact Hroom|]. intros q F kt1 m1 Hn. eapply Hk'; [exact Hn|].
  exact (new_page_low _ _ _ _ _ _ _ _ _ Hl Hn).
Qed.

(** ** Copying the code *)

(** The bytes of page [p] of a program of [size] bytes at [ep], padded with
    zeros. *)
Definition code_byte (m : mem) (ep size i : Z) : Z := if i <? size then get8 m (ep + i) else 0.

(** The clearing of the last page, and the copy of what it holds. *)
Lemma kw_copy_chunk {B} m kt q f ep size p num (k : Z → M St B) Q :
  vi m kt → holds m kt q f → 0 ≤ p < num → num = (size + 4095) / 4096 → 0 < size → 0 ≤ ep → ep + size ≤ 8384512 →
  (∀ a, ep ≤ a < ep + size → source_ok m kt a ∧ a / 4096 ≠ f) →
  (∀ m', grows 0 [f; f] [] m kt m' kt → (∀ x, 0 ≤ x < 4096 → get8 m' (f * 4096 + x) = code_byte m ep size (p * 4096 + x)) →
     kw0 (full m') m' (k (q * 4096)) Q) →
  kw0 (full m) m ((if p =? num ⊟ 1 then vkmemset (q * 4096) 0 PAGE_SIZE ;; mret tt else mret tt) ;;
    (vkmemcpy (ep ⊞ (p ⊠ PAGE_SIZE)) (q * 4096) (if p =? num ⊟ 1 then size ⊟ (p ⊠ PAGE_SIZE) else PAGE_SIZE) ≫= k)) Q.
Proof.
  intros H Hq Hp Hnum Hsz Hep Hmax Hsrc Hk. unfold PAGE_SIZE.
  assert (num * 4096 < size + 4096 ∧ size ≤ num * 4096) as [Hn1 Hn2] by (Z.div_mod_to_equations; lia).
  rewrite (u32_small (num - 1)), (u32_small (p * 4096)), (u32_small (ep + _)), (u32_small (size - _)) by lia.
  set (n := if p =? num - 1 then size - p * 4096 else 4096).
  assert (0 ≤ n ≤ 4096 ∧ ep + p * 4096 + n ≤ ep + size) as [Hn Hle] by (unfold n; destruct (Z.eqb_spec p (num - 1)); lia).
  eapply kw_seq with (P := λ _ m1 R1, grows 0 [f] [] m kt m1 kt ∧ R1 = full m1 ∧
    (p = num - 1 → ∀ x, 0 ≤ x < 4096 → get8 m1 (f * 4096 + x) = 0)).
  { destruct (Z.eqb_spec p (num - 1)).
    - eapply kw_fill; [done|done|lia|]. intros m1 S1 Z1. apply kw_ret. split_and!; [|done|].
      + eapply grows_write; [exact H|apply Hq| | |exact S1]; lia.
      + intros _ x Hx. rewrite Z1 by done. by destruct (Z.ltb_spec x 4096); [|lia].
    - apply kw_ret. split_and!; [|done|done]. eapply (grows_write m m kt f (f * 4096) 4096); [done|apply Hq|lia|lia|by intros ??]. }
  intros [] m1 R1 (G1 & -> & Z1). eapply kw_copy; [apply G1|eapply grows_holds; [exact G1|set_solver|exact Hq]|lia|lia|lia| |].
  { intros a Ha. destruct (Hsrc a ltac:(lia)) as [Hs Hne]. split; [|done]. apply (gr_source _ _ _ _ _ _ _ G1 a Hs). set_solver. }
  intros m2 S2 E2. apply Hk.
  - pose proof (grows_write m1 m2 kt f (f * 4096) 4096 (gr_vi _ _ _ _ _ _ _ G1) (gr_data _ _ _ _ _ _ _ G1 f (proj2 (proj2 Hq))) ltac:(lia) ltac:(lia) S2) as G2.
    exact (grows_trans _ _ _ _ _ _ _ _ _ _ _ _ G1 G2).
  - intros x Hx. rewrite E2 by done. unfold code_byte, n. destruct (Z.eqb_spec p (num - 1)).
    + destruct (Z.ltb_spec x (size - p * 4096)), (Z.ltb_spec (p * 4096 + x) size); try lia; [|by apply Z1].
      destruct (Hsrc (ep + (p * 4096 + x)) ltac:(lia)) as [Hs Hne].
      destruct (gr_source _ _ _ _ _ _ _ G1 _ Hs) as [_ E]; [set_solver|]. rewrite <- E. f_equal. lia.
    + destruct (Z.ltb_spec x 4096), (Z.ltb_spec (p * 4096 + x) size); try lia.
      destruct (Hsrc (ep + (p * 4096 + x)) ltac:(lia)) as [Hs Hne].
      destruct (gr_source _ _ _ _ _ _ _ G1 _ Hs) as [_ E]; [set_solver|]. rewrite <- E. f_equal. lia.
Qed.

(** ** The image of a process *)

Context (m0 : mem) (kt0 : gmap Z Z) (ep size v D : Z) (slack : nat).

Definition num_pages : Z := (size + 4095) / 4096.

(** Tables and pages still needed after [p] pages; [slack] more are to be
    left. *)
Definition need (p : Z) : nat := (Z.to_nat (num_pages - p) + if (p =? 0)%Z then 1 else 0)%nat.

(** Since [m0], the pages of the kernel and the data frames are as they were,
    and none of the latter is a part of the new space. *)
Definition undisturbed (m : mem) (kt : gmap Z Z) (o : option Z) (pg : gmap Z Z) : Prop :=
  (∀ q G, 2048 ≤ q < 1048576 → page_frame m0 d q = Some G → page_frame m d q = Some G) ∧
  (∀ G, data m0 kt0 G → data m kt G ∧ same_frame m0 m G ∧ G ≠ D ∧ o ≠ Some G ∧ ∀ j, pg !! j ≠ Some G).

(** After [p] pages: the directory in frame [D], reached through page [v],
    maps pages 0 to [p - 1] of the program. *)
Record image (p : Z) (m : mem) (kt : gmap Z Z) (o : option Z) (pg : gmap Z Z) : Prop := {
  im_vi : vi m kt;
  im_dir : holds m kt v D;
  im_space : pspace m D o pg;
  im_table : match o with None => p = 0 | Some F => data m kt F ∧ F < 2047 ∧ F ≠ D ∧ 0 < p end;
  im_pages : ∀ j, 0 ≤ j < p → ∃ f, pg !! j = Some f ∧ data m kt f ∧ f ≠ D ∧ o ≠ Some f ∧
    ∀ x, 0 ≤ x < 4096 → get8 m (f * 4096 + x) = code_byte m0 ep size (j * 4096 + x);
  im_rest : ∀ j, p ≤ j → pg !! j = None;
  im_inj : ∀ i j f, 0 ≤ i → 0 ≤ j → pg !! i = Some f → pg !! j = Some f → i = j;
  im_source : ∀ a, source_ok m0 kt0 a → source_ok m kt a ∧ get8 m a = get8 m0 a ∧ o ≠ Some (a / 4096) ∧ a / 4096 ≠ D ∧
    ∀ j, pg !! j ≠ Some (a / 4096);
  im_kept : undisturbed m kt o pg;
  im_low : low_free m (2 * (need p + slack));
  im_room : room kt (need p + slack);
  im_clean : clean m0 kt0 → clean m kt;
  im_used : ∀ j, 0 ≤ j < total_bits bm → bit m0 bm j = true → bit m bm j = true
}.

(** The steps of one page, seen from before and after: [f] is new and
    unmapped again in the kernel, the directory and its table were written. *)
Lemma image_next p m kt o pg m' kt' F f q n W :
  image p m kt o pg → 0 ≤ p < num_pages → was_free m f → 1 ≤ f < 1048576 → page_frame m d q = None →
  grows n W [q] m kt m' kt' → (∀ G, data m kt G → G ≠ D → o ≠ Some G → G ∉ W) →
  (∀ a, source_ok m kt a → o ≠ Some (a / 4096) → a / 4096 ≠ D → a / 4096 ∉ W) →
  n = (need p - need (p + 1))%nat → (need (p + 1) ≤ need p)%nat →
  match o with Some F0 => F = F0 | None => was_free m F end → F < 2047 → F ≠ D → F ≠ f → f ≠ D → data m' kt' F → data m' kt' f →
  pspace m' D (Some F) (<[p := f]> pg) →
  (∀ x, 0 ≤ x < 4096 → get8 m' (f * 4096 + x) = code_byte m0 ep size (p * 4096 + x)) →
  image (p + 1) m' kt' (Some F) (<[p := f]> pg).
Proof.
  intros Him Hp Hfree Hfr Hq Hg HW HWs Hn Hle HF HF1 HFD HFf HfD HdF Hdf Hps Hcode.
  assert (∀ G, data m kt G → G ≠ F ∨ o = Some F) as HnF.
  { intros G HG. destruct o as [F0|]; [right; by subst|left; by eapply was_free_data]. }
  destruct Him. constructor.
  - apply Hg.
  - eapply grows_holds; [exact Hg| |done]. destruct im_dir0 as (_ & Hv & _). set_solver.
  - done.
  - split_and!; [done|done|done|lia].
  - intros j Hj. destruct (decide (j = p)) as [->|Hne].
    + exists f. rewrite lookup_insert_eq. split_and!; [done|done|done|congruence|done].
    + destruct (im_pages0 j ltac:(lia)) as (g & Hpg & Hdg & HgD & Hgo & Hgx). exists g.
      rewrite lookup_insert_ne by done. split_and!; [done|by apply Hg|done| |].
      * intros [= <-]. destruct (HnF F Hdg) as [|E]; [done|congruence].
      * intros x Hx. rewrite (gr_same _ _ _ _ _ _ _ Hg g Hdg) by auto. auto.
  - intros j Hj. rewrite lookup_insert_ne by lia. apply im_rest0. lia.
  - assert (∀ j, 0 ≤ j → pg !! j ≠ Some f) as Hnf.
    { intros j Hj Ej. destruct (Z.lt_ge_cases j p); [|by rewrite im_rest0 in Ej].
      destruct (im_pages0 j ltac:(lia)) as (g & Hpg & Hdg & _). assert (g = f) as -> by congruence.
      by apply (was_free_data m kt f f). }
    intros i j g Hi Hj. rewrite !lookup_insert_Some.
    intros [[<- <-]|[? Ei]] [[<- Ej]|[? Ej]]; subst; [done|by destruct (Hnf j)|by destruct (Hnf i)|eauto].
  - intros a Ha. destruct (im_source0 a Ha) as (Hs & E & Hs1 & Hs2 & Hs3).
    destruct (gr_source _ _ _ _ _ _ _ Hg a Hs) as [Hs' E']; [auto|]. split_and!; [done|congruence| |done|].
    + intros [= E1]. destruct o as [F0|]; [congruence|]. by apply (was_free_source m kt F a HF Hs).
    + intros j. rewrite lookup_insert_Some. intros [[_ E1]|[_ E1]]; [|by eapply Hs3].
      by apply (was_free_source m kt f a Hfree Hs).
  - destruct im_kept0 as [Hk1 Hk2]. split.
    + intros r G Hr HG. specialize (Hk1 r G Hr HG). apply Hg; [done| |done]. set_solver.
    + intros G HG. destruct (Hk2 G HG) as (HG1 & HG2 & HG3 & HG4 & HG5). split_and!; [by apply Hg| |done| |].
      * intros x Hx. rewrite (gr_same _ _ _ _ _ _ _ Hg G HG1) by auto. auto.
      * intros [= <-]. destruct (HnF F HG1) as [|E]; [done|congruence].
      * intros j. rewrite lookup_insert_Some. intros [[_ <-]|[_ E]]; [by apply (was_free_data m kt f f)|by eapply HG5].
  - apply Hg. replace (2 * n + 2 * (need (p + 1) + slack))%nat with (2 * (need p + slack))%nat by lia. done.
  - apply Hg. replace (n + (need (p + 1) + slack))%nat with (need p + slack)%nat by lia. done.
  - intros Hc. apply (gr_clean _ _ _ _ _ _ _ Hg). by apply im_clean0.
  - intros j Hj Hb. apply (gr_used _ _ _ _ _ _ _ Hg); [done|]. by apply im_used0.
Qed.

Context (ub : bool) (Hub : u = Z.b2z ub).
Context (Hcode : ∀ a, ep ≤ a < ep + size → source_ok m0 kt0 a).
Context (Hsize : 0 < size) (Hep : 0 ≤ ep) (Hmax : ep + size ≤ 8384512) (Hnum : num_pages ≤ 1024).

Lemma need_step p : 0 ≤ p < num_pages → need p = (S (need (p + 1)) + if (p =? 0)%Z then 1 else 0)%nat.
Proof using. intros Hp. unfold need. destruct (Z.eqb_spec p 0), (Z.eqb_spec (p + 1) 0); lia. Qed.

Lemma kw_copy_code_page p m kt o pg :
  image p m kt o pg → 0 ≤ p < num_pages →
  kw0 (full m) m (copy_code_page (v * 4096) ep size num_pages ub p)
    (λ ok m' R', ok = true ∧ R' = full m' ∧ ∃ kt' F pg', image (p + 1) m' kt' (Some F) pg').
Proof using All.
  intros Him Hp. pose proof (need_step p Hp) as Hneed. pose proof Him as [H Hd Hps Ht Hpg Hrest _ Hsrc Hkept Hlow Hroom _ _].
  unfold copy_code_page. apply kw_cpu. intros t. cbn [kernel_directory].
  eapply kw_new_page; [exact H|eapply low_free_le; [|exact Hlow]; lia|eapply room_le; [|exact Hroom]; lia|].
  intros q f kt1 m1 Hn. pose proof (new_page_free _ _ _ _ _ _ _ _ Hn) as Hfree.
  pose proof (new_page_holds _ _ _ _ _ _ _ _ H Hn) as Hq. pose proof (grows_new_page _ _ _ _ _ _ _ _ H Hn) as G1.
  pose proof (np_vi _ _ _ _ _ _ _ _ _ _ _ _ Hn) as H1. destruct (holds_new_page _ _ _ _ _ _ _ _ v D H Hn Hd) as [Hd1 Hvq].
  destruct (np_lowest _ _ _ _ _ _ _ _ _ _ _ _ Hn) as [(_ & _ & _ & Hqn) _].
  destruct (Z.eqb_spec (q * 4096) 0) as [E0|_]; [destruct Hq; lia|].
  assert (∀ a, ep ≤ a < ep + size → source_ok m1 kt1 a ∧ a / 4096 ≠ f) as Hsrc1.
  { intros a Ha. destruct (Hsrc a (Hcode a Ha)) as (Hs & _). split; [by apply (gr_source _ _ _ _ _ _ _ G1 a Hs); set_solver|by eapply was_free_source]. }
  eapply kw_copy_chunk; [exact H1|exact Hq|exact Hp|done|done|done|done|done|]. intros m2 G2 C2.
  pose proof (grows_trans _ _ _ _ _ _ _ _ _ _ _ _ G1 G2) as G12. cbn [app] in G12.
  apply kw_cpu. intros t'. cbn [kernel_directory].
  eapply kw_physical_of; [apply G2|eapply grows_holds; [exact G2|set_solver|exact Hq]|]. intros m3 G3.
  pose proof (grows_trans _ _ _ _ _ _ _ _ _ _ _ _ G12 G3) as G13. cbn [app Nat.add] in G13.
  assert (∀ x, 0 ≤ x < 4096 → get8 m3 (f * 4096 + x) = code_byte m0 ep size (p * 4096 + x)) as C3.
  { intros x Hx. assert (data m2 kt1 f) as Hf2 by apply G2, Hq. rewrite (gr_same _ _ _ _ _ _ _ G3 f Hf2) by (done || set_solver).
    rewrite C2 by done. unfold code_byte. destruct (Z.ltb_spec (p * 4096 + x) size); [|done].
    destruct (Hsrc (ep + (p * 4096 + x)) (Hcode (ep + (p * 4096 + x)) ltac:(lia))) as (Hs & <- & _). apply (gr_source _ _ _ _ _ _ _ G1 _ Hs). set_solver. }
  assert (f ≠ D) as HfD by (intros ->; by eapply (was_free_data m kt D D); [|apply Hd|]).
  assert (holds m3 kt1 v D) as Hd3 by (eapply grows_holds; [exact G13|set_solver|exact Hd]).
  assert (holds m3 kt1 q f) as Hq3 by (eapply grows_holds; [exact G3|set_solver|]; eapply grows_holds; [exact G2|set_solver|exact Hq]).
  assert (∀ F, o = Some F → F ≠ f) as Hof.
  { intros F ->. eapply was_free_data; [exact Hfree|apply Ht]. }
  assert (pspace m3 D o pg) as Hps3.
  { eapply pspace_grows; [exact G13|apply Hd|set_solver| |exact Hps]. intros F ->. split; [apply Ht|]. specialize (Hof F eq_refl). set_solver. }
  assert (0xC0000000 ⊞ (p ⊠ PAGE_SIZE) = (768 * 1024 + p) * 4096) as ->.
  { unfold PAGE_SIZE. rewrite !u32_small by (try rewrite u32_small; lia). lia. }
  assert (∀ m4 kt4 F n4 W4, grows n4 W4 [] m3 kt1 m4 kt4 → pspace m4 D (Some F) (<[p := f]> pg) → data m4 kt4 F → F < 2047 →
    F ≠ D → F ≠ f → match o with Some F0 => F = F0 | None => was_free m F end → (∀ x, x ∈ W4 → x = F ∨ x = D) →
    (S n4 + need (p + 1) = need p)%nat →
    kw0 (full m4) m4 (c ← gets; vmm_free_page (kernel_directory c) (q * 4096) ;; mret true)
      (λ ok m' R', ok = true ∧ R' = full m' ∧ ∃ kt' F pg', image (p + 1) m' kt' (Some F) pg')) as Htail.
  { intros m4 kt4 F n4 W4 G4 Hps4 HdF HF1 HFD HFf HoF HW4 Hn4. apply kw_cpu. intros t''. cbn [kernel_directory].
    eapply kw_free_page; [apply G4|by destruct Hq|]. intros m5 Hfr. apply kw_ret. split_and!; [done|done|].
    pose proof (grows_freed m4 m5 kt4 q (gr_vi _ _ _ _ _ _ _ G4) (proj1 (proj1 Hq)) Hfr) as G5.
    pose proof (grows_trans _ _ _ _ _ _ _ _ _ _ _ _ G13 (grows_trans _ _ _ _ _ _ _ _ _ _ _ _ G4 G5)) as G15.
    cbn [app] in G15. rewrite Nat.add_0_r, app_nil_r in G15.
    assert (data m4 kt4 f) as Hdf4 by (apply G4, Hq3).
    assert (o ≠ None → o = Some F) as HoF' by (destruct o; [by subst|done]).
    exists kt4, F, (<[p := f]> pg). eapply (image_next p m kt o pg m5 kt4 F f q (1 + n4)); [exact Him|exact Hp|done|apply Hq|done|exact G15|..].
    all: try done; try lia.
    - intros G HG HGD HGo Hin. assert (G ≠ f) as N1 by (by eapply was_free_data).
      assert (G ≠ F) as N2 by (destruct o; [congruence|by eapply was_free_data]). clear -Hin N1 N2 HGD HW4. set_solver.
    - intros a Ha Hao HaD Hin. assert (a / 4096 ≠ f) as N1 by (by eapply was_free_source).
      assert (a / 4096 ≠ F) as N2 by (destruct o; [congruence|by eapply was_free_source]). clear -Hin N1 N2 HaD HW4. set_solver.
    - apply G5, HdF.
    - apply G5, Hdf4.
    - eapply pspace_grows; [exact G5| |set_solver| |exact Hps4]; [apply G4, Hd3|].
      intros F' [= <-]. split; [done|set_solver].
    - intros x Hx. rewrite (gr_same _ _ _ _ _ _ _ G5 f Hdf4) by (done || set_solver).
      rewrite (gr_same _ _ _ _ _ _ _ G4 f) by (done || (apply Hq3) || (intros Hin; destruct (HW4 f Hin); congruence)). auto. }
  destruct o as [F|].
  - destruct Ht as (HdF & HF1 & HFD & Hp0). specialize (Hof F eq_refl).
    eapply kw_map_present; [apply G13|exact Hd3|by apply G13|exact HF1|exact HFD|exact Hps3|lia|destruct Hq as (_ & _ & []); lia|exact Hub|].
    intros m4 G4 Hps4. eapply (Htail m4 kt1 F 0%nat [F]); try done.
    + by apply G4, G13.
    + intros x. set_solver.
    + destruct (Z.eqb_spec p 0); lia.
  - assert (need p = S (S (need (p + 1)))) as Hn2 by (rewrite Hneed, Ht; cbn; lia).
    destruct (ps_768 _ _ _ _ Hps) as [_ Epg].
    eapply kw_map_absent; [apply G13|exact Hd3|by rewrite <- Epg| | |lia|destruct Hq as (_ & _ & []); lia|exact Hub|].
    + apply G13. eapply low_free_le; [|exact Hlow]. lia.
    + apply (room_free_page m3 kt1 0); [apply G13|]. apply (gr_room _ _ _ _ _ _ _ G13). eapply room_le; [|exact Hroom]. lia.
    + intros m4 kt4 F G4 Hps4 HdF HF1 HF0. rewrite <- Epg in Hps4.
      assert (F ≠ D) by (intros ->; by eapply (was_free_data m3 kt1 D D); [|apply Hd3|]).
      assert (F ≠ f) by (intros ->; by eapply (was_free_data m3 kt1 f f); [|apply Hq3|]).
      assert (was_free m F) as HFm.
      { destruct HF0 as [Hr Hb]. split; [done|]. destruct (bit m bm F) eqn:E; [|done].
        by rewrite (gr_used _ _ _ _ _ _ _ G13 F Hr E) in Hb. }
      eapply (Htail m4 kt4 F 1%nat [F; D; F]); try done.
      * intros x. set_solver.
Qed.
End space.

(** ** [vmm_create_virtual_address_space] *)

Section create.
Context {St : Type} `{LM : Lens St mem} `{LC : Lens St Cpu} `{LP : Lens St PmmStatics}.
Context {AC : Apart LM LC} {AP : Apart LM LP} {ACP : Apart LC LP}.
Context (s0 : St) (c0 d t1 t2 : Z).

Abbreviation kw0 := (kw s0 c0 d).
Abbreviation bm := (frame_bitmap (lget s0)).
Abbreviation vi := (vmi d t1 t2 bm).
Abbreviation full := (full d).
Abbreviation holds := (holds s0 d).

(** One assignment of a whole entry through a page. *)
Lemma kw_store_via {B} m kt v D i w (k : unit → M St B) Q :
  vi m kt → holds m kt v D → 0 ≤ i < 1024 →
  (∀ m', same_but m m' (entry (D * 4096) i) 4 → pte m' D i = u32 w → kw0 (full m') m' (k tt) Q) →
  kw0 (full m) m (vstore32 (entry (v * 4096) i) w ≫= k) Q.
Proof.
  intros H (Hv & Hp & HD) Hi Hk. destruct (full_at d m v D Hp ltac:(lia)) as [R1 R2].
  assert (entry (v * 4096) i / 4096 = v ∧ entry (v * 4096) i mod 4096 = 4 * i ∧ entry (v * 4096) i mod 4 = 0) as (E1 & E2 & E3).
  { unfold entry. Z.div_mod_to_equations; lia. }
  eapply kw_bind, (kw_vstore32 _ _ _ _ _ _ _ D); [unfold entry; lia|done|rewrite E1; done|].
  rewrite E2. change (D * 4096 + 4 * i) with (entry (D * 4096) i).
  pose proof (same_but_st32 m (entry (D * 4096) i) w) as Hs.
  eapply kw_weaken; [apply Hk; [exact Hs|unfold pte; by rewrite ld32_st32]|]. apply full_same.
  eapply (data_write s0 d t1 t2 m _ kt D); [exact H|exact HD|..|exact Hs]; unfold entry; lia.
Qed.

(** A copy of a directory entry of the kernel. *)
Definition kernel_entry (w t : Z) : Prop := present w = 1 ∧ user w = 0 ∧ frame_addr w = t.

(** The copy of the first two entries of the kernel's directory into a
    cleared one. *)
Lemma kw_copy_entries {B} m kt v D (k : unit → M St B) Q :
  vi m kt → holds m kt v D → (∀ i, 0 ≤ i < 1024 → pte m D i = 0) →
  (∀ m', but_frame m m' D → (∀ u, pspace (pde d m 0) (pde d m 1) u m' D None ∅) → kw0 (full m') m' (k tt) Q) →
  kw0 (full m) m (mfor 0 2 (λ i, c ← gets; e ← vload32 (entry (kernel_directory c) i); vstore32 (entry (v * 4096) i) e) ≫= k) Q.
Proof.
  intros H Hh Hz Hk. eapply kw_seq with (P := λ _ m' R', R' = full m' ∧ but_frame m m' D ∧
    (∀ j, 0 ≤ j < 2 → pte m' D j = pde d m j) ∧ (∀ j, 2 ≤ j < 1024 → pte m' D j = 0)).
  2: { intros [] m' R' (-> & G & H2 & Hr). apply Hk; [done|]. intros u. constructor; [by apply H2|by apply H2|intros; by apply Hr|].
       split; [by apply Hr|done]. }
  apply (kw_mfor _ _ _ (λ i m' R', R' = full m' ∧ but_frame m m' D ∧
    (∀ j, 0 ≤ j < i → pte m' D j = pde d m j) ∧ (∀ j, i ≤ j < 1024 → pte m' D j = 0))); [lia| | |].
  - intros i m1 R1 Hi (-> & S1 & H1 & Hr1). apply kw_cpu. intros t. cbn [kernel_directory].
    pose proof (grows_write s0 d t1 t2 m m1 kt D (D * 4096) 4096 H (proj2 (proj2 Hh)) ltac:(lia) ltac:(lia) S1) as G1.
    pose proof (vi_ks _ _ _ _ _ _ (gr_vi _ _ _ _ _ _ _ _ _ _ _ G1)) as K1.
    assert (pde d m1 i = pde d m i) as Hpd.
    { destruct (off_tables_same d m m1 kt (D * 4096) 4096) as [Hpd _]; [|exact S1|apply Hpd; lia].
      eapply (data_off s0 d t1 t2 m); [apply H|apply Hh|lia|lia]. }
    eapply kw_bind, kw_load_ident; [by eapply ks_core|by eapply Rk_full, ks_core|eapply dir_word; [done|lia]|].
    fold (pde d m1 i). rewrite Hpd. assert (holds m1 kt v D) as Hh1 by (eapply grows_holds; [exact G1|set_solver|exact Hh]).
    apply kw_bind_ret. eapply kw_store_via; [apply G1|exact Hh1|lia|]. intros m2 S2 E2. apply kw_ret.
    assert (∀ j, 0 ≤ j < 1024 → j ≠ i → pte m2 D j = pte m1 D j) as Hother.
    { intros j Hj Hne. unfold pte. apply (same_but_ld32 _ _ _ _ _ S2). unfold entry. lia. }
    split_and!; [done| | |].
    + intros x Hx. rewrite S2 by (unfold entry; lia). by apply S1.
    + intros j Hj. destruct (decide (j = i)) as [->|]; [rewrite E2; unfold pde; apply u32_ld32|]. rewrite Hother by lia. apply H1. lia.
    + intros j Hj. rewrite Hother by lia. apply Hr1. lia.
  - split_and!; [done|by intros ??|lia|done].
  - intros m' R' (-> & G & H2 & Hr). done.
Qed.

(** The page [v] made into the directory of a process: cleared, then the
    first two entries of the kernel's. *)
Lemma kw_fill_directory {B} m kt v D (k : unit → M St B) Q :
  vi m kt → holds m kt v D →
  (∀ m' w0 w1, but_frame m m' D → kernel_entry w0 t1 → kernel_entry w1 t2 → (∀ u, pspace w0 w1 u m' D None ∅) → kw0 (full m') m' (k tt) Q) →
  kw0 (full m) m (vkmemset (v * 4096) 0 4096 ;;
    mfor 0 2 (λ i, c ← gets; e ← vload32 (entry (kernel_directory c) i); vstore32 (entry (v * 4096) i) e) ≫= k) Q.
Proof.
  intros H Hv Hk. eapply kw_fill; [exact H|exact Hv|lia|]. intros m2 S2 Z2.
  pose proof (grows_write s0 d t1 t2 m m2 kt D (D * 4096) 4096 H (proj2 (proj2 Hv)) ltac:(lia) ltac:(lia) S2) as G2.
  pose proof (vi_ks _ _ _ _ _ _ (gr_vi _ _ _ _ _ _ _ _ _ _ _ G2)) as K2. pose proof (ks_core _ _ _ _ _ K2) as Hc.
  destruct (ks_super _ _ _ _ _ K2). destruct (kc_0 _ _ _ _ Hc), (kc_1 _ _ _ _ Hc).
  eapply kw_copy_entries; [apply G2|eapply grows_holds; [exact G2|set_solver|exact Hv]| |].
  { intros i Hi. apply pte_zero; [|done]. intros x Hx. rewrite Z2 by done. by destruct (Z.ltb_spec x 4096); [|lia]. }
  intros m3 S3 Hps. apply (Hk _ (pde d m2 0) (pde d m2 1)); [|by split_and!..|exact Hps]. intros x Hx. rewrite S3 by done. by apply S2.
Qed.

(** The program may be loaded: its bytes are where the kernel can read them
    and what it writes is elsewhere, and there is enough memory, [slack]
    pages and their tables left over. *)
Record loadable (slack : nat) (m : mem) (kt : gmap Z Z) (ep size : Z) : Prop := {
  ld_size : 0 < size ∧ 0 ≤ ep ∧ ep + size ≤ 8384512;
  ld_pages : num_pages size ≤ 1024;
  ld_source : ∀ a, ep ≤ a < ep + size → source_ok s0 d m kt a;
  ld_low : low_free s0 m (2 * S (need size 0 + slack));
  ld_room : room kt (S (need size 0 + slack))
}.

Lemma kw_create slack m kt ep size ub :
  vi m kt → loadable slack m kt ep size →
  kw0 (full m) m (vmm_create_virtual_address_space ep size ub) (λ r m' R', R' = full m' ∧
    ∃ v D kt' F pg w0 w1, r = v * 4096 ∧ kernel_entry w0 t1 ∧ kernel_entry w1 t2 ∧ was_free s0 m D ∧
      image s0 d t1 t2 w0 w1 (Z.b2z ub) m kt ep size v D slack (num_pages size) m' kt' (Some F) pg).
Proof.
  intros H [(Hsz & Hep & Hmax) Hnp Hsrc Hlow Hroom]. unfold vmm_create_virtual_address_space. apply kw_cpu. intros t. cbn [kernel_directory].
  eapply kw_new_page; [exact H|eapply low_free_le; [|exact Hlow]; lia|eapply room_le; [|exact Hroom]; lia|].
  intros v D kt1 m1 Hn. pose proof (new_page_free _ _ _ _ _ _ _ _ _ _ _ _ Hn) as Hfree.
  pose proof (new_page_holds _ _ _ _ _ _ _ _ _ _ _ _ H Hn) as Hv. pose proof (grows_new_page _ _ _ _ _ _ _ _ _ _ _ _ H Hn) as G1.
  destruct (Z.eqb_spec (v * 4096) 0) as [E0|_]; [destruct Hv; lia|].
  eapply kw_fill_directory; [apply G1|exact Hv|]. intros m3 w0 w1 S3 K0 K1 Hps.
  pose proof (grows_write s0 d t1 t2 m1 m3 kt1 D (D * 4096) 4096 (gr_vi _ _ _ _ _ _ _ _ _ _ _ G1) (proj2 (proj2 Hv)) ltac:(lia) ltac:(lia) S3) as G3.
  pose proof (grows_trans _ _ _ _ _ _ _ _ _ _ _ _ _ _ _ _ G1 G3) as G13. cbn [app Nat.add] in G13.
  unfold PAGE_SIZE. rewrite (u32_small (size + 4096 - 1)) by lia. replace (size + 4096 - 1) with (size + 4095) by lia.
  fold (num_pages size). assert (0 < num_pages size) as Hnpos by (unfold num_pages; Z.div_mod_to_equations; lia).
  eapply kw_mono; [eapply kw_ploop with (I := λ p m' R', R' = full m' ∧ 0 ≤ p ≤ num_pages size ∧
      ∃ kt' o pg, image s0 d t1 t2 w0 w1 (Z.b2z ub) m kt ep size v D slack p m' kt' o pg) (μ := λ p, Z.to_nat (num_pages size - p))
      (Q := λ r m' R', r = v * 4096 ∧ R' = full m' ∧ ∃ kt' F pg,
        image s0 d t1 t2 w0 w1 (Z.b2z ub) m kt ep size v D slack (num_pages size) m' kt' (Some F) pg)| ].
  - intros p m' R' (-> & Hp & kt' & o & pg & Him). destruct (Z.ltb_spec p (num_pages size)).
    + apply kw_bind. eapply kw_mono; [eapply kw_copy_code_page; [done|exact Hsrc|done|done|done|done|exact Him|lia]|].
      intros ok m'' R'' (-> & -> & kt'' & F & pg' & Him'). apply kw_ret. split; [|lia]. split_and!; [done|lia|lia|eauto].
    + assert (p = num_pages size) as -> by lia. apply kw_ret. split_and!; [done|done|].
      pose proof (im_table _ _ _ _ _ _ _ _ _ _ _ _ _ _ _ _ _ _ _ Him) as Ht. destruct o as [F|]; [eauto|lia].
  - split_and!; [done|lia|lia|]. exists kt1, None, ∅.
    assert (∀ x, x ∉ [D] ↔ x ≠ D) as Hin by (intros; set_solver). constructor.
    + apply G13.
    + eapply grows_holds; [exact G3|set_solver|done].
    + apply Hps.
    + done.
    + lia.
    + intros. apply lookup_empty.
    + intros i j f _ _ E. by rewrite lookup_empty in E.
    + intros a Hs. pose proof (was_free_source _ _ _ _ _ _ Hfree Hs) as HaD.
      destruct (gr_source _ _ _ _ _ _ _ _ _ _ _ G13 a Hs) as [? ?]; [by apply Hin|]. split_and!; [done|done|done|done|by intros; rewrite lookup_empty].
    + split; [intros q G Hq; apply (gr_pages _ _ _ _ _ _ _ _ _ _ _ G13); [done|set_solver]|].
      intros G HG. pose proof (was_free_data _ _ _ _ _ _ Hfree HG) as HGD.
      split_and!; [by apply (gr_data _ _ _ _ _ _ _ _ _ _ _ G13)| |done|done|by intros; rewrite lookup_empty].
      apply (gr_same _ _ _ _ _ _ _ _ _ _ _ G13); [done|by apply Hin].
    + apply (gr_low _ _ _ _ _ _ _ _ _ _ _ G13). eapply low_free_le; [|exact Hlow]. lia.
    + apply (gr_room _ _ _ _ _ _ _ _ _ _ _ G13). eapply room_le; [|exact Hroom]. lia.
    + apply G13.
    + apply G13.
  - unfold PMM_FUEL. lia.
  - intros r m' R' (-> & -> & kt' & F & pg & Him). split; [done|]. exists v, D, kt', F, pg, w0, w1. done.
Qed.
End create.
