(* ===== verification/VmmState.v ===== *)
(** * VmmState: the virtual memory manager on whole machine states

    The state in which the kernel calls the operations of vmm.c, how the boot
    code reaches it, and what each operation does to it: the results of
    VmmSpec.v and AddrSpace.v, on states instead of memories and cached
    translations. *)

From S2P Require Import Prelude Memory Bitmap Pmm Isr Paging Mmu Vmm VmmSpec AddrSpace.

Section state.
Context {St : Type} `{LM : Lens St mem} `{LC : Lens St Cpu} `{LP : Lens St PmmStatics}.
Context {AC : Apart LM LC} {AP : Apart LM LP} {ACP : Apart LC LP}.
Context (d t1 t2 : Z).

(** The processor uses the kernel's directory, what it has cached is what the
    tables say, and tables and allocator are in order. *)
Record vmm_ok (s : St) (kt : gmap Z Z) : Prop := {
  vo_cr3 : cr3 (lget s) = d;
  vo_dir : kernel_directory (lget s) = d;
  vo_tlb : ∀ p f, tlb (lget s) !! p = Some f → 0 ≤ p < 1048576 ∧ page_frame (lget s) d p = Some f;
  vo_vi : vmi d t1 t2 (frame_bitmap (lget s)) (lget s) kt
}.

(** [s'] is [s] but for memory and the cached translations. *)
Definition mem_tlb (s s' : St) : Prop :=
  ∃ (m' : mem) t', s' = lput m' (lput (mkCpu (cr0 (lget s)) (cr3 (lget s)) t' (kernel_directory (lget s))) s).

Lemma mem_tlb_pmm s s' : mem_tlb s s' → lget (T:=PmmStatics) s' = lget s.
Proof. intros (m' & t' & ->). by rewrite !lget_other'. Qed.

(** A triple of the calculus, as a run from such a state. *)
Lemma kw_state {B} s kt (op : M St B) (Q : B → mem → Prop) :
  vmm_ok s kt → kw s (cr0 (lget s)) d (full d (lget s)) (lget s) op (λ b m' R', Q b m' ∧ R' = full d m') →
  ∃ b s', op s = Ok b s' ∧ Q b (lget s') ∧ mem_tlb s s' ∧
    ∀ kt', vmi d t1 t2 (frame_bitmap (lget s)) (lget s') kt' → vmm_ok s' kt'.
Proof.
  intros [E3 Ed Ht Hvi] Hop.
  destruct (Hop (tlb (lget s))) as (b & m' & t' & R' & Hr & Hc & HQ & ->); [exact Ht|].
  assert (kput s (cr0 (lget s)) d (lget s) (tlb (lget s)) = s) as Es.
  { assert (mkCpu (cr0 (lget s)) d (tlb (lget s)) d = lget s) as E by (destruct (lget (T:=Cpu) s); cbn in *; by subst).
    unfold kput. by rewrite E, !lput_lget. }
  rewrite Es in Hr. eexists b, _. split; [exact Hr|]. rewrite kput_mem. split; [done|]. split.
  { exists m', t'. unfold kput. by rewrite E3, Ed. }
  intros kt' Hvi'. constructor; try by rewrite kput_cpu.
  - rewrite kput_cpu, kput_mem. exact Hc.
  - by rewrite kput_mem, (kput_pmm s (cr0 (lget s)) d m' t').
Qed.
(** ** One operation *)

Lemma new_page_run s kt wb ub : vmm_ok s kt → two_low s (lget s) →
  ∃ r s', vmm_get_new_page d wb ub NULL s = Ok r s' ∧ mem_tlb s s' ∧
    ((∃ p f kt', r = p * 4096 ∧ vmm_ok s' kt' ∧ new_page s d t1 t2 (lget s) (lget s') kt kt' p f (Z.b2z wb) (Z.b2z ub)) ∨
     (r = NULL ∧ vmm_ok s' kt ∧ no_page s d (lget s) (lget s') kt)).
Proof.
  intros H Hlow. pose proof (vo_vi _ _ H) as Hvi.
  destruct (kw_state s kt (vmm_get_new_page d wb ub NULL) (λ r m',
    (∃ p f kt', r = p * 4096 ∧ new_page s d t1 t2 (lget s) m' kt kt' p f (Z.b2z wb) (Z.b2z ub)) ∨
    (r = NULL ∧ no_page s d (lget s) m' kt)) H) as (r & s' & Hr & HQ & Hm & Hok).
  { eapply kw_get_new_page; [done|done|eauto 10|auto]. }
  exists r, s'. split_and!; [done|done|]. destruct HQ as [(p & f & kt' & -> & Hn)|(-> & Hn)]; [left|right].
  - exists p, f, kt'. split_and!; [done| |done]. apply Hok, Hn.
  - split_and!; [done| |done]. apply Hok. destruct Hn as [(-> & _)|(p & f & Ha & _)]; [done|].
    by eapply allocated_vmi.
Qed.

Lemma free_page_run s kt p : vmm_ok s kt → 2048 ≤ p < 1048576 →
  ∃ s', vmm_free_page d (p * 4096) s = Ok tt s' ∧ mem_tlb s s' ∧ vmm_ok s' kt ∧ page_freed s d t1 t2 (lget s) (lget s') kt p.
Proof.
  intros H Hp. destruct (kw_state s kt (vmm_free_page d (p * 4096)) (λ _ m', page_freed s d t1 t2 (lget s) m' kt p) H)
    as ([] & s' & Hr & HQ & Hm & Hok).
  { apply kw_bind_ret. eapply kw_free_page; [apply H|done|]. intros m' Hf. by apply kw_ret. }
  exists s'. split_and!; [done|done| |done]. apply Hok, HQ.
Qed.

Lemma get_physical_run s kt p f : vmm_ok s kt → 2048 ≤ p < 1048576 → page_frame (lget s) d p = Some f →
  ∃ s', vmm_get_physical_address d (p * 4096) s = Ok (f * 4096) s' ∧ mem_tlb s s' ∧ vmm_ok s' kt ∧
    window_moved d t1 t2 (lget s) (lget s') kt None.
Proof.
  intros H Hp Hf. pose proof (vo_vi _ _ H) as Hvi. rewrite (ks_page _ _ _ _ _ _ (vi_ks _ _ _ _ _ _ Hvi)) in Hf by lia.
  destruct (kt !! (p / 1024)) as [T|] eqn:HT; [|done]. cbn in Hf. unfold slot in Hf.
  destruct (present (pte (lget s) T (p mod 1024)) =? 0); [done|]. injection Hf as Hf.
  destruct (kw_state s kt (vmm_get_physical_address d (p * 4096)) (λ r m', r = f * 4096 ∧ window_moved d t1 t2 (lget s) m' kt None) H)
    as (r & s' & Hr & (-> & Hw) & Hm & Hok).
  { apply kw_bind_ret. eapply kw_get_physical; [done|lia|Z.div_mod_to_equations; lia|exact HT|]. intros m' Hw. rewrite Hf. by apply kw_ret. }
  exists s'. split_and!; [done|done| |done]. by eapply Hok, window_moved_vi.
Qed.
(** ** New pages *)

Lemma low_two s n : low_free s (lget s) (S (S n)) → two_low s (lget s).
Proof.
  intros H f m1 Ha g m2 Hg. assert (low_free s (lget s) 2) as H2 by (eapply low_free_le; [|exact H]; lia).
  destruct (allocated_low _ _ _ _ _ Ha H2) as [_ H1]. by destruct (allocated_low _ _ _ _ _ Hg H1).
Qed.

Lemma used_bit s s' j : mem_tlb s s' → frame_used s' j = bit (lget s') (frame_bitmap (lget s)) j.
Proof. intros H. unfold frame_used. by rewrite (mem_tlb_pmm _ _ H). Qed.

Lemma new_page_succeeds s kt wb ub : vmm_ok s kt → low_free s (lget s) 2 → (∃ p, free_page d (lget s) p) →
  ∃ p f kt' s', vmm_get_new_page d wb ub NULL s = Ok (p * 4096) s' ∧ mem_tlb s s' ∧ vmm_ok s' kt' ∧
    new_page s d t1 t2 (lget s) (lget s') kt kt' p f (Z.b2z wb) (Z.b2z ub).
Proof.
  intros H Hlow [p0 Hp0]. destruct (new_page_run s kt wb ub H (low_two _ _ Hlow)) as (r & s' & Hr & Hm & [(p & f & kt' & -> & Hok & Hn)|(_ & _ & Hn)]).
  - by exists p, f, kt', s'.
  - exfalso. destruct (low_free_one _ _ _ Hlow) as (g & Hg & Hgt & Hgb). destruct Hn as [(_ & [Hn|Hn])|(p & f & Ha & _ & _ & Hn)].
    + by apply (Hn p0).
    + by rewrite Hn in Hgb by lia.
    + destruct (allocated_low _ _ _ _ _ Ha Hlow) as [_ Hl1]. destruct (low_free_one _ _ _ Hl1) as (g' & ? & ? & Hb).
      by rewrite Hn in Hb by lia.
Qed.

(** What memory holds depends on the state's allocator only through its
    bitmap, which no operation moves. *)
Lemma low_free_pmm s s' m n : mem_tlb s s' → low_free s m n → low_free s' m n.
Proof. intros H. unfold low_free. by rewrite (mem_tlb_pmm _ _ H). Qed.

Lemma mem_tlb_trans s1 s2 s3 : mem_tlb s1 s2 → mem_tlb s2 s3 → mem_tlb s1 s3.
Proof.
  intros (m & t & ->) (m' & t' & ->). exists m', t'. rewrite lget_other', lget_lput. cbn [cr0 cr3 kernel_directory].
  by rewrite <- (lput_comm (L:=LM) (K:=LC)), !lput_lput.
Qed.

Lemma free_page_same m m' q : (2048 ≤ q < 1048576 → page_frame m' d q = page_frame m d q) → free_page d m q ↔ free_page d m' q.
Proof. intros E. unfold free_page. split; intros (Hq & ? & ? & ?); (split_and!; [lia..|done|done|]); rewrite ?E in *; done. Qed.

(** The frames a new page takes: its own, and one for a table when its 4 MB
    had none. *)
Lemma new_page_table s s' kt kt' p f w u : vmm_ok s' kt' → mem_tlb s s' → new_page s d t1 t2 (lget s) (lget s') kt kt' p f w u →
  ∃ g, match kt !! (p / 1024) with
       | Some _ => g = f ∧ kt' = kt
       | None => managed s g ∧ g ≠ f ∧ frame_used s g = false ∧ frame_used s' g = true ∧ kt' = <[p / 1024 := g]> kt
       end ∧ ∀ j, managed s j → j ≠ f → j ≠ g → frame_used s' j = frame_used s j.
Proof.
  intros Hok Hm Hn. destruct (np_taken _ _ _ _ _ _ _ _ _ _ _ _ Hn) as (g' & Hg' & Ht).
  destruct (np_entry _ _ _ _ _ _ _ _ _ _ _ _ Hn) as (T & HT & _). destruct (np_apart _ _ _ _ _ _ _ _ _ _ _ _ Hn) as (_ & Hfk & _).
  destruct (np_tables _ _ _ _ _ _ _ _ _ _ _ _ Hn) as [->|(Hno & g & Hg & Hgb & ->)].
  - exists f. rewrite HT. split; [done|]. intros j Hj Hne _. rewrite (used_bit _ _ j Hm). rewrite (Hg' eq_refl) in Ht. by apply Ht.
  - rewrite Hno. assert (g ≠ f) as Hgf by (intros ->; apply (Hfk (p / 1024)); by rewrite lookup_insert_eq).
    assert (bit (lget s') (frame_bitmap (lget s)) g = true) as Hu.
    { destruct (bit (lget s') (frame_bitmap (lget s)) g) eqn:E; [done|].
      destruct (vi_free _ _ _ _ _ _ (np_vi _ _ _ _ _ _ _ _ _ _ _ _ Hn) g Hg E) as (_ & _ & Hx & _). by destruct (Hx (p / 1024)); rewrite lookup_insert_eq. }
    assert (g' = g) as -> by (destruct (decide (g' = g)); [done|rewrite Ht in Hu by congruence; congruence]).
    exists g. split; [split_and!; try done; by rewrite (used_bit _ _ g Hm)|].
    intros j Hj Hne Hne'. rewrite (used_bit _ _ j Hm). by apply Ht.
Qed.

(** C18: with a free page and two free frames below 0x7FF000,
    [vmm_get_new_page] on the kernel's directory maps the lowest free page to
    the lowest free frame with the rights asked for, and leaves tables, cache
    and allocator in order. One frame more is taken, [g], when the page's 4 MB
    had no table; no other frame changes status. The window's page is not
    mapped afterwards, every other page is as before, and so is every byte
    outside the bitmap, the directory and the tables. *)
Theorem vmm_get_new_page_maps s kt wb ub :
  vmm_ok s kt → low_free s (lget s) 2 → (∃ p, free_page d (lget s) p) →
  ∃ p f kt' s', vmm_get_new_page d wb ub NULL s = Ok (p * 4096) s' ∧ vmm_ok s' kt' ∧
    free_page d (lget s) p ∧ (∀ q, q < p → ¬ free_page d (lget s) q) ∧
    frame_used s f = false ∧ (∀ g, 0 ≤ g < f → frame_used s g = true) ∧ frame_used s' f = true ∧
    (∀ j, managed s j → frame_used s j = true → frame_used s' j = true) ∧
    page_frame (lget s') d p = Some f ∧
    (∃ T, kt' !! (p / 1024) = Some T ∧ entry_is (pte (lget s') T (p mod 1024)) 1 (Z.b2z wb) (Z.b2z ub) f) ∧
    (∃ g, match kt !! (p / 1024) with
          | Some _ => g = f ∧ kt' = kt
          | None => managed s g ∧ g ≠ f ∧ frame_used s g = false ∧ frame_used s' g = true ∧ kt' = <[p / 1024 := g]> kt
          end ∧ ∀ j, managed s j → j ≠ f → j ≠ g → frame_used s' j = frame_used s j) ∧
    page_frame (lget s') d 2047 = None ∧
    (∀ q, 0 ≤ q < 1048576 → q ≠ p → q ≠ 2047 → page_frame (lget s') d q = page_frame (lget s) d q) ∧
    (∀ x, off_bitmap (frame_bitmap (lget s)) x 1 → off_tables d kt' x 1 → get8 (lget s') x = get8 (lget s) x).
Proof.
  intros H Hlow Hp. destruct (new_page_succeeds s kt wb ub H Hlow Hp) as (p & f & kt' & s' & Hr & Hm & Hok & Hn).
  exists p, f, kt', s'. rewrite (used_bit _ _ f Hm). pose proof (new_page_table s s' kt kt' p f _ _ Hok Hm Hn) as Ht.
  destruct Hn as [_ _ [??] (? & ? & ?) _ ? Hb _ ? ? ? ? ?]. split_and!; try done.
  intros j Hj Hu. rewrite (used_bit _ _ j Hm). by apply Hb.
Qed.

(** When the lowest free page needs a new table and only one frame is
    left, [vmm_get_new_page] takes that frame for the page, finds none for
    the table, and returns NULL without giving it back: no page has changed
    and no frame is free any more. *)
Theorem vmm_get_new_page_leaks s kt wb ub p f :
  vmm_ok s kt → free_page d (lget s) p → (∀ q, q < p → ¬ free_page d (lget s) q) → kt !! (p / 1024) = None →
  managed s f → frame_used s f = false → (∀ g, managed s g → g ≠ f → frame_used s g = true) →
  ∃ s', vmm_get_new_page d wb ub NULL s = Ok NULL s' ∧ vmm_ok s' kt ∧
    (∀ g, managed s g → frame_used s' g = true) ∧
    (∀ q, 0 ≤ q < 1048576 → page_frame (lget s') d q = page_frame (lget s) d q).
Proof.
  intros H Hp Hbelow Hkt Hf Hff Hall.
  assert (∀ g m', allocated (frame_bitmap (lget s)) (lget s) m' g → g = f) as Honly.
  { intros g m' (Hg & Hgb & _). destruct (decide (g = f)); [done|]. unfold frame_used, managed in *. by rewrite Hall in Hgb. }
  assert (two_low s (lget s)) as Htwo.
  { intros g m' Ha g' m'' (Hg' & Hgb' & _). rewrite (Honly _ _ Ha) in Ha. destruct Ha as (_ & _ & _ & Hb & _).
    rewrite Hb in Hgb' by lia. destruct (Z.eqb_spec f g'); [done|]. unfold frame_used, managed in Hall. by rewrite Hall in Hgb'. }
  destruct (new_page_run s kt wb ub H Htwo) as (r & s' & Hr & Hm & [(q & g & kt' & -> & _ & Hn)|(-> & Hok & Hn)]).
  - exfalso. destruct (np_lowest _ _ _ _ _ _ _ _ _ _ _ _ Hn) as [Hq Hqb].
    assert (q = p) as -> by (destruct (Z.lt_trichotomy q p) as [?|[?|?]]; [by exfalso; eapply Hbelow|done|by exfalso; eapply Hqb]).
    destruct (np_fresh _ _ _ _ _ _ _ _ _ _ _ _ Hn) as (Hg & Hgb & _). destruct (np_apart _ _ _ _ _ _ _ _ _ _ _ _ Hn) as (_ & Hgt & _).
    destruct (np_entry _ _ _ _ _ _ _ _ _ _ _ _ Hn) as (T & HT & _).
    destruct (np_tables _ _ _ _ _ _ _ _ _ _ _ _ Hn) as [->|(_ & g' & Hg' & Hgb' & ->)]; [congruence|].
    assert (∀ j, 0 ≤ j < total_bits (frame_bitmap (lget s)) → bit (lget s) (frame_bitmap (lget s)) j = false → j = f) as Hu.
    { intros j Hj Hjb. destruct (decide (j = f)); [done|]. unfold frame_used, managed in Hall. by rewrite Hall in Hjb. }
    apply (Hgt (p / 1024)). rewrite lookup_insert_eq. f_equal. rewrite (Hu g' Hg' Hgb'). symmetry. apply Hu; [lia|done].
  - exists s'. pose proof (vo_vi _ _ H) as Hvi. split_and!; [done|done| |].
    + intros g Hg. rewrite (used_bit _ _ g Hm). destruct Hn as [(_ & [Hn|Hn])|(q & g' & _ & _ & _ & Hn)]; [by exfalso; apply (Hn p)| |by apply Hn].
      exfalso. unfold frame_used, managed in *. by rewrite Hn in Hff.
    + intros q Hq. destruct Hn as [(-> & _)|(q' & g' & Ha & _)]; [done|]. destruct (allocated_vmi _ _ _ _ _ _ _ _ Hvi Ha) as [H1 Hst].
      eapply same_tables_page; [apply Hvi|apply H1|done|done].
Qed.

(** ** Dropping a page and reading a translation *)

(** C31: [vmm_free_page] removes the page's translation, from the tables and
    from the processor's cache, and no other. The frames in use stay as they
    were: the page's frame is not given back to the allocator. *)
Theorem vmm_free_page_unmaps s kt p :
  vmm_ok s kt → 2048 ≤ p < 1048576 →
  ∃ s', vmm_free_page d (p * 4096) s = Ok tt s' ∧ vmm_ok s' kt ∧
    page_frame (lget s') d p = None ∧ tlb (lget s') !! p = None ∧
    (∀ q, 0 ≤ q < 1048576 → q ≠ p → page_frame (lget s') d q = page_frame (lget s) d q) ∧
    (∀ j, managed s j → frame_used s' j = frame_used s j).
Proof.
  intros H Hp. destruct (free_page_run s kt p H Hp) as (s' & Hr & Hm & Hok & Hf). exists s'.
  split_and!; [done|done|apply Hf| |apply Hf|].
  - destruct (tlb (lget s') !! p) as [f|] eqn:E; [|done]. apply (vo_tlb _ _ Hok) in E as [_ E].
    by rewrite (pf_page _ _ _ _ _ _ _ _ Hf) in E.
  - intros j Hj. rewrite (used_bit _ _ j Hm). by apply Hf.
Qed.

(** C29: the page [vmm_get_new_page] returned, given to
    [vmm_get_physical_address], leads back to the frame that was free; given
    to [vmm_free_page] it is free again, and the next [vmm_get_new_page]
    returns the same page with another frame. *)
Theorem vmm_page_roundtrip s kt wb ub :
  vmm_ok s kt → low_free s (lget s) 4 → (∃ p, free_page d (lget s) p) →
  ∃ p f g s1 s2 s3 s4, vmm_get_new_page d wb ub NULL s = Ok (p * 4096) s1 ∧ frame_used s f = false ∧
    vmm_get_physical_address d (p * 4096) s1 = Ok (f * 4096) s2 ∧
    vmm_free_page d (p * 4096) s2 = Ok tt s3 ∧
    vmm_get_new_page d wb ub NULL s3 = Ok (p * 4096) s4 ∧ page_frame (lget s4) d p = Some g ∧ g ≠ f.
Proof.
  intros H Hlow Hp. assert (low_free s (lget s) 2) as Hlow2 by (eapply low_free_le; [|exact Hlow]; lia).
  destruct (new_page_succeeds s kt wb ub H Hlow2 Hp) as (p & f & kt' & s1 & R1 & M1 & H1 & N1).
  destruct (np_lowest _ _ _ _ _ _ _ _ _ _ _ _ N1) as [Hfree Hbelow]. assert (2048 ≤ p < 1048576) as Hpr by (by destruct Hfree).
  destruct (get_physical_run s1 kt' p f H1 Hpr) as (s2 & R2 & M2 & H2 & W2); [apply N1|].
  destruct (free_page_run s2 kt' p H2 Hpr) as (s3 & R3 & M3 & H3 & F3).
  pose proof (grows_new_page _ _ _ _ _ _ _ _ _ _ _ _ (vo_vi _ _ H) N1) as G1.
  pose proof (grows_window s1 d t1 t2 _ _ kt' None (vo_vi _ _ H1) W2) as G2.
  pose proof (grows_freed s2 d t1 t2 _ _ kt' p (vo_vi _ _ H2) (proj1 Hpr) F3) as G3.
  assert (low_free s3 (lget s3) 2) as Hlow3.
  { eapply (low_free_pmm s2); [done|]. apply (gr_low _ _ _ _ _ _ _ _ _ _ _ G3). eapply (low_free_pmm s1); [done|].
    apply (gr_low _ _ _ _ _ _ _ _ _ _ _ G2). eapply (low_free_pmm s); [done|]. by apply (gr_low _ _ _ _ _ _ _ _ _ _ _ G1). }
  assert (∀ q, 2048 ≤ q < 1048576 → q ≠ p → page_frame (lget s3) d q = page_frame (lget s) d q) as Hsame.
  { intros q Hq Hne. rewrite (pf_others _ _ _ _ _ _ _ _ F3) by lia. destruct W2 as (_ & _ & _ & O2).
    by rewrite O2, (np_others _ _ _ _ _ _ _ _ _ _ _ _ N1) by lia. }
  assert (free_page d (lget s3) p) as Hfree3.
  { destruct Hfree as (? & ? & ? & _). split_and!; [lia..|done|done|apply F3]. }
  destruct (new_page_succeeds s3 kt' wb ub H3 Hlow3 (ex_intro _ p Hfree3)) as (p' & g & kt2 & s4 & R4 & M4 & H4 & N4).
  destruct (np_lowest _ _ _ _ _ _ _ _ _ _ _ _ N4) as [Hfree4 Hbelow4].
  assert (p' = p) as ->.
  { destruct (Z.lt_trichotomy p' p) as [Hlt|[?|Hlt]]; [|done|by exfalso; eapply Hbelow4].
    exfalso. apply (Hbelow p' Hlt). eapply free_page_same; [|exact Hfree4]. intros Hq. apply Hsame; [done|lia]. }
  destruct (np_fresh _ _ _ _ _ _ _ _ _ _ _ _ N1) as (Hf & Hff & _).
  exists p, f, g, s1, s2, s3, s4. split_and!; try done; [apply N4|].
  intros ->. destruct (np_fresh _ _ _ _ _ _ _ _ _ _ _ _ N4) as (_ & Hg & _).
  assert (bit (lget s3) (frame_bitmap (lget s)) f = true) as Hu; [|by rewrite (mem_tlb_pmm s s3), Hu in Hg by (do 2 (eapply mem_tlb_trans; [done|]); done)].
  pose proof (mem_tlb_trans _ _ _ M1 M2) as M12. rewrite <- (mem_tlb_pmm _ _ M12).
  assert (0 ≤ f < total_bits (frame_bitmap (lget s))) as Hfr by lia.
  apply (gr_used _ _ _ _ _ _ _ _ _ _ _ G3); [by rewrite (mem_tlb_pmm _ _ M12)|]. rewrite (mem_tlb_pmm _ _ M12), <- (mem_tlb_pmm _ _ M1).
  apply (gr_used _ _ _ _ _ _ _ _ _ _ _ G2); [by rewrite (mem_tlb_pmm _ _ M1)|]. rewrite (mem_tlb_pmm _ _ M1). apply N1.
Qed.
(** ** Sequences of operations *)

(** A kernel byte write through a page the manager gave out. *)
Lemma kernel_write_run s kt v F x b : vmm_ok s kt → holds s d (lget s) kt v F → 0 ≤ x < 4096 →
  ∃ s', vstore8 (v * 4096 + x) b s = Ok tt s' ∧ mem_tlb s s' ∧ vmm_ok s' kt ∧ lget s' = set8 (lget s) (F * 4096 + x) b.
Proof.
  intros H Hh Hx. destruct (Hh) as (Hv & Hp & HF). destruct (full_at d (lget s) v F Hp ltac:(lia)) as [R1 R2].
  assert ((v * 4096 + x) / 4096 = v ∧ (v * 4096 + x) mod 4096 = x) as [E1 E2] by (Z.div_mod_to_equations; lia).
  assert (same_but (lget s) (set8 (lget s) (F * 4096 + x) b) (F * 4096 + x) 1) as Hs.
  { intros y Hy. apply get8_set8_ne. lia. }
  destruct (data_write s d t1 t2 (lget s) _ kt F (F * 4096 + x) 1 (vo_vi _ _ H) HF ltac:(lia) ltac:(lia) Hs) as (Hvi & Hpg & _).
  destruct (kw_state s kt (vstore8 (v * 4096 + x) b) (λ _ m', m' = set8 (lget s) (F * 4096 + x) b) H) as ([] & s' & Hr & HQ & Hm & Hok).
  { eapply kw_post; [eapply (kw_vstore8 _ _ _ _ _ _ b F (λ _ m' R', m' = set8 (lget s) (F * 4096 + x) b ∧ R' = full d (lget s)));
      [lia|rewrite E1; done|by rewrite E2]|].
    intros [] m' R' (-> & ->). exists (full d (set8 (lget s) (F * 4096 + x) b)). split; [|done]. by apply full_same. }
  exists s'. split_and!; [done|done| |done]. apply Hok. by rewrite HQ.
Qed.
Lemma create_run slack s kt ep size ub : vmm_ok s kt → loadable s d slack (lget s) kt ep size →
  ∃ v D kt' F pg w0 w1 s', vmm_create_virtual_address_space ep size ub s = Ok (v * 4096) s' ∧ mem_tlb s s' ∧ vmm_ok s' kt' ∧
    kernel_entry w0 t1 ∧ kernel_entry w1 t2 ∧ was_free s (lget s) D ∧
    image s d t1 t2 w0 w1 (Z.b2z ub) (lget s) kt ep size v D slack (num_pages size) (lget s') kt' (Some F) pg.
Proof.
  intros H Hl.
  destruct (kw_state s kt (vmm_create_virtual_address_space ep size ub) (λ r m', ∃ v D kt' F pg w0 w1, r = v * 4096 ∧
    kernel_entry w0 t1 ∧ kernel_entry w1 t2 ∧ was_free s (lget s) D ∧
    image s d t1 t2 w0 w1 (Z.b2z ub) (lget s) kt ep size v D slack (num_pages size) m' kt' (Some F) pg) H) as (r & s' & Hr & HQ & Hm & Hok).
  { eapply kw_mono; [by apply (kw_create s (cr0 (lget s)) d t1 t2); [apply H|]|]. by intros r m' R' (-> & HQ). }
  destruct HQ as (v & D & kt' & F & pg & w0 & w1 & -> & K0 & K1 & Hfr & Him).
  exists v, D, kt', F, pg, w0, w1, s'. split_and!; try done. by eapply Hok, im_vi.
Qed.

(** One directory, one map of its tables. *)
Lemma vmm_ok_tables s kt kt' : vmm_ok s kt → vmm_ok s kt' → kt = kt'.
Proof.
  intros [_ _ _ Hv] [_ _ _ Hv']. pose proof (vi_ks _ _ _ _ _ _ Hv) as K. pose proof (vi_ks _ _ _ _ _ _ Hv') as K'. apply map_eq. intros i.
  destruct (kt !! i) as [f|] eqn:E, (kt' !! i) as [g|] eqn:E'; [| | |done].
  - destruct (ks_table _ _ _ _ _ K _ _ E) as (_ & _ & _ & <-). by destruct (ks_table _ _ _ _ _ K' _ _ E') as (_ & _ & _ & <-).
  - destruct (ks_table _ _ _ _ _ K _ _ E) as (Hi & _). pose proof (ks_pde _ _ _ _ _ K i Hi) as P. by rewrite (ks_pde _ _ _ _ _ K' i Hi), E, E' in P.
  - destruct (ks_table _ _ _ _ _ K' _ _ E') as (Hi & _). pose proof (ks_pde _ _ _ _ _ K i Hi) as P. by rewrite (ks_pde _ _ _ _ _ K' i Hi), E, E' in P.
Qed.

(** The table of 0xC0000000 in the directory of frame [D] is one a page of
    the kernel leads to, usable at its physical address; or there is none,
    and memory for one. *)
Definition table_ready (s : St) (D : Z) (o : option Z) : Prop :=
  match o with
  | Some F => F < 2047 ∧ F ≠ D ∧ ∃ q, 2048 ≤ q < 1048576 ∧ page_frame (lget s) d q = Some F
  | None => low_free s (lget s) 2 ∧ ∃ p, free_page d (lget s) p
  end.

(** A call of the manager as the kernel makes them, or one byte the kernel
    writes through a page it was given. New pages are of the kernel's
    directory and at no address of the caller's, and the next two free
    frames, if any, are below 0x7FF000: the manager uses page tables at their
    physical address. Pages dropped are above 8 MB, pages read back are
    mapped, programs loaded fit in memory, and frames are mapped into the 4 MB
    from 0xC0000000 of a space that a page of the kernel leads to. *)
Inductive vmm_step (s s' : St) : Prop :=
  | step_new wb ub r : two_low s (lget s) → vmm_get_new_page d wb ub NULL s = Ok r s' → vmm_step s s'
  | step_free p : 2048 ≤ p < 1048576 → vmm_free_page d (p * 4096) s = Ok tt s' → vmm_step s s'
  | step_physical p f r : 2048 ≤ p < 1048576 → page_frame (lget s) d p = Some f →
      vmm_get_physical_address d (p * 4096) s = Ok r s' → vmm_step s s'
  | step_create kt ep size ub r : vmm_ok s kt → loadable s d 0 (lget s) kt ep size →
      vmm_create_virtual_address_space ep size ub s = Ok r s' → vmm_step s s'
  | step_map v D w0 w1 ub o pg j f r : 2048 ≤ v < 1048576 → page_frame (lget s) d v = Some D →
      pspace w0 w1 (Z.b2z ub) (lget s) D o pg → table_ready s D o → 0 ≤ j < 1024 → 0 ≤ f < 1048576 →
      vmm_map_frame (v * 4096) (0xC0000000 + j * 4096) (f * 4096) true ub s = Ok r s' → vmm_step s s'
  | step_write p f x b : 2048 ≤ p < 1048576 → page_frame (lget s) d p = Some f → 0 ≤ x < 4096 →
      vstore8 (p * 4096 + x) b s = Ok tt s' → vmm_step s s'.

(** The pages above the identity map lead to frames in use, apart from each
    other, from the tables and from the allocator's bitmap. *)
Definition pages_ok (s : St) (kt : gmap Z Z) : Prop :=
  ∀ p f, 2048 ≤ p < 1048576 → page_frame (lget s) d p = Some f →
    data s d (lget s) kt f ∧ ∀ q, 2048 ≤ q < 1048576 → page_frame (lget s) d q = Some f → q = p.

Lemma clean_pmm s s' kt : mem_tlb s s' → clean s d (lget s') kt → pages_ok s' kt.
Proof.
  intros H Hc p f Hp Hf. destruct (Hc p f Hp Hf) as [[] Hu]. split; [|done].
  constructor; rewrite ?(mem_tlb_pmm _ _ H); done.
Qed.

Lemma map_frame_run s kt v D w0 w1 ub o pg j f : vmm_ok s kt → pages_ok s kt → 2048 ≤ v < 1048576 → page_frame (lget s) d v = Some D →
  pspace w0 w1 (Z.b2z ub) (lget s) D o pg → table_ready s D o → 0 ≤ j < 1024 → 0 ≤ f < 1048576 →
  ∃ s' kt' n W, vmm_map_frame (v * 4096) (0xC0000000 + j * 4096) (f * 4096) true ub s = Ok true s' ∧ mem_tlb s s' ∧ vmm_ok s' kt' ∧
    grows s d t1 t2 n W [] (lget s) kt (lget s') kt'.
Proof.
  intros H Hp Hv Ev Hps Ht Hj Hf. destruct (Hp v D Hv Ev) as [HD _]. assert (holds s d (lget s) kt v D) as Hh by done.
  replace (0xC0000000 + j * 4096) with ((768 * 1024 + j) * 4096) by lia.
  destruct (kw_state s kt (vmm_map_frame (v * 4096) ((768 * 1024 + j) * 4096) (f * 4096) true ub)
    (λ r m', r = true ∧ ∃ kt' n W, grows s d t1 t2 n W [] (lget s) kt m' kt') H) as (r & s' & Hr & (-> & kt' & n & W & G) & Hm & Hok).
  { apply kw_bind_ret. destruct o as [F|].
    - destruct Ht as (HF & HFD & q & Hq & Eq). destruct (Hp q F Hq Eq) as [HdF _].
      eapply (kw_map_present _ _ _ _ _ _ _ (Z.b2z ub)); [apply H|exact Hh|exact HdF|exact HF|exact HFD|exact Hps|done|done|done|].
      intros m' G _. apply kw_ret. split; [|done]. eauto.
    - destruct Ht as [Hl Hfree]. destruct (ps_768 _ _ _ _ _ _ _ Hps) as [_ ->].
      eapply (kw_map_absent _ _ _ _ _ _ _ (Z.b2z ub)); [apply H|exact Hh|exact Hps|exact Hl|exact Hfree|done|done|done|].
      intros m' kt' F G _ _ _ _. apply kw_ret. split; [|done]. eauto. }
  exists s', kt', n, W. split_and!; [done|done| |done]. apply Hok, G.
Qed.

(** Each step keeps the invariant and gives no frame back. *)
Lemma vmm_step_sound s s' kt : vmm_ok s kt → pages_ok s kt → vmm_step s s' →
  ∃ kt', vmm_ok s' kt' ∧ pages_ok s' kt' ∧ mem_tlb s s' ∧
    ∀ j, managed s j → frame_used s j = true → frame_used s' j = true.
Proof.
  intros H Hp Hstep. pose proof (vo_vi _ _ H) as Hvi.
  assert (∀ n W E kt', mem_tlb s s' → vmm_ok s' kt' → grows s d t1 t2 n W E (lget s) kt (lget s') kt' →
    ∃ kt', vmm_ok s' kt' ∧ pages_ok s' kt' ∧ mem_tlb s s' ∧
      ∀ j, managed s j → frame_used s j = true → frame_used s' j = true) as Hgoal.
  { intros n W E kt' Hm Hok Hg. exists kt'. split_and!; [done| |done|].
    - apply (clean_pmm s); [done|]. by apply (gr_clean _ _ _ _ _ _ _ _ _ _ _ Hg).
    - intros j Hj Hu. rewrite (used_bit _ _ j Hm). by apply (gr_used _ _ _ _ _ _ _ _ _ _ _ Hg). }
  destruct Hstep as [wb ub r Hlow Hr|p Hpr Hr|p f r Hpr Hf Hr|kt0 ep size ub r H0 Hl Hr|v D w0 w1 ub o pg j f r Hv Ev Hps Ht Hj Hf Hr|p f x b Hpr Hf Hx Hr].
  - destruct (new_page_run s kt wb ub H Hlow) as (r' & s1 & Hr' & Hm & Hcase). rewrite Hr in Hr'. injection Hr' as <- <-.
    destruct Hcase as [(p & f & kt' & -> & Hok & Hn)|(-> & Hok & Hn)]; [eapply Hgoal; [done|done|by eapply grows_new_page]|].
    destruct Hn as [(E & _)|(p & f & Ha & _)].
    + eapply (Hgoal 0%nat [] []); [done|done|]. rewrite E. by apply grows_none.
    + exists kt. destruct (allocated_vmi _ _ _ _ _ _ _ _ Hvi Ha) as [H1 Hst]. pose proof Ha as (Hfr & Hfb & _ & Hb & Hs).
      assert (∀ q, 0 ≤ q < 1048576 → page_frame (lget s') d q = page_frame (lget s) d q) as Hsame
        by (intros; eapply same_tables_page; [apply Hvi|apply H1|done|done]).
      split_and!; [done|apply (clean_pmm s); [done|]|done|].
      * intros q g Hq Hg. rewrite Hsame in Hg by lia. destruct (Hp q g Hq Hg) as [[] Hu]. split.
        -- constructor; try done. intros Hgr. rewrite Hb by lia. destruct (f =? g); [done|auto].
        -- intros q' Hq' Hg'. apply Hu; [done|]. by rewrite <- Hsame by lia.
      * intros j Hj Hu. rewrite (used_bit _ _ j Hm), Hb by (unfold managed in Hj; lia). destruct (f =? j); [done|exact Hu].
  - destruct (free_page_run s kt p H Hpr) as (s1 & Hr' & Hm & Hok & Hf). rewrite Hr in Hr'. injection Hr' as <-.
    eapply Hgoal; [done|done|exact (grows_freed s d t1 t2 _ _ kt p Hvi (proj1 Hpr) Hf)].
  - destruct (get_physical_run s kt p f H Hpr Hf) as (s1 & Hr' & Hm & Hok & Hw). rewrite Hr in Hr'. injection Hr' as _ <-.
    eapply Hgoal; [done|done|exact (grows_window s d t1 t2 _ _ kt None Hvi Hw)].
  - rewrite (vmm_ok_tables _ _ _ H0 H) in Hl.
    destruct (create_run 0 s kt ep size ub H Hl) as (v & D & kt' & F & pg & w0 & w1 & s1 & Hr' & Hm & Hok & _ & _ & _ & Him).
    rewrite Hr in Hr'. injection Hr' as _ <-. exists kt'. split_and!; [done| |done|].
    + apply (clean_pmm s); [done|]. by apply (im_clean _ _ _ _ _ _ _ _ _ _ _ _ _ _ _ _ _ _ _ Him).
    + intros j Hj Hu. rewrite (used_bit _ _ j Hm). by apply (im_used _ _ _ _ _ _ _ _ _ _ _ _ _ _ _ _ _ _ _ Him).
  - destruct (map_frame_run s kt v D w0 w1 ub o pg j f H Hp Hv Ev Hps Ht Hj Hf) as (s1 & kt' & n & W & Hr' & Hm & Hok & Hg).
    rewrite Hr in Hr'. injection Hr' as _ <-. by eapply Hgoal.
  - destruct (Hp p f Hpr Hf) as [Hd _]. assert (holds s d (lget s) kt p f) as Hh by done.
    destruct (kernel_write_run s kt p f x b H Hh Hx) as (s1 & Hr' & Hm & Hok & Em). rewrite Hr in Hr'. injection Hr' as <-.
    assert (same_but (lget s) (lget s') (f * 4096 + x) 1) as Hs by (rewrite Em; intros y Hy; apply get8_set8_ne; lia).
    eapply Hgoal; [done|done|exact (grows_write s d t1 t2 _ _ kt f (f * 4096 + x) 1 Hvi Hd ltac:(lia) ltac:(lia) Hs)].
Qed.

(** C6: the kernel's calls of the five operations of the manager, in any
    order, as [vmm_step] says it makes them, and its writes through the pages
    it was given, only lead to states in which tables, cache and allocator are
    in order, no two pages of the kernel lead to the same frame, none leads to
    a table of the kernel, to its directory or to the bitmap, the frames they
    lead to are marked used, and every frame once used still is. *)
Theorem vmm_reachable_sound s s' kt : vmm_ok s kt → pages_ok s kt → rtc vmm_step s s' →
  ∃ kt', vmm_ok s' kt' ∧
    (∀ p q f, 2048 ≤ p < 1048576 → 2048 ≤ q < 1048576 →
       page_frame (lget s') d p = Some f → page_frame (lget s') d q = Some f → p = q) ∧
    (∀ p f, 2048 ≤ p < 1048576 → page_frame (lget s') d p = Some f →
       f ≠ d / 4096 ∧ (∀ i, kt' !! i ≠ Some f) ∧ off_bitmap (frame_bitmap (lget s')) (f * 4096) 4096 ∧
       (managed s' f → frame_used s' f = true)) ∧
    (∀ j, managed s j → frame_used s j = true → frame_used s' j = true).
Proof.
  intros H Hp Hs. assert (∃ kt', vmm_ok s' kt' ∧ pages_ok s' kt' ∧ ∀ j, managed s j → frame_used s j = true → frame_used s' j = true)
    as (kt' & H' & Hp' & Hu).
  { revert kt H Hp. induction Hs as [s|s s1 s2 Hstep _ IH]; intros kt H Hp; [by exists kt|].
    destruct (vmm_step_sound _ _ kt H Hp Hstep) as (kt1 & H1 & Hp1 & Hm & Hu).
    destruct (IH kt1 H1 Hp1) as (kt2 & ? & ? & Hu2). exists kt2. split_and!; [done|done|].
    intros j Hj Huj. apply Hu2; [|by apply Hu]. unfold managed in *. by rewrite (mem_tlb_pmm _ _ Hm). }
  exists kt'. split_and!; [done| | |done].
  - intros p q f Hpr Hq E1 E2. by apply (Hp' q f Hq E2).
  - intros p f Hpr Ef. destruct (Hp' p f Hpr Ef) as [[] _]. done.
Qed.

(** ** The address space of a process *)

(** What the directory of [pspace] says of every page. *)
Lemma pspace_kernel w0 w1 u m kt D o pg q : kspace d t1 t2 m kt → kernel_entry w0 t1 → kernel_entry w1 t2 →
  pspace w0 w1 u m D o pg → 0 ≤ q < 2048 → page_frame m (D * 4096) q = page_frame m d q.
Proof.
  intros K (P0 & _ & F0) (P1 & _ & F1) Hps Hq. unfold page_frame. fold (pte m D (q / 1024)). fold (pde d m (q / 1024)).
  pose proof (ks_core _ _ _ _ _ K) as Hc. destruct (Z.lt_ge_cases q 1024).
  - replace (q / 1024) with 0 by (Z.div_mod_to_equations; lia). rewrite (ps_0 _ _ _ _ _ _ _ Hps), P0, F0.
    by destruct (kc_0 _ _ _ _ Hc) as [-> ->].
  - replace (q / 1024) with 1 by (Z.div_mod_to_equations; lia). rewrite (ps_1 _ _ _ _ _ _ _ Hps), P1, F1.
    by destruct (kc_1 _ _ _ _ Hc) as [-> ->].
Qed.

Lemma pspace_rest w0 w1 u m D o pg q : pspace w0 w1 u m D o pg → 2048 ≤ q < 1048576 → q / 1024 ≠ 768 →
  page_frame m (D * 4096) q = None.
Proof.
  intros Hps Hq Hne. unfold page_frame. fold (pte m D (q / 1024)). rewrite (ps_rest _ _ _ _ _ _ _ Hps); [done|Z.div_mod_to_equations; lia|done].
Qed.

Lemma pspace_code w0 w1 u m D F pg j : pspace w0 w1 u m D (Some F) pg → 0 ≤ j < 1024 →
  page_frame m (D * 4096) (768 * 1024 + j) = pg !! j.
Proof.
  intros Hps Hj. unfold page_frame. fold (pte m D ((768 * 1024 + j) / 1024)).
  replace ((768 * 1024 + j) / 1024) with 768 by (Z.div_mod_to_equations; lia).
  replace ((768 * 1024 + j) mod 1024) with j by (Z.div_mod_to_equations; lia).
  destruct (ps_768 _ _ _ _ _ _ _ Hps) as [(-> & _ & _ & ->) Hpg]. fold (pte m F j). specialize (Hpg j Hj).
  destruct (pg !! j); [destruct Hpg as (-> & _ & _ & ->)|rewrite Hpg]; done.
Qed.
Lemma pspace_translate w0 w1 ub m D F pg j f x : pspace w0 w1 (Z.b2z ub) m D (Some F) pg → 0 ≤ j < 1024 → pg !! j = Some f →
  0 ≤ x < 4096 → translate m (D * 4096) (0xC0000000 + j * 4096 + x) = Some (f * 4096 + x, true, ub).
Proof.
  intros Hps Hj Hf Hx. unfold translate. fold (pte m D ((0xC0000000 + j * 4096 + x) / 4194304)).
  replace ((0xC0000000 + j * 4096 + x) / 4194304) with 768 by (Z.div_mod_to_equations; lia).
  replace (((0xC0000000 + j * 4096 + x) / 4096) mod 1024) with j by (Z.div_mod_to_equations; lia).
  replace ((0xC0000000 + j * 4096 + x) mod 4096) with x by (Z.div_mod_to_equations; lia).
  destruct (ps_768 _ _ _ _ _ _ _ Hps) as [(-> & -> & -> & ->) Hpg]. fold (pte m F j). specialize (Hpg j Hj). rewrite Hf in Hpg.
  destruct Hpg as (-> & -> & -> & ->). by destruct ub.
Qed.

Lemma pspace_supervisor w0 w1 u m D o pg va pa r x : kernel_entry w0 t1 → kernel_entry w1 t2 → pspace w0 w1 u m D o pg →
  0 ≤ va < 0x800000 → translate m (D * 4096) va = Some (pa, r, x) → x = false.
Proof.
  intros (P0 & U0 & F0) (P1 & U1 & F1) Hps Hva. unfold translate. fold (pte m D (va / 4194304)).
  destruct (Z.lt_ge_cases va 0x400000).
  - replace (va / 4194304) with 0 by (Z.div_mod_to_equations; lia). rewrite (ps_0 _ _ _ _ _ _ _ Hps), P0, U0. cbn.
    destruct (present _ =? 0); [done|]. by intros [= _ _ <-].
  - replace (va / 4194304) with 1 by (Z.div_mod_to_equations; lia). rewrite (ps_1 _ _ _ _ _ _ _ Hps), P1, U1. cbn.
    destruct (present _ =? 0); [done|]. by intros [= _ _ <-].
Qed.

Lemma unmapped_page m dir va : 0 ≤ va → page_frame m dir (va / 4096) = None → translate m dir va = None.
Proof. intros Hva E. destruct (translate_page m dir va Hva) as [[? _]|(f & r & u & _ & E')]; [done|congruence]. Qed.

(** The directory of a process, address by address. *)
Lemma pspace_maps w0 w1 ub m kt D F pg va : kspace d t1 t2 m kt → kernel_entry w0 t1 → kernel_entry w1 t2 →
  pspace w0 w1 (Z.b2z ub) m D (Some F) pg → 0 ≤ va < 4294967296 →
  if va <? 0x800000 then
    page_frame m (D * 4096) (va / 4096) = page_frame m d (va / 4096) ∧
    ∀ pa r u, translate m (D * 4096) va = Some (pa, r, u) → u = false
  else translate m (D * 4096) va =
    if (0xC0000000 <=? va) && (va <? 0xC0400000) then
      f ← pg !! ((va - 0xC0000000) / 4096); Some (f * 4096 + va mod 4096, true, ub)
    else None.
Proof.
  intros K K0 K1 Hps Hva. destruct (Z.ltb_spec va 0x800000); [|destruct (_ && _) eqn:E].
  - split; [|intros pa r u; apply (pspace_supervisor w0 w1 (Z.b2z ub) _ D (Some F) pg); [done|done|done|lia]].
    eapply pspace_kernel; [done|done|done|done|Z.div_mod_to_equations; lia].
  - apply andb_true_iff in E as [E1%Z.leb_le E2%Z.ltb_lt]. set (j := (va - 0xC0000000) / 4096).
    assert (va = 0xC0000000 + j * 4096 + va mod 4096 ∧ 0 ≤ j < 1024 ∧ 0 ≤ va mod 4096 < 4096 ∧ va / 4096 = 768 * 1024 + j)
      as (Ev & Hj & Hx & Eq) by (unfold j; Z.div_mod_to_equations; lia).
    destruct (pg !! j) as [f|] eqn:Ej; cbn.
    + rewrite Ev at 1. eapply pspace_translate; [done|done|done|done].
    + apply unmapped_page; [lia|]. rewrite Eq. by erewrite pspace_code.
  - apply unmapped_page; [lia|]. eapply pspace_rest; [done|Z.div_mod_to_equations; lia|].
    apply andb_false_iff in E as [E%Z.leb_gt|E%Z.ltb_ge]; Z.div_mod_to_equations; lia.
Qed.

(** C2: for a program the kernel can read, and memory enough,
    [vmm_create_virtual_address_space] returns a page of the kernel that
    leads to a new directory, under which addresses below 8 MB translate as
    the kernel's and never from user mode, the addresses from 0xC0000000 on
    lead writable to the program's bytes padded with zeros to whole pages,
    from user mode if the process is a user's, and nothing else translates. *)
Theorem vmm_create_maps_image s kt ep size ub :
  vmm_ok s kt → loadable s d 0 (lget s) kt ep size →
  ∃ v D s', vmm_create_virtual_address_space ep size ub s = Ok (v * 4096) s' ∧ (∃ kt', vmm_ok s' kt') ∧
    page_frame (lget s') d v = Some D ∧ frame_used s D = false ∧
    ∀ va, 0 ≤ va < 4294967296 →
      if va <? 0x800000 then
        page_frame (lget s') (D * 4096) (va / 4096) = page_frame (lget s') d (va / 4096) ∧
        ∀ pa r u, translate (lget s') (D * 4096) va = Some (pa, r, u) → u = false
      else if (0xC0000000 <=? va) && (va <? 0xC0000000 + num_pages size * 4096) then
        ∃ pa, translate (lget s') (D * 4096) va = Some (pa, true, ub) ∧
          get8 (lget s') pa = code_byte (lget s) ep size (va - 0xC0000000)
      else translate (lget s') (D * 4096) va = None.
Proof.
  intros H Hl. destruct (create_run 0 s kt ep size ub H Hl) as (v & D & kt' & F & pg & w0 & w1 & s' & Hr & Hm & H' & K0 & K1 & [Hfr Hfb] & Him).
  pose proof (im_space _ _ _ _ _ _ _ _ _ _ _ _ _ _ _ _ _ _ _ Him) as Hps. pose proof (ld_pages _ _ _ _ _ _ _ Hl) as Hnp.
  exists v, D, s'. split_and!; [done|by exists kt'|by destruct (im_dir _ _ _ _ _ _ _ _ _ _ _ _ _ _ _ _ _ _ _ Him) as (_ & ? & _)|done|].
  intros va Hva. pose proof (pspace_maps w0 w1 ub _ _ D F pg va (vi_ks _ _ _ _ _ _ (vo_vi _ _ H')) K0 K1 Hps Hva) as Hmap.
  destruct (va <? 0x800000); [exact Hmap|]. rewrite Hmap. destruct (Z.leb_spec 0xC0000000 va); [|done]. cbn [andb].
  set (j := (va - 0xC0000000) / 4096).
  assert (va - 0xC0000000 = j * 4096 + va mod 4096 ∧ 0 ≤ va mod 4096 < 4096 ∧ 0 ≤ j) as (Ev & Hx & Hj) by (unfold j; Z.div_mod_to_equations; lia).
  destruct (Z.ltb_spec va (0xC0000000 + num_pages size * 4096)).
  - destruct (im_pages _ _ _ _ _ _ _ _ _ _ _ _ _ _ _ _ _ _ _ Him j ltac:(lia)) as (f & Hf & _ & _ & _ & Hb).
    exists (f * 4096 + va mod 4096). rewrite Ev, Hf. split; [by destruct (Z.ltb_spec va 0xC0400000); [|lia]|by apply Hb].
  - rewrite (im_rest _ _ _ _ _ _ _ _ _ _ _ _ _ _ _ _ _ _ _ Him j ltac:(lia)). by destruct (va <? 0xC0400000).
Qed.

(** C11: the new space is isolated: the pages the kernel had above the
    identity map (the directories of other processes among them) lead to the
    same frames with the same bytes; no address of the new space leads to
    one of these frames but in the first 8 MB, which is not for user mode; and
    no two pages of the new space above share a frame. *)
Theorem vmm_create_isolated s kt ep size ub :
  vmm_ok s kt → pages_ok s kt → loadable s d 0 (lget s) kt ep size →
  ∃ v D s', vmm_create_virtual_address_space ep size ub s = Ok (v * 4096) s' ∧ page_frame (lget s') d v = Some D ∧
    (∀ p f, 2048 ≤ p < 1048576 → page_frame (lget s) d p = Some f →
       page_frame (lget s') d p = Some f ∧ (∀ x, 0 ≤ x < 4096 → get8 (lget s') (f * 4096 + x) = get8 (lget s) (f * 4096 + x)) ∧
       f ≠ D ∧ ∀ va pa r u, 0 ≤ va < 4294967296 → translate (lget s') (D * 4096) va = Some (pa, r, u) → pa / 4096 = f →
         va < 0x800000 ∧ u = false) ∧
    (∀ p q f, 2048 ≤ p < 1048576 → 2048 ≤ q < 1048576 → page_frame (lget s') (D * 4096) p = Some f →
       page_frame (lget s') (D * 4096) q = Some f → p = q).
Proof.
  intros H Hp Hl. destruct (create_run 0 s kt ep size ub H Hl) as (v & D & kt' & F & pg & w0 & w1 & s' & Hr & Hm & H' & K0 & K1 & _ & Him).
  pose proof (im_space _ _ _ _ _ _ _ _ _ _ _ _ _ _ _ _ _ _ _ Him) as Hps.
  destruct (im_kept _ _ _ _ _ _ _ _ _ _ _ _ _ _ _ _ _ _ _ Him) as [Hk1 Hk2].
  assert (∀ q f, 2048 ≤ q < 1048576 → page_frame (lget s') (D * 4096) q = Some f →
    q = 768 * 1024 + q mod 1024 ∧ pg !! (q mod 1024) = Some f) as Hcode.
  { intros q f Hq E. destruct (decide (q / 1024 = 768)) as [E768|Hne]; [|by erewrite pspace_rest in E].
    assert (q = 768 * 1024 + q mod 1024) as Eq by (Z.div_mod_to_equations; lia). split; [done|].
    rewrite Eq in E. by erewrite pspace_code in E by (done || (Z.div_mod_to_equations; lia)). }
  exists v, D, s'. split_and!; [done|by destruct (im_dir _ _ _ _ _ _ _ _ _ _ _ _ _ _ _ _ _ _ _ Him) as (_ & ? & _)| |].
  - intros p f Hpr Ef. destruct (Hp p f Hpr Ef) as [Hd _]. destruct (Hk2 f Hd) as (_ & Hsame & HfD & _ & Hpg).
    split_and!; [by apply Hk1|exact Hsame|done|]. intros va pa r u Hva Et Epa. destruct (Z.lt_ge_cases va 0x800000).
    + split; [done|]. eapply pspace_supervisor; [exact K0|exact K1|exact Hps| |exact Et]; lia.
    + exfalso. pose proof (Z.mod_pos_bound va 4096 ltac:(lia)). destruct (translate_page (lget s') (D * 4096) va ltac:(lia)) as [[E _]|(g & r' & u' & E & Eg)]; [congruence|].
      rewrite Et in E. injection E as -> _ _. assert (g = f) as -> by (rewrite <- Epa, Z.div_add_l, Z.div_small; lia).
      destruct (Hcode (va / 4096) f) as [_ Ef']; [Z.div_mod_to_equations; lia|done|]. by eapply Hpg.
  - intros p q f Hpr Hq Ep Eq. destruct (Hcode p f Hpr Ep) as [P1 E1]. destruct (Hcode q f Hq Eq) as [P2 E2].
    enough (p mod 1024 = q mod 1024) by lia.
    eapply (im_inj _ _ _ _ _ _ _ _ _ _ _ _ _ _ _ _ _ _ _ Him); [..|exact E1|exact E2]; Z.div_mod_to_equations; lia.
Qed.
End state.
