(* ===== verification/MmuIdent.v ===== *)
(** * MmuIdent: the identity map as seen by the kernel

    In the kernel's first 8 MB the translated accesses of Mmu.v and the
    checked accesses of Memory.v are the same: a relation between the two,
    closed under sequencing and loops, and the routines of kmemory.c related
    by it. This is what lets the other components be modelled on addresses
    without translation. *)

From S2P Require Import Prelude Memory KMemory Bitmap Pmm Paging Mmu Vmm VmmSpec AddrSpace VmmState.

Section ident.
Context {St : Type} `{LM : Lens St mem} `{LC : Lens St Cpu} `{LP : Lens St PmmStatics}.
Context {AC : Apart LM LC} {AP : Apart LM LP} {ACP : Apart LC LP}.
Context (d t1 t2 : Z) (kt : gmap Z Z) (bm : Bitmap).

(** From the same memory, [op] without translation and [vop] with it return
    the same result and leave the same memory. *)
Definition agrees {B} (op vop : M St B) : Prop := ∀ s sv,
  vmm_ok d t1 t2 sv kt → frame_bitmap (lget sv) = bm → lget (T:=mem) sv = lget s →
  ∃ b (m' : mem) sv', op s = Ok b (lput m' s) ∧ vop sv = Ok b sv' ∧ lget sv' = m' ∧
    vmm_ok d t1 t2 sv' kt ∧ frame_bitmap (lget sv') = bm.

(** Bytes the kernel may read through the identity map, and those that
    hold neither its tables nor the allocator's bitmap. *)
Definition readable (a n : Z) : Prop := 4096 ≤ a ∧ a + n ≤ 0x7FF000.
Definition free_to_write (a n : Z) : Prop := readable a n ∧ off_tables d kt a n ∧ off_bitmap bm a n.

Lemma agrees_ret {B} (b : B) : agrees (mret b) (mret b).
Proof. intros s sv H Hb E. exists b, (lget s), sv. by rewrite lput_lget. Qed.

Lemma agrees_bind {A B} (op vop : M St A) (f g : A → M St B) :
  agrees op vop → (∀ a, agrees (f a) (g a)) → agrees (op ≫= f) (vop ≫= g).
Proof.
  intros H Hf s sv Hs Hb E. destruct (H s sv Hs Hb E) as (a & m1 & sv1 & R1 & V1 & E1 & H1 & B1).
  destruct (Hf a (lput m1 s) sv1 H1 B1) as (b & m2 & sv2 & R2 & V2 & E2 & H2 & B2); [by rewrite lget_lput|].
  rewrite lput_lput in R2. exists b, m2, sv2. by rewrite (bind_ok _ _ _ _ _ R1), (bind_ok _ _ _ _ _ V1).
Qed.

Lemma agrees_mfor lo hi (f g : Z → M St unit) : (∀ i, lo ≤ i < hi → agrees (f i) (g i)) → agrees (mfor lo hi f) (mfor lo hi g).
Proof.
  intros Hf. unfold mfor. assert (∀ i, i ∈ seqZ lo (hi - lo) → agrees (f i) (g i)) as Hl.
  { intros i Hi%elem_of_seqZ. apply Hf. lia. }
  induction (seqZ lo (hi - lo)) as [|i l IH]; cbn [mforeach]; [apply agrees_ret|].
  apply agrees_bind; [apply Hl; by left|]. intros _. apply IH. intros j Hj. apply Hl. by right.
Qed.

(** A byte of the identity map. *)
Lemma agrees_load8 a : readable a 1 → agrees (load8 a) (vload8 a).
Proof.
  intros [Hlo Hhi] s sv H Hb E. pose proof (vo_vi _ _ _ _ _ H) as Hvi.
  pose proof (ks_core _ _ _ _ _ (vi_ks _ _ _ _ _ _ Hvi)) as Hc.
  destruct (kw_state d t1 t2 sv kt (vload8 a) (λ b m', b = get8 (lget sv) a ∧ m' = lget sv) H) as (b & sv' & Hr & [-> Em] & Hm & Hok).
  { eapply (kw_vload8 _ _ _ _ _ _ (a / 4096)); [lia|eapply at_ident; [done|by apply (Rk_full d t1 t2)|Z.div_mod_to_equations; lia]|].
    by replace (a / 4096 * 4096 + a mod 4096) with a by (Z.div_mod_to_equations; lia). }
  exists (get8 (lget s) a), (lget s), sv'. rewrite lput_lget, <- E. split_and!.
  - unfold load8. rewrite <- E. assert (mappedb a 1 = true) as -> by (apply mappedb_spec; unfold mapped, IDENT_LO, IDENT_HI; lia). done.
  - exact Hr.
  - done.
  - apply Hok. by rewrite Em.
  - by rewrite (mem_tlb_pmm _ _ Hm).
Qed.

Lemma agrees_store8 a v : free_to_write a 1 → agrees (store8 a v) (vstore8 a v).
Proof.
  intros ([Hlo Hhi] & Ht & Ho) s sv H Hb E. pose proof (vo_vi _ _ _ _ _ H) as Hvi. pose proof (vi_ks _ _ _ _ _ _ Hvi) as Hks.
  pose proof (ks_core _ _ _ _ _ Hks) as Hc. set (m' := set8 (lget sv) a v).
  assert (same_but (lget sv) m' a 1) as Hs by (intros y Hy; apply get8_set8_ne; lia).
  pose proof (off_tables_same _ _ _ _ _ _ Ht Hs) as Hst. pose proof (same_tables_ks _ _ _ _ _ _ Hks Hst) as Hks'.
  destruct (kw_state d t1 t2 sv kt (vstore8 a v) (λ _ m1, m1 = m') H) as ([] & sv' & Hr & Em & Hm & Hok).
  { eapply kw_post; [eapply (kw_vstore8 _ _ _ _ _ _ v (a / 4096) (λ _ m1 R1, m1 = m' ∧ R1 = full d (lget sv)));
      [lia|eapply at_ident; [done|by apply (Rk_full d t1 t2)|Z.div_mod_to_equations; lia]|]|].
    - by replace (a / 4096 * 4096 + a mod 4096) with a by (Z.div_mod_to_equations; lia).
    - intros [] m1 R1 (-> & ->). exists (full d m'). split; [|done]. apply full_same.
      intros p Hp. by apply (same_tables_page d t1 t2 _ _ kt). }
  exists tt, m', sv'. split_and!; [|done|done| |].
  - unfold store8, m'. rewrite E. assert (mappedb a 1 = true) as -> by (apply mappedb_spec; unfold mapped, IDENT_LO, IDENT_HI; lia). done.
  - apply Hok. rewrite Em. eapply vmi_same; [done|exact Hs|by rewrite Hb|done].
  - by rewrite (mem_tlb_pmm _ _ Hm).
Qed.

Lemma loop_agrees s n (r : Z) (f g : Z → M St unit) :
  vmm_ok d t1 t2 s kt → frame_bitmap (lget s) = bm → (∀ i, 0 ≤ i < n → agrees (f i) (g i)) →
  ∃ (m' : mem) sv, (mfor 0 n f ;; mret r) s = Ok r (lput m' s) ∧ (mfor 0 n g ;; mret r) s = Ok r sv ∧
    lget sv = m' ∧ vmm_ok d t1 t2 sv kt.
Proof.
  intros H Hb Hf. destruct (agrees_mfor 0 n f g Hf s s H Hb eq_refl) as ([] & m' & sv & R & V & E & Hok & _).
  exists m', sv. by rewrite (bind_ok _ _ _ _ _ R), (bind_ok _ _ _ _ _ V).
Qed.

(** C27: through the page tables, and whatever the processor has cached,
    [kmemset] and [kmemcpy] inside the identity map return and leave in
    memory what they do on untranslated addresses, as long as they write
    neither the tables nor the allocator's bitmap; tables, cache and
    allocator stay in order. *)
Theorem kmem_through_tables s src dest val count :
  vmm_ok d t1 t2 s kt → frame_bitmap (lget s) = bm → 0 ≤ count → readable src count → free_to_write dest count →
  (∃ (m' : mem) sv, kmemset dest val count s = Ok dest (lput m' s) ∧ vkmemset dest val count s = Ok dest sv ∧
     lget sv = m' ∧ vmm_ok d t1 t2 sv kt) ∧
  (∃ (m' : mem) sv, kmemcpy src dest count s = Ok dest (lput m' s) ∧ vkmemcpy src dest count s = Ok dest sv ∧
     lget sv = m' ∧ vmm_ok d t1 t2 sv kt).
Proof.
  intros H Hb Hn [Hs1 Hs2] ([Hd1 Hd2] & [Ht1 Ht2] & Ho).
  assert (∀ i, 0 ≤ i < count → free_to_write (dest + i) 1) as Hw.
  { intros i Hi. unfold free_to_write, off_bitmap in *. split_and!; [unfold readable; lia| |lia]. split; [lia|].
    intros j f Hf. specialize (Ht2 j f Hf). lia. }
  split; eapply loop_agrees; try done; intros i Hi; rewrite ?(u32_small (dest + i)), ?(u32_small (src + i)) by lia.
  - by apply agrees_store8, Hw.
  - apply agrees_bind; [apply agrees_load8; unfold readable; lia|]. intros b. by apply agrees_store8, Hw.
Qed.
End ident.
