(* ===== verification/Process.v ===== *)
(** * Process: creating a process
      (src/kernel/proc/proc.c, src/kernel/arch/i386/proc/proc.c)

    [create_process_stack] prepares the page a process starts on;
    [create_pcb] takes a control block from the heap, builds the address
    space, and maps that page at 0xC0001000. *)

From S2P Require Import Prelude Memory Bitmap Pmm KMemory Pcb Paging Mmu Vmm VmmSpec AddrSpace VmmState.

(** ** The code *)

(** [CpuContext]: ten words, in the order [popf], [popa] and [ret] take them
    off the stack. *)
Definition OFF_CTX_EFLAGS : Z := 0.
Definition OFF_CTX_EDI : Z := 4.
Definition OFF_CTX_ESI : Z := 8.
Definition OFF_CTX_EBP : Z := 12.
Definition OFF_CTX_ESP : Z := 16.
Definition OFF_CTX_EBX : Z := 20.
Definition OFF_CTX_EDX : Z := 24.
Definition OFF_CTX_ECX : Z := 28.
Definition OFF_CTX_EAX : Z := 32.
Definition OFF_CTX_EIP : Z := 36.
Definition SIZEOF_CTX : Z := 40.

(** The static [next_pid]. *)
Record ProcStatics : Type := mkProc { next_pid : Z }.

Section process.
Context {St : Type} `{LM : Lens St mem} `{LC : Lens St Cpu} `{LP : Lens St PmmStatics} `{LH : Lens St HeapStatics} `{LN : Lens St ProcStatics}.

(** The two accessors of [cr3] the file keeps; a write drops the cached
    translations. *)
Definition read_cr3 : M St Z := c ← gets; mret (cr3 c).
Definition write_cr3 (val : Z) : M St unit :=
  c ← gets; puts (mkCpu (cr0 c) val ∅ (kernel_directory c)).

(** The assignments to the fields of the context. *)
Definition init_context (context entry_point : Z) : M St unit :=
  vstore32 (context + OFF_CTX_EFLAGS) 0x0202 ;;
  vstore32 (context + OFF_CTX_EAX) 0 ;;
  vstore32 (context + OFF_CTX_ECX) 0 ;;
  vstore32 (context + OFF_CTX_EDX) 0 ;;
  vstore32 (context + OFF_CTX_EBX) 0 ;;
  vstore32 (context + OFF_CTX_ESP) 0 ;;
  vstore32 (context + OFF_CTX_EBP) 0 ;;
  vstore32 (context + OFF_CTX_ESI) 0 ;;
  vstore32 (context + OFF_CTX_EDI) 0 ;;
  vstore32 (context + OFF_CTX_EIP) entry_point.

(** Returns the stack pointer, and what [*out_physical_frame] holds after the
    call, [out] before it ([None] for a null pointer: the only caller passes
    the address of a local). *)
Definition create_process_stack (entry_point : Z) (out : option Z) : M St (Z * option Z) :=
  c ← gets;
  local_stack_window ← vmm_get_new_page (kernel_directory c) true false NULL;
  if local_stack_window =? 0 then mret (NULL, out) else
  vkmemset local_stack_window 0 4096 ;;
  let context := (local_stack_window ⊞ 4096) ⊟ SIZEOF_CTX in
  init_context context entry_point ;;
  let stack_pd_idx := Z.shiftr local_stack_window 22 in
  c ← gets;
  e ← vload32 (entry (kernel_directory c) stack_pd_idx);
  let stack_pt_virt := table_of e in
  let stack_idx := page_index local_stack_window in
  w ← vload32 (entry stack_pt_virt stack_idx);
  let stack_phys_frame := table_of w in
  let out := match out with Some _ => Some stack_phys_frame | None => None end in
  let offset_within_page := Z.land context 0xFFF in
  let target_process_esp := 0xC0001000 ⊞ offset_within_page in
  c ← gets;
  vmm_free_page (kernel_directory c) local_stack_window ;;
  mret (target_process_esp, out).

(** The fields set before the address space is built. *)
Definition init_pcb (pcb : Z) : M St unit :=
  n ← gets;
  puts (mkProc (next_pid n ⊞ 1)) ;;
  store32 (pcb + OFF_PID) (next_pid n) ;;
  store32 (pcb + OFF_NODE) NULL ;;
  store32 (pcb + OFF_NODE + 4) NULL ;;
  store32 (pcb + OFF_STATE) (state_code STATE_NEW) ;;
  store32 (pcb + OFF_PRIORITY) 0 ;;
  store32 (pcb + OFF_QUANTUM) 40 ;;
  store32 (pcb + OFF_AGE) 0.

(** The rest: the address space, the stack and the state. *)
Definition load_process (pcb entry_point size : Z) (is_user_process : bool) : M St Z :=
  process_address_space ← vmm_create_virtual_address_space entry_point size is_user_process;
  store32 (pcb + OFF_SPACE) process_address_space ;;
  c ← gets;
  address_space_physical ← vmm_get_physical_address (kernel_directory c) process_address_space;
  store32 (pcb + OFF_SPACE_PHYS) address_space_physical ;;
  '(process_esp, out) ← create_process_stack 0xC0000000 (Some 0);
  let stack_frame_physical := default 0 out in
  space ← load32 (pcb + OFF_SPACE);
  vmm_map_frame space 0xC0001000 stack_frame_physical true is_user_process ;;
  store32 (pcb + OFF_STACK) process_esp ;;
  kernel_stack_ptr ← load32 (pcb + OFF_STACK);
  if kernel_stack_ptr =? 0 then kfree pcb ;; mret NULL else
  store32 (pcb + OFF_STATE) (state_code STATE_READY) ;;
  mret pcb.

Definition create_pcb (entry_point size : Z) (is_user_process : bool) : M St Z :=
  pcb ← kmalloc SIZEOF_PCB;
  if pcb =? 0 then mret NULL else
  init_pcb pcb ;;
  load_process pcb entry_point size is_user_process.
End process.

(** What the accessors of [cr3] do: a write is the switch of address space of
    paging.c, and a read afterwards gives what was written. *)
Lemma write_cr3_read {St : Type} `{LC : Lens St Cpu} (val : Z) (s : St) :
  (write_cr3 val ;; read_cr3) s = (paging_switch_address_space val ;; mret val) s.
Proof. unfold write_cr3, read_cr3, paging_switch_address_space. by rewrite !bind_assoc, !bind_gets, !bind_puts, bind_gets, lget_lput. Qed.

(** ** The stack *)

Section stack.
Context {St : Type} `{LM : Lens St mem} `{LC : Lens St Cpu} `{LP : Lens St PmmStatics}.
Context {AC : Apart LM LC} {AP : Apart LM LP} {ACP : Apart LC LP}.
Context (s0 : St) (c0 d t1 t2 : Z).

Abbreviation kw0 := (kw s0 c0 d).
Abbreviation bm := (frame_bitmap (lget s0)).
Abbreviation vi := (vmi d t1 t2 bm).
Abbreviation full := (full d).
Abbreviation holds := (holds s0 d).

(** The page of a process that has not run: zeros, and the context at the
    end with the entry point as return address. *)
Definition fresh_stack (m : mem) (S entry_point : Z) : Prop :=
  ∀ i, 0 ≤ i < 1024 → pte m S i = if i =? 1014 then 0x202 else if i =? 1023 then entry_point else 0.

(** One more word of the context. *)
Lemma kw_context_word {B} m0 kt v S off w (I : Z → Z) (m : mem) (k : unit → M St B) Q :
  vi m kt → grows s0 d t1 t2 0 [S] [] m0 kt m kt → holds m kt v S → 0 ≤ off < 10 → 0 ≤ w < 4294967296 →
  (∀ i, 0 ≤ i < 1024 → pte m S i = I i) →
  (∀ m', vi m' kt → grows s0 d t1 t2 0 [S] [] m0 kt m' kt → holds m' kt v S →
     (∀ i, 0 ≤ i < 1024 → pte m' S i = if i =? 1014 + off then w else I i) → kw0 (full m') m' (k tt) Q) →
  kw0 (full m) m (vstore32 (v * 4096 + 4056 + 4 * off) w ≫= k) Q.
Proof.
  intros H G Hh Hoff Hw HI Hk. replace (v * 4096 + 4056 + 4 * off) with (entry (v * 4096) (1014 + off)) by (unfold entry; lia).
  eapply kw_store_via; [exact H|exact Hh|lia|]. intros m' Hs Hp.
  pose proof (grows_write s0 d t1 t2 m m' kt S (entry (S * 4096) (1014 + off)) 4 H (proj2 (proj2 Hh))
    ltac:(unfold entry; lia) ltac:(unfold entry; lia) Hs) as G1.
  apply Hk; [apply G1| |by eapply grows_holds; [exact G1|set_solver|]|].
  - eapply grows_weaken; [|exact (grows_trans _ _ _ _ _ _ _ _ _ _ _ _ _ _ _ _ G G1)]. set_solver.
  - intros i Hi. destruct (Z.eqb_spec i (1014 + off)) as [->|Hne]; [rewrite Hp; by apply u32_small|].
    rewrite <- HI by done. unfold pte. apply (same_but_ld32 _ _ _ _ _ Hs). unfold entry. lia.
Qed.

Lemma kw_init_context {B} m kt v S ep (k : unit → M St B) Q :
  vi m kt → holds m kt v S → 0 ≤ ep < 4294967296 → (∀ i, 0 ≤ i < 1024 → pte m S i = 0) →
  (∀ m', grows s0 d t1 t2 0 [S] [] m kt m' kt → fresh_stack m' S ep → kw0 (full m') m' (k tt) Q) →
  kw0 (full m) m (init_context (v * 4096 + 4056) ep ≫= k) Q.
Proof.
  intros H Hh Hep Hz Hk. unfold init_context.
  unfold OFF_CTX_EFLAGS, OFF_CTX_EDI, OFF_CTX_ESI, OFF_CTX_EBP, OFF_CTX_ESP, OFF_CTX_EBX, OFF_CTX_EDX, OFF_CTX_ECX, OFF_CTX_EAX, OFF_CTX_EIP.
  assert (grows s0 d t1 t2 0 [S] [] m kt m kt) as G0 by (by apply (grows_none s0 d t1 t2)).
  eapply kw_assoc, (kw_context_word m kt v S 0 0x202 (λ _, 0)); [done|done|done|lia|lia|done|]. intros m1 H1 G1 Hh1 I1.
  eapply kw_assoc, (kw_context_word m kt v S 8 0 _ m1 _ _ H1 G1 Hh1); [lia|lia|exact I1|]. clear H1 I1. intros m2 H2 G2 Hh2 I2.
  eapply kw_assoc, (kw_context_word m kt v S 7 0 _ m2 _ _ H2 G2 Hh2); [lia|lia|exact I2|]. clear H2 I2. intros m3 H3 G3 Hh3 I3.
  eapply kw_assoc, (kw_context_word m kt v S 6 0 _ m3 _ _ H3 G3 Hh3); [lia|lia|exact I3|]. clear H3 I3. intros m4 H4 G4 Hh4 I4.
  eapply kw_assoc, (kw_context_word m kt v S 5 0 _ m4 _ _ H4 G4 Hh4); [lia|lia|exact I4|]. clear H4 I4. intros m5 H5 G5 Hh5 I5.
  eapply kw_assoc, (kw_context_word m kt v S 4 0 _ m5 _ _ H5 G5 Hh5); [lia|lia|exact I5|]. clear H5 I5. intros m6 H6 G6 Hh6 I6.
  eapply kw_assoc, (kw_context_word m kt v S 3 0 _ m6 _ _ H6 G6 Hh6); [lia|lia|exact I6|]. clear H6 I6. intros m7 H7 G7 Hh7 I7.
  eapply kw_assoc, (kw_context_word m kt v S 2 0 _ m7 _ _ H7 G7 Hh7); [lia|lia|exact I7|]. clear H7 I7. intros m8 H8 G8 Hh8 I8.
  eapply kw_assoc, (kw_context_word m kt v S 1 0 _ m8 _ _ H8 G8 Hh8); [lia|lia|exact I8|]. clear H8 I8. intros m9 H9 G9 Hh9 I9.
  eapply (kw_context_word m kt v S 9 ep _ m9 _ _ H9 G9 Hh9); [lia|lia|exact I9|]. intros m' _ G' _ I'.
  apply Hk; [done|]. intros i Hi. rewrite I' by done. clear -Hi. cbn [Z.add Pos.add Pos.succ Pos.add_carry].
  repeat match goal with |- context [i =? ?x] => destruct (Z.eqb_spec i x) end; lia.
Qed.

(** The two words that lead to the frame of a page of the kernel. *)
Lemma page_words m kt v S : vi m kt → holds m kt v S → ∃ T,
  Z.shiftr (v * 4096) 22 = v / 1024 ∧ page_index (v * 4096) = v mod 1024 ∧
  low_word (entry d (v / 1024)) ∧ table_of (pde d m (v / 1024)) = T * 4096 ∧
  low_word (entry (T * 4096) (v mod 1024)) ∧ table_of (pte m T (v mod 1024)) = S * 4096.
Proof.
  intros H (Hv & Hp & HS). pose proof (vi_ks _ _ _ _ _ _ H) as Hks. rewrite (ks_page _ _ _ _ _ _ Hks) in Hp by lia.
  destruct (kt !! (v / 1024)) as [T|] eqn:HT; [|done]. cbn in Hp. unfold slot in Hp.
  destruct (present (pte m T (v mod 1024)) =? 0); [done|]. injection Hp as Hp.
  assert (0 ≤ v / 1024 < 1024 ∧ 0 ≤ v mod 1024 < 1024) as [Hd Hm] by (Z.div_mod_to_equations; lia).
  exists T. split_and!.
  - rewrite Z.shiftr_div_pow2 by lia. change (2 ^ 22) with 4194304. Z.div_mod_to_equations; lia.
  - apply page_index_page. lia.
  - by eapply dir_word.
  - by rewrite (table_of_pde _ _ _ _ _ _ _ Hks HT).
  - by eapply table_word.
  - unfold table_of. rewrite Hp, Z.shiftl_mul_pow2 by lia. change (2 ^ 12) with 4096. destruct HS. rewrite u32_small; lia.
Qed.

Lemma kw_process_stack {B} m kt ep out (k : Z * option Z → M St B) Q :
  vi m kt → low_free s0 m 2 → room kt 1 → 0 ≤ ep < 4294967296 →
  (∀ m' kt' S q, grows s0 d t1 t2 1 [S; S] [q] m kt m' kt' → page_frame m d q = None → was_free s0 m S → data s0 d m' kt' S →
     fresh_stack m' S ep → kw0 (full m') m' (k (0xC0001FD8, (λ _, S * 4096) <$> out)) Q) →
  kw0 (full m) m (create_process_stack ep out ≫= k) Q.
Proof.
  intros H Hl Hr Hep Hk. unfold create_process_stack. apply kw_assoc, kw_cpu. intros t. cbn [kernel_directory]. apply kw_assoc.
  eapply kw_new_page; [exact H|exact Hl|exact Hr|]. intros q S kt1 m1 Hn.
  pose proof (new_page_free _ _ _ _ _ _ _ _ _ _ _ _ Hn) as Hfree. pose proof (new_page_holds _ _ _ _ _ _ _ _ _ _ _ _ H Hn) as Hq.
  pose proof (grows_new_page _ _ _ _ _ _ _ _ _ _ _ _ H Hn) as G1. destruct (np_lowest _ _ _ _ _ _ _ _ _ _ _ _ Hn) as [(Hqr & _ & _ & Hqn) _].
  destruct (Z.eqb_spec (q * 4096) 0) as [E0|_]; [lia|]. apply kw_assoc.
  eapply kw_fill; [apply G1|exact Hq|lia|]. intros m2 S2 Z2.
  pose proof (grows_write s0 d t1 t2 m1 m2 kt1 S (S * 4096) 4096 (gr_vi _ _ _ _ _ _ _ _ _ _ _ G1) (proj2 (proj2 Hq)) ltac:(lia) ltac:(lia) S2) as G2.
  assert (holds m2 kt1 q S) as Hq2 by (eapply grows_holds; [exact G2|set_solver|exact Hq]).
  assert (((q * 4096) ⊞ 4096) ⊟ SIZEOF_CTX = q * 4096 + 4056) as -> by (unfold SIZEOF_CTX, u32; Z.div_mod_to_equations; lia).
  apply kw_assoc. eapply kw_init_context; [apply G2|exact Hq2|exact Hep| |].
  { intros i Hi. apply pte_zero; [|done]. intros x Hx. rewrite Z2 by done. by destruct (Z.ltb_spec x 4096); [|lia]. }
  intros m3 G3 Hst. assert (holds m3 kt1 q S) as Hq3 by (eapply grows_holds; [exact G3|set_solver|exact Hq2]).
  destruct (page_words m3 kt1 q S (gr_vi _ _ _ _ _ _ _ _ _ _ _ G3) Hq3) as (T & -> & -> & W1 & E1 & W2 & E2).
  pose proof (ks_core _ _ _ _ _ (vi_ks _ _ _ _ _ _ (gr_vi _ _ _ _ _ _ _ _ _ _ _ G3))) as Hc. pose proof (Rk_full d t1 t2 m3 Hc) as HR.
  apply kw_assoc, kw_cpu. intros t'. cbn [kernel_directory].
  eapply kw_assoc, kw_bind, (kw_load_ident _ _ _ _ _ _ _ _ _ Hc HR W1). fold (pde d m3 (q / 1024)). rewrite E1.
  eapply kw_assoc, kw_bind, (kw_load_ident _ _ _ _ _ _ _ _ _ Hc HR W2). fold (pte m3 T (q mod 1024)). rewrite E2.
  assert (Z.land (q * 4096 + 4056) 0xFFF = 4056) as ->.
  { change 0xFFF with (Z.ones 12). rewrite Z.land_ones by lia. change (2 ^ 12) with 4096. Z.div_mod_to_equations; lia. }
  change (0xC0001000 ⊞ 4056) with 0xC0001FD8. apply kw_assoc, kw_cpu. intros t''. cbn [kernel_directory]. apply kw_assoc.
  eapply kw_free_page; [apply G3|exact Hqr|]. intros m4 Hf.
  pose proof (grows_freed s0 d t1 t2 m3 m4 kt1 q (gr_vi _ _ _ _ _ _ _ _ _ _ _ G3) (proj1 Hqr) Hf) as G4.
  apply kw_ret_bind. eapply Hk; [|exact Hqn|exact Hfree|apply G4, Hq3|].
  - exact (grows_trans _ _ _ _ _ _ _ _ _ _ _ _ _ _ _ _ G1 (grows_trans _ _ _ _ _ _ _ _ _ _ _ _ _ _ _ _ G2
      (grows_trans _ _ _ _ _ _ _ _ _ _ _ _ _ _ _ _ G3 G4))).
  - intros i Hi. rewrite <- Hst by done. apply pte_same; [|done].
    apply (gr_same _ _ _ _ _ _ _ _ _ _ _ G4); [apply Hq3|set_solver].
Qed.
End stack.

(** ** The control block in memory *)

Section block.
Context {St : Type} `{LM : Lens St mem} `{LC : Lens St Cpu} `{LP : Lens St PmmStatics}.
Context {AC : Apart LM LC} {AP : Apart LM LP} {ACP : Apart LC LP}.
Context (s0 : St) (c0 d t1 t2 : Z).

Abbreviation kw0 := (kw s0 c0 d).
Abbreviation bm := (frame_bitmap (lget s0)).
Abbreviation vi := (vmi d t1 t2 bm).
Abbreviation full := (full d).
Abbreviation source_ok := (source_ok s0 d).
Abbreviation grows := (grows s0 d t1 t2).

(** Writes to memory the manager does not use: nothing changes for it. *)
Lemma kernel_write_any m m' kt (P : Z → Prop) :
  vi m kt → (∀ x, P x → source_ok m kt x) → (∀ x, ¬ P x → get8 m' x = get8 m x) →
  vi m' kt ∧ (∀ q, 0 ≤ q < 1048576 → page_frame m' d q = page_frame m d q) ∧
  (∀ j, 0 ≤ j < total_bits bm → bit m' bm j = bit m bm j) ∧ (∀ x, source_ok m kt x → source_ok m' kt x).
Proof.
  intros H Hsrc Hs. pose proof (vi_ks _ _ _ _ _ _ H) as Hks.
  assert (same_tables d m m' kt) as Hst.
  { destruct (ks_d _ _ _ _ _ Hks) as [Hd0 Hd1]. split.
    - intros i Hi. unfold pde, entry. apply get8_ext_ld32. intros x Hx. apply Hs. intros HP.
      destruct (Hsrc x HP) as (_ & _ & [Ho _] & _). lia.
    - intros i f j Hf Hj. unfold pte, entry. apply get8_ext_ld32. intros x Hx. apply Hs. intros HP.
      destruct (Hsrc x HP) as (_ & _ & [_ Ho] & _). specialize (Ho i f Hf). lia. }
  pose proof (same_tables_ks _ _ _ _ _ _ Hks Hst) as Hks'.
  assert (∀ j, 0 ≤ j < total_bits bm → bit m' bm j = bit m bm j) as Hb.
  { intros j Hj. unfold bit. f_equal. apply get8_ext_ld32. intros x Hx. apply Hs. intros HP.
    destruct (Hsrc x HP) as (_ & Hxb & _). destruct (word_index bm j Hj). unfold off_bitmap in Hxb. lia. }
  split_and!.
  - destruct H. constructor; [done..|]. intros f Hf. rewrite Hb by done. auto.
  - intros q Hq. by apply (same_tables_page d t1 t2 m m' kt).
  - done.
  - intros x (Hr & Hxb & Ht & Hu). split_and!; [lia|lia|done|done|]. intros Hlt. rewrite Hb by lia. auto.
Qed.

Lemma kernel_write m m' kt a n : vi m kt → (∀ x, a ≤ x < a + n → source_ok m kt x) → same_but m m' a n → 1 ≤ n ≤ 4096 →
  grows 0 [a / 4096; (a + n - 1) / 4096] [] m kt m' kt ∧ (∀ x, source_ok m kt x → source_ok m' kt x) ∧
  ∀ q, 0 ≤ q < 1048576 → page_frame m' d q = page_frame m d q.
Proof.
  intros H Hsrc Hs Hn.
  destruct (kernel_write_any m m' kt (λ x, a ≤ x < a + n) H Hsrc) as (H' & Hpg & Hb & Hk); [intros; apply Hs; lia|].
  assert (∀ x G, x / 4096 = G → G ∉ [a / 4096; (a + n - 1) / 4096] → get8 m' x = get8 m x) as Hout.
  { intros x G <- HG. apply Hs. assert (∀ y z : Z, x / 4096 ≠ y ∧ x / 4096 ≠ z → a ≤ x < a + n → y = a / 4096 → z = (a + n - 1) / 4096 → False)
      as Hno by (intros; Z.div_mod_to_equations; lia).
    destruct (Z.lt_ge_cases x a); [lia|]. destruct (Z.lt_ge_cases x (a + n)); [|lia]. exfalso.
    eapply Hno; [|lia|reflexivity|reflexivity]. clear -HG. set_solver. }
  split_and!; [|done|done]. apply (grows_bits s0 d t1 t2); [done|done| | | |by apply Hpg|by intros ? ?%not_elem_of_nil].
  - intros v Hv _. apply Hpg. lia.
  - intros G HG HW x Hx. apply (Hout _ G); [Z.div_mod_to_equations; lia|done].
  - intros x _ _ HW. by apply (Hout x (x / 4096)).
Qed.

(** While a process is loaded, from memory [m1] on: what the manager does not
    use is as it was, the control block at [p] apart, which holds [c]. *)
Context (m1 : mem) (kt1 : gmap Z Z) (p : Z).
Context (Hp : ∀ x, p ≤ x < p + SIZEOF_PCB → source_ok m1 kt1 x).

Record loading (m : mem) (kt : gmap Z Z) (c : ProcessControlBlock) : Prop := {
  lo_vi : vi m kt;
  lo_source : ∀ x, source_ok m1 kt1 x → source_ok m kt x;
  lo_kept : ∀ x, source_ok m1 kt1 x → ¬ (p + OFF_STATE ≤ x < p + SIZEOF_PCB) → get8 m x = get8 m1 x;
  lo_pcb : pcb_rep m p c
}.

Definition pcb_pages : list Z := [p / 4096; (p + 39) / 4096].

Lemma pcb_page G m kt : was_free s0 m G → (∀ x, source_ok m1 kt1 x → source_ok m kt x) → G ∉ pcb_pages.
Proof.
  intros Hf Hs. unfold pcb_pages, SIZEOF_PCB in *. assert (∀ x, p ≤ x < p + 40 → G ≠ x / 4096) as Hne.
  { intros x Hx ->. by apply (was_free_source s0 d m kt (x / 4096) x Hf); [apply Hs, Hp|]. }
  pose proof (Hne p ltac:(lia)). pose proof (Hne (p + 39) ltac:(lia)). set_solver.
Qed.

Lemma loading_grows m kt c n W E m' kt' : loading m kt c → grows n W E m kt m' kt' →
  (∀ G x, G ∈ W → source_ok m1 kt1 x → source_ok m kt x → x / 4096 ≠ G) → loading m' kt' c.
Proof.
  intros [Hv Hs Hk Hc] Hg HW. assert (∀ x, source_ok m1 kt1 x → source_ok m' kt' x ∧ get8 m' x = get8 m x) as Hx.
  { intros x Hx. apply (gr_source _ _ _ _ _ _ _ _ _ _ _ Hg); [auto|]. intros Hin. by apply (HW (x / 4096) x Hin Hx (Hs x Hx)). }
  constructor.
  - apply Hg.
  - intros x Hx'. by apply Hx.
  - intros x Hx' Hout. rewrite (proj2 (Hx x Hx')). auto.
  - eapply pcb_rep_ext; [exact Hc|]. intros x [Hx' _]. by apply Hx, Hp.
Qed.

Lemma loading_mapped m kt c off : loading m kt c → 0 ≤ off ≤ 36 → mapped (p + off) 4.
Proof.
  intros H Hoff. unfold SIZEOF_PCB, mapped, IDENT_LO, IDENT_HI in *.
  destruct (Hp (p + off) ltac:(lia)) as (? & _). destruct (Hp (p + off + 3) ltac:(lia)) as (? & _).
  Z.div_mod_to_equations; lia.
Qed.

(** One assignment to a field of the block. *)
Lemma kw_pcb_store {B} m kt c off w c' (k : unit → M St B) Q :
  loading m kt c → 12 ≤ off ≤ 36 → (pcb_rep m p c → pcb_rep (st32 m (p + off) w) p c') →
  (∀ m', m' = st32 m (p + off) w → loading m' kt c' → grows 0 pcb_pages [] m kt m' kt → kw0 (full m') m' (k tt) Q) →
  kw0 (full m) m (store32 (p + off) w ≫= k) Q.
Proof.
  intros H Hoff Hc Hk. pose proof H as [Hv Hs Hkept Hc0]. set (m' := st32 m (p + off) w).
  pose proof (same_but_st32 m (p + off) w) as Hst.
  assert (∀ x, p + off ≤ x < p + off + 4 → source_ok m kt x) as Hsrc by (intros; apply Hs, Hp; unfold SIZEOF_PCB; lia).
  destruct (kernel_write m m' kt (p + off) 4 Hv Hsrc Hst ltac:(lia)) as (Hg & Hkeep & Hpg).
  assert (grows 0 pcb_pages [] m kt m' kt) as Hg'.
  { eapply grows_weaken; [|exact Hg]. intros x Hx. unfold pcb_pages.
    assert (∀ y, p ≤ y < p + 40 → y / 4096 = p / 4096 ∨ y / 4096 = (p + 39) / 4096) as Hin by (intros; Z.div_mod_to_equations; lia).
    pose proof (Hin (p + off) ltac:(lia)). pose proof (Hin (p + off + 4 - 1) ltac:(lia)). set_solver. }
  assert (loading m' kt c') as H'.
  { constructor; [apply Hg|auto| |by apply Hc]. intros x Hx Hout. unfold OFF_STATE, SIZEOF_PCB in Hout. rewrite Hst by lia.
    apply Hkept; [done|]. unfold OFF_STATE, SIZEOF_PCB. lia. }
  pose proof (loading_mapped m kt c off H ltac:(lia)) as Hm.
  apply kw_bind. intros t Ht. exists tt, m', t, (full m'). split_and!.
  - by rewrite store32_run, kput_mem, kput_put_mem by done.
  - intros q f Hq. destruct (Ht q f Hq) as [Hr Hf]. split; [done|]. by rewrite Hpg.
  - by apply (Hk m').
Qed.

Lemma kw_pcb_load {B} m kt c off (k : Z → M St B) Q : loading m kt c → 0 ≤ off ≤ 36 →
  kw0 (full m) m (k (ld32 m (p + off))) Q → kw0 (full m) m (load32 (p + off) ≫= k) Q.
Proof.
  intros H Hoff Hk. pose proof (loading_mapped m kt c off H Hoff) as Hm. apply kw_bind. intros t Ht.
  exists (ld32 m (p + off)), m, t, (full m). by rewrite load32_run, kput_mem by done.
Qed.

(** ** Loading *)

Context (w0 w1 : Z) (ub : bool) (ep size v D F : Z).
Abbreviation ps := (pspace w0 w1 (Z.b2z ub)).

(** The parts of the new space are apart from the block. *)
Lemma image_pcb_page m kt pg slack n :
  image s0 d t1 t2 w0 w1 (Z.b2z ub) m1 kt1 ep size v D slack n m kt (Some F) pg →
  (D ∉ pcb_pages) ∧ (F ∉ pcb_pages) ∧ ∀ j f, pg !! j = Some f → f ∉ pcb_pages.
Proof.
  intros Him. unfold pcb_pages, SIZEOF_PCB in *.
  destruct (im_source _ _ _ _ _ _ _ _ _ _ _ _ _ _ _ _ _ _ _ Him p) as (_ & _ & ? & ? & Hj); [apply Hp; lia|].
  destruct (im_source _ _ _ _ _ _ _ _ _ _ _ _ _ _ _ _ _ _ _ Him (p + 39)) as (_ & _ & ? & ? & Hj'); [apply Hp; lia|].
  split_and!; [set_solver..|]. intros j f Hf. specialize (Hj j). specialize (Hj' j). rewrite Hf in Hj, Hj'. set_solver.
Qed.

Lemma image_loading m kt pg slack n c :
  image s0 d t1 t2 w0 w1 (Z.b2z ub) m1 kt1 ep size v D slack n m kt (Some F) pg → pcb_rep m1 p c → loading m kt c.
Proof.
  intros Him Hc. pose proof (im_source _ _ _ _ _ _ _ _ _ _ _ _ _ _ _ _ _ _ _ Him) as Hs. constructor.
  - apply Him.
  - intros x Hx. by apply Hs.
  - intros x Hx _. by apply Hs.
  - eapply pcb_rep_ext; [exact Hc|]. intros x [Hx _]. by apply Hs, Hp.
Qed.

(** What is there once the process is loaded. *)
Record loaded (n : nat) (m : mem) (kt : gmap Z Z) (c : ProcessControlBlock) (S : Z) (pg : gmap Z Z) : Prop := {
  ld_loading : loading m kt (set_state STATE_READY (set_stack 0xC0001FD8 (set_space_phys (D * 4096) (set_space (v * 4096) c))));
  ld_dir : holds s0 d m kt v D;
  ld_pspace : ps m D (Some F) (<[1 := S]> pg);
  ld_stack : fresh_stack m S 0xC0000000;
  ld_code : ∀ j, 0 ≤ j < num_pages size → ∃ f, pg !! j = Some f ∧
    ∀ x, 0 ≤ x < 4096 → get8 m (f * 4096 + x) = code_byte m1 ep size (j * 4096 + x);
  ld_rest : ∀ j, num_pages size ≤ j → pg !! j = None;
  ld_apart : ∀ x, source_ok m1 kt1 x → x / 4096 ≠ D ∧ x / 4096 ≠ F ∧ x / 4096 ≠ S ∧ ∀ j, pg !! j ≠ Some (x / 4096);
  ld_low : low_free s0 m (2 * n);
  ld_room : room kt n
}.
End block.

Section load.
Context {St : Type} `{LM : Lens St mem} `{LC : Lens St Cpu} `{LP : Lens St PmmStatics} `{LH : Lens St HeapStatics}.
Context {AC : Apart LM LC} {AP : Apart LM LP} {ACP : Apart LC LP}.
Context (s0 : St) (c0 d t1 t2 : Z).

Abbreviation kw0 := (kw s0 c0 d).
Abbreviation full := (full d).
Abbreviation trans := (grows_trans s0 d t1 t2 _ _ _ _ _ _ _ _ _ _ _ _).

(** What the last steps start from: address space and stack are there, the
    stack is not yet mapped. *)
Record stacked (m1 : mem) (kt1 : gmap Z Z) (p : Z) (c : ProcessControlBlock) (w0 w1 : Z) (ub : bool) (ep size v D F : Z)
    (n : nat) (m : mem) (kt : gmap Z Z) (S : Z) (pg : gmap Z Z) : Prop := {
  sk_loading : loading s0 d t1 t2 m1 kt1 p m kt (set_space_phys (D * 4096) (set_space (v * 4096) c));
  sk_dir : holds s0 d m kt v D;
  sk_table : data s0 d m kt F ∧ F < 2047 ∧ F ≠ D;
  sk_frame : data s0 d m kt S ∧ S ≠ D ∧ S ≠ F;
  sk_off : (D ∉ pcb_pages p) ∧ (F ∉ pcb_pages p) ∧ (S ∉ pcb_pages p);
  sk_pspace : pspace w0 w1 (Z.b2z ub) m D (Some F) pg;
  sk_stack : fresh_stack m S 0xC0000000;
  sk_code : ∀ j, 0 ≤ j < num_pages size → ∃ f, pg !! j = Some f ∧ data s0 d m kt f ∧ f ≠ F ∧ (f ∉ pcb_pages p) ∧
    ∀ x, 0 ≤ x < 4096 → get8 m (f * 4096 + x) = code_byte m1 ep size (j * 4096 + x);
  sk_rest : ∀ j, num_pages size ≤ j → pg !! j = None;
  sk_apart : ∀ x, source_ok s0 d m1 kt1 x → x / 4096 ≠ D ∧ x / 4096 ≠ F ∧ x / 4096 ≠ S ∧ ∀ j, pg !! j ≠ Some (x / 4096);
  sk_low : low_free s0 m (2 * n);
  sk_room : room kt n
}.

(** The stack is mapped and the block completed. *)
Lemma kw_map_stack n m1 kt1 p c w0 w1 ub ep size v D F m kt S pg :
  (∀ x, p ≤ x < p + SIZEOF_PCB → source_ok s0 d m1 kt1 x) → stacked m1 kt1 p c w0 w1 ub ep size v D F n m kt S pg →
  kw0 (full m) m
    (space ← load32 (p + OFF_SPACE);
     vmm_map_frame space 0xC0001000 (S * 4096) true ub ;;
     store32 (p + OFF_STACK) 0xC0001FD8 ;;
     kernel_stack_ptr ← load32 (p + OFF_STACK);
     if kernel_stack_ptr =? 0 then kfree p ;; mret NULL else store32 (p + OFF_STATE) (state_code STATE_READY) ;; mret p)
    (λ r m' R', R' = full m' ∧ r = p ∧ ∃ S pg kt', loaded s0 d t1 t2 m1 kt1 p w0 w1 ub ep size v D F n m' kt' c S pg).
Proof.
  intros Hp [L8 H8 (DF8 & HF2047 & HFD) (DS8 & HSD & HSF) (HD & HF & HSp) Ps8 St8 Pg8 Rest8 Ap8 Low8 Room8].
  eapply (kw_pcb_load s0 c0 d t1 t2 m1 kt1 p Hp); [exact L8|unfold OFF_SPACE; lia|].
  rewrite (pr_space _ _ _ (lo_pcb _ _ _ _ _ _ _ _ _ _ L8)). cbn [address_space set_space set_space_phys].
  assert (1 ≤ S < 1048576) as HSr by apply DS8. change 0xC0001000 with ((768 * 1024 + 1) * 4096).
  eapply (kw_map_present s0 c0 d t1 t2 w0 w1 (Z.b2z ub) m kt v D F pg 1 S ub); [apply L8|exact H8|done|exact HF2047|exact HFD|exact Ps8|lia|lia|done|].
  intros m9 G9 Ps9.
  assert (∀ G x, G ∈ [F] → source_ok s0 d m1 kt1 x → source_ok s0 d m kt x → x / 4096 ≠ G) as HF8.
  { intros G x HG Hx _. assert (G = F) as -> by (clear -HG; set_solver). by apply Ap8. }
  pose proof (loading_grows s0 d t1 t2 m1 kt1 p Hp _ _ _ _ _ _ _ _ L8 G9 HF8) as L9.
  eapply (kw_pcb_store s0 c0 d t1 t2 m1 kt1 p Hp m9 kt _ 36 0xC0001FD8
    (set_stack 0xC0001FD8 (set_space_phys (D * 4096) (set_space (v * 4096) c)))); [exact L9|lia|apply pcb_store_stack; lia|].
  intros m10 _ L10 G10. eapply (kw_pcb_load s0 c0 d t1 t2 m1 kt1 p Hp); [exact L10|unfold OFF_STACK; lia|].
  rewrite (pr_stack _ _ _ (lo_pcb _ _ _ _ _ _ _ _ _ _ L10)). cbn [kernel_stack_ptr set_stack]. change (0xC0001FD8 =? 0) with false. cbv iota.
  eapply (kw_pcb_store s0 c0 d t1 t2 m1 kt1 p Hp m10 kt _ 12 (state_code STATE_READY)
    (set_state STATE_READY (set_stack 0xC0001FD8 (set_space_phys (D * 4096) (set_space (v * 4096) c)))));
    [exact L10|lia|apply pcb_store_state|].
  intros m11 _ L11 G11. apply kw_ret. split_and!; [done|done|]. exists S, pg, kt.
  pose proof (trans G10 G11) as G911. pose proof (trans G9 G911) as G811. cbn [app Nat.add] in G911, G811.
  constructor.
  - exact L11.
  - eapply grows_holds; [exact G811|clear; set_solver|exact H8].
  - eapply pspace_grows; [exact G911|by apply (gr_data _ _ _ _ _ _ _ _ _ _ _ G9), H8| | |exact Ps9].
    + clear -HD. rewrite elem_of_app. tauto.
    + intros F' [= <-]. split; [by apply (gr_data _ _ _ _ _ _ _ _ _ _ _ G9)|]. clear -HF. rewrite elem_of_app. tauto.
  - intros i Hi. rewrite <- St8 by done. apply pte_same; [|done]. apply (gr_same _ _ _ _ _ _ _ _ _ _ _ G811); [exact DS8|].
    clear -HSF HSp. rewrite !elem_of_cons, elem_of_app. naive_solver.
  - intros j Hj. destruct (Pg8 j Hj) as (f & Hf & Df & HfF & Hfp & Hx). exists f. split; [done|].
    intros x Hxr. rewrite <- Hx by done. apply (gr_same _ _ _ _ _ _ _ _ _ _ _ G811); [exact Df| |done].
    clear -Hfp HfF. rewrite !elem_of_cons, elem_of_app. naive_solver.
  - exact Rest8.
  - exact Ap8.
  - by apply (gr_low _ _ _ _ _ _ _ _ _ _ _ G811).
  - by apply (gr_room _ _ _ _ _ _ _ _ _ _ _ G811).
Qed.

(** The stack is prepared. *)
Lemma kw_make_stack n m1 kt1 p c ep size (ub : bool) w0 w1 v D F pg m4 kt4 m7 :
  (∀ x, p ≤ x < p + SIZEOF_PCB → source_ok s0 d m1 kt1 x) → 0 < num_pages size →
  image s0 d t1 t2 w0 w1 (Z.b2z ub) m1 kt1 ep size v D (S n) (num_pages size) m4 kt4 (Some F) pg →
  grows s0 d t1 t2 0 (pcb_pages p ++ [] ++ pcb_pages p) [] m4 kt4 m7 kt4 →
  loading s0 d t1 t2 m1 kt1 p m7 kt4 (set_space_phys (D * 4096) (set_space (v * 4096) c)) →
  kw0 (full m7) m7 (create_process_stack 0xC0000000 (Some 0))
    (λ r m' R', R' = full m' ∧ ∃ S kt', r = (0xC0001FD8, Some (S * 4096)) ∧ stacked m1 kt1 p c w0 w1 ub ep size v D F n m' kt' S pg).
Proof.
  intros Hp Hnp Him G47 L7. destruct (image_pcb_page s0 d t1 t2 m1 kt1 p Hp w0 w1 ub ep size v D F _ _ _ _ _ Him) as (HD & HF & Hpg).
  destruct Him as [V4 H4 Ps4 (DF4 & HF2047 & HFD & _) Pg4 Rest4 _ Src4 Kept4 Low4 Room4 _ _].
  assert (need size (num_pages size) = 0%nat) as E0 by (unfold need; destruct (Z.eqb_spec (num_pages size) 0); lia).
  rewrite E0 in Low4, Room4. cbn [Nat.add Nat.mul] in Low4, Room4.
  assert (∀ G, G ∉ pcb_pages p → G ∉ pcb_pages p ++ [] ++ pcb_pages p) as Hin by (intros G HG; rewrite elem_of_app; tauto).
  apply kw_bind_ret, (kw_process_stack s0 c0 d t1 t2 m7 kt4); [apply L7| | |lia|].
  { apply (gr_low _ _ _ _ _ _ _ _ _ _ _ G47). eapply low_free_le; [|exact Low4]. lia. }
  { apply (gr_room _ _ _ _ _ _ _ _ _ _ _ G47). eapply room_le; [|exact Room4]. lia. }
  intros m8 kt8 S q G8 Hqn HfS DS8 St8. apply kw_ret. split; [done|]. exists S, kt8. split; [done|].
  assert (holds s0 d m7 kt4 v D) as H7 by (eapply grows_holds; [exact G47|set_solver|exact H4]).
  assert (data s0 d m7 kt4 F) as DF7 by (by apply (gr_data _ _ _ _ _ _ _ _ _ _ _ G47)).
  assert (v ≠ q) as Hvq by (intros ->; destruct H7 as (_ & Hv7 & _); congruence).
  pose proof (was_free_data _ _ _ _ _ _ HfS (proj2 (proj2 H7))) as HDS. pose proof (was_free_data _ _ _ _ _ _ HfS DF7) as HFS.
  pose proof (pcb_page s0 d m1 kt1 p Hp S m7 kt4 HfS (lo_source _ _ _ _ _ _ _ _ _ _ L7)) as HSp.
  assert (∀ x, source_ok s0 d m1 kt1 x → x / 4096 ≠ S) as HS7.
  { intros x Hx. eapply was_free_source; [exact HfS|]. by apply L7. }
  constructor.
  - apply (loading_grows s0 d t1 t2 m1 kt1 p Hp _ _ _ _ _ _ _ _ L7 G8).
    intros G x HG Hx _. assert (G = S) as -> by (clear -HG; set_solver). auto.
  - eapply grows_holds; [exact G8|clear -Hvq; set_solver|exact H7].
  - split_and!; [by apply (gr_data _ _ _ _ _ _ _ _ _ _ _ G8)|exact HF2047|exact HFD].
  - done.
  - done.
  - eapply pspace_grows; [exact G8|apply H7|clear -HDS; set_solver| |].
    { intros F' [= <-]. split; [exact DF7|clear -HFS; set_solver]. }
    eapply pspace_grows; [exact G47|apply H4|auto| |exact Ps4]. intros F' [= <-]. auto.
  - exact St8.
  - intros j Hj. destruct (Pg4 j Hj) as (f & Hf & Df & HfD & HfF & Hx). pose proof (trans G47 G8) as G48. exists f.
    split_and!; [done|by apply (gr_data _ _ _ _ _ _ _ _ _ _ _ G48)|congruence|by eapply Hpg|].
    intros x Hxr. rewrite <- Hx by done. apply (gr_same _ _ _ _ _ _ _ _ _ _ _ G48); [exact Df| |done].
    assert (f ≠ S) as HfS' by (eapply was_free_data; [exact HfS|by apply (gr_data _ _ _ _ _ _ _ _ _ _ _ G47)]).
    pose proof (Hin f (Hpg j f Hf)) as Hfp. clear -HfS' Hfp. rewrite elem_of_app, !elem_of_cons, elem_of_nil. tauto.
  - exact Rest4.
  - intros x Hx. destruct (Src4 x Hx) as (_ & _ & HxF & HxD & Hxp). split_and!; [done|congruence|auto|done].
  - apply (gr_low _ _ _ _ _ _ _ _ _ _ _ (trans G47 G8)). eapply low_free_le; [|exact Low4]. lia.
  - apply (gr_room _ _ _ _ _ _ _ _ _ _ _ (trans G47 G8)). eapply room_le; [|exact Room4]. lia.
Qed.

(** The block is told its address space. *)
Lemma kw_name_space {B} m1 kt1 p c m kt v D (k : M St B) Q :
  (∀ x, p ≤ x < p + SIZEOF_PCB → source_ok s0 d m1 kt1 x) →
  loading s0 d t1 t2 m1 kt1 p m kt c → holds s0 d m kt v D →
  (∀ m', grows s0 d t1 t2 0 (pcb_pages p ++ [] ++ pcb_pages p) [] m kt m' kt →
     loading s0 d t1 t2 m1 kt1 p m' kt (set_space_phys (D * 4096) (set_space (v * 4096) c)) → kw0 (full m') m' k Q) →
  kw0 (full m) m (store32 (p + OFF_SPACE) (v * 4096) ;; c ← gets;
    address_space_physical ← vmm_get_physical_address (kernel_directory c) (v * 4096);
    store32 (p + OFF_SPACE_PHYS) address_space_physical ;; k) Q.
Proof.
  intros Hp L4 H4 Hk. assert (2048 ≤ v < 1048576) as Hv by apply H4. assert (1 ≤ D < 1048576) as HDr by apply H4.
  eapply (kw_pcb_store s0 c0 d t1 t2 m1 kt1 p Hp m kt c 28 (v * 4096) (set_space (v * 4096) c)); [exact L4|lia|apply pcb_store_space; lia|].
  intros m5 _ L5 G5. apply kw_cpu. intros t5. cbn [kernel_directory].
  eapply kw_physical_of; [apply L5|eapply grows_holds; [exact G5|apply not_elem_of_nil|exact H4]|]. intros m6 G6.
  pose proof (loading_grows s0 d t1 t2 m1 kt1 p Hp _ _ _ _ _ _ _ _ L5 G6 ltac:(by intros ?? ?%not_elem_of_nil)) as L6.
  eapply (kw_pcb_store s0 c0 d t1 t2 m1 kt1 p Hp m6 kt _ 32 (D * 4096) (set_space_phys (D * 4096) (set_space (v * 4096) c)));
    [exact L6|lia|apply pcb_store_space_phys; lia|].
  intros m7 _ L7 G7. apply Hk; [|exact L7]. exact (trans G5 (trans G6 G7)).
Qed.

Lemma kw_load_process n m1 kt1 p c ep size ub :
  (∀ x, p ≤ x < p + SIZEOF_PCB → source_ok s0 d m1 kt1 x) → vmi d t1 t2 (frame_bitmap (lget s0)) m1 kt1 → pcb_rep m1 p c →
  loadable s0 d (S n) m1 kt1 ep size →
  kw0 (full m1) m1 (load_process p ep size ub) (λ r m' R', R' = full m' ∧ r = p ∧ ∃ w0 w1 v D F S pg kt', 
    kernel_entry w0 t1 ∧ kernel_entry w1 t2 ∧ loaded s0 d t1 t2 m1 kt1 p w0 w1 ub ep size v D F n m' kt' c S pg).
Proof.
  intros Hp H1 Hc Hl. unfold load_process.
  eapply kw_seq; [by apply (kw_create s0 c0 d t1 t2 (S n) m1 kt1)|].
  intros r m4 R4 (-> & v & D & kt4 & F & pg & w0 & w1 & -> & K0 & K1 & Hfree & Him). cbn beta.
  pose proof (image_loading s0 d t1 t2 m1 kt1 p Hp w0 w1 ub ep size v D F _ _ _ _ _ _ Him Hc) as L4.
  assert (holds s0 d m4 kt4 v D) as H4 by apply Him.
  assert (0 < num_pages size) as Hnp.
  { destruct (ld_size _ _ _ _ _ _ _ Hl) as (? & _). unfold num_pages. Z.div_mod_to_equations; lia. }
  eapply kw_name_space; [exact Hp|exact L4|exact H4|]. intros m7 G47 L7.
  eapply kw_seq; [by eapply kw_make_stack|]. intros r m8 R8 (-> & S & kt8 & -> & Hsk). cbn beta iota.
  eapply kw_mono; [by eapply kw_map_stack|]. intros r m' R' (-> & -> & S' & pg' & kt' & Hld).
  split_and!; [done|done|]. by exists w0, w1, v, D, F, S', pg', kt'.
Qed.
End load.
