(* ===== verification/ProcessSpec.v ===== *)
(** * ProcessSpec: what creating a process does

    [create_pcb] on a whole kernel state: heap, address space and allocator
    in order before and after, the control block filled in, and the address
    space of the new process. *)

From S2P Require Import Prelude Memory Alloc KMemory Bitmap Pmm Pcb Paging Mmu Vmm VmmSpec AddrSpace VmmState Process.

Section kernel.
Context {St : Type} `{LM : Lens St mem} `{LC : Lens St Cpu} `{LP : Lens St PmmStatics} `{LH : Lens St HeapStatics} `{LN : Lens St ProcStatics}.
Context {AC : Apart LM LC} {AP : Apart LM LP} {ACP : Apart LC LP} {AH : Apart LM LH} {ACH : Apart LC LH}.
Context {AN : Apart LM LN} {ACN : Apart LC LN} {APN : Apart LP LN} {AHN : Apart LH LN}.
Context (d t1 t2 : Z).

(** Address space, allocator and heap are in order, and the heap lies in
    memory the manager does not use. *)
Record kernel_ok (s : St) (kt : gmap Z Z) (bs : list block) : Prop := {
  ko_vmm : vmm_ok d t1 t2 s kt;
  ko_heap : heap_rep s bs;
  ko_apart : ∀ b x, b ∈ bs → b_addr b ≤ x < b_end b → source_ok s d (lget s) kt x
}.

(** The program's bytes are not in the heap. *)
Definition off_heap (bs : list block) (ep size : Z) : Prop :=
  ∀ b a, b ∈ bs → ep ≤ a < ep + size → ¬ (b_addr b ≤ a < b_end b).

(** The heap's blocks, as bytes. *)
Definition in_heap (bs : list block) (x : Z) : Prop := ∃ b, b ∈ bs ∧ b_addr b ≤ x < b_end b.

Lemma owned_in_heap lo bs x : blocks_ok lo bs → owned bs x → in_heap bs x.
Proof.
  intros Hok (b & Hb & Ho). exists b. split; [done|]. pose proof (blocks_ok_addr _ _ _ Hok Hb). destruct Ho as [Ho|[_ Ho]]; hdr; lia.
Qed.

(** Heap writes leave the manager's state as it is. *)
Lemma heap_write s (m' : mem) kt bs : kernel_ok s kt bs → (∀ x, ¬ in_heap bs x → get8 m' x = get8 (lget s) x) →
  vmm_ok d t1 t2 (lput m' s) kt ∧ (∀ j, 0 ≤ j < total_bits (frame_bitmap (lget s)) → bit m' (frame_bitmap (lget s)) j = bit (lget s) (frame_bitmap (lget s)) j) ∧
  (∀ q, 0 ≤ q < 1048576 → page_frame m' d q = page_frame (lget s) d q) ∧
  ∀ x, source_ok s d (lget s) kt x → source_ok s d m' kt x.
Proof.
  intros [[E3 Ed Ht Hvi] Hh Hsrc] Hm.
  destruct (kernel_write_any s d t1 t2 (lget s) m' kt (in_heap bs) Hvi) as (Hvi' & Hpg & Hb & Hk); [|done|].
  { intros x (b & Hb & Hx). by eapply Hsrc. }
  split_and!; [|done..]. constructor; rewrite ?lget_other', ?lget_lput; try done.
  intros q f Hq. destruct (Ht q f Hq) as [Hr Hf]. split; [done|]. by rewrite Hpg.
Qed.

(** The first part of [create_pcb]: the block from the heap and its fields. *)
Lemma init_pcb_run s p : mapped p SIZEOF_PCB →
  ∃ m' : mem, init_pcb p s = Ok tt (lput m' (lput (mkProc (next_pid (lget s) ⊞ 1)) s)) ∧
    (∃ a b e, pcb_rep m' p (mkPcb (u32 (next_pid (lget s))) STATE_NEW 0 40 0 a b e)) ∧ ld32 m' (p + 4) = NULL ∧ ld32 m' (p + 8) = NULL ∧
    ∀ x, ¬ (p ≤ x < p + SIZEOF_PCB) → get8 m' x = get8 (lget s) x.
Proof.
  intros Hp. unfold init_pcb, SIZEOF_PCB, mapped in *. pcb_off. mrun.
  eexists. split; [reflexivity|]. split_and!.
  - do 3 eexists. constructor; pcb_off; ldst; cbn; try reflexivity.
  - ldst. done.
  - replace (p + 4 + 4) with (p + 8) by lia. by ldst.
  - intros x Hx. ldst. done.
Qed.

(** Everything before the address space. *)
Lemma create_pcb_start s kt bs p bs' ep size ub :
  kernel_ok s kt bs → alloc_spec SIZEOF_PCB bs = Some (p, bs') →
  ∃ s1, create_pcb ep size ub s = load_process p ep size ub s1 ∧ kernel_ok s1 kt bs' ∧
    (∀ x, p ≤ x < p + SIZEOF_PCB → source_ok s1 d (lget s1) kt x) ∧
    (∃ a b e, pcb_rep (lget s1) p (mkPcb (u32 (next_pid (lget s))) STATE_NEW 0 40 0 a b e)) ∧
    next_pid (lget s1) = next_pid (lget s) ⊞ 1 ∧
    (∀ j, 0 ≤ j < total_bits (frame_bitmap (lget s)) → bit (lget s1) (frame_bitmap (lget s)) j = bit (lget s) (frame_bitmap (lget s)) j) ∧
    (∀ q, 0 ≤ q < 1048576 → page_frame (lget s1) d q = page_frame (lget s) d q) ∧
    (∀ x, in_headers bs' x → ¬ (p ≤ x < p + SIZEOF_PCB)) ∧ lget (T:=PmmStatics) s1 = lget s ∧
    (∀ x, source_ok s d (lget s) kt x → source_ok s1 d (lget s1) kt x) ∧
    (∀ x, p ≤ x < p + SIZEOF_PCB → owned bs x) ∧ (∀ x, ¬ owned bs x → get8 (lget s1) x = get8 (lget s) x) ∧
    s1 = lput (lget s1 : mem) (lput (mkProc (next_pid (lget s) ⊞ 1)) s).
Proof.
  intros Hko Ha. pose proof (ko_heap _ _ _ Hko) as [Hbs Hch]. unfold SIZEOF_PCB in *.
  pose proof (kmalloc_refines_spec s bs 40 (ko_heap _ _ _ Hko) ltac:(lia)) as Hk. rewrite Ha in Hk.
  destruct Hk as (m1 & Rk & Hrep1 & Hfr1).
  pose proof (alloc_spec_inside 40 bs p bs' ltac:(lia) Ha) as Hin.
  destruct (alloc_spec_ok 40 bs IDENT_LO p bs' ltac:(lia) Hbs Ha) as (Hbs' & b & Ep & Hsz & Hlive).
  assert (b ∈ live bs') as Hb by (rewrite Hlive; by apply list_elem_of_here).
  pose proof (proj2 (proj1 (elem_of_live b bs') Hb)) as Hb'. destruct (Hin b Hb') as (b0 & Hb0 & Hb1 & Hb2).
  assert (∀ x, p ≤ x < p + 40 → b_addr b0 ≤ x < b_end b0) as Hpb by (intros x Hx; hdr; lia).
  assert (mapped p SIZEOF_PCB) as Hmp by (pose proof (blocks_ok_addr _ _ _ Hbs Hb0); unfold mapped, SIZEOF_PCB; hdr; lia).
  assert (p ≠ 0) as Hp0 by (unfold mapped, IDENT_LO in Hmp; lia).
  destruct (init_pcb_run (lput m1 s) p Hmp) as (m2 & R2 & Hpcb & _ & _ & Hfr2). unfold SIZEOF_PCB in Hfr2.
  rewrite (lget_other' (L:=LM) (K:=LN)) in R2, Hpcb.
  set (n := mkProc (next_pid (lget s) ⊞ 1)) in *. set (s1 := lput m2 (lput n s)).
  rewrite <- (lput_comm (L:=LM) (K:=LN)), lput_lput in R2. fold s1 in R2.
  destruct (alloc_spec_owned 40 bs p bs' ltac:(lia) Ha) as [Hpo _].
  assert (∀ x, ¬ owned bs x → get8 m2 x = get8 (lget s) x) as Hmo.
  { intros x Hx. rewrite Hfr2, lget_lput by (intros Hx'; by apply Hx, Hpo). by apply Hfr1. }
  assert (∀ x, ¬ in_heap bs x → get8 m2 x = get8 (lget s) x) as Hm.
  { intros x Hx. apply Hmo. intros Ho. by apply Hx, (owned_in_heap IDENT_LO). }
  assert (∀ x, in_headers bs' x → ¬ (p ≤ x < p + 40)) as Hhd.
  { intros x Hx%in_headers_owned Hx'. apply (live_not_owned IDENT_LO bs' x Hbs'); [|done].
    exists (region b). split; [by apply list_elem_of_fmap_2|]. unfold in_region, region. cbn. lia. }
  destruct (heap_write s m2 kt bs Hko Hm) as (Hok & Hbits & Hpages & Hsrc).
  assert (∀ x, source_ok s d (lget s) kt x → source_ok s1 d (lget s1) kt x) as Hsrc1.
  { intros x Hx. unfold s1, AddrSpace.source_ok. rewrite lget_lput, (lget_other' (L:=LM) (K:=LP)), (lget_other (L:=LP) (K:=LN)). by apply Hsrc. }
  assert (lget (T:=PmmStatics) s1 = lget s) as Epmm by (unfold s1; by rewrite (lget_other' (L:=LM) (K:=LP)), (lget_other (L:=LP) (K:=LN))).
  assert (lget (T:=mem) s1 = m2) as Em by (unfold s1; by rewrite lget_lput).
  exists s1. split_and!.
  - unfold create_pcb, SIZEOF_PCB. rewrite (bind_ok _ _ _ _ _ Rk). destruct (Z.eqb_spec p 0); [done|]. by rewrite (bind_ok _ _ _ _ _ R2).
  - constructor.
    + destruct Hok as [E3 Ed Ht Hv]. unfold s1. constructor; rewrite ?(lget_other' (L:=LM) (K:=LC)), ?(lget_other (L:=LC) (K:=LN)), ?(lget_other' (L:=LM) (K:=LP)),
        ?(lget_other (L:=LP) (K:=LN)), ?lget_lput in *; done.
    + split; [done|]. rewrite Em. unfold s1. rewrite (lget_other' (L:=LM) (K:=LH)), (lget_other (L:=LH) (K:=LN)).
      destruct Hrep1 as [_ Hc1]. rewrite lget_lput, (lget_other' (L:=LM) (K:=LH)) in Hc1.
      eapply chain_ext_headers; [exact Hc1|]. intros x Hx. rewrite Hfr2, lget_lput by (by apply Hhd). done.
    + intros b' x Hb1' Hx. destruct (Hin b' Hb1') as (b2 & Hb2' & ? & ?). apply Hsrc1. by apply (ko_apart _ _ _ Hko b2); [|lia].
  - intros x Hx. apply Hsrc1. apply (ko_apart _ _ _ Hko b0); [done|by apply Hpb].
  - by rewrite Em.
  - unfold s1. rewrite (lget_other' (L:=LM) (K:=LN)), lget_lput. done.
  - rewrite Em. exact Hbits.
  - rewrite Em. exact Hpages.
  - exact Hhd.
  - done.
  - exact Hsrc1.
  - exact Hpo.
  - rewrite Em. exact Hmo.
  - by rewrite Em.
Qed.

(** The program stays where it is, and memory enough for it. *)
Lemma create_pcb_alloc k s kt bs p bs' ep size ub :
  kernel_ok s kt bs → alloc_spec SIZEOF_PCB bs = Some (p, bs') → loadable s d (S k) (lget s) kt ep size → off_heap bs ep size →
  ∃ s1, create_pcb ep size ub s = load_process p ep size ub s1 ∧ kernel_ok s1 kt bs' ∧
    (∀ x, p ≤ x < p + SIZEOF_PCB → source_ok s1 d (lget s1) kt x) ∧
    (∃ a b e, pcb_rep (lget s1) p (mkPcb (u32 (next_pid (lget s))) STATE_NEW 0 40 0 a b e)) ∧
    next_pid (lget s1) = next_pid (lget s) ⊞ 1 ∧ loadable s1 d (S k) (lget s1) kt ep size ∧
    (∀ i, 0 ≤ i → code_byte (lget s1) ep size i = code_byte (lget s) ep size i) ∧
    (∀ x, in_headers bs' x → ¬ (p ≤ x < p + SIZEOF_PCB)) ∧ lget (T:=PmmStatics) s1 = lget s ∧
    (∀ x, source_ok s d (lget s) kt x → source_ok s1 d (lget s1) kt x) ∧
    (∀ x, p ≤ x < p + SIZEOF_PCB → owned bs x) ∧ (∀ x, ¬ owned bs x → get8 (lget s1) x = get8 (lget s) x) ∧
    s1 = lput (lget s1 : mem) (lput (mkProc (next_pid (lget s) ⊞ 1)) s).
Proof.
  intros Hko Ha Hl Hoff. destruct (create_pcb_start s kt bs p bs' ep size ub Hko Ha)
    as (s1 & R & Hok & Hp & Hc & Hn & Hbits & _ & Hhd & Epmm & Hsrc & Hin & Hm & Es). pose proof (ko_heap _ _ _ Hko) as [Hbs _].
  exists s1. split_and!; try done.
  - destruct Hl as [L1 L2 L3 L4 L5]. constructor; [done|done|intros a Hx; by apply Hsrc, L3| |done].
    unfold low_free in *. rewrite Epmm. destruct L4 as (l & Hnd & Hlen & Hl). exists l. split_and!; [done|done|].
    intros f Hf. destruct (Hl f Hf) as (? & ? & ?). rewrite Hbits by lia. done.
  - intros i Hi. unfold code_byte. destruct (Z.ltb_spec i size); [|done]. apply Hm.
    intros (b' & Hb1' & Hx)%(owned_in_heap IDENT_LO); [|done]. by apply (Hoff b' (ep + i) Hb1'); [lia|].
Qed.

Lemma mem_tlb_heap s s' : mem_tlb s s' → lget (T:=HeapStatics) s' = lget s.
Proof. intros (m & t & ->). by rewrite (lget_other' (L:=LM) (K:=LH)), (lget_other' (L:=LC) (K:=LH)). Qed.
Lemma mem_tlb_proc s s' : mem_tlb s s' → lget (T:=ProcStatics) s' = lget s.
Proof. intros (m & t & ->). by rewrite (lget_other' (L:=LM) (K:=LN)), (lget_other' (L:=LC) (K:=LN)). Qed.

Lemma source_pmm s s' m kt x : lget (T:=PmmStatics) s' = lget s → source_ok s d m kt x → source_ok s' d m kt x.
Proof. intros E. unfold AddrSpace.source_ok. by rewrite E. Qed.

Lemma header_in_heap bs x : in_headers bs x → blocks_ok IDENT_LO bs → in_heap bs x.
Proof. intros Hx Hok. by apply (owned_in_heap IDENT_LO); [|apply in_headers_owned]. Qed.

(** The kernel while a process is loaded: the heap's headers stay. *)
Lemma loading_kernel s s' kt kt' bs p c :
  kernel_ok s kt bs → mem_tlb s s' → (∀ kt', vmi d t1 t2 (frame_bitmap (lget s)) (lget s') kt' → vmm_ok d t1 t2 s' kt') →
  (∀ x, in_headers bs x → ¬ (p ≤ x < p + SIZEOF_PCB)) →
  loading s d t1 t2 (lget s) kt p (lget s') kt' c → kernel_ok s' kt' bs.
Proof.
  intros [Hv [Hbs Hc] Ha] Hm Hok Hhd [Hvi Hsrc Hk _].
  constructor.
  - by apply Hok.
  - split; [done|]. rewrite (mem_tlb_heap _ _ Hm). eapply chain_ext_headers; [exact Hc|]. intros x Hx.
    apply Hk; [|intros Hx'; apply (Hhd x Hx); unfold OFF_STATE in Hx'; lia].
    destruct (header_in_heap _ _ Hx Hbs) as (b & Hb & Hxb). by eapply Ha.
  - intros b x Hb Hx. apply (source_pmm s); [by apply mem_tlb_pmm|]. apply Hsrc. by eapply Ha.
Qed.

(** The state after [create_pcb], in terms of the tables it leaves: directory
    [D], code table [F], stack [S], code pages [pg]; [n] pages are left over. *)
Record created (n : nat) (s s' : St) (kt kt' : gmap Z Z) (bs bs' : list block) (p ep size : Z) (ub : bool)
    (v D F S : Z) (pg : gmap Z Z) : Prop := {
  cr_kernel : kernel_ok s' kt' bs';
  cr_next : next_pid (lget s') = next_pid (lget s) ⊞ 1;
  cr_pcb : pcb_rep (lget s') p (mkPcb (u32 (next_pid (lget s))) STATE_READY 0 40 0 (v * 4096) (D * 4096) 0xC0001FD8);
  cr_dir : page_frame (lget s') d v = Some D ∧ 1 ≤ D < 1048576;
  cr_stack : fresh_stack (lget s') S 0xC0000000;
  cr_space : ∃ w0 w1, kernel_entry w0 t1 ∧ kernel_entry w1 t2 ∧ pspace w0 w1 (Z.b2z ub) (lget s') D (Some F) (<[1 := S]> pg);
  cr_code : ∀ j, 0 ≤ j < num_pages size → ∃ f, pg !! j = Some f ∧
    ∀ x, 0 ≤ x < 4096 → get8 (lget s') (f * 4096 + x) = code_byte (lget s) ep size (j * 4096 + x);
  cr_rest : ∀ j, num_pages size ≤ j → pg !! j = None;
  cr_kept : ∀ x, source_ok s d (lget s) kt x → source_ok s' d (lget s') kt' x ∧ (¬ owned bs x → get8 (lget s') x = get8 (lget s) x) ∧
    x / 4096 ≠ D ∧ x / 4096 ≠ F ∧ x / 4096 ≠ S ∧ ∀ j, pg !! j ≠ Some (x / 4096);
  cr_left : low_free s' (lget s') (2 * n) ∧ room kt' n;
  cr_frame : ∃ (m : mem) (c : Cpu) (pn : ProcStatics), s' = lput m (lput c (lput pn s))
}.

Lemma created_frame s1 s s' (pn : ProcStatics) : s1 = lput (lget s1 : mem) (lput pn s) → mem_tlb s1 s' →
  ∃ (m : mem) (c : Cpu) (pn : ProcStatics), s' = lput m (lput c (lput pn s)).
Proof.
  intros E (m & t & Es). set (c := mkCpu _ _ t _) in Es. exists m, c, pn. clearbody c. rewrite Es, E.
  by rewrite <- (lput_comm (L:=LM) (K:=LC)), lput_lput.
Qed.

Lemma create_pcb_loaded n s kt bs p bs' ep size ub :
  kernel_ok s kt bs → alloc_spec SIZEOF_PCB bs = Some (p, bs') → loadable s d (S n) (lget s) kt ep size → off_heap bs ep size →
  ∃ v D F S pg kt' s', create_pcb ep size ub s = Ok p s' ∧ created n s s' kt kt' bs bs' p ep size ub v D F S pg.
Proof.
  intros Hko Ha Hl Hoff.
  destruct (create_pcb_alloc n s kt bs p bs' ep size ub Hko Ha Hl Hoff)
    as (s1 & R1 & Hko1 & Hp & (a & b & e & Hc) & Hn & Hl1 & Hcode & Hhd & _ & Hsrc1 & Hpin & Hm1 & Es1).
  destruct (kw_state d t1 t2 s1 kt (load_process p ep size ub) (λ r m', r = p ∧ ∃ w0 w1 v D F S pg kt', kernel_entry w0 t1 ∧ kernel_entry w1 t2 ∧
    loaded s1 d t1 t2 (lget s1) kt p w0 w1 ub ep size v D F n m' kt' (mkPcb (u32 (next_pid (lget s))) STATE_NEW 0 40 0 a b e) S pg)
    (ko_vmm _ _ _ Hko1)) as (r & s' & R2 & [-> (w0 & w1 & v & D & F & S & pg & kt' & K0 & K1 & Hld)] & Hm & Hok).
  { eapply kw_mono; [apply (kw_load_process s1 (cr0 (lget s1)) d t1 t2); [exact Hp|apply (ko_vmm _ _ _ Hko1)|exact Hc|exact Hl1]|].
    intros r m' R' (-> & -> & HQ). done. }
  pose proof (loading_kernel s1 s' kt kt' bs' p _ Hko1 Hm Hok Hhd (ld_loading _ _ _ _ _ _ _ _ _ _ _ _ _ _ _ _ _ _ _ _ _ Hld)) as Hko'.
  exists v, D, F, S, pg, kt', s'. rewrite R1. split; [exact R2|].
  destruct Hld as [[_ Hsrc Hkept Hpcb] (Hv & HvD & HD) Hps Hst Hcd Hrest Hap Hlow Hroom].
  constructor.
  - exact Hko'.
  - by rewrite (mem_tlb_proc _ _ Hm).
  - exact Hpcb.
  - split; [exact HvD|apply HD].
  - exact Hst.
  - by exists w0, w1.
  - intros j Hj. destruct (Hcd j Hj) as (f & Hf & Hx). exists f. split; [done|]. intros x Hxr. rewrite Hx by done. apply Hcode. lia.
  - exact Hrest.
  - intros x Hx. pose proof (Hsrc1 x Hx) as Hx1. split_and!; [|intros Hnh; rewrite Hkept, Hm1|by apply Hap..]; [|done|done|done|].
    + apply (source_pmm s1); [by apply mem_tlb_pmm|by apply Hsrc].
    + intros Hpx. apply Hnh, Hpin. unfold OFF_STATE in Hpx. lia.
  - split; [|exact Hroom]. unfold low_free. by rewrite (mem_tlb_pmm _ _ Hm).
  - by eapply created_frame.
Qed.

(** C3: with a free block for it in the heap, a program the kernel can read,
    and memory enough, [create_pcb] returns the block: its pid is the next
    one, it is ready at the highest priority with a quantum of 40, and it
    names the directory and the stack pointer of a new address space. There
    addresses below 8 MB are the kernel's, 0xC0001000 is the process's stack,
    prepared to start at 0xC0000000 with interrupts on, the other pages from
    0xC0000000 on are the program's, and nothing else is mapped. Heap,
    allocator and the kernel's own space stay in order. A program of more
    than one page loses its second page to the stack. *)
Theorem create_pcb_ready s kt bs p bs' ep size ub :
  kernel_ok s kt bs → alloc_spec SIZEOF_PCB bs = Some (p, bs') → loadable s d 1 (lget s) kt ep size → off_heap bs ep size →
  ∃ v D S kt' s', create_pcb ep size ub s = Ok p s' ∧ kernel_ok s' kt' bs' ∧
    next_pid (lget s') = next_pid (lget s) ⊞ 1 ∧
    pcb_rep (lget s') p (mkPcb (u32 (next_pid (lget s))) STATE_READY 0 40 0 (v * 4096) (D * 4096) 0xC0001FD8) ∧
    page_frame (lget s') d v = Some D ∧ fresh_stack (lget s') S 0xC0000000 ∧
    ∀ va, 0 ≤ va < 4294967296 →
      if va <? 0x800000 then
        page_frame (lget s') (D * 4096) (va / 4096) = page_frame (lget s') d (va / 4096) ∧
        ∀ pa r u, translate (lget s') (D * 4096) va = Some (pa, r, u) → u = false
      else if (0xC0001000 <=? va) && (va <? 0xC0002000) then
        translate (lget s') (D * 4096) va = Some (S * 4096 + (va - 0xC0001000), true, ub)
      else if (0xC0000000 <=? va) && (va <? 0xC0000000 + num_pages size * 4096) then
        ∃ pa, translate (lget s') (D * 4096) va = Some (pa, true, ub) ∧
          get8 (lget s') pa = code_byte (lget s) ep size (va - 0xC0000000)
      else translate (lget s') (D * 4096) va = None.
Proof.
  intros Hko Ha Hl Hoff.
  destruct (create_pcb_loaded 0 s kt bs p bs' ep size ub Hko Ha Hl Hoff)
    as (v & D & F & S & pg & kt' & s' & R & [Hko' Hn Hpcb [HvD _] Hst (w0 & w1 & K0 & K1 & Hps) Hcd Hrest _ _ _]).
  exists v, D, S, kt', s'. split_and!; [exact R|exact Hko'|exact Hn|exact Hpcb|exact HvD|exact Hst|].
  intros va Hva. pose proof (pspace_maps d t1 t2 w0 w1 ub _ _ D F _ va (vi_ks _ _ _ _ _ _ (vo_vi _ _ _ _ _ (ko_vmm _ _ _ Hko'))) K0 K1 Hps Hva) as Hmap.
  destruct (va <? 0x800000); [exact Hmap|]. rewrite Hmap. pose proof (ld_pages _ _ _ _ _ _ _ Hl) as Hnp.
  set (j := (va - 0xC0000000) / 4096) in *.
  assert (va - 0xC0000000 = j * 4096 + va mod 4096 ∧ 0 ≤ va mod 4096 < 4096) as (Ev & Hx) by (unfold j; Z.div_mod_to_equations; lia).
  destruct (Z.leb_spec 0xC0001000 va), (Z.ltb_spec va 0xC0002000); cbn [andb].
  { destruct (Z.leb_spec 0xC0000000 va), (Z.ltb_spec va 0xC0400000); try lia. cbn [andb].
    assert (j = 1) as -> by lia. rewrite lookup_insert_eq. cbn. repeat f_equal. lia. }
  all: destruct (Z.leb_spec 0xC0000000 va); [|done || lia]; cbn [andb]; rewrite lookup_insert_ne by lia.
  all: destruct (Z.ltb_spec va (0xC0000000 + num_pages size * 4096)).
  all: try (rewrite Hrest by lia; by destruct (va <? 0xC0400000)).
  all: destruct (Hcd j ltac:(lia)) as (f & Hf & Hb); exists (f * 4096 + va mod 4096); rewrite Hf, Ev;
    (split; [by destruct (Z.ltb_spec va 0xC0400000); [|lia]|]); rewrite Hb by lia; done.
Qed.
End kernel.
