(* ===== verification/Switch.v ===== *)
(** * Switch: saving and restoring the processor's registers
      (src/kernel/arch/i386/proc/ctxswitch.asm)

    The instructions of [context_switch] and [bootstrap_first_process], over
    the general registers and the memory behind the page tables. A call
    pushes its arguments and the return address (cdecl), [ret] pops it. *)

From S2P Require Import Prelude Memory Paging Mmu.

(** ** The processor *)

Record Regs : Type := mkRegs {
  eax : Z; ecx : Z; edx : Z; ebx : Z; esp : Z; ebp : Z; esi : Z; edi : Z; eflags : Z; eip : Z
}.

Definition set_eax (v : Z) (r : Regs) : Regs := mkRegs v (ecx r) (edx r) (ebx r) (esp r) (ebp r) (esi r) (edi r) (eflags r) (eip r).
Definition set_ecx (v : Z) (r : Regs) : Regs := mkRegs (eax r) v (edx r) (ebx r) (esp r) (ebp r) (esi r) (edi r) (eflags r) (eip r).
Definition set_edx (v : Z) (r : Regs) : Regs := mkRegs (eax r) (ecx r) v (ebx r) (esp r) (ebp r) (esi r) (edi r) (eflags r) (eip r).
Definition set_esp (v : Z) (r : Regs) : Regs := mkRegs (eax r) (ecx r) (edx r) (ebx r) v (ebp r) (esi r) (edi r) (eflags r) (eip r).
Definition set_eflags (v : Z) (r : Regs) : Regs := mkRegs (eax r) (ecx r) (edx r) (ebx r) (esp r) (ebp r) (esi r) (edi r) v (eip r).
Definition set_eip (v : Z) (r : Regs) : Regs := mkRegs (eax r) (ecx r) (edx r) (ebx r) (esp r) (ebp r) (esi r) (edi r) (eflags r) v.

(** The flags [popfd] loads in ring 0: all the defined ones but RF, VM, VIF
    and VIP; it clears RF and leaves the other bits. [pushfd] stores VM and
    RF as zero. *)
Definition POPF_MASK : Z := 0x247FD5.
Definition popf_flags (old v : Z) : Z := Z.lor (Z.land v POPF_MASK) (Z.land old 0xFFDA802A).
Definition pushf_image (flags : Z) : Z := Z.land flags 0xFCFFFF.

Section switch.
Context {St : Type} `{LM : Lens St mem} `{LC : Lens St Cpu} `{LR : Lens St Regs}.

Definition upd_regs (f : Regs → Regs) : M St unit := r ← gets; puts (f r).

Definition push (v : Z) : M St unit :=
  upd_regs (λ r, set_esp (esp r ⊟ 4) r) ;;
  r ← gets; vstore32 (esp r) v.
Definition pop : M St Z :=
  r ← gets;
  v ← vload32 (esp r);
  upd_regs (λ r, set_esp (esp r ⊞ 4) r) ;;
  mret v.

(** [pusha] stores the stack pointer from before it; [popa] skips it. *)
Definition pusha : M St unit :=
  r ← gets;
  push (eax r) ;; push (ecx r) ;; push (edx r) ;; push (ebx r) ;;
  push (esp r) ;; push (ebp r) ;; push (esi r) ;; push (edi r).
Definition popa : M St unit :=
  v_edi ← pop; v_esi ← pop; v_ebp ← pop; _ ← pop;
  v_ebx ← pop; v_edx ← pop; v_ecx ← pop; v_eax ← pop;
  upd_regs (λ r, mkRegs v_eax v_ecx v_edx v_ebx (esp r) v_ebp v_esi v_edi (eflags r) (eip r)).
Definition pushfd : M St unit := r ← gets; push (pushf_image (eflags r)).
Definition popf : M St unit := v ← pop; upd_regs (λ r, set_eflags (popf_flags (eflags r) v) r).
Definition ret : M St unit := v ← pop; upd_regs (set_eip v).

(** The end both routines share, from [mov esp, edx] on. *)
Definition load_context : M St unit :=
  upd_regs (λ r, set_esp (edx r) r) ;;
  r ← gets; paging_switch_address_space (ecx r) ;;
  popf ;;
  popa ;;
  ret.

Definition context_switch : M St unit :=
  pusha ;;
  pushfd ;;
  r ← gets; v ← vload32 (esp r ⊞ 40); upd_regs (set_eax v) ;;
  r ← gets; vstore32 (eax r) (esp r) ;;
  r ← gets; v ← vload32 (esp r ⊞ 44); upd_regs (set_edx v) ;;
  r ← gets; v ← vload32 (esp r ⊞ 48); upd_regs (set_ecx v) ;;
  load_context.

Definition bootstrap_first_process : M St unit :=
  r ← gets; v ← vload32 (esp r ⊞ 4); upd_regs (set_edx v) ;;
  r ← gets; v ← vload32 (esp r ⊞ 8); upd_regs (set_ecx v) ;;
  load_context.

(** The calls of sched.c, which return to [return_address]. *)
Definition call_context_switch (return_address old_stack_ptr new_stack_ptr new_cr3 : Z) : M St unit :=
  push new_cr3 ;; push new_stack_ptr ;; push old_stack_ptr ;; push return_address ;; context_switch.
Definition call_bootstrap (return_address new_stack_ptr new_cr3 : Z) : M St unit :=
  push new_cr3 ;; push new_stack_ptr ;; push return_address ;; bootstrap_first_process.
End switch.

(** ** Runs *)

(** The processor reaches frame [F] through page [p]: from its cache or by
    the walk. *)
Definition sees (m : mem) (c : Cpu) (p F : Z) : Prop :=
  tlb c !! p = Some F ∨ (tlb c !! p = None ∧ page_frame m (cr3 c) p = Some F).

(** The flags of a processor in ring 0 outside virtual-8086 mode: only the
    defined bits that [popfd] loads, and bit 1, which is always set. *)
Definition flags_ok (f : Z) : Prop := Z.land f (Z.lnot POPF_MASK) = 2.
Definition regs_ok (r : Regs) : Prop :=
  Forall (λ v, 0 ≤ v < 4294967296) [eax r; ecx r; edx r; ebx r; ebp r; esi r; edi r] ∧ flags_ok (eflags r).

Lemma flags_split f : flags_ok f → Z.lor (Z.land f POPF_MASK) 2 = f.
Proof. unfold flags_ok. intros <-. by rewrite <- Z.land_lor_distr_r, Z.lor_lnot_diag, Z.land_m1_r. Qed.

Lemma flags_range f : flags_ok f → 0 ≤ f < 4294967296.
Proof.
  intros H. rewrite <- (flags_split f H). clear H. assert (0 ≤ Z.land f POPF_MASK < 4194304) as [H1 H2].
  { replace (Z.land f POPF_MASK) with (Z.land (Z.land f POPF_MASK) (Z.ones 22)) by (rewrite <- Z.land_assoc; done).
    rewrite Z.land_ones by done. apply Z.mod_pos_bound. done. }
  split; [apply Z.lor_nonneg; lia|].
  destruct (decide (Z.land f POPF_MASK = 0)) as [->|Hne]; [done|].
  apply Z.log2_lt_cancel. rewrite Z.log2_lor by lia. change (Z.log2 2) with 1. change (Z.log2 4294967296) with 32.
  assert (Z.log2 (Z.land f POPF_MASK) < 22) by (apply Z.log2_lt_pow2; [lia|done]). lia.
Qed.

Lemma pop_push_flags old f : flags_ok old → flags_ok f → popf_flags old (u32 (pushf_image f)) = f.
Proof.
  intros Ho Hf. pose proof (flags_range f Hf) as Hr. unfold popf_flags, pushf_image.
  assert (u32 (Z.land f 0xFCFFFF) = Z.land f 0xFCFFFF) as ->.
  { apply u32_small. change 0xFCFFFF with (Z.land 0xFCFFFF (Z.ones 32)). rewrite Z.land_assoc, Z.land_ones by done. apply Z.mod_pos_bound. done. }
  rewrite <- Z.land_assoc. change (Z.land 0xFCFFFF POPF_MASK) with POPF_MASK.
  assert (Z.land old 0xFFDA802A = 2) as ->.
  { change 0xFFDA802A with (Z.land (Z.lnot POPF_MASK) 0xFFDA802A). by rewrite Z.land_assoc, Ho. }
  by apply flags_split.
Qed.

(** The words [vs] pushed below address [a]. *)
Fixpoint push_words (m : mem) (a : Z) (vs : list Z) : mem :=
  match vs with [] => m | v :: vs => push_words (st32 m (a - 4) v) (a - 4) vs end.

Lemma push_words_same vs : ∀ m a, same_but m (push_words m a vs) (a - 4 * Z.of_nat (length vs)) (4 * Z.of_nat (length vs)).
Proof.
  induction vs as [|v vs IH]; intros m a x Hx; cbn [push_words length] in *; [done|].
  rewrite IH by lia. apply same_but_st32. lia.
Qed.

Lemma push_words_read vs : ∀ m a (i : nat) v, vs !! i = Some v → ld32 (push_words m a vs) (a - 4 * (Z.of_nat i + 1)) = u32 v.
Proof.
  induction vs as [|w vs IH]; intros m a i v Hi; [done|]. cbn [push_words]. destruct i as [|i]; cbn in Hi.
  - injection Hi as ->. rewrite (same_but_ld32 _ _ _ _ _ (push_words_same vs _ _)) by lia. apply ld32_st32.
  - replace (a - 4 * (Z.of_nat (S i) + 1)) with (a - 4 - 4 * (Z.of_nat i + 1)) by lia. by apply IH.
Qed.

(** The cache after an access to page [p]. *)
Definition touch (c : Cpu) (p F : Z) : Cpu := mkCpu (cr0 c) (cr3 c) (<[p := F]> (tlb c)) (kernel_directory c).

Lemma touch_sees m c p F : sees m (touch c p F) p F.
Proof. left. apply lookup_insert_eq. Qed.
Lemma touch_touch c p F : touch (touch c p F) p F = touch c p F.
Proof. unfold touch. cbn. by rewrite insert_insert_eq. Qed.

Section runs.
Context {St : Type} `{LM : Lens St mem} `{LC : Lens St Cpu} `{LR : Lens St Regs}.
Context {AC : Apart LM LC} {AR : Apart LM LR} {ACR : Apart LC LR}.
Context (s0 : St).

(** A state of the processor; the rest is as in [s0]. *)
Definition cfg (m : mem) (c : Cpu) (r : Regs) : St := lput m (lput c (lput r s0)).

Lemma cfg_mem m c r : lget (T:=mem) (cfg m c r) = m.
Proof. apply lget_lput. Qed.
Lemma cfg_cpu m c r : lget (T:=Cpu) (cfg m c r) = c.
Proof. unfold cfg. by rewrite (lget_other' (L:=LM) (K:=LC)), lget_lput. Qed.
Lemma cfg_regs m c r : lget (T:=Regs) (cfg m c r) = r.
Proof. unfold cfg. by rewrite (lget_other' (L:=LM) (K:=LR)), (lget_other' (L:=LC) (K:=LR)), lget_lput. Qed.
Lemma cfg_put_mem m c r (m' : mem) : lput m' (cfg m c r) = cfg m' c r.
Proof. apply lput_lput. Qed.
Lemma cfg_put_cpu m c r (c' : Cpu) : lput c' (cfg m c r) = cfg m c' r.
Proof. unfold cfg. by rewrite <- (lput_comm (L:=LM) (K:=LC)), lput_lput. Qed.
Lemma cfg_put_regs m c r (r' : Regs) : lput r' (cfg m c r) = cfg m c r'.
Proof. unfold cfg. by rewrite <- (lput_comm (L:=LM) (K:=LR)), <- (lput_comm (L:=LC) (K:=LR)), lput_lput. Qed.

Lemma upd_regs_cfg m c r f : upd_regs f (cfg m c r) = Ok tt (cfg m c (f r)).
Proof. unfold upd_regs. rewrite bind_gets, cfg_regs. unfold puts. by rewrite cfg_put_regs. Qed.

Lemma mmu_addr_cfg m c r p F o : sees m c p F → 0 ≤ p → 0 ≤ o < 4096 →
  mmu_addr (p * 4096 + o) (cfg m c r) = Ok (F * 4096 + o) (cfg m (touch c p F) r).
Proof.
  intros Hs Hp Ho. unfold mmu_addr, mmu_page.
  assert ((p * 4096 + o) / 4096 = p ∧ (p * 4096 + o) mod 4096 = o) as [-> ->] by (Z.div_mod_to_equations; lia).
  destruct Hs as [E|[E Hpf]].
  - erewrite bind_ok; [|rewrite bind_gets, cfg_cpu, E; reflexivity]. unfold touch. rewrite insert_id by done. by destruct c.
  - erewrite bind_ok; [reflexivity|]. rewrite bind_gets, cfg_cpu, E, bind_gets, cfg_mem.
    destruct (translate_page m (cr3 c) (p * 4096 + o) ltac:(lia)) as [[_ Hn]|(f & ? & ? & -> & Hf)];
      replace ((p * 4096 + o) / 4096) with p in * by (Z.div_mod_to_equations; lia); [congruence|].
    rewrite bind_puts, cfg_put_cpu. assert (f = F) as -> by congruence.
    assert ((p * 4096 + o) mod 4096 = o) as -> by (Z.div_mod_to_equations; lia).
    unfold touch. by replace ((F * 4096 + o) / 4096) with F by (Z.div_mod_to_equations; lia).
Qed.

Lemma vload32_cfg m c r p F o : sees m c p F → 0 ≤ p → 0 ≤ o ≤ 4092 →
  vload32 (p * 4096 + o) (cfg m c r) = Ok (ld32 m (F * 4096 + o)) (cfg m (touch c p F) r).
Proof.
  intros Hs Hp Ho. unfold vload32. destruct (Z.leb_spec ((p * 4096 + o) mod 4096) 4092); [|Z.div_mod_to_equations; lia].
  rewrite (bind_ok _ _ _ _ _ (mmu_addr_cfg m c r p F o Hs Hp ltac:(lia))), bind_gets, cfg_mem. done.
Qed.

Lemma vstore32_cfg m c r p F o v : sees m c p F → 0 ≤ p → 0 ≤ o ≤ 4092 →
  vstore32 (p * 4096 + o) v (cfg m c r) = Ok tt (cfg (st32 m (F * 4096 + o) v) (touch c p F) r).
Proof.
  intros Hs Hp Ho. unfold vstore32. destruct (Z.leb_spec ((p * 4096 + o) mod 4096) 4092); [|Z.div_mod_to_equations; lia].
  rewrite (bind_ok _ _ _ _ _ (mmu_addr_cfg m c r p F o Hs Hp ltac:(lia))), bind_gets, cfg_mem. unfold puts. by rewrite cfg_put_mem.
Qed.

(** The registers loaded from the ten words at [a], with the stack pointer
    [e] after them. *)
Definition resume (m : mem) (a e flags : Z) : Regs :=
  mkRegs (ld32 m (a + 32)) (ld32 m (a + 28)) (ld32 m (a + 24)) (ld32 m (a + 20)) e (ld32 m (a + 12)) (ld32 m (a + 8)) (ld32 m (a + 4))
    (popf_flags flags (ld32 m a)) (ld32 m (a + 36)).

(** The stack pointer at offset [o] of page [p]. *)
Definition at_sp (r : Regs) (p o : Z) : Regs := set_esp (p * 4096 + o) r.

Lemma push_cfg m c r p F o v : sees m c p F → 0 ≤ p < 1048576 → 4 ≤ o ≤ 4096 →
  push v (cfg m c (at_sp r p o)) = Ok tt (cfg (st32 m (F * 4096 + (o - 4)) v) (touch c p F) (at_sp r p (o - 4))).
Proof.
  intros Hs Hp Ho. unfold push. rewrite (bind_ok _ _ _ _ _ (upd_regs_cfg _ _ _ _)), bind_gets, cfg_regs.
  cbn [esp set_esp at_sp]. assert ((p * 4096 + o) ⊟ 4 = p * 4096 + (o - 4)) as -> by (rewrite u32_small by lia; lia).
  change (set_esp _ (at_sp r p o)) with (at_sp r p (o - 4)). by apply vstore32_cfg; [..|lia|lia].
Qed.

Lemma pop_cfg m c r p F o : sees m c p F → 0 ≤ p < 1048575 → 0 ≤ o ≤ 4092 →
  pop (cfg m c (at_sp r p o)) = Ok (ld32 m (F * 4096 + o)) (cfg m (touch c p F) (at_sp r p (o + 4))).
Proof.
  intros Hs Hp Ho. unfold pop. rewrite bind_gets, cfg_regs. cbn [esp set_esp at_sp].
  rewrite (bind_ok _ _ _ _ _ (vload32_cfg _ _ _ _ _ _ Hs ltac:(lia) Ho)), (bind_ok _ _ _ _ _ (upd_regs_cfg _ _ _ _)).
  unfold at_sp, set_esp. cbn. by replace ((p * 4096 + o) ⊞ 4) with (p * 4096 + (o + 4)) by (rewrite u32_small by lia; lia).
Qed.

(** An argument into a register. *)
Lemma load_arg_cfg {B} (set : Z → Regs → Regs) (k : M St B) m c r p F o off :
  sees m c p F → esp r = p * 4096 + o → 0 ≤ p < 1048576 → 0 ≤ o → 0 ≤ off → o + off ≤ 4092 →
  (r ← gets; v ← vload32 (esp r ⊞ off); upd_regs (set v) ;; k) (cfg m c r) = k (cfg m (touch c p F) (set (ld32 m (F * 4096 + (o + off))) r)).
Proof.
  intros Hs He Hp Ho1 Ho2 Ho3. rewrite bind_gets, cfg_regs, He, u32_small by lia. rewrite <- Z.add_assoc.
  rewrite (bind_ok _ _ _ _ _ (vload32_cfg m c r p F (o + off) Hs ltac:(lia) ltac:(lia))). by rewrite (bind_ok _ _ _ _ _ (upd_regs_cfg _ _ _ _)).
Qed.

(** A run of pushes. *)
Fixpoint push_list (v : Z) (vs : list Z) : M St unit :=
  match vs with [] => push v | v' :: vs' => push v ;; push_list v' vs' end.

Lemma push_list_cfg vs : ∀ v m c r p F o, let n := 4 + 4 * Z.of_nat (length vs) in sees m c p F → 0 ≤ p < 1048576 → n ≤ o ≤ 4096 →
  push_list v vs (cfg m c (at_sp r p o)) = Ok tt (cfg (push_words m (F * 4096 + o) (v :: vs)) (touch c p F) (at_sp r p (o - n))).
Proof.
  induction vs as [|v' vs IH]; intros v m c r p F o n Hs Hp Ho; unfold n in *; cbn [push_list push_words length] in *.
  - rewrite (push_cfg m c r p F o v Hs Hp Ho). by replace (F * 4096 + (o - 4)) with (F * 4096 + o - 4) by lia.
  - rewrite (bind_ok _ _ _ _ _ (push_cfg m c r p F o v Hs Hp ltac:(lia))). replace (F * 4096 + (o - 4)) with (F * 4096 + o - 4) by lia.
    rewrite (IH _ _ _ _ _ F); [|apply touch_sees|done|lia]. rewrite touch_touch. cbn [push_words].
    replace (F * 4096 + (o - 4)) with (F * 4096 + o - 4) by lia. do 3 f_equal. lia.
Qed.

(** The registers as they are saved, from the stack pointer down. *)
Definition saved_words (r : Regs) : list Z :=
  [eax r; ecx r; edx r; ebx r; esp r; ebp r; esi r; edi r; pushf_image (eflags r)].

Lemma save_cfg {B} (k : M St B) m c r p F o : sees m c p F → 0 ≤ p < 1048576 → 36 ≤ o ≤ 4096 →
  (pusha ;; pushfd ;; k) (cfg m c (at_sp r p o)) =
    k (cfg (push_words m (F * 4096 + o) (saved_words (at_sp r p o))) (touch c p F) (at_sp r p (o - 36))).
Proof.
  intros Hs Hp Ho. erewrite bind_ok; [|unfold pusha; rewrite bind_gets, cfg_regs].
  2: { refine (push_list_cfg [_; _; _; _; _; _; _] _ m c r p F o Hs Hp _). cbn [length]. lia. }
  erewrite bind_ok; [|unfold pushfd; rewrite bind_gets, cfg_regs; apply push_cfg; [apply touch_sees|done|cbn [length]; lia]].
  rewrite touch_touch. unfold saved_words. cbn [push_words length]. do 2 f_equal; [f_equal; lia|f_equal; lia].
Qed.

Lemma popf_cfg m c r p F o : sees m c p F → 0 ≤ p < 1048575 → 0 ≤ o ≤ 4092 →
  popf (cfg m c (at_sp r p o)) =
    Ok tt (cfg m (touch c p F) (at_sp (set_eflags (popf_flags (eflags r) (ld32 m (F * 4096 + o))) r) p (o + 4))).
Proof. intros Hs Hp Ho. unfold popf. rewrite (bind_ok _ _ _ _ _ (pop_cfg m c r p F o Hs Hp Ho)). by rewrite upd_regs_cfg. Qed.

Lemma ret_cfg m c r p F o : sees m c p F → 0 ≤ p < 1048575 → 0 ≤ o ≤ 4092 →
  ret (cfg m c (at_sp r p o)) = Ok tt (cfg m (touch c p F) (at_sp (set_eip (ld32 m (F * 4096 + o)) r) p (o + 4))).
Proof. intros Hs Hp Ho. unfold ret. rewrite (bind_ok _ _ _ _ _ (pop_cfg m c r p F o Hs Hp Ho)). by rewrite upd_regs_cfg. Qed.

(** [popa], from words [a] on. *)
Lemma popa_cfg m c r p F o : sees m c p F → 0 ≤ p < 1048575 → 0 ≤ o ≤ 4064 → let a := F * 4096 + o in
  popa (cfg m c (at_sp r p o)) =
    Ok tt (cfg m (touch c p F) (mkRegs (ld32 m (a + 28)) (ld32 m (a + 24)) (ld32 m (a + 20)) (ld32 m (a + 16)) (p * 4096 + (o + 32))
      (ld32 m (a + 8)) (ld32 m (a + 4)) (ld32 m a) (eflags r) (eip r))).
Proof.
  intros Hs Hp Ho a. unfold popa. pose proof (touch_sees m c p F) as Ht.
  rewrite (bind_ok _ _ _ _ _ (pop_cfg m c r p F o Hs Hp ltac:(lia))).
  assert (∀ k, 0 ≤ k ≤ 4092 → pop (cfg m (touch c p F) (at_sp r p k)) = Ok (ld32 m (F * 4096 + k)) (cfg m (touch c p F) (at_sp r p (k + 4)))) as Hpop.
  { intros k Hk. by rewrite (pop_cfg m (touch c p F) r p F k Ht Hp Hk), touch_touch. }
  do 7 (erewrite bind_ok; [|apply Hpop; lia]). rewrite upd_regs_cfg. cbn [at_sp set_esp esp eflags eip].
  unfold a. repeat (rewrite <- Z.add_assoc; cbn [Z.add Pos.add Pos.succ]). done.
Qed.

Lemma load_context_cfg m c r dir p F o : edx r = p * 4096 + o → ecx r = dir → page_frame m dir p = Some F → 0 ≤ p < 1048575 → 0 ≤ o ≤ 4056 →
  load_context (cfg m c r) =
    Ok tt (cfg m (mkCpu (cr0 c) dir (<[p := F]> ∅) (kernel_directory c)) (resume m (F * 4096 + o) (p * 4096 + (o + 40)) (eflags r))).
Proof.
  intros Hd Hc Hpf Hp Ho. unfold load_context. set (c' := mkCpu (cr0 c) dir ∅ (kernel_directory c)).
  assert (sees m c' p F) as Hs by (by right). pose proof (touch_sees m c' p F) as Ht.
  rewrite (bind_ok _ _ _ _ _ (upd_regs_cfg _ _ _ _)), bind_gets, cfg_regs. rewrite Hd. fold (at_sp r p o).
  erewrite bind_ok; [|unfold paging_switch_address_space; rewrite bind_gets, cfg_cpu; unfold puts; rewrite cfg_put_cpu; reflexivity].
  replace (ecx (at_sp r p o)) with dir by done. fold c'.
  rewrite (bind_ok _ _ _ _ _ (popf_cfg m c' r p F o Hs Hp ltac:(lia))), (bind_ok _ _ _ _ _ (popa_cfg m _ _ p F (o + 4) Ht Hp ltac:(lia))), touch_touch.
  cbn [eflags eip set_eflags].
  match goal with |- ret (cfg _ _ ?r1) = _ => change r1 with (at_sp r1 p (o + 4 + 32)) end.
  rewrite (ret_cfg m _ _ p F (o + 4 + 32) Ht Hp ltac:(lia)), touch_touch. unfold resume, at_sp, set_eip, set_esp. cbn.
  repeat (rewrite <- Z.add_assoc; cbn [Z.add Pos.add Pos.succ]). done.
Qed.

(** The memory after the first half of [context_switch]: the registers below
    [a], their place at [b]. *)
Definition switched_out (m : mem) (a b : Z) (r : Regs) : mem :=
  st32 (push_words m a (saved_words r)) b (esp r - 36).

(** What [context_switch] finds: its stack frame in frame [F] of page [p],
    whose arguments name the place [b] for the stack pointer, the stack and
    the directory to go to. *)
Record frame_at (m : mem) (c : Cpu) (r : Regs) (p F o b dir p' o' : Z) : Prop := {
  fa_page : 0 ≤ p < 1048576 ∧ 36 ≤ o ∧ o + 16 ≤ 4096 ∧ esp r = p * 4096 + o;
  fa_sees : sees m c p F;
  fa_ptr : ∃ q G x, ld32 m (F * 4096 + o + 4) = q * 4096 + x ∧ 0 ≤ q ∧ 0 ≤ x ≤ 4092 ∧ b = G * 4096 + x ∧
    sees (push_words m (F * 4096 + o) (saved_words r)) (touch c p F) q G;
  fa_apart : b + 4 ≤ F * 4096 + o - 36 ∨ F * 4096 + o + 16 ≤ b;
  fa_stack : ld32 m (F * 4096 + o + 8) = p' * 4096 + o' ∧ 0 ≤ p' < 1048575 ∧ 0 ≤ o' ≤ 4056;
  fa_dir : ld32 m (F * 4096 + o + 12) = dir
}.

Lemma context_switch_cfg m c r p F o b dir p' o' F' :
  frame_at m c r p F o b dir p' o' → let m2 := switched_out m (F * 4096 + o) b r in page_frame m2 dir p' = Some F' →
  context_switch (cfg m c r) =
    Ok tt (cfg m2 (mkCpu (cr0 c) dir (<[p' := F']> ∅) (kernel_directory c)) (resume m2 (F' * 4096 + o') (p' * 4096 + (o' + 40)) (eflags r))).
Proof.
  intros [(Hp & Ho1 & Ho2 & Hesp) Hs (q & G & x & Eptr & Hq & Hx & -> & Hb) Hap (Est & Hp' & Ho') Edir] m2 Hpf. unfold context_switch.
  assert (r = at_sp r p o) as Er by (destruct r; cbn in *; by subst). rewrite Er, (save_cfg _ m c r p F o Hs Hp ltac:(lia)), <- Er.
  set (m1 := push_words m (F * 4096 + o) (saved_words r)) in *.
  pose proof (push_words_same (saved_words r) m (F * 4096 + o)) as S1. fold m1 in S1. cbn [saved_words length] in S1.
  assert (∀ k, 0 ≤ k → ld32 m1 (F * 4096 + o + k) = ld32 m (F * 4096 + o + k)) as L1 by (intros; apply (same_but_ld32 _ _ _ _ _ S1); lia).
  assert (∀ k, 0 ≤ k → k + 4 ≤ 16 → ld32 m2 (F * 4096 + o + k) = ld32 m (F * 4096 + o + k)) as L2.
  { intros k Hk1 Hk2. rewrite <- L1 by done. unfold m2, switched_out. apply (same_but_ld32 _ _ _ _ _ (same_but_st32 _ _ _)). lia. }
  assert (esp (at_sp r p (o - 36)) = p * 4096 + (o - 36)) as Ee by done.
  rewrite (load_arg_cfg set_eax _ m1 _ _ p F (o - 36) 40 (touch_sees _ _ _ _) Ee), touch_touch by lia.
  replace (F * 4096 + (o - 36 + 40)) with (F * 4096 + o + 4) by lia. rewrite L1, Eptr, bind_gets, cfg_regs by lia. cbn [eax set_eax].
  erewrite bind_ok; [|apply (vstore32_cfg m1 _ _ q G x); done || lia].
  match goal with |- context [st32 m1 _ ?e] => replace e with (esp r - 36) by (cbn [esp set_eax at_sp set_esp]; lia) end. fold (switched_out m (F * 4096 + o) (G * 4096 + x) r) m2.
  assert (sees m2 (touch (touch c p F) q G) p F) as Hs2.
  { unfold touch. cbn. destruct (decide (q = p)) as [->|Hne]; [|left; cbn; by rewrite lookup_insert_ne, lookup_insert_eq].
    destruct Hb as [Hb|[Hb _]]; cbn in Hb; rewrite lookup_insert_eq in Hb; [|done]. injection Hb as <-. left. cbn. by rewrite lookup_insert_eq. }
  set (r2 := set_eax _ _). assert (esp r2 = p * 4096 + (o - 36)) as E2 by done.
  rewrite (load_arg_cfg set_edx _ m2 _ _ p F (o - 36) 44 Hs2 E2) by lia.
  assert (esp (set_edx (ld32 m2 (F * 4096 + (o - 36 + 44))) r2) = p * 4096 + (o - 36)) as E3 by done.
  rewrite (load_arg_cfg set_ecx _ m2 _ _ p F (o - 36) 48 (touch_sees _ _ _ _) E3), touch_touch by lia.
  rewrite (load_context_cfg m2 _ _ dir p' F' o'); cbn [edx ecx set_edx set_ecx]; [done| | |done|done|done].
  - replace (F * 4096 + (o - 36 + 44)) with (F * 4096 + o + 8) by lia. rewrite L2 by lia. done.
  - replace (F * 4096 + (o - 36 + 48)) with (F * 4096 + o + 12) by lia. rewrite L2 by lia. done.
Qed.

(** [bootstrap_first_process] leaves the registers it has. *)
Lemma bootstrap_cfg m c r p F o dir p' o' F' : sees m c p F → esp r = p * 4096 + o → 0 ≤ p < 1048576 → 0 ≤ o ≤ 4084 →
  ld32 m (F * 4096 + (o + 4)) = p' * 4096 + o' → ld32 m (F * 4096 + (o + 8)) = dir → page_frame m dir p' = Some F' →
  0 ≤ p' < 1048575 → 0 ≤ o' ≤ 4056 →
  bootstrap_first_process (cfg m c r) =
    Ok tt (cfg m (mkCpu (cr0 c) dir (<[p' := F']> ∅) (kernel_directory c)) (resume m (F' * 4096 + o') (p' * 4096 + (o' + 40)) (eflags r))).
Proof.
  intros Hs Hesp Hp Ho Est Edir Hpf Hp' Ho'. unfold bootstrap_first_process.
  rewrite (load_arg_cfg set_edx _ m _ _ p F o 4 Hs Hesp) by lia.
  assert (esp (set_edx (ld32 m (F * 4096 + (o + 4))) r) = p * 4096 + o) as E by done.
  rewrite (load_arg_cfg set_ecx _ m _ _ p F o 8 (touch_sees _ _ _ _) E), touch_touch by lia.
  by rewrite (load_context_cfg m _ _ dir p' F' o').
Qed.

(** The call of it, with its arguments on the stack. *)
Lemma call_bootstrap_cfg m c r p F o ra dir p' o' F' : let m1 := push_words m (F * 4096 + o) [dir; p' * 4096 + o'; ra] in
  sees m c p F → esp r = p * 4096 + o → 0 ≤ p < 1048576 → 12 ≤ o ≤ 4096 → 0 ≤ dir < 4294967296 → page_frame m1 dir p' = Some F' →
  0 ≤ p' < 1048575 → 0 ≤ o' ≤ 4056 →
  call_bootstrap ra (p' * 4096 + o') dir (cfg m c r) =
    Ok tt (cfg m1 (mkCpu (cr0 c) dir (<[p' := F']> ∅) (kernel_directory c)) (resume m1 (F' * 4096 + o') (p' * 4096 + (o' + 40)) (eflags r))).
Proof.
  intros m1 Hs Hesp Hp Ho Hdir Hpf Hp' Ho'. assert (r = at_sp r p o) as Er by (destruct r; cbn in *; by subst).
  pose proof (touch_sees m c p F) as Ht. assert (∀ mm, sees mm (touch c p F) p F) as Htm by (intros; apply touch_sees).
  unfold call_bootstrap. rewrite Er at 1. rewrite (bind_ok _ _ _ _ _ (push_cfg m c r p F o dir Hs Hp ltac:(lia))).
  rewrite (bind_ok _ _ _ _ _ (push_cfg _ _ r p F (o - 4) _ (Htm _) Hp ltac:(lia))), touch_touch.
  rewrite (bind_ok _ _ _ _ _ (push_cfg _ _ r p F (o - 4 - 4) ra (Htm _) Hp ltac:(lia))), touch_touch.
  assert (st32 (st32 (st32 m (F * 4096 + (o - 4)) dir) (F * 4096 + (o - 4 - 4)) (p' * 4096 + o')) (F * 4096 + (o - 4 - 4 - 4)) ra = m1) as ->.
  { unfold m1. cbn [push_words]. f_equal; [|lia]. f_equal; [|lia]. f_equal. lia. }
  rewrite (bootstrap_cfg m1 _ _ p F (o - 4 - 4 - 4) dir p' o' F' (Htm _)); [done|done|done|lia| | |done|done|done].
  - replace (F * 4096 + (o - 4 - 4 - 4 + 4)) with (F * 4096 + o - 4 * (Z.of_nat 1 + 1)) by lia.
    unfold m1. erewrite push_words_read by done. apply u32_small. lia.
  - replace (F * 4096 + (o - 4 - 4 - 4 + 8)) with (F * 4096 + o - 4 * (Z.of_nat 0 + 1)) by lia.
    unfold m1. erewrite push_words_read by done. by apply u32_small.
Qed.

Lemma call_context_switch_cfg m c r p F o ra old new dir : let m1 := push_words m (F * 4096 + o) [dir; new; old; ra] in
  sees m c p F → esp r = p * 4096 + o → 0 ≤ p < 1048576 → 16 ≤ o ≤ 4096 →
  call_context_switch ra old new dir (cfg m c r) = context_switch (cfg m1 (touch c p F) (at_sp r p (o - 16))).
Proof.
  intros m1 Hs Hesp Hp Ho. assert (r = at_sp r p o) as Er by (destruct r; cbn in *; by subst).
  assert (∀ mm, sees mm (touch c p F) p F) as Htm by (intros; apply touch_sees).
  unfold call_context_switch. rewrite Er at 1. rewrite (bind_ok _ _ _ _ _ (push_cfg m c r p F o dir Hs Hp ltac:(lia))).
  rewrite (bind_ok _ _ _ _ _ (push_cfg _ _ r p F (o - 4) new (Htm _) Hp ltac:(lia))), touch_touch.
  rewrite (bind_ok _ _ _ _ _ (push_cfg _ _ r p F (o - 4 - 4) old (Htm _) Hp ltac:(lia))), touch_touch.
  rewrite (bind_ok _ _ _ _ _ (push_cfg _ _ r p F (o - 4 - 4 - 4) ra (Htm _) Hp ltac:(lia))), touch_touch.
  replace (o - 4 - 4 - 4 - 4) with (o - 16) by lia. do 2 f_equal. unfold m1. cbn [push_words].
  repeat (f_equal; [|lia]). f_equal. lia.
Qed.

(** ** Switching away and back *)

Lemma cfg_self : cfg (lget s0) (lget s0) (lget s0) = s0.
Proof. unfold cfg. by rewrite !lput_lget. Qed.

(** The ten words [switched_out] leaves, read back. *)
Lemma resume_saved m m' r a b ret_addr old :
  regs_ok r → flags_ok old → ld32 m a = ret_addr → (b + 4 ≤ a - 36 ∨ a + 16 ≤ b) →
  (∀ x, a - 36 ≤ x < a + 4 → get8 m' x = get8 (switched_out m a b r) x) → ∀ e,
  resume m' (a - 36) e old = set_eip ret_addr (set_esp e r).
Proof.
  intros [Hr Hf] Ho Hret Hb Hm e.
  assert (∀ k, 0 ≤ k ≤ 36 → ld32 m' (a - 36 + k) = ld32 (push_words m a (saved_words r)) (a - 36 + k)) as L.
  { intros k Hk. transitivity (ld32 (switched_out m a b r) (a - 36 + k)); [apply get8_ext_ld32; intros; apply Hm; lia|].
    apply (same_but_ld32 _ _ _ _ _ (same_but_st32 _ _ _)). lia. }
  assert (∀ (i : nat) k v, saved_words r !! i = Some v → k = 32 - 4 * Z.of_nat i → 0 ≤ k → ld32 m' (a - 36 + k) = u32 v) as W.
  { intros i k v Hv -> Hi. rewrite L by lia. rewrite <- (push_words_read (saved_words r) m a i v Hv). f_equal. lia. }
  repeat apply Forall_cons in Hr as [? Hr].
  pose proof (W 0%nat 32 _ eq_refl ltac:(lia) ltac:(lia)) as W0. pose proof (W 1%nat 28 _ eq_refl ltac:(lia) ltac:(lia)) as W1.
  pose proof (W 2%nat 24 _ eq_refl ltac:(lia) ltac:(lia)) as W2. pose proof (W 3%nat 20 _ eq_refl ltac:(lia) ltac:(lia)) as W3.
  pose proof (W 5%nat 12 _ eq_refl ltac:(lia) ltac:(lia)) as W5. pose proof (W 6%nat 8 _ eq_refl ltac:(lia) ltac:(lia)) as W6.
  pose proof (W 7%nat 4 _ eq_refl ltac:(lia) ltac:(lia)) as W7. pose proof (W 8%nat 0 _ eq_refl ltac:(lia) ltac:(lia)) as W8.
  rewrite u32_small in W0, W1, W2, W3, W5, W6, W7 by done. unfold resume. rewrite W0, W1, W2, W3, W5, W6, W7.
  rewrite Z.add_0_r in W8. rewrite W8, pop_push_flags by done. rewrite L by lia.
  rewrite (same_but_ld32 _ _ _ _ _ (push_words_same (saved_words r) m a)) by (cbn [saved_words length]; lia).
  replace (a - 36 + 36) with a by lia. rewrite Hret. unfold set_eip, set_esp. cbn. reflexivity.
Qed.
End runs.

Section claims.
Context {St : Type} `{LM : Lens St mem} `{LC : Lens St Cpu} `{LR : Lens St Regs}.
Context {AC : Apart LM LC} {AR : Apart LM LR} {ACR : Apart LC LR}.

(** [context_switch] stores the stack pointer of the process it leaves
    where its first argument says. Any later [context_switch] to that stack
    pointer, in a directory where the page still leads to the same frame, and
    with the ten saved words still there, ends with the registers and flags
    the process had, at the return address of its call. *)
Theorem switch_roundtrip s p F o b dir p' o' F' : let r := lget s in let m := lget s in let a := F * 4096 + o in
  regs_ok r → frame_at m (lget s) r p F o b dir p' o' → page_frame (switched_out m a b r) dir p' = Some F' →
  ∃ s1, context_switch s = Ok tt s1 ∧ cr3 (lget s1) = dir ∧ ld32 (lget s1) b = esp r - 36 ∧
    (∀ x, ¬ (a - 36 ≤ x < a) → ¬ (b ≤ x < b + 4) → get8 (lget s1) x = get8 m x) ∧
    ∀ s2 p2 F2 o2 b2 dir2, let m2 := switched_out (lget s2) (F2 * 4096 + o2) b2 (lget s2) in
      frame_at (lget s2) (lget s2) (lget s2) p2 F2 o2 b2 dir2 p (o - 36) → flags_ok (eflags (lget s2)) →
      page_frame m2 dir2 p = Some F → (∀ x, a - 36 ≤ x < a + 4 → get8 m2 x = get8 (lget s1) x) →
      ∃ s3, context_switch s2 = Ok tt s3 ∧ cr3 (lget s3) = dir2 ∧ lget s3 = set_eip (ld32 m a) (set_esp (esp r + 4) r).
Proof.
  intros r m a Hr Hf Hpf. destruct (fa_page _ _ _ _ _ _ _ _ _ _ Hf) as (Hp & Ho1 & Ho2 & Hesp).
  pose proof (context_switch_cfg s m (lget s) r p F o b dir p' o' F' Hf Hpf) as R. change (cfg s m (lget s) r) with (cfg s (lget s) (lget s) (lget s)) in R. rewrite cfg_self in R.
  eexists. split; [exact R|]. rewrite cfg_mem, cfg_cpu. split_and!; [done| | |].
  - unfold switched_out. rewrite ld32_st32. apply u32_small. lia.
  - intros x Hx1 Hx2. unfold switched_out. rewrite (same_but_st32 _ _ _ x) by lia.
    apply push_words_same. cbn [saved_words length]. fold a. lia.
  - intros s2 p2 F2 o2 b2 dir2 m2 Hf2 Hfl Hpf2 Hm.
    pose proof (context_switch_cfg s2 (lget s2) (lget s2) (lget s2) p2 F2 o2 b2 dir2 p (o - 36) F Hf2 Hpf2) as R2. rewrite cfg_self in R2.
    eexists. split; [exact R2|]. rewrite cfg_cpu, cfg_regs. split; [done|]. fold m2.
    replace (F * 4096 + (o - 36)) with (a - 36) by (unfold a; lia). replace (p * 4096 + (o - 36 + 40)) with (esp r + 4) by lia.
    apply (resume_saved m m2 r a b); [done|done|done|apply (fa_apart _ _ _ _ _ _ _ _ _ _ Hf)|done].
Qed.
End claims.
