(* ===== verification/Preempt.v ===== *)
(** * Preempt: the timer interrupt and the context switch together
      (src/kernel/proc/sched.c, src/kernel/arch/i386/proc/ctxswitch.asm)

    [sched_timer_handler] over [context_switch] itself: the registers of every
    process that does not run are on its own stack, and a preemption moves the
    processor from one process to the next without touching the others. *)

From S2P Require Import Prelude Memory KString ListDS PortIO Pic Pcb Sched SchedInv SchedSpec Paging Mmu Switch.

(** ** Suspended processes *)

(** Page [p] of the directory leads to frame [F] through entries within [O]. *)
Record walk (m : mem) (O : Z → Prop) (dir p F : Z) : Prop := {
  wk_dir : ∀ x, entry dir (p / 1024) ≤ x < entry dir (p / 1024) + 4 → O x;
  wk_table : ∀ x, let t := entry (frame_addr (ld32 m (entry dir (p / 1024))) * 4096) (p mod 1024) in t ≤ x < t + 4 → O x;
  wk_frame : page_frame m dir p = Some F
}.

(** A process with block [c] that does not run: the ten words at its stack
    pointer are the registers [r]. The words and the walk to them lie
    within [O]. *)
Definition parked (m : mem) (O : Z → Prop) (c : ProcessControlBlock) (r : Regs) : Prop :=
  ∃ p o F, kernel_stack_ptr c = p * 4096 + o ∧ 0 ≤ p < 1048575 ∧ 0 ≤ o ≤ 4056 ∧ walk m O (address_space_physical c) p F ∧
    (∀ x, F * 4096 + o ≤ x < F * 4096 + o + 40 → O x) ∧
    ∀ f, flags_ok f → resume m (F * 4096 + o) (p * 4096 + (o + 40)) f = r.

(** The process with block [c] runs: its registers are [r], there is room
    below its stack pointer for the frame of a switch. *)
Record executing (m : mem) (cpu : Cpu) (O : Z → Prop) (c : ProcessControlBlock) (r : Regs) (p F o : Z) : Prop := {
  ex_esp : esp r = p * 4096 + o ∧ 0 ≤ p < 1048575 ∧ 52 ≤ o ≤ 4096;
  ex_regs : regs_ok r;
  ex_cr3 : cr3 cpu = address_space_physical c;
  ex_area : ∀ x, F * 4096 + o - 52 ≤ x < F * 4096 + o → O x;
  ex_walk : walk m (λ x, O x ∧ ¬ (F * 4096 + o - 52 ≤ x < F * 4096 + o)) (address_space_physical c) p F;
  ex_tlb : ∀ f, tlb cpu !! p = Some f → f = F
}.

(** The processor sees the word at [a] where it is. *)
Record sees_word (m : mem) (cpu : Cpu) (K : Z → Prop) (a : Z) : Prop := {
  sw_fits : 0 ≤ a ∧ a mod 4096 ≤ 4092;
  sw_walk : walk m K (cr3 cpu) (a / 4096) (a / 4096);
  sw_tlb : ∀ f, tlb cpu !! (a / 4096) = Some f → f = a / 4096
}.

Lemma walk_ext m m' O dir p F : (∀ x, O x → get8 m' x = get8 m x) → walk m O dir p F → walk m' O dir p F.
Proof.
  intros Hm [Hd Ht Hf].
  assert (ld32 m' (entry dir (p / 1024)) = ld32 m (entry dir (p / 1024))) as E1 by (apply get8_ext_ld32; auto).
  constructor; [done|by rewrite E1|]. rewrite <- Hf. unfold page_frame. rewrite E1.
  destruct (present _ =? 0); [done|]. rewrite (get8_ext_ld32 m m'); [done|]. intros x Hx. by apply Hm, Ht.
Qed.

Lemma walk_weaken m (O P : Z → Prop) dir p F : (∀ x, O x → P x) → walk m O dir p F → walk m P dir p F.
Proof. intros H [Hd Ht Hf]. constructor; auto. Qed.

Lemma resume_ext m m' a e f : (∀ x, a ≤ x < a + 40 → get8 m' x = get8 m x) → resume m' a e f = resume m a e f.
Proof.
  intros Hm. assert (∀ k, 0 ≤ k ≤ 36 → ld32 m' (a + k) = ld32 m (a + k)) as L by (intros; apply get8_ext_ld32; intros; apply Hm; lia).
  unfold resume. rewrite !L by lia. specialize (L 0 ltac:(lia)). rewrite Z.add_0_r in L. by rewrite L.
Qed.

Lemma parked_ext m m' O c r : (∀ x, O x → get8 m' x = get8 m x) → parked m O c r → parked m' O c r.
Proof.
  intros Hm (p & o & F & Hsp & Hp & Ho & Hw & HO & Hr). exists p, o, F. split_and!; [done|lia..|by eapply walk_ext|done|].
  intros f Hf. rewrite (resume_ext m); auto.
Qed.

(** Only the stack pointer and the directory in the block matter. *)
Lemma parked_block m O c c' r : kernel_stack_ptr c' = kernel_stack_ptr c → address_space_physical c' = address_space_physical c →
  parked m O c r → parked m O c' r.
Proof. unfold parked. by intros -> ->. Qed.

(** What a walk within bytes that keep tells of the processor. *)
Lemma walk_sees m m' cpu O p F : (∀ x, O x → get8 m' x = get8 m x) → walk m O (cr3 cpu) p F →
  (∀ f, tlb cpu !! p = Some f → f = F) → sees m' cpu p F.
Proof.
  intros Hm Hw Ht. destruct (tlb cpu !! p) as [f|] eqn:E; [left; by rewrite E, (Ht f)|right].
  split; [done|]. apply (wk_frame _ _ _ _ _ (walk_ext _ _ _ _ _ _ Hm Hw)).
Qed.

(** ** Who owns which bytes *)

(** [own p]: the directory, tables and frames of process [p]; [K]: the tables
    of the low pages, which all directories share. *)
Record separate (ls : list Z) (ps : gset Z) (K : Z → Prop) (own : Z → Z → Prop) : Prop := {
  se_kernel : ∀ x, K x → ¬ sched_bytes ls ps x;
  se_own : ∀ p x, own p x → ¬ sched_bytes ls ps x ∧ ¬ K x;
  se_apart : ∀ p q x, p ≠ q → own p x → ¬ own q x
}.

(** [R]: the registers of the processes that have been suspended. *)
Definition contexts (own : Z → Z → Prop) (m : mem) (A : asched) (R : gmap Z Regs) : Prop :=
  R !! a_cur A = None ∧
  ∀ p r, R !! p = Some r → ∃ c, a_procs A !! p = Some c ∧ parked m (own p) c r.

(** ** Leaving a process *)

(** The memory once the call's arguments and the registers are pushed; the
    stack pointer's store into the block is yet to come. *)
Definition stacked (m : mem) (r : Regs) (p F o : Z) (args : list Z) : mem :=
  push_words (push_words m (F * 4096 + o) args) (F * 4096 + (o - 16)) (saved_words (at_sp r p (o - 16))).

Lemma stacked_same m r p F o w1 w2 w3 w4 : same_but m (stacked m r p F o [w1; w2; w3; w4]) (F * 4096 + o - 52) 52.
Proof.
  intros x Hx. unfold stacked. rewrite push_words_same by (cbn [saved_words length]; lia).
  apply push_words_same. cbn [length]. lia.
Qed.

Section leave.
Context {St : Type} `{LM : Lens St mem} `{LC : Lens St Cpu} `{LR : Lens St Regs}.
Context {AC : Apart LM LC} {AR : Apart LM LR} {ACR : Apart LC LR}.
Context (s0 : St) (m : mem) (cpu : Cpu) (r : Regs) (O K : Z → Prop) (c : ProcessControlBlock) (p F o b : Z).
Context (Hex : executing m cpu O c r p F o) (Hb : sees_word m cpu K b).
Context (HK : ∀ x, K x → ¬ O x) (HO : ∀ x, b ≤ x < b + 4 → ¬ O x ∧ ¬ K x).
Context (ra dir new p' o' F' : Z).
Context (Hra : 0 ≤ ra < 4294967296) (Hdir : 0 ≤ dir < 4294967296) (Hnew : new = p' * 4096 + o') (Hp' : 0 ≤ p' < 1048575) (Ho' : 0 ≤ o' ≤ 4056).
Context (Hb32 : b < 4294967296).

Let m1 := push_words m (F * 4096 + o) [dir; new; b; ra].
Let m2 := stacked m r p F o [dir; new; b; ra].
Let m3 := st32 m2 b (esp r - 52).

Lemma block_off_stack : b + 4 ≤ F * 4096 + o - 52 ∨ F * 4096 + o ≤ b.
Proof.
  destruct (Z.le_gt_cases (b + 4) (F * 4096 + o - 52)); [by left|]. destruct (Z.le_gt_cases (F * 4096 + o) b); [by right|]. exfalso.
  destruct (HO (Z.max b (F * 4096 + o - 52)) ltac:(lia)) as [Hn _]. apply Hn, (ex_area _ _ _ _ _ _ _ _ Hex). lia.
Qed.

(** Away from the pushed words and the stored stack pointer. *)
Lemma left_same x : ¬ (F * 4096 + o - 52 ≤ x < F * 4096 + o) → ¬ (b ≤ x < b + 4) → get8 m3 x = get8 m x.
Proof. intros H1 H2. unfold m3. rewrite (same_but_st32 _ _ _ x) by lia. apply stacked_same. lia. Qed.

Lemma left_is_switched : switched_out m1 (F * 4096 + (o - 16)) b (at_sp r p (o - 16)) = m3.
Proof.
  destruct (ex_esp _ _ _ _ _ _ _ _ Hex) as (E & _). unfold switched_out, m3, m2, stacked. f_equal.
  cbn [esp at_sp set_esp]. lia.
Qed.

Lemma leave_frame : frame_at m1 (touch cpu p F) (at_sp r p (o - 16)) p F (o - 16) b dir p' o'.
Proof.
  destruct Hex as [(E & Hp & Ho) _ _ Harea _ _]. destruct Hb as [[Hb0 Hbm] Hw Ht]. pose proof block_off_stack as Hoff.
  assert (∀ i v k, [dir; new; b; ra] !! i = Some v → 0 ≤ v < 4294967296 → k = 12 - 4 * Z.of_nat i → ld32 m1 (F * 4096 + (o - 16) + k) = v) as L.
  { intros i v k Hi Hv ->. transitivity (u32 v); [|by apply u32_small].
    rewrite <- (push_words_read [dir; new; b; ra] m (F * 4096 + o) i v Hi). fold m1. f_equal. lia. }
  constructor.
  - split_and!; [lia..|]. reflexivity.
  - apply touch_sees.
  - exists (b / 4096), (b / 4096), (b mod 4096).
    rewrite (L 2%nat b 4) by (done || lia). split_and!; [Z.div_mod_to_equations; lia..|].
    assert (sees (stacked m r p F o [dir; new; b; ra]) cpu (b / 4096) (b / 4096)) as Hs.
    { eapply walk_sees; [|exact Hw|exact Ht]. intros x Hx. apply stacked_same.
      destruct (Z.lt_ge_cases x (F * 4096 + o - 52)); [lia|]. destruct (Z.lt_ge_cases x (F * 4096 + o)); [|lia]. exfalso. apply (HK x Hx), Harea. lia. }
    rewrite touch_touch. unfold sees in *. cbn [tlb cr3 touch]. destruct (decide (p = b / 4096)) as [Ep|Hne]; [|rewrite lookup_insert_ne by done; exact Hs].
    left. rewrite Ep, lookup_insert_eq. f_equal. pose proof (wk_frame _ _ _ _ _ Hw) as H1.
    rewrite (ex_cr3 _ _ _ _ _ _ _ _ Hex), <- Ep, (wk_frame _ _ _ _ _ (ex_walk _ _ _ _ _ _ _ _ Hex)) in H1. injection H1 as ->. done.
  - lia.
  - rewrite (L 1%nat new 8) by (done || lia). done.
  - by rewrite (L 0%nat dir 12).
Qed.

(** The switch away: the registers of the next process are loaded from what
    memory is afterwards. *)
Lemma leave_run : page_frame m3 dir p' = Some F' →
  call_context_switch ra b new dir (cfg s0 m cpu r) =
    Ok tt (cfg s0 m3 (mkCpu (cr0 cpu) dir (<[p' := F']> ∅) (kernel_directory cpu)) (resume m3 (F' * 4096 + o') (p' * 4096 + (o' + 40)) (eflags r))).
Proof.
  intros Hpf. pose proof Hex as [(E & Hp & Ho) _ Hc3 Harea Hw Ht].
  rewrite (call_context_switch_cfg s0 m cpu r p F o ra b new dir); [|..|done|lia|lia].
  2: { eapply walk_sees; [|rewrite Hc3; exact Hw|done]. done. }
  fold m1. rewrite <- left_is_switched in Hpf |- *.
  by rewrite (context_switch_cfg s0 m1 _ _ p F (o - 16) b dir p' o' F' leave_frame Hpf).
Qed.

(** And the process it left is parked. *)
Lemma leave_parks : parked m3 O (set_stack (esp r - 52) c) (set_eip ra (set_esp (esp r - 12) r)).
Proof.
  pose proof Hex as [(E & Hp & Ho) Hr Hc3 Harea Hw Ht]. pose proof block_off_stack as Hoff.
  exists p, (o - 52), F. cbn [kernel_stack_ptr address_space_physical set_stack]. split_and!; [lia..| | |].
  - assert (∀ x, b ≤ x < b + 4 → ¬ O x) as Hbo by (intros x Hx; by apply HO).
    eapply walk_weaken; [|eapply walk_ext; [|exact Hw]]; [by intros x []|].
    intros x [HOx Hx]. apply left_same; [done|]. intros Hx'. by apply (Hbo x Hx').
  - intros x Hx. destruct (Z.lt_ge_cases x (F * 4096 + o)); [apply Harea; lia|]. lia.
  - intros f Hf. assert (F * 4096 + (o - 52) = F * 4096 + (o - 16) - 36) as -> by lia.
    replace (p * 4096 + (o - 52 + 40)) with (esp r - 12) by lia.
    assert (regs_ok (at_sp r p (o - 16))) as Hr0 by exact Hr.
    rewrite (resume_saved m1 m3 (at_sp r p (o - 16)) (F * 4096 + (o - 16)) b ra f Hr0 Hf); [done| |lia|by rewrite left_is_switched].
    transitivity (u32 ra); [|by apply u32_small].
    rewrite <- (push_words_read [dir; new; b; ra] m (F * 4096 + o) 3 ra eq_refl). fold m1. f_equal. lia.
Qed.
End leave.

Lemma executing_ext m m' cpu O c r p F o : (∀ x, O x → get8 m' x = get8 m x) → executing m cpu O c r p F o → executing m' cpu O c r p F o.
Proof.
  intros Hm [H1 H2 H3 H4 H5 H6]. constructor; try done. eapply walk_ext; [|exact H5]. intros x [Hx _]. auto.
Qed.

Lemma sees_word_ext m m' cpu K a : (∀ x, K x → get8 m' x = get8 m x) → sees_word m cpu K a → sees_word m' cpu K a.
Proof. intros Hm [H1 H2 H3]. constructor; [done|by eapply walk_ext|done]. Qed.

(** ** Preemption *)

(** The scheduler once the quantum of the current process [c] has ended, its
    new queue having held [qn]; and once [p], with block [d] at the head of
    queue [i], has the processor and the old process its stack pointer [v]. *)
Definition expired (A : asched) (c : ProcessControlBlock) (qn : list Z) : asched :=
  mkA (<[a_cur A := demoted c]> (a_procs A)) (<[Z.to_nat (Z.min (priority c + 1) 3) := qn ++ [a_cur A]]> (a_queues A)) NULL (a_idle A).
Definition picked (A : asched) (i : nat) (p : Z) (ns : list Z) (d : ProcessControlBlock) : asched :=
  mkA (<[p := set_state STATE_RUNNING d]> (a_procs A)) (<[i := ns]> (a_queues A)) p (a_idle A).
Definition turned (A : asched) (c : ProcessControlBlock) (qn : list Z) (i : nat) (p : Z) (ns : list Z) (d : ProcessControlBlock) (v : Z) : asched :=
  aset_proc (a_cur A) (set_stack v (demoted c)) (picked (expired A c qn) i p ns d).

Section preempt.
Context {St : Type} `{LM : Lens St mem} `{LS : Lens St Scheduler} `{LIO : Lens St Ports} `{LC : Lens St Cpu} `{LR : Lens St Regs}.
Context {AP : Apart LM LS} {APM : Apart LM LIO} {APS : Apart LS LIO} {AC : Apart LM LC} {AR : Apart LM LR} {ACR : Apart LC LR}.
Context {ASC : Apart LS LC} {ASR : Apart LS LR} {AIC : Apart LIO LC} {AIR : Apart LIO LR}.
(** The return addresses of the handler's two calls. *)
Context (lits : ListLiterals) (ls : list Z) (ra rb : Z) (Hra : 0 ≤ ra < 4294967296).
Context (K : Z → Prop) (own : Z → Z → Prop).

(** The scheduler and the processes it has suspended. *)
Record system (U : gset Z) (s : St) (A : asched) (R : gmap Z Regs) : Prop := {
  sy_inv : ainv U A;
  sy_rep : srep ls s A;
  sy_separate : separate ls (dom (a_procs A)) K own;
  sy_contexts : contexts own (lget s) A R
}.

Lemma handled_cpu ps s s' : handled ls ps s s' → lget (T:=Cpu) s' = lget s ∧ lget (T:=Regs) s' = lget s.
Proof.
  intros (m & sc & x & -> & _).
  by rewrite (lget_other' (L:=LM) (K:=LC)), (lget_other' (L:=LS) (K:=LC)), (lget_other' (L:=LIO) (K:=LC)),
    (lget_other' (L:=LM) (K:=LR)), (lget_other' (L:=LS) (K:=LR)), (lget_other' (L:=LIO) (K:=LR)).
Qed.

Lemma handled_bytes ps s s' : handled ls ps s s' → ∀ x, ¬ sched_bytes ls ps x → get8 (lget (T:=mem) s') x = get8 (lget s) x.
Proof. intros (m & sc & io & -> & Hm). by rewrite lget_lput. Qed.

Lemma stack_slot A p c x : a_procs A !! p = Some c → p + OFF_STACK ≤ x < p + OFF_STACK + 4 → sched_bytes ls (dom (a_procs A)) x.
Proof. intros Hc Hx. right. exists p. pcb_off. apply elem_of_dom_2 in Hc. split; [done|lia]. Qed.

(** Saving the stack pointer of [q] in its block, from which only its
    registers can be restored. *)
Lemma slot_rep s A q c m2 v : srep ls s A → a_procs A !! q = Some c → 0 ≤ v < 4294967296 →
  (∀ x, sched_bytes ls (dom (a_procs A)) x → get8 m2 x = get8 (lget s) x) →
  data_rep ls (st32 m2 (q + OFF_STACK) v) (aset_proc q (set_stack v c) A).
Proof.
  intros [Hd _] Hc Hv Hm. assert (data_rep ls m2 A) as Hd2 by (by eapply data_rep_ext).
  eapply data_pcb_update; [exact Hd2|done| |].
  - apply pcb_store_stack; [done|]. by eapply dr_pcbs.
  - intros x Hx. apply get8_st32_ne. unfold pcb_fields in Hx. pcb_off. lia.
Qed.

(** The invariant of the scheduler through a turn. *)
Lemma turn_inv U A c qn i p ns d v : ainv U A → is_running A c → quantum_remaining c = 1 →
  a_queues A !! Z.to_nat (Z.min (priority c + 1) 3) = Some qn → first_ready (expired A c qn) i p ns →
  a_procs (expired A c qn) !! p = Some d → p ≠ a_cur A → ainv U (turned A c qn i p ns d v).
Proof.
  intros HI Hr Hq Hqn Hf Hd Hpc. destruct (tick_expire_inv U A c HI Hr Hq) as (qn' & Hqn' & _ & HI1).
  assert (qn' = qn) as -> by congruence. change (ainv U (expired A c qn)) in HI1.
  destruct (pick_inv U (expired A c qn) i p ns HI1 ltac:(by left) Hf) as (d' & Hd' & _ & _ & HI2).
  assert (d' = d) as -> by congruence. change (ainv U (picked (expired A c qn) i p ns d)) in HI2.
  destruct (running_free U A c HI Hr) as (HU & _ & _ & Hok). pose proof Hr as (Hne & Hc & _). destruct (demoted_ok c Hok) as [Hdok _].
  eapply (rewrite_block U _ (a_cur A) (demoted c)); try done.
  cbn. rewrite lookup_insert_ne by done. apply lookup_insert_eq.
Qed.

(** The contexts through a turn: the process that was left joins them with
    its registers, the one that runs leaves them. *)
Lemma turn_contexts (A A' : asched) (m m3 : mem) R p q c' r3 :
  contexts own m A R → q = a_cur A → a_cur A' = p → p ≠ q →
  (∀ x p', p' ≠ q → own p' x → get8 m3 x = get8 m x) →
  (∀ p', p' ≠ q → p' ≠ p → a_procs A' !! p' = a_procs A !! p') →
  a_procs A' !! q = Some c' → parked m3 (own q) c' r3 →
  contexts own m3 A' (<[q := r3]> (delete p R)).
Proof.
  intros [Hcur Hctx] Hq Hp Hpq Hm Hps Hc' Hpk. split.
  - rewrite Hp, lookup_insert_ne by done. apply lookup_delete_eq.
  - intros p' r [[<- <-]|[Hne [Hne' Hr]%lookup_delete_Some]]%lookup_insert_Some; [exists c'; split; [exact Hc'|exact Hpk]|].
    destruct (Hctx _ _ Hr) as (e & He & Hpe). exists e. rewrite Hps by done. split; [done|].
    eapply parked_ext; [|exact Hpe]. intros x Hx. by apply (Hm x p').
Qed.

(** The switch from process [q] to the suspended [p], in a state [s2] that
    the handler has come to from [s]. *)
Lemma turn_switch s s2 ps q p c d rp pg F o : let r := lget (T:=Regs) s in
  separate ls ps K own → handled ls ps s s2 → p ≠ q →
  (∀ x, q + OFF_STACK ≤ x < q + OFF_STACK + 4 → sched_bytes ls ps x) →
  executing (lget s) (lget s) (own q) c r pg F o → sees_word (lget s) (lget s) K (q + OFF_STACK) →
  parked (lget s) (own p) d rp → 0 ≤ address_space_physical d < 4294967296 → q + OFF_STACK < 4294967296 →
  ∃ m2 m3 cpu, call_context_switch ra (q + OFF_STACK) (kernel_stack_ptr d) (address_space_physical d) s2 = Ok tt (cfg s2 m3 cpu rp) ∧
    cr3 cpu = address_space_physical d ∧ m3 = st32 m2 (q + OFF_STACK) (esp r - 52) ∧
    (∀ x, sched_bytes ls ps x → get8 m2 x = get8 (lget s2) x) ∧ (∀ x p', p' ≠ q → own p' x → get8 m3 x = get8 (lget s) x) ∧
    parked m3 (own q) (set_stack (esp r - 52) c) (set_eip ra (set_esp (esp r - 12) r)).
Proof.
  intros r Hsep Hh Hpq Hslot Hex Hsw Hpk Hdir Hb32. pose proof Hpk as (p' & o' & F' & Hsp & Hp' & Ho' & Hw & HO & Hres).
  destruct (handled_cpu _ _ _ Hh) as [Ecpu Eregs]. pose proof (handled_bytes _ _ _ Hh) as Hb.
  assert (∀ x, own q x → get8 (lget (T:=mem) s2) x = get8 (lget s) x) as Hown by (intros x Hx; by apply Hb, (se_own _ _ _ _ Hsep q)).
  assert (∀ x, K x → get8 (lget (T:=mem) s2) x = get8 (lget s) x) as HKb by (intros x Hx; by apply Hb, (se_kernel _ _ _ _ Hsep)).
  pose proof (executing_ext _ _ _ _ _ _ _ _ _ Hown Hex) as Hex2. pose proof (sees_word_ext _ _ _ _ _ HKb Hsw) as Hsw2.
  set (b := q + OFF_STACK) in *. set (w := [address_space_physical d; kernel_stack_ptr d; b; ra]).
  set (m2 := stacked (lget s2) r pg F o w). set (m3 := st32 m2 b (esp r - 52)).
  assert (∀ x p'', p'' ≠ q → own p'' x → get8 m3 x = get8 (lget s) x) as H4.
  { intros x p'' Hne Hx. destruct (se_own _ _ _ _ Hsep _ _ Hx) as [Hx1 _]. rewrite <- Hb by done.
    apply left_same; intros Hx2; [|by apply Hx1, Hslot].
    apply (se_apart _ _ _ _ Hsep p'' q x Hne Hx). by apply (ex_area _ _ _ _ _ _ _ _ Hex). }
  assert (∀ x, b ≤ x < b + 4 → ¬ own q x ∧ ¬ K x) as HbO.
  { intros x Hx. pose proof (Hslot x Hx). split; intros Hy; [by destruct (se_own _ _ _ _ Hsep q x Hy)|by destruct (se_kernel _ _ _ _ Hsep x Hy)]. }
  assert (∀ x, K x → ¬ own q x) as HKO by (intros x Hx Hy; by destruct (se_own _ _ _ _ Hsep q x Hy)).
  destruct (parked_ext _ m3 _ _ _ (λ x, H4 x p Hpq) Hpk) as (p1 & o1 & F1 & Hsp1 & Hp1 & Ho1 & Hw1 & _ & Hres1).
  assert (0 ≤ kernel_stack_ptr d < 4294967296) as Hst32 by lia.
  pose proof (leave_run s2 (lget s2) (lget s) r (own q) K c pg F o b Hex2 Hsw2 HKO HbO ra _ _ p1 o1 F1 Hra Hdir Hsp1 Hp1 Ho1 Hb32 (wk_frame _ _ _ _ _ Hw1)) as Rl.
  replace (cfg s2 (lget s2) (lget s) r) with s2 in Rl by (unfold r; rewrite <- Ecpu, <- Eregs; by rewrite cfg_self).
  rewrite Hres1 in Rl by apply (ex_regs _ _ _ _ _ _ _ _ Hex).
  eexists m2, m3, _. split_and!; [exact Rl|done|done| |exact H4|].
  - intros x Hx. apply stacked_same.
    destruct (Z.lt_ge_cases x (F * 4096 + o - 52)); [lia|]. destruct (Z.lt_ge_cases x (F * 4096 + o)); [|lia]. exfalso.
    destruct (se_own _ _ _ _ Hsep q x); [|done]. apply (ex_area _ _ _ _ _ _ _ _ Hex). lia.
  - by eapply leave_parks.
Qed.

Abbreviation handler := (sched_timer_handler lits (call_context_switch ra) (call_bootstrap rb)).

(** The last tick of the current process's quantum, with another suspended
    process first in the queues. *)
Record quantum_ends (s : St) (A : asched) (R : gmap Z Regs) (c : ProcessControlBlock) (qn : list Z) (i : nat) (p : Z) (ns : list Z)
    (d : ProcessControlBlock) (rp : Regs) : Prop := {
  qe_running : is_running A c ∧ quantum_remaining c = 1;
  qe_queue : a_queues A !! Z.to_nat (Z.min (priority c + 1) 3) = Some qn;
  qe_next : first_ready (expired A c qn) i p ns;
  qe_block : a_procs A !! p = Some d;
  qe_context : R !! p = Some rp;
  qe_executing : ∃ pg F o, executing (lget s) (lget s) (own (a_cur A)) c (lget s) pg F o;
  qe_sees : sees_word (lget s) (lget s) K (a_cur A + OFF_STACK)
}.

Lemma turn_run U s A R c qn i p ns d rp : let r := lget (T:=Regs) s in let q := a_cur A in
  system U s A R → quantum_ends s A R c qn i p ns d rp →
  ∃ s', handler s = Ok tt s' ∧ lget s' = rp ∧ cr3 (lget s') = address_space_physical d ∧
    system U s' (turned A c qn i p ns d (esp r - 52)) (<[q := set_eip ra (set_esp (esp r - 12) r)]> (delete p R)).
Proof.
  intros r q [HI Hrep Hsep Hctx] [[Hrun Hq1] Hqn Hf Hd0 HRp (pg & F & o & Hex) Hsw]. fold q r in Hex. fold q in Hsw. pose proof Hctx as [HRq Hall].
  assert (p ≠ q) as Hpq by (intros ->; unfold q in HRp; congruence).
  destruct (Hall _ _ HRp) as (d' & Hd' & Hpk). assert (d' = d) as -> by congruence.
  destruct (timer_preempts lits ls (call_context_switch ra) (call_bootstrap rb) U A c qn i p ns s HI Hrep Hrun Hq1 Hqn Hf)
    as (d' & s2 & Hd & R2 & Hrep2 & _ & Hh).
  change (a_procs (expired A c qn) !! p = Some d') in Hd. change (srep ls s2 (picked (expired A c qn) i p ns d')) in Hrep2.
  assert (d' = d) as -> by (cbn in Hd; rewrite lookup_insert_ne in Hd by done; congruence).
  pose proof Hrun as (_ & Hc & _). fold q in Hc. pose proof (block_mapped ls _ A q c (sr_data _ _ _ Hrep) Hc) as Hmp.
  pose proof (dr_pcbs _ _ _ (sr_data _ _ _ Hrep) _ _ Hd0) as [_ _ _ _ _ _ Hphys _].
  destruct (turn_switch s s2 _ q p c d rp pg F o Hsep Hh Hpq (λ x, stack_slot A q c x Hc) Hex Hsw Hpk)
    as (m2 & m3 & cpu & Rs & Hcr & Em3 & Hm2 & Hothers & Hparks).
  { rewrite <- Hphys. apply ld32_range. } { pcb_off. mapped_tac. }
  set (A2 := picked (expired A c qn) i p ns d) in *.
  assert (a_procs A2 !! q = Some (demoted c)) as Hq2 by (cbn; rewrite lookup_insert_ne by done; apply lookup_insert_eq).
  assert (dom (a_procs A2) = dom (a_procs A)) as Hdom.
  { cbn. rewrite !dom_insert_L. apply elem_of_dom_2 in Hc, Hd0. fold q. set_solver. }
  exists (cfg s2 m3 cpu rp). split_and!; [by rewrite R2|by rewrite cfg_regs|by rewrite cfg_cpu|].
  destruct (ex_esp _ _ _ _ _ _ _ _ Hex) as (Hesp & Hpg & Ho).
  constructor.
  - by eapply turn_inv.
  - constructor; [rewrite cfg_mem, Em3|].
    + eapply slot_rep; [exact Hrep2|exact Hq2|fold r in Hesp; lia|]. intros x Hx. apply Hm2. by rewrite <- Hdom.
    + unfold cfg. rewrite (lget_other' (L:=LM) (K:=LS)), (lget_other (L:=LS) (K:=LC)), (lget_other (L:=LS) (K:=LR)). apply Hrep2.
  - unfold turned. fold A2. erewrite aset_proc_dom by exact Hq2. by rewrite Hdom.
  - rewrite cfg_mem. eapply turn_contexts; [exact Hctx|done|done|done|exact Hothers| |apply lookup_insert_eq|by eapply parked_block; [..|exact Hparks]].
    intros p' Hp'q Hp'p. cbn. fold q. by rewrite !lookup_insert_ne.
Qed.

(** A tick that does not end the quantum: no block's stack pointer or address
    space changes. *)
Lemma tick_run U s A R c : system U s A R → is_running A c → quantum_remaining c ≠ 1 →
  ∃ A' s', atick A = Some A' ∧ handler s = Ok tt s' ∧ system U s' A' R ∧ a_cur A' = a_cur A ∧
    lget (T:=Cpu) s' = lget s ∧ lget (T:=Regs) s' = lget s ∧
    ∀ q d, a_procs A !! q = Some d → ∃ d', a_procs A' !! q = Some d' ∧
      kernel_stack_ptr d' = kernel_stack_ptr d ∧ address_space_physical d' = address_space_physical d.
Proof.
  intros [HI Hrep Hsep [HRq Hctx]] Hrun Hq. destruct (tick_age_inv U A c HI Hrun Hq) as (A' & Ht & HI' & Hcu & _ & Hc' & Hin & Hout).
  destruct (running_free U A c HI Hrun) as (_ & _ & Hnull & _).
  destruct (handler_tick lits ls (call_context_switch ra) (call_bootstrap rb) s A A' Hrep Ht) as (s0 & x & s1 & E1 & Hrep1 & Hdom & Ht0 & _ & R1).
  assert (handled ls (dom (a_procs A)) s s1) as Hh by (rewrite E1; eapply touched_handled; [exact Ht0|apply touched_refl]).
  destruct (handled_cpu _ _ _ Hh) as [Ecpu Eregs]. pose proof (handled_bytes _ _ _ Hh) as Hb.
  assert (∀ q d, a_procs A !! q = Some d → ∃ d', a_procs A' !! q = Some d' ∧
      kernel_stack_ptr d' = kernel_stack_ptr d ∧ address_space_physical d' = address_space_physical d) as Hblk.
  { intros q d Hd. destruct (decide (q = a_cur A)) as [->|Hne].
    { destruct Hrun as (_ & Hc & _). assert (d = c) as -> by congruence. by eexists. }
    destruct (decide (state d = STATE_READY ∧ 1 ≤ priority d ∧ (q ∉ U) ∧ q ≠ a_idle A)) as [(Hst & Hp & HU & Hi)|Hno].
    - destruct (ai_procs _ _ HI _ _ Hd) as [_ [Hpr _]]. unfold MLFQ_LEVELS in Hpr.
      exists (aged d). rewrite (Hin (Z.to_nat (priority d)) q), Hd; [|lia|].
      + split; [done|]. unfold aged. by destruct (_ <? _).
      + apply (ai_home _ _ HI). split_and!; [done|done|]. exists d. split; [done|]. unfold home. by rewrite Hst.
    - exists d. destruct (Hout q Hne) as [-> _]; [|done]. intros i Hi Hqi. apply Hno.
      destruct (qin_ready U A i q HI ltac:(lia) Hqi) as (d' & Hd' & Hst & Hp & HU & Hidle). assert (d' = d) as -> by congruence.
      split_and!; [done|lia|done|done]. }
  exists A', s1. split_and!; [done| | |done|done|done|done].
  - rewrite R1, Hcu. destruct (Z.eqb_spec (a_cur A) NULL); done.
  - constructor; [done|done|by rewrite Hdom|]. split; [by rewrite Hcu|]. intros p r Hr. destruct (Hctx _ _ Hr) as (e & He & Hpk).
    destruct (Hblk _ _ He) as (e' & He' & Hs' & Ha'). exists e'. split; [done|].
    eapply parked_block; [exact Hs'|exact Ha'|]. eapply parked_ext; [|exact Hpk]. intros y Hy. by apply Hb, (se_own _ _ _ _ Hsep p).
Qed.

(** The first tick of the machine: nobody runs, the kernel's own stack has
    room for the call, in bytes [B] that are no process's. *)
Record first_tick (s : St) (A : asched) (R : gmap Z Regs) (i : nat) (p : Z) (ns : list Z) (d : ProcessControlBlock) (rp : Regs)
    (B : Z → Prop) (pg F o : Z) : Prop := {
  ft_none : a_cur A = NULL;
  ft_next : first_ready A i p ns;
  ft_block : a_procs A !! p = Some d;
  ft_context : R !! p = Some rp;
  ft_esp : esp (lget s) = pg * 4096 + o ∧ 0 ≤ pg < 1048576 ∧ 12 ≤ o ≤ 4096;
  ft_flags : flags_ok (eflags (lget s));
  ft_walk : walk (lget s) B (cr3 (lget s)) pg F;
  ft_tlb : ∀ f, tlb (lget s) !! pg = Some f → f = F;
  ft_stack : ∀ x, F * 4096 + o - 12 ≤ x < F * 4096 + o → B x;
  ft_apart : ∀ x, B x → ¬ sched_bytes ls (dom (a_procs A)) x ∧ ∀ q, ¬ own q x
}.

(** The call of [bootstrap_first_process], in a state [s2] that the handler
    has come to from [s]. *)
Lemma boot_switch s s2 A R i p ns d rp B pg F o : separate ls (dom (a_procs A)) K own → handled ls (dom (a_procs A)) s s2 →
  first_tick s A R i p ns d rp B pg F o → parked (lget s) (own p) d rp → 0 ≤ address_space_physical d < 4294967296 →
  ∃ m1 cpu, call_bootstrap rb (kernel_stack_ptr d) (address_space_physical d) s2 = Ok tt (cfg s2 m1 cpu rp) ∧
    cr3 cpu = address_space_physical d ∧ ∀ y, ¬ B y → get8 m1 y = get8 (lget s2) y.
Proof.
  intros Hsep Hh [_ _ _ _ (Hesp & Hpg & Ho) Hfl Hw Htlb Hst Hap] Hpk Hdir.
  destruct (handled_cpu _ _ _ Hh) as [Ecpu Eregs]. pose proof (handled_bytes _ _ _ Hh) as Hb.
  set (w := [address_space_physical d; kernel_stack_ptr d; rb]). set (m1 := push_words (lget s2) (F * 4096 + o) w).
  assert (∀ y, ¬ B y → get8 m1 y = get8 (lget (T:=mem) s2) y) as Hm1.
  { intros y Hy. apply push_words_same. cbn [length w]. destruct (Z.lt_ge_cases y (F * 4096 + o - 12)); [lia|].
    destruct (Z.lt_ge_cases y (F * 4096 + o)); [|lia]. exfalso. apply Hy, Hst. lia. }
  assert (∀ y, own p y → get8 m1 y = get8 (lget (T:=mem) s) y) as Hown.
  { intros y Hy. rewrite Hm1 by (intros HBy; by apply (proj2 (Hap y HBy) p)). by apply Hb, (se_own _ _ _ _ Hsep p). }
  destruct (parked_ext _ m1 _ _ _ Hown Hpk) as (p' & o' & F' & Hsp & Hp' & Ho' & Hw' & _ & Hres).
  assert (sees (lget s2) (lget s) pg F) as Hs by (eapply walk_sees; [|exact Hw|exact Htlb]; intros y Hy; by apply Hb, Hap).
  assert (page_frame (push_words (lget s2) (F * 4096 + o) [address_space_physical d; p' * 4096 + o'; rb]) (address_space_physical d) p' = Some F') as Hpf
    by (rewrite <- Hsp; apply Hw').
  pose proof (call_bootstrap_cfg s2 (lget s2) (lget s) (lget s) pg F o rb (address_space_physical d) p' o' F' Hs Hesp Hpg Ho Hdir
    Hpf Hp' Ho') as Rl. cbv zeta in Rl. rewrite <- Hsp in Rl. fold w m1 in Rl. rewrite Hres in Rl by done.
  replace (cfg s2 (lget s2) (lget s) (lget s)) with s2 in Rl by (rewrite <- Ecpu, <- Eregs; by rewrite cfg_self).
  eexists m1, _. split_and!; [exact Rl|done|exact Hm1].
Qed.

(** It starts the first process of the highest level with the registers on
    its stack. *)
Lemma first_tick_run U s A R i p ns d rp B pg F o : system U s A R → first_tick s A R i p ns d rp B pg F o →
  ∃ s', handler s = Ok tt s' ∧ lget s' = rp ∧ cr3 (lget s') = address_space_physical d ∧ system U s' (picked A i p ns d) (delete p R).
Proof.
  intros [HI Hrep Hsep [_ Hctx]] Hft. pose proof Hft as [Hn Hf Hd HRp _ _ _ _ _ Hap].
  destruct (Hctx _ _ HRp) as (d' & Hd' & Hpk). assert (d' = d) as -> by congruence.
  assert (atick A = Some A) as Ht by (unfold atick; by rewrite Hn).
  destruct (handler_tick lits ls (call_context_switch ra) (call_bootstrap rb) s A A Hrep Ht) as (s0 & x & s1 & E1 & Hrep1 & _ & Ht0 & _ & R1).
  rewrite Hn in R1. cbn [Z.eqb orb NULL] in R1.
  destruct (pick_inv U A i p ns HI ltac:(by left) Hf) as (d' & Hd2 & _ & Hp & HI'). assert (d' = d) as -> by congruence.
  destruct (handler_pick lits ls s1 A _ (set_state STATE_RUNNING d) (λ stack space, call_bootstrap rb stack space) Hrep1 Hp)
    as (s2 & Hrep2 & _ & Ht2 & R2); [apply lookup_insert_eq|]. cbn [kernel_stack_ptr address_space_physical set_state] in R2.
  change (srep ls s2 (picked A i p ns d)) in Hrep2. change (ainv U (picked A i p ns d)) in HI'.
  assert (handled ls (dom (a_procs A)) s s2) as Hh by (rewrite E1 in Ht2; by eapply touched_handled).
  pose proof (handled_bytes _ _ _ Hh) as Hb. pose proof (dr_pcbs _ _ _ (sr_data _ _ _ Hrep) _ _ Hd) as [_ _ _ _ _ _ Hphys _].
  destruct (boot_switch s s2 A R i p ns d rp B pg F o Hsep Hh Hft Hpk) as (m1 & cpu & Rb & Hc3 & Hm1); [rewrite <- Hphys; apply ld32_range|].
  assert (dom (a_procs (picked A i p ns d)) = dom (a_procs A)) as Hdom by (cbn; rewrite dom_insert_L; apply elem_of_dom_2 in Hd; set_solver).
  exists (cfg s2 m1 cpu rp). split_and!; [by rewrite R1, R2|by rewrite cfg_regs|by rewrite cfg_cpu|].
  constructor; [done| |by rewrite Hdom|].
  - constructor.
    + rewrite cfg_mem. eapply data_rep_ext; [apply Hrep2|]. rewrite Hdom. intros y Hy. apply Hm1. intros HBy. by destruct (Hap y HBy).
    + unfold cfg. rewrite (lget_other' (L:=LM) (K:=LS)), (lget_other (L:=LS) (K:=LC)), (lget_other (L:=LS) (K:=LR)). apply Hrep2.
  - rewrite cfg_mem. split; [apply lookup_delete_eq|]. intros q r [Hne Hr]%lookup_delete_Some. destruct (Hctx _ _ Hr) as (e & He & Hpe).
    exists e. cbn. rewrite lookup_insert_ne by done. split; [done|]. eapply parked_ext; [|exact Hpe].
    intros y Hy. rewrite Hm1 by (intros HBy; by apply (proj2 (Hap y HBy) q)). by apply Hb, (se_own _ _ _ _ Hsep q).
Qed.

(** ** Many turns *)

(** The machine goes on: the running process computes within its own memory,
    with any effect on the registers; the timer ticks; or it takes the
    processor from it. [ps]: the processes that get it, in order. *)
Inductive goes (U : gset Z) : St → asched → gmap Z Regs → list Z → St → asched → gmap Z Regs → Prop :=
  | go_stop s A R : goes U s A R [] s A R
  | go_start s A R i p ns d rp B pg F o s1 ps s' A' R' :
      first_tick s A R i p ns d rp B pg F o → handler s = Ok tt s1 →
      goes U s1 (picked A i p ns d) (delete p R) ps s' A' R' → goes U s A R (p :: ps) s' A' R'
  | go_work s A R s1 ps s' A' R' :
      (∀ x, ¬ own (a_cur A) x → get8 (lget (T:=mem) s1) x = get8 (lget s) x) → lget (T:=Scheduler) s1 = lget s →
      goes U s1 A R ps s' A' R' → goes U s A R ps s' A' R'
  | go_tick s A R c A1 s1 ps s' A' R' :
      is_running A c → quantum_remaining c ≠ 1 → atick A = Some A1 → handler s = Ok tt s1 →
      goes U s1 A1 R ps s' A' R' → goes U s A R ps s' A' R'
  | go_turn s A R c qn i p ns d rp s1 ps s' A' R' : let r := lget (T:=Regs) s in
      quantum_ends s A R c qn i p ns d rp → handler s = Ok tt s1 →
      goes U s1 (turned A c qn i p ns d (esp r - 52)) (<[a_cur A := set_eip ra (set_esp (esp r - 12) r)]> (delete p R)) ps s' A' R' →
      goes U s A R (p :: ps) s' A' R'.

Lemma work_system U s A R s1 : system U s A R → (∀ x, ¬ own (a_cur A) x → get8 (lget (T:=mem) s1) x = get8 (lget s) x) →
  lget (T:=Scheduler) s1 = lget s → system U s1 A R.
Proof.
  intros [HI [Hd Hs] Hsep [HRq Hctx]] Hm Hsc. constructor; [done| |done|].
  - constructor; [|by rewrite Hsc]. eapply data_rep_ext; [exact Hd|]. intros x Hx. apply Hm. intros Ho. by destruct (se_own _ _ _ _ Hsep _ _ Ho).
  - split; [done|]. intros p r Hr. destruct (Hctx _ _ Hr) as (c & Hc & Hpk). exists c. split; [done|].
    eapply parked_ext; [|exact Hpk]. intros x Hx. apply Hm. apply (se_apart _ _ _ _ Hsep p); [|done]. intros ->. congruence.
Qed.

(** The block of a process keeps its address space through a turn. *)
Lemma turned_space A c qn i p ns d v q e : a_procs A !! a_cur A = Some c → a_procs A !! p = Some d → p ≠ a_cur A →
  a_procs A !! q = Some e → ∃ e', a_procs (turned A c qn i p ns d v) !! q = Some e' ∧ address_space_physical e' = address_space_physical e.
Proof.
  intros Hc Hd Hpc He. cbn. destruct (decide (q = a_cur A)) as [->|H1].
  { rewrite lookup_insert_eq. eexists. split; [done|]. by assert (e = c) as -> by congruence. }
  rewrite lookup_insert_ne by done. destruct (decide (q = p)) as [->|H2].
  { rewrite lookup_insert_eq. eexists. split; [done|]. by assert (e = d) as -> by congruence. }
  rewrite !lookup_insert_ne by done. by exists e.
Qed.

(** However long the machine goes on, it stays in order; a suspended process
    that does not get the processor keeps its registers, and every process its
    address space. *)
Lemma goes_keeps U s A R ps s' A' R' : goes U s A R ps s' A' R' → system U s A R →
  system U s' A' R' ∧ (∀ p r, R !! p = Some r → p ∉ ps → R' !! p = Some r) ∧
  ∀ q e, a_procs A !! q = Some e → ∃ e', a_procs A' !! q = Some e' ∧ address_space_physical e' = address_space_physical e.
Proof.
  induction 1 as [s A R|s A R i p ns d rp B pg F o s1 ps s' A' R' Hft Hh _ IH|s A R s1 ps s' A' R' Hm Hsc _ IH|s A R c A1 s1 ps s' A' R' Hrun Hq Ht Hh _ IH|s A R c qn i p ns d rp s1 ps s' A' R' r Hqe Hh _ IH]; intros HS.
  - split_and!; [done|done|eauto].
  - destruct (first_tick_run U s A R i p ns d rp B pg F o HS Hft) as (s2 & Hh2 & _ & _ & HS2). assert (s2 = s1) as -> by congruence.
    destruct (IH HS2) as (? & Hkeep & Hsp). split_and!; [done| |].
    + intros p' r' Hr' [Hne Hps]%not_elem_of_cons. apply Hkeep; [|done]. by rewrite lookup_delete_ne.
    + intros q e He. pose proof (ft_block _ _ _ _ _ _ _ _ _ _ _ _ Hft) as Hd. destruct (decide (q = p)) as [->|Hne].
      * assert (e = d) as -> by congruence. exact (Hsp p _ (lookup_insert_eq _ _ _)).
      * apply Hsp. cbn. by rewrite lookup_insert_ne.
  - apply IH. by eapply work_system.
  - destruct (tick_run U s A R c HS Hrun Hq) as (A2 & s2 & Ht2 & Hh2 & HS2 & _ & _ & _ & Hblk).
    assert (A2 = A1) as -> by congruence. assert (s2 = s1) as -> by congruence. destruct (IH HS2) as (? & ? & Hsp). split_and!; [done|done|].
    intros q e He. destruct (Hblk q e He) as (e1 & He1 & _ & E1). destruct (Hsp q e1 He1) as (e2 & He2 & E2). exists e2. split; [done|congruence].
  - destruct (turn_run U s A R c qn i p ns d rp HS Hqe) as (s2 & Hh2 & _ & _ & HS2). assert (s2 = s1) as -> by congruence.
    destruct (IH HS2) as (? & Hkeep & Hsp). pose proof (sy_contexts _ _ _ _ HS) as [HRq _]. destruct Hqe as [[[_ [Hc _]] _] _ _ Hd HRp _ _].
    assert (p ≠ a_cur A) as Hpc by (intros ->; congruence). split_and!; [done| |].
    + intros p' r' Hr' [Hne Hps]%not_elem_of_cons. apply Hkeep; [|done].
      rewrite lookup_insert_ne by (intros <-; congruence). by rewrite lookup_delete_ne.
    + intros q e He. destruct (turned_space A c qn i p ns d (esp r - 52) q e Hc Hd Hpc He) as (e1 & He1 & E1).
      destruct (Hsp q e1 He1) as (e2 & He2 & E2). exists e2. split; [done|congruence].
Qed.

(** C7: a timer interrupt that ends the quantum of the running process, with
    another suspended one first in the queues: the processor goes on with the
    registers and the page directory of that process, just as they were; the
    process that ran has its registers on its stack, is demoted and queued;
    the scheduler's memory, its invariant and the registers of every other
    suspended process are kept. *)
Theorem preempt_switches U s A R c qn i p ns d rp : let r := lget (T:=Regs) s in let q := a_cur A in
  let A' := turned A c qn i p ns d (esp r - 52) in
  system U s A R → quantum_ends s A R c qn i p ns d rp →
  ∃ s', handler s = Ok tt s' ∧ lget s' = rp ∧ cr3 (lget s') = address_space_physical d ∧ current_pcb (lget s') = p ∧
    srep ls s' A' ∧ ainv U A' ∧ parked (lget s') (own q) (set_stack (esp r - 52) (demoted c)) (set_eip ra (set_esp (esp r - 12) r)) ∧
    ∀ p' r', R !! p' = Some r' → p' ≠ p → ∃ e, a_procs A' !! p' = Some e ∧ parked (lget s') (own p') e r'.
Proof.
  intros r q A' HS Hqe. destruct (turn_run U s A R c qn i p ns d rp HS Hqe) as (s' & Hh & Hr & Hc3 & HS').
  pose proof HS' as [HI' Hrep' _ [_ Hctx]]. pose proof (sy_contexts _ _ _ _ HS) as [HRq _]. exists s'.
  split_and!; [done|done|done|by rewrite (sr_static _ _ _ Hrep')|done|done| |].
  - destruct (Hctx q _ (lookup_insert_eq _ _ _)) as (e & He & Hpk). cbn in He. fold q in He. rewrite lookup_insert_eq in He. by injection He as <-.
  - intros p' r' Hr' Hne. apply Hctx. rewrite lookup_insert_ne by (intros <-; congruence). by rewrite lookup_delete_ne.
Qed.

(** C8: a process that a timer interrupt takes the processor from goes on
    where it was. Whatever the other processes do then within their own
    memory, and however often the timer comes, the interrupt that gives it
    the processor again leaves exactly its registers and its page directory
    in the processor, as after the return from [context_switch]. *)
Theorem preempted_process_resumes U s A R c qn i p ns d rp : let r := lget (T:=Regs) s in let q := a_cur A in
  let A1 := turned A c qn i p ns d (esp r - 52) in let R1 := <[q := set_eip ra (set_esp (esp r - 12) r)]> (delete p R) in
  system U s A R → quantum_ends s A R c qn i p ns d rp →
  ∃ s1, handler s = Ok tt s1 ∧ lget s1 = rp ∧
    ∀ ps s2 A2 R2 c2 qn2 i2 ns2 d2 rq, goes U s1 A1 R1 ps s2 A2 R2 → q ∉ ps → quantum_ends s2 A2 R2 c2 qn2 i2 q ns2 d2 rq →
      ∃ s3, handler s2 = Ok tt s3 ∧ lget s3 = set_eip ra (set_esp (esp r - 12) r) ∧ cr3 (lget s3) = address_space_physical c.
Proof.
  intros r q A1 R1 HS Hqe. destruct (turn_run U s A R c qn i p ns d rp HS Hqe) as (s1 & Hh & Hr & _ & HS1).
  exists s1. split_and!; [done|done|]. intros ps s2 A2 R2 c2 qn2 i2 ns2 d2 rq Hgo Hps Hqe2.
  destruct (goes_keeps _ _ _ _ _ _ _ _ Hgo HS1) as (HS2 & Hkeep & Hsp).
  destruct (turn_run U s2 A2 R2 c2 qn2 i2 q ns2 d2 rq HS2 Hqe2) as (s3 & Hh3 & Hr3 & Hc3 & _).
  exists s3. split; [done|]. pose proof (Hkeep q _ (lookup_insert_eq _ _ _) Hps) as HRq.
  rewrite (qe_context _ _ _ _ _ _ _ _ _ _ Hqe2) in HRq. injection HRq as E. split; [by rewrite Hr3, E|].
  destruct (Hsp q (set_stack (esp r - 52) (demoted c)) (lookup_insert_eq _ _ _)) as (e & He & Ee).
  rewrite (qe_block _ _ _ _ _ _ _ _ _ _ Hqe2) in He. injection He as <-. by rewrite Hc3, Ee.
Qed.
End preempt.
