(* ===== verification/Stubs.v ===== *)
(** * Stubs: from an interrupt to its handler and back
      (src/kernel/arch/i386/interrupts/interrupts.asm)

    What the processor does when it takes an interrupt through one of the
    gates of idt.c, the 256 stubs and their common part, and [iret]. The
    kernel runs in ring 0 only: no stack is changed on the way. *)

From S2P Require Import Prelude Memory Isr Panic Paging Mmu Switch.

(** ** The code *)

(** The segment registers. *)
Record Segs : Type := mkSegs { cs : Z; ds : Z; es : Z; fs : Z; gs : Z }.

Definition set_cs (v : Z) (g : Segs) : Segs := mkSegs v (ds g) (es g) (fs g) (gs g).
Definition set_data (v : Z) (g : Segs) : Segs := mkSegs (cs g) v v v v.

(** The low half of [eax]. *)
Definition ax (r : Regs) : Z := u16 (eax r).
Definition set_ax (v : Z) (r : Regs) : Regs := set_eax (eax r - u16 (eax r) + v) r.

(** Taking an interrupt clears TF, IF, NT and RF; [iret] in ring 0 loads what
    [popfd] does and RF. *)
Definition gate_flags (f : Z) : Z := Z.land f (Z.lnot 0x14300).
Definition iret_flags (old v : Z) : Z := Z.lor (Z.land v 0x257FD5) (Z.land old 0xFFDA802A).

(** The vectors for which the macro is [ISR_ERRCODE]. *)
Definition isr_errcode (i : Z) : bool :=
  (i =? 8) || ((10 <=? i) && (i <=? 14)) || (i =? 17) || (i =? 21) || (i =? 29) || (i =? 30).

(** The exceptions for which the processor pushes an error code: double
    fault, invalid TSS, segment not present, stack, general protection and
    page fault, alignment check, control protection, VMM communication and
    security exception. *)
Definition error_code_vectors : list Z := [8; 10; 11; 12; 13; 14; 17; 21; 29; 30].

Section stubs.
Context {St : Type} `{LM : Lens St mem} `{LC : Lens St Cpu} `{LR : Lens St Regs} `{LG : Lens St Segs}.
(** The C function, on the address of the saved registers; what it leaves in
    the registers; where its call returns to. *)
Context (master_exception_handler : Z → M St unit) (clobber : Regs → Regs) (return_address : Z).

Definition upd_segs (f : Segs → Segs) : M St unit := g ← gets; puts (f g).

(** The processor's part: an interrupt gate, with or without error code. *)
Definition take_interrupt (selector offset : Z) (err : option Z) : M St unit :=
  r ← gets; push (eflags r) ;;
  g ← gets; push (cs g) ;;
  r ← gets; push (eip r) ;;
  match err with Some e => push e | None => mret tt end ;;
  upd_segs (set_cs selector) ;;
  upd_regs (λ r, set_eip offset (set_eflags (gate_flags (eflags r)) r)).
Definition iret : M St unit :=
  v_eip ← pop; v_cs ← pop; v_eflags ← pop;
  upd_segs (set_cs (u16 v_cs)) ;;
  upd_regs (λ r, set_eip v_eip (set_eflags (iret_flags (eflags r) v_eflags) r)).

(** [mov ds, ax] and the three after it. *)
Definition mov_data_ax : M St unit := r ← gets; upd_segs (set_data (ax r)).

(** [call]: the return address, the function on its argument, its [ret]. *)
Definition call_handler : M St unit :=
  push return_address ;;
  r ← gets; regs ← vload32 (esp r ⊞ 4);
  master_exception_handler regs ;;
  upd_regs clobber ;;
  ret.

Definition common_stub_handler : M St unit :=
  pusha ;;
  g ← gets; upd_regs (set_ax (ds g)) ;;
  r ← gets; push (eax r) ;;
  upd_regs (set_ax 0x10) ;;
  mov_data_ax ;;
  r ← gets; push (esp r) ;;
  call_handler ;;
  upd_regs (λ r, set_esp (esp r ⊞ 4) r) ;;
  v ← pop; upd_regs (set_eax v) ;;
  mov_data_ax ;;
  popa ;;
  upd_regs (λ r, set_esp (esp r ⊞ 8) r) ;;
  iret.

Definition exception_stub (i : Z) : M St unit :=
  (if isr_errcode i then push i else push 0 ;; push i) ;;
  common_stub_handler.
End stubs.

(** The macros are chosen as the processor does. *)
Lemma isr_errcode_vectors v : isr_errcode v = true ↔ v ∈ error_code_vectors.
Proof. unfold isr_errcode, error_code_vectors. rewrite !elem_of_cons, elem_of_nil. rewrite !orb_true_iff, andb_true_iff, !Z.eqb_eq, !Z.leb_le. lia. Qed.

(** ** Flags *)

Lemma iret_restores old f : flags_ok old → flags_ok f → iret_flags old (u32 f) = f.
Proof.
  intros Ho Hf. unfold iret_flags. rewrite u32_small by (by apply flags_range).
  assert (Z.land f 0x257FD5 = Z.land f POPF_MASK) as ->.
  { rewrite <- (flags_split f Hf) at 1. rewrite Z.land_lor_distr_l, <- Z.land_assoc. change (Z.land POPF_MASK 0x257FD5) with POPF_MASK.
    change (Z.land 2 0x257FD5) with 0. apply Z.lor_0_r. }
  assert (Z.land old 0xFFDA802A = 2) as -> by (change 0xFFDA802A with (Z.land (Z.lnot POPF_MASK) 0xFFDA802A); by rewrite Z.land_assoc, Ho).
  by apply flags_split.
Qed.

Lemma gate_flags_ok f : flags_ok f → flags_ok (gate_flags f) ∧ Z.testbit (gate_flags f) 9 = false.
Proof.
  intros Hf. split.
  - unfold flags_ok, gate_flags in *. rewrite <- Z.land_assoc, (Z.land_comm (Z.lnot 0x14300)), Z.land_assoc, Hf. done.
  - unfold gate_flags. rewrite Z.land_spec. change (Z.testbit (Z.lnot 0x14300) 9) with false. apply andb_false_r.
Qed.

(** ** Runs *)

(** The next step of a sequence to the front. *)

Section runs.
Context {St : Type} `{LM : Lens St mem} `{LC : Lens St Cpu} `{LR : Lens St Regs} `{LG : Lens St Segs}.
Context {AC : Apart LM LC} {AR : Apart LM LR} {ACR : Apart LC LR}.
Context {AMG : Apart LM LG} {ACG : Apart LC LG} {ARG : Apart LR LG}.

Lemma cfg_segs (s0 : St) m c r : lget (T:=Segs) (cfg s0 m c r) = lget s0.
Proof. unfold cfg. by rewrite (lget_other' (L:=LM) (K:=LG)), (lget_other' (L:=LC) (K:=LG)), (lget_other' (L:=LR) (K:=LG)). Qed.
Lemma upd_segs_cfg (s0 : St) m c r f : upd_segs f (cfg s0 m c r) = Ok tt (cfg (lput (f (lget s0)) s0) m c r).
Proof.
  unfold upd_segs. rewrite bind_gets, cfg_segs. unfold puts, cfg. f_equal.
  by rewrite <- (lput_comm (L:=LM) (K:=LG)), <- (lput_comm (L:=LC) (K:=LG)), <- (lput_comm (L:=LR) (K:=LG)).
Qed.

Ltac nx := repeat first [rewrite bind_assoc | rewrite bind_gets | rewrite cfg_regs | rewrite cfg_segs | rewrite bind_ret]; cbn beta iota.

(** The saved registers, from the stack pointer down: what the processor
    pushes, the vector, [pusha], [ds] in the low half of [eax]. *)
Definition frame_words (r : Regs) (g : Segs) (err v : Z) : list Z :=
  [eflags r; cs g; eip r; err; v; eax r; ecx r; edx r; ebx r; esp r - 20; ebp r; esi r; edi r; eax r - u16 (eax r) + ds g].

(** Both kinds of stub leave the same five words. *)
Lemma entry_cfg {B} (k : M St B) s0 m c r p F o v err target : sees m c p F → 0 ≤ p < 1048576 → 20 ≤ o ≤ 4096 →
  (is_Some err ↔ isr_errcode v = true) →
  (take_interrupt 0x08 target err ;; (if isr_errcode v then push v else push 0 ;; push v) ;; k) (cfg s0 m c (at_sp r p o)) =
    k (cfg (lput (set_cs 0x08 (lget s0)) s0) (push_words m (F * 4096 + o) [eflags r; cs (lget s0); eip r; default 0 err; v]) (touch c p F)
      (at_sp (set_eip target (set_eflags (gate_flags (eflags r)) r)) p (o - 20))).
Proof.
  intros Hs Hp Ho He. assert (∀ m', sees m' (touch c p F) p F) as Ht by (intros; apply touch_sees). unfold take_interrupt. nx.
  rewrite (bind_ok _ _ _ _ _ (push_cfg s0 m c r p F o _ Hs Hp ltac:(lia))). nx.
  rewrite (bind_ok _ _ _ _ _ (push_cfg s0 _ _ r p F (o - 4) _ (Ht _) Hp ltac:(lia))), touch_touch. nx.
  rewrite (bind_ok _ _ _ _ _ (push_cfg s0 _ _ r p F (o - 4 - 4) _ (Ht _) Hp ltac:(lia))), touch_touch. nx.
  set (m3 := st32 (st32 (st32 _ _ _) _ _) _ _). set (r1 := set_eip target (set_eflags (gate_flags (eflags r)) r)).
  assert (∀ o', set_eip target (set_eflags (gate_flags (eflags (at_sp r p o'))) (at_sp r p o')) = at_sp r1 p o') as Er by done.
  assert (∀ e, push_words m (F * 4096 + o) [eflags r; cs (lget s0); eip r; e; v] =
    st32 (st32 m3 (F * 4096 + (o - 4 - 4 - 4 - 4)) e) (F * 4096 + (o - 4 - 4 - 4 - 4 - 4)) v) as Em.
  { intros e. unfold m3. cbn [push_words at_sp eflags eip set_esp]. repeat (f_equal; try lia). }
  rewrite Em. replace (o - 20) with (o - 4 - 4 - 4 - 4 - 4) by lia. destruct err as [e|]; cbn [default from_option].
  - rewrite (proj1 He) by done.
    rewrite (bind_ok _ _ _ _ _ (push_cfg s0 _ _ r p F (o - 4 - 4 - 4) e (Ht _) Hp ltac:(lia))), touch_touch. nx.
    rewrite (bind_ok _ _ _ _ _ (upd_segs_cfg _ _ _ _ _)), (bind_ok _ _ _ _ _ (upd_regs_cfg _ _ _ _ _)), Er.
    by rewrite (bind_ok _ _ _ _ _ (push_cfg _ _ _ r1 p F (o - 4 - 4 - 4 - 4) v (Ht _) Hp ltac:(lia))), touch_touch.
  - destruct (isr_errcode v); [by destruct (proj2 He eq_refl)|]. nx.
    rewrite (bind_ok _ _ _ _ _ (upd_segs_cfg _ _ _ _ _)), (bind_ok _ _ _ _ _ (upd_regs_cfg _ _ _ _ _)), Er.
    nx. rewrite (bind_ok _ _ _ _ _ (push_cfg _ _ _ r1 p F (o - 4 - 4 - 4) 0 (Ht _) Hp ltac:(lia))), touch_touch.
    by rewrite (bind_ok _ _ _ _ _ (push_cfg _ _ _ r1 p F (o - 4 - 4 - 4 - 4) v (Ht _) Hp ltac:(lia))), touch_touch.
Qed.

Lemma ax_set v r : 0 ≤ v < 65536 → ax (set_ax v r) = v.
Proof. intros Hv. unfold ax, set_ax, set_eax, u16. cbn. Z.div_mod_to_equations. lia. Qed.
Lemma set_ax_set v w r : 0 ≤ v < 65536 → set_ax w (set_ax v r) = set_ax w r.
Proof. intros Hv. pose proof (ax_set v r Hv) as E. unfold ax in E. unfold set_ax at 1. rewrite E. unfold set_ax, set_eax. cbn. f_equal. lia. Qed.

(** The common stub up to the call. *)
Lemma save_all_cfg {B} (k : M St B) s0 m c r p F o : sees m c p F → 0 ≤ p < 1048576 → 40 ≤ o ≤ 4096 → 0 ≤ ds (lget s0) < 65536 →
  (pusha ;; g ← gets; upd_regs (set_ax (ds g)) ;; r ← gets; push (eax r) ;; upd_regs (set_ax 0x10) ;; mov_data_ax ;; r ← gets; push (esp r) ;; k)
    (cfg s0 m c (at_sp r p o)) =
  k (cfg (lput (set_data 0x10 (lget s0)) s0)
      (push_words m (F * 4096 + o) [eax r; ecx r; edx r; ebx r; p * 4096 + o; ebp r; esi r; edi r; eax r - u16 (eax r) + ds (lget s0); p * 4096 + (o - 36)])
      (touch c p F) (at_sp (set_ax 0x10 r) p (o - 40))).
Proof.
  intros Hs Hp Ho Hds. assert (∀ m', sees m' (touch c p F) p F) as Ht by (intros; apply touch_sees).
  erewrite bind_ok; [|unfold pusha; rewrite bind_gets, cfg_regs].
  2: { refine (push_list_cfg s0 [_; _; _; _; _; _; _] _ m c r p F o Hs Hp _). cbn [length]. lia. }
  set (m1 := push_words _ _ _). replace (o - (4 + 4 * Z.of_nat (length _))) with (o - 32) by (cbn [length]; lia). nx.
  rewrite (bind_ok _ _ _ _ _ (upd_regs_cfg _ _ _ _ _)). nx. set (d := ds (lget s0)) in *.
  change (set_ax d (at_sp r p (o - 32))) with (at_sp (set_ax d r) p (o - 32)).
  rewrite (bind_ok _ _ _ _ _ (push_cfg s0 m1 _ (set_ax d r) p F (o - 32) _ (Ht _) Hp ltac:(lia))), touch_touch.
  rewrite (bind_ok _ _ _ _ _ (upd_regs_cfg _ _ _ _ _)). unfold mov_data_ax. nx.
  change (set_ax 16 (at_sp (set_ax d r) p (o - 32 - 4))) with (at_sp (set_ax 16 (set_ax d r)) p (o - 32 - 4)).
  rewrite set_ax_set by done. change (ax (at_sp (set_ax 16 r) p (o - 32 - 4))) with (ax (set_ax 16 r)). rewrite ax_set by lia.
  rewrite (bind_ok _ _ _ _ _ (upd_segs_cfg _ _ _ _ _)). nx.
  rewrite (bind_ok _ _ _ _ _ (push_cfg _ _ _ (set_ax 16 r) p F (o - 32 - 4) _ (Ht _) Hp ltac:(lia))), touch_touch.
  f_equal. replace (o - 40) with (o - 32 - 4 - 4) by lia. unfold m1. cbn [push_words at_sp esp eax ecx edx ebx ebp esi edi set_esp set_ax set_eax].
  replace (o - 32 - 4) with (o - 36) by lia. unfold cfg. repeat (f_equal; try lia).
Qed.

(** The common stub after the call: the words at [a], from the argument on. *)
Lemma restore_all_cfg s0 m c r p F o : sees m c p F → 0 ≤ p < 1048575 → 0 ≤ o → o + 60 ≤ 4096 → let a := F * 4096 + o in
  (upd_regs (λ r, set_esp (esp r ⊞ 4) r) ;; v ← pop; upd_regs (set_eax v) ;; mov_data_ax ;; popa ;; upd_regs (λ r, set_esp (esp r ⊞ 8) r) ;; iret)
    (cfg s0 m c (at_sp r p o)) =
  Ok tt (cfg (lput (mkSegs (u16 (ld32 m (a + 52))) (u16 (ld32 m (a + 4))) (u16 (ld32 m (a + 4))) (u16 (ld32 m (a + 4))) (u16 (ld32 m (a + 4)))) s0) m (touch c p F)
    (mkRegs (ld32 m (a + 36)) (ld32 m (a + 32)) (ld32 m (a + 28)) (ld32 m (a + 24)) (p * 4096 + (o + 60)) (ld32 m (a + 16)) (ld32 m (a + 12)) (ld32 m (a + 8))
      (iret_flags (eflags r) (ld32 m (a + 56))) (ld32 m (a + 48)))).
Proof.
  intros Hs Hp Ho1 Ho2 a. pose proof (touch_sees m c p F) as Ht.
  assert (∀ s1 k r, 0 ≤ k ≤ 4092 → pop (cfg s1 m (touch c p F) (at_sp r p k)) = Ok (ld32 m (F * 4096 + k)) (cfg s1 m (touch c p F) (at_sp r p (k + 4)))) as Hpop.
  { intros s1 k q Hk. by rewrite (pop_cfg s1 m (touch c p F) q p F k Ht Hp Hk), touch_touch. }
  assert (∀ q k n, 0 ≤ k → 0 ≤ n → k + n ≤ 4096 → set_esp (esp (at_sp q p k) ⊞ n) (at_sp q p k) = at_sp q p (k + n)) as Hadd.
  { intros q k n ???. cbn [at_sp set_esp esp]. rewrite u32_small by lia. unfold at_sp, set_esp. cbn. f_equal. lia. }
  rewrite (bind_ok _ _ _ _ _ (upd_regs_cfg _ _ _ _ _)), Hadd by lia.
  rewrite (bind_ok _ _ _ _ _ (pop_cfg s0 m c r p F (o + 4) Hs Hp ltac:(lia))). nx. rewrite (bind_ok _ _ _ _ _ (upd_regs_cfg _ _ _ _ _)).
  unfold mov_data_ax. nx. rewrite (bind_ok _ _ _ _ _ (upd_segs_cfg _ _ _ _ _)).
  set (w := ld32 m (F * 4096 + (o + 4))). set (s0' := lput _ s0). set (r1 := set_eax w (at_sp r p (o + 4 + 4))).
  change r1 with (at_sp (set_eax w r) p (o + 4 + 4)) at 1.
  rewrite (bind_ok _ _ _ _ _ (popa_cfg s0' m _ (set_eax w r) p F (o + 4 + 4) Ht Hp ltac:(lia))), touch_touch.
  match goal with |- context [cfg s0' m (touch c p F) ?q] => set (r2 := q) end. change r2 with (at_sp r2 p (o + 4 + 4 + 32)).
  rewrite (bind_ok _ _ _ _ _ (upd_regs_cfg _ _ _ _ _)), Hadd by lia. unfold iret.
  do 3 (erewrite bind_ok; [|apply Hpop; lia]).
  rewrite (bind_ok _ _ _ _ _ (upd_segs_cfg _ _ _ _ _)), upd_regs_cfg. f_equal.
  assert (lput (set_cs (u16 (ld32 m (F * 4096 + (o + 4 + 4 + 32 + 8 + 4)))) (lget s0')) s0' =
    lput (mkSegs (u16 (ld32 m (a + 52))) (u16 (ld32 m (a + 4))) (u16 (ld32 m (a + 4))) (u16 (ld32 m (a + 4))) (u16 (ld32 m (a + 4)))) s0) as ->.
  { unfold s0'. rewrite lget_lput, lput_lput. unfold set_cs, set_data. cbn. f_equal. unfold ax, r1, w, a. cbn. repeat (f_equal; try lia). }
  f_equal. unfold r2, a, at_sp, set_eip, set_eflags, set_esp. cbn [eax ecx edx ebx esp ebp esi edi eflags eip set_eax].
  repeat first [lia | progress f_equal].
Qed.

(** ** There and back *)

(** What the handler finds, and must leave, below [a]; [regs] is the address
    it is given, of a [CpuRegisters]. *)
Definition stub_memory (m : mem) (a : Z) (r : Regs) (g : Segs) (err v regs ra : Z) : mem :=
  push_words m a (frame_words r g err v ++ [regs; ra]).

Lemma stub_words (m : mem) a r g err v regs ra (i : nat) x :
  (frame_words r g err v ++ [regs; ra]) !! i = Some x → ld32 (stub_memory m a r g err v regs ra) (a - 4 * (Z.of_nat i + 1)) = u32 x.
Proof. apply push_words_read. Qed.

(** The call, given what the function does. *)
Lemma call_handler_cfg h clobber ra s0 m c r p F o s2 m2 c2 : let r1 := at_sp r p (o - 4) in let rc := clobber r1 in
  sees m c p F → 0 ≤ p < 1048575 → 4 ≤ o ≤ 4088 →
  h (ld32 m (F * 4096 + o)) (cfg s0 (st32 m (F * 4096 + (o - 4)) ra) (touch c p F) r1) = Ok tt (cfg s2 m2 c2 r1) →
  esp rc = esp r1 → sees m2 c2 p F →
  call_handler h clobber ra (cfg s0 m c (at_sp r p o)) = Ok tt (cfg s2 m2 (touch c2 p F) (at_sp (set_eip (ld32 m2 (F * 4096 + (o - 4))) rc) p o)).
Proof.
  intros r1 rc Hs Hp Ho Hh He Hs2. unfold call_handler.
  rewrite (bind_ok _ _ _ _ _ (push_cfg s0 m c r p F o ra Hs ltac:(lia) ltac:(lia))). nx.
  assert (esp (at_sp r p (o - 4)) ⊞ 4 = p * 4096 + o) as -> by (cbn [at_sp set_esp esp]; rewrite u32_small by lia; lia).
  rewrite (bind_ok _ _ _ _ _ (vload32_cfg s0 _ _ _ p F o (touch_sees _ _ _ _) ltac:(lia) ltac:(lia))), touch_touch, ld32_st32_ne by lia.
  rewrite (bind_ok _ _ _ _ _ Hh), (bind_ok _ _ _ _ _ (upd_regs_cfg _ _ _ _ _)). fold rc.
  assert (rc = at_sp rc p (o - 4)) as Erc by (cbn [r1 at_sp set_esp esp] in He; destruct rc; cbn in *; by subst).
  rewrite Erc at 1. rewrite (ret_cfg s2 m2 c2 rc p F (o - 4) Hs2 Hp ltac:(lia)). by replace (o - 4 + 4) with o by lia.
Qed.

Lemma push_words_app l1 : ∀ m a l2, push_words m a (l1 ++ l2) = push_words (push_words m a l1) (a - 4 * Z.of_nat (length l1)) l2.
Proof.
  induction l1 as [|v l1 IH]; intros m a l2; cbn [app push_words length]; [f_equal; lia|]. rewrite IH. f_equal. lia.
Qed.

(** The stub after the call. *)
Definition leave : M St unit :=
  upd_regs (λ r, set_esp (esp r ⊞ 4) r) ;; v ← pop; upd_regs (set_eax v) ;; mov_data_ax ;; popa ;; upd_regs (λ r, set_esp (esp r ⊞ 8) r) ;; iret.

(** From the interrupt to the call. *)
Lemma stub_entry h clobber ra s m c r p F o v err target : let g := lget s in let a := F * 4096 + o in
  sees m c p F → 0 ≤ p < 1048575 → 64 ≤ o ≤ 4096 → 0 ≤ ds g < 65536 → (is_Some err ↔ isr_errcode v = true) →
  (take_interrupt 0x08 target err ;; exception_stub h clobber ra v) (cfg s m c (at_sp r p o)) =
    (call_handler h clobber ra ;; leave) (cfg (lput (mkSegs 0x08 0x10 0x10 0x10 0x10) s)
      (push_words m a (frame_words (at_sp r p o) g (default 0 err) v ++ [p * 4096 + (o - 56)])) (touch c p F)
      (at_sp (set_ax 0x10 (set_eip target (set_eflags (gate_flags (eflags r)) r))) p (o - 60))).
Proof.
  intros g a Hs Hp Ho Hds He. unfold exception_stub. rewrite (entry_cfg _ s m c r p F o v err target Hs ltac:(lia) ltac:(lia) He).
  set (r1 := set_eip target _). set (s' := lput (set_cs 8 (lget s)) s).
  assert (lget (T:=Segs) s' = set_cs 8 g) as Eg by apply lget_lput. unfold common_stub_handler.
  rewrite (save_all_cfg _ s' _ _ r1 p F (o - 20) (touch_sees _ _ _ _) ltac:(lia) ltac:(lia)) by (rewrite Eg; exact Hds).
  rewrite touch_touch, Eg. unfold s'. rewrite lput_lput. fold leave.
  replace (o - 20 - 40) with (o - 60) by lia. f_equal. f_equal. set (l1 := [eflags r; _; _; _; _]).
  replace (F * 4096 + (o - 20)) with (a - 4 * Z.of_nat (length l1)) by (cbn [l1 length]; lia). fold a. rewrite <- push_words_app.
  unfold l1, r1, set_cs, frame_words. cbn [app set_eip set_eflags eax ecx edx ebx ebp esi edi at_sp set_esp esp ds].
  repeat first [lia | progress f_equal].
Qed.

(** The saved words by their offset in [CpuRegisters]. *)
Lemma stub_fields m a r g err v regs ra : regs_ok r → 0 ≤ eip r < 4294967296 → 0 ≤ cs g < 65536 → 0 ≤ v < 256 → 0 ≤ err < 4294967296 →
  ∀ k w, (k, w) ∈ [(0, u32 (eax r - u16 (eax r) + ds g)); (4, edi r); (8, esi r); (12, ebp r); (20, ebx r); (24, edx r); (28, ecx r); (32, eax r);
    (OFF_INTERRUPT_NUMBER, v); (OFF_ERROR_CODE, err); (44, eip r); (48, cs g); (52, eflags r)] →
  ld32 (stub_memory m a r g err v regs ra) (a - 56 + k) = w.
Proof.
  intros [Hr Hf] Heip Hcs Hv Herr. pose proof (flags_range _ Hf) as Hfr. repeat apply Forall_cons in Hr as [? Hr].
  assert (∀ (i : nat) k w, (frame_words r g err v ++ [regs; ra]) !! i = Some w → k = 52 - 4 * Z.of_nat i →
    ld32 (stub_memory m a r g err v regs ra) (a - 56 + k) = u32 w) as Hw.
  { intros i k w Hi ->. rewrite <- (stub_words m a r g err v regs ra i w Hi). f_equal. lia. }
  assert (∀ (i : nat) k w, (frame_words r g err v ++ [regs; ra]) !! i = Some w → k = 52 - 4 * Z.of_nat i → 0 ≤ w < 4294967296 →
    ld32 (stub_memory m a r g err v regs ra) (a - 56 + k) = w) as Hw'.
  { intros i k w Hi Hk Hrange. rewrite (Hw i k w Hi Hk). by apply u32_small. }
  intros k w. rewrite !elem_of_cons, elem_of_nil. intros H'. repeat destruct H' as [[= -> ->]|H']; [..|done].
  - exact (Hw 13%nat 0 _ eq_refl eq_refl).
  - exact (Hw' 12%nat 4 _ eq_refl eq_refl ltac:(assumption)).
  - exact (Hw' 11%nat 8 _ eq_refl eq_refl ltac:(assumption)).
  - exact (Hw' 10%nat 12 _ eq_refl eq_refl ltac:(assumption)).
  - exact (Hw' 8%nat 20 _ eq_refl eq_refl ltac:(assumption)).
  - exact (Hw' 7%nat 24 _ eq_refl eq_refl ltac:(assumption)).
  - exact (Hw' 6%nat 28 _ eq_refl eq_refl ltac:(assumption)).
  - exact (Hw' 5%nat 32 _ eq_refl eq_refl ltac:(assumption)).
  - exact (Hw' 4%nat 36 _ eq_refl eq_refl ltac:(lia)).
  - exact (Hw' 3%nat 40 _ eq_refl eq_refl ltac:(lia)).
  - exact (Hw' 2%nat 44 _ eq_refl eq_refl ltac:(lia)).
  - exact (Hw' 1%nat 48 _ eq_refl eq_refl ltac:(lia)).
  - exact (Hw' 0%nat 52 _ eq_refl eq_refl ltac:(lia)).
Qed.

(** A field of the list. *)
Ltac field_tac := repeat first [apply list_elem_of_here | apply list_elem_of_further].

(** The way back over a frame that is as it was saved. *)
Lemma leave_restores s0 m0 (m : mem) c q r g p F o err v regs ra : let a := F * 4096 + o in
  regs_ok r → 0 ≤ eip r < 4294967296 → 0 ≤ cs g < 65536 → 0 ≤ ds g < 65536 → 0 ≤ v < 256 → 0 ≤ err < 4294967296 → esp r = p * 4096 + o →
  sees m c p F → 0 ≤ p < 1048575 → 64 ≤ o ≤ 4096 → flags_ok (eflags q) →
  (∀ x, a - 60 ≤ x < a → get8 m x = get8 (stub_memory m0 a r g err v regs ra) x) →
  leave (cfg s0 m c (at_sp q p (o - 60))) = Ok tt (cfg (lput (mkSegs (cs g) (ds g) (ds g) (ds g) (ds g)) s0) m (touch c p F) r).
Proof.
  intros a Hr Heip Hcs Hds Hv Herr Hesp Hs Hp Ho Hq Hm. unfold leave. rewrite (restore_all_cfg s0 m c q p F (o - 60) Hs Hp ltac:(lia) ltac:(lia)).
  pose proof (stub_fields m0 a r g err v regs ra Hr Heip Hcs Hv Herr) as Hf. destruct Hr as [_ Hfl].
  assert (∀ k j w, (k, w) ∈ [(0, u32 (eax r - u16 (eax r) + ds g)); (4, edi r); (8, esi r); (12, ebp r); (20, ebx r); (24, edx r); (28, ecx r); (32, eax r);
    (OFF_INTERRUPT_NUMBER, v); (OFF_ERROR_CODE, err); (44, eip r); (48, cs g); (52, eflags r)] → 0 ≤ k ≤ 52 → j = k + 4 → ld32 m (F * 4096 + (o - 60) + j) = w) as L.
  { intros k j w Hin Hk ->. rewrite <- (Hf k w Hin). replace (F * 4096 + (o - 60) + (k + 4)) with (a - 56 + k) by (unfold a; lia). apply get8_ext_ld32. intros; apply Hm; lia. }
  pose proof (L 0 4 _ ltac:(field_tac) ltac:(lia) eq_refl) as L0. pose proof (L 4 8 _ ltac:(field_tac) ltac:(lia) eq_refl) as L4. pose proof (L 8 12 _ ltac:(field_tac) ltac:(lia) eq_refl) as L8.
  pose proof (L 12 16 _ ltac:(field_tac) ltac:(lia) eq_refl) as L12. pose proof (L 20 24 _ ltac:(field_tac) ltac:(lia) eq_refl) as L20. pose proof (L 24 28 _ ltac:(field_tac) ltac:(lia) eq_refl) as L24.
  pose proof (L 28 32 _ ltac:(field_tac) ltac:(lia) eq_refl) as L28. pose proof (L 32 36 _ ltac:(field_tac) ltac:(lia) eq_refl) as L32. pose proof (L 44 48 _ ltac:(field_tac) ltac:(lia) eq_refl) as L44.
  pose proof (L 48 52 _ ltac:(field_tac) ltac:(lia) eq_refl) as L48. pose proof (L 52 56 _ ltac:(field_tac) ltac:(lia) eq_refl) as L52. clear L Hf Hm.
  rewrite L0, L4, L8, L12, L20, L24, L28, L32, L44, L48, L52.
  assert (u16 (u32 (eax r - u16 (eax r) + ds g)) = ds g) as -> by (unfold u16, u32; Z.div_mod_to_equations; lia).
  rewrite (u16_small (cs g) Hcs). rewrite <- (u32_small (eflags r)) at 1 by (by apply flags_range). rewrite iret_restores by done.
  f_equal. f_equal. destruct r. cbn in Hesp |- *. f_equal. lia.
Qed.
End runs.

Section claims.
Context {St : Type} `{LM : Lens St mem} `{LC : Lens St Cpu} `{LR : Lens St Regs} `{LG : Lens St Segs}.
Context {AC : Apart LM LC} {AR : Apart LM LR} {ACR : Apart LC LR}.
Context {AMG : Apart LM LG} {ACG : Apart LC LG} {ARG : Apart LR LG}.
Context (master_exception_handler : Z → M St unit) (clobber : Regs → Regs) (return_address : Z).

(** C14: a stub hands its handler a [CpuRegisters] with the vector, the error
    code (zero where the processor pushes none), and the interrupted code's
    registers, flags and return address, interrupts off and the kernel's data
    segment loaded. If the handler returns with its caller's frame intact,
    the interrupted code goes on with every general register, the flags, the
    stack and instruction pointers and its code segment as they were; [ds],
    and with it [es], [fs] and [gs], is the [ds] it had. *)
Theorem interrupt_roundtrip (s : St) p F o v err target : let r := lget s in let g := lget s in let a := F * 4096 + o in let regs := p * 4096 + (o - 56) in
  regs_ok r → 0 ≤ eip r < 4294967296 → 0 ≤ cs g < 65536 → 0 ≤ ds g < 65536 → esp r = p * 4096 + o → 0 ≤ p < 1048575 → 64 ≤ o ≤ 4096 →
  sees (lget s) (lget s) p F → 0 ≤ v < 256 → 0 ≤ default 0 err < 4294967296 → (is_Some err ↔ v ∈ error_code_vectors) →
  (∀ q, esp (clobber q) = esp q ∧ (flags_ok (eflags q) → flags_ok (eflags (clobber q)))) →
  ∃ (m1 : mem) (r1 : Regs), let s1 := cfg (lput (mkSegs 0x08 0x10 0x10 0x10 0x10) s) m1 (touch (lget s) p F) r1 in
    (∀ k w, (k, w) ∈ [(0, u32 (eax r - u16 (eax r) + ds g)); (4, edi r); (8, esi r); (12, ebp r); (20, ebx r); (24, edx r); (28, ecx r); (32, eax r);
        (OFF_INTERRUPT_NUMBER, v); (OFF_ERROR_CODE, default 0 err); (44, eip r); (48, cs g); (52, eflags r)] → ld32 m1 (a - 56 + k) = w) ∧
    (∀ x, x < a - 64 ∨ a ≤ x → get8 m1 x = get8 (lget s) x) ∧ Z.testbit (eflags r1) 9 = false ∧
    ∀ s2, master_exception_handler regs s1 = Ok tt s2 → lget s2 = r1 → sees (lget s2) (lget s2) p F →
      (∀ x, a - 64 ≤ x < a → get8 (lget s2) x = get8 m1 x) →
      ∃ s3, (take_interrupt 0x08 target err ;; exception_stub master_exception_handler clobber return_address v) s = Ok tt s3 ∧
        lget s3 = r ∧ lget s3 = mkSegs (cs g) (ds g) (ds g) (ds g) (ds g) ∧ lget (T:=mem) s3 = lget s2.
Proof.
  intros r g a regs Hr Heip Hcs Hds Hesp Hp Ho Hs Hv Herr He Hcl. rewrite <- isr_errcode_vectors in He. set (m := lget (T:=mem) s) in *. set (c := lget (T:=Cpu) s) in *.
  assert (r = at_sp r p o) as Er by (destruct r; cbn in *; by subst).
  set (q := set_ax 0x10 (set_eip target (set_eflags (gate_flags (eflags r)) r))). set (sb := lput (mkSegs 0x08 0x10 0x10 0x10 0x10) s).
  set (m15 := push_words m a (frame_words r g (default 0 err) v ++ [regs])).
  set (m1 := stub_memory m a r g (default 0 err) v regs return_address).
  assert (m1 = st32 m15 (F * 4096 + (o - 60 - 4)) return_address) as Em1.
  { unfold m1, m15, stub_memory. rewrite (app_assoc _ [regs] [return_address]), push_words_app. cbn [push_words length frame_words app]. f_equal. unfold a. lia. }
  destruct (gate_flags_ok (eflags r)) as [Hgf Hif]; [apply Hr|]. set (r1 := at_sp q p (o - 60 - 4)).
  exists m1, r1. split_and!.
  - exact (stub_fields m a r g (default 0 err) v regs return_address Hr Heip Hcs Hv Herr).
  - intros x Hx. apply push_words_same. change (length _) with 16%nat. lia.
  - exact Hif.
  - intros s2 Hrun Hr2 Hs2 Hm2.
    assert (s2 = cfg s2 (lget s2) (lget s2) r1) as E2 by (rewrite <- Hr2; symmetry; apply cfg_self).
    assert (∀ k, 0 ≤ k ≤ 60 → ld32 (lget s2) (a - 64 + k) = ld32 m1 (a - 64 + k)) as L2 by (intros k Hk; apply get8_ext_ld32; intros; apply Hm2; lia).
    destruct (Hcl r1) as [Hcs1 Hcf1]. pose proof (touch_sees (lget s2) (lget s2) p F) as Ht.
    assert (ld32 m15 (F * 4096 + (o - 60)) = regs) as Earg.
    { pose proof (push_words_read (frame_words r g (default 0 err) v ++ [regs]) m a 14 regs eq_refl) as E. fold m15 in E.
      replace (F * 4096 + (o - 60)) with (a - 4 * (Z.of_nat 14 + 1)) by (unfold a; lia). rewrite E. apply u32_small. unfold regs. lia. }
    pose proof (call_handler_cfg master_exception_handler clobber return_address sb m15 (touch c p F) q p F (o - 60) s2 (lget s2) (lget s2)) as Hcall.
    cbv zeta in Hcall. fold r1 in Hcall. rewrite touch_touch, Earg, <- Em1, Hrun, <- E2 in Hcall.
    specialize (Hcall (touch_sees _ _ _ _) Hp ltac:(lia) eq_refl Hcs1 Hs2).
    eexists. split; [|].
    + transitivity ((take_interrupt 0x08 target err ;; exception_stub master_exception_handler clobber return_address v) (cfg s m c (at_sp r p o))).
      { f_equal. rewrite <- Er. symmetry. apply cfg_self. }
      rewrite (stub_entry master_exception_handler clobber return_address s m c r p F o v err target Hs Hp Ho Hds He), <- Er. fold g a regs q sb m15.
      rewrite (bind_ok _ _ _ _ _ Hcall).
      apply (leave_restores s2 m (lget s2) _ _ r g p F o (default 0 err) v regs return_address Hr Heip Hcs Hds Hv Herr Hesp Ht Hp Ho); [by apply Hcf1|].
      intros x Hx. apply Hm2. lia.
    + rewrite cfg_regs, cfg_segs, cfg_mem. split; [done|]. split; [apply lget_lput|done].
Qed.
End claims.

(** ** A system call on a concrete machine *)

Module StubsExample.
Record machine : Type := mkMachine { m_mem : mem; m_cpu : Cpu; m_regs : Regs; m_segs : Segs; m_isr : IsrTables }.

#[local] Instance lens_mem : Lens machine mem.
Proof. refine {| lget := m_mem; lput x s := mkMachine x (m_cpu s) (m_regs s) (m_segs s) (m_isr s) |}; by intros; destruct s. Defined.
#[local] Instance lens_cpu : Lens machine Cpu.
Proof. refine {| lget := m_cpu; lput x s := mkMachine (m_mem s) x (m_regs s) (m_segs s) (m_isr s) |}; by intros; destruct s. Defined.
#[local] Instance lens_regs : Lens machine Regs.
Proof. refine {| lget := m_regs; lput x s := mkMachine (m_mem s) (m_cpu s) x (m_segs s) (m_isr s) |}; by intros; destruct s. Defined.
#[local] Instance lens_segs : Lens machine Segs.
Proof. refine {| lget := m_segs; lput x s := mkMachine (m_mem s) (m_cpu s) (m_regs s) x (m_isr s) |}; by intros; destruct s. Defined.
#[local] Instance lens_isr : Lens machine IsrTables.
Proof. refine {| lget := m_isr; lput x s := mkMachine (m_mem s) (m_cpu s) (m_regs s) (m_segs s) x |}; by intros; destruct s. Defined.
#[local] Instance apart_mc : Apart lens_mem lens_cpu.
Proof. by constructor. Qed.
#[local] Instance apart_mr : Apart lens_mem lens_regs.
Proof. by constructor. Qed.
#[local] Instance apart_cr : Apart lens_cpu lens_regs.
Proof. by constructor. Qed.
#[local] Instance apart_mg : Apart lens_mem lens_segs.
Proof. by constructor. Qed.
#[local] Instance apart_cg : Apart lens_cpu lens_segs.
Proof. by constructor. Qed.
#[local] Instance apart_rg : Apart lens_regs lens_segs.
Proof. by constructor. Qed.

(** A stack in page 9, which the processor has cached; a handler for vector
    0x80 that notes its call at 0xA000. *)
Definition regs0 : Regs := mkRegs 1 2 3 4 0x9800 5 6 7 0x246 0x100300.
Definition segs0 : Segs := mkSegs 0x08 0x20 0x10 0x10 0x10.
Definition isr0 : IsrTables := mkIsr (replicate 32 0) (replicate 16 0) (<[0x80%nat := 0x100700]> (replicate 256 0)).
Definition s0 : machine := mkMachine ∅ (mkCpu 0x80000011 0x1000 {[9 := 9]} 0x1000) regs0 segs0 isr0.
Definition handler : Z → M machine unit :=
  Isr.master_exception_handler (λ h regs, store32 0xA000 h) (λ _, mret tt).
Definition clobber0 (q : Regs) : Regs := set_eax 0xFFFF (set_ecx 0xFFFF (set_edx 0xFFFF q)).

Lemma regs0_ok : regs_ok regs0.
Proof. split; [repeat (apply Forall_cons; split; [cbn; lia|]); by apply Forall_nil_2|reflexivity]. Qed.

Lemma interrupt_roundtrip_witness :
  ∃ s3 : machine, (take_interrupt 0x08 0x101000 None ;; exception_stub handler clobber0 0x102000 0x80) s0 = Ok tt s3 ∧
    lget s3 = regs0 ∧ lget s3 = mkSegs 0x08 0x20 0x20 0x20 0x20 ∧ ld32 (lget s3) 0xA000 = 0x100700.
Proof.
  destruct (interrupt_roundtrip handler clobber0 0x102000 s0 9 9 0x800 0x80 None 0x101000) as (m1 & r1 & Hf & _ & _ & H).
  - exact regs0_ok.
  - cbn; lia.
  - cbn; lia.
  - cbn; lia.
  - reflexivity.
  - lia.
  - lia.
  - left. reflexivity.
  - lia.
  - cbn; lia.
  - split; [intros [? ?]; discriminate|]. unfold error_code_vectors. rewrite !elem_of_cons, elem_of_nil. lia.
  - intros q. split; [reflexivity|intros E; exact E].
  - set (s1 := cfg _ m1 _ r1) in H.
    assert (handler (9 * 4096 + (0x800 - 56)) s1 = Ok tt (lput (st32 m1 0xA000 0x100700) s1)) as Hr.
    { unfold handler, Isr.master_exception_handler.
      rewrite (bind_ok _ _ _ _ _ (load32_run (9 * 4096 + (0x800 - 56) + OFF_INTERRUPT_NUMBER) s1 ltac:(unfold OFF_INTERRUPT_NUMBER; mapped_tac))).
      replace (ld32 (lget s1) (9 * 4096 + (0x800 - 56) + OFF_INTERRUPT_NUMBER)) with 0x80.
      - reflexivity.
      - symmetry. exact (Hf OFF_INTERRUPT_NUMBER 0x80 ltac:(do 8 apply list_elem_of_further; apply list_elem_of_here)). }
    destruct (H _ Hr) as (s3 & R & Hregs & Hsegs & Hmem).
    + reflexivity.
    + left. reflexivity.
    + intros x Hx. change (get8 (st32 m1 0xA000 0x100700) x = get8 m1 x). apply same_but_st32. lia.
    + exists s3. split; [exact R|]. split; [exact Hregs|]. split; [exact Hsegs|]. rewrite Hmem.
      change (ld32 (st32 m1 0xA000 0x100700) 0xA000 = 0x100700). rewrite ld32_st32. reflexivity.
Defined.
End StubsExample.
