(* ===== verification/Launch.v ===== *)
(** * Launch: a process that was created runs

    [create_pcb] and [bootstrap_first_process] together: the first
    instruction of a new process. *)

From S2P Require Import Prelude Memory Alloc KMemory Bitmap Pmm Pcb Paging Mmu Vmm VmmSpec AddrSpace VmmState Process ProcessSpec Switch Preempt.

Section launch.
Context {St : Type} `{LM : Lens St mem} `{LC : Lens St Cpu} `{LP : Lens St PmmStatics} `{LH : Lens St HeapStatics} `{LN : Lens St ProcStatics}.
Context {AC : Apart LM LC} {AP : Apart LM LP} {ACP : Apart LC LP} {AH : Apart LM LH} {ACH : Apart LC LH}.
Context {AN : Apart LM LN} {ACN : Apart LC LN} {APN : Apart LP LN} {AHN : Apart LH LN}.
Context `{LR : Lens St Regs} {AR : Apart LM LR} {ACR : Apart LC LR}.
Context (d t1 t2 : Z).

(** The kernel sees its own memory. *)
Lemma kernel_sees s kt q : vmm_ok d t1 t2 s kt → 1 ≤ q < 2047 → sees (lget s) (lget s) q q.
Proof.
  intros [E3 Ed Ht Hvi] Hq. pose proof (kc_ident _ _ _ _ _ (ks_core _ _ _ _ _ (vi_ks _ _ _ _ _ _ Hvi)) Hq) as Hi. unfold sees. rewrite E3.
  destruct (tlb (lget s) !! q) as [f|] eqn:E; [left|by right]. destruct (Ht q f E) as [_ Hf]. congruence.
Qed.

(** The registers replaced. *)
Lemma cfg_regs_of s r : lput r s = cfg s (lget s) (lget s) r.
Proof. unfold cfg. by rewrite (lput_comm (L:=LC) (K:=LR)), lput_lget, (lput_comm (L:=LM) (K:=LR)), lput_lget. Qed.

(** The registers a prepared stack is loaded into. *)
Lemma resume_fresh m S ep e old : fresh_stack m S ep → flags_ok old → resume m (S * 4096 + 4056) e old = mkRegs 0 0 0 0 e 0 0 0 0x202 ep.
Proof.
  intros Hst Ho. assert (∀ j k, j = 4 * k → 0 ≤ k < 10 → ld32 m (S * 4096 + 4056 + j) = if k =? 0 then 0x202 else if k =? 9 then ep else 0) as L.
  { intros j k -> Hk. specialize (Hst (1014 + k) ltac:(lia)). unfold pte, entry in Hst.
    replace (S * 4096 + 4056 + 4 * k) with (S * 4096 + 4 * (1014 + k)) by lia. rewrite Hst.
    destruct (Z.eqb_spec k 0), (Z.eqb_spec k 9), (Z.eqb_spec (1014 + k) 1014), (Z.eqb_spec (1014 + k) 1023); lia. }
  unfold resume. rewrite (L 32 8), (L 28 7), (L 24 6), (L 20 5), (L 12 3), (L 8 2), (L 4 1), (L 36 9) by lia.
  specialize (L 0 0 eq_refl ltac:(lia)). rewrite Z.add_0_r in L. rewrite L. cbn. f_equal.
  change (popf_flags old (u32 (pushf_image 0x202)) = 0x202). by apply pop_push_flags.
Qed.

(** Of the memory of a new process: its entries on the way to its stack, and
    the stack. *)
Definition process_bytes (D F S x : Z) : Prop :=
  entry (D * 4096) 768 ≤ x < entry (D * 4096) 768 + 4 ∨ entry (F * 4096) 1 ≤ x < entry (F * 4096) 1 + 4 ∨ S * 4096 ≤ x < S * 4096 + 4096.

(** A process that was created is one of the suspended processes of the
    scheduler: it waits for the processor at 0xC0000000, its registers zero
    and interrupts on, in bytes that were nobody's before. *)
Theorem created_process_parked s kt bs p bs' ep size ub :
  kernel_ok d t1 t2 s kt bs → alloc_spec SIZEOF_PCB bs = Some (p, bs') → loadable s d 1 (lget s) kt ep size → off_heap bs ep size →
  ∃ c D F S s', create_pcb ep size ub s = Ok p s' ∧ pcb_rep (lget s') p c ∧ state c = STATE_READY ∧
    parked (lget s') (process_bytes D F S) c (mkRegs 0 0 0 0 0xC0002000 0 0 0 0x202 0xC0000000) ∧
    ∀ x, source_ok s d (lget s) kt x → ¬ process_bytes D F S x.
Proof.
  intros Hko Ha Hl Hoff.
  destruct (create_pcb_loaded d t1 t2 0 s kt bs p bs' ep size ub Hko Ha Hl Hoff)
    as (v & D & F & S & pg & kt' & s' & R & [_ _ Hpcb [_ HD] Hst (w0 & w1 & _ & _ & Hps) _ _ Hap _ _]).
  eexists _, D, F, S, s'. split_and!; [exact R|exact Hpcb|done| |].
  - exists 0xC0001, 4056, S. cbn [kernel_stack_ptr address_space_physical]. split_and!; [done..| | |].
    + assert (ld32 (lget s') (entry (D * 4096) 768) = pte (lget s') D 768) as E by done.
      destruct (ps_768 _ _ _ _ _ _ _ Hps) as [(_ & _ & _ & EF) _]. constructor.
      * intros x Hx. by left.
      * change (0xC0001 / 1024) with 768. change (0xC0001 mod 1024) with 1. rewrite E, EF. intros x t Hx. right. by left.
      * change 0xC0001 with (768 * 1024 + 1). erewrite pspace_code by done. by rewrite lookup_insert_eq.
    + intros x Hx. right. right. lia.
    + intros f Hf. by apply resume_fresh.
  - intros x Hx. destruct (Hap x Hx) as (_ & _ & H1 & H2 & H3 & _). unfold process_bytes, entry. Z.div_mod_to_equations; lia.
Qed.

(** C16: when [create_pcb] has made a process, calling
    [bootstrap_first_process] on the stack pointer and the directory in its
    block, from a kernel stack the manager does not use, leaves the
    processor at 0xC0000000 in the new address space, registers zero,
    interrupts on, the stack empty below 0xC0002000, and there are the
    program's bytes (but for the page the stack took). *)
Theorem created_process_starts s kt bs p bs' ep size ub :
  kernel_ok d t1 t2 s kt bs → alloc_spec SIZEOF_PCB bs = Some (p, bs') → loadable s d 1 (lget s) kt ep size → off_heap bs ep size →
  ∃ D s', create_pcb ep size ub s = Ok p s' ∧
    ∀ r q o ra, esp r = q * 4096 + o → 12 ≤ o ≤ 4096 → flags_ok (eflags r) →
      (∀ x, q * 4096 + o - 12 ≤ x < q * 4096 + o → source_ok s d (lget s) kt x) →
      ∃ s3, call_bootstrap ra (ld32 (lget s') (p + OFF_STACK)) (ld32 (lget s') (p + OFF_SPACE_PHYS)) (lput r s') = Ok tt s3 ∧
        lget s3 = mkRegs 0 0 0 0 0xC0002000 0 0 0 0x202 0xC0000000 ∧ cr3 (lget s3) = D * 4096 ∧
        ∀ i, 0 ≤ i < num_pages size * 4096 → ¬ (4096 ≤ i < 8192) →
          ∃ pa, translate (lget s3) (cr3 (lget s3)) (0xC0000000 + i) = Some (pa, true, ub) ∧
            get8 (lget s3) pa = code_byte (lget s) ep size i.
Proof.
  intros Hko Ha Hl Hoff.
  destruct (create_pcb_loaded d t1 t2 0 s kt bs p bs' ep size ub Hko Ha Hl Hoff)
    as (v & D & F & S & pg & kt' & s' & R & [Hko' _ Hpcb [_ HD] Hst (w0 & w1 & K0 & K1 & Hps) Hcd Hrest Hap _ _]).
  exists D, s'. split; [exact R|]. intros r q o ra Hesp Ho Hfl Hsrc.
  rewrite (pr_stack _ _ _ Hpcb), (pr_space_phys _ _ _ Hpcb), cfg_regs_of. cbn [kernel_stack_ptr address_space_physical].
  change 0xC0001FD8 with (0xC0001 * 4096 + 4056). set (m1 := push_words (lget s') (q * 4096 + o) [D * 4096; 0xC0001 * 4096 + 4056; ra]).
  assert (∀ x, q * 4096 + o - 12 ≤ x < q * 4096 + o → x / 4096 = q) as Hpq by (intros; Z.div_mod_to_equations; lia).
  destruct (Hap (q * 4096 + o - 4) (Hsrc (q * 4096 + o - 4) ltac:(lia))) as (Hsq & _ & HqD & HqF & HqS & Hqp). rewrite Hpq in HqD, HqF, HqS, Hqp by lia.
  destruct Hsq as (Hq & _). rewrite Hpq in Hq by lia.
  assert (∀ G, G ≠ q → same_frame (lget s') m1 G) as Hsame.
  { intros G HG x Hx. apply push_words_same. cbn [length].
    destruct (Z.lt_ge_cases (G * 4096 + x) (q * 4096 + o - 12)); [lia|]. destruct (Z.lt_ge_cases (G * 4096 + x) (q * 4096 + o)); [|lia]. exfalso.
    apply HG. rewrite <- (Hpq (G * 4096 + x)) by lia. Z.div_mod_to_equations; lia. }
  assert (pspace w0 w1 (Z.b2z ub) m1 D (Some F) (<[1 := S]> pg)) as Hps1.
  { eapply pspace_same; [by apply Hsame| |exact Hps]. intros ? [= <-]. by apply Hsame. }
  assert (page_frame m1 (D * 4096) 0xC0001 = Some S) as Hpf.
  { change 0xC0001 with (768 * 1024 + 1). erewrite pspace_code by done. by rewrite lookup_insert_eq. }
  assert (fresh_stack m1 S 0xC0000000) as Hst1.
  { intros i Hi. rewrite <- Hst by done. apply pte_same; [by apply Hsame|done]. }
  pose proof (call_bootstrap_cfg s' (lget s') (lget s') r q q o ra (D * 4096) 0xC0001 4056 S (kernel_sees s' kt' q (ko_vmm _ _ _ _ _ _ Hko') Hq)
    Hesp ltac:(lia) ltac:(lia) ltac:(lia) Hpf ltac:(lia) ltac:(lia)) as Rb.
  eexists. split; [exact Rb|]. rewrite cfg_regs, cfg_cpu, cfg_mem. fold m1. cbn [cr3]. split_and!; [by apply resume_fresh|done|].
  intros i Hi Hni. destruct (Hcd (i / 4096)) as (f & Hf & Hx); [Z.div_mod_to_equations; lia|].
  assert (i / 4096 ≠ 1 ∧ i = i / 4096 * 4096 + i mod 4096 ∧ 0 ≤ i mod 4096 < 4096 ∧ 0 ≤ i / 4096) as (Hi1 & Ei & Him & Hi0) by (Z.div_mod_to_equations; lia).
  pose proof (ld_pages _ _ _ _ _ _ _ Hl) as Hnp.
  exists (f * 4096 + i mod 4096). split.
  - replace (0xC0000000 + i) with (0xC0000000 + i / 4096 * 4096 + i mod 4096) by lia.
    eapply pspace_translate; [exact Hps1|lia|by rewrite lookup_insert_ne|done].
  - rewrite Hsame by (done || congruence). rewrite Hx by done. f_equal. lia.
Qed.
End launch.
