(* ===== verification/Startup.v ===== *)
(** * Startup: the scheduler and the first processes
      (src/kernel/proc/sched.c, src/kernel/kernel.c)

    [sched_init] takes the five lists and the idle process from the heap;
    [start_processes] is what [kernel_main] does with it: two processes are
    created and queued. *)

From S2P Require Import Prelude Memory Alloc KMemory Bitmap Pmm ListDS Pcb Sched SchedInv Paging Mmu Vmm VmmSpec AddrSpace VmmState Process ProcessSpec.

(** ** The code *)

Definition set_queue (i l : Z) (sc : Scheduler) : Scheduler :=
  mkSched (<[Z.to_nat i := l]> (priority_queues sc)) (waiting_queue sc) (current_pcb sc) (idle_pcb sc).
Definition set_waiting (l : Z) (sc : Scheduler) : Scheduler :=
  mkSched (priority_queues sc) l (current_pcb sc) (idle_pcb sc).
Definition set_idle (p : Z) (sc : Scheduler) : Scheduler :=
  mkSched (priority_queues sc) (waiting_queue sc) (current_pcb sc) p.

Section code.
Context {St : Type} `{LM : Lens St mem} `{LC : Lens St Cpu} `{LP : Lens St PmmStatics} `{LH : Lens St HeapStatics} `{LN : Lens St ProcStatics} `{LS : Lens St Scheduler} {AH : Apart LM LH}.
(** The address of the local [err]. *)
Context (lits : ListLiterals) (err : Z).

Definition upd_sched (f : Scheduler → Scheduler) : M St unit := sc ← gets; puts (f sc).

Definition sched_init (entry_point size : Z) (is_user_process : bool) : M St unit :=
  mfor 0 MLFQ_LEVELS (λ i, l ← list_init err; upd_sched (set_queue i l)) ;;
  l ← list_init err; upd_sched (set_waiting l) ;;
  idle_pcb ← create_pcb entry_point size is_user_process;
  upd_sched (set_current NULL) ;;
  upd_sched (set_idle idle_pcb).

(** The process part of [kernel_main]; a program is its address and size. *)
Definition start_processes (idle process_one process_two : Z * Z) : M St unit :=
  sched_init idle.1 idle.2 true ;;
  p1 ← create_pcb process_one.1 process_one.2 true;
  p2 ← create_pcb process_two.1 process_two.2 true;
  sched_enqueue p1 ;;
  sched_enqueue p2.
End code.

(** ** Objects in the heap *)

(** [n] bytes at [a] that the allocator has given out. *)
Definition obj (bs : list block) (a n : Z) : Prop := ∃ b, b ∈ live bs ∧ a = b_addr b + HDR ∧ n ≤ b_size b.

Lemma obj_not_owned bs a n x : blocks_ok IDENT_LO bs → obj bs a n → a ≤ x < a + n → ¬ owned bs x.
Proof.
  intros Hok (b & Hb & -> & Hn) Hx. apply (live_not_owned IDENT_LO); [done|]. exists (region b).
  split; [by apply list_elem_of_fmap_2|]. unfold in_region, region. cbn. lia.
Qed.

Lemma obj_mapped bs a n : blocks_ok IDENT_LO bs → obj bs a n → mapped a n.
Proof.
  intros Hok (b & [_ Hb]%elem_of_live & -> & Hn). pose proof (blocks_ok_addr _ _ _ Hok Hb). unfold mapped. hdr. lia.
Qed.

(** A new object is apart from those there are, which remain. *)
Lemma obj_alloc bs p n bs' : blocks_ok IDENT_LO bs → 0 < n → alloc_spec n bs = Some (p, bs') →
  blocks_ok IDENT_LO bs' ∧ obj bs' p n ∧ ∀ a k, obj bs a k → obj bs' a k ∧ (0 < k → a + k ≤ p ∨ p + n ≤ a).
Proof.
  intros Hok Hn Ha. destruct (alloc_spec_ok n bs IDENT_LO p bs' Hn Hok Ha) as (Hok' & b & -> & Hsz & Hl).
  destruct (alloc_spec_owned n bs _ bs' Hn Ha) as [Ho _]. split_and!; [done| |].
  - exists b. split_and!; [rewrite Hl; by apply list_elem_of_here|done|done].
  - intros a k Hobj. split.
    + destruct Hobj as (b' & Hb' & -> & Hk). exists b'. split_and!; [rewrite Hl; by apply list_elem_of_further|done|done].
    + intros Hk. destruct (Z.le_gt_cases (a + k) (b_addr b + HDR)); [by left|].
      destruct (Z.le_gt_cases (b_addr b + HDR + n) a); [by right|]. exfalso.
      apply (obj_not_owned bs a k (Z.max a (b_addr b + HDR)) Hok Hobj); [lia|]. apply Ho. lia.
Qed.

(** ** The data of the scheduler as the heap grows *)

(** One more process, in no queue. *)
Lemma data_rep_insert ls m A p c : data_rep ls m A → pcb_rep m p c → mapped p SIZEOF_PCB →
  (∀ a, a ∈ ls → a + SIZEOF_LIST ≤ p ∨ p + SIZEOF_PCB ≤ a) →
  (∀ q, q ∈ dom (a_procs A) → q + SIZEOF_PCB ≤ p ∨ p + SIZEOF_PCB ≤ q) →
  data_rep ls m (mkA (<[p := c]> (a_procs A)) (a_queues A) (a_cur A) (a_idle A)).
Proof.
  intros [Hls Hqs Hl Hp Hmem Huniq [Hm Hpp Hll Hlp]] Hc Hmp Hal Hap. constructor; cbn [a_procs a_queues]; try done.
  - intros q c'. rewrite lookup_insert_Some. intros [[<- <-]|[_ Hq]]; auto.
  - intros i ns q Hns Hq. rewrite dom_insert. apply elem_of_union_r. eauto.
  - rewrite dom_insert_L. constructor; try done.
    + intros q [->%elem_of_singleton|Hq]%elem_of_union; auto.
    + intros q q' [->%elem_of_singleton|Hq]%elem_of_union [->%elem_of_singleton|Hq']%elem_of_union Hne; [done|..]; auto.
      destruct (Hap q' Hq'); auto.
    + intros a q Ha [->%elem_of_singleton|Hq]%elem_of_union; auto.
Qed.

(** [k] lists, one after the other. *)
Fixpoint make_lists (k : nat) (bs : list block) : option (list Z * list block) :=
  match k with
  | O => Some ([], bs)
  | S k =>
      '(l, bs1) ← alloc_spec SIZEOF_LIST bs;
      '(_, bs2) ← alloc_spec 256 bs1;
      '(ls, bs3) ← make_lists k bs2;
      Some (l :: ls, bs3)
  end.
(** ** The kernel as the heap grows *)

Definition inside (bs bs' : list block) : Prop := ∀ b', b' ∈ bs' → ∃ b, b ∈ bs ∧ b_addr b ≤ b_addr b' ∧ b_end b' ≤ b_end b.

Lemma inside_trans bs1 bs2 bs3 : inside bs1 bs2 → inside bs2 bs3 → inside bs1 bs3.
Proof.
  intros H1 H2 b3 Hb3. destruct (H2 b3 Hb3) as (b2 & Hb2 & ? & ?). destruct (H1 b2 Hb2) as (b1 & Hb1 & ? & ?).
  exists b1. split_and!; [done|lia|lia].
Qed.

Lemma off_heap_inside bs bs' ep size : inside bs bs' → off_heap bs ep size → off_heap bs' ep size.
Proof. intros Hi Ho b' a Hb' Ha Hx. destruct (Hi b' Hb') as (b & Hb & ? & ?). apply (Ho b a Hb Ha). lia. Qed.

Section kernel.
Context {St : Type} `{LM : Lens St mem} `{LC : Lens St Cpu} `{LP : Lens St PmmStatics} `{LH : Lens St HeapStatics} `{LN : Lens St ProcStatics}.
Context {AC : Apart LM LC} {AP : Apart LM LP} {ACP : Apart LC LP} {AH : Apart LM LH} {ACH : Apart LC LH}.
Context {AN : Apart LM LN} {ACN : Apart LC LN} {APN : Apart LP LN} {AHN : Apart LH LN}.
Context (d t1 t2 err : Z).
Abbreviation kernel_ok := (kernel_ok d t1 t2).

(** A program the kernel can load, its address and size; the memory for [n]
    pages and their tables. *)
Record program_ok (s : St) (kt : gmap Z Z) (bs : list block) (c : Z * Z) : Prop := {
  po_size : 0 < c.2 ∧ 0 ≤ c.1 ∧ c.1 + c.2 ≤ 8384512;
  po_pages : num_pages c.2 ≤ 1024;
  po_source : ∀ a, c.1 ≤ a < c.1 + c.2 → source_ok s d (lget s) kt a;
  po_heap : off_heap bs c.1 c.2
}.
Definition memory_for (s : St) (kt : gmap Z Z) (n : nat) : Prop := low_free s (lget s) (2 * n) ∧ room kt n.
(** Directory, code table, code pages and stack. *)
Definition cost (c : Z * Z) : nat := S (need c.2 0 + 1).

Lemma program_loadable s kt bs c n : program_ok s kt bs c → memory_for s kt (cost c + n) → loadable s d (S n) (lget s) kt c.1 c.2.
Proof.
  intros [H1 H2 H3 _] [Hl Hr]. assert (S (need c.2 0 + S n) = cost c + n)%nat as E by (unfold cost; lia). constructor; [done|done|done|by rewrite E..].
Qed.

(** From [s] to [s']: what the manager does not use stays so, and keeps its
    bytes but for those [own]ed. *)
Record keeps (own : Z → Prop) (s s' : St) (kt kt' : gmap Z Z) : Prop := {
  kp_source : ∀ x, source_ok s d (lget s) kt x → source_ok s' d (lget s') kt' x;
  kp_bytes : ∀ x, source_ok s d (lget s) kt x → ¬ own x → get8 (lget (T:=mem) s') x = get8 (lget s) x
}.

Lemma keeps_trans (P Q : Z → Prop) s1 s2 s3 k1 k2 k3 : keeps P s1 s2 k1 k2 → keeps Q s2 s3 k2 k3 → (∀ x, Q x → P x) → keeps P s1 s3 k1 k3.
Proof.
  intros [S1 B1] [S2 B2] HQ. constructor; [auto|]. intros x Hx Hn. rewrite B2 by auto. auto.
Qed.

Lemma program_keeps P s s' kt kt' bs bs' c : keeps P s s' kt kt' → inside bs bs' → program_ok s kt bs c → program_ok s' kt' bs' c.
Proof. intros [Hs _] Hi []. constructor; [done|done|auto|by eapply off_heap_inside]. Qed.

(** A step of the heap alone. *)
Lemma kernel_heap s (m' : mem) kt bs bs' :
  kernel_ok s kt bs → (∀ x, ¬ owned bs x → get8 m' x = get8 (lget s) x) → heap_rep (lput m' s) bs' → inside bs bs' →
  kernel_ok (lput m' s) kt bs' ∧ keeps (owned bs) s (lput m' s) kt kt ∧ ∀ n, memory_for s kt n → memory_for (lput m' s) kt n.
Proof.
  intros Hko Hm Hrep Hin. pose proof (ko_heap _ _ _ _ _ _ Hko) as [Hbs _].
  assert (∀ x, ¬ in_heap bs x → get8 m' x = get8 (lget s) x) as Hm'.
  { intros x Hx. apply Hm. intros Ho. by apply Hx, (owned_in_heap IDENT_LO). }
  destruct (heap_write d t1 t2 s m' kt bs Hko Hm') as (Hok & Hb & _ & Hsrc).
  assert (∀ x, source_ok s d (lget s) kt x → source_ok (lput m' s) d (lget (lput m' s)) kt x) as Hsrc'.
  { intros x Hx. rewrite lget_lput. apply (source_pmm d s); [by rewrite (lget_other' (L:=LM) (K:=LP))|auto]. }
  split_and!.
  - constructor; [done|done|]. intros b' x Hb' Hx. destruct (Hin b' Hb') as (b & Hbb & ? & ?). apply Hsrc'. apply (ko_apart _ _ _ _ _ _ Hko b); [done|lia].
  - constructor; [done|]. intros x _ Hx. rewrite lget_lput. auto.
  - intros n [Hl Hr]. split; [|done]. unfold low_free in *. rewrite lget_lput, (lget_other' (L:=LM) (K:=LP)).
    destruct Hl as (l & Hnd & Hlen & Hl). exists l. split_and!; [done|done|]. intros f Hf. destruct (Hl f Hf) as (? & ? & ?).
    split_and!; [lia..|]. rewrite Hb by lia. done.
Qed.

(** The end of [list_init], once both objects are there. *)
Lemma list_setup_run (s : St) l e : mapped l SIZEOF_LIST → 0 < e < 4294967296 →
  ∃ m' : mem, (store32 (l + OFF_ERR_MSG) e ;; msg' ← load32 (l + OFF_ERR_MSG);
    if msg' =? NULL then release l ;; store32 err 1 ;; mret NULL else
    store32 (l + OFF_NEXT) l ;; store32 (l + OFF_PREV) l ;; store32 (l + OFF_SIZE) 0 ;; store32 (l + OFF_ERR_CODE) 0 ;; mret l) s = Ok l (lput m' s) ∧
    list_rep m' l [] ∧ ∀ x, ¬ (l ≤ x < l + SIZEOF_LIST) → get8 m' x = get8 (lget s) x.
Proof.
  intros Hl He. unfold mapped, SIZEOF_LIST, OFF_ERR_MSG, OFF_NEXT, OFF_PREV, OFF_SIZE, OFF_ERR_CODE in *. rewrite !Z.add_0_r. mrun. ldst.
  rewrite (u32_small e) by lia. destruct (Z.eqb_spec e NULL) as [->|_]; [unfold NULL in He; lia|]. mrun.
  eexists. split; [reflexivity|]. split.
  - constructor.
    + done.
    + intros x Hx%not_elem_of_nil. done.
    + split; [apply NoDup_singleton|]. intros x y ->%list_elem_of_singleton ->%list_elem_of_singleton. by left.
    + cbn. ldst. assert (0 ≤ l < 4294967296) by mapped_tac. by wraps.
    + unfold OFF_SIZE. by ldst.
  - intros x Hx. by ldst.
Qed.

(** [list_init] in the kernel: two objects. *)
Lemma list_init_kernel s kt bs l bs1 e bs2 :
  kernel_ok s kt bs → alloc_spec SIZEOF_LIST bs = Some (l, bs1) → alloc_spec 256 bs1 = Some (e, bs2) →
  ∃ m' : mem, list_init err s = Ok l (lput m' s) ∧ kernel_ok (lput m' s) kt bs2 ∧ keeps (owned bs) s (lput m' s) kt kt ∧
    (∀ n, memory_for s kt n → memory_for (lput m' s) kt n) ∧ list_rep m' l [] ∧ inside bs bs2 ∧ (∀ x, owned bs2 x → owned bs x).
Proof.
  intros Hko Ha1 Ha2. pose proof (ko_heap _ _ _ _ _ _ Hko) as Hrep. pose proof Hrep as [Hbs _]. unfold SIZEOF_LIST in *.
  pose proof (kmalloc_refines_spec s bs 20 Hrep ltac:(lia)) as Hk1. rewrite Ha1 in Hk1. destruct Hk1 as (m1 & R1 & Hrep1 & Hfr1).
  destruct (obj_alloc bs l 20 bs1 Hbs ltac:(lia) Ha1) as (Hbs1 & Hl & _). destruct (alloc_spec_owned 20 bs l bs1 ltac:(lia) Ha1) as [Ho1 Ho1'].
  pose proof (kmalloc_refines_spec (lput m1 s) bs1 256 Hrep1 ltac:(lia)) as Hk2. rewrite Ha2 in Hk2. destruct Hk2 as (m2 & R2 & Hrep2 & Hfr2).
  destruct (obj_alloc bs1 e 256 bs2 Hbs1 ltac:(lia) Ha2) as (Hbs2 & He & Hkeep). destruct (alloc_spec_owned 256 bs1 e bs2 ltac:(lia) Ha2) as [_ Ho2'].
  destruct (Hkeep l 20 Hl) as [Hl2 _]. pose proof (obj_mapped bs2 l 20 Hbs2 Hl2) as Hml. pose proof (obj_mapped bs2 e 256 Hbs2 He) as Hme.
  pose proof (alloc_spec_inside 20 bs l bs1 ltac:(lia) Ha1) as Hi1. pose proof (alloc_spec_inside 256 bs1 e bs2 ltac:(lia) Ha2) as Hi2.
  rewrite lput_lput in R2, Hrep2. rewrite lget_lput in Hfr2.
  destruct (list_setup_run (lput m2 s) l e Hml) as (m3 & R3 & Hlr & Hfr3); [unfold mapped, IDENT_LO, IDENT_HI in Hme; lia|].
  rewrite lput_lput in R3. rewrite lget_lput in Hfr3.
  assert (∀ x, ¬ owned bs x → get8 m3 x = get8 (lget s) x) as Hfr.
  { intros x Hx. rewrite Hfr3 by (intros Hlx; by apply Hx, Ho1). rewrite Hfr2 by auto. by apply Hfr1. }
  assert (inside bs bs2) as Hi by (by eapply inside_trans).
  assert (heap_rep (lput m3 s) bs2) as Hrep3.
  { destruct Hrep2 as [_ Hc]. split; [done|]. rewrite (lget_other' (L:=LM) (K:=LH)), lget_lput in *. eapply chain_ext_headers; [exact Hc|].
    intros x Hx. apply Hfr3. intros Hlx. by apply (obj_not_owned bs2 l 20 x Hbs2 Hl2 Hlx), in_headers_owned. }
  destruct (kernel_heap s m3 kt bs bs2 Hko Hfr Hrep3 Hi) as (Hko' & Hkp & Hmf).
  exists m3. split_and!; [|done|done|done|done|done|auto].
  unfold list_init, SIZEOF_LIST. cbn [alloc kmemory_allocator]. rewrite (bind_ok _ _ _ _ _ R1).
  destruct (Z.eqb_spec l NULL) as [->|_]; [unfold mapped, IDENT_LO, NULL in Hml; lia|].
  unfold MAX_ERR_LENGTH. change (256 * 1) with 256. rewrite (bind_ok _ _ _ _ _ R2). exact R3.
Qed.

(** From [s] to [s'] the heap goes from [bs] to [bs']: objects stay objects,
    and nothing the allocator did not own is written. *)
Record grown (s s' : St) (kt kt' : gmap Z Z) (bs bs' : list block) : Prop := {
  gn_kernel : kernel_ok s' kt' bs';
  gn_keeps : keeps (owned bs) s s' kt kt';
  gn_inside : inside bs bs';
  gn_owned : ∀ x, owned bs' x → owned bs x;
  gn_obj : ∀ a k, obj bs a k → obj bs' a k
}.

Lemma grown_refl s kt bs : kernel_ok s kt bs → grown s s kt kt bs bs.
Proof. intros H. constructor; try done. intros b Hb. exists b. split_and!; [done|lia|lia]. Qed.

Lemma grown_trans s1 s2 s3 k1 k2 k3 b1 b2 b3 : grown s1 s2 k1 k2 b1 b2 → grown s2 s3 k2 k3 b2 b3 → grown s1 s3 k1 k3 b1 b3.
Proof.
  intros [K1 P1 I1 O1 B1] [K2 P2 I2 O2 B2]. constructor; [done|by eapply keeps_trans|by eapply inside_trans|auto|auto].
Qed.

(** An object's bytes are kept. *)
Lemma grown_obj_byte s s' kt kt' bs bs' a n x : kernel_ok s kt bs → grown s s' kt kt' bs bs' → obj bs a n → a ≤ x < a + n →
  get8 (lget s') x = get8 (lget (T:=mem) s) x.
Proof.
  intros Hko Hg Ho Hx. pose proof (ko_heap _ _ _ _ _ _ Hko) as [Hbs _]. apply (kp_bytes _ _ _ _ _ (gn_keeps _ _ _ _ _ _ Hg)).
  - destruct Ho as (b & [_ Hb]%elem_of_live & -> & Hn). apply (ko_apart _ _ _ _ _ _ Hko b x Hb). hdr. lia.
  - by eapply obj_not_owned.
Qed.

(** Empty lists in objects of their own. *)
Record lists_made (bs : list block) (m : mem) (ls : list Z) : Prop := {
  lm_list : ∀ a, a ∈ ls → obj bs a SIZEOF_LIST ∧ list_rep m a [];
  lm_apart : ∀ i j a b, ls !! i = Some a → ls !! j = Some b → i ≠ j → a + SIZEOF_LIST ≤ b ∨ b + SIZEOF_LIST ≤ a
}.

Lemma lists_made_grown s s' kt kt' bs bs' ls : kernel_ok s kt bs → grown s s' kt kt' bs bs' → lists_made bs (lget s) ls → lists_made bs' (lget s') ls.
Proof.
  intros Hko Hg [Hl Ha]. constructor; [|done]. intros a Hin. destruct (Hl a Hin) as [Ho Hr]. split; [by apply (gn_obj _ _ _ _ _ _ Hg)|].
  eapply list_rep_ext; [exact Hr|]. intros x [Hx|(? & Hn%not_elem_of_nil & _)]; [|done]. unfold SIZEOF_LIST in Ho. eapply grown_obj_byte; [done|done|exact Ho|lia].
Qed.

(** One more list. *)
Lemma make_list s kt bs l bs1 e bs2 ls :
  kernel_ok s kt bs → alloc_spec SIZEOF_LIST bs = Some (l, bs1) → alloc_spec 256 bs1 = Some (e, bs2) → lists_made bs (lget s) ls →
  ∃ m' : mem, list_init err s = Ok l (lput m' s) ∧ grown s (lput m' s) kt kt bs bs2 ∧
    (∀ n, memory_for s kt n → memory_for (lput m' s) kt n) ∧ lists_made bs2 m' (ls ++ [l]).
Proof.
  intros Hko Ha1 Ha2 Hls. pose proof (ko_heap _ _ _ _ _ _ Hko) as [Hbs _].
  destruct (list_init_kernel s kt bs l bs1 e bs2 Hko Ha1 Ha2) as (m' & R & Hko' & Hkp & Hmf & Hrep & Hi & Ho).
  destruct (obj_alloc bs l SIZEOF_LIST bs1 Hbs ltac:(done) Ha1) as (Hbs1 & Hl & Hk1). destruct (obj_alloc bs1 e 256 bs2 Hbs1 ltac:(done) Ha2) as (_ & _ & Hk2).
  assert (grown s (lput m' s) kt kt bs bs2) as Hg by (constructor; [done|done|done|done|intros a k Hak; by apply Hk2, Hk1]).
  exists m'. split_and!; [done|done|done|]. pose proof (lists_made_grown _ _ _ _ _ _ _ Hko Hg Hls) as Hls'. rewrite lget_lput in Hls'. constructor.
  - intros a [Ha| ->%list_elem_of_singleton]%elem_of_app; [by apply Hls'|]. split; [by apply Hk2|done].
  - assert (∀ a, a ∈ ls → a + SIZEOF_LIST ≤ l ∨ l + SIZEOF_LIST ≤ a) as Hnew.
    { intros a Ha. by apply Hk1; [apply (lm_list _ _ _ Hls)|]. }
    intros i j a b. rewrite !lookup_app_Some, !list_lookup_singleton_Some.
    intros [Hi1|(Hi1 & Hi2 & ->)] [Hj1|(Hj1 & Hj2 & ->)] Hne.
    + by eapply (lm_apart _ _ _ Hls).
    + apply Hnew. by eapply list_elem_of_lookup_2.
    + destruct (Hnew b); [by eapply list_elem_of_lookup_2|by right|by left].
    + lia.
Qed.

End kernel.

(** ** [sched_init] *)

Section init.
Context {St : Type} `{LM : Lens St mem} `{LC : Lens St Cpu} `{LP : Lens St PmmStatics} `{LH : Lens St HeapStatics} `{LN : Lens St ProcStatics}.
Context {AC : Apart LM LC} {AP : Apart LM LP} {ACP : Apart LC LP} {AH : Apart LM LH} {ACH : Apart LC LH}.
Context {AN : Apart LM LN} {ACN : Apart LC LN} {APN : Apart LP LN} {AHN : Apart LH LN}.
Context `{LS : Lens St Scheduler} {AS : Apart LM LS} {ACS : Apart LC LS} {APS : Apart LP LS} {AHS : Apart LH LS} {ANS : Apart LN LS}.
Context (lits : ListLiterals) (d t1 t2 err : Z).
Abbreviation kernel_ok := (kernel_ok d t1 t2).
Abbreviation grown := (grown d t1 t2).

(** The scheduler's static is not a part of the kernel's state. *)
Lemma grown_sched s kt bs (sc : Scheduler) : kernel_ok s kt bs → grown s (lput sc s) kt kt bs bs.
Proof.
  intros [[E3 Ed Ht Hv] [Hbs Hc] Ha].
  assert (lget (T:=mem) (lput sc s) = lget s) as Em by (by rewrite (lget_other (L:=LM) (K:=LS))).
  assert (lget (T:=Cpu) (lput sc s) = lget s) as Ec by (by rewrite (lget_other (L:=LC) (K:=LS))).
  assert (lget (T:=PmmStatics) (lput sc s) = lget s) as Ep by (by rewrite (lget_other (L:=LP) (K:=LS))).
  assert (lget (T:=HeapStatics) (lput sc s) = lget s) as Eh by (by rewrite (lget_other (L:=LH) (K:=LS))).
  assert (∀ x, source_ok s d (lget s) kt x → source_ok (lput sc s) d (lget (lput sc s)) kt x) as Hs.
  { intros x Hx. rewrite Em. by apply (source_pmm d s). }
  constructor.
  - constructor; [constructor; by rewrite ?Ec, ?Em, ?Ep|split; [done|by rewrite Em, Eh]|intros b x Hb Hx; by eapply Hs, Ha].
  - constructor; [done|]. intros. by rewrite Em.
  - intros b Hb. exists b. split_and!; [done|lia|lia].
  - done.
  - done.
Qed.

Lemma memory_sched s kt n (sc : Scheduler) : memory_for s kt n → memory_for (lput sc s) kt n.
Proof. intros [Hl Hr]. split; [|done]. unfold low_free. by rewrite (lget_other (L:=LM) (K:=LS)), (lget_other (L:=LP) (K:=LS)). Qed.

Lemma upd_sched_run f (s : St) : upd_sched f s = Ok tt (lput (f (lget s)) s).
Proof. done. Qed.

(** The lists of the levels and of the waiting processes. *)
Record making (s s' : St) (kt : gmap Z Z) (bs bs' : list block) (ls : list Z) : Prop := {
  mk_grown : grown s s' kt kt bs bs';
  mk_memory : ∀ n, memory_for s kt n → memory_for s' kt n;
  mk_lists : lists_made bs' (lget s') ls;
  mk_frame : ∃ (m : mem) (sc : Scheduler), s' = lput m (lput sc s)
}.

(** One list, and where its address goes. *)
Lemma making_step s s1 kt bs bs1 ls l bs2 e bs3 (f : Z → Scheduler → Scheduler) :
  making s s1 kt bs bs1 ls → alloc_spec SIZEOF_LIST bs1 = Some (l, bs2) → alloc_spec 256 bs2 = Some (e, bs3) →
  ∃ s2, (l ← list_init err; upd_sched (f l)) s1 = Ok tt s2 ∧ making s s2 kt bs bs3 (ls ++ [l]) ∧ lget s2 = f l (lget s1).
Proof.
  intros [Hg Hm Hl (m1 & sc1 & ->)] Ha1 Ha2. set (s1 := lput m1 (lput sc1 s)) in *.
  destruct (make_list d t1 t2 err s1 kt bs1 l bs2 e bs3 ls (gn_kernel _ _ _ _ _ _ _ _ _ Hg) Ha1 Ha2 Hl) as (m' & R & Hg' & Hm' & Hl').
  eexists. split; [rewrite (bind_ok _ _ _ _ _ R); apply upd_sched_run|].
  set (sc := f l (lget (lput m' s1))). pose proof (grown_sched (lput m' s1) kt bs3 sc (gn_kernel _ _ _ _ _ _ _ _ _ Hg')) as Hg2.
  split; [constructor|].
  - eapply grown_trans; [exact Hg|by eapply grown_trans].
  - intros n Hn. by apply memory_sched, Hm', Hm.
  - by rewrite (lget_other (L:=LM) (K:=LS)), lget_lput.
  - exists m', sc. unfold s1. rewrite <- (lput_comm (L:=LM) (K:=LS)), <- (lput_comm (L:=LM) (K:=LS)), !lput_lput. rewrite lput_comm. done.
  - rewrite lget_lput. unfold sc. by rewrite (lget_other' (L:=LM) (K:=LS)).
Qed.

Lemma make_lists_length k : ∀ bs ls bs', make_lists k bs = Some (ls, bs') → length ls = k.
Proof.
  induction k as [|k IH]; intros bs ls bs'; cbn [make_lists]; [by intros [= <- _]|].
  destruct (alloc_spec SIZEOF_LIST bs) as [[l bs1]|]; [|done]. cbn. destruct (alloc_spec 256 bs1) as [[e bs2]|]; [|done]. cbn.
  destruct (make_lists k bs2) as [[ls' bs3]|] eqn:E; [|done]. cbn. intros [= <- <-]. cbn. f_equal. by eapply IH.
Qed.

Lemma make_lists_cons k bs ls bs' : make_lists (S k) bs = Some (ls, bs') →
  ∃ l bs1 e bs2 ls', ls = l :: ls' ∧ alloc_spec SIZEOF_LIST bs = Some (l, bs1) ∧ alloc_spec 256 bs1 = Some (e, bs2) ∧ make_lists k bs2 = Some (ls', bs').
Proof.
  cbn [make_lists]. destruct (alloc_spec SIZEOF_LIST bs) as [[l bs1]|] eqn:E1; [|done]. cbn. destruct (alloc_spec 256 bs1) as [[e bs2]|] eqn:E2; [|done]. cbn.
  destruct (make_lists k bs2) as [[ls' bs3]|] eqn:E3; [|done]. cbn. intros [= <- <-]. by exists l, bs1, e, bs2, ls'.
Qed.

Lemma make_queues s kt bs ls bs4 : let sc := lget s in
  kernel_ok s kt bs → length (priority_queues sc) = 4%nat → make_lists 4 bs = Some (ls, bs4) →
  ∃ s1, mfor 0 MLFQ_LEVELS (λ i, l ← list_init err; upd_sched (set_queue i l)) s = Ok tt s1 ∧
    making s s1 kt bs bs4 ls ∧ lget s1 = mkSched ls (waiting_queue sc) (current_pcb sc) (idle_pcb sc).
Proof.
  intros sc Hko Hq Hmk. set (q := priority_queues sc) in *.
  destruct (mfor_rule (λ i s1, ∃ l1 l2 bs1, ls = l1 ++ l2 ∧ Z.of_nat (length l1) = i ∧ make_lists (length l2) bs1 = Some (l2, bs4) ∧
      making s s1 kt bs bs1 l1 ∧ lget s1 = mkSched (l1 ++ skipn (length l1) q) (waiting_queue sc) (current_pcb sc) (idle_pcb sc))
    0 MLFQ_LEVELS (λ i, l ← list_init err; upd_sched (set_queue i l)) s) as (s1 & R & l1 & l2 & bs1 & -> & Hlen & Hl2 & Hmak & Hsc).
  - done.
  - intros i s1 Hi (l1 & l2 & bs1 & -> & Hlen & Hl2 & Hmak & Hsc). pose proof (make_lists_length _ _ _ _ Hmk) as Hl4. rewrite length_app in Hl4.
    unfold MLFQ_LEVELS in Hi. destruct l2 as [|l l2]; [cbn in Hl4; lia|]. cbn [length] in Hl2.
    destruct (make_lists_cons _ _ _ _ Hl2) as (l' & b1 & e & b2 & ls' & [= <- <-] & Ha1 & Ha2 & Hrest).
    destruct (making_step s s1 kt bs bs1 l1 l b1 e b2 (set_queue i) Hmak Ha1 Ha2) as (s2 & R & Hmak2 & Hsc2).
    exists s2. split; [exact R|]. exists (l1 ++ [l]), l2, b2. split_and!; [by rewrite <- app_assoc|rewrite length_app; cbn; lia|done|done|].
    rewrite Hsc2, Hsc. unfold set_queue. cbn [priority_queues waiting_queue current_pcb idle_pcb]. f_equal.
    rewrite length_app. cbn [length]. rewrite insert_app_r_alt by lia. rewrite <- app_assoc. f_equal.
    replace (Z.to_nat i - length l1)%nat with 0%nat by lia.
    destruct (skipn (length l1) q) as [|y r] eqn:Ed; [apply (f_equal length) in Ed; rewrite length_drop in Ed; cbn in Ed; lia|].
    cbn. f_equal. by rewrite <- drop_drop, Ed.
  - exists [], ls, bs. rewrite (make_lists_length _ _ _ _ Hmk). split_and!; [done|done|done| |by destruct (lget (T:=Scheduler) s)].
    constructor; [by apply grown_refl|done|by constructor; [intros a Ha%not_elem_of_nil|intros i j a b Ha]|].
    exists (lget s), (lget s). by rewrite !lput_lget.
  - exists s1. pose proof (make_lists_length _ _ _ _ Hmk) as Hl4. rewrite length_app in Hl4. unfold MLFQ_LEVELS in Hlen.
    destruct l2; [|cbn in Hl4; lia]. injection Hl2 as ->. rewrite app_nil_r in *. split_and!; [done|done|].
    rewrite Hsc. f_equal. rewrite drop_ge by lia. by rewrite app_nil_r.
Qed.

Lemma make_lists_snoc k : ∀ bs ls bs', make_lists (S k) bs = Some (ls, bs') →
  ∃ ls' l b0 b1 e, ls = ls' ++ [l] ∧ make_lists k bs = Some (ls', b0) ∧ alloc_spec SIZEOF_LIST b0 = Some (l, b1) ∧ alloc_spec 256 b1 = Some (e, bs').
Proof.
  induction k as [|k IH]; intros bs ls bs' (l & b1 & e & b2 & ls' & -> & E1 & E2 & E3)%make_lists_cons.
  - cbn in E3. injection E3 as <- ->. by exists [], l, bs, b1, e.
  - destruct (IH _ _ _ E3) as (ls1 & l1 & b3 & b4 & e' & -> & E4 & E5 & E6). exists (l :: ls1), l1, b3, b4, e'. split_and!; [done| |done|done].
    cbn [make_lists]. rewrite E1. cbn. rewrite E2. cbn. by rewrite E4.
Qed.

(** A process in a grown kernel. *)
Lemma create_grown n s kt bs p bs' c ub :
  kernel_ok s kt bs → alloc_spec SIZEOF_PCB bs = Some (p, bs') → program_ok d s kt bs c → memory_for s kt (cost c + n) →
  ∃ pcb kt' s', create_pcb c.1 c.2 ub s = Ok p s' ∧ grown s s' kt kt' bs bs' ∧ memory_for s' kt' n ∧ pcb_rep (lget s') p pcb ∧
    pcb_ok pcb ∧ state pcb = STATE_READY ∧ priority pcb = 0 ∧ lget (T:=Scheduler) s' = lget s.
Proof.
  intros Hko Ha Hc Hm. pose proof (ko_heap _ _ _ _ _ _ Hko) as [Hbs _].
  destruct (create_pcb_loaded d t1 t2 n s kt bs p bs' c.1 c.2 ub Hko Ha (program_loadable d s kt bs c n Hc Hm) (po_heap _ _ _ _ _ Hc))
    as (v & D & F & S & pg & kt' & s' & R & [Hko' _ Hp _ _ _ _ _ Hk [Hl Hr] (m & cp & pn & Es)]).
  destruct (alloc_spec_owned SIZEOF_PCB bs p bs' ltac:(done) Ha) as [_ Ho]. destruct (obj_alloc bs p SIZEOF_PCB bs' Hbs ltac:(done) Ha) as (_ & _ & Hobj).
  eexists _, kt', s'. split_and!; [exact R| |done|exact Hp|by unfold pcb_ok, MLFQ_LEVELS, AGE_TICK_MAX; cbn; lia|done|done|].
  - constructor; [done| |exact (alloc_spec_inside SIZEOF_PCB bs p bs' ltac:(done) Ha)|done|intros a k Hak; by apply Hobj].
    constructor; [intros x Hx; by apply Hk|]. intros x Hx Hn. by apply Hk.
  - rewrite Es. by rewrite (lget_other' (L:=LM) (K:=LS)), (lget_other' (L:=LC) (K:=LS)), (lget_other' (L:=LN) (K:=LS)).
Qed.

(** The scheduler's data, each list and block an object of the heap. *)
Record sched_data (bs : list block) (ls : list Z) (m : mem) (A : asched) : Prop := {
  sd_data : data_rep ls m A;
  sd_lists : ∀ a, a ∈ ls → obj bs a SIZEOF_LIST;
  sd_pcbs : ∀ p, p ∈ dom (a_procs A) → obj bs p SIZEOF_PCB
}.

Lemma sched_data_grown s s' kt kt' bs bs' ls A : kernel_ok s kt bs → grown s s' kt kt' bs bs' → sched_data bs ls (lget s) A → sched_data bs' ls (lget s') A.
Proof.
  intros Hko Hg [Hd Hl Hp]. pose proof (gn_obj _ _ _ _ _ _ _ _ _ Hg) as Ho. constructor; [|auto|auto].
  eapply data_rep_ext; [exact Hd|]. intros x [(a & Ha & Hx)|(p & Hin & Hx)]; (eapply grown_obj_byte; [exact Hko|exact Hg| |exact Hx]); auto.
Qed.

(** A process that was created joins the scheduler's data. *)
Lemma sched_data_create s s' kt kt' bs bs' ls A p c :
  kernel_ok s kt bs → alloc_spec SIZEOF_PCB bs = Some (p, bs') → grown s s' kt kt' bs bs' → sched_data bs ls (lget s) A → pcb_rep (lget s') p c →
  (p ∉ dom (a_procs A)) ∧ p ≠ NULL ∧ sched_data bs' ls (lget s') (mkA (<[p := c]> (a_procs A)) (a_queues A) (a_cur A) (a_idle A)).
Proof.
  intros Hko Ha Hg Hd Hc. pose proof (ko_heap _ _ _ _ _ _ Hko) as [Hbs _].
  destruct (obj_alloc bs p SIZEOF_PCB bs' Hbs ltac:(done) Ha) as (Hbs' & Hp & Hobj). pose proof (obj_mapped _ _ _ Hbs' Hp) as Hm.
  destruct (sched_data_grown s s' kt kt' bs bs' ls A Hko Hg Hd) as [Hd' Hl' Hp']. split_and!.
  - intros Hin. destruct (Hobj p SIZEOF_PCB (sd_pcbs _ _ _ _ Hd p Hin)) as [_ Hap]. unfold SIZEOF_PCB in Hap. lia.
  - intros ->. unfold mapped, IDENT_LO, NULL in Hm. lia.
  - constructor; cbn [a_procs].
    + apply data_rep_insert; [done|done|done| |].
      * intros a Ha'. apply Hobj; [by apply (sd_lists _ _ _ _ Hd)|done].
      * intros q Hq. apply Hobj; [by apply (sd_pcbs _ _ _ _ Hd)|done].
    + exact Hl'.
    + intros q. rewrite dom_insert. intros [->%elem_of_singleton|Hq]%elem_of_union; [done|auto].
Qed.

(** Five empty lists and no process. *)
Definition empty_sched : asched := mkA ∅ [[]; []; []; []; []] NULL NULL.

Lemma no_queue_entries (i : nat) ns : [[]; []; []; []; []] !! i = Some ns → ns = ([] : list Z).
Proof. do 5 (destruct i as [|i]; [by intros [= <-]|]). done. Qed.

Lemma lists_made_data bs ls m : lists_made bs m ls → length ls = 5%nat → sched_data bs ls m empty_sched.
Proof.
  intros [Hl Ha] H5. constructor; [|intros a Hin; by apply Hl|intros p; cbn [empty_sched a_procs]; by rewrite dom_empty_L, elem_of_empty]. constructor; cbn [empty_sched a_procs a_queues].
  - done.
  - done.
  - intros i a ns Hi ->%no_queue_entries. by eapply Hl, list_elem_of_lookup_2.
  - intros p c. by rewrite lookup_empty.
  - by intros i ns p ->%no_queue_entries Hp%not_elem_of_nil.
  - by intros i j ns ns' p ->%no_queue_entries _ Hp%not_elem_of_nil.
  - rewrite dom_empty_L. by constructor; set_solver.
Qed.

(** New processes only: the invariant. *)
Lemma fresh_ainv procs idle U :
  (∀ p c, procs !! p = Some c → p ≠ NULL ∧ pcb_ok c ∧ state c = STATE_READY) → (∀ p, p ∈ U ↔ p ∈ dom procs ∧ p ≠ idle) → idle ∈ dom procs →
  ainv U (mkA procs [[]; []; []; []; []] NULL idle).
Proof.
  intros Hp HU Hi. constructor; cbn [a_procs a_queues a_cur a_idle].
  - done.
  - intros i ns ->%no_queue_entries. constructor.
  - intros i p. split.
    + by intros (ns & ->%no_queue_entries & Hin%not_elem_of_nil).
    + intros (HpU & Hne & c & Hc & _). destruct HpU. apply HU. split; [by apply elem_of_dom_2 in Hc|done].
  - intros p c Hc. by destruct (Hp p c Hc) as (? & ? & _).
  - intros p c Hc Hr. destruct (Hp p c Hc) as (_ & _ & Hs). congruence.
  - by left.
  - intros p [[c Hc]%elem_of_dom _]%HU. exists c. split; [done|by apply (Hp p c)].
  - split; [by intros [_ ?]%HU|]. apply elem_of_dom in Hi as [c Hc]. exists c. split; [done|]. destruct (Hp _ _ Hc) as (_ & _ & ->). done.
Qed.

Lemma grown_upd {B} (f : Scheduler → Scheduler) (k : M St B) s : (upd_sched f ;; k) s = k (lput (f (lget s)) s).
Proof. by rewrite (bind_ok _ _ _ _ _ (upd_sched_run f s)). Qed.

Lemma sched_init_run n s kt bs ls bs5 idle bs6 c ub :
  kernel_ok s kt bs → length (priority_queues (lget s)) = 4%nat → make_lists 5 bs = Some (ls, bs5) → alloc_spec SIZEOF_PCB bs5 = Some (idle, bs6) →
  program_ok d s kt bs c → memory_for s kt (cost c + n) →
  ∃ pcb kt' s', sched_init err c.1 c.2 ub s = Ok tt s' ∧ grown s s' kt kt' bs bs6 ∧ memory_for s' kt' n ∧
    sched_data bs6 ls (lget s') (mkA {[idle := pcb]} [[]; []; []; []; []] NULL idle) ∧ lget s' = mkSched (take 4 ls) (nth 4 ls NULL) NULL idle ∧
    idle ≠ NULL ∧ pcb_ok pcb ∧ state pcb = STATE_READY.
Proof.
  intros Hko Hq Hmk Ha Hc Hm. pose proof (make_lists_length _ _ _ _ Hmk) as H5.
  destruct (make_lists_snoc 4 _ _ _ Hmk) as (ls4 & w & b4 & b1 & e & -> & Hmk4 & Ha1 & Ha2). pose proof (make_lists_length _ _ _ _ Hmk4) as H4.
  destruct (make_queues s kt bs ls4 b4 Hko Hq Hmk4) as (s1 & R1 & Hmak1 & Hsc1).
  destruct (making_step s s1 kt bs b4 ls4 w b1 e bs5 set_waiting Hmak1 Ha1 Ha2) as (s2 & R2 & [Hg2 Hmem2 Hl2 _] & Hsc2).
  rewrite Hsc1 in Hsc2. cbn in Hsc2.
  pose proof (gn_kernel _ _ _ _ _ _ _ _ _ Hg2) as Hko2.
  assert (program_ok d s2 kt bs5 c) as Hc2 by (eapply program_keeps; [apply Hg2|apply Hg2|exact Hc]).
  destruct (create_grown n s2 kt bs5 idle bs6 c ub Hko2 Ha Hc2 (Hmem2 _ Hm)) as (pcb & kt' & s3 & R3 & Hg3 & Hm3 & Hp & Hpok & Hst & _ & Hsc3).
  destruct (sched_data_create s2 s3 kt kt' bs5 bs6 (ls4 ++ [w]) empty_sched idle pcb Hko2 Ha Hg3 (lists_made_data _ _ _ Hl2 H5) Hp) as (_ & Hnull & Hd).
  set (sc := mkSched ls4 w NULL idle). pose proof (grown_sched s3 kt' bs6 sc (gn_kernel _ _ _ _ _ _ _ _ _ Hg3)) as Hg4.
  exists pcb, kt', (lput sc s3). split_and!; [| |by apply memory_sched| | |done|done|done].
  - unfold sched_init. rewrite (bind_ok _ _ _ _ _ R1).
    transitivity (((l ← list_init err; upd_sched (set_waiting l)) ;; (idle_pcb ← create_pcb c.1 c.2 ub; upd_sched (set_current NULL) ;; upd_sched (set_idle idle_pcb))) s1).
    { by rewrite bind_assoc. }
    rewrite (bind_ok _ _ _ _ _ R2), (bind_ok _ _ _ _ _ R3), grown_upd, upd_sched_run, lget_lput, lput_lput, Hsc3, Hsc2. done.
  - eapply grown_trans; [exact Hg2|by eapply grown_trans].
  - rewrite (lget_other (L:=LM) (K:=LS)). destruct Hd as [[D1 D2 D3 D4 D5 D6 D7] Dl Dp]. cbn [empty_sched a_procs a_queues] in *. rewrite insert_empty in *.
    constructor; [constructor; try done; cbn [a_queues a_procs] in *; eauto|done|done].
  - rewrite lget_lput. unfold sc. rewrite take_app_length' by done. f_equal. rewrite app_nth2 by lia. by rewrite H4.
Qed.

Lemma sched_data_srep bs ls s A : sched_data bs ls (lget s) A → lget s = statics ls A → srep ls s A.
Proof. intros [Hd _ _] Hs. by constructor. Qed.

(** C22: with room in the heap for five lists and a block, and memory for
    the idle program, [sched_init] leaves a well-formed scheduler with empty
    queues, no current process and a ready idle process, in a kernel whose
    heap, address space and allocator are in order: the state the histories
    of scheduler calls start from. *)
Theorem sched_init_ready s kt bs ls bs5 idle bs6 c ub :
  kernel_ok s kt bs → length (priority_queues (lget s)) = 4%nat → make_lists 5 bs = Some (ls, bs5) → alloc_spec SIZEOF_PCB bs5 = Some (idle, bs6) →
  program_ok d s kt bs c → memory_for s kt (cost c) →
  ∃ pcb kt' s', sched_init err c.1 c.2 ub s = Ok tt s' ∧ kernel_ok s' kt' bs6 ∧ state pcb = STATE_READY ∧
    let A := mkA {[idle := pcb]} [[]; []; []; []; []] NULL idle in srep ls s' A ∧ ainv ∅ A.
Proof.
  intros Hko Hq Hmk Ha Hc Hm. destruct (sched_init_run 0 s kt bs ls bs5 idle bs6 c ub Hko Hq Hmk Ha Hc) as (pcb & kt' & s' & R & Hg & _ & Hd & Hsc & Hn & Hok & Hst).
  { by rewrite Nat.add_0_r. }
  exists pcb, kt', s'. split_and!; [done|apply Hg|done|]. intros A. split; [by eapply sched_data_srep|]. apply fresh_ainv.
  - intros p c' [<- <-]%lookup_singleton_Some. done.
  - intros p. rewrite dom_singleton_L. set_solver.
  - rewrite dom_singleton_L. set_solver.
Qed.

(** One more process, created and not yet queued. *)
Lemma create_next n s kt bs p bs' c A ls :
  kernel_ok s kt bs → alloc_spec SIZEOF_PCB bs = Some (p, bs') → program_ok d s kt bs c → memory_for s kt (cost c + n) → sched_data bs ls (lget s) A →
  ∃ pcb kt' s', create_pcb c.1 c.2 true s = Ok p s' ∧ grown s s' kt kt' bs bs' ∧ memory_for s' kt' n ∧
    sched_data bs' ls (lget s') (mkA (<[p := pcb]> (a_procs A)) (a_queues A) (a_cur A) (a_idle A)) ∧ lget (T:=Scheduler) s' = lget s ∧
    (p ∉ dom (a_procs A)) ∧ p ≠ NULL ∧ pcb_ok pcb ∧ state pcb = STATE_READY ∧ priority pcb = 0.
Proof.
  intros Hko Ha Hc Hm Hd. destruct (create_grown n s kt bs p bs' c true Hko Ha Hc Hm) as (pcb & kt' & s' & R & Hg & Hm' & Hp & Hok & Hst & Hpr & Hsc).
  destruct (sched_data_create s s' kt kt' bs bs' ls A p pcb Hko Ha Hg Hd Hp) as (Hnew & Hnull & Hd'). by exists pcb, kt', s'.
Qed.

(** Queueing a new process of the highest level. *)
Lemma enqueue_new ls s U procs q1 rest p idle pcb : let A q := mkA procs (q :: rest) NULL idle in
  srep ls s (A q1) → ainv U (A q1) → p ∈ U → procs !! p = Some pcb → priority pcb = 0 →
  ∃ s', sched_enqueue p s = Ok tt s' ∧ srep ls s' (A (q1 ++ [p])) ∧ ainv (U ∖ {[p]}) (A (q1 ++ [p])).
Proof.
  intros A Hs HI HU Hp Hpr. destruct (enqueue_inv U (A q1) p HI HU) as (c & ns & Hc & Hns & He & HI').
  cbn [A a_procs] in Hc. assert (c = pcb) as -> by congruence. rewrite Hpr in *. cbn in Hns. injection Hns as <-.
  destruct (sched_enqueue_sim ls s (A q1) p _ Hs He) as (s' & R & Hs' & _). by exists s'.
Qed.

(** C4: [sched_init], the two calls of [create_pcb] and the two of
    [sched_enqueue], in the order of [kernel_main]. From a well-formed address
    space, and with a heap of its own and memory for the scheduler's lists and
    three programs, they return with both processes in the highest queue, in
    the order of their creation, idle aside, and no current process; blocks,
    lists and invariant are those the theorems on the scheduler ask for. The
    boot of [kernel_main] itself does not leave such a state: the heap it
    makes starts in the page directory (Boot.v). *)
Theorem start_processes_ready s kt bs ls bs5 idle bs6 p1 bs7 p2 bs8 c c1 c2 :
  kernel_ok s kt bs → length (priority_queues (lget s)) = 4%nat → make_lists 5 bs = Some (ls, bs5) →
  alloc_spec SIZEOF_PCB bs5 = Some (idle, bs6) → alloc_spec SIZEOF_PCB bs6 = Some (p1, bs7) → alloc_spec SIZEOF_PCB bs7 = Some (p2, bs8) →
  program_ok d s kt bs c → program_ok d s kt bs c1 → program_ok d s kt bs c2 → memory_for s kt (cost c + (cost c1 + cost c2)) →
  ∃ procs s', start_processes err c c1 c2 s = Ok tt s' ∧ dom procs = {[idle; p1; p2]} ∧
    let A := mkA procs [[p1; p2]; []; []; []; []] NULL idle in srep ls s' A ∧ ainv ∅ A.
Proof.
  intros Hko Hq Hmk Ha Ha1 Ha2 Hc Hc1 Hc2 Hm.
  destruct (sched_init_run _ s kt bs ls bs5 idle bs6 c true Hko Hq Hmk Ha Hc Hm) as (pcb & k1 & s1 & R1 & Hg1 & Hm1 & Hd1 & Hsc1 & Hn & Hok & Hst).
  assert (program_ok d s1 k1 bs6 c1) as Hc1' by (eapply program_keeps; [apply Hg1|apply Hg1|exact Hc1]).
  destruct (create_next _ s1 k1 bs6 p1 bs7 c1 _ ls (gn_kernel _ _ _ _ _ _ _ _ _ Hg1) Ha1 Hc1' Hm1 Hd1)
    as (pcb1 & k2 & s2 & R2 & Hg2 & Hm2 & Hd2 & Hsc2 & Hnew1 & Hn1 & Hok1 & Hst1 & Hpr1). cbn [a_procs a_queues a_cur a_idle] in *.
  assert (grown s s2 kt k2 bs bs7) as Hg12 by (by eapply grown_trans).
  assert (program_ok d s2 k2 bs7 c2) as Hc2' by (eapply program_keeps; [apply Hg12|apply Hg12|exact Hc2]).
  destruct (create_next 0 s2 k2 bs7 p2 bs8 c2 _ ls (gn_kernel _ _ _ _ _ _ _ _ _ Hg2) Ha2 Hc2' ltac:(by rewrite Nat.add_0_r) Hd2)
    as (pcb2 & k3 & s3 & R3 & Hg3 & _ & Hd3 & Hsc3 & Hnew2 & Hn2 & Hok2 & Hst2 & Hpr2). cbn [a_procs a_queues a_cur a_idle] in *.
  rewrite dom_insert_L, dom_singleton_L in Hnew2. rewrite dom_singleton_L in Hnew1.
  set (procs := <[p2:=pcb2]> (<[p1:=pcb1]> {[idle := pcb]})) in *.
  assert (dom procs = {[idle; p1; p2]}) as Hdom by (unfold procs; rewrite !dom_insert_L, dom_singleton_L; set_solver).
  assert (ainv {[p1; p2]} (mkA procs [[]; []; []; []; []] NULL idle)) as HI.
  { apply fresh_ainv.
    - intros q c' [[<- <-]|[_ [[<- <-]|[_ [<- <-]%lookup_singleton_Some]]%lookup_insert_Some]]%lookup_insert_Some; done.
    - intros q. rewrite Hdom. set_solver.
    - rewrite Hdom. set_solver. }
  assert (srep ls s3 (mkA procs [[]; []; []; []; []] NULL idle)) as Hs3.
  { eapply sched_data_srep; [exact Hd3|]. by rewrite Hsc3, Hsc2, Hsc1. }
  destruct (enqueue_new ls s3 _ procs [] _ p1 idle pcb1 Hs3 HI) as (s4 & R4 & Hs4 & HI4);
    [set_solver|unfold procs; rewrite lookup_insert_ne by set_solver; apply lookup_insert_eq|done|].
  destruct (enqueue_new ls s4 _ procs _ _ p2 idle pcb2 Hs4 HI4) as (s5 & R5 & Hs5 & HI5);
    [set_solver|apply lookup_insert_eq|done|].
  exists procs, s5. split; [|split; [exact Hdom|]].
  - unfold start_processes. by rewrite (bind_ok _ _ _ _ _ R1), (bind_ok _ _ _ _ _ R2), (bind_ok _ _ _ _ _ R3), (bind_ok _ _ _ _ _ R4).
  - cbn [app] in *. split; [exact Hs5|]. replace (∅ : gset Z) with (({[p1; p2]} ∖ {[p1]}) ∖ {[p2]} : gset Z) by set_solver. exact HI5.
Qed.
End init.
