(* ===== verification/Boot.v ===== *)
(** * Boot: setting up the memory (src/kernel/kernel.c)

    [init_memory_management]: the frame allocator, the kernel's address space
    and the heap, in the order of the boot code. When the allocator's bitmap
    ends on a page boundary the first two leave the state VmmState.v starts
    from; the third then writes the heap's first header into the kernel's
    page directory. *)

From S2P Require Import Prelude Memory Bitmap Pmm Isr KMemory Paging Mmu Vmm VmmSpec AddrSpace VmmState.

(** ** The code *)

(** [mem_lower] and [mem_upper] of [MultibootInfo]. *)
Definition OFF_MEM_LOWER : Z := 4.
Definition OFF_MEM_UPPER : Z := 8.
Definition BITMAP_ADDR : Z := 0x00400000.

Section boot.
Context {St : Type} `{LM : Lens St mem} `{LP : Lens St PmmStatics} `{LC : Lens St Cpu} `{LI : Lens St IsrTables}.
Context `{LH : Lens St HeapStatics}.
Context (text_start rodata_start data_start : Z) (page_fault_handler : Z).

Definition init_memory_management (mb_info : Z) : M St unit :=
  mem_lower ← load32 (mb_info + OFF_MEM_LOWER);
  mem_upper ← load32 (mb_info + OFF_MEM_UPPER);
  let total_ram_bytes := (mem_lower ⊞ mem_upper) ⊠ 1024 in
  dynamic_heap_start ← pmm_init total_ram_bytes BITMAP_ADDR;
  paging_init text_start rodata_start data_start page_fault_handler ;;
  kmalloc_init dynamic_heap_start.
End boot.

(** ** The state after [pmm_init] and [paging_init] *)

Section frames.
Context {St : Type} `{LM : Lens St mem} `{LP : Lens St PmmStatics} {AP : Apart LM LP}.

(** With the frames below [n] in use, the next one is [n]. *)
Lemma allocate_next s n : pmm_ok s → 0 ≤ n < total_bits (frame_bitmap (lget s)) →
  (∀ f, managed s f → frame_used s f = (f <? n)) →
  ∃ m' : mem, pmm_allocate_frame s = Ok (n * 4096) (lput m' s) ∧ pmm_ok (lput m' s) ∧
    (∀ f, managed s f → frame_used (lput m' s) f = (f <? n + 1)) ∧
    ∀ x, ¬ in_bitmap (frame_bitmap (lget s)) x → get8 m' x = get8 (lget s) x.
Proof.
  intros Hok Hn Hu. assert (managed s n) as Hmn by done.
  destruct (pmm_allocate_run s Hok) as [(f & m' & Hf & Hfree & Hlow & Hrun & Hbit & Hrest)|[Hall _]].
  - rewrite Hu in Hfree by done. apply Z.ltb_ge in Hfree. assert (f = n) as ->.
    { destruct (Z.lt_ge_cases n f); [|lia]. specialize (Hlow n ltac:(lia)). rewrite Hu in Hlow by done. apply Z.ltb_lt in Hlow. lia. }
    exists m'. split_and!; [done|by apply pmm_ok_lput| |done]. intros g Hg. rewrite Hbit, Hu by (done || destruct Hg; lia).
    destruct (Z.eqb_spec n g), (Z.ltb_spec g n), (Z.ltb_spec g (n + 1)); lia || done.
  - specialize (Hall n Hmn). rewrite Hu in Hall by done. apply Z.ltb_lt in Hall. lia.
Qed.

(** Three calls in a row. *)
Lemma allocate_three s n : pmm_ok s → 0 ≤ n → n + 3 ≤ total_bits (frame_bitmap (lget s)) →
  (∀ f, managed s f → frame_used s f = (f <? n)) →
  ∃ m1 m2 m3 : mem, pmm_allocate_frame s = Ok (n * 4096) (lput m1 s) ∧
    pmm_allocate_frame (lput m1 s) = Ok ((n + 1) * 4096) (lput m2 s) ∧
    pmm_allocate_frame (lput m2 s) = Ok ((n + 2) * 4096) (lput m3 s) ∧
    (∀ f, managed s f → frame_used (lput m3 s) f = (f <? n + 3)) ∧
    ∀ x, ¬ in_bitmap (frame_bitmap (lget s)) x → get8 m3 x = get8 (lget s) x.
Proof.
  intros Hok Hn Htot Hu. set (bm := frame_bitmap (lget s)) in *.
  destruct (allocate_next s n Hok ltac:(unfold bm in *; lia) Hu) as (m1 & R1 & O1 & U1 & X1).
  assert (∀ m : mem, frame_bitmap (lget (lput m s)) = bm) as Ebm by (intros; unfold bm; by rewrite pmm_lput).
  assert (∀ (m : mem) f, managed (lput m s) f ↔ managed s f) as Emg by (intros; unfold managed; by rewrite Ebm).
  destruct (allocate_next (lput m1 s) (n + 1)) as (m2 & R2 & O2 & U2 & X2); [done|rewrite Ebm; lia|intros f Hf; by apply U1, (Emg m1)|].
  rewrite lput_lput in *. rewrite lget_lput, Ebm in *.
  destruct (allocate_next (lput m2 s) (n + 1 + 1)) as (m3 & R3 & O3 & U3 & X3); [done|rewrite Ebm; lia|intros f Hf; by apply U2, (Emg m1), (Emg m2)|].
  rewrite lput_lput in *. rewrite lget_lput, Ebm in *. replace (n + 1 + 1) with (n + 2) in * by lia.
  exists m1, m2, m3. split_and!; [done..| |].
  - intros f Hf. replace (n + 3) with (n + 2 + 1) by lia. by apply U3, (Emg m2).
  - intros x Hx. by rewrite X3, X2, X1.
Qed.
End frames.

Section address_space.
Context {St : Type} `{LM : Lens St mem} `{LP : Lens St PmmStatics} `{LC : Lens St Cpu} `{LI : Lens St IsrTables}.
Context {AC : Apart LM LC} {AP : Apart LM LP} {ACP : Apart LC LP} {AI : Apart LM LI} {ACI : Apart LC LI} {AIP : Apart LI LP}.
Context (text_start rodata_start data_start : Z) (page_fault_handler : Z).

(** The two tables, by directory index. *)
Definition boot_tables (a b : Z) : gmap Z Z := <[0 := a]> (<[1 := b]> ∅).

(** The tables of [paging_init] are the kernel's address space. *)
Lemma kernel_tables_kspace m d a b : kernel_tables text_start rodata_start data_start m (d * 4096) (a * 4096) (b * 4096) →
  1 ≤ d < 2047 → 1 ≤ a < 2047 → 1 ≤ b < 2047 → d ≠ a → d ≠ b → a ≠ b → kspace (d * 4096) a b m (boot_tables a b).
Proof.
  unfold boot_tables.
  intros [H0 H1 Hr Hn Hl Hh] Hd Ha Hb ???. destruct H0 as (P0 & _ & U0 & F0). destruct H1 as (P1 & _ & U1 & F1).
  rewrite Z.div_mul in F0, F1 by done.
  constructor; rewrite ?Z.div_mul by done.
  - split; [by rewrite Z.mod_mul|lia].
  - intros i Hi. destruct (decide (i = 0)) as [->|]; [by rewrite lookup_insert_eq|].
    rewrite lookup_insert_ne by done. destruct (decide (i = 1)) as [->|]; [by rewrite lookup_insert_eq|].
    rewrite lookup_insert_ne, lookup_empty by done. unfold pde. by rewrite Hr by lia.
  - intros i f. rewrite !lookup_insert_Some, lookup_empty. intros [[<- <-]|[? [[<- <-]|[? ?]]]]; [split_and!; done || lia..|done].
  - intros i j f. rewrite !lookup_insert_Some, lookup_empty. naive_solver.
  - by rewrite lookup_insert_eq.
  - by rewrite lookup_insert_ne, lookup_insert_eq.
  - intros j Hj. by destruct (Hl j Hj) as (? & _ & _ & ?).
  - intros j Hj. destruct (Hh j) as (? & _ & _ & ?); [lia|done].
  - done.
Qed.

(** The three frames of [paging_init], right behind those in use. *)
Lemma paging_init_frames s n : pmm_ok s → isr_ok (lget s) → 1 ≤ n → n + 3 ≤ total_bits (frame_bitmap (lget s)) → n + 3 ≤ 2047 →
  (∀ f, managed s f → frame_used s f = (f <? n)) →
  storage (frame_bitmap (lget s)) + 4 * words (frame_bitmap (lget s)) ≤ n * 4096 →
  ∃ s', paging_init text_start rodata_start data_start page_fault_handler s = Ok tt s' ∧
    lget s' = mkCpu (Z.lor (cr0 (lget s)) 0x80000000) (n * 4096) ∅ (n * 4096) ∧ lget (T:=PmmStatics) s' = lget s ∧
    kernel_tables text_start rodata_start data_start (lget s') (n * 4096) ((n + 1) * 4096) ((n + 2) * 4096) ∧
    (∀ f, managed s f → frame_used s' f = (f <? n + 3)) ∧
    ∀ x, ¬ in_bitmap (frame_bitmap (lget s)) x → x < n * 4096 ∨ (n + 3) * 4096 ≤ x → get8 (lget s') x = get8 (lget s) x.
Proof.
  intros Hok Hisr Hn Htot Hlow Hu Hbm. set (bm := frame_bitmap (lget s)) in *.
  destruct (allocate_three s n Hok ltac:(lia) Htot Hu) as (m1 & m2 & m3 & R1 & R2 & R3 & U3 & X3).
  destruct (paging_init_run text_start rodata_start data_start page_fault_handler s _ _ _ _ _ _ Hok Hisr R1 R2 R3)
    as (_ & _ & _ & _ & _ & _ & _ & s' & Hr & Hc & Hp & _ & Hkt & Hx); [unfold IDENT_HI; lia..|].
  exists s'. split_and!; [done..| |].
  - intros f Hf. rewrite <- U3 by done. unfold frame_used. rewrite Hp, pmm_lput, lget_lput. unfold managed in Hf. fold bm in Hf |- *.
    unfold bit. f_equal. apply get8_ext_ld32. intros x Hxr. destruct (word_index bm f Hf).
    rewrite Hx by (unfold off_table; lia). by rewrite lget_lput.
  - intros x Hbx Hxr. rewrite Hx by (unfold off_table; lia). rewrite lget_lput. by apply X3.
Qed.

(** The boot state: the allocator over [ram] bytes with its bitmap from
    [start] on, the three tables in the frames after it, nothing else used. *)
Lemma boot_vmm_ok s ram start : let n := bitmap_end ram start / 4096 in
  0 ≤ ram < 4294967296 → IDENT_LO ≤ start → bitmap_end ram start mod 4096 = 0 → n + 3 ≤ 2047 → n + 3 ≤ ram / 4096 →
  isr_ok (lget s) →
  ∃ s1 s', pmm_init ram start s = Ok (n * 4096) s1 ∧
    paging_init text_start rodata_start data_start page_fault_handler s1 = Ok tt s' ∧
    vmm_ok (n * 4096) (n + 1) (n + 2) s' (boot_tables (n + 1) (n + 2)) ∧
    frame_bitmap (lget s') = mkBitmap start (ram / 4096) ∧
    (∀ f, 0 ≤ f < ram / 4096 → frame_used s' f = (f <? n + 3)) ∧ page_frame (lget s') (n * 4096) 0 = None ∧
    ∀ x, x < start ∨ (n + 3) * 4096 ≤ x → get8 (lget s') x = get8 (lget s) x.
Proof.
  intros n Hram Hlo Hend Hlow Htot Hisr. assert (bitmap_end ram start = n * 4096) as En by (unfold n; Z.div_mod_to_equations; lia).
  destruct (pmm_init_run ram start s Hram Hlo) as (s1 & R1 & Hok & Hbm & (m1 & p1 & Es1) & Hu & Hx); [rewrite En; unfold IDENT_HI; lia|].
  rewrite En in *. unfold PMM_FRAME_SIZE in *. rewrite Z.div_mul in Hu by done.
  assert (start + 4 * words (mkBitmap start (ram / 4096)) = n * 4096) as Ew by exact En.
  assert (1 ≤ n) as Hn by (unfold words, IDENT_LO in *; cbn [total_bits] in *; Z.div_mod_to_equations; lia).
  destruct (paging_init_frames s1 n Hok) as (s' & R2 & Hc & Hp & Hkt & Hu' & Hx'); [|done|rewrite Hbm; cbn; lia|lia|done|rewrite Hbm; cbn [storage]; lia|].
  { by rewrite Es1, lget_other', (lget_other (L:=LI)). }
  assert (∀ f, 0 ≤ f < ram / 4096 → managed s1 f) as Hmg by (intros; unfold managed; by rewrite Hbm).
  pose proof (kernel_tables_kspace _ _ _ _ Hkt ltac:(lia) ltac:(lia) ltac:(lia) ltac:(lia) ltac:(lia) ltac:(lia)) as Hks.
  exists s1, s'. split_and!; [done|done| |by rewrite Hp|intros f Hf; by apply Hu', Hmg| |].
  - assert (∀ i f, boot_tables (n + 1) (n + 2) !! i = Some f → n + 1 ≤ f ≤ n + 2) as Htb.
    { intros i f. unfold boot_tables. rewrite !lookup_insert_Some, lookup_empty. intros [[_ <-]|[_ [[_ <-]|[_ ?]]]]; lia || done. }
    constructor; rewrite ?Hc; try done. constructor; [done| | |]; rewrite Hp, Hbm; cbn [storage total_bits].
    + split_and!; [split_and!; cbn; [Z.div_mod_to_equations; lia..|unfold mapped, IDENT_HI; cbn [storage]; lia]|Z.div_mod_to_equations; lia|lia].
    + split; [rewrite Ew; lia|]. intros i f Hf. specialize (Htb i f Hf). lia.
    + intros f Hf Hfb. rewrite Z.div_mul by done. assert (n + 3 ≤ f) as Hnf.
      { pose proof (Hu' f (Hmg f Hf)) as E. unfold frame_used in E. rewrite Hp, Hbm, Hfb in E. symmetry in E. by apply Z.ltb_ge in E. }
      split_and!; [lia|lia| |rewrite Ew; lia]. intros i Hi. specialize (Htb i f Hi). lia.
  - rewrite (ks_page _ _ _ _ _ _ Hks) by lia. change (slot (lget s') (n + 1) 0 = None). unfold slot, pte. by rewrite (kt_null _ _ _ _ _ _ _ Hkt).
  - intros x Hxr. rewrite Hx'; [apply Hx; lia|rewrite Hbm; unfold in_bitmap; cbn [storage]; lia|].
    unfold words, IDENT_LO in *; cbn [total_bits] in *. destruct Hxr; [left|right; lia]. Z.div_mod_to_equations; lia.
Qed.

(** No page above the identity map is there. *)
Lemma boot_page d a b s p : vmm_ok d a b s (boot_tables a b) → 2048 ≤ p < 1048576 → page_frame (lget s) d p = None.
Proof.
  intros H Hp. rewrite (ks_page _ _ _ _ _ _ (vi_ks _ _ _ _ _ _ (vo_vi _ _ _ _ _ H))) by lia.
  unfold boot_tables. rewrite !lookup_insert_ne by (Z.div_mod_to_equations; lia). by rewrite lookup_empty.
Qed.

Lemma boot_pages_ok d a b s : vmm_ok d a b s (boot_tables a b) → pages_ok d s (boot_tables a b).
Proof. intros H p f Hp Hf. by rewrite (boot_page d a b) in Hf. Qed.

(** C28: when the bitmap ends on a page boundary, [pmm_init] and then
    [paging_init] leave the processor on the kernel's directory with nothing
    cached, the tables and the allocator apart from each other, no page
    above the identity map, and exactly the frames up to the three tables in
    use: the state the theorems on the manager start from. *)
Theorem boot_establishes s ram start : let n := bitmap_end ram start / 4096 in
  0 ≤ ram < 4294967296 → IDENT_LO ≤ start → bitmap_end ram start mod 4096 = 0 → n + 3 ≤ 2047 → n + 3 ≤ ram / 4096 →
  isr_ok (lget s) →
  ∃ s', (pmm_init ram start ≫= λ _, paging_init text_start rodata_start data_start page_fault_handler) s = Ok tt s' ∧
    vmm_ok (n * 4096) (n + 1) (n + 2) s' (boot_tables (n + 1) (n + 2)) ∧
    pages_ok (n * 4096) s' (boot_tables (n + 1) (n + 2)) ∧
    ∀ f, 0 ≤ f < ram / 4096 → frame_used s' f = (f <? n + 3).
Proof.
  intros n H1 H2 H3 H4 H5 H6. destruct (boot_vmm_ok s ram start H1 H2 H3 H4 H5 H6) as (s1 & s' & R1 & R2 & Hok & _ & Hu & _).
  exists s'. rewrite (bind_ok _ _ _ _ _ R1). split_and!; [done|done|by apply boot_pages_ok|done].
Qed.
End address_space.

(** ** The heap and the directory *)

Section heap.
Context {St : Type} `{LM : Lens St mem} `{LP : Lens St PmmStatics} `{LC : Lens St Cpu} `{LI : Lens St IsrTables}.
Context `{LH : Lens St HeapStatics}.
Context {AC : Apart LM LC} {AP : Apart LM LP} {ACP : Apart LC LP} {AI : Apart LM LI} {ACI : Apart LC LI} {AIP : Apart LI LP}.
Context {AH : Apart LM LH} {ACH : Apart LC LH}.
Context (text_start rodata_start data_start : Z) (page_fault_handler : Z).

Lemma low_bits w : w mod 4 = 3 → present w = 1 ∧ rw w = 1.
Proof.
  intros Hw. unfold present, rw, get_field. rewrite !Z.land_ones, !Z.shiftr_div_pow2 by lia.
  change (2 ^ 0) with 1. change (2 ^ 1) with 2. Z.div_mod_to_equations; lia.
Qed.

(** C30: [init_memory_management] returns, with paging on, and the first
    header of the heap it has made lies in the kernel's page directory:
    [paging_init] takes the frame the bitmap ends in, where the heap starts.
    The header's size is now a present, writable directory entry that names
    the frame [(0x7FFFF3 - start) / 4096] as a page table, and the header's
    [is_free] byte makes the next entry present. When the bitmap fills whole
    pages this is entry 0, the kernel's own first 4 MB. *)
Theorem boot_heap_in_directory s mb_info :
  let ram := (ld32 (lget s) (mb_info + OFF_MEM_LOWER) ⊞ ld32 (lget s) (mb_info + OFF_MEM_UPPER)) ⊠ 1024 in
  let start := bitmap_end ram BITMAP_ADDR in
  mapped mb_info 12 → isr_ok (lget s) → start + 12288 ≤ IDENT_HI → start / 4096 + 3 ≤ ram / 4096 → start mod 4096 ≤ 4084 →
  ∃ s' i, init_memory_management text_start rodata_start data_start page_fault_handler mb_info s = Ok tt s' ∧
    Z.testbit (cr0 (lget s')) 31 = true ∧ cr3 (lget s') = start / 4096 * 4096 ∧ heap_start (lget s') = start ∧
    0 ≤ i < 1023 ∧ start = entry (cr3 (lget s')) i ∧
    (let e := ld32 (lget s') (entry (cr3 (lget s')) i) in present e = 1 ∧ rw e = 1 ∧ frame_addr e = (0x7FFFF3 - start) / 4096) ∧
    present (ld32 (lget s') (entry (cr3 (lget s')) (i + 1))) = 1 ∧
    (start mod 4096 = 0 → i = 0).
Proof.
  intros ram start Hmb Hisr Hhi Hfr Hpage. unfold init_memory_management, mapped, IDENT_LO, IDENT_HI in *.
  assert (0 ≤ ram < 4294967296) as Hram by apply u32_range. unfold BITMAP_ADDR in *.
  destruct (pmm_init_run ram 0x400000 s Hram) as (s1 & R1 & Hok & Hbm & (m1 & p1 & Es1) & Hu & _); [done|fold start; unfold IDENT_HI; lia|].
  fold start in R1, Hu. unfold PMM_FRAME_SIZE in *.
  assert (0x400000 ≤ start ∧ start mod 4 = 0) as [Hlo H4].
  { unfold start, bitmap_end, words. cbn [total_bits]. unfold PMM_FRAME_SIZE. Z.div_mod_to_equations; lia. }
  set (n := start / 4096) in *. assert (1 ≤ n ∧ n * 4096 ≤ start < n * 4096 + 4096) as [Hn Hns] by (unfold n; Z.div_mod_to_equations; lia).
  destruct (allocate_three s1 n Hok ltac:(lia)) as (m2 & m3 & m4 & A1 & A2 & A3 & _); [by rewrite Hbm|done|].
  assert (isr_ok (lget s1)) as Hisr1 by by rewrite Es1, lget_other', (lget_other (L:=LI)).
  destruct (paging_init_run text_start rodata_start data_start page_fault_handler s1 _ _ _ _ _ _ Hok Hisr1 A1 A2 A3)
    as (_ & _ & _ & _ & _ & _ & _ & s2 & R2 & Hc & _); [unfold IDENT_HI; lia..|].
  unfold OFF_MEM_LOWER, OFF_MEM_UPPER in *. mrun. fold ram. rewrite (bind_ok _ _ _ _ _ R1), (bind_ok _ _ _ _ _ R2).
  unfold kmalloc_init, OFF_IS_FREE, OFF_HDR_NEXT, HDR. mrun. wraps.
  eexists _, ((start - n * 4096) / 4). split; [reflexivity|]. lens. rewrite Hc. cbn [cr0 cr3].
  assert (entry (n * 4096) ((start - n * 4096) / 4) = start) as E0 by (unfold entry; Z.div_mod_to_equations; lia).
  assert (entry (n * 4096) ((start - n * 4096) / 4 + 1) = start + 4) as E1 by (unfold entry in *; lia).
  rewrite E0, E1. split_and!; try done.
  - rewrite Z.lor_spec. apply orb_true_r.
  - Z.div_mod_to_equations; lia.
  - Z.div_mod_to_equations; lia.
  - ldst. rewrite (u32_small (0x7FFFFF - start - 12)) by lia. apply low_bits. Z.div_mod_to_equations; lia.
  - ldst. rewrite (u32_small (0x7FFFFF - start - 12)) by lia. apply low_bits. Z.div_mod_to_equations; lia.
  - ldst. rewrite (u32_small (0x7FFFFF - start - 12)) by lia. unfold frame_addr, get_field.
    rewrite Z.land_ones, Z.shiftr_div_pow2 by lia. change (2 ^ 12) with 4096. change (2 ^ 20) with 1048576. Z.div_mod_to_equations; lia.
  - ldst. unfold present, get_field, ld32. rewrite get8_set8. rewrite Z.land_ones, Z.shiftr_div_pow2 by lia.
    change (2 ^ 0) with 1. change (u8 1) with 1. Z.div_mod_to_equations; lia.
  - intros E. Z.div_mod_to_equations; lia.
Qed.
End heap.
