(* ===== verification/Main.v ===== *)
(** * Main: the kernel's entry (src/kernel/kernel.c, src/boot/boot.asm)

    [kernel_main] from the components it calls, in its order, and what it
    does with the boot loader's word: the checks of [verify_multiboot]. *)

From S2P Require Import Prelude Memory Alloc KString ListDS PortIO Pic Bitmap Pmm KMemory Sched Io Programs VTerm Screen Isr Tables Paging Mmu Process Switch Startup Boot.

(** ** The code *)

Definition MULTIBOOT_MAGIC : Z := 0x2BADB002.
Definition OFF_FLAGS : Z := 0.

(** boot.asm: the header the boot loader looks for, and the first stack. *)
Definition MAGIC_NUMBER : Z := 0x1BADB002.
Definition FLAGS : Z := 0.
Definition CHECKSUM : Z := u32 (- (MAGIC_NUMBER + FLAGS)).
Definition multiboot_header : list Z := [MAGIC_NUMBER; FLAGS; CHECKSUM].
Definition KERNEL_STACK_SIZE : Z := 16384.

Section main.
Context {St : Type} `{LM : Lens St mem} `{LV : Lens St VTerm} `{LIO : Lens St Ports} `{LT : Lens St Tables} `{LI : Lens St IsrTables}.
Context `{LP : Lens St PmmStatics} `{LC : Lens St Cpu} `{LH : Lens St HeapStatics} `{LN : Lens St ProcStatics} `{LS : Lens St Scheduler} `{LR : Lens St Regs}.
Context {AH : Apart LM LH}.
(** Addresses: the descriptor arrays, the stubs, the handlers. *)
Context (gdt_addr idt_addr : Z) (idt_stub_table : Z → Z).
Context (kernel_panic page_fault_handler keyboard_handler sched_timer_handler : Z).
(** The linker's symbols, the local [err]. *)
Context (text_start rodata_start data_start : Z) (err : Z).
(** Where the code of the three programs is. *)
Context (idle_at one_at two_at : Z).

Definition init_cpu_architecture : M St unit :=
  init_gdt gdt_addr ;;
  init_isr kernel_panic ;;
  pic_remap ;;
  init_idt idt_addr idt_stub_table.

Definition verify_multiboot (magic multiboot_ptr : Z) : M St Z :=
  vterm_init COLOR_WHITE COLOR_BLACK ;;
  if negb (magic =? 0x2BADB002) then
    vterm_move_cursor 0 0 ;;
    vterm_set_color COLOR_RED COLOR_BLACK ;;
    kprint_c 77 ;;
    mret 0
  else
    let mb_info := multiboot_ptr in
    flags ← load32 (mb_info + OFF_FLAGS);
    if Z.land flags (Z.shiftl 1 6) =? 0 then
      vterm_move_cursor 0 0 ;;
      vterm_set_color COLOR_RED COLOR_BLACK ;;
      kprint_c 69 ;;
      mret 0
    else mret mb_info.

(** keyboard.c and the end of sched.c. *)
Definition init_keyboard : M St unit := register_irq_handler 33 keyboard_handler.
Definition isr_register_sched_timer : M St unit := register_irq_handler 32 sched_timer_handler.

(** [sti] sets the interrupt flag. *)
Definition sti : M St unit := upd_regs (λ r, set_eflags (Z.lor (eflags r) 0x200) r).

Definition _init_isr : M St unit :=
  init_keyboard ;;
  isr_register_sched_timer ;;
  outb PIC1_DATA 0xFC ;;
  outb PIC2_DATA 0xFF ;;
  sti.

(** [kernel_main] past the check. The idle loop of [hlt] is the end of this
    thread of the kernel: from there on only interrupt handlers run. *)
Definition kernel_run (mb_info : Z) : M St unit :=
  init_memory_management text_start rodata_start data_start page_fault_handler mb_info ;;
  start_processes err (idle_at, zlen idle_process_code) (one_at, zlen process_one_code) (two_at, zlen process_two_code) ;;
  _init_isr ;;
  stop Halted.

Definition kernel_main (magic multiboot_ptr : Z) : M St unit :=
  vterm_set_cursor_visible false ;;
  vterm_set_buffering_mode BUFFER_MODE_BLOCK ;;
  init_cpu_architecture ;;
  mb_info ← verify_multiboot magic multiboot_ptr;
  if mb_info =? NULL then stop Halted else kernel_run mb_info.

(** The entry point in boot.asm, before paging: the boot loader has left the
    magic number in EAX and the block's address in EBX. [call] pushes the
    return address; [kernel_main] takes its arguments from the stack. *)
Definition push_physical (v : Z) : M St unit :=
  upd_regs (λ r, set_esp (esp r ⊟ 4) r) ;;
  r ← gets; store32 (esp r) v.

Definition loader (kernel_stack hang : Z) : M St unit :=
  upd_regs (set_esp (kernel_stack + KERNEL_STACK_SIZE)) ;;
  r ← gets; push_physical (ebx r) ;;
  r ← gets; push_physical (eax r) ;;
  push_physical hang ;;
  r ← gets; magic ← load32 (esp r ⊞ 4);
  multiboot_ptr ← load32 (esp r ⊞ 8);
  kernel_main magic multiboot_ptr.
End main.

(** ** The checks *)

(** What the boot loader's word must be: the magic number and bit 6 of the
    flags; and the letter shown when it is not. *)
Definition accepted (m : mem) (magic ptr : Z) : bool := (magic =? MULTIBOOT_MAGIC) && Z.testbit (ld32 m (ptr + OFF_FLAGS)) 6.
Definition refusal (magic : Z) : Z := if magic =? MULTIBOOT_MAGIC then 69 else 77.

(** A white-on-black screen, blank but for a red letter in the corner. *)
Definition refused_cell (letter r c : Z) : VTermCell :=
  if (r =? 0) && (c =? 0) then mkCell letter COLOR_RED COLOR_BLACK else mkCell 32 COLOR_WHITE COLOR_BLACK.

Section run.
Context {St : Type} `{LM : Lens St mem} `{LV : Lens St VTerm} `{LIO : Lens St Ports}.
Context {AMV : Apart LM LV} {AMI : Apart LM LIO} {AVI : Apart LV LIO}.

(** Any part of the state the terminal does not touch. *)
Context {X : Type} (π : St → X) (x0 : X).
Context (π_mem : ∀ (m : mem) s, π (lput m s) = π s) (π_vt : ∀ (v : VTerm) s, π (lput v s) = π s)
  (π_io : ∀ (p : Ports) s, π (lput p s) = π s).

(** The letter on the screen [vterm_init] left. *)
Lemma refuse_run s v v0 m c : vat π x0 s v m → cleared COLOR_WHITE COLOR_BLACK v0 v → current_mode v0 = BUFFER_MODE_STREAM → mirror m v → 0 ≤ c < 256 → c ≠ 8 → c ≠ 10 →
  ∃ s', (vterm_move_cursor 0 0 ;; vterm_set_color COLOR_RED COLOR_BLACK ;; kprint_c c ;; mret 0 : M St Z) s = Ok 0 s' ∧
    (∀ r k, on_screen r k → cell_at (lget s') r k = refused_cell c r k) ∧ mirror (lget s') (lget s') ∧ off_screen_same m (lget s') ∧ π s' = x0.
Proof.
  intros Hs [Hok Hcells [Hr0 Hc0] Hcol Hmode _] Hm0 Hmir Hc H8 H10. unfold vterm_set_color, kprint_c.
  destruct (move_run π x0 π_vt π_io s v m 0 0 Hs) as (s1 & R1 & H1).
  assert (moved 0 0 v = v) as Hv by (rewrite <- Hr0 at 1; rewrite <- Hc0; by apply moved_self). rewrite Hv in H1.
  destruct (vrun_modify π x0 π_vt s1 v m (set_colors COLOR_RED COLOR_BLACK) H1) as (s2 & R2 & H2).
  assert (vt_ok (set_colors COLOR_RED COLOR_BLACK v)) as Hok2 by (apply set_colors_ok; [done|unfold COLOR_RED; lia|unfold COLOR_BLACK; lia]).
  destruct (write_char_run π x0 π_mem π_vt π_io s2 _ m c H2 Hok2 Hc) as (v3 & m3 & (s3 & R3 & (Ev & Em & Eπ)) & Ht & _ & Hsame & Hsh).
  exists s3. rewrite (bind_ok _ _ _ _ _ R1), (bind_ok _ _ _ _ _ R2), (bind_ok _ _ _ _ _ R3), Ev, Em. split; [done|].
  apply typed_fits in Ht as ->; [|split_and!; [lia|lia|done|done]|done|change (cursor_col v < SCREEN_COLS); by rewrite Hc0].
  split_and!; [| |done|done].
  - intros r k Hon. unfold emitted. change (cell_at (set_cursor _ _ ?x) r k) with (cell_at x r k). rewrite cell_at_put.
    change (cell_at (set_colors COLOR_RED COLOR_BLACK v) r k) with (cell_at v r k). cbn [set_colors cursor_row cursor_col current_fg current_bg]. rewrite Hr0, Hc0.
    unfold refused_cell. rewrite Hcells by done. destruct (Z.eqb_spec r 0), (Z.eqb_spec k 0); case_decide; try done; congruence.
  - destruct (Hsh H8) as [_ Hsh']. change (current_mode (set_colors COLOR_RED COLOR_BLACK v)) with (current_mode v) in Hsh'.
    rewrite Hmode, Hm0 in Hsh'. by apply Hsh'.
Qed.

(** [verify_multiboot] on both branches: the pointer, or NULL and the letter. *)
Lemma verify_multiboot_run s v magic ptr m : vat π x0 s v m → mapped ptr 4 → ptr + 4 ≤ FRAMEBUFFER ∨ FRAMEBUFFER + 4000 ≤ ptr →
  ∃ s', verify_multiboot magic ptr s = Ok (if accepted m magic ptr then ptr else 0) s' ∧ mirror (lget s') (lget s') ∧ off_screen_same m (lget s') ∧ π s' = x0 ∧
    ∀ r c, on_screen r c → cell_at (lget s') r c = if accepted m magic ptr then mkCell 32 COLOR_WHITE COLOR_BLACK else refused_cell (refusal magic) r c.
Proof.
  intros Hs Hp Hoff. unfold verify_multiboot, accepted, refusal, OFF_FLAGS. rewrite Z.add_0_r.
  destruct (init_screen_run π x0 π_mem π_vt π_io COLOR_WHITE COLOR_BLACK s v m) as (v1 & m1 & (s1 & R1 & H1) & Hcl & Hs1 & Hm1);
    [done|unfold COLOR_WHITE; lia|unfold COLOR_BLACK; lia|].
  rewrite (bind_ok _ _ _ _ _ R1). change MULTIBOOT_MAGIC with 0x2BADB002. destruct (Z.eqb_spec magic 0x2BADB002) as [->|Hne]; cbn [negb andb].
  - assert (ld32 (lget s1) ptr = ld32 m ptr) as Eld.
    { rewrite (proj1 (proj2 H1)). unfold ld32. rewrite !Hs1; [done|unfold in_framebuffer; lia..]. }
    rewrite (bind_ok _ _ _ _ _ (load32_run ptr s1 Hp)), Eld. pose proof (land_shiftl1 (ld32 m ptr) 6 ltac:(lia)) as Hbit.
    destruct (Z.land (ld32 m ptr) (Z.shiftl 1 6) =? 0); cbn [negb] in Hbit; rewrite <- Hbit; [|].
    + destruct (refuse_run s1 v1 _ m1 69 H1 Hcl) as (s' & R & Hc & Hmir & Hs' & Hπ); [done|done|lia|done|done|].
      exists s'. split_and!; [done|done|by eapply off_screen_trans|done|done].
    + destruct H1 as (Ev & Em & Hπ). exists s1. rewrite Ev, Em. split_and!; [done|done|done|done|]. intros r c Hon. by apply (cl_cells _ _ _ _ Hcl).
  - destruct (refuse_run s1 v1 _ m1 77 H1 Hcl) as (s' & R & Hc & Hmir & Hs' & Hπ); [done|done|lia|done|done|].
    exists s'. split_and!; [done|done|by eapply off_screen_trans|done|done].
Qed.
End run.

Section claim.
Context {St : Type} `{LM : Lens St mem} `{LV : Lens St VTerm} `{LIO : Lens St Ports} `{LT : Lens St Tables} `{LI : Lens St IsrTables}.
Context `{LP : Lens St PmmStatics} `{LC : Lens St Cpu} `{LH : Lens St HeapStatics} `{LN : Lens St ProcStatics} `{LS : Lens St Scheduler} `{LR : Lens St Regs}.
Context {AH : Apart LM LH}.
Context {AMV : Apart LM LV} {AMI : Apart LM LIO} {AVI : Apart LV LIO} {AMT : Apart LM LT} {AVT : Apart LV LT} {AIT : Apart LIO LT}.
Context {AMR : Apart LM LI} {AVR : Apart LV LI} {AIR : Apart LIO LI} {ATR : Apart LT LI}.
Context {ARG : Apart LM LR} {ATG : Apart LT LR} {AIG : Apart LI LR}.
Context (gdt_addr idt_addr : Z) (idt_stub_table : Z → Z).
Context (kernel_panic page_fault_handler keyboard_handler sched_timer_handler : Z).
Context (text_start rodata_start data_start : Z) (err idle_at one_at two_at : Z).

(** The descriptor tables and the handlers are set up; the terminal's and
    the memory's lenses are not touched. *)
Lemma init_cpu_run (s : St) : length (gdt (lget s)) = 5%nat → length (idt (lget s)) = 256%nat → isr_ok (lget s) →
  (∀ i, 0 ≤ i < 256 → 0 ≤ idt_stub_table i < 4294967296) →
  ∃ (t : Tables) (i : IsrTables) (io : Ports), init_cpu_architecture gdt_addr idt_addr idt_stub_table kernel_panic s = Ok tt (lput t (lput io (lput i s))) ∧ isr_ok i ∧
    (∀ w, direct w → handler_of i w = if w <? 32 then kernel_panic else 0) ∧
    segs t = set_idtr (mkReg 2047 idt_addr) (flat_segs gdt_addr (segs (lget s))) ∧
    ∀ v, 0 ≤ v < 256 → ∃ d, idt t !! Z.to_nat v = Some d ∧ gate_offset d = idt_stub_table v ∧ selector d = 0x08 ∧ gate_present d = true ∧ gate_type d = 0xE.
Proof.
  intros Hg Hi Hok Hstub. unfold init_cpu_architecture.
  pose proof (init_gdt_run gdt_addr s Hg) as R1. set (t1 := mkTables _ _ _ _ _) in R1. rewrite (bind_ok _ _ _ _ _ R1).
  destruct (init_run kernel_panic (lput t1 s)) as (i & R2 & Hok' & Hof); [by rewrite (lget_other' (L:=LT) (K:=LI))|]. rewrite (bind_ok _ _ _ _ _ R2).
  destruct (pic_remap_run (lput i (lput t1 s))) as (es & R3 & _). rewrite (bind_ok _ _ _ _ _ R3). set (io := io_log _ es).
  destruct (init_idt_run idt_addr idt_stub_table (lput io (lput i (lput t1 s)))) as (t2 & R4 & Hsegs & Hgates);
    [by rewrite (lget_other' (L:=LIO) (K:=LT)), (lget_other (L:=LT) (K:=LI)), lget_lput|done|].
  rewrite (lget_other' (L:=LIO) (K:=LT)), (lget_other (L:=LT) (K:=LI)), lget_lput in Hsegs.
  exists t2, i, io. split_and!; [|done|done|exact Hsegs|done]. rewrite R4. f_equal.
  rewrite <- (lput_comm (L:=LT) (K:=LI) t1 i s), (lput_comm (L:=LIO) (K:=LT) io t1), lput_lput. done.
Qed.

(** [vterm_set_cursor_visible false] and the mode: terminal and ports. *)
Lemma hide_cursor_run (s : St) : ∃ (v : VTerm) (io : Ports), ∀ k : M St unit,
  (vterm_set_cursor_visible false ;; vterm_set_buffering_mode BUFFER_MODE_BLOCK ;; k) s = k (lput v (lput io s)).
Proof.
  unfold vterm_set_cursor_visible, vterm_set_buffering_mode, modify. eexists _, _. intros k.
  rewrite !bind_assoc, bind_gets, bind_puts, bind_assoc, bind_outb, bind_assoc, bind_inb. cbn [negb].
  rewrite bind_outb, bind_assoc, bind_gets, bind_puts. f_equal.
  rewrite !lget_lput, !lput_lput, (lput_comm (L:=LV) (K:=LIO)), lput_lput, <- (lput_comm (L:=LV) (K:=LIO)). reflexivity.
Qed.

(** The header's words add up to zero, as the boot loader requires. *)
Lemma multiboot_header_sum : u32 (foldr Z.add 0 multiboot_header) = 0.
Proof. reflexivity. Qed.

Lemma push_physical_run {B} (k : M St B) (s : St) (m : mem) (r : Regs) v a : esp r = a + 4 → 0 ≤ a < 4294967292 → mapped a 4 →
  (push_physical v ;; k) (lput m (lput r s)) = k (lput (st32 m a v) (lput (set_esp a r) s)).
Proof.
  intros He Ha Hm. unfold push_physical, upd_regs. rewrite !bind_assoc, bind_gets, (lget_other' (L:=LM) (K:=LR)), lget_lput, bind_puts.
  rewrite <- (lput_comm (L:=LM) (K:=LR)), lput_lput, bind_assoc, bind_gets, (lget_other' (L:=LM) (K:=LR)), lget_lput.
  rewrite He, u32_small by lia. replace (a + 4 - 4) with a by lia. cbn [esp set_esp].
  erewrite bind_ok by (by apply store32_run). by rewrite lget_lput, lput_lput.
Qed.

(** [loader] enters [kernel_main] with what the boot loader left in the
    registers, on the kernel's stack. *)
Lemma loader_run kernel_stack hang (s : St) : mapped kernel_stack KERNEL_STACK_SIZE →
  0 ≤ eax (lget s) < 4294967296 → 0 ≤ ebx (lget s) < 4294967296 →
  ∃ (m : mem) (r : Regs),
    loader gdt_addr idt_addr idt_stub_table kernel_panic page_fault_handler keyboard_handler sched_timer_handler
      text_start rodata_start data_start err idle_at one_at two_at kernel_stack hang s =
    kernel_main gdt_addr idt_addr idt_stub_table kernel_panic page_fault_handler keyboard_handler sched_timer_handler
      text_start rodata_start data_start err idle_at one_at two_at (eax (lget s)) (ebx (lget s)) (lput m (lput r s)) ∧
    r = set_esp (kernel_stack + KERNEL_STACK_SIZE - 12) (lget s) ∧
    ∀ x, ¬ (kernel_stack + KERNEL_STACK_SIZE - 12 ≤ x < kernel_stack + KERNEL_STACK_SIZE) → get8 m x = get8 (lget s) x.
Proof.
  intros Hm Ha Hb. unfold loader. set (r0 := lget (T:=Regs) s) in *. unfold KERNEL_STACK_SIZE, mapped, IDENT_LO, IDENT_HI in *.
  set (top := kernel_stack + 16384) in *. replace kernel_stack with (top - 16384) in Hm by (unfold top; lia). clearbody top.
  unfold upd_regs at 1. rewrite bind_assoc, bind_gets, bind_puts, bind_gets, lget_lput.
  replace (lput (set_esp top r0) s) with (lput (lget (T:=mem) s) (lput (set_esp top r0) s))
    by (rewrite <- (lget_other (L:=LM) (K:=LR) (set_esp top r0) s) at 1; apply lput_lget).
  assert (∀ k, 0 < k ≤ 3 → mapped (top - 4 * k) 4) as Hmap by (intros; unfold mapped, IDENT_LO, IDENT_HI; lia).
  rewrite (push_physical_run _ s _ _ _ (top - 4)) by (cbn [esp set_esp]; (lia || by apply (Hmap 1))).
  rewrite bind_gets, (lget_other' (L:=LM) (K:=LR)), lget_lput.
  rewrite (push_physical_run _ s _ _ _ (top - 8)) by (cbn [esp set_esp]; (lia || by apply (Hmap 2))).
  rewrite (push_physical_run _ s _ _ _ (top - 12)) by (cbn [esp set_esp]; (lia || by apply (Hmap 3))).
  rewrite bind_gets, (lget_other' (L:=LM) (K:=LR)), lget_lput. cbn [esp set_esp eax ebx]. rewrite !u32_small by lia.
  replace (top - 12 + 4) with (top - 8) by lia. replace (top - 12 + 8) with (top - 4) by lia.
  rewrite (bind_ok _ _ _ _ _ (load32_run _ _ (Hmap 2 ltac:(lia)))), (bind_ok _ _ _ _ _ (load32_run _ _ (Hmap 1 ltac:(lia)))), lget_lput. ldst.
  rewrite !u32_small by done. eexists _, _. split_and!; [reflexivity|reflexivity|]. intros x Hx. rewrite !get8_st32_ne by lia. done.
Qed.

(** [_init_isr] stops at its first registration, vector 33 of 16: no timer
    is registered and [sti] is not reached. *)
Lemma _init_isr_stops (s : St) : isr_ok (lget s) → _init_isr keyboard_handler sched_timer_handler s = Stop (OutOfBounds 33) s.
Proof.
  intros (_ & Hq & _). unfold _init_isr, init_keyboard. apply bind_stop. unfold register_irq_handler, arr_set.
  change ((32 <=? 33) && (33 <? 48)) with true. cbv iota. rewrite bind_gets, Hq. reflexivity.
Qed.

(** [kernel_main] goes on to set up memory, processes and interrupts
    exactly when the boot loader passed the magic number and an information
    block whose flag 6 is set. Otherwise it halts, with a red "M" or "E" in
    the corner of a screen that is blank but for it. Either way the screen
    buffer is displayed, nothing outside the framebuffer was written, every
    interrupt has its gate, and every exception its handler; the processor
    uses both descriptor tables and the kernel's flat segments. *)
Theorem kernel_main_checks (s : St) magic ptr :
  length (gdt (lget s)) = 5%nat → length (idt (lget s)) = 256%nat → isr_ok (lget s) →
  (∀ i, 0 ≤ i < 256 → 0 ≤ idt_stub_table i < 4294967296) → mapped ptr 4 → off_framebuffer ptr 4 →
  ∃ s1 : St,
    kernel_main gdt_addr idt_addr idt_stub_table kernel_panic page_fault_handler keyboard_handler sched_timer_handler
      text_start rodata_start data_start err idle_at one_at two_at magic ptr s =
      (if accepted (lget s) magic ptr
       then kernel_run page_fault_handler keyboard_handler sched_timer_handler text_start rodata_start data_start err idle_at one_at two_at ptr s1
       else Stop Halted s1) ∧
    off_screen_same (lget s) (lget s1) ∧ mirror (lget s1) (lget s1) ∧
    (∀ r c, on_screen r c → cell_at (lget s1) r c =
      if accepted (lget s) magic ptr then mkCell 32 COLOR_WHITE COLOR_BLACK else refused_cell (refusal magic) r c) ∧
    isr_ok (lget s1) ∧ (∀ w, direct w → handler_of (lget s1) w = if w <? 32 then kernel_panic else 0) ∧
    segs (lget s1) = set_idtr (mkReg 2047 idt_addr) (flat_segs gdt_addr (segs (lget s))) ∧
    ∀ w, 0 ≤ w < 256 → ∃ g, idt (lget s1) !! Z.to_nat w = Some g ∧
      gate_offset g = idt_stub_table w ∧ selector g = 0x08 ∧ gate_present g = true ∧ gate_type g = 0xE.
Proof.
  intros Hg Hi Hok Hstub Hp Hoff. unfold kernel_main. destruct (hide_cursor_run s) as (v & io & Hhide). rewrite Hhide.
  set (s0 := lput v (lput io s)).
  assert (lget (T:=Tables) s0 = lget s) as Et by (unfold s0; by rewrite (lget_other' (L:=LV) (K:=LT)), (lget_other' (L:=LIO) (K:=LT))).
  assert (lget (T:=IsrTables) s0 = lget s) as Ei by (unfold s0; by rewrite (lget_other' (L:=LV) (K:=LI)), (lget_other' (L:=LIO) (K:=LI))).
  assert (lget (T:=mem) s0 = lget s) as Em by (unfold s0; by rewrite (lget_other (L:=LM) (K:=LV)), (lget_other (L:=LM) (K:=LIO))).
  destruct (init_cpu_run s0) as (t & i & io' & R & Hok' & Hof & Hsegs & Hgates); [by rewrite Et|by rewrite Et|by rewrite Ei|done|].
  rewrite (bind_ok _ _ _ _ _ R). set (s2 := lput t (lput io' (lput i s0))).
  assert (lget (T:=mem) s2 = lget s) as Em2.
  { unfold s2. by rewrite (lget_other (L:=LM) (K:=LT)), (lget_other (L:=LM) (K:=LIO)), (lget_other (L:=LM) (K:=LI)). }
  assert (lget (T:=IsrTables) s2 = i) as Ei2 by (unfold s2; by rewrite (lget_other' (L:=LT) (K:=LI)), (lget_other' (L:=LIO) (K:=LI)), lget_lput).
  assert (lget (T:=Tables) s2 = t) as Et2 by apply lget_lput.
  destruct (verify_multiboot_run (λ s, (lget (T:=Tables) s, lget (T:=IsrTables) s)) (t, i)) with (s := s2) (v := lget (T:=VTerm) s2) (magic := magic) (ptr := ptr) (m := lget (T:=mem) s)
    as (s1 & R1 & Hmir & Hsame & [= Et1 Ei1] & Hcells).
  - intros m u. by rewrite (lget_other' (L:=LM) (K:=LT)), (lget_other' (L:=LM) (K:=LI)).
  - intros w u. by rewrite (lget_other' (L:=LV) (K:=LT)), (lget_other' (L:=LV) (K:=LI)).
  - intros p u. by rewrite (lget_other' (L:=LIO) (K:=LT)), (lget_other' (L:=LIO) (K:=LI)).
  - split; [done|]. split; [done|]. by rewrite Et2, Ei2.
  - done.
  - done.
  - exists s1. rewrite (bind_ok _ _ _ _ _ R1), Et1, Ei1. rewrite Et in Hsegs. split_and!; [|done..].
    destruct (accepted (lget s) magic ptr); [|done]. destruct (Z.eqb_spec ptr NULL) as [->|]; [unfold mapped, IDENT_LO, NULL in Hp; lia|done].
Qed.

(** C20: booting, from the entry point on: the kernel goes on to set up
    memory, processes and interrupts exactly when the boot loader left the
    magic number in EAX and in EBX an information block whose flag 6 is set.
    Otherwise it halts, with a red "M" or "E" in the corner of a screen that
    is blank but for it. Either way the screen buffer is displayed, nothing
    but the framebuffer and the top of the kernel's stack was written, every
    interrupt has its gate, every exception its handler, and the processor
    uses both descriptor tables and the kernel's flat segments. *)
Theorem boot_checks (s : St) kernel_stack hang : let magic := eax (lget s) in let ptr := ebx (lget s) in let top := kernel_stack + KERNEL_STACK_SIZE in
  length (gdt (lget s)) = 5%nat → length (idt (lget s)) = 256%nat → isr_ok (lget s) →
  (∀ i, 0 ≤ i < 256 → 0 ≤ idt_stub_table i < 4294967296) → mapped kernel_stack KERNEL_STACK_SIZE →
  0 ≤ magic < 4294967296 → mapped ptr 4 → off_framebuffer ptr 4 → ptr + 4 ≤ top - 12 ∨ top ≤ ptr →
  ∃ s1 : St,
    loader gdt_addr idt_addr idt_stub_table kernel_panic page_fault_handler keyboard_handler sched_timer_handler
      text_start rodata_start data_start err idle_at one_at two_at kernel_stack hang s =
      (if accepted (lget s) magic ptr
       then kernel_run page_fault_handler keyboard_handler sched_timer_handler text_start rodata_start data_start err idle_at one_at two_at ptr s1
       else Stop Halted s1) ∧
    (∀ x, ¬ in_framebuffer x → ¬ (top - 12 ≤ x < top) → get8 (lget s1) x = get8 (lget s) x) ∧ mirror (lget s1) (lget s1) ∧
    (∀ r c, on_screen r c → cell_at (lget s1) r c =
      if accepted (lget s) magic ptr then mkCell 32 COLOR_WHITE COLOR_BLACK else refused_cell (refusal magic) r c) ∧
    isr_ok (lget s1) ∧ (∀ w, direct w → handler_of (lget s1) w = if w <? 32 then kernel_panic else 0) ∧
    segs (lget s1) = set_idtr (mkReg 2047 idt_addr) (flat_segs gdt_addr (segs (lget s))) ∧
    ∀ w, 0 ≤ w < 256 → ∃ g, idt (lget s1) !! Z.to_nat w = Some g ∧
      gate_offset g = idt_stub_table w ∧ selector g = 0x08 ∧ gate_present g = true ∧ gate_type g = 0xE.
Proof.
  intros magic ptr top Hg Hi Hok Hstub Hks Hmag Hp Hoff Hap.
  assert (0 ≤ ptr < 4294967296) as Hptr by (unfold mapped, IDENT_LO, IDENT_HI in Hp; lia).
  destruct (loader_run kernel_stack hang s Hks Hmag Hptr) as (m & r & El & _ & Hm). fold magic ptr top in El, Hm. rewrite El.
  set (s0 := lput m (lput r s)).
  assert (lget (T:=Tables) s0 = lget s) as Et by (unfold s0; by rewrite (lget_other' (L:=LM) (K:=LT)), (lget_other (L:=LT) (K:=LR))).
  assert (lget (T:=IsrTables) s0 = lget s) as Ei by (unfold s0; by rewrite (lget_other' (L:=LM) (K:=LI)), (lget_other (L:=LI) (K:=LR))).
  assert (lget (T:=mem) s0 = m) as Em by apply lget_lput.
  assert (accepted m magic ptr = accepted (lget s) magic ptr) as Eacc.
  { unfold accepted, OFF_FLAGS. rewrite Z.add_0_r. rewrite (get8_ext_ld32 (lget s) m); [done|]. intros x Hx. apply Hm. lia. }
  destruct (kernel_main_checks s0 magic ptr) as (s1 & R & Hsame & Hmir & Hcells & Hisr & Hh & Hsegs & Hgates); [by rewrite Et|by rewrite Et|by rewrite Ei|done|done|done|].
  rewrite Em, Eacc in *. rewrite Et in Hsegs. exists s1. split_and!; try done.
  intros x Hx1 Hx2. rewrite Hsame by done. by apply Hm.
Qed.
End claim.
