(* ===== verification/Exhaust.v ===== *)
(** * Exhaust: when physical memory runs out
      (src/kernel/memory/vmm.c, src/kernel/proc/proc.c, arch/i386/proc/proc.c)

    VmmState and ProcessSpec say what the operations do when there is memory
    enough. Here the number of free frames is counted exactly, and the same
    code is followed along the ways it takes when one of its allocations
    fails. *)

From S2P Require Import Prelude Memory Alloc KMemory Bitmap Pmm Pcb Paging Mmu Vmm VmmSpec AddrSpace VmmState Process ProcessSpec.

(** ** Computations that may stop *)

Section attempt.
Context {St : Type} `{LM : Lens St mem} `{LC : Lens St Cpu} {AC : Apart LM LC}.
Context (s0 : St) (c0 d : Z).

(** [op] with its fault as a value, so that the rules of [kw] reach up to
    the point where it stops. *)
Definition attempt {B} (op : M St B) : M St (B + fault) := λ s,
  match op s with Ok b s' => Ok (inl b) s' | Stop e s' => Ok (inr e) s' end.

Lemma kw_attempt_bind {A B} R m (op : M St A) (f : A → M St B) Q :
  kw s0 c0 d R m (op ≫= λ a, attempt (f a)) Q → kw s0 c0 d R m (attempt (op ≫= f)) Q.
Proof.
  intros H t Ht. destruct (H t Ht) as (b & m' & t' & R' & Hr & HQ). exists b, m', t', R'. split; [|done].
  revert Hr. unfold attempt, mbind, M_bind. by destruct (op (kput s0 c0 d m t)).
Qed.

Lemma kw_attempt_assoc {A B C} R m (op : M St A) (f : A → M St B) (k : B → M St C) Q :
  kw s0 c0 d R m (attempt (op ≫= λ a, f a ≫= k)) Q → kw s0 c0 d R m (attempt ((op ≫= f) ≫= k)) Q.
Proof. intros H t Ht. destruct (H t Ht) as (b & m' & t' & R' & Hr & HQ). exists b, m', t', R'. split; [|done]. by rewrite <- Hr; unfold attempt; rewrite bind_assoc. Qed.

(** An access to a page that is not mapped. *)
Lemma kw_attempt_unmapped {B} m va (f : Z → M St B) (Q : B + fault → mem → cached → Prop) :
  0 ≤ va → va mod 4 = 0 → page_frame m d (va / 4096) = None → Q (inr (PageFault va)) m (full d m) →
  kw s0 c0 d (full d m) m (attempt (vload32 va ≫= f)) Q.
Proof.
  intros Hva Hal Hp HQ t Ht. exists (inr (PageFault va)), m, t, (full d m). split; [|done]. unfold attempt.
  erewrite bind_stop; [done|]. unfold vload32. destruct (Z.leb_spec (va mod 4096) 4092); [|Z.div_mod_to_equations; lia].
  apply bind_stop, bind_stop. unfold mmu_page. rewrite bind_gets, kput_cpu. cbn [cr0 cr3 tlb kernel_directory].
  destruct (t !! (va / 4096)) as [f'|] eqn:E; [destruct (Ht _ _ E); congruence|].
  rewrite bind_gets, kput_mem. destruct (translate_page m d va Hva) as [[-> _]|(g & r & u & _ & Hf)]; [done|congruence].
Qed.
End attempt.

(** ** Counting what is free *)

Section left.
Context {St : Type} `{LM : Lens St mem} `{LC : Lens St Cpu} `{LP : Lens St PmmStatics}.
Context {AC : Apart LM LC} {AP : Apart LM LP} {ACP : Apart LC LP}.
Context (s0 : St) (c0 d t1 t2 : Z).

Abbreviation kw0 := (kw s0 c0 d).
Abbreviation bm := (frame_bitmap (lget s0)).
Abbreviation vi := (vmi d t1 t2 bm).
Abbreviation full := (full d).
Abbreviation holds := (holds s0 d).
Abbreviation grows := (grows s0 d t1 t2).
Abbreviation data := (data s0 d).
Abbreviation exhausted := (exhausted s0).

(** Exactly [n] frames are free, all of them below the window's. *)
Definition frames_left (m : mem) (n : nat) : Prop :=
  ∃ l, NoDup l ∧ length l = n ∧ ∀ f, (f ∈ l ↔ 0 ≤ f < total_bits bm ∧ bit m bm f = false) ∧ (f ∈ l → f < 2047).

(** The first 4 MB with a page to give out have a table, with [k] such pages
    at least. *)
Definition spare (m : mem) (kt : gmap Z Z) (k : nat) : Prop :=
  ∃ i ps, is_Some (kt !! i) ∧ full_below d m (i * 1024) ∧ NoDup ps ∧ length ps = k ∧
    ∀ p, p ∈ ps → free_page d m p ∧ p / 1024 = i.

Lemma frames_left_none m : frames_left m 0 → exhausted m.
Proof.
  intros ([|g l] & _ & Hl & H) f Hf; [|done]. destruct (bit m bm f) eqn:E; [done|].
  destruct (H f) as [Hin _]. exfalso. by apply (not_elem_of_nil f), Hin.
Qed.

(** Writes that move neither pages nor bits. *)
Lemma frames_left_same m m' n : (∀ j, 0 ≤ j < total_bits bm → bit m' bm j = bit m bm j) → frames_left m n → frames_left m' n.
Proof. intros Hb (l & Hnd & Hl & H). exists l. split_and!; [done|done|]. intros f. destruct (H f) as [Hin Hlow]. split; [|done]. rewrite Hin. split; intros [Hf Hbit]; (split; [done|]); by rewrite ?Hb in *. Qed.

Lemma spare_same m m' kt k : (∀ q, 2048 ≤ q < 1048576 → page_frame m' d q = page_frame m d q) → spare m kt k → spare m' kt k.
Proof.
  intros Hp (i & ps & Hi & Hb & Hnd & Hl & H). exists i, ps. split_and!; [done| |done|done|].
  - intros q Hq Hf. apply (Hb q Hq), (free_page_same d m m' q); auto.
  - intros p Hin. destruct (H p Hin) as [Hf E]. split; [|done]. apply (free_page_same d m m' p); auto.
Qed.

Lemma spare_less m kt k : spare m kt (S k) → spare m kt k.
Proof.
  intros (i & [|p ps] & Hi & Hb & Hnd & Hl & H); [done|]. exists i, ps. apply NoDup_cons in Hnd as [_ Hnd].
  split_and!; [done|done|done|by injection Hl|]. intros q Hq. apply H. by right.
Qed.

Lemma exhausted_allocated m m' f : exhausted m → ¬ allocated bm m m' f.
Proof. intros Hx (Hf & Hb & _). by rewrite Hx in Hb. Qed.

Lemma exhausted_grows m m' kt kt' n W E : exhausted m → grows n W E m kt m' kt' → exhausted m'.
Proof. intros Hx Hg f Hf. apply (gr_used _ _ _ _ _ _ _ _ _ _ _ Hg); [done|by apply Hx]. Qed.

(** No frame is left: [vmm_get_new_page] returns NULL, and memory is as it was. *)
Lemma kw_no_frame {B} m kt wb ub (k : Z → M St B) Q : vi m kt → exhausted m →
  kw0 (full m) m (k NULL) Q → kw0 (full m) m (vmm_get_new_page d wb ub NULL ≫= k) Q.
Proof.
  intros H Hx Hk. eapply kw_seq with (P := λ b m' R', b = NULL ∧ m' = m ∧ R' = full m').
  2: { intros b m' R' (-> & -> & ->). exact Hk. }
  eapply kw_get_new_page; [exact H| | |].
  - intros f m1 Ha. by destruct (exhausted_allocated _ _ _ Hx Ha).
  - intros p f kt' m' Hn. destruct (np_fresh _ _ _ _ _ _ _ _ _ _ _ _ Hn) as (Hf & Hb & _). rewrite Hx in Hb by lia. done.
  - intros m' [(-> & _)|(p & f & Ha & _)]; [done|by destruct (exhausted_allocated _ _ _ Hx Ha)].
Qed.

(** The lowest page to give out lies in the table that has some. *)
Lemma spare_lowest m kt k p : spare m kt (S k) → free_page d m p → full_below d m p → is_Some (kt !! (p / 1024)).
Proof.
  intros (i & [|q ps] & Hi & Hb & _ & Hl & H) Hp Hlow; [done|]. destruct (H q) as [Hq Eq]; [by left|].
  assert (i * 1024 ≤ p) by (destruct (Z.lt_ge_cases p (i * 1024)); [by exfalso; apply (Hb p)|done]).
  assert (p ≤ q) by (destruct (Z.lt_ge_cases q p); [by exfalso; apply (Hlow q)|done]).
  assert (p / 1024 = i) as -> by (Z.div_mod_to_equations; lia). done.
Qed.

(** One page given out. *)
Lemma new_page_left m m' kt p f w u n k : vi m kt → new_page s0 d t1 t2 m m' kt kt p f w u →
  frames_left m (S n) → spare m kt (S k) → frames_left m' n ∧ spare m' kt k ∧ f < 2047.
Proof.
  intros Hvi Hn (l & Hnd & Hl & Hf) Hsp. destruct (np_lowest _ _ _ _ _ _ _ _ _ _ _ _ Hn) as [Hp Hlow].
  pose proof (spare_lowest _ _ _ _ Hsp Hp Hlow) as Hi. destruct Hsp as (i & ps & _ & Hb & Hnd' & Hl' & H).
  destruct (np_fresh _ _ _ _ _ _ _ _ _ _ _ _ Hn) as (Hfr & Hfb & _). destruct (np_taken _ _ _ _ _ _ _ _ _ _ _ _ Hn) as (g & Hg & Ht).
  specialize (Hg eq_refl) as ->. destruct (Hf f) as [Hin Hf2]. assert (f ∈ l) as Hfl by (apply Hin; lia || (split; [lia|done])).
  split_and!; [| |auto].
  - destruct (proj1 (elem_of_Permutation l f) Hfl) as [l' El]. rewrite El in Hnd, Hl. apply NoDup_cons in Hnd as [Hfl' Hnd].
    exists l'. split_and!; [done|by injection Hl|]. intros j. destruct (Hf j) as [Hj Hj2]. rewrite El, elem_of_cons in Hj, Hj2.
    split; [|auto]. destruct (decide (j = f)) as [->|Hne].
    + rewrite (np_used _ _ _ _ _ _ _ _ _ _ _ _ Hn). split; [done|by intros []].
    + split; [intros Hjl|intros [Hjr Hjb]; rewrite (Ht j Hjr Hne Hne) in Hjb; by destruct (proj2 Hj (conj Hjr Hjb))].
      destruct (proj1 Hj (or_intror Hjl)) as [Hjr Hjb]. by rewrite (Ht j Hjr Hne Hne).
  - assert (∀ q, q ≠ p → free_page d m' q ↔ free_page d m q) as Hsame.
    { intros q Hq. symmetry. apply free_page_same. intros Hqr. apply (np_others _ _ _ _ _ _ _ _ _ _ _ _ Hn); lia. }
    destruct (drop_one ps p k Hnd' Hl') as (ps' & Hnd2 & Hl2 & Hps'). exists i, ps'.
    assert (i * 1024 ≤ p) by (destruct (Z.lt_ge_cases p (i * 1024)); [by exfalso; apply (Hb p)|done]).
    destruct ps as [|q0 ps]; [done|]. destruct (H q0) as [Hq0 E0]; [by left|].
    assert (p ≤ q0) by (destruct (Z.lt_ge_cases q0 p); [by exfalso; apply (Hlow q0)|done]).
    assert (p / 1024 = i) as Ei by (Z.div_mod_to_equations; lia). rewrite Ei in Hi.
    split_and!; [done| |done|done|].
    + intros q Hq Hfree. apply (Hb q Hq), Hsame; [lia|done].
    + intros q Hq. destruct (Hps' q Hq) as [Hqp Hne]. destruct (H q Hqp). split; [by apply Hsame|done].
Qed.

Lemma kw_page_left {B} m kt wb ub n k (f : Z → M St B) Q :
  vi m kt → frames_left m (S n) → spare m kt (S k) →
  (∀ p F m', new_page s0 d t1 t2 m m' kt kt p F (Z.b2z wb) (Z.b2z ub) → frames_left m' n → spare m' kt k → F < 2047 →
     kw0 (full m') m' (f (p * 4096)) Q) →
  kw0 (full m) m (vmm_get_new_page d wb ub NULL ≫= f) Q.
Proof.
  intros H Hf Hsp Hk.
  eapply kw_seq with (P := λ b m' R', ∃ p F, b = p * 4096 ∧ new_page s0 d t1 t2 m m' kt kt p F (Z.b2z wb) (Z.b2z ub) ∧ R' = full m').
  2: { intros b m' R' (p & F & -> & Hn & ->). destruct (new_page_left _ _ _ _ _ _ _ _ _ H Hn Hf Hsp) as (? & ? & ?). by eapply Hk. }
  assert (∀ g, 0 ≤ g < total_bits bm → bit m bm g = false → g < 2047) as Hlow.
  { destruct Hf as (l & _ & _ & Hf). intros g Hg Hgb. by apply Hf, Hf. }
  eapply kw_get_new_page; [exact H| | |].
  - intros g m1 (_ & _ & _ & Hb & _) g' m2 (Hg' & Hgb' & _). rewrite Hb in Hgb' by lia. destruct (Z.eqb_spec g g'); [done|auto].
  - intros p F kt' m' Hn. exists p, F. destruct (np_lowest _ _ _ _ _ _ _ _ _ _ _ _ Hn) as [Hp Hpl].
    destruct (spare_lowest _ _ _ _ Hsp Hp Hpl) as [T HT].
    destruct (np_tables _ _ _ _ _ _ _ _ _ _ _ _ Hn) as [->|(E & _)]; [done|congruence].
  - intros m' Hn. exfalso. destruct Hn as [(_ & [Hn|Hn])|(p & F & _ & [Hp Hpl] & E & _)].
    + destruct Hsp as (i & [|q ps] & _ & _ & _ & Hl & Hps); [done|]. apply (Hn q). by apply Hps; left.
    + destruct Hf as ([|g l] & _ & Hl & Hf); [done|]. destruct (proj1 (proj1 (Hf g))) as [Hg Hgb]; [by left|]. by rewrite Hn in Hgb.
    + destruct (spare_lowest _ _ _ _ Hsp Hp Hpl). congruence.
Qed.

(** ** The address space *)

(** Directory entry 768 is empty and there is no frame for its table:
    [vmm_map_frame] returns false, and memory is as it was. *)
Lemma kw_map_nothing {B} m kt v D j f w0 w1 u ub (k : bool → M St B) Q :
  vi m kt → holds m kt v D → pspace w0 w1 u m D None ∅ → exhausted m → 0 ≤ j < 1024 → kw0 (full m) m (k false) Q →
  kw0 (full m) m (vmm_map_frame (v * 4096) ((768 * 1024 + j) * 4096) f true ub ≫= k) Q.
Proof.
  intros H Hh Hps Hx Hj Hk. unfold vmm_map_frame. rewrite shiftr_22, page_of_768 by lia. apply kw_assoc.
  unfold table_for. apply kw_assoc. eapply kw_load_via; [exact Hh|lia|]. destruct (ps_768 _ _ _ _ _ _ _ Hps) as [-> _].
  cbn [negb]. apply kw_assoc, kw_cpu. intros t. cbn [kernel_directory]. apply kw_assoc.
  eapply kw_no_frame; [exact H|exact Hx|]. change (NULL =? 0) with true. by apply kw_ret_bind, kw_ret_bind.
Qed.

(** The copy loop of [vmm_create_virtual_address_space]. *)
Abbreviation copy_loop space ep size num ub :=
  (ploop (λ p,
    if p <? num then
      ok ← copy_code_page space ep size num ub p;
      if ok : bool then mret (inl (p + 1)) else mret (inr NULL)
    else mret (inr space)) PMM_FUEL 0).

(** It ends at its first page. *)
Lemma kw_copy_loop_one R m space ep size num ub Q : 0 < num →
  kw0 R m (copy_code_page space ep size num ub 0) (λ ok m' R', if ok then num = 1 ∧ Q space m' R' else Q NULL m' R') →
  kw0 R m (copy_loop space ep size num ub) Q.
Proof.
  intros Hnum Hc. eapply kw_ploop with (I := λ p m' R', p = 0 ∧ m' = m ∧ R' = R ∨ p = 1 ∧ num = 1 ∧ Q space m' R') (μ := λ p, Z.to_nat (1 - p)).
  - intros p m' R' [(-> & -> & ->)|(-> & -> & HQ)]; [|by apply kw_ret]. destruct (Z.ltb_spec 0 num); [|lia].
    apply kw_bind. eapply kw_mono; [exact Hc|]. intros [] m2 R2 HQ; apply kw_ret; [|done]. split; [by right|cbn; lia].
  - by left.
  - unfold PMM_FUEL. lia.
Qed.

(** After the directory and one page: the directory [D], behind page [v],
    maps [pg] through the table [o]; no frame is left. *)
Record spent (m : mem) (kt : gmap Z Z) (v D w0 w1 : Z) (ub : bool) (o : option Z) (pg : gmap Z Z) (m' : mem) : Prop := {
  sp_grows : ∃ n W E, grows n W E m kt m' kt ∧ ∀ G, G ∈ W → was_free s0 m G ∨ G = D;
  sp_left : exhausted m';
  sp_dir : holds m' kt v D;
  sp_space : pspace w0 w1 (Z.b2z ub) m' D o pg;
  sp_table : ∀ F, o = Some F → data m' kt F ∧ F < 2047 ∧ F ≠ D ∧ was_free s0 m F
}.

Lemma was_free_before m m' kt kt' n W E F : grows n W E m kt m' kt' → was_free s0 m' F → was_free s0 m F.
Proof.
  intros Hg [Hr Hb]. split; [done|]. destruct (bit m bm F) eqn:Eb; [|done].
  by rewrite (gr_used _ _ _ _ _ _ _ _ _ _ _ Hg F Hr Eb) in Hb.
Qed.

(** Steps that take no page leave the counts. *)
Lemma left_still m kt m' n k W : grows 0 W [] m kt m' kt → frames_left m n → spare m kt k → frames_left m' n ∧ spare m' kt k.
Proof.
  intros G Hf Hs. destruct (gr_still _ _ _ _ _ _ _ _ _ _ _ G eq_refl) as [B P]. split; [by eapply frames_left_same|].
  eapply spare_same; [|exact Hs]. intros q Hq. apply P; [done|by apply not_elem_of_nil].
Qed.

(** The page [q] of the kernel is dropped when its frame is mapped, or not. *)
Lemma kw_drop_copy m kt v D w0 w1 ub o pg q m1 : spent m kt v D w0 w1 ub o pg m1 → 2048 ≤ q < 1048576 → v ≠ q →
  kw0 (full m1) m1 (c ← gets; vmm_free_page (kernel_directory c) (q * 4096) ;; mret true)
    (λ ok m' R', ok = true ∧ R' = full m' ∧ spent m kt v D w0 w1 ub o pg m').
Proof.
  intros [(n & W & E & G & HW) Hx Hd Hps Ht] Hq Hvq. apply kw_cpu. intros t. cbn [kernel_directory].
  eapply kw_free_page; [apply G|exact Hq|]. intros m2 Hfr. apply kw_ret. split_and!; [done|done|].
  pose proof (grows_freed s0 d t1 t2 m1 m2 kt q (gr_vi _ _ _ _ _ _ _ _ _ _ _ G) (proj1 Hq) Hfr) as G2.
  pose proof (grows_trans _ _ _ _ _ _ _ _ _ _ _ _ _ _ _ _ G G2) as G12. constructor.
  - eexists _, _, _. split; [exact G12|]. intros F. rewrite app_nil_r. apply HW.
  - by eapply exhausted_grows.
  - eapply grows_holds; [exact G2| |exact Hd]. by intros ?%list_elem_of_singleton.
  - eapply pspace_grows; [exact G2|apply Hd|apply not_elem_of_nil| |exact Hps].
    intros F HF. split; [by apply Ht|apply not_elem_of_nil].
  - intros F HF. destruct (Ht F HF) as (? & ? & ? & ?). split_and!; [by apply (gr_data _ _ _ _ _ _ _ _ _ _ _ G2)|done..].
Qed.

(** Mapping the page of the program with no frame left for its table, or one. *)
Lemma kw_place_one {B} n m0 W0 m kt v D w0 w1 ub f (k : bool → M St B) Q :
  grows 1 W0 [] m0 kt m kt → (∀ G, G ∈ W0 → was_free s0 m0 G) → holds m kt v D → (∀ u, pspace w0 w1 u m D None ∅) →
  frames_left m n → spare m kt n → (n ≤ 1)%nat → 1 ≤ f < 1048576 →
  (∀ b o pg m', spent m0 kt v D w0 w1 ub o pg m' → (n = 0%nat → o = None) → kw0 (full m') m' (k b) Q) →
  kw0 (full m) m (vmm_map_frame (v * 4096) ((768 * 1024 + 0) * 4096) (f * 4096) true ub ≫= k) Q.
Proof.
  intros G0 HW0 Hd Hps Hf Hsp Hn Hfr Hk. pose proof (gr_vi _ _ _ _ _ _ _ _ _ _ _ G0) as H. destruct n as [|[|n]]; [| |lia].
  - pose proof (frames_left_none m Hf) as Hx. eapply kw_map_nothing; [exact H|exact Hd|exact (Hps 0)|exact Hx|lia|].
    apply (Hk false None ∅); [|done]. constructor; [|done|done|apply Hps|done]. exists 1%nat, W0, []. auto.
  - eapply (kw_map_into_new s0 c0 d t1 t2 w0 w1 (Z.b2z ub) m kt v D 0 f ub (λ F kt' m', kt' = kt ∧ frames_left m' 0 ∧ F < 2047));
      [|by intros ??? (_ & _ & ?)|exact H|exact Hd|apply Hps|lia|lia|done|].
    + intros k' Hk'. eapply kw_page_left; [exact H|exact Hf|exact Hsp|]. intros p F m' Hnp Hf' _ HF. by apply (Hk' p F kt m').
    + intros m1 m2 kt' F (-> & Hf1 & _) Hused G Hps2 HdF HF Hfree. pose proof (was_free_data _ _ _ _ _ _ Hfree (proj2 (proj2 Hd))) as HDF.
      apply (Hk true (Some F) (<[0 := f]> ∅)); [|done]. constructor.
      * eexists _, _, _. split; [exact (grows_trans _ _ _ _ _ _ _ _ _ _ _ _ _ _ _ _ G0 G)|]. pose proof (was_free_before _ _ _ _ _ _ _ _ G0 Hfree).
        intros G'. rewrite elem_of_app, !elem_of_cons, elem_of_nil. intros [?|[->|[->|[->|[]]]]]; auto.
      * intros j Hj. apply Hused; [done|]. by apply (frames_left_none m1 Hf1).
      * eapply grows_holds; [exact G|apply not_elem_of_nil|exact Hd].
      * exact Hps2.
      * intros F' [= <-]. split_and!; [done|done|done|by eapply was_free_before].
Qed.

(** The page of a program of one page, with one frame left or two: the frame
    for its table is missing, or was the last. *)
Lemma kw_copy_one n m kt v D w0 w1 ep size ub :
  vi m kt → holds m kt v D → (∀ u, pspace w0 w1 u m D None ∅) → frames_left m (S n) → spare m kt (S n) → (n ≤ 1)%nat →
  0 < size ≤ 4096 → 0 ≤ ep → ep + size ≤ 8384512 → (∀ a, ep ≤ a < ep + size → source_ok s0 d m kt a) →
  kw0 (full m) m (copy_code_page (v * 4096) ep size 1 ub 0)
    (λ ok m' R', ok = true ∧ R' = full m' ∧ ∃ o pg, spent m kt v D w0 w1 ub o pg m' ∧ (n = 0%nat → o = None)).
Proof.
  intros H Hd Hps Hf Hsp Hn Hsize Hep Hmax Hsrc. unfold copy_code_page. apply kw_cpu. intros t. cbn [kernel_directory].
  eapply kw_page_left; [exact H|exact Hf|exact Hsp|]. intros q f m1 Hnp Hf1 Hsp1 _.
  pose proof (new_page_free _ _ _ _ _ _ _ _ _ _ _ _ Hnp) as Hfree. pose proof (new_page_holds _ _ _ _ _ _ _ _ _ _ _ _ H Hnp) as Hq.
  pose proof (grows_new_page _ _ _ _ _ _ _ _ _ _ _ _ H Hnp) as G1. destruct (holds_new_page _ _ _ _ _ _ _ _ _ _ _ _ v D H Hnp Hd) as [_ Hvq].
  destruct (Z.eqb_spec (q * 4096) 0) as [E0|_]; [destruct Hq; lia|].
  eapply kw_copy_chunk; [apply G1|exact Hq|lia|Z.div_mod_to_equations; lia|lia|done|done| |].
  { intros a Ha. split; [|by eapply was_free_source; [|apply Hsrc]].
    apply (gr_source _ _ _ _ _ _ _ _ _ _ _ G1 a (Hsrc a Ha)). apply not_elem_of_nil. }
  intros m2 G2 _. apply kw_cpu. intros t'. cbn [kernel_directory].
  eapply kw_physical_of; [apply G2|eapply grows_holds; [exact G2|apply not_elem_of_nil|exact Hq]|]. intros m3 G3.
  pose proof (grows_trans _ _ _ _ _ _ _ _ _ _ _ _ _ _ _ _ G2 G3) as G23. cbn [app Nat.add] in G23.
  pose proof (grows_trans _ _ _ _ _ _ _ _ _ _ _ _ _ _ _ _ G1 G23) as G13. cbn [app Nat.add] in G13.
  destruct (left_still _ _ _ _ _ _ G23 Hf1 Hsp1) as [Hf3 Hsp3].
  assert (∀ G, G ∈ [f; f] → was_free s0 m G) as HW by (intros G; rewrite !elem_of_cons, elem_of_nil; intros [->|[->|[]]]; done).
  change (0xC0000000 ⊞ (0 ⊠ PAGE_SIZE)) with ((768 * 1024 + 0) * 4096).
  eapply kw_place_one; [exact G13|exact HW| | |exact Hf3|exact Hsp3|exact Hn|apply Hq|].
  - eapply grows_holds; [exact G13|apply not_elem_of_nil|exact Hd].
  - intros u. eapply pspace_grows; [exact G13|apply Hd| |done|apply Hps]. intros Hin%HW.
    by apply (was_free_data _ _ _ _ _ _ Hin (proj2 (proj2 Hd))).
  - intros b o pg m4 Hs4 Ho. eapply kw_mono; [by eapply kw_drop_copy; [exact Hs4|apply Hq|]|].
    intros r m' R' (-> & -> & Hs'). split_and!; [done|done|]. eauto.
Qed.

Lemma spent_before m1 m kt v D w0 w1 ub o pg n W E m' : grows n W E m1 kt m kt → (∀ G, G ∈ W → was_free s0 m1 G ∨ G = D) →
  spent m kt v D w0 w1 ub o pg m' → spent m1 kt v D w0 w1 ub o pg m'.
Proof.
  intros G HW [(n2 & W2 & E2 & G2 & HW2) Hx Hd Hps Ht]. constructor; [|done..|].
  - eexists _, _, _. split; [exact (grows_trans _ _ _ _ _ _ _ _ _ _ _ _ _ _ _ _ G G2)|]. intros F [?|HF]%elem_of_app; [auto|].
    destruct (HW2 F HF) as [?|]; [left|by right]. by eapply was_free_before.
  - intros F HF. destruct (Ht F HF) as (? & ? & ? & ?). split_and!; [done..|by eapply was_free_before].
Qed.

(** The directory of the new space, when there is a frame for it. *)
Lemma kw_create_directory n k m kt ep size ub Q :
  vi m kt → frames_left m (S n) → spare m kt (S k) → 0 < size → size + 4095 < 4294967296 →
  (∀ v D w0 w1 m', grows 1 [D] [] m kt m' kt → was_free s0 m D → holds m' kt v D → kernel_entry w0 t1 → kernel_entry w1 t2 →
     (∀ u, pspace w0 w1 u m' D None ∅) → frames_left m' n → spare m' kt k →
     kw0 (full m') m' (copy_loop (v * 4096) ep size (num_pages size) ub) Q) →
  kw0 (full m) m (vmm_create_virtual_address_space ep size ub) Q.
Proof.
  intros H Hf Hsp Hsize Hmax Hk. unfold vmm_create_virtual_address_space. apply kw_cpu. intros t. cbn [kernel_directory].
  eapply kw_page_left; [exact H|exact Hf|exact Hsp|]. intros v D m1 Hnp Hf1 Hsp1 _.
  pose proof (new_page_free _ _ _ _ _ _ _ _ _ _ _ _ Hnp) as Hfree. pose proof (new_page_holds _ _ _ _ _ _ _ _ _ _ _ _ H Hnp) as Hv.
  pose proof (grows_new_page _ _ _ _ _ _ _ _ _ _ _ _ H Hnp) as G1.
  destruct (Z.eqb_spec (v * 4096) 0) as [E0|_]; [destruct Hv; lia|].
  eapply kw_fill_directory; [apply G1|exact Hv|]. intros m2 w0 w1 S2 K0 K1 Hps.
  pose proof (grows_write s0 d t1 t2 m1 m2 kt D (D * 4096) 4096 (gr_vi _ _ _ _ _ _ _ _ _ _ _ G1) (proj2 (proj2 Hv)) ltac:(lia) ltac:(lia) S2) as G2.
  destruct (left_still _ _ _ _ _ _ G2 Hf1 Hsp1) as [Hf2 Hsp2].
  assert (u32 (size + PAGE_SIZE - 1) / PAGE_SIZE = num_pages size) as ->.
  { unfold PAGE_SIZE, num_pages. rewrite u32_small by lia. f_equal. lia. }
  eapply Hk; [exact (grows_trans _ _ _ _ _ _ _ _ _ _ _ _ _ _ _ _ G1 G2)|done| |exact K0|exact K1|exact Hps|done|done].
  eapply grows_holds; [exact G2|apply not_elem_of_nil|exact Hv].
Qed.

(** With no frame left, or just one, there is none for the program: NULL. *)
Lemma kw_create_null n m kt ep size ub :
  vi m kt → frames_left m n → (n ≤ 1)%nat → (n = 0%nat ∨ spare m kt n) → 0 < size → size + 4095 < 4294967296 →
  kw0 (full m) m (vmm_create_virtual_address_space ep size ub) (λ r m' R', R' = full m' ∧ r = NULL ∧
    ∃ W, grows n W [] m kt m' kt ∧ (∀ G, G ∈ W → was_free s0 m G) ∧ exhausted m').
Proof.
  intros H Hf Hn Hsp Hsize Hmax. destruct n as [|[|n]]; [| |lia].
  - pose proof (frames_left_none m Hf) as Hx. unfold vmm_create_virtual_address_space. apply kw_cpu. intros t. cbn [kernel_directory].
    eapply kw_no_frame; [exact H|exact Hx|]. change (NULL =? 0) with true. apply kw_ret. split_and!; [done|done|]. exists [].
    split_and!; [by apply (grows_none s0 d t1 t2)|by intros ? ?%not_elem_of_nil|done].
  - destruct Hsp as [|Hsp]; [done|]. eapply kw_create_directory; [exact H|exact Hf|exact Hsp|done|done|].
    intros v D w0 w1 m1 G1 HD Hv _ _ _ Hf1 _. pose proof (frames_left_none m1 Hf1) as Hx. pose proof (gr_vi _ _ _ _ _ _ _ _ _ _ _ G1) as H1.
    apply kw_copy_loop_one; [unfold num_pages; Z.div_mod_to_equations; lia|]. unfold copy_code_page. apply kw_cpu. intros t. cbn [kernel_directory].
    eapply kw_no_frame; [exact H1|exact Hx|]. change (NULL =? 0) with true. apply kw_ret. split_and!; [done|done|]. exists [D].
    split_and!; [done| |done]. by intros G ->%list_elem_of_singleton.
Qed.

(** With two or three, a program of one page gets a directory. *)
Lemma kw_create_short n m kt ep size ub :
  vi m kt → frames_left m (S (S n)) → spare m kt (S (S n)) → (n ≤ 1)%nat →
  0 < size ≤ 4096 → 0 ≤ ep → ep + size ≤ 8384512 → (∀ a, ep ≤ a < ep + size → source_ok s0 d m kt a) →
  kw0 (full m) m (vmm_create_virtual_address_space ep size ub) (λ r m' R', R' = full m' ∧
    ∃ v D w0 w1 o pg, r = v * 4096 ∧ kernel_entry w0 t1 ∧ kernel_entry w1 t2 ∧ was_free s0 m D ∧
      spent m kt v D w0 w1 ub o pg m' ∧ (n = 0%nat → o = None)).
Proof.
  intros H Hf Hsp Hn Hsize Hep Hmax Hsrc. eapply kw_create_directory; [exact H|exact Hf|exact Hsp|lia|lia|].
  intros v D w0 w1 m1 G1 HD Hv K0 K1 Hps Hf1 Hsp1. assert (num_pages size = 1) as -> by (unfold num_pages; Z.div_mod_to_equations; lia).
  apply kw_copy_loop_one; [lia|]. eapply kw_mono; [eapply (kw_copy_one n); [apply G1|exact Hv|exact Hps|exact Hf1|exact Hsp1|done..|]|].
  - intros a Ha. apply (gr_source _ _ _ _ _ _ _ _ _ _ _ G1 a (Hsrc a Ha)). intros Ea%list_elem_of_singleton.
    by apply (was_free_source _ _ _ _ _ _ HD (Hsrc a Ha)).
  - intros ok m' R' (-> & -> & o & pg & Hs & Ho). split_and!; [done|done|]. exists v, D, w0, w1, o, pg. split_and!; try done.
    eapply spent_before; [exact G1| |exact Hs]. intros G ->%list_elem_of_singleton. by right.
Qed.
End left.

(** ** The process *)

Section process.
Context {St : Type} `{LM : Lens St mem} `{LC : Lens St Cpu} `{LP : Lens St PmmStatics} `{LH : Lens St HeapStatics}.
Context {AC : Apart LM LC} {AP : Apart LM LP} {ACP : Apart LC LP} {AH : Apart LM LH} {ACH : Apart LC LH}.
Context (s0 : St) (c0 d t1 t2 : Z).

Abbreviation kw0 := (kw s0 c0 d).
Abbreviation bm := (frame_bitmap (lget s0)).
Abbreviation vi := (vmi d t1 t2 bm).
Abbreviation full := (full d).
Abbreviation grows := (grows s0 d t1 t2).
Abbreviation trans := (grows_trans s0 d t1 t2 _ _ _ _ _ _ _ _ _ _ _ _).

(** [vmm_get_physical_address] of NULL reads the entry of page 0. *)
Lemma kw_physical_null {B} m kt (k : Z → M St B) Q : vi m kt →
  (∀ m' r, grows 0 [] [] m kt m' kt → 0 ≤ r < 4294967296 → kw0 (full m') m' (k r) Q) →
  kw0 (full m) m (vmm_get_physical_address d NULL ≫= k) Q.
Proof.
  intros H Hk. change NULL with (0 * 4096). eapply (kw_get_physical s0 c0 d t1 t2 m kt 0 t1); [exact H|lia|done|apply (vi_ks _ _ _ _ _ _ H)|].
  intros m' Hw. apply Hk; [by eapply grows_window|]. pose proof (frame_addr_range (pte m t1 (0 mod 1024))). lia.
Qed.

(** No frame for the stack's page. *)
Lemma kw_stack_null {B} m kt ep out (k : Z * option Z → M St B) Q : vi m kt → exhausted s0 m →
  kw0 (full m) m (k (NULL, out)) Q → kw0 (full m) m (create_process_stack ep out ≫= k) Q.
Proof.
  intros H Hx Hk. unfold create_process_stack. apply kw_assoc, kw_cpu. intros t. cbn [kernel_directory]. apply kw_assoc.
  eapply kw_no_frame; [exact H|exact Hx|]. change (NULL =? 0) with true. by apply kw_ret_bind.
Qed.

(** Releasing a block of the heap: only headers change. *)
Lemma kw_kfree {B} m kt bs b (k : unit → M St B) Q :
  vi m kt → blocks_ok IDENT_LO bs → chain m (heap_start (lget s0)) bs → b ∈ live bs → (∀ x, in_headers bs x → source_ok s0 d m kt x) →
  (∀ m', vi m' kt → chain m' (heap_start (lget s0)) (free_spec (b_addr b + HDR) bs) → (∀ x, ¬ in_headers bs x → get8 m' x = get8 m x) →
     (∀ x, source_ok s0 d m kt x → source_ok s0 d m' kt x) → (∀ j, 0 ≤ j < total_bits bm → bit m' bm j = bit m bm j) →
     kw0 (full m') m' (k tt) Q) →
  kw0 (full m) m (kfree (b_addr b + HDR) ≫= k) Q.
Proof.
  intros H Hok Hch Hb Hsrc Hk. apply kw_bind. intros t Ht.
  assert (lget (T:=HeapStatics) (kput s0 c0 d m t) = lget s0) as Eh by (unfold kput; by rewrite (lget_other' (L:=LM) (K:=LH)), (lget_other' (L:=LC) (K:=LH))).
  destruct (kfree_refines_spec (kput s0 c0 d m t) bs b) as (m' & Hr & [_ Hch'] & Hfr); [split; [done|by rewrite kput_mem, Eh]|done|].
  rewrite kput_put_mem in *. rewrite kput_mem in Hfr.
  assert (lget (T:=HeapStatics) (kput s0 c0 d m' t) = lget s0) as Eh' by (unfold kput; by rewrite (lget_other' (L:=LM) (K:=LH)), (lget_other' (L:=LC) (K:=LH))).
  rewrite kput_mem, Eh' in Hch'.
  destruct (kernel_write_any s0 d t1 t2 m m' kt (in_headers bs) H Hsrc Hfr) as (H' & Hpg & Hbits & Hs').
  exists tt, m', t, (full m'). split_and!; [exact Hr| |by apply Hk].
  intros q f Hq. destruct (Ht q f Hq) as [Hqr Hf]. split; [done|]. by rewrite Hpg.
Qed.

(** What [spent] says of the memory alone. *)
Record standing (kt : gmap Z Z) (v D w0 w1 : Z) (ub : bool) (o : option Z) (pg : gmap Z Z) (m : mem) : Prop := {
  st_vi : vi m kt;
  st_left : exhausted s0 m;
  st_dir : holds s0 d m kt v D;
  st_space : pspace w0 w1 (Z.b2z ub) m D o pg;
  st_table : ∀ F, o = Some F → data s0 d m kt F ∧ F < 2047 ∧ F ≠ D
}.

Lemma standing_still kt v D w0 w1 ub o pg m m' W : standing kt v D w0 w1 ub o pg m → grows 0 W [] m kt m' kt →
  D ∉ W → (∀ F, o = Some F → F ∉ W) → standing kt v D w0 w1 ub o pg m'.
Proof.
  intros [Hv Hx Hd Hps Ht] G HD HF. constructor.
  - apply G.
  - by eapply exhausted_grows.
  - eapply grows_holds; [exact G|apply not_elem_of_nil|exact Hd].
  - eapply pspace_grows; [exact G|apply Hd|exact HD| |exact Hps]. intros F E. split; [by apply Ht|by apply HF].
  - intros F E. destruct (Ht F E) as (? & ? & ?). split_and!; [by apply (gr_data _ _ _ _ _ _ _ _ _ _ _ G)|done|done].
Qed.

(** Mapping a page there: in the table, if there is one. *)
Lemma kw_map_standing {B} kt v D w0 w1 ub o pg m j f (k : bool → M St B) Q :
  standing kt v D w0 w1 ub o pg m → 0 ≤ j < 1024 → 0 ≤ f < 1048576 →
  (∀ b m' W, grows 0 W [] m kt m' kt → (∀ G, G ∈ W → o = Some G) → kw0 (full m') m' (k b) Q) →
  kw0 (full m) m (vmm_map_frame (v * 4096) ((768 * 1024 + j) * 4096) (f * 4096) true ub ≫= k) Q.
Proof.
  intros [Hv Hx Hd Hps Ht] Hj Hf Hk. destruct o as [F|].
  - destruct (Ht F eq_refl) as (HdF & HF & HFD). eapply kw_map_present; [exact Hv|exact Hd|exact HdF|exact HF|exact HFD|exact Hps|lia|lia|done|].
    intros m' G _. apply (Hk true m' [F] G). by intros ? ->%list_elem_of_singleton.
  - destruct (ps_768 _ _ _ _ _ _ _ Hps) as [_ ->]. eapply kw_map_nothing; [exact Hv|exact Hd|exact Hps|exact Hx|lia|].
    apply (Hk false m []); [by apply (grows_none s0 d t1 t2)|by intros ? ?%not_elem_of_nil].
Qed.

Section load.
Context (m1 : mem) (kt : gmap Z Z) (p : Z) (c : ProcessControlBlock) (ep size : Z) (ub : bool).
Context (Hp : ∀ x, p ≤ x < p + SIZEOF_PCB → source_ok s0 d m1 kt x).
Context (H1 : vi m1 kt) (Hc : pcb_rep m1 p c).

Abbreviation loading := (loading s0 d t1 t2 m1 kt p).

Lemma loading_start : loading m1 kt c.
Proof using Hp H1 Hc. by constructor. Qed.

(** Frames that were free when loading began are nobody else's. *)
Lemma loading_free m c' n W E m' : loading m kt c' → grows n W E m kt m' kt → (∀ G, G ∈ W → was_free s0 m1 G) → loading m' kt c'.
Proof using Hp.
  intros HL HG HW. eapply loading_grows; [exact Hp|exact HL|exact HG|]. intros G x HGW Hx _.
  by apply (was_free_source s0 d m1 kt G x); [apply HW|].
Qed.

(** With less than two frames, the address space is NULL, and mapping the
    stack there stops at the entry of a directory at address 0. *)
Lemma kw_load_faults n : page_frame m1 d 0 = None → frames_left s0 m1 n → (n ≤ 1)%nat → (n = 0%nat ∨ spare d m1 kt n) →
  0 < size → size + 4095 < 4294967296 →
  kw0 (full m1) m1 (attempt (load_process p ep size ub)) (λ r m' R', R' = full m' ∧ r = inr (PageFault 0xC00) ∧
    exhausted s0 m' ∧ ∃ a, loading m' kt (set_space_phys a (set_space NULL c))).
Proof using All.
  intros H0 Hf Hn Hsp Hsize Hmax. unfold load_process. apply kw_attempt_bind.
  eapply kw_seq; [by eapply kw_create_null|]. intros r m2 R2 (-> & -> & W & G2 & HW & Hx2). cbn beta.
  pose proof (loading_free _ _ _ _ _ _ loading_start G2 HW) as L2.
  apply kw_attempt_bind. eapply (kw_pcb_store s0 c0 d t1 t2 m1 kt p Hp m2 kt c 28 NULL (set_space NULL c)); [exact L2|lia|by apply pcb_store_space|].
  intros m3 _ L3 G3. apply kw_attempt_bind, kw_cpu. intros t. cbn [kernel_directory].
  apply kw_attempt_bind. eapply kw_physical_null; [apply L3|]. intros m4 a G4 Ha.
  pose proof (loading_free _ _ _ _ _ _ L3 G4 ltac:(by intros ? ?%not_elem_of_nil)) as L4.
  apply kw_attempt_bind. eapply (kw_pcb_store s0 c0 d t1 t2 m1 kt p Hp m4 kt _ 32 a (set_space_phys a (set_space NULL c)));
    [exact L4|lia|by apply pcb_store_space_phys|].
  intros m5 _ L5 G5. pose proof (trans G3 (trans G4 G5)) as G35. apply kw_attempt_bind.
  pose proof (exhausted_grows _ _ _ _ _ _ _ _ _ _ _ Hx2 G35) as Hx5.
  eapply kw_stack_null; [apply L5|exact Hx5|]. apply kw_attempt_bind.
  eapply (kw_pcb_load s0 c0 d t1 t2 m1 kt p Hp); [exact L5|unfold OFF_SPACE; lia|].
  rewrite (pr_space _ _ _ (lo_pcb _ _ _ _ _ _ _ _ _ _ L5)). cbn [address_space set_space set_space_phys].
  unfold vmm_map_frame, table_for. apply kw_attempt_assoc, kw_attempt_assoc. change (Z.shiftr 0xC0001000 22) with 768.
  apply kw_attempt_unmapped; [done|done| |].
  - change (entry NULL 768 / 4096) with 0. rewrite (gr_zero _ _ _ _ _ _ _ _ _ _ _ G35), (gr_zero _ _ _ _ _ _ _ _ _ _ _ G2). exact H0.
  - split_and!; [done|done|done|]. by exists a.
Qed.
(** What is left of a process whose stack could not be made: a space that
    nobody names, and its block as [bs] says once it is released. *)
Record undone (bs : list block) (m : mem) : Prop := {
  un_vi : vi m kt;
  un_left : exhausted s0 m;
  un_heap : chain m (heap_start (lget s0)) bs;
  un_source : ∀ x, source_ok s0 d m1 kt x → source_ok s0 d m kt x
}.

(** With two frames or three: no frame is left for the stack, and the block
    goes back to the heap. *)
Lemma kw_load_short n bs b : p = b_addr b + HDR → blocks_ok IDENT_LO bs → chain m1 (heap_start (lget s0)) bs → b ∈ live bs →
  (∀ x, in_headers bs x → source_ok s0 d m1 kt x ∧ ¬ (p ≤ x < p + SIZEOF_PCB)) →
  frames_left s0 m1 (S (S n)) → spare d m1 kt (S (S n)) → (n ≤ 1)%nat →
  0 < size ≤ 4096 → 0 ≤ ep → ep + size ≤ 8384512 → (∀ a, ep ≤ a < ep + size → source_ok s0 d m1 kt a) →
  kw0 (full m1) m1 (load_process p ep size ub) (λ r m' R', R' = full m' ∧ r = NULL ∧ undone (free_spec p bs) m').
Proof using All.
  intros Ep Hok Hch Hb Hhd Hf Hsp Hn Hsize Hep Hmax Hsrc. unfold load_process.
  eapply kw_seq; [by eapply kw_create_short|]. intros r m2 R2 (-> & v & D & w0 & w1 & o & pg & -> & _ & _ & HD & [(n2 & W & E & G2 & HW) Hx2 Hd2 Hps2 Ht2] & _). cbn beta.
  assert (∀ G, G ∈ W → was_free s0 m1 G) as HW' by (intros G [?| ->]%HW; done).
  pose proof (loading_free _ _ _ _ _ _ loading_start G2 HW') as L2.
  assert (standing kt v D w0 w1 ub o pg m2) as J2.
  { constructor; [apply G2|done|done|done|]. intros F HF. destruct (Ht2 F HF) as (? & ? & ? & _). done. }
  assert (∀ G, was_free s0 m1 G → G ∉ pcb_pages p) as Hpages by (intros G HG; by eapply pcb_page).
  assert (∀ F, o = Some F → was_free s0 m1 F) as HoF by (intros F HF; by apply Ht2).
  eapply (kw_name_space s0 c0 d t1 t2 m1 kt p); [exact Hp|exact L2|exact Hd2|]. intros m5 G5 L5.
  assert (standing kt v D w0 w1 ub o pg m5) as J5.
  { eapply standing_still; [exact J2|exact G5|..]; [|intros F HF]; rewrite elem_of_app; intros [Hin|Hin]; [by eapply Hpages|by eapply Hpages|by eapply Hpages; [apply HoF|]|by eapply Hpages; [apply HoF|]]. }
  eapply kw_stack_null; [apply L5|apply J5|]. eapply (kw_pcb_load s0 c0 d t1 t2 m1 kt p Hp); [exact L5|unfold OFF_SPACE; lia|].
  rewrite (pr_space _ _ _ (lo_pcb _ _ _ _ _ _ _ _ _ _ L5)). cbn [address_space set_space set_space_phys].
  change (default 0 (Some 0)) with 0. change 0xC0001000 with ((768 * 1024 + 1) * 4096). change (vmm_map_frame (v * 4096) ((768 * 1024 + 1) * 4096) 0 true ub) with
    (vmm_map_frame (v * 4096) ((768 * 1024 + 1) * 4096) (0 * 4096) true ub).
  eapply kw_map_standing; [exact J5|lia|lia|]. intros ok m6 W6 G6 HW6.
  assert (loading m6 kt (set_space_phys (D * 4096) (set_space (v * 4096) c))) as L6 by (eapply loading_free; [exact L5|exact G6|auto]).
  assert (exhausted s0 m6) as Hx6 by (eapply exhausted_grows; [apply J5|exact G6]).
  eapply (kw_pcb_store s0 c0 d t1 t2 m1 kt p Hp m6 kt _ 36 NULL (set_stack NULL (set_space_phys (D * 4096) (set_space (v * 4096) c))));
    [exact L6|lia|by apply pcb_store_stack|].
  intros m7 _ L7 G7. eapply (kw_pcb_load s0 c0 d t1 t2 m1 kt p Hp); [exact L7|unfold OFF_STACK; lia|].
  rewrite (pr_stack _ _ _ (lo_pcb _ _ _ _ _ _ _ _ _ _ L7)). cbn [kernel_stack_ptr set_stack]. change (NULL =? 0) with true. cbv iota.
  pose proof (lo_source _ _ _ _ _ _ _ _ _ _ L7) as Hs7. rewrite Ep.
  eapply (kw_kfree m7 kt bs b); [apply L7|done| |done| |].
  - eapply chain_ext_headers; [exact Hch|]. intros x Hx. destruct (Hhd x Hx) as [Hxs Hxp].
    apply (lo_kept _ _ _ _ _ _ _ _ _ _ L7); [done|]. unfold OFF_STATE. lia.
  - intros x Hx. by apply Hs7, Hhd.
  - intros m8 H8 Hch8 _ Hs8 Hb8. apply kw_ret. split_and!; [done|done|]. constructor; [done| |done|auto].
    intros f Hfr. rewrite Hb8 by done. by apply (exhausted_grows _ _ _ _ _ _ _ _ _ _ _ Hx6 G7).
Qed.
End load.
End process.

(** ** The functions *)

Section create.
Context {St : Type} `{LM : Lens St mem} `{LC : Lens St Cpu} `{LP : Lens St PmmStatics} `{LH : Lens St HeapStatics} `{LN : Lens St ProcStatics}.
Context {AC : Apart LM LC} {AP : Apart LM LP} {ACP : Apart LC LP} {AH : Apart LM LH} {ACH : Apart LC LH}.
Context {AN : Apart LM LN} {ACN : Apart LC LN} {APN : Apart LP LN} {AHN : Apart LH LN}.
Context (d t1 t2 : Z).

Lemma attempt_stop {B} (op : M St B) s e s' : attempt op s = Ok (inr e) s' → op s = Stop e s'.
Proof. unfold attempt. destruct (op s); [done|by intros [= -> ->]]. Qed.

Lemma left_state s s1 n : lget (T:=PmmStatics) s1 = lget s →
  (∀ j, 0 ≤ j < total_bits (frame_bitmap (lget s)) → bit (lget s1) (frame_bitmap (lget s)) j = bit (lget s) (frame_bitmap (lget s)) j) →
  frames_left s (lget s) n → frames_left s1 (lget s1) n.
Proof. intros E Hb H. unfold frames_left. rewrite E. by eapply frames_left_same. Qed.

Lemma exhausted_used s s' : mem_tlb s s' → exhausted s (lget s') → ∀ f, managed s f → frame_used s' f = true.
Proof. intros Hm Hx f Hf. rewrite (used_bit _ _ f Hm). by apply Hx. Qed.

(** C25: with two free frames (for the directory, and for the only page of a
    program of at most 4096 bytes), and the next two pages to give out in 4 MB
    that have a table already, [vmm_create_virtual_address_space] finds none
    for the table of 0xC0000000, does not notice that [vmm_map_frame] failed,
    and returns a space in which the program is not mapped. *)
Theorem vmm_create_drops_program s kt ep size ub :
  vmm_ok d t1 t2 s kt → frames_left s (lget s) 2 → spare d (lget s) kt 2 →
  0 < size ≤ 4096 → 0 ≤ ep → ep + size ≤ 8384512 → (∀ a, ep ≤ a < ep + size → source_ok s d (lget s) kt a) →
  ∃ v D s', vmm_create_virtual_address_space ep size ub s = Ok (v * 4096) s' ∧ v ≠ 0 ∧ vmm_ok d t1 t2 s' kt ∧
    page_frame (lget s') d v = Some D ∧ (∀ f, managed s f → frame_used s' f = true) ∧
    ∀ va, 0x800000 ≤ va < 4294967296 → translate (lget s') (D * 4096) va = None.
Proof.
  intros H Hf Hsp Hsize Hep Hmax Hsrc.
  destruct (kw_state d t1 t2 s kt (vmm_create_virtual_address_space ep size ub) (λ r m', ∃ v D w0 w1 o pg, r = v * 4096 ∧
    kernel_entry w0 t1 ∧ kernel_entry w1 t2 ∧ spent s d t1 t2 (lget s) kt v D w0 w1 ub o pg m' ∧ (0 = 0 → o = None)) H)
    as (r & s' & R & (v & D & w0 & w1 & o & pg & -> & K0 & K1 & [(n & W & E & G & _) Hx (Hv & HvD & _) Hps _] & Ho) & Hm & Hok).
  { eapply kw_mono; [apply (kw_create_short s (cr0 (lget s)) d t1 t2 0); [apply H|done|done|lia|done..]|].
    intros r m' R' (-> & v & D & w0 & w1 & o & pg & -> & K0 & K1 & _ & Hs & Ho). split; [|done]. exists v, D, w0, w1, o, pg. auto 10. }
  rewrite (Ho eq_refl) in Hps. pose proof (Hok kt (gr_vi _ _ _ _ _ _ _ _ _ _ _ G)) as Hok'.
  exists v, D, s'. split_and!; [exact R|lia|exact Hok'|exact HvD|by apply exhausted_used|].
  intros va Hva. apply unmapped_page; [lia|]. destruct (decide (va / 4096 / 1024 = 768)) as [E768|Hne].
  - unfold page_frame. fold (pte (lget s') D (va / 4096 / 1024)). rewrite E768. by destruct (ps_768 _ _ _ _ _ _ _ Hps) as [-> _].
  - eapply pspace_rest; [exact Hps|Z.div_mod_to_equations; lia|exact Hne].
Qed.

(** C12: with no free frame, or only one and a page for it in 4 MB that have a
    table already, [create_pcb] does not return NULL but stops: the address space is NULL, which it does not check, no frame
    is left for the stack either, and mapping it into the directory at
    address 0 is a page fault at 0xC00. By then the next pid is taken and
    the control block, new and without a space, keeps its place in the heap. *)
Theorem create_pcb_faults s kt bs p bs' ep size ub n :
  kernel_ok d t1 t2 s kt bs → alloc_spec SIZEOF_PCB bs = Some (p, bs') → page_frame (lget s) d 0 = None →
  frames_left s (lget s) n → (n ≤ 1)%nat → (n = 0%nat ∨ spare d (lget s) kt n) → 0 < size → size + 4095 < 4294967296 →
  ∃ a e s', create_pcb ep size ub s = Stop (PageFault 0xC00) s' ∧ kernel_ok d t1 t2 s' kt bs' ∧
    next_pid (lget s') = next_pid (lget s) ⊞ 1 ∧
    pcb_rep (lget s') p (mkPcb (u32 (next_pid (lget s))) STATE_NEW 0 40 0 NULL a e) ∧
    ∀ f, managed s f → frame_used s' f = true.
Proof.
  intros Hko Ha H0 Hf Hn Hsp Hsize Hmax. destruct (create_pcb_start d t1 t2 s kt bs p bs' ep size ub Hko Ha)
    as (s1 & R1 & Hko1 & Hp & (x & y & e & Hc) & Hpid & Hbits & Hpages & Hhd & Epmm & _).
  destruct (kw_state d t1 t2 s1 kt (attempt (load_process p ep size ub)) (λ r m', r = inr (PageFault 0xC00) ∧ exhausted s1 m' ∧
    ∃ a, loading s1 d t1 t2 (lget s1) kt p m' kt (set_space_phys a (set_space NULL (mkPcb (u32 (next_pid (lget s))) STATE_NEW 0 40 0 x y e))))
    (ko_vmm _ _ _ _ _ _ Hko1)) as (r & s' & R2 & (-> & Hx & a & HL) & Hm & Hok).
  { eapply kw_mono; [apply (kw_load_faults s1 (cr0 (lget s1)) d t1 t2 (lget s1) kt p _ ep size ub Hp (vo_vi _ _ _ _ _ (ko_vmm _ _ _ _ _ _ Hko1)) Hc n)|].
    - by rewrite Hpages.
    - by eapply left_state.
    - done.
    - destruct Hsp as [->|Hsp]; [by left|right]. eapply spare_same; [|exact Hsp]. intros q Hq. apply Hpages. lia.
    - done.
    - done.
    - intros r m' R' (-> & -> & Hx & a & HL). split; [|done]. split_and!; [done|done|eauto]. }
  exists a, e, s'. split_and!.
  - rewrite R1. by apply attempt_stop.
  - by eapply loading_kernel.
  - by rewrite (mem_tlb_proc _ _ Hm).
  - apply (lo_pcb _ _ _ _ _ _ _ _ _ _ HL).
  - intros f Hfm. apply (exhausted_used s1); [done|done|]. unfold managed in *. by rewrite Epmm.
Qed.

(** C13: with two free frames or three, as many pages for them in 4 MB that
    have a table already, and a program of at most 4096 bytes, [create_pcb]
    gives up at the stack and returns NULL. The pid is used up
    and the block is back in the heap; the frames of the directory, the page
    and the table are not: none is free any more. *)
Theorem create_pcb_gives_up s kt bs p bs' ep size ub n :
  kernel_ok d t1 t2 s kt bs → alloc_spec SIZEOF_PCB bs = Some (p, bs') →
  frames_left s (lget s) n → (2 ≤ n ≤ 3)%nat → spare d (lget s) kt n →
  0 < size ≤ 4096 → 0 ≤ ep → ep + size ≤ 8384512 → (∀ a, ep ≤ a < ep + size → source_ok s d (lget s) kt a) →
  ∃ bs2 s', create_pcb ep size ub s = Ok NULL s' ∧ vmm_ok d t1 t2 s' kt ∧ heap_rep s' bs2 ∧ live bs2 ≡ₚ live bs ∧
    next_pid (lget s') = next_pid (lget s) ⊞ 1 ∧ ∀ f, managed s f → frame_used s' f = true.
Proof.
  intros Hko Ha Hf Hn Hsp Hsize Hep Hmax Hsrc. destruct (create_pcb_start d t1 t2 s kt bs p bs' ep size ub Hko Ha)
    as (s1 & R1 & Hko1 & Hp & (x & y & e & Hc) & Hpid & Hbits & Hpages & Hhd & Epmm & Hs1 & _).
  destruct (alloc_spec_ok SIZEOF_PCB bs IDENT_LO p bs' ltac:(done) (proj1 (ko_heap _ _ _ _ _ _ Hko)) Ha) as (Hbs' & b & Ep & _ & Hlive).
  assert (b ∈ live bs') as Hb by (rewrite Hlive; apply list_elem_of_here).
  destruct (free_spec_ok bs' b Hbs' Hb) as [Hfree Hlive2]. rewrite <- Ep in *.
  destruct (kw_state d t1 t2 s1 kt (load_process p ep size ub) (λ r m', r = NULL ∧ undone s1 d t1 t2 (lget s1) kt (free_spec p bs') m')
    (ko_vmm _ _ _ _ _ _ Hko1)) as (r & s' & R2 & (-> & [Hv Hx Hch _]) & Hm & Hok).
  { destruct n as [|[|n]]; [lia|lia|].
    eapply kw_mono; [apply (kw_load_short s1 (cr0 (lget s1)) d t1 t2 (lget s1) kt p _ ep size ub Hp (vo_vi _ _ _ _ _ (ko_vmm _ _ _ _ _ _ Hko1)) Hc n bs' b)|].
    - exact Ep.
    - exact Hbs'.
    - apply (ko_heap _ _ _ _ _ _ Hko1).
    - exact Hb.
    - intros z Hz. split; [|by apply Hhd]. destruct (header_in_heap _ _ Hz Hbs') as (b' & Hb' & Hzb). by eapply (ko_apart _ _ _ _ _ _ Hko1).
    - by eapply left_state.
    - eapply spare_same; [|exact Hsp]. intros q Hq. apply Hpages. lia.
    - lia.
    - done.
    - done.
    - done.
    - intros a Hax. by apply Hs1, Hsrc.
    - intros r m' R' (-> & -> & Hu). done. }
  exists (free_spec p bs'), s'. split_and!.
  - by rewrite R1.
  - by apply Hok.
  - split; [done|]. by rewrite (mem_tlb_heap _ _ Hm).
  - rewrite Hlive in Hlive2. by apply Permutation_cons_inv in Hlive2.
  - by rewrite (mem_tlb_proc _ _ Hm).
  - intros f Hfm. apply (exhausted_used s1); [done|done|]. unfold managed in *. by rewrite Epmm.
Qed.
End create.
