(* ===== verification/VmmExample.v ===== *)
(** * VmmExample: the theorems on the address space, on booted machines

    A machine with 128 MB, whose bitmap fills the page at 0x400000, and one
    with a single free frame. *)

From S2P Require Import Prelude Memory Bitmap Pmm Isr KMemory Paging Mmu Vmm VmmSpec AddrSpace VmmState MmuIdent Sched Process Switch Boot.

Module VmmExample.
Record machine : Type := mkMachine { m_mem : mem; m_pmm : PmmStatics; m_cpu : Cpu; m_isr : IsrTables; m_heap : HeapStatics; m_proc : ProcStatics; m_regs : Regs; m_sched : Scheduler }.

#[export] Instance lens_mem : Lens machine mem.
Proof. refine {| lget := m_mem; lput x s := mkMachine x (m_pmm s) (m_cpu s) (m_isr s) (m_heap s) (m_proc s) (m_regs s) (m_sched s) |}; by intros; destruct s. Defined.
#[export] Instance lens_pmm : Lens machine PmmStatics.
Proof. refine {| lget := m_pmm; lput x s := mkMachine (m_mem s) x (m_cpu s) (m_isr s) (m_heap s) (m_proc s) (m_regs s) (m_sched s) |}; by intros; destruct s. Defined.
#[export] Instance lens_cpu : Lens machine Cpu.
Proof. refine {| lget := m_cpu; lput x s := mkMachine (m_mem s) (m_pmm s) x (m_isr s) (m_heap s) (m_proc s) (m_regs s) (m_sched s) |}; by intros; destruct s. Defined.
#[export] Instance lens_isr : Lens machine IsrTables.
Proof. refine {| lget := m_isr; lput x s := mkMachine (m_mem s) (m_pmm s) (m_cpu s) x (m_heap s) (m_proc s) (m_regs s) (m_sched s) |}; by intros; destruct s. Defined.
#[export] Instance lens_heap : Lens machine HeapStatics.
Proof. refine {| lget := m_heap; lput x s := mkMachine (m_mem s) (m_pmm s) (m_cpu s) (m_isr s) x (m_proc s) (m_regs s) (m_sched s) |}; by intros; destruct s. Defined.
#[export] Instance lens_proc : Lens machine ProcStatics.
Proof. refine {| lget := m_proc; lput x s := mkMachine (m_mem s) (m_pmm s) (m_cpu s) (m_isr s) (m_heap s) x (m_regs s) (m_sched s) |}; by intros; destruct s. Defined.
#[export] Instance lens_regs : Lens machine Regs.
Proof. refine {| lget := m_regs; lput x s := mkMachine (m_mem s) (m_pmm s) (m_cpu s) (m_isr s) (m_heap s) (m_proc s) x (m_sched s) |}; by intros; destruct s. Defined.
#[export] Instance lens_sched : Lens machine Scheduler.
Proof. refine {| lget := m_sched; lput x s := mkMachine (m_mem s) (m_pmm s) (m_cpu s) (m_isr s) (m_heap s) (m_proc s) (m_regs s) x |}; by intros; destruct s. Defined.
#[export] Instance apart_mp : Apart lens_mem lens_pmm.
Proof. by constructor. Qed.
#[export] Instance apart_mc : Apart lens_mem lens_cpu.
Proof. by constructor. Qed.
#[export] Instance apart_mi : Apart lens_mem lens_isr.
Proof. by constructor. Qed.
#[export] Instance apart_mh : Apart lens_mem lens_heap.
Proof. by constructor. Qed.
#[export] Instance apart_ci : Apart lens_cpu lens_isr.
Proof. by constructor. Qed.
#[export] Instance apart_cp : Apart lens_cpu lens_pmm.
Proof. by constructor. Qed.
#[export] Instance apart_ch : Apart lens_cpu lens_heap.
Proof. by constructor. Qed.
#[export] Instance apart_mn : Apart lens_mem lens_proc.
Proof. by constructor. Qed.
#[export] Instance apart_cn : Apart lens_cpu lens_proc.
Proof. by constructor. Qed.
#[export] Instance apart_pn : Apart lens_pmm lens_proc.
Proof. by constructor. Qed.
#[export] Instance apart_hn : Apart lens_heap lens_proc.
Proof. by constructor. Qed.
#[export] Instance apart_mr : Apart lens_mem lens_regs.
Proof. by constructor. Qed.
#[export] Instance apart_cr : Apart lens_cpu lens_regs.
Proof. by constructor. Qed.
#[export] Instance apart_ms : Apart lens_mem lens_sched.
Proof. by constructor. Qed.
#[export] Instance apart_cs : Apart lens_cpu lens_sched.
Proof. by constructor. Qed.
#[export] Instance apart_ps : Apart lens_pmm lens_sched.
Proof. by constructor. Qed.
#[export] Instance apart_hs : Apart lens_heap lens_sched.
Proof. by constructor. Qed.
#[export] Instance apart_ns : Apart lens_proc lens_sched.
Proof. by constructor. Qed.
#[export] Instance apart_ip : Apart lens_isr lens_pmm.
Proof. by constructor. Qed.

Definition blank (m : mem) (h : Z) : machine :=
  mkMachine m (mkPmm (mkBitmap NULL 0) 0) (mkCpu 0x11 0 ∅ 0) (mkIsr (replicate 32 0) (replicate 16 0) (replicate 256 0)) (mkHeap h) (mkProc 0) (mkRegs 0 0 0 0 0 0 0 0 2 0) (mkSched [0; 0; 0; 0] 0 0 0).
Lemma blank_isr m h : isr_ok (lget (blank m h)).
Proof. done. Qed.

(** The statics the boot does not touch, and a heap at [h]. *)
Definition with_heap (h : Z) (s : machine) : machine :=
  mkMachine (m_mem s) (m_pmm s) (m_cpu s) (m_isr s) (mkHeap h) (m_proc (blank ∅ h)) (m_regs (blank ∅ h)) (m_sched (blank ∅ h)).

(** The kernel linked at 1 MB, on a memory that holds a heap at [h]. *)
Definition boot (m : mem) (h ram start : Z) : machine :=
  with_heap h (state_of ((pmm_init ram start ≫= λ _, paging_init 0x100000 0x104000 0x106000 0x100500) (blank m NULL))).

Abbreviation n := 0x401.
Abbreviation dir := (n * 4096).
Abbreviation kt := (boot_tables (n + 1) (n + 2)).
Abbreviation ok := (vmm_ok dir (n + 1) (n + 2)).

Lemma ok_heap s kt' h : ok s kt' → ok (with_heap h s) kt'.
Proof. by intros []; constructor. Qed.

Lemma boot_ok m h ram start : 0 ≤ ram < 4294967296 → IDENT_LO ≤ start → bitmap_end ram start = dir → n + 3 ≤ ram / 4096 →
  ok (boot m h ram start) kt ∧ frame_bitmap (lget (boot m h ram start)) = mkBitmap start (ram / 4096) ∧
  (∀ f, 0 ≤ f < ram / 4096 → frame_used (boot m h ram start) f = (f <? n + 3)) ∧
  page_frame (lget (boot m h ram start)) dir 0 = None ∧ heap_start (lget (boot m h ram start)) = h ∧
  ∀ x, x < start → get8 (lget (boot m h ram start)) x = get8 m x.
Proof.
  intros Hram Hlo He Hf.
  destruct (boot_vmm_ok 0x100000 0x104000 0x106000 0x100500 (blank m NULL) ram start) as (s1 & s' & R1 & R2 & Hok & Hbm & Hu & H0 & Hx);
    [done|done|by rewrite He|by rewrite He|by rewrite He|apply blank_isr|].
  rewrite He in *. change (dir / 4096) with n in *.
  assert (boot m h ram start = with_heap h s') as ->.
  { unfold boot. rewrite (bind_ok _ _ _ _ _ R1). change (n * 4096 + 0) with dir in R2. by rewrite R2. }
  split_and!; [by apply ok_heap|done|done|done|done|]. intros x Hlt. apply Hx. by left.
Qed.

Lemma boot_free s : ok s kt → free_page dir (lget s) 2048 ∧ ∀ q, q < 2048 → ¬ free_page dir (lget s) q.
Proof.
  intros H. split.
  - split_and!; [lia..|done|done|]. by apply (boot_page dir (n + 1) (n + 2)).
  - intros q Hq (? & _). lia.
Qed.

(** 128 MB: frames 0x404 and up are free. *)
Definition s0 : machine := boot ∅ 0 134217728 0x400000.
Lemma s0_all : ok s0 kt ∧ frame_bitmap (lget s0) = mkBitmap 0x400000 32768 ∧ ∀ f, 0 ≤ f < 32768 → frame_used s0 f = (f <? n + 3).
Proof. destruct (boot_ok ∅ 0 134217728 0x400000 ltac:(lia) ltac:(done) eq_refl ltac:(done)) as (H1 & H2 & H3 & _). exact (conj H1 (conj H2 H3)). Qed.

Lemma s0_low k : (k <= 100)%nat → low_free s0 (lget s0) k.
Proof.
  intros Hk. destruct s0_all as (_ & Hbm & Hu). exists (seqZ (n + 3) (Z.of_nat k)).
  split_and!; [apply NoDup_seqZ|rewrite length_seqZ; lia|]. intros f [Hf1 Hf2]%elem_of_seqZ. rewrite Hbm. cbn [total_bits].
  split_and!; [lia..|]. specialize (Hu f ltac:(lia)). unfold frame_used in Hu. rewrite Hbm in Hu. rewrite Hu. apply Z.ltb_ge. lia.
Qed.

Lemma s0_ok : ok s0 kt.
Proof. apply s0_all. Qed.
Lemma s0_free : ∃ p, free_page dir (lget s0) p.
Proof. exists 2048. apply boot_free, s0_ok. Qed.

Lemma vmm_get_new_page_maps_witness :
  ∃ p f kt' s', vmm_get_new_page dir true false NULL s0 = Ok (p * 4096) s' ∧ ok s' kt' ∧
    free_page dir (lget s0) p ∧ (∀ q, q < p → ¬ free_page dir (lget s0) q) ∧
    frame_used s0 f = false ∧ (∀ g, 0 ≤ g < f → frame_used s0 g = true) ∧ frame_used s' f = true ∧
    (∀ j, managed s0 j → frame_used s0 j = true → frame_used s' j = true) ∧
    page_frame (lget s') dir p = Some f ∧
    (∃ T, kt' !! (p / 1024) = Some T ∧ entry_is (pte (lget s') T (p mod 1024)) 1 1 0 f) ∧
    (∃ g, match kt !! (p / 1024) with
          | Some _ => g = f ∧ kt' = kt
          | None => managed s0 g ∧ g ≠ f ∧ frame_used s0 g = false ∧ frame_used s' g = true ∧ kt' = <[p / 1024 := g]> kt
          end ∧ ∀ j, managed s0 j → j ≠ f → j ≠ g → frame_used s' j = frame_used s0 j) ∧
    page_frame (lget s') dir 2047 = None ∧
    (∀ q, 0 ≤ q < 1048576 → q ≠ p → q ≠ 2047 → page_frame (lget s') dir q = page_frame (lget s0) dir q) ∧
    (∀ x, off_bitmap (frame_bitmap (lget s0)) x 1 → off_tables dir kt' x 1 → get8 (lget s') x = get8 (lget s0) x).
Proof. apply (vmm_get_new_page_maps dir (n + 1) (n + 2) s0 kt true false); [exact s0_ok|apply s0_low; lia|exact s0_free]. Defined.

Lemma vmm_page_roundtrip_witness :
  ∃ p f g s1 s2 s3 s4, vmm_get_new_page dir true true NULL s0 = Ok (p * 4096) s1 ∧ frame_used s0 f = false ∧
    vmm_get_physical_address dir (p * 4096) s1 = Ok (f * 4096) s2 ∧
    vmm_free_page dir (p * 4096) s2 = Ok tt s3 ∧
    vmm_get_new_page dir true true NULL s3 = Ok (p * 4096) s4 ∧ page_frame (lget s4) dir p = Some g ∧ g ≠ f.
Proof. apply (vmm_page_roundtrip dir (n + 1) (n + 2) s0 kt true true); [exact s0_ok|apply s0_low; lia|exact s0_free]. Defined.

Lemma vmm_free_page_unmaps_witness :
  ∃ s', vmm_free_page dir (5000 * 4096) s0 = Ok tt s' ∧ ok s' kt ∧
    page_frame (lget s') dir 5000 = None ∧ tlb (lget s') !! 5000 = None ∧
    (∀ q, 0 ≤ q < 1048576 → q ≠ 5000 → page_frame (lget s') dir q = page_frame (lget s0) dir q) ∧
    (∀ j, managed s0 j → frame_used s' j = frame_used s0 j).
Proof. apply (vmm_free_page_unmaps dir (n + 1) (n + 2) s0 kt 5000); [exact s0_ok|lia]. Defined.

(** 1029 frames, the last of them free. *)
Definition sL : machine := boot ∅ 0 4214784 0x400F7C.
Lemma sL_all : ok sL kt ∧ frame_bitmap (lget sL) = mkBitmap 0x400F7C 1029 ∧ ∀ f, 0 ≤ f < 1029 → frame_used sL f = (f <? n + 3).
Proof. destruct (boot_ok ∅ 0 4214784 0x400F7C ltac:(lia) ltac:(done) eq_refl ltac:(done)) as (H1 & H2 & H3 & _). exact (conj H1 (conj H2 H3)). Qed.

Lemma vmm_get_new_page_leaks_witness :
  ∃ s', vmm_get_new_page dir true false NULL sL = Ok NULL s' ∧ ok s' kt ∧
    (∀ g, managed sL g → frame_used s' g = true) ∧
    (∀ q, 0 ≤ q < 1048576 → page_frame (lget s') dir q = page_frame (lget sL) dir q).
Proof.
  destruct sL_all as (H & Hbm & Hu). destruct (boot_free sL H) as [H1 H2].
  apply (vmm_get_new_page_leaks dir (n + 1) (n + 2) sL kt true false 2048 1028);
    [exact H|exact H1|exact H2|vm_compute; reflexivity| |apply Hu; lia|].
  - unfold managed. rewrite Hbm. cbn. lia.
  - unfold managed. rewrite Hbm. cbn [total_bits]. intros g Hg Hne. rewrite Hu by done. apply Z.ltb_lt. lia.
Defined.

(** A program of 5000 bytes at 2 MB. *)
Lemma s0_loadable : loadable s0 dir 0 (lget s0) kt 0x200000 5000.
Proof.
  destruct s0_all as (H & Hbm & Hu). assert (need 5000 0 = 3%nat) as E by done. constructor.
  - lia.
  - unfold num_pages. change ((5000 + 4095) / 4096) with 2. lia.
  - intros a Ha. assert (0x200 ≤ a / 4096 ≤ 0x201) as Hp by (clear -Ha; Z.div_mod_to_equations; lia). split_and!; [lia|lia| | |].
    + unfold off_bitmap. rewrite Hbm. cbn. lia.
    + split; [lia|]. intros i f. unfold boot_tables. rewrite !lookup_insert_Some, lookup_empty.
      intros [[_ <-]|[_ [[_ <-]|[_ ?]]]]; lia || done.
    + intros _. specialize (Hu (a / 4096) ltac:(lia)). unfold frame_used in Hu. rewrite Hu. apply Z.ltb_lt. lia.
  - rewrite E. apply s0_low. lia.
  - rewrite E. exists (seqZ 2 4). split_and!; [apply NoDup_seqZ|by rewrite length_seqZ|].
    intros i [Hi1 Hi2]%elem_of_seqZ. split_and!; [lia..|].
    unfold boot_tables. rewrite !lookup_insert_ne by lia. by rewrite lookup_empty.
Qed.

(** A space is built, and the page that leads to its directory dropped. *)
Lemma s0_steps : ∃ v s1 s2, vmm_create_virtual_address_space 0x200000 5000 true s0 = Ok (v * 4096) s1 ∧
  vmm_free_page dir (v * 4096) s1 = Ok tt s2 ∧ rtc (vmm_step dir (n + 1) (n + 2)) s0 s2.
Proof.
  destruct (create_run dir (n + 1) (n + 2) 0 s0 kt 0x200000 5000 true s0_ok s0_loadable)
    as (v & D & kt' & F & pg & w0 & w1 & s1 & R1 & _ & H1 & _ & _ & _ & Him).
  destruct (im_dir _ _ _ _ _ _ _ _ _ _ _ _ _ _ _ _ _ _ _ Him) as (Hv & _).
  destruct (free_page_run dir (n + 1) (n + 2) s1 kt' v H1 Hv) as (s2 & R2 & _). exists v, s1, s2. split_and!; [done|done|].
  apply (rtc_l _ _ s1); [by eapply step_create; [exact s0_ok|exact s0_loadable|exact R1]|]. apply rtc_once. by eapply step_free.
Qed.

Lemma vmm_reachable_sound_witness :
  ∃ v s1 s', vmm_create_virtual_address_space 0x200000 5000 true s0 = Ok (v * 4096) s1 ∧
    vmm_free_page dir (v * 4096) s1 = Ok tt s' ∧ ∃ kt', ok s' kt' ∧
    (∀ p q f, 2048 ≤ p < 1048576 → 2048 ≤ q < 1048576 →
       page_frame (lget s') dir p = Some f → page_frame (lget s') dir q = Some f → p = q) ∧
    (∀ p f, 2048 ≤ p < 1048576 → page_frame (lget s') dir p = Some f →
       f ≠ dir / 4096 ∧ (∀ i, kt' !! i ≠ Some f) ∧ off_bitmap (frame_bitmap (lget s')) (f * 4096) 4096 ∧
       (managed s' f → frame_used s' f = true)) ∧
    (∀ j, managed s0 j → frame_used s0 j = true → frame_used s' j = true).
Proof.
  destruct s0_steps as (v & s1 & s' & R1 & R2 & Hs). exists v, s1, s'. split; [exact R1|]. split; [exact R2|].
  apply (vmm_reachable_sound dir (n + 1) (n + 2) s0 s' kt s0_ok); [apply boot_pages_ok, s0_ok|exact Hs].
Defined.

Lemma vmm_create_maps_image_witness :
  ∃ v D s', vmm_create_virtual_address_space 0x200000 5000 true s0 = Ok (v * 4096) s' ∧ (∃ kt', ok s' kt') ∧
    page_frame (lget s') dir v = Some D ∧ frame_used s0 D = false ∧
    ∀ va, 0 ≤ va < 4294967296 →
      if va <? 0x800000 then
        page_frame (lget s') (D * 4096) (va / 4096) = page_frame (lget s') dir (va / 4096) ∧
        ∀ pa r u, translate (lget s') (D * 4096) va = Some (pa, r, u) → u = false
      else if (0xC0000000 <=? va) && (va <? 0xC0000000 + num_pages 5000 * 4096) then
        ∃ pa, translate (lget s') (D * 4096) va = Some (pa, true, true) ∧
          get8 (lget s') pa = code_byte (lget s0) 0x200000 5000 (va - 0xC0000000)
      else translate (lget s') (D * 4096) va = None.
Proof. apply (vmm_create_maps_image dir (n + 1) (n + 2) s0 kt 0x200000 5000 true); [exact s0_ok|exact s0_loadable]. Defined.

Lemma vmm_create_isolated_witness :
  ∃ v D s', vmm_create_virtual_address_space 0x200000 5000 true s0 = Ok (v * 4096) s' ∧ page_frame (lget s') dir v = Some D ∧
    (∀ p f, 2048 ≤ p < 1048576 → page_frame (lget s0) dir p = Some f →
       page_frame (lget s') dir p = Some f ∧ (∀ x, 0 ≤ x < 4096 → get8 (lget s') (f * 4096 + x) = get8 (lget s0) (f * 4096 + x)) ∧
       f ≠ D ∧ ∀ va pa r u, 0 ≤ va < 4294967296 → translate (lget s') (D * 4096) va = Some (pa, r, u) → pa / 4096 = f →
         va < 0x800000 ∧ u = false) ∧
    (∀ p q f, 2048 ≤ p < 1048576 → 2048 ≤ q < 1048576 → page_frame (lget s') (D * 4096) p = Some f →
       page_frame (lget s') (D * 4096) q = Some f → p = q).
Proof.
  apply (vmm_create_isolated dir (n + 1) (n + 2) s0 kt 0x200000 5000 true); [exact s0_ok|apply boot_pages_ok, s0_ok|exact s0_loadable].
Defined.

Lemma boot_establishes_witness :
  ∃ s', (pmm_init 134217728 0x400000 ≫= λ _, paging_init 0x100000 0x104000 0x106000 0x100500) (blank ∅ 0) = Ok tt s' ∧
    ok s' kt ∧ pages_ok dir s' kt ∧ ∀ f, 0 ≤ f < 134217728 / 4096 → frame_used s' f = (f <? n + 3).
Proof.
  apply (boot_establishes 0x100000 0x104000 0x106000 0x100500 (blank ∅ 0) 134217728 0x400000); [done|done|done|done|done|apply blank_isr].
Defined.

Lemma kmem_through_tables_witness :
  (∃ (m' : mem) sv, kmemset 0x300000 7 100 s0 = Ok 0x300000 (lput m' s0) ∧ vkmemset 0x300000 7 100 s0 = Ok 0x300000 sv ∧
     lget sv = m' ∧ ok sv kt) ∧
  (∃ (m' : mem) sv, kmemcpy 0x200000 0x300000 100 s0 = Ok 0x300000 (lput m' s0) ∧ vkmemcpy 0x200000 0x300000 100 s0 = Ok 0x300000 sv ∧
     lget sv = m' ∧ ok sv kt).
Proof.
  apply (kmem_through_tables dir (n + 1) (n + 2) kt (frame_bitmap (lget s0)) s0 0x200000 0x300000 7 100);
    [exact s0_ok|reflexivity|lia|unfold readable; lia|].
  destruct s0_all as (_ & Hbm & _). rewrite Hbm. split_and!; [unfold readable; lia| |unfold off_bitmap; cbn; lia].
  split; [lia|]. intros i f. unfold boot_tables. rewrite !lookup_insert_Some, lookup_empty.
  intros [[_ <-]|[_ [[_ <-]|[_ ?]]]]; lia || done.
Defined.

(** The memory QEMU reports for 3 GB, in the structure of the boot loader at
    0x9500: 639 KB and 3144576 KB. *)
Definition multiboot : machine := blank (st32 (st32 ∅ 0x9504 639) 0x9508 3144576) 0.
Definition ram3 : Z := (ld32 (lget multiboot) (0x9500 + OFF_MEM_LOWER) ⊞ ld32 (lget multiboot) (0x9500 + OFF_MEM_UPPER)) ⊠ 1024.

Lemma boot_heap_in_directory_witness : let start := bitmap_end ram3 BITMAP_ADDR in
  ∃ s' i, init_memory_management 0x100000 0x104000 0x106000 0x100500 0x9500 multiboot = Ok tt s' ∧
    Z.testbit (cr0 (lget s')) 31 = true ∧ cr3 (lget s') = start / 4096 * 4096 ∧ heap_start (lget s') = start ∧
    0 ≤ i < 1023 ∧ start = entry (cr3 (lget s')) i ∧
    (let e := ld32 (lget s') (entry (cr3 (lget s')) i) in present e = 1 ∧ rw e = 1 ∧ frame_addr e = (0x7FFFF3 - start) / 4096) ∧
    present (ld32 (lget s') (entry (cr3 (lget s')) (i + 1))) = 1 ∧
    (start mod 4096 = 0 → i = 0).
Proof.
  apply (boot_heap_in_directory 0x100000 0x104000 0x106000 0x100500 multiboot 0x9500);
    [vm_compute; done|apply blank_isr|vm_compute; done|vm_compute; done|vm_compute; done].
Defined.
End VmmExample.
