(* ===== verification/ProcessExample.v ===== *)
(** * ProcessExample: a process created on a booted machine

    The machine of [VmmExample] with a heap of one page at 0x300000. *)

From S2P Require Import Prelude Memory Bitmap Pmm Isr KMemory ListDS Pcb Sched SchedInv Paging Mmu Vmm VmmSpec AddrSpace VmmState MmuIdent Process ProcessSpec Switch Launch Startup Boot VmmExample.
Import VmmExample.

Module ProcessExample.
Abbreviation heap0 := (0x300000).
Definition blocks0 : list block := [mkBlock heap0 4084 true].
Definition sP : machine := boot (set8 (st32 ∅ heap0 4084) (heap0 + OFF_IS_FREE) 1) heap0 134217728 0x400000.

Lemma sP_all : ok sP kt ∧ frame_bitmap (lget sP) = mkBitmap 0x400000 32768 ∧ (∀ f, 0 ≤ f < 32768 → frame_used sP f = (f <? n + 3)) ∧
  page_frame (lget sP) dir 0 = None ∧ heap_start (lget sP) = heap0 ∧ ∀ x, x < 0x400000 → get8 (lget sP) x = get8 (set8 (st32 ∅ heap0 4084) (heap0 + OFF_IS_FREE) 1) x.
Proof. apply boot_ok; [lia|done|reflexivity|done]. Qed.

(** Below the bitmap everything is memory the manager does not use. *)
Lemma sP_source a : 4096 ≤ a < 0x400000 → source_ok sP dir (lget sP) kt a.
Proof.
  intros Ha. destruct sP_all as (_ & Hbm & Hu & _).
  assert (1 ≤ a / 4096 < 0x400) as Hp by (clear -Ha; Z.div_mod_to_equations; lia). split_and!; [lia|lia| | |].
  - unfold off_bitmap. rewrite Hbm. cbn. lia.
  - split; [lia|]. intros i f. unfold boot_tables. rewrite !lookup_insert_Some, lookup_empty.
    intros [[_ <-]|[_ [[_ <-]|[_ ?]]]]; lia || done.
  - intros _. specialize (Hu (a / 4096) ltac:(lia)). unfold frame_used in Hu. rewrite Hu. apply Z.ltb_lt. lia.
Qed.

Lemma sP_ok : kernel_ok dir (n + 1) (n + 2) sP kt blocks0.
Proof.
  destruct sP_all as (Hok & Hbm & _ & _ & Hst & Hx). constructor; [exact Hok| |].
  - split; [unfold blocks0, IDENT_LO, IDENT_HI, b_end; cbn; unfold HDR; split_and!; done || lia|]. rewrite Hst.
    eapply (chain_ext_headers (set8 (st32 ∅ heap0 4084) (heap0 + OFF_IS_FREE) 1)); [|intros x (b & [->|[]%not_elem_of_nil]%elem_of_cons & Hb); apply Hx; unfold in_header, HDR in Hb; cbn in Hb; lia].
    vm_compute. split_and!; reflexivity.
  - intros b x [->|[]%not_elem_of_nil]%elem_of_cons Hb. apply sP_source. unfold b_end, HDR in Hb. cbn in Hb. lia.
Qed.

(** The 5000 bytes at 2 MB. *)
Lemma sP_loadable : loadable sP dir 1 (lget sP) kt 0x200000 5000.
Proof.
  destruct sP_all as (_ & Hbm & Hu & _). assert (need 5000 0 = 3%nat) as E by reflexivity. constructor.
  - lia.
  - unfold num_pages. change ((5000 + 4095) / 4096) with 2. lia.
  - intros a Ha. apply sP_source. lia.
  - rewrite E. exists (seqZ (n + 3) 10). split_and!; [apply NoDup_seqZ|by rewrite length_seqZ|].
    intros f [Hf1 Hf2]%elem_of_seqZ. rewrite Hbm. cbn [total_bits]. split_and!; [lia..|].
    specialize (Hu f ltac:(lia)). unfold frame_used in Hu. rewrite Hbm in Hu. rewrite Hu. apply Z.ltb_ge. lia.
  - rewrite E. exists (seqZ 2 5). split_and!; [apply NoDup_seqZ|by rewrite length_seqZ|].
    intros i [Hi1 Hi2]%elem_of_seqZ. split_and!; [lia..|].
    unfold boot_tables. rewrite !lookup_insert_ne by lia. by rewrite lookup_empty.
Qed.

Lemma create_pcb_ready_witness : let p := heap0 + HDR in
  ∃ v D S kt' s', create_pcb 0x200000 5000 true sP = Ok p s' ∧
    kernel_ok dir (n + 1) (n + 2) s' kt' [mkBlock heap0 40 false; mkBlock (heap0 + 52) 4032 true] ∧
    next_pid (lget s') = next_pid (lget sP) ⊞ 1 ∧
    pcb_rep (lget s') p (mkPcb (u32 (next_pid (lget sP))) STATE_READY 0 40 0 (v * 4096) (D * 4096) 0xC0001FD8) ∧
    page_frame (lget s') dir v = Some D ∧ fresh_stack (lget s') S 0xC0000000 ∧
    ∀ va, 0 ≤ va < 4294967296 →
      if va <? 0x800000 then
        page_frame (lget s') (D * 4096) (va / 4096) = page_frame (lget s') dir (va / 4096) ∧
        ∀ pa r u, translate (lget s') (D * 4096) va = Some (pa, r, u) → u = false
      else if (0xC0001000 <=? va) && (va <? 0xC0002000) then
        translate (lget s') (D * 4096) va = Some (S * 4096 + (va - 0xC0001000), true, true)
      else if (0xC0000000 <=? va) && (va <? 0xC0000000 + num_pages 5000 * 4096) then
        ∃ pa, translate (lget s') (D * 4096) va = Some (pa, true, true) ∧
          get8 (lget s') pa = code_byte (lget sP) 0x200000 5000 (va - 0xC0000000)
      else translate (lget s') (D * 4096) va = None.
Proof.
  apply (create_pcb_ready dir (n + 1) (n + 2) sP kt blocks0 _ _ 0x200000 5000 true); [exact sP_ok|reflexivity|exact sP_loadable|].
  intros b a [->|[]%not_elem_of_nil]%elem_of_cons Ha. unfold b_end, HDR. cbn. lia.
Defined.

(** The kernel's stack ends at 0x108000. *)
Lemma created_process_starts_witness :
  ∃ D s' s3, create_pcb 0x200000 5000 true sP = Ok (heap0 + HDR) s' ∧
    call_bootstrap 0x100123 (ld32 (lget s') (heap0 + HDR + OFF_STACK)) (ld32 (lget s') (heap0 + HDR + OFF_SPACE_PHYS))
      (lput (mkRegs 1 2 3 4 0x108000 5 6 7 2 0x100100) s') = Ok tt s3 ∧
    lget s3 = mkRegs 0 0 0 0 0xC0002000 0 0 0 0x202 0xC0000000 ∧ cr3 (lget s3) = D * 4096 ∧
    ∀ i, 0 ≤ i < num_pages 5000 * 4096 → ¬ (4096 ≤ i < 8192) →
      ∃ pa, translate (lget s3) (cr3 (lget s3)) (0xC0000000 + i) = Some (pa, true, true) ∧
        get8 (lget s3) pa = code_byte (lget sP) 0x200000 5000 i.
Proof.
  destruct (created_process_starts dir (n + 1) (n + 2) sP kt blocks0 (heap0 + HDR) [mkBlock heap0 40 false; mkBlock (heap0 + 52) 4032 true] 0x200000 5000 true)
    as (D & s' & R & H); [exact sP_ok|reflexivity|exact sP_loadable| |].
  - intros b a [->|[]%not_elem_of_nil]%elem_of_cons Ha. unfold b_end, HDR. cbn. lia.
  - destruct (H (mkRegs 1 2 3 4 0x108000 5 6 7 2 0x100100) 0x107 4096 0x100123) as (s3 & H3); [reflexivity|lia|reflexivity| |].
    + intros x Hx. apply sP_source. lia.
    + exists D, s', s3. split; [exact R|exact H3].
Defined.

(** The three programs of kernel.c, somewhere in the kernel's data. *)
Definition idle_code : Z * Z := (0x108000, 58).
Definition one_code : Z * Z := (0x108040, 30).
Definition two_code : Z * Z := (0x108060, 30).

Lemma sP_program c : 4096 ≤ c.1 → 0 < c.2 ≤ 4096 → c.1 + c.2 ≤ 0x300000 → program_ok dir sP kt blocks0 c.
Proof.
  intros H1 H2 H3. constructor.
  - lia.
  - unfold num_pages. Z.div_mod_to_equations; lia.
  - intros a Ha. apply sP_source. lia.
  - intros b a [->|[]%not_elem_of_nil]%elem_of_cons Ha. unfold b_end, HDR. cbn. lia.
Qed.

Lemma sP_memory k : (k <= 100)%nat → memory_for sP kt k.
Proof.
  destruct sP_all as (_ & Hbm & Hu & _). intros Hk. split.
  - exists (seqZ (n + 3) (Z.of_nat (2 * k))). split_and!; [apply NoDup_seqZ|rewrite length_seqZ; lia|].
    intros f [Hf1 Hf2]%elem_of_seqZ. rewrite Hbm. cbn [total_bits]. split_and!; [lia..|].
    specialize (Hu f ltac:(lia)). unfold frame_used in Hu. rewrite Hbm in Hu. rewrite Hu. apply Z.ltb_ge. lia.
  - exists (seqZ 2 (Z.of_nat k)). split_and!; [apply NoDup_seqZ|rewrite length_seqZ; lia|].
    intros i [Hi1 Hi2]%elem_of_seqZ. split_and!; [lia..|].
    unfold boot_tables. rewrite !lookup_insert_ne by lia. by rewrite lookup_empty.
Qed.

Definition lists : list Z := default [] (fst <$> make_lists 5 blocks0).
Definition heap_after (k : nat) : list block :=
  Nat.iter k (λ bs, default [] (snd <$> alloc_spec SIZEOF_PCB bs)) (default [] (snd <$> make_lists 5 blocks0)).
Definition pcb_at (k : nat) : Z := default 0 (fst <$> alloc_spec SIZEOF_PCB (heap_after k)).

Lemma sched_init_ready_witness :
  ∃ pcb kt' s', sched_init 0x107F00 idle_code.1 idle_code.2 true sP = Ok tt s' ∧ kernel_ok dir (n + 1) (n + 2) s' kt' (heap_after 1) ∧
    state pcb = STATE_READY ∧
    let A := mkA {[pcb_at 0 := pcb]} [[]; []; []; []; []] NULL (pcb_at 0) in srep lists s' A ∧ ainv ∅ A.
Proof.
  apply (sched_init_ready dir (n + 1) (n + 2) 0x107F00 sP kt blocks0 lists (heap_after 0) (pcb_at 0) (heap_after 1) idle_code true).
  - exact sP_ok.
  - vm_compute. reflexivity.
  - vm_compute. reflexivity.
  - vm_compute. reflexivity.
  - apply sP_program; cbn; lia.
  - apply sP_memory. vm_compute. lia.
Defined.

Lemma start_processes_ready_witness :
  ∃ procs s', start_processes 0x107F00 idle_code one_code two_code sP = Ok tt s' ∧ dom procs = {[pcb_at 0; pcb_at 1; pcb_at 2]} ∧
    let A := mkA procs [[pcb_at 1; pcb_at 2]; []; []; []; []] NULL (pcb_at 0) in srep lists s' A ∧ ainv ∅ A.
Proof.
  apply (start_processes_ready dir (n + 1) (n + 2) 0x107F00 sP kt blocks0 lists (heap_after 0) (pcb_at 0) (heap_after 1) (pcb_at 1) (heap_after 2)
    (pcb_at 2) (heap_after 3) idle_code one_code two_code).
  - exact sP_ok.
  - vm_compute. reflexivity.
  - vm_compute. reflexivity.
  - vm_compute. reflexivity.
  - vm_compute. reflexivity.
  - vm_compute. reflexivity.
  - apply sP_program; cbn; lia.
  - apply sP_program; cbn; lia.
  - apply sP_program; cbn; lia.
  - apply sP_memory. vm_compute. lia.
Defined.
End ProcessExample.
