(* ===== verification/SwitchExample.v ===== *)
(** * SwitchExample: two processes taking turns

    Directories at 0x1000 and 0x2000, with the table of the low pages at
    0x3000 shared; the page 0xC0001000 is frame 6 in the first and frame 7
    in the second; the control blocks are at 0x8000 and 0x8100. *)

From S2P Require Import Prelude Memory Paging Mmu Pcb Switch VmmExample.
Import VmmExample.

Module SwitchExample.
Definition words (m : mem) (l : list (Z * Z)) : mem := foldr (λ '(a, w) m, st32 m a w) m l.
Definition tables : mem :=
  words ∅ [(0x1000, 0x3003); (0x2000, 0x3003); (entry 0x1000 768, 0x4007); (entry 0x2000 768, 0x5007);
           (entry 0x3000 8, 0x8003); (entry 0x4000 1, 0x6007); (entry 0x5000 1, 0x7007)].
(** The first process in a call of [context_switch]; the second as it was
    made. *)
Definition mA : mem :=
  words tables [(0x6F00, 0x100200); (0x6F04, 0x8000 + OFF_STACK); (0x6F08, 0xC0001FD8); (0x6F0C, 0x2000);
                (0x7FD8, 0x202); (0x7FFC, 0xC0000000)].
Definition rA : Regs := mkRegs 1 2 3 4 0xC0001F00 5 6 7 0x246 0x100300.
Definition sA : machine := lput rA (lput (mkCpu 0x80000011 0x1000 ∅ 0x1000) (blank mA 0)).
Definition s1 : machine := state_of (context_switch sA).
(** The second, later, in such a call. *)
Definition sB : machine :=
  lput (mkRegs 11 12 13 14 0xC0001F80 15 16 17 0x202 0x100300)
    (lput (words (lget s1) [(0x7F80, 0x100200); (0x7F84, 0x8100 + OFF_STACK); (0x7F88, 0xC0001EDC); (0x7F8C, 0x1000)]) s1).

Lemma rA_ok : regs_ok (lget sA).
Proof. change (regs_ok rA). split; [repeat (constructor; [cbn; lia|])|]; [constructor|reflexivity]. Qed.

Lemma sA_frame : frame_at (lget sA) (lget sA) (lget sA) 0xC0001 6 0xF00 0x8024 0x2000 0xC0001 0xFD8.
Proof.
  constructor.
  - split_and!; [lia..|reflexivity].
  - right. split; vm_compute; reflexivity.
  - exists 8, 8, 0x24. split_and!; [vm_compute; reflexivity|lia..|]. right. split; vm_compute; reflexivity.
  - lia.
  - split_and!; [vm_compute; reflexivity|lia..].
  - vm_compute. reflexivity.
Qed.

Lemma sB_frame : frame_at (lget sB) (lget sB) (lget sB) 0xC0001 7 0xF80 0x8124 0x1000 0xC0001 (0xF00 - 36).
Proof.
  constructor.
  - split_and!; [lia..|reflexivity].
  - left. vm_compute. reflexivity.
  - exists 8, 8, 0x124. split_and!; [vm_compute; reflexivity|lia..|]. right. split; vm_compute; reflexivity.
  - lia.
  - split_and!; [vm_compute; reflexivity|lia..].
  - vm_compute. reflexivity.
Qed.

(** The words of the first process are as it left them. *)
Lemma sB_kept x : 0x6F00 - 36 ≤ x < 0x6F00 + 4 → get8 (switched_out (lget sB) 0x7F80 0x8124 (lget sB)) x = get8 (lget s1) x.
Proof.
  intros Hx. assert (forallb (λ x, get8 (switched_out (lget sB) 0x7F80 0x8124 (lget sB)) x =? get8 (lget s1) x) (seqZ (0x6F00 - 36) 40) = true) as H
    by (vm_compute; reflexivity).
  rewrite forallb_forall in H. apply Z.eqb_eq, H, list_elem_of_In, elem_of_seqZ. lia.
Qed.

Lemma switch_roundtrip_witness :
  context_switch sA = Ok tt s1 ∧ cr3 (lget s1) = 0x2000 ∧ ld32 (lget s1) 0x8024 = 0xC0001EDC ∧
  ∃ s3, context_switch sB = Ok tt s3 ∧ cr3 (lget s3) = 0x1000 ∧ lget s3 = mkRegs 1 2 3 4 0xC0001F04 5 6 7 0x246 0x100200.
Proof.
  destruct (switch_roundtrip sA 0xC0001 6 0xF00 0x8024 0x2000 0xC0001 0xFD8 7 rA_ok sA_frame) as (s1' & R & Hc & Hp & _ & H);
    [vm_compute; reflexivity|].
  assert (s1 = s1') as E by (unfold s1; rewrite R; reflexivity). rewrite <- E in *.
  destruct (H sB 0xC0001 7 0xF80 0x8124 0x1000 sB_frame) as (s3 & R3 & Hc3 & Hr3);
    [reflexivity|vm_compute; reflexivity|exact sB_kept|].
  split; [exact R|split; [exact Hc|split; [exact Hp|]]]. exists s3. split; [exact R3|split; [exact Hc3|]].
  rewrite Hr3. vm_compute. reflexivity.
Defined.
End SwitchExample.
