(* ===== verification/MainExample.v ===== *)
(** * MainExample: [kernel_main] on a concrete machine

    The machine of VmmExample.v with a terminal, ports and descriptor
    tables. *)

From S2P Require Import Prelude Memory KString PortIO Pmm KMemory Sched Io VTerm Screen Isr Tables Paging Mmu Process Switch Boot Main VmmExample.

Module MainExample.
Import VmmExample.
Record computer : Type := mkComputer { base : machine; m_term : VTerm; m_ports : Ports; m_tables : Tables }.

#[export] Instance lens_base : Lens computer machine.
Proof. refine {| lget := base; lput x s := mkComputer x (m_term s) (m_ports s) (m_tables s) |}; by intros; destruct s. Defined.
#[export] Instance lens_term : Lens computer VTerm.
Proof. refine {| lget := m_term; lput x s := mkComputer (base s) x (m_ports s) (m_tables s) |}; by intros; destruct s. Defined.
#[export] Instance lens_ports : Lens computer Ports.
Proof. refine {| lget := m_ports; lput x s := mkComputer (base s) (m_term s) x (m_tables s) |}; by intros; destruct s. Defined.
#[export] Instance lens_tables : Lens computer Tables.
Proof. refine {| lget := m_tables; lput x s := mkComputer (base s) (m_term s) (m_ports s) x |}; by intros; destruct s. Defined.

(** What the machine has, in the computer. *)
#[export] Instance c_mem : Lens computer mem := lens_comp lens_base lens_mem.
#[export] Instance c_pmm : Lens computer PmmStatics := lens_comp lens_base lens_pmm.
#[export] Instance c_cpu : Lens computer Cpu := lens_comp lens_base lens_cpu.
#[export] Instance c_isr : Lens computer IsrTables := lens_comp lens_base lens_isr.
#[export] Instance c_heap : Lens computer HeapStatics := lens_comp lens_base lens_heap.
#[export] Instance c_proc : Lens computer ProcStatics := lens_comp lens_base lens_proc.
#[export] Instance c_regs : Lens computer Regs := lens_comp lens_base lens_regs.
#[export] Instance c_sched : Lens computer Scheduler := lens_comp lens_base lens_sched.

#[export] Instance c_mh : Apart c_mem c_heap := apart_comp _ _ _ _.
#[export] Instance c_mi : Apart c_mem c_isr := apart_comp _ _ _ _.
#[local] Instance base_term : Apart lens_base lens_term.
Proof. by constructor. Qed.
#[local] Instance base_ports : Apart lens_base lens_ports.
Proof. by constructor. Qed.
#[local] Instance base_tables : Apart lens_base lens_tables.
Proof. by constructor. Qed.
#[export] Instance c_mv : Apart c_mem lens_term := apart_comp_l _ _ _ _.
#[export] Instance c_mp : Apart c_mem lens_ports := apart_comp_l _ _ _ _.
#[export] Instance c_mt : Apart c_mem lens_tables := apart_comp_l _ _ _ _.
#[export] Instance c_vp : Apart lens_term lens_ports.
Proof. by constructor. Qed.
#[export] Instance c_vt : Apart lens_term lens_tables.
Proof. by constructor. Qed.
#[export] Instance c_pt : Apart lens_ports lens_tables.
Proof. by constructor. Qed.
#[export] Instance c_vi : Apart lens_term c_isr.
Proof. by constructor. Qed.
#[export] Instance c_pi : Apart lens_ports c_isr.
Proof. by constructor. Qed.
#[export] Instance c_ti : Apart lens_tables c_isr.
Proof. by constructor. Qed.

#[export] Instance c_mr : Apart c_mem c_regs.
Proof. by constructor. Qed.
#[export] Instance c_tr : Apart lens_tables c_regs.
Proof. by constructor. Qed.
#[export] Instance c_ir : Apart c_isr c_regs.
Proof. by constructor. Qed.

(** An information block at 0x9500 with the given flags. *)
Definition info (flags : Z) : mem := st32 ∅ 0x9500 flags.
Definition computer0 (flags : Z) : computer :=
  mkComputer (blank (info flags) 0) (mkVTerm ∅ 0 0 7 0 (mkCursor CURSOR_SHAPE_BLOCK true) BUFFER_MODE_STREAM)
    (mkPorts [] (λ _ _, 0)) TablesExample.tables0.
Definition stub (v : Z) : Z := 0x101000 + 16 * v.

Lemma kernel_main_checks_witness : let s := computer0 0x240 in
  ∃ s1 : computer,
    kernel_main 0x104000 0x105000 stub 0x100200 0x100300 0x100400 0x100500 0x100000 0x110000 0x120000 0x9000 0x8000 0x8100 0x8200 0x2BADB002 0x9500 s =
      kernel_run 0x100300 0x100400 0x100500 0x100000 0x110000 0x120000 0x9000 0x8000 0x8100 0x8200 0x9500 s1 ∧
    off_screen_same (lget s) (lget s1) ∧ mirror (lget s1) (lget s1) ∧
    (∀ r c, on_screen r c → cell_at (lget s1) r c = mkCell 32 COLOR_WHITE COLOR_BLACK) ∧
    isr_ok (lget s1) ∧ (∀ w, direct w → handler_of (lget s1) w = if w <? 32 then 0x100200 else 0) ∧
    segs (lget s1) = set_idtr (mkReg 2047 0x105000) (flat_segs 0x104000 (segs (lget s))) ∧
    ∀ w, 0 ≤ w < 256 → ∃ g, idt (lget s1) !! Z.to_nat w = Some g ∧
      gate_offset g = stub w ∧ selector g = 0x08 ∧ gate_present g = true ∧ gate_type g = 0xE.
Proof.
  intros s. refine (kernel_main_checks 0x104000 0x105000 stub 0x100200 0x100300 0x100400 0x100500 0x100000 0x110000 0x120000 0x9000 0x8000 0x8100 0x8200 s 0x2BADB002 0x9500 _ _ _ _ _ _);
    [reflexivity|reflexivity|by split_and!|unfold stub; lia|unfold mapped, IDENT_LO, IDENT_HI; lia|unfold off_framebuffer, FRAMEBUFFER; lia].
Defined.

(** As the boot loader leaves it; the kernel's stack at 0x10C000. *)
Definition computer1 : computer := lput (mkRegs 0x2BADB002 0 0 0x9500 0x8F00 0 0 0 2 0x100000) (computer0 0x240).

Lemma boot_checks_witness : let s := computer1 in
  ∃ s1 : computer,
    loader 0x104000 0x105000 stub 0x100200 0x100300 0x100400 0x100500 0x100000 0x110000 0x120000 0x9000 0x8000 0x8100 0x8200 0x10C000 0x100020 s =
      kernel_run 0x100300 0x100400 0x100500 0x100000 0x110000 0x120000 0x9000 0x8000 0x8100 0x8200 0x9500 s1 ∧
    (∀ x, ¬ in_framebuffer x → ¬ (0x10FFF4 ≤ x < 0x110000) → get8 (lget s1) x = get8 (lget s) x) ∧ mirror (lget s1) (lget s1) ∧
    (∀ r c, on_screen r c → cell_at (lget s1) r c = mkCell 32 COLOR_WHITE COLOR_BLACK) ∧
    isr_ok (lget s1) ∧ (∀ w, direct w → handler_of (lget s1) w = if w <? 32 then 0x100200 else 0) ∧
    segs (lget s1) = set_idtr (mkReg 2047 0x105000) (flat_segs 0x104000 (segs (lget s))) ∧
    ∀ w, 0 ≤ w < 256 → ∃ g, idt (lget s1) !! Z.to_nat w = Some g ∧
      gate_offset g = stub w ∧ selector g = 0x08 ∧ gate_present g = true ∧ gate_type g = 0xE.
Proof.
  intros s. refine (boot_checks 0x104000 0x105000 stub 0x100200 0x100300 0x100400 0x100500 0x100000 0x110000 0x120000 0x9000 0x8000 0x8100 0x8200 s 0x10C000 0x100020 _ _ _ _ _ _ _ _ _);
    [reflexivity|reflexivity|by split_and!|unfold stub; lia|unfold mapped, KERNEL_STACK_SIZE, IDENT_LO, IDENT_HI; lia|
     change (0 ≤ 0x2BADB002 < 4294967296); lia|change (mapped 0x9500 4); unfold mapped, IDENT_LO, IDENT_HI; lia|
     change (off_framebuffer 0x9500 4); unfold off_framebuffer, FRAMEBUFFER; lia|left; change (0x9500 + 4 ≤ 0x10C000 + KERNEL_STACK_SIZE - 12); unfold KERNEL_STACK_SIZE; lia].
Defined.
End MainExample.
