(* ===== verification/PreemptExample.v ===== *)
(** * PreemptExample: two processes and the timer

    The scheduler of SchedExample with page tables: the directories of the
    processes at 0x301000 and 0x302000, the table of the low pages, shared,
    at 0x310000, their code tables at 0x311000 and 0x312000, their stacks in
    frames 0x321 and 0x322. *)

From S2P Require Import Prelude Memory KString ListDS PortIO Pic Pcb Sched SchedInv SchedSpec Paging Mmu Switch Preempt.

Module PreemptExample.
Import SchedExample.

Record machine : Type := mkMachine { m_mem : mem; m_sched : Scheduler; m_ports : Ports; m_cpu : Cpu; m_regs : Regs }.

#[local] Instance lens_mem : Lens machine mem.
Proof. refine {| lget := m_mem; lput x s := mkMachine x (m_sched s) (m_ports s) (m_cpu s) (m_regs s) |}; by intros; destruct s. Defined.
#[local] Instance lens_sched : Lens machine Scheduler.
Proof. refine {| lget := m_sched; lput x s := mkMachine (m_mem s) x (m_ports s) (m_cpu s) (m_regs s) |}; by intros; destruct s. Defined.
#[local] Instance lens_ports : Lens machine Ports.
Proof. refine {| lget := m_ports; lput x s := mkMachine (m_mem s) (m_sched s) x (m_cpu s) (m_regs s) |}; by intros; destruct s. Defined.
#[local] Instance lens_cpu : Lens machine Cpu.
Proof. refine {| lget := m_cpu; lput x s := mkMachine (m_mem s) (m_sched s) (m_ports s) x (m_regs s) |}; by intros; destruct s. Defined.
#[local] Instance lens_regs : Lens machine Regs.
Proof. refine {| lget := m_regs; lput x s := mkMachine (m_mem s) (m_sched s) (m_ports s) (m_cpu s) x |}; by intros; destruct s. Defined.
#[local] Instance apart_ms : Apart lens_mem lens_sched.
Proof. by constructor. Qed.
#[local] Instance apart_mp : Apart lens_mem lens_ports.
Proof. by constructor. Qed.
#[local] Instance apart_sp : Apart lens_sched lens_ports.
Proof. by constructor. Qed.
#[local] Instance apart_mc : Apart lens_mem lens_cpu.
Proof. by constructor. Qed.
#[local] Instance apart_mr : Apart lens_mem lens_regs.
Proof. by constructor. Qed.
#[local] Instance apart_cr : Apart lens_cpu lens_regs.
Proof. by constructor. Qed.
#[local] Instance apart_sc : Apart lens_sched lens_cpu.
Proof. by constructor. Qed.
#[local] Instance apart_sr : Apart lens_sched lens_regs.
Proof. by constructor. Qed.
#[local] Instance apart_pc : Apart lens_ports lens_cpu.
Proof. by constructor. Qed.
#[local] Instance apart_pr : Apart lens_ports lens_regs.
Proof. by constructor. Qed.

(** The words above the scheduler's: tables, and the stack [create_pcb] has
    prepared for the second process. *)
Definition above : list (Z * Z) :=
  [(0x301000, 0x310003); (0x302000, 0x310003); (0x310018, 0x6003);
   (entry 0x301000 768, 0x311007); (entry 0x302000 768, 0x312007); (entry 0x311000 1, 0x321007); (entry 0x312000 1, 0x322007);
   (0x322FD8, 0x202); (0x322FFC, 0xC0000000)].
Definition with_words (m : mem) (l : list (Z * Z)) : mem := foldr (λ '(a, w) m, st32 m a w) m l.

(** The first process on its last tick, in the handler. *)
Definition regs1 : Regs := mkRegs 1 2 3 4 0xC0001F80 5 6 7 0x202 0x100300.
Definition regs2 : Regs := mkRegs 0 0 0 0 0xC0002000 0 0 0 0x202 0xC0000000.
Definition build (o : SchedExample.machine) (r : Regs) : machine :=
  mkMachine (with_words (SchedExample.m_mem o) above) (SchedExample.m_sched o) (mkPorts [] (λ _ _, 0)) (mkCpu 0x80000011 0x301000 ∅ 0x301000) r.
Definition s1 : machine := build (machine_at run1) regs1.
Definition A1 : asched := sched_at run1.
Definition R1 : gmap Z Regs := {[p2 := regs2]}.

Definition within (l : list (Z * Z)) (x : Z) : Prop := Exists (λ '(a, n), a ≤ x < a + n) l.
Definition K1 : Z → Prop := within [(0x301000, 4); (0x302000, 4); (0x310018, 4)].
Definition own1 (p : Z) (x : Z) : Prop :=
  (p = p1 ∧ within [(entry 0x301000 768, 4); (entry 0x311000 1, 4); (0x321000, 4096)] x) ∨
  (p = p2 ∧ within [(entry 0x302000 768, 4); (entry 0x312000 1, 4); (0x322000, 4096)] x).

Lemma with_words_other m l x : (∀ a w, (a, w) ∈ l → x < a ∨ a + 4 ≤ x) → get8 (with_words m l) x = get8 m x.
Proof.
  induction l as [|[a w] l IH]; intros Hl; [done|]. cbn. rewrite get8_st32_ne.
  - apply IH. intros a' w' H. by apply (Hl a' w'), list_elem_of_further.
  - destruct (Hl a w (list_elem_of_here _ _)); lia.
Qed.

Lemma run1_plays : plays run1 = true.
Proof. vm_compute. reflexivity. Qed.

(** The scheduler's data is below the tables. *)
Lemma sched_low A x : dom (a_procs A) = dom procs0 → sched_bytes lists0 (dom (a_procs A)) x → x < 0x10000.
Proof.
  intros ->. unfold SIZEOF_LIST, SIZEOF_PCB. intros [(a & [i Ha%lists0_elem]%list_elem_of_lookup & Hx)|(p & [c Hc]%elem_of_dom & Hx)].
  - unfold SIZEOF_LIST in Hx. lia.
  - apply procs0_inv in Hc. unfold SIZEOF_PCB, idle0, p1, p2, p3 in *. lia.
Qed.

Lemma A1_low x : sched_bytes lists0 (dom (a_procs A1)) x → x < 0x10000.
Proof. apply sched_low, (at_dom run1 run1_plays). Qed.

Lemma within_cons a n l x : within ((a, n) :: l) x ↔ a ≤ x < a + n ∨ within l x.
Proof. apply Exists_cons. Qed.
Lemma within_nil x : within [] x ↔ False.
Proof. apply Exists_nil. Qed.

Lemma separate1 : separate lists0 (dom (a_procs A1)) K1 own1.
Proof.
  constructor; unfold K1, own1, entry.
  - intros x Hx Hs%A1_low. rewrite !within_cons, within_nil in Hx. lia.
  - intros p x Hx. split; [intros Hs%A1_low|]; rewrite !within_cons, !within_nil in *; lia.
  - intros p q x Hne Hp Hq. rewrite !within_cons, !within_nil in *. unfold p1, p2 in *. lia.
Qed.

Lemma above_high a w : (a, w) ∈ above → 0x10000 ≤ a.
Proof.
  intros H%list_elem_of_In. assert (forallb (λ '(a, _), 0x10000 <=? a) above = true) as E by (vm_compute; reflexivity).
  rewrite forallb_forall in E. by apply Z.leb_le, (E _ H).
Qed.

Lemma build_rep o r A : srep (LM:=SchedExample.lens_mem) (LS:=SchedExample.lens_sched) lists0 o A → dom (a_procs A) = dom procs0 → srep lists0 (build o r) A.
Proof.
  intros [Hd Hs] Hdom. constructor; [|exact Hs]. eapply data_rep_ext; [exact Hd|].
  intros x Hx%sched_low; [|done]. apply with_words_other. intros a w Ha%above_high. lia.
Qed.

Lemma s1_rep : srep lists0 s1 A1.
Proof. apply build_rep; [exact (at_rep run1 run1_plays)|exact (at_dom run1 run1_plays)]. Qed.

(** A walk, by evaluation. *)
Lemma walk_at m O dir p F i j t : p / 1024 = i → p mod 1024 = j → frame_addr (ld32 m (entry dir i)) * 4096 = t → page_frame m dir p = Some F →
  (∀ x, entry dir i ≤ x < entry dir i + 4 → O x) → (∀ x, entry t j ≤ x < entry t j + 4 → O x) → walk m O dir p F.
Proof. intros <- <- <- Hf Hd Ht. by constructor. Qed.

Lemma regs2_parked : parked (m_mem s1) (own1 p2) (pcb_of 2 40) regs2.
Proof.
  exists 0xC0001, 0xFD8, 0x322. split_and!; [reflexivity|lia|lia|lia|lia| | |].
  - apply (walk_at _ _ _ _ _ 768 1 0x312000); [reflexivity|reflexivity|vm_compute; reflexivity|vm_compute; reflexivity| |]; intros x Hx; right; (split; [done|]);
      rewrite !within_cons; [left|right; left]; exact Hx.
  - intros x Hx. right. split; [done|]. rewrite !within_cons. right. right. left. lia.
  - intros f Hf. transitivity (mkRegs 0 0 0 0 0xC0002000 0 0 0 (popf_flags f (u32 (pushf_image 0x202))) 0xC0000000).
    + unfold resume. f_equal.
    + rewrite pop_push_flags; done.
Qed.

Lemma contexts1 : contexts own1 (lget s1) A1 R1.
Proof.
  split; [vm_compute; reflexivity|]. unfold R1. intros p r [<- <-]%lookup_singleton_Some. exists (pcb_of 2 40).
  split; [vm_compute; reflexivity|exact regs2_parked].
Qed.

Lemma system1 : system lists0 K1 own1 (created_at run1) s1 A1 R1.
Proof. constructor; [by apply at_inv, run1_plays|exact s1_rep|exact separate1|exact contexts1]. Qed.

Definition handler1 : M machine unit := sched_timer_handler lits0 (call_context_switch 0x100250) (call_bootstrap 0x100260).
Definition pcb1 : ProcessControlBlock := mkPcb 1 STATE_RUNNING 0 1 0 0x700000 0x301000 0xC0001FD8.

Ltac in_ranges := intros x Hx; cbn [address_space_physical pcb1 cr3] in Hx; cbv beta; unfold K1, own1; rewrite ?within_cons, ?within_nil; unfold entry, p1, p2 in *; lia.

Lemma regs1_ok : regs_ok regs1.
Proof. split; [repeat (constructor; [cbn; lia|]); constructor|reflexivity]. Qed.

Lemma quantum_ends1 : quantum_ends K1 own1 s1 A1 R1 pcb1 [] 0 p2 [] (pcb_of 2 40) regs2.
Proof.
  constructor.
  - split; [exact run1_running|reflexivity].
  - vm_compute. reflexivity.
  - split; [lia|]. split; [vm_compute; reflexivity|]. intros j Hj. lia.
  - vm_compute. reflexivity.
  - apply lookup_singleton_eq.
  - exists 0xC0001, 0x321, 0xF80. change (a_cur A1) with p1. constructor.
    + split_and!; [reflexivity|lia..].
    + exact regs1_ok.
    + reflexivity.
    + in_ranges.
    + apply (walk_at _ _ _ _ _ 768 1 0x311000); [reflexivity|reflexivity|vm_compute; reflexivity|vm_compute; reflexivity|in_ranges|in_ranges].
    + intros f Hf. vm_compute in Hf. discriminate Hf.
  - change (a_cur A1) with p1. constructor.
    + split; [vm_compute; done|vm_compute; done].
    + change (cr3 (lget s1)) with 0x301000. apply (walk_at _ _ _ _ _ 0 6 0x310000); [reflexivity|reflexivity|vm_compute; reflexivity|vm_compute; reflexivity|in_ranges|in_ranges].
    + intros f Hf. vm_compute in Hf. discriminate Hf.
Qed.

Lemma preempt_switches_witness :
  let A' := turned A1 pcb1 [] 0 p2 [] (pcb_of 2 40) 0xC0001F4C in
  ∃ s', handler1 s1 = Ok tt s' ∧ lget s' = regs2 ∧ cr3 (lget s') = 0x302000 ∧ current_pcb (lget s') = p2 ∧
    srep lists0 s' A' ∧ ainv (created_at run1) A' ∧
    parked (lget s') (own1 p1) (set_stack 0xC0001F4C (demoted pcb1)) (mkRegs 1 2 3 4 0xC0001F74 5 6 7 0x202 0x100250) ∧
    ∀ p' r', R1 !! p' = Some r' → p' ≠ p2 → ∃ e, a_procs A' !! p' = Some e ∧ parked (lget s') (own1 p') e r'.
Proof.
  apply (preempt_switches lits0 lists0 0x100250 0x100260 ltac:(lia) K1 own1 (created_at run1) s1 A1 R1 pcb1 [] 0 p2 [] (pcb_of 2 40) regs2
    system1 quantum_ends1).
Defined.

(** The second process computes: it writes to its stack page and has other
    registers; then the timer comes [n] times. *)
Definition regs2' : Regs := mkRegs 11 12 13 14 0xC0001900 15 16 17 0x246 0x100280.
Definition busy (s : machine) : machine :=
  mkMachine (st32 (m_mem s) 0x322800 0x1234) (m_sched s) (m_ports s) (m_cpu s) regs2'.

Definition ticking (A : asched) : bool :=
  negb (a_cur A =? a_idle A) &&
  match a_procs A !! a_cur A with Some c => bool_decide (state c = STATE_RUNNING) && negb (quantum_remaining c =? 1) | None => false end.

Fixpoint ticks (n : nat) (s : machine) (A : asched) : option (machine * asched) :=
  match n with
  | O => Some (s, A)
  | S n =>
      if ticking A then
        match atick A, handler1 s with
        | Some A', Ok _ s' => ticks n s' A'
        | _, _ => None
        end
      else None
  end.

Lemma ticks_go U R n : ∀ s A s' A', ticks n s A = Some (s', A') → goes lits0 lists0 0x100250 0x100260 K1 own1 U s A R [] s' A' R.
Proof.
  induction n as [|n IH]; intros s A s' A' H; cbn in H; [injection H as <- <-; constructor|].
  destruct (ticking A) eqn:Ht; [|done]. unfold ticking in Ht.
  destruct (Z.eqb_spec (a_cur A) (a_idle A)) as [|Hne]; [done|]. cbn [negb andb] in Ht.
  destruct (a_procs A !! a_cur A) as [c|] eqn:Hc; [|done]. apply andb_prop in Ht as [Hs%bool_decide_eq_true Hq%negb_true_iff%Z.eqb_neq].
  destruct (atick A) as [A2|] eqn:Ha; [|done]. destruct (handler1 s) as [[] s2|e] eqn:Hh; [|done].
  eapply (go_tick lits0 lists0 0x100250 0x100260 K1 own1 U s A R c A2 s2); [by split_and!|done|exact Ha|exact Hh|by apply IH].
Qed.

Definition s2 : machine := state_of (handler1 s1).
Definition A2 : asched := turned A1 pcb1 [] 0 p2 [] (pcb_of 2 40) 0xC0001F4C.
Definition R2 : gmap Z Regs := <[p1 := mkRegs 1 2 3 4 0xC0001F74 5 6 7 0x202 0x100250]> (delete p2 R1).
Definition after : machine * asched := from_option id (s2, A2) (ticks 39 (busy s2) A2).

Lemma after_ticks : ticks 39 (busy s2) A2 = Some after.
Proof. unfold after. destruct (ticks 39 (busy s2) A2) eqn:E; [done|]. exfalso. revert E. vm_compute. discriminate. Qed.

Lemma busy_goes U s A R ps s' A' R' : a_cur A = p2 → goes lits0 lists0 0x100250 0x100260 K1 own1 U (busy s) A R ps s' A' R' →
  goes lits0 lists0 0x100250 0x100260 K1 own1 U s A R ps s' A' R'.
Proof.
  intros Hp. apply go_work; [|reflexivity]. rewrite Hp.
  intros x Hx. apply get8_st32_ne. destruct (Z.lt_ge_cases x 0x322800); [lia|]. destruct (Z.lt_ge_cases x 0x322804); [|lia].
  exfalso. apply Hx. right. split; [reflexivity|]. rewrite !within_cons. right. right. left. lia.
Qed.

Lemma ticks_goes U R n s A sa : ticks n s A = Some sa → goes lits0 lists0 0x100250 0x100260 K1 own1 U s A R [] sa.1 sa.2 R.
Proof. destruct sa. apply ticks_go. Qed.

Lemma goes1 U : goes lits0 lists0 0x100250 0x100260 K1 own1 U s2 A2 R2 [] after.1 after.2 R2.
Proof. exact (busy_goes U s2 A2 R2 [] after.1 after.2 R2 eq_refl (ticks_goes U R2 39 (busy s2) A2 after after_ticks)). Qed.

(** The second process's last tick; the first one is next, on level 1. *)
Definition pcb2 : ProcessControlBlock := mkPcb 2 STATE_RUNNING 0 1 0 0x700000 0x302000 0xC0001FD8.
Definition pcb1' : ProcessControlBlock := mkPcb 1 STATE_READY 1 80 39 0x700000 0x301000 0xC0001F4C.

Lemma after_regs : lget after.1 = regs2'.
Proof. vm_compute. reflexivity. Qed.
Lemma after_cpu : lget after.1 = mkCpu 0x80000011 0x302000 {[0xC0001 := 0x322]} 0x301000.
Proof. vm_compute. reflexivity. Qed.
Lemma after_cur : a_cur after.2 = p2.
Proof. vm_compute. reflexivity. Qed.

Lemma regs2_ok : regs_ok regs2'.
Proof. split; [repeat (constructor; [cbn; lia|]); constructor|reflexivity]. Qed.

Lemma quantum_ends2 : quantum_ends K1 own1 after.1 after.2 R2 pcb2 [p1] 1 p1 [p2] pcb1' (mkRegs 1 2 3 4 0xC0001F74 5 6 7 0x202 0x100250).
Proof.
  constructor.
  - split; [split_and!; vm_compute; done|reflexivity].
  - vm_compute. reflexivity.
  - split; [lia|]. split; [vm_compute; reflexivity|]. intros j Hj. assert (j = 0%nat) as -> by lia. vm_compute. reflexivity.
  - vm_compute. reflexivity.
  - apply lookup_insert_eq.
  - exists 0xC0001, 0x322, 0x900. rewrite after_regs, after_cpu, after_cur. constructor.
    + split_and!; [reflexivity|lia..].
    + exact regs2_ok.
    + reflexivity.
    + in_ranges.
    + change (address_space_physical pcb2) with 0x302000.
      apply (walk_at _ _ _ _ _ 768 1 0x312000); [reflexivity|reflexivity|vm_compute; reflexivity|vm_compute; reflexivity|in_ranges|in_ranges].
    + intros f Hf. vm_compute in Hf. by injection Hf as <-.
  - rewrite after_cpu, after_cur. constructor.
    + split; vm_compute; discriminate.
    + change (cr3 (mkCpu 0x80000011 0x302000 {[0xC0001 := 0x322]} 0x301000)) with 0x302000.
      apply (walk_at _ _ _ _ _ 0 6 0x310000); [reflexivity|reflexivity|vm_compute; reflexivity|vm_compute; reflexivity|in_ranges|in_ranges].
    + intros f Hf. vm_compute in Hf. discriminate Hf.
Qed.

Lemma preempted_process_resumes_witness :
  handler1 s1 = Ok tt s2 ∧ lget s2 = regs2 ∧
  ∃ s3, handler1 after.1 = Ok tt s3 ∧ lget s3 = mkRegs 1 2 3 4 0xC0001F74 5 6 7 0x202 0x100250 ∧ cr3 (lget s3) = 0x301000.
Proof.
  destruct (preempted_process_resumes lits0 lists0 0x100250 0x100260 ltac:(lia) K1 own1 (created_at run1) s1 A1 R1 pcb1 [] 0 p2 [] (pcb_of 2 40) regs2
    system1 quantum_ends1) as (s2' & Hh & Hr & H).
  assert (s2 = s2') as E by (unfold s2, handler1; rewrite Hh; reflexivity). rewrite <- E in *.
  split; [exact Hh|split; [exact Hr|]].
  destruct (H [] after.1 after.2 R2 pcb2 [p1] 1%nat [p2] pcb1' _ (goes1 (created_at run1)) (not_elem_of_nil _) quantum_ends2) as (s3 & H3 & Hr3 & Hc3).
  exists s3. split; [exact H3|split; [exact Hr3|exact Hc3]].
Defined.
End PreemptExample.
