(* ===== verification/ExhaustExample.v ===== *)
(** * ExhaustExample: creating a process with almost no memory left

    The machine of [ProcessExample] with so little memory that after the boot,
    or after the boot and one page given out, at most three frames are free. *)

From S2P Require Import Prelude Memory Bitmap Pmm Isr KMemory Pcb Paging Mmu Vmm VmmSpec AddrSpace VmmState Process ProcessSpec Boot Exhaust VmmExample ProcessExample.
Import VmmExample ProcessExample.

Module ExhaustExample.

(** After the boot [k] frames are left. *)
Definition sQ (k : Z) : machine := boot (set8 (st32 ∅ heap0 4084) (heap0 + OFF_IS_FREE) 1) heap0 ((1028 + k) * 4096) 0x400F7C.

Section booted.
Context (k : Z) (Hk : 0 ≤ k ≤ 28).

Lemma sQ_all : ok (sQ k) kt ∧ frame_bitmap (lget (sQ k)) = mkBitmap 0x400F7C (1028 + k) ∧
  (∀ f, 0 ≤ f < 1028 + k → frame_used (sQ k) f = (f <? n + 3)) ∧ page_frame (lget (sQ k)) dir 0 = None ∧ heap_start (lget (sQ k)) = heap0 ∧
  ∀ x, x < 0x400F7C → get8 (lget (sQ k)) x = get8 (set8 (st32 ∅ heap0 4084) (heap0 + OFF_IS_FREE) 1) x.
Proof using Hk.
  assert ((1028 + k) * 4096 / 4096 = 1028 + k) as E by (apply Z.div_mul; lia).
  destruct (boot_ok (set8 (st32 ∅ heap0 4084) (heap0 + OFF_IS_FREE) 1) heap0 ((1028 + k) * 4096) 0x400F7C) as (H1 & H2 & H3 & H4).
  - lia.
  - done.
  - unfold bitmap_end, words. cbn [total_bits]. unfold PMM_FRAME_SIZE. rewrite E. Z.div_mod_to_equations; lia.
  - rewrite E. lia.
  - rewrite E in *. exact (conj H1 (conj H2 (conj H3 H4))).
Qed.

Lemma sQ_source a : 4096 ≤ a < 0x400000 → source_ok (sQ k) dir (lget (sQ k)) kt a.
Proof using Hk.
  intros Ha. destruct sQ_all as (_ & Hbm & Hu & _).
  assert (1 ≤ a / 4096 < 0x400) as Hp by (clear -Ha; Z.div_mod_to_equations; lia). split_and!; [lia|lia| | |].
  - unfold off_bitmap. rewrite Hbm. cbn. lia.
  - split; [lia|]. intros i f. unfold boot_tables. rewrite !lookup_insert_Some, lookup_empty.
    intros [[_ <-]|[_ [[_ <-]|[_ ?]]]]; lia || done.
  - intros _. specialize (Hu (a / 4096) ltac:(lia)). unfold frame_used in Hu. rewrite Hu. apply Z.ltb_lt. lia.
Qed.

Lemma sQ_ok : kernel_ok dir (n + 1) (n + 2) (sQ k) kt blocks0.
Proof using Hk.
  destruct sQ_all as (Hok & Hbm & _ & _ & Hst & Hx). constructor; [exact Hok| |].
  - split; [unfold blocks0, IDENT_LO, IDENT_HI, b_end; cbn; unfold HDR; split_and!; done || lia|]. rewrite Hst.
    eapply (chain_ext_headers (set8 (st32 ∅ heap0 4084) (heap0 + OFF_IS_FREE) 1)); [|intros x (b & [->|[]%not_elem_of_nil]%elem_of_cons & Hb); apply Hx; unfold in_header, HDR in Hb; cbn in Hb; lia].
    vm_compute. split_and!; reflexivity.
  - intros b x [->|[]%not_elem_of_nil]%elem_of_cons Hb. apply sQ_source. unfold b_end, HDR in Hb. cbn in Hb. lia.
Qed.

Lemma sQ_left : frames_left (sQ k) (lget (sQ k)) (Z.to_nat k).
Proof using Hk.
  destruct sQ_all as (_ & Hbm & Hu & _). exists (seqZ (n + 3) k). split_and!; [apply NoDup_seqZ|apply length_seqZ|].
  intros f. rewrite elem_of_seqZ, Hbm. cbn [total_bits]. split; [|lia]. split.
  - intros [H1 H2]. split; [lia|]. specialize (Hu f ltac:(lia)). unfold frame_used in Hu. rewrite Hbm in Hu. rewrite Hu. apply Z.ltb_ge. lia.
  - intros [Hf Hb]. specialize (Hu f ltac:(lia)). unfold frame_used in Hu. rewrite Hbm, Hb in Hu. symmetry in Hu. apply Z.ltb_ge in Hu. lia.
Qed.
End booted.

(** Two of the free ones taken. *)
Lemma two_less (P P' : Z → bool) N (l : list Z) m f g : NoDup l → length l = (2 + m)%nat →
  (∀ j, (j ∈ l ↔ 0 ≤ j < N ∧ P j = false) ∧ (j ∈ l → j < 2047)) →
  f ≠ g → 0 ≤ f < N → P f = false → 0 ≤ g < N → P g = false → P' f = true → P' g = true →
  (∀ j, 0 ≤ j < N → j ≠ f → j ≠ g → P' j = P j) →
  ∃ l', NoDup l' ∧ length l' = m ∧ ∀ j, (j ∈ l' ↔ 0 ≤ j < N ∧ P' j = false) ∧ (j ∈ l' → j < 2047).
Proof.
  intros Hnd Hlen Hl Hfg Hf Hfb Hg Hgb Hf' Hg' Ho.
  destruct (proj1 (elem_of_Permutation l f) (proj2 (proj1 (Hl f)) (conj Hf Hfb))) as [l1 E1].
  assert (g ∈ l1) as Hg1 by (pose proof (proj2 (proj1 (Hl g)) (conj Hg Hgb)) as H; rewrite E1, elem_of_cons in H; naive_solver).
  destruct (proj1 (elem_of_Permutation l1 g) Hg1) as [l' E2]. rewrite E2 in E1. rewrite E1 in Hnd, Hlen.
  rewrite !NoDup_cons, elem_of_cons in Hnd. destruct Hnd as (Hfl & Hgl & Hnd). exists l'. split_and!; [done|cbn in Hlen; lia|].
  intros j. destruct (Hl j) as [Hj H2]. rewrite E1, !elem_of_cons in Hj, H2. split; [|auto]. split.
  - intros Hin. assert (j ≠ f ∧ j ≠ g) as [? ?] by naive_solver. destruct (proj1 Hj) as [Hr Hb]; [auto|]. by rewrite Ho.
  - intros [Hr Hb]. assert (j ≠ f ∧ j ≠ g) as [? ?] by (split; intros ->; congruence). rewrite Ho in Hb by done.
    destruct (proj2 Hj (conj Hr Hb)) as [?|[?|?]]; done.
Qed.

(** A page given out: the two frames fewer are it and the table of 8 MB. *)
Definition sR (k : Z) : machine := state_of (vmm_get_new_page dir true false NULL (sQ (k + 2))).

Section given.
Context (k : Z) (Hk : 0 ≤ k ≤ 20).

Lemma sR_page : ∃ g f, mem_tlb (sQ (k + 2)) (sR k) ∧ ok (sR k) (<[2 := g]> kt) ∧
  new_page (sQ (k + 2)) dir (n + 1) (n + 2) (lget (sQ (k + 2))) (lget (sR k)) kt (<[2 := g]> kt) 2048 f 1 0 ∧ f ≠ g ∧
  0 ≤ g < total_bits (frame_bitmap (lget (sQ (k + 2)))) ∧ bit (lget (sQ (k + 2))) (frame_bitmap (lget (sQ (k + 2)))) g = false.
Proof using Hk.
  destruct (sQ_all (k + 2) ltac:(lia)) as (Hok & Hbm & Hu & _). destruct (boot_free _ Hok) as [H2048 Hlow].
  assert (low_free (sQ (k + 2)) (lget (sQ (k + 2))) 2) as Hl.
  { destruct (sQ_left (k + 2) ltac:(lia)) as (l & Hnd & Hlen & Hf). apply (low_free_le _ _ 2 (Z.to_nat (k + 2))); [lia|].
    exists l. split_and!; [done|done|]. intros f Hin. destruct (Hf f) as [Hi H2]. apply Hi in Hin as [Hr Hb]. split_and!; [lia|apply H2, Hi; done|lia|done]. }
  destruct (new_page_succeeds dir (n + 1) (n + 2) (sQ (k + 2)) kt true false Hok Hl (ex_intro _ 2048 H2048)) as (p & f & kt' & s' & R & Hm & Hok' & Hn).
  assert (sR k = s') as -> by (unfold sR; by rewrite R).
  destruct (np_lowest _ _ _ _ _ _ _ _ _ _ _ _ Hn) as [Hp Hb].
  assert (p = 2048) as -> by (destruct (Z.lt_trichotomy p 2048) as [?|[?|?]]; [by exfalso; apply (Hlow p)|done|by exfalso; apply (Hb 2048)]).
  destruct (np_entry _ _ _ _ _ _ _ _ _ _ _ _ Hn) as (T & HT & _). destruct (np_apart _ _ _ _ _ _ _ _ _ _ _ _ Hn) as (_ & Hfk & _).
  destruct (np_tables _ _ _ _ _ _ _ _ _ _ _ _ Hn) as [->|(_ & g & Hg & Hgb & ->)]; [by vm_compute in HT|].
  exists g, f. split_and!; try done; [|lia..]. intros ->. apply (Hfk 2). by rewrite lookup_insert_eq.
Qed.

Lemma sR_ok : ∃ kt', kernel_ok dir (n + 1) (n + 2) (sR k) kt' blocks0 ∧ frames_left (sR k) (lget (sR k)) (Z.to_nat k) ∧
  spare dir (lget (sR k)) kt' 3 ∧ ∀ a, 4096 ≤ a < 0x400000 → source_ok (sR k) dir (lget (sR k)) kt' a.
Proof using Hk.
  destruct sR_page as (g & f & Hm & Hok & Hn & Hfg & Hg & Hgb). pose proof (sQ_ok (k + 2) ltac:(lia)) as [Hv [Hbs Hch] _].
  pose proof (grows_new_page _ _ _ _ _ _ _ _ _ _ _ _ (vo_vi _ _ _ _ _ Hv) Hn) as G.
  assert (∀ a, 4096 ≤ a < 0x400000 → source_ok (sR k) dir (lget (sR k)) (<[2 := g]> kt) a ∧ get8 (lget (sR k)) a = get8 (lget (sQ (k + 2))) a) as Hsrc.
  { intros a Ha. destruct (gr_source _ _ _ _ _ _ _ _ _ _ _ G a (sQ_source (k + 2) ltac:(lia) a Ha)) as [Hs E]; [apply not_elem_of_nil|].
    split; [|done]. by apply (source_pmm dir (sQ (k + 2))); [apply mem_tlb_pmm|]. }
  exists (<[2 := g]> kt). split_and!; [constructor; [exact Hok| |]| | |by intros; apply Hsrc].
  - split; [done|]. rewrite (mem_tlb_heap _ _ Hm). eapply chain_ext_headers; [exact Hch|].
    intros x (b & [->|[]%not_elem_of_nil]%elem_of_cons & Hb). apply Hsrc. unfold in_header, HDR in Hb. cbn in Hb. lia.
  - intros b x [->|[]%not_elem_of_nil]%elem_of_cons Hb. apply Hsrc. unfold b_end, HDR in Hb. cbn in Hb. lia.
  - unfold frames_left. rewrite (mem_tlb_pmm _ _ Hm). destruct (sQ_left (k + 2) ltac:(lia)) as (l & Hnd & Hlen & Hl).
    destruct (np_fresh _ _ _ _ _ _ _ _ _ _ _ _ Hn) as (Hfr & Hfb & _). destruct (np_taken _ _ _ _ _ _ _ _ _ _ _ _ Hn) as (g' & _ & Ht).
    assert (bit (lget (sR k)) (frame_bitmap (lget (sQ (k + 2)))) g = true) as Hgu.
    { destruct (bit (lget (sR k)) (frame_bitmap (lget (sQ (k + 2)))) g) eqn:E; [done|]. destruct (vi_free _ _ _ _ _ _ (np_vi _ _ _ _ _ _ _ _ _ _ _ _ Hn) g Hg E) as (_ & _ & Hno & _).
      by destruct (Hno 2); rewrite lookup_insert_eq. }
    assert (g' = g) as -> by (destruct (decide (g' = g)); [done|rewrite Ht in Hgu by congruence; congruence]).
    pose proof (np_used _ _ _ _ _ _ _ _ _ _ _ _ Hn) as Hfu. eapply two_less; [exact Hnd|rewrite Hlen; lia|exact Hl|done|lia|done|lia|done|done|done|].
    intros j Hj Hjf Hjg. by apply Ht.
  - exists 2, (seqZ 2049 3). split_and!; [by rewrite lookup_insert_eq|intros q Hq (? & _); lia| |done|].
    + apply NoDup_seqZ.
    + assert (∀ p, 2049 ≤ p < 3000 → free_page dir (lget (sR k)) p) as Hfree.
      { intros p Hp. split_and!; [lia|lia|Z.div_mod_to_equations; lia|Z.div_mod_to_equations; lia|].
        rewrite (np_others _ _ _ _ _ _ _ _ _ _ _ _ Hn) by lia. apply (boot_page dir (n + 1) (n + 2)); [apply Hv|lia]. }
      intros p [Hp1 Hp2]%elem_of_seqZ. split; [apply Hfree; lia|Z.div_mod_to_equations; lia].
Qed.
End given.

(** The 30 bytes of the first process. *)
Abbreviation code := (0x108040).

Lemma vmm_create_drops_program_witness :
  ∃ kt' v D s', vmm_create_virtual_address_space code 30 true (sR 2) = Ok (v * 4096) s' ∧ v ≠ 0 ∧ ok s' kt' ∧
    page_frame (lget s') dir v = Some D ∧ (∀ f, managed (sR 2) f → frame_used s' f = true) ∧
    ∀ va, 0x800000 ≤ va < 4294967296 → translate (lget s') (D * 4096) va = None.
Proof.
  destruct (sR_ok 2 ltac:(lia)) as (kt' & Hok & Hl & Hsp & Hsrc). exists kt'.
  apply (vmm_create_drops_program dir (n + 1) (n + 2) (sR 2) kt' code 30 true); [apply Hok|exact Hl|by eapply spare_less|lia|lia|lia|].
  intros a Ha. apply Hsrc. lia.
Defined.

Lemma create_pcb_faults_witness :
  ∃ a e s', create_pcb code 30 true (sQ 0) = Stop (PageFault 0xC00) s' ∧
    kernel_ok dir (n + 1) (n + 2) s' kt [mkBlock heap0 40 false; mkBlock (heap0 + 52) 4032 true] ∧
    next_pid (lget s') = next_pid (lget (sQ 0)) ⊞ 1 ∧
    pcb_rep (lget s') (heap0 + HDR) (mkPcb (u32 (next_pid (lget (sQ 0)))) STATE_NEW 0 40 0 NULL a e) ∧
    ∀ f, managed (sQ 0) f → frame_used s' f = true.
Proof.
  apply (create_pcb_faults dir (n + 1) (n + 2) (sQ 0) kt blocks0 (heap0 + HDR) [mkBlock heap0 40 false; mkBlock (heap0 + 52) 4032 true] code 30 true 0);
    [apply sQ_ok; lia|reflexivity|apply (sQ_all 0); lia|apply (sQ_left 0); lia|lia|by left|lia|lia].
Defined.

Lemma create_pcb_gives_up_witness :
  ∃ kt' bs2 s', create_pcb code 30 true (sR 3) = Ok NULL s' ∧ ok s' kt' ∧ heap_rep s' bs2 ∧ live bs2 ≡ₚ [] ∧
    next_pid (lget s') = next_pid (lget (sR 3)) ⊞ 1 ∧ ∀ f, managed (sR 3) f → frame_used s' f = true.
Proof.
  destruct (sR_ok 3 ltac:(lia)) as (kt' & Hok & Hl & Hsp & Hsrc). exists kt'.
  apply (create_pcb_gives_up dir (n + 1) (n + 2) (sR 3) kt' blocks0 (heap0 + HDR) [mkBlock heap0 40 false; mkBlock (heap0 + 52) 4032 true] code 30 true 3);
    [exact Hok|reflexivity|exact Hl|lia|exact Hsp|lia|lia|lia|].
  intros a Ha. apply Hsrc. lia.
Defined.
End ExhaustExample.
